(* ===== verification/_CoqProject ===== *)
-Q . S2P
Prelude.v
Hardware.v
Containers.v
LinkedList.v
LinkedQueue.v
LinkedSet.v
KState.v
Memory.v
Pcb.v
Sched.v
Ipc.v
Pipe.v
Sync.v
Tty.v
Process.v
Fork.v
Loader.v
Traps.v
Clock.v
Delay.v
TtyInvariant.v
Boot.v
