(* ===== verification/Prelude.v ===== *)
(** * Yalnix kernel: a verification development

    Yalnix is a small Unix-like kernel in C ([src/src/]) on a simulated
    machine: two memory regions with page tables, a context switch, traps,
    terminals and a clock.  This library translates the kernel into Rocq
    functions and proves what each part does.

    ** The parts and how they interact

    - [Prelude]: outcomes of C code ([Ok], [Undef] for undefined behaviour,
      [Halted]), the state monad [M] the code is written in, loops, machine
      integers, arrays, weakest preconditions ([wp] total, [wlp] partial) and
      frame conditions ([preserves]).
    - [Hardware]: the machine and the framework the kernel is linked with, as
      a class of operations and laws (constants, user memory behind the page
      tables, frames, executables, process ids), and [DemoHardware], a concrete
      instance on which every witness is evaluated.
    - [Containers]: the abstract queue and set; [LinkedList], [LinkedQueue],
      [LinkedSet]: [queue.c] and [set.c] at pointer level, on an explicit heap
      of nodes, and their refinement to the abstract ones.  The kernel files
      use the abstract containers.
    - [KState]: [pcb.h], [lock.h], [cvar.h], [pipe.h], [tty_state.h] and the
      globals of [kernel.h] as one state [kst], and the primitive steps.  PCBs
      are shared by pointer, so they live in a store indexed by address;
      access to NULL or to a freed PCB is undefined.  The result of the n-th
      [malloc] is a parameter of the state, NULL included.
    - [Memory] ([kernel.c]): page tables and free frames at boot, the kernel
      break, address checks, freeing of pages.  [malloc] belongs to the
      framework and is the only caller of [SetKernelBrk]; while the free frame
      queue is built, which break the n-th [malloc] asks for is the parameter
      [hb] of [boot_malloc].
    - [Pcb] ([pcb.c]): creation, re-parenting, destruction of PCBs.
    - [Sched] ([kernel.c]): KCSwitch, KCCopy, enqueue_current_process,
      ScheduleNextProcess, from a running process and from none.  A kernel context with its stack is a continuation
      [kont]; [ScheduleNextProcess k] returns the continuation the CPU goes on
      with, and a handler that blocks passes the rest of itself as [k].
    - [Ipc], [Pipe] ([ipc_wrapper.c], [ipc.c]): locks, condition variables,
      pipes; [Sync] ([synchronization.c]): their system calls.
    - [Tty] ([tty_state.c], [input_output.c]): terminals and their system
      calls; [TtyInvariant]: the type of their state.
    - [Process], [Fork], [Loader] ([process_coordination.c], LoadProgram of
      [kernel.c]): exit, wait, brk, delay, getpid; fork; exec.
    - [Traps] ([traps.c]): the handlers, the vector, and [kernel_entry], which
      runs a trap from its handler to the return to user mode by resuming
      continuations ([resume]); [Clock]: the theorems about the clock;
      [Delay]: the delay system call from the trap to the wake-up.
    - [Boot] ([kernel.c]): KernelStart, with the making of the idle process.

    ** What the theorems show

    - Refinement: the linked list code implements the abstract queue and set;
      the scheduler implements round robin with context save and restore, also
      after an exit; the lock code implements an abstract lock.
    - Equivalence: the loop of the clock handler, which frees nodes of the
      list it walks (reading a freed one is undefined in the model), is the
      reference tick.
    - Invariants and safety: free frames are not mapped at boot, as long as
      the heap grows within the margin the code keeps, nor, with virtual memory
      on, as the kernel break, the user break and the user stack grow;
      destroying a process frees each frame once; IPC ids are unique; locks are granted in
      the order of requests.
    - Type: the terminal state keeps its shape under every operation.
    - Functional behaviour: exit and wait, fork, brk, memory traps with the kill
      of the process, reads and writes of pipes and terminals, KCCopy, with
      their error branches.
    - Liveness and termination: every ready process runs; a delay of n ticks
      lasts n clock traps, from the system call to the wake-up; a preempted process runs again with the context it
      was interrupted in; a clock trap returns to user mode.
    - Errors: theorems that pin down where the code does not do what it means
      to (reaping of zombies, lowering the break, reclaim, broadcast and
      signal, unchecked terminal ids, leaked frames, rolled back contexts,
      stranded pipe readers, frames duplicated by a break moved before virtual
      memory is on).

    ** Bounds and fuel

    Loops over lists recurse on the list; [for] loops run over the list of
    their indices.  Strings and argument vectors are read with the distance to
    the end of region 1 as fuel: beyond it nothing is mapped, so running out
    is an undefined access in C too.  [run_kernel] takes the number of
    continuations to resume as fuel; the theorems give a number that is enough
    (one for a clock trap).  Machine integers are [Z] with [wrap32] and
    [wrapu32] where the code converts or can overflow; sizes and page indices
    of the layout are bounded by the laws of [Hardware].

    ** Not modelled

    The growth of the heap after the free frame queue is built: from then on
    [malloc] is taken to find room below the break, and to answer NULL when it
    does not.  The contents of the TLB (flushes are recorded in [trace]); trace
    messages, except where they read through a pointer: a pointer of the user
    that is dereferenced for a message, the string [TrapKernelHandler] prints
    for exec, and the key [set_find] and [set_node_new] print as if it were a
    string ([Hardware.trace_string]; whether messages are printed and where
    strings are is up to [Hardware]); the user programs ([init.c],
    [tests/], the idle loop of [programs/idle.c]), which only call the
    framework's library; the build files.  [free] of a block without an owner
    that can still reach it has no effect in the model. *)

From stdpp Require Import base tactics numbers list gmap fin_maps option.
From Stdlib Require Import Strings.Byte.

#[global] Open Scope Z_scope.

(** ** Pointers and machine integers *)

(** A C pointer is its 32-bit address; [NULL] is address 0. *)
Abbreviation ptr := Z (only parsing).
Definition NULL : ptr := 0.

Definition INT_MAX : Z := 2147483647.
Definition INT_MIN : Z := -2147483648.

(** Conversion of a mathematical integer to [int] and to [unsigned int], as
    the 32-bit build of the kernel does it (two's complement). *)
Definition wrap32 (z : Z) : Z := (z + 2147483648) mod 4294967296 - 2147483648.
Definition wrapu32 (z : Z) : Z := z mod 4294967296.

(** C truth value of an integer. *)
Definition truthy (z : Z) : bool := negb (z =? 0).

Definition b2z (b : bool) : Z := if b then 1 else 0.

(** Pointer-like values that can be tested against [NULL]. *)
Class Nullable (A : Type) := is_null : A -> bool.
#[export] Instance ptr_nullable : Nullable Z := fun p => p =? NULL.

(** ** Programs: state, undefined behaviour, machine halt

    [Ok a s]: the code returns [a] in state [s].  [Undef]: the code performs
    an operation C leaves undefined (null or dangling dereference, double
    free, array index out of bounds, use of an uninitialised context).
    [Halted s]: the code called [Halt()]. *)

Inductive outcome (S A : Type) : Type :=
| Ok (a : A) (s : S)
| Undef
| Halted (s : S).
Arguments Ok {S A} a s.
Arguments Undef {S A}.
Arguments Halted {S A} s.

Definition M (S A : Type) : Type := S -> outcome S A.

Definition ret {S A} (a : A) : M S A := fun s => Ok a s.
Definition bind {S A B} (m : M S A) (f : A -> M S B) : M S B := fun s =>
  match m s with
  | Ok a s' => f a s'
  | Undef => Undef
  | Halted s' => Halted s'
  end.
Definition undef {S A} : M S A := fun _ => Undef.
Definition halt {S A} : M S A := fun s => Halted s.
Definition gets {S A} (f : S -> A) : M S A := fun s => Ok (f s) s.
Definition modify {S} (f : S -> S) : M S unit := fun s => Ok tt (f s).

Declare Scope cprog_scope.
Delimit Scope cprog_scope with cprog.
Notation "x <- m ;; k" := (bind m (fun x => k))
  (at level 100, m at next level, right associativity) : cprog_scope.
Notation "'do' ' p <- m ;; k" := (bind m (fun x => match x with p => k end))
  (at level 100, p pattern, m at next level, right associativity) : cprog_scope.
Notation "m1 ;;; m2" := (bind m1 (fun _ => m2))
  (at level 100, right associativity) : cprog_scope.
#[global] Open Scope cprog_scope.

(** A value that must be there: [None] is an undefined access. *)
Definition demand {S A} (o : option A) : M S A :=
  match o with Some a => ret a | None => undef end.

(** Loops with early return: the body gives [Some r] to return [r] at once,
    [None] to go on with the next element. *)
Fixpoint for_each {S A R} (l : list A) (body : A -> M S (option R)) : M S (option R) :=
  match l with
  | [] => ret None
  | x :: l' =>
      r <- body x ;;
      match r with
      | Some v => ret (Some v)
      | None => for_each l' body
      end
  end.

(** [lo; lo+1; ...; hi-1] and [hi; hi-1; ...; lo], the index sequences of the
    [for] loops. *)
Definition range_up (lo hi : Z) : list Z :=
  (fun k => lo + Z.of_nat k) <$> seq 0 (Z.to_nat (hi - lo)).
Definition range_down (hi lo : Z) : list Z :=
  (fun k => hi - Z.of_nat k) <$> seq 0 (Z.to_nat (hi - lo + 1)).

(** ** Arrays indexed by [int] *)
Definition arr_get {A} (l : list A) (i : Z) : option A :=
  if i <? 0 then None else l !! Z.to_nat i.
Definition arr_set {A} (l : list A) (i : Z) (x : A) : option (list A) :=
  if (0 <=? i) && (i <? Z.of_nat (length l)) then Some (<[Z.to_nat i := x]> l) else None.

#[export] Instance byte_eq_decision : EqDecision byte := byte_eq_dec.

(** ** Bytes of a 32-bit little-endian [int] *)
Definition byte_of_Z (z : Z) : byte :=
  match Byte.of_N (Z.to_N (z mod 256)) with Some b => b | None => x00 end.
Definition int_bytes (z : Z) : list byte :=
  [byte_of_Z z; byte_of_Z (z / 256); byte_of_Z (z / 65536); byte_of_Z (z / 16777216)].

(** ** Weakest preconditions

    [wpx U m Q s]: run from [s], [m] ends in [Q] if it returns, and [U] holds
    if it does not.  [wp] ([U] is [False]) is total: the code returns, without
    undefined behaviour; [wlp] ([U] is [True]) is partial correctness. *)
Definition wpx {S A} (U : Prop) (m : M S A) (Q : A -> S -> Prop) (s : S) : Prop :=
  match m s with Ok a s' => Q a s' | _ => U end.
#[global] Arguments wpx : simpl never.
Abbreviation wp := (wpx False).
Abbreviation wlp := (wpx True).

Section Wp.
Context {S : Type} {U : Prop}.

Lemma wp_bind {A B} (m : M S A) (f : A -> M S B) Q s :
  wpx U m (fun a s' => wpx U (f a) Q s') s -> wpx U (bind m f) Q s.
Proof. unfold wpx, bind. destruct (m s); done. Qed.

Lemma wp_ret {A} (a : A) (Q : A -> S -> Prop) s : Q a s -> wpx U (ret a) Q s.
Proof. done. Qed.

Lemma wp_gets {A} (f : S -> A) (Q : A -> S -> Prop) s : Q (f s) s -> wpx U (gets f) Q s.
Proof. done. Qed.

Lemma wp_modify (f : S -> S) (Q : unit -> S -> Prop) s : Q tt (f s) -> wpx U (modify f) Q s.
Proof. done. Qed.

Lemma wp_demand {A} (a : A) (o : option A) (Q : A -> S -> Prop) s :
  o = Some a -> Q a s -> wpx U (demand o) Q s.
Proof. by intros ->. Qed.

Lemma wp_mono {A} (m : M S A) (Q Q' : A -> S -> Prop) s :
  wpx U m Q s -> (forall a s', Q a s' -> Q' a s') -> wpx U m Q' s.
Proof. unfold wpx. destruct (m s); eauto. Qed.

Lemma wp_eq {A} (m : M S A) (Q : A -> S -> Prop) s a s' :
  m s = Ok a s' -> Q a s' -> wpx U m Q s.
Proof. unfold wpx. by intros ->. Qed.

Lemma wp_Ok {A} (m : M S A) Q s a s' : wpx U m Q s -> m s = Ok a s' -> Q a s'.
Proof. unfold wpx. intros H E. by rewrite E in H. Qed.

(** A loop, from an invariant on the elements still to do. *)
Lemma wp_for_each {A R} (l : list A) (body : A -> M S (option R))
  (I : list A -> S -> Prop) (Q : option R -> S -> Prop) s :
  I l s ->
  (forall x l' s0, I (x :: l') s0 ->
     wpx U (body x) (fun r s1 => match r with Some v => Q (Some v) s1 | None => I l' s1 end) s0) ->
  (forall s0, I [] s0 -> Q None s0) ->
  wpx U (for_each l body) Q s.
Proof.
  intros HI Hb HQ. revert s HI. induction l as [|x l IH]; intros s HI; simpl.
  - by apply wp_ret, HQ.
  - apply wp_bind. eapply wp_mono; [by apply Hb|].
    intros [v|] s'; [intros H; by apply wp_ret|apply IH].
Qed.
End Wp.

Lemma wlp_demand {S A} (o : option A) (Q : A -> S -> Prop) s :
  (forall a, o = Some a -> Q a s) -> wlp (demand o) Q s.
Proof. destruct o; unfold wpx, demand, ret, undef; eauto. Qed.

Lemma wp_bind_Ok {S A B} U (m : M S A) (f : A -> M S B) Q s a s' :
  m s = Ok a s' -> wpx U (f a) Q s' -> wpx U (bind m f) Q s.
Proof. unfold wpx, bind. by intros ->. Qed.

Lemma wp_returns {S A} (m : M S A) Q s : wp m Q s -> exists a s', m s = Ok a s' /\ Q a s'.
Proof. unfold wpx. destruct (m s); naive_solver. Qed.

Lemma wp_wlp {S A} (m : M S A) Q s : wp m Q s -> wlp m Q s.
Proof. unfold wpx. destruct (m s); done. Qed.

(** ** Frame conditions

    [preserves f m]: if [m] returns, the part [f] of the state is as before. *)
Definition preserves {S A T} (f : S -> T) (m : M S A) : Prop :=
  forall s, wlp m (fun _ s' => f s' = f s) s.

Section Preserves.
Context {S T : Type} (f : S -> T).

Lemma preserves_bind {A B} (m : M S A) (g : A -> M S B) :
  preserves f m -> (forall a, preserves f (g a)) -> preserves f (bind m g).
Proof.
  intros Hm Hg s. apply wp_bind. eapply wp_mono; [apply Hm|]. intros a s1 E.
  eapply wp_mono; [apply Hg|]. simpl. congruence.
Qed.

Lemma preserves_ret {A} (a : A) : preserves f (ret a).
Proof. done. Qed.

Lemma preserves_gets {A} (g : S -> A) : preserves f (gets g).
Proof. done. Qed.

Lemma preserves_undef {A} : preserves f (@undef S A).
Proof. done. Qed.

Lemma preserves_halt {A} : preserves f (@halt S A).
Proof. done. Qed.

Lemma preserves_demand {A} (o : option A) : preserves f (demand o).
Proof. by destruct o. Qed.

Lemma preserves_modify (g : S -> S) : (forall s, f (g s) = f s) -> preserves f (modify g).
Proof. intros H s. apply H. Qed.

Lemma preserves_for_each {A R} (l : list A) (body : A -> M S (option R)) :
  (forall x, preserves f (body x)) -> preserves f (for_each l body).
Proof.
  intros Hb s. apply (wp_for_each _ _ (fun _ s0 => f s0 = f s)); [done| |done].
  intros x l' s0 E. eapply wp_mono; [apply Hb|]. intros [v|] s1 E1; simpl in *; congruence.
Qed.

Lemma preserves_Ok {A} (m : M S A) s a s' : preserves f m -> m s = Ok a s' -> f s' = f s.
Proof. intros H E. exact (wp_Ok _ _ _ _ _ (H s) E). Qed.
End Preserves.

Section Run.
Context {S : Type}.

Lemma bind_Ok {A B} (m : M S A) (f : A -> M S B) s a s' :
  m s = Ok a s' -> bind m f s = f a s'.
Proof. unfold bind. by intros ->. Qed.

Lemma bind_Ok_inv {A B} (m : M S A) (f : A -> M S B) s b s'' :
  bind m f s = Ok b s'' -> exists a s', m s = Ok a s' /\ f a s' = Ok b s''.
Proof. unfold bind. destruct (m s); naive_solver. Qed.

Lemma bind_assoc {A B C} (m : M S A) (f : A -> M S B) (g : B -> M S C) s :
  bind (bind m f) g s = bind m (fun a => bind (f a) g) s.
Proof. unfold bind. by destruct (m s). Qed.
End Run.

(** ** Generic facts *)

Lemma range_up_cons lo hi : lo < hi -> range_up lo hi = lo :: range_up (lo + 1) hi.
Proof.
  intros H. unfold range_up.
  replace (Z.to_nat (hi - lo)) with (S (Z.to_nat (hi - (lo + 1)))) by lia.
  cbn [seq]. rewrite fmap_cons. f_equal; [lia|].
  rewrite <- seq_shift. rewrite <- list_fmap_compose.
  apply list_fmap_ext. intros i x _. simpl. lia.
Qed.

Lemma range_up_nil lo hi : hi <= lo -> range_up lo hi = [].
Proof. intros H. unfold range_up. by replace (Z.to_nat (hi - lo)) with 0%nat by lia. Qed.

Lemma elem_of_range_up x lo hi : x ∈ range_up lo hi <-> lo <= x < hi.
Proof.
  unfold range_up. rewrite list_elem_of_fmap. split.
  - intros (k & -> & Hk%elem_of_seq). lia.
  - intros H. exists (Z.to_nat (x - lo)). split; [lia|]. apply elem_of_seq. lia.
Qed.

Lemma range_down_cons hi lo : lo <= hi -> range_down hi lo = hi :: range_down (hi - 1) lo.
Proof.
  intros H. unfold range_down.
  replace (Z.to_nat (hi - lo + 1)) with (S (Z.to_nat (hi - 1 - lo + 1))) by lia.
  cbn [seq]. rewrite fmap_cons. f_equal; [lia|].
  rewrite <- seq_shift. rewrite <- list_fmap_compose.
  apply list_fmap_ext. intros i x _. simpl. lia.
Qed.

Lemma range_down_nil hi lo : hi < lo -> range_down hi lo = [].
Proof. intros H. unfold range_down. by replace (Z.to_nat (hi - lo + 1)) with 0%nat by lia. Qed.

(** [for (i = lo; i < hi; i++)] and [for (i = hi; i >= lo; i--)], from an
    invariant on the index. *)
Lemma wp_range_up {S R U} lo hi (body : Z -> M S (option R)) (I : Z -> S -> Prop)
  (Q : option R -> S -> Prop) s :
  I lo s ->
  (forall i s0, lo <= i < hi -> I i s0 ->
     wpx U (body i) (fun r s1 => match r with Some v => Q (Some v) s1 | None => I (i + 1) s1 end) s0) ->
  (forall s0, I (Z.max lo hi) s0 -> Q None s0) ->
  wpx U (for_each (range_up lo hi) body) Q s.
Proof.
  intros HI Hb HQ.
  apply (wp_for_each _ _ (fun l s0 => exists i, lo <= i <= Z.max lo hi /\ l = range_up i hi /\ I i s0)).
  - exists lo. split_and!; [lia|lia|done|done].
  - intros x l' s0 (i & Hi & El & HIi). destruct (Z.lt_ge_cases i hi).
    + rewrite range_up_cons in El by done. injection El as -> ->.
      eapply wp_mono; [apply Hb; [lia|done]|]. intros [v|] s1; [done|]. intros HI1.
      exists (i + 1). split_and!; [lia|lia|done|done].
    + by rewrite range_up_nil in El.
  - intros s0 (i & Hi & El & HIi). destruct (Z.lt_ge_cases i hi).
    + by rewrite range_up_cons in El.
    + apply HQ. by replace (Z.max lo hi) with i by lia.
Qed.

Lemma wp_range_down {S R U} hi lo (body : Z -> M S (option R)) (I : Z -> S -> Prop)
  (Q : option R -> S -> Prop) s :
  I hi s ->
  (forall i s0, lo <= i <= hi -> I i s0 ->
     wpx U (body i) (fun r s1 => match r with Some v => Q (Some v) s1 | None => I (i - 1) s1 end) s0) ->
  (forall s0, I (Z.min hi (lo - 1)) s0 -> Q None s0) ->
  wpx U (for_each (range_down hi lo) body) Q s.
Proof.
  intros HI Hb HQ.
  apply (wp_for_each _ _ (fun l s0 => exists i, Z.min hi (lo - 1) <= i <= hi /\
                                                 l = range_down i lo /\ I i s0)).
  - exists hi. split_and!; [lia|lia|done|done].
  - intros x l' s0 (i & Hi & El & HIi). destruct (Z.le_gt_cases lo i).
    + rewrite range_down_cons in El by done. injection El as -> ->.
      eapply wp_mono; [apply Hb; [lia|done]|]. intros [v|] s1; [done|]. intros HI1.
      exists (i - 1). split_and!; [lia|lia|done|done].
    + by rewrite range_down_nil in El by lia.
  - intros s0 (i & Hi & El & HIi). destruct (Z.le_gt_cases lo i).
    + by rewrite range_down_cons in El.
    + apply HQ. by replace (Z.min hi (lo - 1)) with i by lia.
Qed.

Lemma wrap32_id z : INT_MIN <= z <= INT_MAX -> wrap32 z = z.
Proof. unfold wrap32, INT_MIN, INT_MAX. intros H. rewrite Z.mod_small; lia. Qed.

Lemma wrap32_range z : INT_MIN <= wrap32 z <= INT_MAX.
Proof.
  unfold wrap32, INT_MIN, INT_MAX.
  pose proof (Z.mod_pos_bound (z + 2147483648) 4294967296). lia.
Qed.

Lemma arr_get_Some {A} (l : list A) i x :
  arr_get l i = Some x <-> 0 <= i /\ l !! Z.to_nat i = Some x.
Proof.
  unfold arr_get. destruct (Z.ltb_spec i 0); [|naive_solver lia].
  split; [done|lia].
Qed.

Lemma arr_get_lt {A} (l : list A) i x : arr_get l i = Some x -> 0 <= i < Z.of_nat (length l).
Proof. intros [H1 H2%lookup_lt_Some]%arr_get_Some. lia. Qed.

Lemma arr_get_is_Some {A} (l : list A) i :
  is_Some (arr_get l i) <-> 0 <= i < Z.of_nat (length l).
Proof.
  split; [intros [x Hx]; by eapply arr_get_lt|].
  intros H. unfold arr_get. destruct (Z.ltb_spec i 0); [lia|].
  apply lookup_lt_is_Some. lia.
Qed.

Lemma arr_get_None {A} (l : list A) i :
  i < 0 \/ Z.of_nat (length l) <= i -> arr_get l i = None.
Proof.
  intros H. unfold arr_get. destruct (Z.ltb_spec i 0); [done|].
  apply lookup_ge_None. lia.
Qed.

Lemma arr_set_Some {A} (l : list A) i x :
  0 <= i < Z.of_nat (length l) -> arr_set l i x = Some (<[Z.to_nat i := x]> l).
Proof.
  intros H. unfold arr_set.
  destruct (Z.leb_spec 0 i), (Z.ltb_spec i (Z.of_nat (length l))); done || lia.
Qed.

Lemma arr_set_inv {A} (l l' : list A) i x :
  arr_set l i x = Some l' -> 0 <= i < Z.of_nat (length l) /\ l' = <[Z.to_nat i := x]> l.
Proof.
  unfold arr_set.
  destruct (Z.leb_spec 0 i), (Z.ltb_spec i (Z.of_nat (length l))); naive_solver lia.
Qed.

Lemma arr_get_insert_eq {A} (l : list A) i x :
  0 <= i < Z.of_nat (length l) -> arr_get (<[Z.to_nat i := x]> l) i = Some x.
Proof. intros Hi. apply arr_get_Some. split; [lia|]. apply list_lookup_insert_eq. lia. Qed.

Lemma arr_get_insert_ne {A} (l : list A) i j x :
  0 <= i -> j <> i -> arr_get (<[Z.to_nat i := x]> l) j = arr_get l j.
Proof.
  intros Hi Hj. unfold arr_get. destruct (Z.ltb_spec j 0); [done|].
  by rewrite list_lookup_insert_ne by lia.
Qed.

Lemma length_int_bytes z : length (int_bytes z) = 4%nat.
Proof. done. Qed.

#[global] Opaque wrap32.

(** ** Automation *)

Create HintDb yalnix.
Create Rewrite HintDb yalnix.
#[export] Hint Rewrite @length_app @length_fmap @length_insert @length_drop @length_take
  @length_replicate : yalnix.
#[export] Hint Resolve wrap32_range : yalnix.

(** Destruct the scrutinee of the first match or conditional of a hypothesis. *)
Ltac case_match_in H :=
  lazymatch type of H with
  | context [match ?x with _ => _ end] => destruct x eqn:?
  end.

(** Decompose an execution [m s = Ok a s'] of a sequence of statements. *)
Ltac inv_bind H :=
  let a := fresh "a" in let s := fresh "st" in
  let H1 := fresh "Hm" in
  apply bind_Ok_inv in H as (a & s & H1 & H).

(** Boolean integer comparisons to propositions. *)
Ltac zbool :=
  repeat match goal with
  | H : (_ =? _) = true |- _ => apply Z.eqb_eq in H
  | H : (_ =? _) = false |- _ => apply Z.eqb_neq in H
  | H : (_ <? _) = true |- _ => apply Z.ltb_lt in H
  | H : (_ <? _) = false |- _ => apply Z.ltb_ge in H
  | H : (_ <=? _) = true |- _ => apply Z.leb_le in H
  | H : (_ <=? _) = false |- _ => apply Z.leb_gt in H
  | H : (_ >? _) = _ |- _ => rewrite Z.gtb_ltb in H
  | H : (_ >=? _) = _ |- _ => rewrite Z.geb_leb in H
  | H : _ && _ = true |- _ => apply andb_true_iff in H as [? ?]
  | H : _ || _ = false |- _ => apply orb_false_iff in H as [? ?]
  end.

(** One step of a weakest-precondition proof. *)
Ltac wp_step :=
  lazymatch goal with
  | |- wpx _ (bind _ _) _ _ => apply wp_bind
  | |- wpx _ (ret _) _ _ => apply wp_ret
  | |- wpx _ (gets _) _ _ => apply wp_gets
  | |- wpx _ (modify _) _ _ => apply wp_modify
  | |- wpx _ (demand (Some _)) _ _ => eapply wp_demand; [reflexivity|]
  | |- wpx True (demand _) _ _ => apply wlp_demand; intros ? ?
  | |- wpx True undef _ _ => exact I
  | |- wpx _ (if ?b then _ else _) _ _ => destruct b eqn:?
  | |- wpx _ (match ?x with _ => _ end) _ _ => destruct x eqn:?
  end; cbv beta.
Ltac wp_steps := repeat wp_step.

(** One step of a frame proof; [modify] is left when the part is not
    syntactically untouched. *)
Ltac preserve_step :=
  lazymatch goal with
  | |- preserves _ (bind _ _) => apply preserves_bind; [|intros ?]
  | |- preserves _ (ret _) => apply preserves_ret
  | |- preserves _ (gets _) => apply preserves_gets
  | |- preserves _ undef => apply preserves_undef
  | |- preserves _ halt => apply preserves_halt
  | |- preserves _ (demand _) => apply preserves_demand
  | |- preserves _ (modify _) => apply preserves_modify; intros ?; reflexivity
  | |- preserves _ (for_each _ _) => apply preserves_for_each; intros ?
  | |- preserves _ (if ?b then _ else _) => destruct b
  | |- preserves _ (match ?x with _ => _ end) => destruct x
  end; cbv beta.
Ltac preserve := repeat preserve_step.
