(* ===== verification/Hardware.v ===== *)
(** * The machine and the framework the kernel is written against

    [yalnix.h], [hardware.h], [ykernel.h], [ylib.h] and the libraries behind
    them belong to the yalnix framework, not to this repository.  What the
    kernel uses of them is the class [Hardware]: constants, the page rounding
    macros, user memory behind the MMU, and the process-id helpers, with the
    laws the kernel relies on.  Every other file is parameterised by an
    instance; [DemoHardware] is a small concrete instance on which witnesses
    are evaluated. *)

From S2P Require Import Prelude.
From stdpp Require Import list gmap.
From Stdlib Require Import Strings.Byte.

#[local] Open Scope Z_scope.

(** A page table entry ([pte_t]). *)
Record pte := mk_pte { pte_valid : bool; pte_prot : Z; pte_pfn : Z }.

#[export] Instance pte_eq_dec : EqDecision pte.
Proof. solve_decision. Defined.

(** The fields of [UserContext] the kernel uses. *)
Record UserContext := mk_uctx {
  uc_code : Z; uc_addr : Z; uc_pc : Z; uc_sp : Z; uc_regs : list Z }.

(** [struct load_info] ([load_info.h]): entry point, text, data and bss of an
    executable. *)
Record load_info := mk_load_info {
  li_entry : Z;
  li_t_vaddr : Z; li_t_npg : Z; li_t_faddr : Z;
  li_id_vaddr : Z; li_id_npg : Z; li_id_faddr : Z; li_id_end : Z;
  li_ud_npg : Z; li_ud_end : Z }.

(** Values written to [REG_TLB_FLUSH]. *)
Inductive tlb_flush := TLB_FLUSH_ALL | TLB_FLUSH_0 | TLB_FLUSH_1.

(** What the kernel does to the outside, in order. *)
Inductive io_event :=
| IoTlbFlush (f : tlb_flush)
| IoTtyTransmit (tty : Z) (bytes : list byte)
| IoVectorBase (table : ptr).

(** The entry of a page, region 0 first, then region 1, with [n] pages in a
    region. *)
Definition page_entry (n : Z) (r0 r1 : list pte) (page : Z) : option pte :=
  if page <? n then arr_get r0 page else arr_get r1 (page - n).

Class Hardware := {
  (* return codes *)
  ERROR : Z;
  KILL : Z;
  (* memory layout *)
  PAGESIZE : Z;
  VMEM_REGION_SIZE : Z;
  VMEM_0_LIMIT : Z;
  VMEM_1_BASE : Z;
  VMEM_1_LIMIT : Z;
  KERNEL_STACK_BASE : Z;
  KERNEL_STACK_LIMIT : Z;
  KERNEL_STACK_MAXSIZE : Z;
  DOWN_TO_PAGE : Z -> Z;
  UP_TO_PAGE : Z -> Z;
  PAGESHIFT : Z;
  PROT_READ : Z;
  PROT_WRITE : Z;
  PROT_EXEC : Z;
  first_kernel_text_page : Z;
  first_kernel_data_page : Z;
  orig_kernel_brk_page : Z;
  (* loading of programs *)
  MAX_PT_LEN : Z;
  INITIAL_STACK_FRAME_SIZE : Z;
  POST_ARGV_NULL_SPACE : Z;
  exe_file : Type;                             (* an open executable *)
  fs_exists : list byte -> bool;               (* access(name, F_OK) *)
  fs_executable : list byte -> bool;           (* access(name, X_OK) *)
  fs_open : list byte -> option exe_file;
  exe_info : exe_file -> option load_info;     (* LoadInfo *)
  exe_read : exe_file -> Z -> Z -> list byte;  (* lseek and read: offset, length *)
  (* terminals and pipes *)
  NUM_TERMINALS : Z;
  TERMINAL_MAX_LINE : Z;
  PIPE_BUFFER_LEN : Z;
  (* system call codes *)
  YALNIX_FORK : Z; YALNIX_EXEC : Z; YALNIX_EXIT : Z; YALNIX_WAIT : Z;
  YALNIX_GETPID : Z; YALNIX_BRK : Z; YALNIX_DELAY : Z;
  YALNIX_TTY_READ : Z; YALNIX_TTY_WRITE : Z;
  YALNIX_PIPE_INIT : Z; YALNIX_PIPE_READ : Z; YALNIX_PIPE_WRITE : Z;
  YALNIX_LOCK_INIT : Z; YALNIX_LOCK_ACQUIRE : Z; YALNIX_LOCK_RELEASE : Z;
  YALNIX_CVAR_INIT : Z; YALNIX_CVAR_SIGNAL : Z; YALNIX_CVAR_BROADCAST : Z;
  YALNIX_CVAR_WAIT : Z; YALNIX_RECLAIM : Z;
  (* contents of freshly allocated, uninitialised memory *)
  uninit_int : Z;
  uninit_pte : pte;
  uninit_byte : byte;
  (* [TracePrintf]: whether messages of level 1 are printed, and the addresses
     at which the kernel can read a string when [%s] is printed *)
  trace_level_1 : bool;
  kernel_string : Z -> bool;
  (* memory as the CPU sees it through the region 0 and region 1 page tables:
     [None] when an address of the range is not mapped *)
  hw_mem : Type;
  hw_load : hw_mem -> list pte -> list pte -> Z -> nat -> option (list byte);
  hw_store : hw_mem -> list pte -> list pte -> Z -> list byte -> option hw_mem;
  hw_frame : hw_mem -> Z -> list byte;  (* contents of a physical frame *)
  (* process-id helpers of the kernel library *)
  pid_state : Type;
  pid_in_use : pid_state -> Z -> bool;
  helper_new_pid : pid_state -> Z * pid_state;
  helper_retire_pid : pid_state -> Z -> pid_state;

  (* laws *)
  hw_error : ERROR = -1;
  hw_kill : KILL <> ERROR /\ KILL <> 0;
  hw_pagesize : 0 < PAGESIZE;
  hw_pageshift : 0 <= PAGESHIFT /\ PAGESIZE = 2 ^ PAGESHIFT;
  hw_exe_read : forall f off n, Z.of_nat (length (exe_read f off n)) <= Z.max 0 n;
  hw_pages : 0 < VMEM_REGION_SIZE / PAGESIZE /\
             VMEM_REGION_SIZE = VMEM_REGION_SIZE / PAGESIZE * PAGESIZE;
  hw_layout : VMEM_0_LIMIT = VMEM_REGION_SIZE /\ VMEM_1_BASE = VMEM_REGION_SIZE /\
              VMEM_1_LIMIT = 2 * VMEM_REGION_SIZE /\ VMEM_1_LIMIT <= INT_MAX;
  hw_kstack : KERNEL_STACK_LIMIT = VMEM_0_LIMIT /\
              KERNEL_STACK_BASE = KERNEL_STACK_LIMIT - KERNEL_STACK_MAXSIZE /\
              KERNEL_STACK_MAXSIZE = 2 * PAGESIZE /\
              4 * PAGESIZE <= VMEM_REGION_SIZE;
  hw_down_to_page : forall a, 0 <= a -> DOWN_TO_PAGE a = a / PAGESIZE * PAGESIZE;
  hw_up_to_page : forall a, 0 <= a -> UP_TO_PAGE a = (a + PAGESIZE - 1) / PAGESIZE * PAGESIZE;
  hw_kernel_pages : 0 <= first_kernel_text_page <= first_kernel_data_page /\
                    first_kernel_data_page <= orig_kernel_brk_page /\
                    orig_kernel_brk_page <= KERNEL_STACK_BASE / PAGESIZE;
  hw_terminals : 0 < NUM_TERMINALS /\ 0 < TERMINAL_MAX_LINE <= INT_MAX;
  hw_pipe : 0 < PIPE_BUFFER_LEN <= INT_MAX;
  hw_syscalls : NoDup [YALNIX_FORK; YALNIX_EXEC; YALNIX_EXIT; YALNIX_WAIT;
    YALNIX_GETPID; YALNIX_BRK; YALNIX_DELAY; YALNIX_TTY_READ; YALNIX_TTY_WRITE;
    YALNIX_PIPE_INIT; YALNIX_PIPE_READ; YALNIX_PIPE_WRITE; YALNIX_LOCK_INIT;
    YALNIX_LOCK_ACQUIRE; YALNIX_LOCK_RELEASE; YALNIX_CVAR_INIT; YALNIX_CVAR_SIGNAL;
    YALNIX_CVAR_BROADCAST; YALNIX_CVAR_WAIT; YALNIX_RECLAIM];
  hw_load_length : forall m r0 r1 a n bs,
    hw_load m r0 r1 a n = Some bs -> length bs = n;
  hw_load_store : forall m r0 r1 a bs m',
    hw_store m r0 r1 a bs = Some m' -> hw_load m' r0 r1 a (length bs) = Some bs;
  hw_frame_length : forall m f, length (hw_frame m f) = Z.to_nat PAGESIZE;
  (* reading and writing whole pages that are mapped and allow it *)
  hw_load_pages : forall m r0 r1 p es,
    (forall i e, es !! i = Some e ->
       page_entry (VMEM_REGION_SIZE / PAGESIZE) r0 r1 (p + Z.of_nat i) = Some e /\
       pte_valid e = true /\ Z.land (pte_prot e) PROT_READ = PROT_READ) ->
    hw_load m r0 r1 (p * PAGESIZE) (length es * Z.to_nat PAGESIZE) =
      Some (concat ((fun e => hw_frame m (pte_pfn e)) <$> es));
  hw_store_pages : forall m r0 r1 p es bs,
    (forall i e, es !! i = Some e ->
       page_entry (VMEM_REGION_SIZE / PAGESIZE) r0 r1 (p + Z.of_nat i) = Some e /\
       pte_valid e = true /\ Z.land (pte_prot e) PROT_WRITE = PROT_WRITE) ->
    NoDup (pte_pfn <$> es) -> length bs = (length es * Z.to_nat PAGESIZE)%nat ->
    exists m', hw_store m r0 r1 (p * PAGESIZE) bs = Some m' /\
      concat ((fun e => hw_frame m' (pte_pfn e)) <$> es) = bs /\
      forall f, f ∉ pte_pfn <$> es -> hw_frame m' f = hw_frame m f;
  hw_prots : PROT_READ <> 0 /\ PROT_WRITE <> 0;
  hw_new_pid : forall ps,
    let (pid, ps') := helper_new_pid ps in
    0 <= pid /\ pid_in_use ps pid = false /\
    (forall q, pid_in_use ps' q = (q =? pid) || pid_in_use ps q)
}.

Section Layout.
Context {hw : Hardware}.

(** [kernel.h]: number of pages in a region. *)
Definition NUM_PAGES : Z := VMEM_REGION_SIZE / PAGESIZE.

(** [pcb.h]: number of frames of a kernel stack. *)
Definition NUM_KSTACK_FRAMES : Z := KERNEL_STACK_MAXSIZE / PAGESIZE.

Lemma NUM_KSTACK_FRAMES_2 : NUM_KSTACK_FRAMES = 2.
Proof.
  unfold NUM_KSTACK_FRAMES. destruct hw_kstack as (_ & _ & -> & _).
  pose proof hw_pagesize. by rewrite Z.div_mul by lia.
Qed.

Lemma NUM_PAGES_size : VMEM_REGION_SIZE = NUM_PAGES * PAGESIZE.
Proof. apply hw_pages. Qed.

Lemma NUM_PAGES_ge_4 : 4 <= NUM_PAGES.
Proof.
  destruct hw_kstack as (_ & _ & _ & H). pose proof hw_pagesize.
  rewrite NUM_PAGES_size in H. nia.
Qed.

Lemma kstack_page : KERNEL_STACK_BASE / PAGESIZE = NUM_PAGES - 2.
Proof.
  destruct hw_kstack as (E1 & E2 & E3 & _). destruct hw_layout as (E4 & _).
  rewrite E2, E1, E4, E3, NUM_PAGES_size. pose proof hw_pagesize.
  replace (NUM_PAGES * PAGESIZE - 2 * PAGESIZE) with ((NUM_PAGES - 2) * PAGESIZE) by lia.
  apply Z.div_mul. lia.
Qed.

Lemma kstack_limit_page : KERNEL_STACK_LIMIT / PAGESIZE = NUM_PAGES.
Proof.
  destruct hw_kstack as (E1 & _). destruct hw_layout as (E4 & _).
  rewrite E1, E4. done.
Qed.

Lemma down_page_index a : 0 <= a -> DOWN_TO_PAGE a / PAGESIZE = a / PAGESIZE.
Proof.
  intros H. rewrite hw_down_to_page by done. pose proof hw_pagesize.
  apply Z.div_mul. lia.
Qed.

Lemma ERROR_neg : ERROR < 0.
Proof. rewrite hw_error. lia. Qed.
End Layout.

(** [TracePrintf(1, ".. %s ..", a)] can be executed. *)
Definition string_ok {hw : Hardware} (a : Z) : bool := negb trace_level_1 || kernel_string a.
Definition trace_string {hw : Hardware} {S} (a : Z) : M S unit := if string_ok a then ret tt else undef.

(** ** A concrete machine for witnesses

    128 pages of 16 bytes per region, two terminals, 16-byte lines and
    8-byte pipes; memory is a map from physical addresses to bytes behind the
    two page tables, and process ids are handed out in increasing order. *)
Module DemoHardware.
Definition page_of (r0 r1 : list pte) (a : Z) : option pte :=
  if a <? 2048 then arr_get r0 (a / 16) else arr_get r1 (a / 16 - 128).

Definition translate (r0 r1 : list pte) (a : Z) : option Z :=
  match page_of r0 r1 a with
  | Some e => if pte_valid e then Some (pte_pfn e * 16 + a mod 16) else None
  | None => None
  end.

Fixpoint load (m : gmap Z byte) (r0 r1 : list pte) (a : Z) (n : nat) : option (list byte) :=
  match n with
  | O => Some []
  | S n' =>
      match translate r0 r1 a, load m r0 r1 (a + 1) n' with
      | Some p, Some bs => Some (default x00 (m !! p) :: bs)
      | _, _ => None
      end
  end.

Fixpoint put (m : gmap Z byte) (r0 r1 : list pte) (a : Z) (bs : list byte)
  : option (gmap Z byte) :=
  match bs with
  | [] => Some m
  | b :: bs' =>
      match translate r0 r1 a, put m r0 r1 (a + 1) bs' with
      | Some p, Some m' => Some (<[p := b]> m')
      | _, _ => None
      end
  end.

(** Stores through a range that maps one frame twice are refused. *)
Definition store (m : gmap Z byte) (r0 r1 : list pte) (a : Z) (bs : list byte)
  : option (gmap Z byte) :=
  match put m r0 r1 a bs with
  | Some m' => if decide (load m' r0 r1 a (length bs) = Some bs) then Some m' else None
  | None => None
  end.

Lemma load_length m r0 r1 a n bs : load m r0 r1 a n = Some bs -> length bs = n.
Proof.
  revert a bs. induction n as [|n IH]; intros a bs; simpl; [naive_solver|].
  destruct (translate r0 r1 a); [|done].
  destruct (load m r0 r1 (a + 1) n) eqn:E; [|done].
  intros [= <-]. simpl. f_equal. eauto.
Qed.

Lemma new_pid_fresh (ps : list Z) :
  0 <= foldr Z.max (-1) ps + 1 /\
  existsb (Z.eqb (foldr Z.max (-1) ps + 1)) ps = false.
Proof.
  assert (Hm : forall q, q ∈ ps -> q <= foldr Z.max (-1) ps).
  { induction ps as [|x ps IH]; intros q; [by intros ?%not_elem_of_nil|].
    intros [->|H]%elem_of_cons; simpl; [lia|]. specialize (IH q H). lia. }
  split; [clear Hm; induction ps; simpl in *; lia|].
  apply not_true_iff_false. rewrite existsb_exists.
  intros (q & Hq%list_elem_of_In%Hm & E%Z.eqb_eq). lia.
Qed.

(** One executable: two pages of text at page 1 of region 1, one page of
    data. *)
Definition demo_name : list byte := [x69].
Definition demo_exe : load_info * list byte :=
  (mk_load_info 2064 2064 2 0 2096 1 32 2112 0 2112, replicate 48 x90).

Definition frame (m : gmap Z byte) (f : Z) : list byte :=
  (fun j => default x00 (m !! (f * 16 + j))) <$> seqZ 0 16.

(** [ads] are the physical addresses of the range that starts at [a]. *)
Definition covers (r0 r1 : list pte) (a : Z) (ads : list Z) : Prop :=
  forall i x, ads !! i = Some x -> translate r0 r1 (a + Z.of_nat i) = Some x.

Definition page_addrs (e : pte) : list Z := (fun j => pte_pfn e * 16 + j) <$> seqZ 0 16.

Lemma covers_cons r0 r1 a x ads :
  covers r0 r1 a (x :: ads) -> translate r0 r1 a = Some x /\ covers r0 r1 (a + 1) ads.
Proof.
  intros H. split; [rewrite <- (Z.add_0_r a); exact (H 0%nat x eq_refl)|].
  intros i y Hy. rewrite <- (H (S i) y Hy). f_equal. lia.
Qed.

Lemma covers_app r0 r1 a l1 l2 :
  covers r0 r1 a l1 -> covers r0 r1 (a + Z.of_nat (length l1)) l2 -> covers r0 r1 a (l1 ++ l2).
Proof.
  intros H1 H2 i x [Hi|[Hlen Hi]]%lookup_app_Some; [by apply H1|].
  rewrite <- (H2 _ _ Hi). f_equal. lia.
Qed.

Lemma load_covers m r0 r1 a ads :
  covers r0 r1 a ads -> load m r0 r1 a (length ads) = Some ((fun x => default x00 (m !! x)) <$> ads).
Proof.
  revert a. induction ads as [|x ads IH]; intros a H; [done|].
  apply covers_cons in H as [H1 H2]. simpl. by rewrite H1, IH.
Qed.

Lemma put_covers m r0 r1 a ads bs :
  covers r0 r1 a ads -> length bs = length ads -> NoDup ads ->
  exists m', put m r0 r1 a bs = Some m' /\ (fun x => default x00 (m' !! x)) <$> ads = bs /\
    forall x, x ∉ ads -> m' !! x = m !! x.
Proof.
  revert a bs. induction ads as [|x ads IH]; intros a [|b bs] H Hl Hnd; try done; [by exists m|].
  apply covers_cons in H as [H1 H2]. apply NoDup_cons in Hnd as [Hx Hnd].
  destruct (IH (a + 1) bs H2) as (m' & E & Hm & Ho); [by injection Hl|done|].
  exists (<[x := b]> m'). simpl. rewrite H1, E. split; [done|]. split.
  - rewrite lookup_insert_eq. simpl. f_equal. transitivity ((fun x => default x00 (m' !! x)) <$> ads); [|exact Hm]. apply list_fmap_ext.
    intros i y Hy. rewrite lookup_insert_ne; [done|].
    intros ->. apply Hx. by eapply list_elem_of_lookup_2.
  - intros y Hy. rewrite lookup_insert_ne by set_solver. apply Ho. set_solver.
Qed.

Lemma page_covers r0 r1 p e :
  page_entry 128 r0 r1 p = Some e -> pte_valid e = true -> covers r0 r1 (p * 16) (page_addrs e).
Proof.
  intros He Hv i x Hx. unfold page_addrs in Hx. rewrite list_lookup_fmap in Hx.
  apply fmap_Some in Hx as (j & Hj & ->). apply lookup_seqZ in Hj as [-> Hi].
  unfold translate, page_of, page_entry in *.
  assert (Hq : (p * 16 + Z.of_nat i) / 16 = p) by (symmetry; apply Z.div_unique with (Z.of_nat i); lia).
  assert (Hr : (p * 16 + Z.of_nat i) mod 16 = Z.of_nat i)
    by (symmetry; apply Z.mod_unique with p; lia).
  rewrite Hq, Hr. destruct (Z.ltb_spec p 128), (Z.ltb_spec (p * 16 + Z.of_nat i) 2048); try lia;
    by rewrite He, Hv.
Qed.

Lemma pages_cover r0 r1 p es :
  (forall i e, es !! i = Some e -> page_entry 128 r0 r1 (p + Z.of_nat i) = Some e /\ pte_valid e = true) ->
  covers r0 r1 (p * 16) (concat (page_addrs <$> es)).
Proof.
  revert p. induction es as [|e es IH]; intros p H; [by intros i x|]. rewrite fmap_cons. cbn [concat]. apply covers_app.
  - destruct (H 0%nat e eq_refl) as [He Hv]. rewrite Z.add_0_r in He. by apply page_covers.
  - change (length (page_addrs e)) with 16%nat. replace (p * 16 + Z.of_nat 16) with ((p + 1) * 16) by lia.
    apply IH. intros i e' He'. replace (p + 1 + Z.of_nat i) with (p + Z.of_nat (S i)) by lia.
    exact (H (S i) e' He').
Qed.

Lemma elem_of_pages x es : x ∈ concat (page_addrs <$> es) -> x / 16 ∈ pte_pfn <$> es.
Proof.
  induction es as [|e es IH]; [by intros ?%not_elem_of_nil|]. rewrite !fmap_cons. cbn [concat].
  intros [Hx|Hx]%elem_of_app; apply elem_of_cons; [left|right; by apply IH].
  symmetry.
  unfold page_addrs in Hx. apply list_elem_of_fmap in Hx as (j & -> & Hj%elem_of_seqZ).
  apply Z.div_unique with j; lia.
Qed.

Lemma NoDup_pages es : NoDup (pte_pfn <$> es) -> NoDup (concat (page_addrs <$> es)).
Proof.
  induction es as [|e es IH]; [by constructor|]. rewrite !fmap_cons. cbn [concat]. intros [Hne Hnd]%NoDup_cons.
  apply NoDup_app. split_and!; [|intros x Hx1 Hx2|by apply IH].
  - apply NoDup_fmap_2_strong; [intros i j _ _ Hij; lia|apply NoDup_seqZ].
  - apply Hne. apply elem_of_pages in Hx2. replace (pte_pfn e) with (x / 16); [done|].
    unfold page_addrs in Hx1. apply list_elem_of_fmap in Hx1 as (j & -> & Hj%elem_of_seqZ).
    symmetry. apply Z.div_unique with j; lia.
Qed.

Lemma length_pages es : length (concat (page_addrs <$> es)) = (length es * 16)%nat.
Proof.
  induction es as [|e es IH]; [done|]. rewrite fmap_cons. cbn [concat]. rewrite length_app, IH. done.
Qed.

Lemma frames_pages m es :
  (fun x => default x00 (m !! x)) <$> concat (page_addrs <$> es) =
  concat ((fun e => frame m (pte_pfn e)) <$> es).
Proof.
  induction es as [|e es IH]; [done|]. rewrite !fmap_cons. cbn [concat]. by rewrite fmap_app, IH.
Qed.

#[export] Program Instance demo : Hardware := {|
  ERROR := -1; KILL := -2;
  PAGESIZE := 16; VMEM_REGION_SIZE := 2048; VMEM_0_LIMIT := 2048; VMEM_1_BASE := 2048;
  VMEM_1_LIMIT := 4096; KERNEL_STACK_BASE := 2016; KERNEL_STACK_LIMIT := 2048;
  KERNEL_STACK_MAXSIZE := 32;
  DOWN_TO_PAGE := fun a => a / 16 * 16;
  UP_TO_PAGE := fun a => (a + 15) / 16 * 16;
  PAGESHIFT := 4; PROT_READ := 1; PROT_WRITE := 2; PROT_EXEC := 4;
  first_kernel_text_page := 1; first_kernel_data_page := 2; orig_kernel_brk_page := 3;
  MAX_PT_LEN := 128; INITIAL_STACK_FRAME_SIZE := 16; POST_ARGV_NULL_SPACE := 0;
  exe_file := load_info * list byte;
  fs_exists := fun name => bool_decide (name = demo_name);
  fs_executable := fun name => bool_decide (name = demo_name);
  fs_open := fun name => if decide (name = demo_name) then Some demo_exe else None;
  exe_info := fun f => Some f.1;
  exe_read := fun f off n => take (Z.to_nat n) (drop (Z.to_nat off) f.2);
  NUM_TERMINALS := 2; TERMINAL_MAX_LINE := 16; PIPE_BUFFER_LEN := 8;
  YALNIX_FORK := 1; YALNIX_EXEC := 2; YALNIX_EXIT := 3; YALNIX_WAIT := 4;
  YALNIX_GETPID := 5; YALNIX_BRK := 6; YALNIX_DELAY := 7;
  YALNIX_TTY_READ := 8; YALNIX_TTY_WRITE := 9;
  YALNIX_PIPE_INIT := 10; YALNIX_PIPE_READ := 11; YALNIX_PIPE_WRITE := 12;
  YALNIX_LOCK_INIT := 13; YALNIX_LOCK_ACQUIRE := 14; YALNIX_LOCK_RELEASE := 15;
  YALNIX_CVAR_INIT := 16; YALNIX_CVAR_SIGNAL := 17; YALNIX_CVAR_BROADCAST := 18;
  YALNIX_CVAR_WAIT := 19; YALNIX_RECLAIM := 20;
  uninit_int := 0; uninit_pte := mk_pte false 0 0; uninit_byte := x00;
  trace_level_1 := true; kernel_string := fun a => 16 <=? a;
  hw_mem := gmap Z byte; hw_load := load; hw_store := store; hw_frame := frame;
  pid_state := list Z;
  pid_in_use := fun ps p => existsb (Z.eqb p) ps;
  helper_new_pid := fun ps =>
    let p := foldr Z.max (-1) ps + 1 in (p, p :: ps);
  helper_retire_pid := fun ps p => filter (fun q => q <> p) ps |}.
Solve Obligations with (try by vm_compute).
Next Obligation. intros f off n. simpl. rewrite length_take. lia. Qed.
Next Obligation. intros a _. simpl. by replace (a + 16 - 1) with (a + 15) by lia. Qed.
Next Obligation.
  apply (bool_decide_eq_true_1 _). by vm_compute.
Qed.
Next Obligation. intros. by eapply load_length. Qed.
Next Obligation.
  intros m r0 r1 a bs m'. simpl. unfold store.
  destruct (put m r0 r1 a bs); [|done]. case_decide; naive_solver.
Qed.
Next Obligation.
  intros m r0 r1 p es H. simpl. rewrite <- length_pages, load_covers, frames_pages; [done|].
  apply pages_cover. intros i e He. by destruct (H i e He) as (H1 & H2 & _).
Qed.
Next Obligation.
  intros m r0 r1 p es bs H Hnd Hl. simpl in *. rewrite <- length_pages in Hl.
  assert (Hc : covers r0 r1 (p * 16) (concat (page_addrs <$> es))).
  { apply pages_cover. intros i e He. by destruct (H i e He) as (H1 & H2 & _). }
  destruct (put_covers m r0 r1 _ _ bs Hc Hl (NoDup_pages _ Hnd)) as (m' & E & Hm & Ho).
  exists m'. unfold store. rewrite E, Hl, load_covers, Hm by done. rewrite decide_True by done.
  split; [done|]. split; [by rewrite <- frames_pages|]. intros f Hf. apply list_fmap_ext.
  intros i j [-> Hi]%lookup_seqZ. f_equal. apply Ho. intros Hin%elem_of_pages.
  apply Hf. replace f with ((f * 16 + (0 + Z.of_nat i)) / 16); [done|].
  symmetry. apply Z.div_unique with (Z.of_nat i); lia.
Qed.
Next Obligation.
  intros ps. simpl. pose proof (new_pid_fresh ps) as [H0 H1]. split; [done|]. split; [done|].
  intros q. by rewrite orb_comm, orb_comm.
Qed.
End DemoHardware.
