(* ===== verification/Containers.v ===== *)
(** * Abstract queues and sets

    What [src/datastructures/queue.c] and [set.c] promise to their clients,
    with the lists as values: the kernel files use these definitions, and
    [LinkedQueue] and [LinkedSet] show that the pointer code implements them.
    [None] is a NULL [queue_t*] or [set_t*].  An operation that allocates a
    node takes the result [m] of that [malloc] as an argument. *)

From S2P Require Import Prelude Hardware.
From stdpp Require Import list gmap fin_maps.

#[local] Open Scope Z_scope.

Record queue_t (A : Type) := mk_queue {
  q_items : list (Z * A);      (* front first: node key and data *)
  q_next_key : Z;
  q_count : Z }.
Arguments mk_queue {A}. Arguments q_items {A}.
Arguments q_next_key {A}. Arguments q_count {A}.

Record set_t (A : Type) := mk_set {
  s_nodes : list (Z * A);      (* head first: key and item *)
  s_node_count : Z }.
Arguments mk_set {A}. Arguments s_nodes {A}. Arguments s_node_count {A}.

(** The data of a queue, front first. *)
Definition q_data {A} (q : queue_t A) : list A := (q_items q).*2.

Section Spec.
Context {hw : Hardware} {A : Type} `{Nullable A}.

Definition empty_queue : queue_t A := mk_queue [] 0 0.
Definition empty_set : set_t A := mk_set [] 0.

Definition q_append (q : queue_t A) (data : A) : queue_t A :=
  mk_queue (q_items q ++ [(q_next_key q, data)]) (wrap32 (q_next_key q + 1)) (q_count q + 1).

Definition spec_queue_new (m : ptr) : option (queue_t A) :=
  if m =? NULL then None else Some empty_queue.

(** A push reaches its [malloc] only past the NULL checks. *)
Definition push_allocates (q : option (queue_t A)) (data : A) : bool :=
  match q with None => false | Some _ => negb (is_null data) end.

Definition spec_queue_push (m : ptr) (q : option (queue_t A)) (data : A)
  : Z * option (queue_t A) :=
  match q with
  | None => (ERROR, None)
  | Some q0 =>
      if is_null data then (ERROR, q)
      else if m =? NULL then (ERROR, q)
      else (0, Some (q_append q0 data))
  end.

Definition spec_queue_pop (q : option (queue_t A)) : option A * option (queue_t A) :=
  match q with
  | None => (None, None)
  | Some q0 =>
      match q_items q0 with
      | [] => (None, q)
      | (_, d) :: rest => (Some d, Some (mk_queue rest (q_next_key q0) (q_count q0 - 1)))
      end
  end.

(** The item stored under a key: first match from the head. *)
Fixpoint key_lookup (key : Z) (l : list (Z * A)) : option A :=
  match l with
  | [] => None
  | (k, d) :: l' => if key =? k then Some d else key_lookup key l'
  end.

(** Remove the first node with the key. *)
Fixpoint remove_key (key : Z) (l : list (Z * A)) : list (Z * A) :=
  match l with
  | [] => []
  | (k, d) :: l' => if key =? k then l' else (k, d) :: remove_key key l'
  end.

(** What the node with a key holds: its item and the key of the next node. *)
Fixpoint node_at (key : Z) (l : list (Z * A)) : option (A * option Z) :=
  match l with
  | [] => None
  | (k, d) :: l' => if key =? k then Some (d, fst <$> head l') else node_at key l'
  end.

Definition spec_set_new (m : ptr) : option (set_t A) :=
  if m =? NULL then None else Some empty_set.

Definition insert_allocates (s : option (set_t A)) (key : Z) (item : A) : bool :=
  match s with
  | None => false
  | Some s0 => negb (key <? 0) && negb (is_null item) &&
               match key_lookup key (s_nodes s0) with Some _ => false | None => true end
  end.

Definition spec_set_insert (m : ptr) (s : option (set_t A)) (key : Z) (item : A)
  : Z * option (set_t A) :=
  match s with
  | None => (ERROR, None)
  | Some s0 =>
      if negb (insert_allocates s key item) then (ERROR, s)
      else if m =? NULL then (ERROR, s)
      else (0, Some (mk_set ((key, item) :: s_nodes s0) (s_node_count s0 + 1)))
  end.

(** [set_find] prints a key it does not find with [%s]: undefined when the
    message is printed and there is no string at that address. *)
Definition find_faults (s : option (set_t A)) (key : Z) : bool :=
  match s with
  | None => false
  | Some s0 => negb (key <? 0) && negb (string_ok key) &&
               match key_lookup key (s_nodes s0) with Some _ => false | None => true end
  end.

Definition spec_set_find (s : option (set_t A)) (key : Z) : option A :=
  match s with
  | None => None
  | Some s0 => if key <? 0 then None else key_lookup key (s_nodes s0)
  end.

Definition spec_set_pop (s : option (set_t A)) (key : Z) : option A * option (set_t A) :=
  match s with
  | None => (None, None)
  | Some s0 =>
      if key <? 0 then (None, s)
      else match key_lookup key (s_nodes s0) with
           | None => (None, s)
           | Some d => (Some d, Some (mk_set (remove_key key (s_nodes s0)) (s_node_count s0 - 1)))
           end
  end.

(** ** Well-formedness *)

Definition kqueue_wf (q : queue_t A) : Prop :=
  q_count q = Z.of_nat (length (q_items q)) /\ Forall (fun d => is_null d = false) (q_data q).

Definition kset_wf (s : set_t A) : Prop :=
  s_node_count s = Z.of_nat (length (s_nodes s)) /\
  NoDup (s_nodes s).*1 /\
  Forall (fun n => 0 <= n.1 /\ is_null n.2 = false) (s_nodes s).

(** The finite map a set stands for. *)
Definition kset_map (s : set_t A) : gmap Z A := list_to_map (s_nodes s).

Lemma kqueue_wf_empty : kqueue_wf empty_queue.
Proof. split; [done|constructor]. Qed.

Lemma kset_wf_empty : kset_wf empty_set.
Proof. split_and!; [done|constructor|constructor]. Qed.

Lemma q_data_append q d : q_data (q_append q d) = q_data q ++ [d].
Proof. unfold q_data, q_append. simpl. by rewrite fmap_app. Qed.

Lemma spec_queue_push_ok m q d :
  is_null d = false -> m <> NULL ->
  spec_queue_push m (Some q) d = (0, Some (q_append q d)).
Proof. intros E Hm. unfold spec_queue_push. rewrite E. by destruct (Z.eqb_spec m NULL). Qed.

Lemma queue_push_wf m q d rc q' :
  kqueue_wf q -> spec_queue_push m (Some q) d = (rc, Some q') -> kqueue_wf q'.
Proof.
  unfold spec_queue_push. intros [Hc Hd] E.
  destruct (is_null d) eqn:Hn; [by simplify_eq|].
  destruct (m =? NULL); simplify_eq; [done|]. split.
  - unfold q_append. simpl. rewrite length_app. simpl. lia.
  - rewrite q_data_append. apply Forall_app. by repeat constructor.
Qed.

Lemma queue_pop_wf q d q' :
  kqueue_wf q -> spec_queue_pop (Some q) = (d, Some q') -> kqueue_wf q'.
Proof.
  unfold spec_queue_pop. intros [Hc Hd] E.
  destruct (q_items q) as [|[k x] rest] eqn:Hq; simplify_eq; [split; [by rewrite Hq|done]|].
  unfold kqueue_wf, q_data in *. rewrite Hq in *. simpl in *. split; [lia|].
  by inversion Hd.
Qed.

Lemma spec_queue_pop_cons q d l :
  q_data q = d :: l -> exists q', spec_queue_pop (Some q) = (Some d, Some q') /\ q_data q' = l.
Proof.
  unfold q_data, spec_queue_pop. destruct (q_items q) as [|[k x] rest]; [done|].
  intros [= -> <-]. by eexists.
Qed.

Lemma spec_queue_pop_nil q :
  q_data q = [] -> spec_queue_pop (Some q) = (None, Some q).
Proof. unfold q_data, spec_queue_pop. by destruct (q_items q). Qed.

Lemma key_lookup_map key l : key_lookup key l = (list_to_map l : gmap Z A) !! key.
Proof.
  induction l as [|[k d] l IH]; simpl; [done|].
  destruct (Z.eqb_spec key k) as [->|Hne].
  - by rewrite lookup_insert_eq.
  - by rewrite lookup_insert_ne by done.
Qed.

Lemma key_lookup_None key l : key_lookup key l = None <-> key ∉ l.*1.
Proof. rewrite key_lookup_map. symmetry. apply not_elem_of_list_to_map. Qed.

Lemma node_at_middle key d l1 l2 :
  key ∉ l1.*1 -> node_at key (l1 ++ (key, d) :: l2) = Some (d, fst <$> head l2).
Proof.
  induction l1 as [|[k x] l1 IH]; simpl; intros Hk; [by rewrite Z.eqb_refl|].
  apply not_elem_of_cons in Hk as [Hne Hk]. rewrite (proj2 (Z.eqb_neq _ _) Hne). by apply IH.
Qed.

Lemma remove_key_map key l :
  NoDup l.*1 -> list_to_map (remove_key key l) = delete key (list_to_map l : gmap Z A).
Proof.
  induction l as [|[k d] l IH]; simpl; intros Hnd; [by rewrite delete_empty|].
  inversion Hnd as [|?? Hk Hl]; subst.
  destruct (Z.eqb_spec key k) as [->|Hne].
  - rewrite delete_insert_id; [done|]. by apply not_elem_of_list_to_map.
  - simpl. rewrite IH by done. by rewrite delete_insert_ne.
Qed.

Lemma remove_key_subseteq key l x : x ∈ remove_key key l -> x ∈ l.
Proof.
  induction l as [|[k d] l IH]; simpl; [done|].
  destruct (key =? k); [by right|]. intros [->|Hx]%elem_of_cons; [by left|right; auto].
Qed.

Lemma remove_key_keys key l : NoDup l.*1 -> NoDup (remove_key key l).*1.
Proof.
  induction l as [|[k d] l IH]; simpl; intros Hnd; [done|].
  inversion Hnd as [|?? Hk Hl]; subst. destruct (key =? k); [done|].
  simpl. constructor; [|auto]. intros [x [? Hx]]%list_elem_of_fmap.
  apply Hk. apply list_elem_of_fmap. exists x. eauto using remove_key_subseteq.
Qed.

Lemma remove_key_length key l d :
  key_lookup key l = Some d -> length l = S (length (remove_key key l)).
Proof.
  induction l as [|[k x] l IH]; simpl; [done|]. destruct (key =? k); [done|].
  intros E. simpl. by rewrite IH.
Qed.

Lemma set_insert_wf m s key item rc s' :
  kset_wf s -> spec_set_insert m (Some s) key item = (rc, Some s') -> kset_wf s'.
Proof.
  unfold spec_set_insert, insert_allocates. intros (Hc & Hn & Hf) E.
  destruct (Z.ltb_spec key 0); simpl in E; [by simplify_eq|].
  destruct (is_null item) eqn:Hi; simpl in E; [by simplify_eq|].
  destruct (key_lookup key (s_nodes s)) eqn:Ha; simpl in E; [by simplify_eq|].
  destruct (m =? NULL); simplify_eq; [done|]. split_and!; simpl.
  - lia.
  - constructor; [by apply key_lookup_None|done].
  - by constructor.
Qed.

Lemma set_pop_wf s key d s' :
  kset_wf s -> spec_set_pop (Some s) key = (d, Some s') -> kset_wf s'.
Proof.
  unfold spec_set_pop. intros (Hc & Hn & Hf) E.
  destruct (key <? 0); [by simplify_eq|].
  destruct (key_lookup key (s_nodes s)) eqn:Ha; simplify_eq; [|done].
  split_and!; simpl.
  - apply remove_key_length in Ha. lia.
  - by apply remove_key_keys.
  - rewrite Forall_forall in *. eauto using remove_key_subseteq.
Qed.

Lemma spec_set_find_map s key :
  kset_wf s -> spec_set_find (Some s) key = kset_map s !! key.
Proof.
  intros (_ & _ & Hf). unfold spec_set_find, kset_map.
  destruct (Z.ltb_spec key 0); [|by rewrite key_lookup_map].
  symmetry. apply not_elem_of_list_to_map. intros ([k d] & -> & Hx)%list_elem_of_fmap.
  rewrite Forall_forall in Hf. apply Hf in Hx as [? _]. simpl in *. lia.
Qed.

Lemma spec_set_pop_map s key d s' :
  kset_wf s -> spec_set_pop (Some s) key = (d, Some s') ->
  d = kset_map s !! key /\ kset_map s' = delete key (kset_map s).
Proof.
  intros Hwf E. pose proof (spec_set_find_map s key Hwf) as Hfind.
  destruct Hwf as (_ & Hn & _).
  unfold spec_set_pop, spec_set_find in *. rewrite <- Hfind.
  destruct (key <? 0); simplify_eq; [by rewrite delete_id|].
  destruct (key_lookup key (s_nodes s)) eqn:Ha; simplify_eq.
  - split; [done|]. unfold kset_map. simpl. by apply remove_key_map.
  - by rewrite delete_id.
Qed.

Lemma spec_set_insert_map m s key item rc s' :
  spec_set_insert m (Some s) key item = (rc, Some s') ->
  (rc = 0 /\ kset_map s !! key = None /\ kset_map s' = <[key := item]> (kset_map s)) \/
  (rc = ERROR /\ s' = s).
Proof.
  unfold spec_set_insert, insert_allocates. intros E.
  destruct (key <? 0); simpl in E; [by simplify_eq; right|].
  destruct (is_null item) eqn:Hi; simpl in E; [by simplify_eq; right|].
  destruct (key_lookup key (s_nodes s)) eqn:Ha; simpl in E; [by simplify_eq; right|].
  destruct (m =? NULL); simplify_eq; [by right|]. left.
  unfold kset_map. by rewrite <- key_lookup_map.
Qed.
End Spec.

#[export] Hint Resolve kqueue_wf_empty kset_wf_empty queue_push_wf queue_pop_wf
  set_insert_wf set_pop_wf : yalnix.
#[export] Hint Rewrite @q_data_append : yalnix.

(** ** The FIFO interface

    What an implementation of [queue.h] promises: there is a representation
    relation to the abstract queue, and push and pop run without undefined
    behaviour and do what the abstract operations do, given the answer
    [qi_malloc] of the next allocation. *)
Class QueueImpl {hw : Hardware} (St A : Type) `{Nullable A} := {
  qi_repr : St -> option (queue_t A) -> Prop;
  qi_malloc : St -> ptr;
  qi_push : A -> M St Z;
  qi_pop : M St (option A);
  qi_push_ok : forall s q d, qi_repr s q ->
    exists rc q' s', qi_push d s = Ok rc s' /\
      spec_queue_push (qi_malloc s) q d = (rc, q') /\ qi_repr s' q';
  qi_pop_ok : forall s q, qi_repr s q ->
    exists d q' s', qi_pop s = Ok d s' /\ spec_queue_pop q = (d, q') /\ qi_repr s' q' }.

(** A client of the interface: push a list, pop [n] times. *)
Section Client.
Context {hw : Hardware} {St A : Type} {nu : Nullable A} {impl : QueueImpl St A}.

Fixpoint push_all (l : list A) : M St (list Z) :=
  match l with
  | [] => ret []
  | d :: l' => rc <- qi_push d ;; rcs <- push_all l' ;; ret (rc :: rcs)
  end.

Fixpoint pop_n (n : nat) : M St (list (option A)) :=
  match n with
  | O => ret []
  | S n' => d <- qi_pop ;; ds <- pop_n n' ;; ret (d :: ds)
  end.

Lemma push_all_run l s q :
  qi_repr s (Some q) ->
  exists rcs s' q', push_all l s = Ok rcs s' /\ qi_repr s' (Some q') /\
    (Forall (fun rc => rc = 0) rcs -> q_data q' = q_data q ++ l).
Proof.
  revert s q. induction l as [|d l IH]; intros s q Hr.
  - exists [], s, q. by rewrite app_nil_r.
  - destruct (qi_push_ok s (Some q) d Hr) as (rc & q1 & s1 & E1 & Hspec & Hr1).
    assert (exists q1', q1 = Some q1' /\ (rc = 0 -> q_data q1' = q_data q ++ [d]))
      as (q1' & -> & Hdata).
    { unfold spec_queue_push in Hspec. pose proof ERROR_neg.
      destruct (is_null d); [simplify_eq; exists q; split; [done|lia]|].
      destruct (qi_malloc s =? NULL); simplify_eq; [exists q; split; [done|lia]|].
      eexists. split; [done|]. intros _. apply q_data_append. }
    destruct (IH s1 q1' Hr1) as (rcs & s2 & q2 & E2 & Hr2 & Hd2).
    exists (rc :: rcs), s2, q2. split_and!; [|done|].
    + simpl. unfold bind. by rewrite E1, E2.
    + inversion 1; subst. rewrite Hd2, Hdata by done. by rewrite <- app_assoc.
Qed.

Lemma pop_n_run l s q :
  qi_repr s (Some q) -> q_data q = l ->
  exists s' q', pop_n (length l) s = Ok (Some <$> l) s' /\ qi_repr s' (Some q') /\ q_data q' = [].
Proof.
  revert s q. induction l as [|d l IH]; intros s q Hr Hq.
  - exists s, q. done.
  - destruct (qi_pop_ok s (Some q) Hr) as (d1 & q1 & s1 & E1 & Hspec & Hr1).
    destruct (spec_queue_pop_cons q d l Hq) as (q1' & Hspec' & Hq1').
    rewrite Hspec in Hspec'. injection Hspec' as -> ->.
    destruct (IH s1 q1' Hr1 Hq1') as (s2 & q2 & E2 & Hr2 & Hq2).
    exists s2, q2. split_and!; [|done..]. simpl. unfold bind. by rewrite E1, E2.
Qed.
End Client.
