(* ===== verification/LinkedList.v ===== *)
(** * Singly linked nodes on the kernel heap

    [qnode_t] of [queue.h] and [set_node_t] of [set.h] are the same thing: a
    key, a pointer to the next node and a data pointer.  This file has the
    heap of such nodes with its allocator, and the list segment predicate
    both containers are specified with. *)

From S2P Require Import Prelude.
From stdpp Require Import list gmap fin_maps.

#[local] Open Scope Z_scope.

Record node (A : Type) := mk_node { n_key : Z; n_next : ptr; n_data : A }.
Arguments mk_node {A}. Arguments n_key {A}. Arguments n_next {A}. Arguments n_data {A}.

(** [h_malloc_at n] is what the n-th call of [malloc] answers: NULL when out
    of memory.  An answer that is still allocated would break the contract of
    [malloc]; the model treats it as a failure, so every oracle is a legal
    allocator and addresses may be reused after [free]. *)
Record heap (A : Type) := mk_heap {
  h_nodes : gmap Z (node A);
  h_malloc_at : nat -> ptr;
  h_mallocs : nat }.
Arguments mk_heap {A}. Arguments h_nodes {A}.
Arguments h_malloc_at {A}. Arguments h_mallocs {A}.

(** A container: the pointer to its struct ([None] is NULL) and the heap. *)
Record lst (Q A : Type) := mk_lst { l_ptr : option Q; l_heap : heap A }.
Arguments mk_lst {Q A}. Arguments l_ptr {Q A}. Arguments l_heap {Q A}.

Section Heap.
Context {Q A : Type}.

Definition nodes (s : lst Q A) : gmap Z (node A) := h_nodes (l_heap s).

Definition set_nodes (n : gmap Z (node A)) (s : lst Q A) : lst Q A :=
  mk_lst (l_ptr s) (mk_heap n (h_malloc_at (l_heap s)) (h_mallocs (l_heap s))).

Definition set_ptr (q : option Q) (s : lst Q A) : lst Q A := mk_lst q (l_heap s).

(** The answer of the next [malloc]. *)
Definition next_malloc (s : lst Q A) : ptr :=
  let a := h_malloc_at (l_heap s) (h_mallocs (l_heap s)) in
  match nodes s !! a with Some _ => NULL | None => a end.

Definition bump_malloc (s : lst Q A) : lst Q A :=
  mk_lst (l_ptr s) (mk_heap (nodes s) (h_malloc_at (l_heap s)) (S (h_mallocs (l_heap s)))).

Definition malloc_block : M (lst Q A) ptr := fun s => Ok (next_malloc s) (bump_malloc s).

Definition load_node (p : ptr) : M (lst Q A) (node A) :=
  s <- gets nodes ;; demand (s !! p).

(** Fill in a block just obtained from [malloc]. *)
Definition init_node (p : ptr) (n : node A) : M (lst Q A) unit :=
  modify (fun s => set_nodes (<[p := n]> (nodes s)) s).

(** [p->next = next] *)
Definition store_next (p next : ptr) : M (lst Q A) unit :=
  n <- load_node p ;;
  modify (fun s => set_nodes (<[p := mk_node (n_key n) next (n_data n)]> (nodes s)) s).

Definition free_node (p : ptr) : M (lst Q A) unit :=
  load_node p ;;;
  modify (fun s => set_nodes (delete p (nodes s)) s).

Lemma nodes_set_nodes n s : nodes (set_nodes n s) = n.
Proof. done. Qed.
Lemma nodes_bump_malloc s : nodes (bump_malloc s) = nodes s.
Proof. done. Qed.
Lemma nodes_set_ptr q s : nodes (set_ptr q s) = nodes s.
Proof. done. Qed.
Lemma next_malloc_fresh s : next_malloc s <> NULL -> nodes s !! next_malloc s = None.
Proof. unfold next_malloc. by destruct (nodes s !! _) eqn:E. Qed.
End Heap.

Create Rewrite HintDb heap_eqs.
#[export] Hint Rewrite @nodes_set_nodes @nodes_bump_malloc @nodes_set_ptr : heap_eqs.

(** ** List segments *)

Section Segments.
Context {A : Type}.
Implicit Types (h : gmap Z (node A)) (l : list (ptr * (Z * A))).

(** The nodes at the addresses of [l] form a chain from [p] to [e]. *)
Fixpoint lseg h (p : ptr) l (e : ptr) : Prop :=
  match l with
  | [] => p = e
  | (a, (k, d)) :: l' =>
      p = a /\ a <> NULL /\ exists n, h !! a = Some (mk_node k n d) /\ lseg h n l' e
  end.

(** Exactly these nodes, each once. *)
Definition owns h l : Prop := NoDup l.*1 /\ dom h = list_to_set l.*1.

Lemma lseg_app h p l1 l2 e :
  lseg h p (l1 ++ l2) e <-> exists m, lseg h p l1 m /\ lseg h m l2 e.
Proof.
  revert p. induction l1 as [|[a [k d]] l1 IH]; intros p; simpl; [naive_solver|].
  split.
  - intros (-> & Ha & n & Hn & H). apply IH in H as (m & ? & ?). naive_solver.
  - intros (m & (-> & Ha & n & Hn & H) & H2). split_and!; [done..|].
    exists n. split; [done|]. apply IH. eauto.
Qed.

Lemma lseg_frame h h' p l e :
  (forall a, a ∈ l.*1 -> h' !! a = h !! a) -> lseg h p l e -> lseg h' p l e.
Proof.
  revert p. induction l as [|[a [k d]] l IH]; intros p Hf; simpl; [done|].
  intros (-> & Ha & n & Hn & H). split_and!; [done..|]. exists n.
  rewrite Hf by (left; done). split; [done|]. apply IH; [|done].
  intros b Hb. apply Hf. by right.
Qed.

Lemma lseg_head_NULL h l : lseg h NULL l NULL -> l = [].
Proof. destruct l as [|[a [k d]] l]; [done|]. simpl. naive_solver. Qed.

Lemma lseg_head_not_NULL h p l :
  p <> NULL -> lseg h p l NULL ->
  exists k d n l', l = (p, (k, d)) :: l' /\ h !! p = Some (mk_node k n d) /\ lseg h n l' NULL.
Proof. destruct l as [|[a [k d]] l]; simpl; [done|]. intros _ (-> & _ & n & ? & ?). eauto 10. Qed.

Lemma owns_fresh h l a : owns h l -> h !! a = None -> a ∉ l.*1.
Proof.
  intros [_ Hd] Ha Hin. apply not_elem_of_dom in Ha. apply Ha. rewrite Hd.
  by apply elem_of_list_to_set.
Qed.

Lemma owns_cons h l a x n :
  owns h l -> h !! a = None -> owns (<[a := n]> h) ((a, x) :: l).
Proof.
  intros Ho Ha. pose proof (owns_fresh _ _ _ Ho Ha). destruct Ho as [Hn Hd].
  split; [by constructor|]. rewrite dom_insert_L, Hd. by rewrite fmap_cons, list_to_set_cons.
Qed.

Lemma owns_snoc h l a x n :
  owns h l -> h !! a = None -> owns (<[a := n]> h) (l ++ [(a, x)]).
Proof.
  intros Ho Ha. pose proof (owns_fresh _ _ _ Ho Ha). destruct Ho as [Hn Hd].
  split; rewrite fmap_app.
  - simpl. apply NoDup_app. split_and!; [done| |apply NoDup_singleton].
    intros y Hy ->%list_elem_of_singleton. done.
  - rewrite dom_insert_L, Hd, list_to_set_app_L. simpl. set_solver.
Qed.

Lemma owns_update h l a n : owns h l -> a ∈ l.*1 -> owns (<[a := n]> h) l.
Proof.
  intros [Hn Hd] Ha. split; [done|]. rewrite dom_insert_L, Hd. set_solver.
Qed.

Lemma owns_delete h l1 l2 a x :
  owns h (l1 ++ (a, x) :: l2) -> owns (delete a h) (l1 ++ l2).
Proof.
  intros [Hn Hd]. rewrite fmap_app, fmap_cons in Hn, Hd. simpl in *.
  apply NoDup_app in Hn as (H1 & H12 & H2). inversion H2 as [|?? Ha H2']; subst.
  split; rewrite fmap_app.
  - apply NoDup_app. split_and!; [done| |done]. intros b Hb Hb2. apply (H12 b Hb). by right.
  - rewrite dom_delete_L, Hd, !list_to_set_app_L, list_to_set_cons.
    assert (a ∉ l1.*1) by (intros Hin; apply (H12 a Hin); by left). set_solver.
Qed.

(** The last node of a chain that ends in NULL. *)
Lemma lseg_last h p l b x :
  lseg h p (l ++ [(b, x)]) NULL -> b <> NULL /\ h !! b = Some (mk_node x.1 NULL x.2).
Proof.
  intros (m & _ & H2)%lseg_app. destruct x as [k d]. simpl in *.
  destruct H2 as (_ & Hb & n & Hn & ->). done.
Qed.

(** Linking a fresh node behind the last one extends the chain. *)
Lemma lseg_link h p l b kb db a k d :
  let l1 := l ++ [(b, (kb, db))] in
  let h' := <[b := mk_node kb a db]> (<[a := mk_node k NULL d]> h) in
  lseg h p l1 NULL -> owns h l1 -> h !! a = None -> a <> NULL ->
  lseg h' p (l1 ++ [(a, (k, d))]) NULL /\ owns h' (l1 ++ [(a, (k, d))]).
Proof.
  intros l1 h' Hseg Ho Hfresh Ha. unfold l1, h' in *.
  pose proof (owns_fresh _ _ _ Ho Hfresh) as Hnin. rewrite fmap_app in Hnin. simpl in Hnin.
  destruct (lseg_last _ _ _ _ _ Hseg) as [Hb0 Hb].
  apply lseg_app in Hseg as (m & Hseg & Hm). simpl in Hm. destruct Hm as (-> & _).
  assert (Hnb : b ∉ l.*1).
  { destruct Ho as [Hn _]. rewrite fmap_app in Hn. apply NoDup_app in Hn as (_ & Hn & _).
    intros Hin. apply (Hn _ Hin). by left. }
  split.
  - apply lseg_app. exists a. split; [apply lseg_app; exists b; split|].
    + eapply lseg_frame; [|exact Hseg]. intros y Hy.
      rewrite !lookup_insert_ne; [done|set_solver|set_solver].
    + simpl. split_and!; [done..|]. exists a. by rewrite lookup_insert_eq.
    + simpl. split_and!; [done..|]. exists NULL. split; [|done].
      rewrite lookup_insert_ne by set_solver. apply lookup_insert_eq.
  - apply owns_update; [by apply owns_snoc|]. rewrite !fmap_app. set_solver.
Qed.

(** [rear] of a queue, [prev] of a traversal: the last address, or NULL. *)
Definition last_addr l : ptr := default NULL (last l.*1).

Lemma last_addr_snoc l a x : last_addr (l ++ [(a, x)]) = a.
Proof. unfold last_addr. rewrite fmap_app. simpl. by rewrite last_snoc. Qed.

Lemma lseg_delete h p l e a :
  a ∉ l.*1 -> lseg h p l e -> lseg (delete a h) p l e.
Proof.
  intros Ha. apply lseg_frame. intros b Hb. rewrite lookup_delete_ne; [done|]. set_solver.
Qed.

(** Unlinking a node that has a predecessor. *)
Lemma lseg_unlink h p l1 b kb db a k d n l2 :
  let h' := delete a (<[b := mk_node kb n db]> h) in
  lseg h p (l1 ++ [(b, (kb, db))]) a -> h !! a = Some (mk_node k n d) ->
  lseg h n l2 NULL -> owns h ((l1 ++ [(b, (kb, db))]) ++ (a, (k, d)) :: l2) ->
  lseg h' p ((l1 ++ [(b, (kb, db))]) ++ l2) NULL /\
  owns h' ((l1 ++ [(b, (kb, db))]) ++ l2).
Proof.
  intros h' Hs1 Ha Hs2 Ho. unfold h'.
  assert (Hnd := proj1 Ho). rewrite !fmap_app, fmap_cons in Hnd. simpl in Hnd.
  rewrite <- app_assoc in Hnd. simpl in Hnd.
  apply NoDup_app in Hnd as (_ & Hn1 & Hn2).
  inversion Hn2 as [|?? Hb Hn3]; subst. inversion Hn3 as [|?? Ha2 _]; subst.
  assert (Hb1 : b ∉ l1.*1) by (intros Hin; apply (Hn1 b Hin); by left).
  assert (Ha1 : a ∉ l1.*1) by (intros Hin; apply (Hn1 a Hin); right; by left).
  assert (Hab : a <> b) by set_solver. assert (Hb2 : b ∉ l2.*1) by set_solver.
  split.
  - apply lseg_delete; [rewrite !fmap_app; simpl; set_solver|].
    apply lseg_app in Hs1 as (m & Hs1 & Hm). simpl in Hm. destruct Hm as (-> & Hb0 & _).
    apply lseg_app. exists n. split; [apply lseg_app; exists b; split|].
    + eapply lseg_frame; [|exact Hs1]. intros y Hy. rewrite lookup_insert_ne; [done|set_solver].
    + simpl. split_and!; [done..|]. exists n. by rewrite lookup_insert_eq.
    + eapply lseg_frame; [|exact Hs2]. intros y Hy. rewrite lookup_insert_ne; [done|set_solver].
  - eapply owns_delete. apply owns_update; [exact Ho|]. rewrite !fmap_app. set_solver.
Qed.

(** Unlinking the first node. *)
Lemma lseg_unlink_head h a k d n l :
  h !! a = Some (mk_node k n d) -> lseg h n l NULL -> owns h ((a, (k, d)) :: l) ->
  lseg (delete a h) n l NULL /\ owns (delete a h) l.
Proof.
  intros Ha Hl Ho. pose proof (owns_delete h [] l a _ Ho) as Ho'. split; [|done].
  apply lseg_delete; [|done]. destruct Ho as [Hn _]. by inversion Hn.
Qed.

Lemma owns_fuel h l : owns h l -> (length l <= size h)%nat.
Proof.
  intros [Hn Hd]. rewrite <- size_dom, Hd, size_list_to_set, length_fmap by done. lia.
Qed.
End Segments.
