(* ===== verification/LinkedQueue.v ===== *)
(** * queue.c at pointer level

    The FIFO queue of [src/datastructures/queue.c], with its struct, its
    nodes and its [malloc]/[free] calls, and the proof that it implements the
    abstract queue of [Containers] on every branch. *)

From S2P Require Import Prelude Hardware Containers LinkedList.
From stdpp Require Import list gmap fin_maps.

#[local] Open Scope Z_scope.

(** [queue_t] of [queue.h]. *)
Record qstruct := mk_qstruct { front : ptr; rear : ptr; next_key : Z; count : Z }.

Section Queue.
Context {hw : Hardware} {A : Type} `{Nullable A}.
Notation st := (lst qstruct A).

Definition queue_new : M st unit :=
  q <- malloc_block ;;
  if q =? NULL then modify (set_ptr None)
  else modify (set_ptr (Some (mk_qstruct NULL NULL 0 0))).

Definition queue_push (data : A) : M st Z :=
  q <- gets l_ptr ;;
  match q with
  | None => ret ERROR
  | Some q =>
      if is_null data then ret ERROR else
      new_node <- malloc_block ;;
      if new_node =? NULL then ret ERROR else
      init_node new_node (mk_node (next_key q) NULL data) ;;;
      q' <- (if rear q =? NULL
             then ret (mk_qstruct new_node new_node (next_key q) (count q))
             else store_next (rear q) new_node ;;;
                  ret (mk_qstruct (front q) new_node (next_key q) (count q))) ;;
      modify (set_ptr (Some (mk_qstruct (front q') (rear q')
                               (wrap32 (next_key q' + 1)) (count q' + 1)))) ;;;
      ret 0
  end.

Definition queue_pop : M st (option A) :=
  q <- gets l_ptr ;;
  match q with
  | None => ret None
  | Some q =>
      if front q =? NULL then ret None else
      front_node <- load_node (front q) ;;
      let front' := n_next front_node in
      let rear' := if front' =? NULL then NULL else rear q in
      free_node (front q) ;;;
      modify (set_ptr (Some (mk_qstruct front' rear' (next_key q) (count q - 1)))) ;;;
      ret (Some (n_data front_node))
  end.

(** The loop of [queue_delete] from node [curr]; [arg] is the state the
    [itemdelete] callback works on.  The fuel bounds the number of nodes. *)
Fixpoint queue_delete_loop {C} (fuel : nat) (curr : ptr) (arg : C)
  (itemdelete : option (A -> C -> C)) : M st C :=
  if curr =? NULL then ret arg else
  match fuel with
  | O => undef
  | S fuel' =>
      n <- load_node curr ;;
      let arg' := match itemdelete with Some f => f (n_data n) arg | None => arg end in
      free_node curr ;;;
      queue_delete_loop fuel' (n_next n) arg' itemdelete
  end.

Definition queue_delete {C} (arg : C) (itemdelete : option (A -> C -> C)) : M st (Z * C) :=
  q <- gets l_ptr ;;
  match q with
  | None => ret (ERROR, arg)
  | Some q =>
      fuel <- gets (fun s => size (nodes s)) ;;
      arg' <- queue_delete_loop fuel (front q) arg itemdelete ;;
      ret (0, arg')
  end.

(** ** Representation *)

(** [rear] is the last node of the chain. *)
Definition repr (s : st) (q : option (queue_t A)) : Prop :=
  match l_ptr s, q with
  | None, None => True
  | Some c, Some q =>
      exists l, l.*2 = q_items q /\ lseg (nodes s) (front c) l NULL /\ owns (nodes s) l /\
                rear c = last_addr l /\ next_key c = q_next_key q /\ count c = q_count q
  | _, _ => False
  end.

Lemma last_addr_NULL h p l :
  lseg (A:=A) h p l NULL -> last_addr l = NULL -> l = [].
Proof.
  destruct l as [|[a x] l _] using rev_ind; [done|]. rewrite last_addr_snoc.
  intros (m & _ & Hm)%lseg_app ->. destruct x. simpl in Hm. naive_solver.
Qed.

(** The abstract [malloc] outcome of a push. *)
Lemma queue_push_repr s q c data :
  repr s (Some q) -> l_ptr s = Some c -> is_null data = false -> next_malloc s <> NULL ->
  exists s', queue_push data s = Ok 0 s' /\ repr s' (Some (q_append q data)).
Proof.
  unfold repr. intros Hr Hc Hd Hm. rewrite Hc in Hr.
  destruct Hr as (l & Hi & Hseg & Ho & Hrear & Hk & Hcnt).
  set (a := next_malloc s) in *.
  assert (Hfresh : nodes s !! a = None).
  { unfold a, next_malloc in *. by destruct (nodes s !! _) eqn:E. }
  pose proof (owns_fresh _ _ _ Ho Hfresh) as Hnin.
  unfold queue_push, bind, gets, modify, ret. rewrite Hc, Hd. simpl. fold a.
  destruct (Z.eqb_spec a NULL) as [|Ha]; [done|].
  destruct (Z.eqb_spec (rear c) NULL) as [Hr0|Hr0]; simpl.
  - rewrite Hrear in Hr0. apply (last_addr_NULL _ _ _ Hseg) in Hr0 as ->.
    eexists. split; [done|]. simpl.
    exists [(a, (next_key c, data))]. simpl. split_and!.
    + by rewrite <- Hi, Hk.
    + done.
    + done.
    + exists NULL. split; [|done]. apply lookup_insert_eq.
    + by apply (owns_cons _ [] a (next_key c, data)).
    + done.
    + by rewrite Hk.
    + by rewrite Hcnt.
  - destruct l as [|[b [kb db]] l0 _] using rev_ind; [by rewrite Hrear in Hr0|].
    rewrite last_addr_snoc in Hrear. subst b.
    destruct (lseg_last _ _ _ _ _ Hseg) as [_ Hb]. simpl in Hb.
    assert (Hab : a <> rear c) by congruence.
    destruct (lseg_link _ _ _ _ _ _ a (next_key c) data Hseg Ho Hfresh Ha) as [Hseg' Ho'].
    unfold store_next, load_node, bind, gets, demand, modify; simpl.
    autorewrite with heap_eqs. rewrite lookup_insert_ne, Hb by done. simpl.
    eexists. split; [done|]. simpl. eexists. split_and!; [|exact Hseg'|exact Ho'|..].
    + by rewrite fmap_app, Hi, Hk.
    + by rewrite last_addr_snoc.
    + by rewrite Hk.
    + by rewrite Hcnt.
Qed.

(** ** The operations implement the abstract queue *)

Lemma queue_push_ok s q data :
  repr s q ->
  exists rc q' s', queue_push data s = Ok rc s' /\
    spec_queue_push (next_malloc s) q data = (rc, q') /\ repr s' q'.
Proof.
  intros Hr. destruct q as [q|]; unfold repr in Hr; destruct (l_ptr s) as [c|] eqn:Hc; try done.
  - destruct (is_null data) eqn:Hd.
    { exists ERROR, (Some q), s. unfold queue_push, bind, gets. rewrite Hc, Hd. simpl.
      rewrite Hd. split_and!; [done..|]. unfold repr. by rewrite Hc. }
    destruct (decide (next_malloc s = NULL)) as [Hm|Hm].
    { exists ERROR, (Some q), (bump_malloc s).
      unfold queue_push, bind, gets. rewrite Hc, Hd. simpl. rewrite Hd, Hm.
      split_and!; [done..|]. unfold repr. simpl. by rewrite Hc. }
    destruct (queue_push_repr s q c data) as (s' & E & Hr'); [|done..|].
    { unfold repr. by rewrite Hc. }
    exists 0, (Some (q_append q data)), s'. by rewrite spec_queue_push_ok.
  - exists ERROR, None, s. unfold queue_push, bind, gets. rewrite Hc.
    split_and!; [done..|]. unfold repr. by rewrite Hc.
Qed.

Lemma queue_pop_ok s q :
  repr s q ->
  exists d q' s', queue_pop s = Ok d s' /\ spec_queue_pop q = (d, q') /\ repr s' q'.
Proof.
  intros Hr. destruct q as [q|]; unfold repr in Hr; destruct (l_ptr s) as [c|] eqn:Hc; try done.
  2:{ exists None, None, s. unfold queue_pop, bind, gets. rewrite Hc.
      split_and!; [done..|]. unfold repr. by rewrite Hc. }
  destruct Hr as (l & Hi & Hseg & Ho & Hrear & Hk & Hcnt).
  unfold queue_pop, spec_queue_pop, bind, gets. rewrite Hc, <- Hi.
  destruct (Z.eqb_spec (front c) NULL) as [Hf|Hf].
  - rewrite Hf in Hseg. apply lseg_head_NULL in Hseg as ->.
    eexists _, _, _. split_and!; [done..|]. unfold repr. rewrite Hc. by exists [].
  - destruct (lseg_head_not_NULL _ _ _ Hf Hseg) as (k & d & n & l' & -> & Hn & Hl').
    unfold free_node, load_node, bind, gets, demand, modify, ret. rewrite Hn. simpl.
    rewrite Hn. eexists _, _, _. split_and!; [done..|]. simpl.
    exists l'. destruct (lseg_unlink_head _ _ _ _ _ _ Hn Hl' Ho) as [Hl'' Ho'].
    split_and!; [done|done|done| |done|by rewrite Hcnt].
    + rewrite Hrear. unfold last_addr.
      destruct (Z.eqb_spec n NULL) as [->|Hn0].
      * by rewrite (lseg_head_NULL _ _ Hl').
      * destruct (lseg_head_not_NULL _ _ _ Hn0 Hl') as (? & ? & ? & l'' & -> & _). done.
Qed.

Lemma queue_delete_loop_run {C} l (arg : C) f fuel p (s : st) :
  lseg (nodes s) p l NULL -> owns (nodes s) l -> (length l <= fuel)%nat ->
  exists s', queue_delete_loop fuel p arg f s =
      Ok (match f with Some g => foldl (fun c d => g d c) arg l.*2.*2 | None => arg end) s' /\
    nodes s' = ∅.
Proof.
  revert fuel p arg s. induction l as [|[a [k d]] l IH]; intros fuel p arg s Hseg Ho Hfuel; simpl in *.
  - subst. exists s. destruct fuel; simpl; (split; [by destruct f|]);
      destruct Ho as [_ Hd]; by apply dom_empty_inv_L.
  - destruct Hseg as (-> & Ha & n & Hn & Hl). destruct fuel as [|fuel]; [lia|]. simpl.
    destruct (Z.eqb_spec a NULL) as [|_]; [done|].
    unfold free_node, load_node, bind, gets, demand, modify, ret at 1. rewrite Hn. simpl.
    rewrite Hn. simpl.
    destruct (lseg_unlink_head _ _ _ _ _ _ Hn Hl Ho) as [Hl' Ho'].
    destruct (IH fuel n (match f with Some g => g d arg | None => arg end)
                (set_nodes (delete a (nodes s)) s)) as (s' & E & Hs'); [done|done|lia|].
    exists s'. rewrite E. by destruct f.
Qed.

(** [queue_delete] calls back on every datum, front first, and frees every
    node. *)
Theorem queue_delete_frees {C} s q (arg : C) f :
  repr s (Some q) ->
  exists s', queue_delete arg f s =
      Ok (0, match f with Some g => foldl (fun c d => g d c) arg (q_data q) | None => arg end) s' /\
    nodes s' = ∅.
Proof.
  unfold repr. destruct (l_ptr s) as [c|] eqn:Hc; [|done].
  intros (l & Hi & Hseg & Ho & _).
  unfold queue_delete, bind, gets. rewrite Hc.
  destruct (queue_delete_loop_run l arg f (size (nodes s)) (front c) s Hseg Ho) as (s' & E & Hs').
  { by apply owns_fuel. }
  exists s'. rewrite E. unfold q_data. by rewrite <- Hi.
Qed.

#[export] Instance linked_queue_impl : QueueImpl st A := {|
  qi_repr := repr; qi_malloc := next_malloc;
  qi_push := queue_push; qi_pop := queue_pop;
  qi_push_ok := queue_push_ok; qi_pop_ok := queue_pop_ok |}.

Lemma queue_pop_empty s q :
  repr s (Some q) -> q_data q = [] -> queue_pop s = Ok None s.
Proof.
  unfold repr. destruct (l_ptr s) as [c|] eqn:Hc; [|done].
  intros (l & Hi & Hseg & _) Hq. unfold q_data in Hq. rewrite <- Hi in Hq.
  destruct l; [|done]. simpl in Hseg. unfold queue_pop, bind, gets. by rewrite Hc, Hseg.
Qed.

(** C18: the pointer code of [queue_push] and [queue_pop] implements the
    abstract queue: each call returns without undefined behaviour, with the
    result the abstract operation has for this answer of [malloc], in a heap
    that represents its queue. *)
Theorem queue_refines s q data :
  repr s q ->
  (exists rc q' s', queue_push data s = Ok rc s' /\
     spec_queue_push (next_malloc s) q data = (rc, q') /\ repr s' q') /\
  (exists d q' s', queue_pop s = Ok d s' /\ spec_queue_pop q = (d, q') /\ repr s' q').
Proof. intros Hr. split; [by apply queue_push_ok|by apply queue_pop_ok]. Qed.

(** First in, first out: data pushed one after the other on an empty queue
    by calls that all succeed are popped in the same order. *)
Theorem queue_fifo s l rcs s1 :
  repr s (Some empty_queue) ->
  push_all l s = Ok rcs s1 -> Forall (fun rc => rc = 0) rcs ->
  exists s2, pop_n (length l) s1 = Ok (Some <$> l) s2 /\ queue_pop s2 = Ok None s2.
Proof.
  intros Hr E Hrc. destruct (push_all_run (impl:=linked_queue_impl) l s empty_queue Hr) as (? & ? & q1 & E1 & Hr1 & Hd).
  rewrite E in E1. injection E1 as <- <-. specialize (Hd Hrc).
  destruct (pop_n_run (impl:=linked_queue_impl) l s1 q1 Hr1 Hd) as (s2 & q2 & E2 & Hr2 & Hd2).
  exists s2. split; [done|]. by eapply queue_pop_empty.
Qed.
End Queue.

Section Witnesses.
Import DemoHardware.

(** An empty queue of a fresh heap, and the same after two pushes. *)
Definition demo_queue : lst qstruct Z :=
  mk_lst (Some (mk_qstruct NULL NULL 0 0)) (mk_heap ∅ (fun n => 500 + Z.of_nat n) 0).

Lemma demo_queue_repr : repr demo_queue (Some empty_queue).
Proof. exists []. split_and!; [done|done|split; [by apply NoDup_nil|apply dom_empty_L]|done..]. Defined.

Lemma queue_refines_witness :
  exists q' s', queue_push 9 demo_queue = Ok 0 s' /\ repr s' q'.
Proof.
  destruct (queue_refines demo_queue (Some empty_queue) 9 demo_queue_repr)
    as [(rc & q' & s' & E & Hs & Hr) _].
  exists q', s'. split; [|exact Hr]. rewrite E. by injection Hs as <- <-.
Defined.

Lemma queue_fifo_witness :
  exists rcs s1 s2, push_all [7; 8; 9] demo_queue = Ok rcs s1 /\
    pop_n 3 s1 = Ok [Some 7; Some 8; Some 9] s2.
Proof.
  destruct (push_all [7; 8; 9] demo_queue) as [rcs s1| |] eqn:E; [|discriminate..].
  destruct (queue_fifo demo_queue [7; 8; 9] rcs s1 demo_queue_repr E) as (s2 & E2 & _).
  - vm_compute in E. injection E as <- _. by repeat constructor.
  - by exists rcs, s1, s2.
Defined.

Lemma queue_delete_frees_witness :
  exists s', queue_delete 0 None demo_queue = Ok (0, 0) s' /\ nodes s' = ∅.
Proof. apply (queue_delete_frees demo_queue empty_queue 0 None demo_queue_repr). Defined.
End Witnesses.
