(* ===== verification/LinkedSet.v ===== *)
(** * set.c at pointer level

    The keyed set of [src/datastructures/set.c] (a singly linked list of
    key/item nodes), with its [malloc]/[free] calls, and the proof that it
    implements the abstract set of [Containers], hence a finite map. *)

From S2P Require Import Prelude Hardware Containers LinkedList.
From stdpp Require Import list gmap fin_maps.

#[local] Open Scope Z_scope.

(** [set_t] of [set.h]. *)
Record sstruct := mk_sstruct { head : ptr; node_count : Z }.

Section Set_.
Context {hw : Hardware} {A : Type} `{Nullable A}.
Notation st := (lst sstruct A).

Definition set_node_new (key : Z) (item : A) : M st ptr :=
  if key <? 0 then ret NULL
  else if is_null item then trace_string key ;;; ret NULL
  else
    node <- malloc_block ;;
    if node =? NULL then ret NULL
    else init_node node (mk_node key NULL item) ;;; ret node.

Definition set_new : M st unit :=
  set <- malloc_block ;;
  if set =? NULL then modify (set_ptr None)
  else modify (set_ptr (Some (mk_sstruct NULL 0))).

(** The search loop of [set_insert] and [set_find] from [node].  The fuel
    bounds the number of nodes. *)
Fixpoint search_loop (fuel : nat) (node : ptr) (key : Z) : M st (option A) :=
  if node =? NULL then ret None else
  match fuel with
  | O => undef
  | S fuel' =>
      n <- load_node node ;;
      if key =? n_key n then ret (Some (n_data n))
      else search_loop fuel' (n_next n) key
  end.

Definition set_insert (key : Z) (item : A) : M st Z :=
  set <- gets l_ptr ;;
  match set with
  | None => ret ERROR
  | Some set =>
      if key <? 0 then ret ERROR
      else if is_null item then ret ERROR
      else
        fuel <- gets (fun s => size (nodes s)) ;;
        dup <- search_loop fuel (head set) key ;;
        match dup with
        | Some _ => ret ERROR
        | None =>
            node <- set_node_new key item ;;
            if node =? NULL then ret ERROR else
            store_next node (head set) ;;;
            modify (set_ptr (Some (mk_sstruct node (node_count set + 1)))) ;;;
            ret 0
        end
  end.

(** On a miss the trace message prints the [int] key with [%s]. *)
Definition set_find (key : Z) : M st (option A) :=
  set <- gets l_ptr ;;
  match set with
  | None => ret None
  | Some set =>
      if key <? 0 then ret None
      else
        fuel <- gets (fun s => size (nodes s)) ;;
        item <- search_loop fuel (head set) key ;;
        match item with
        | Some item => ret (Some item)
        | None => trace_string key ;;; ret None
        end
  end.

Fixpoint pop_loop (fuel : nat) (set : sstruct) (prev node : ptr) (key : Z) : M st (option A) :=
  if node =? NULL then ret None else
  match fuel with
  | O => undef
  | S fuel' =>
      n <- load_node node ;;
      if key =? n_key n then
        (head' <- (if prev =? NULL
                   then ret (if n_next n =? NULL then NULL else n_next n)
                   else store_next prev (n_next n) ;;; ret (head set)) ;;
         free_node node ;;;
         modify (set_ptr (Some (mk_sstruct head' (node_count set - 1)))) ;;;
         ret (Some (n_data n)))
      else pop_loop fuel' set node (n_next n) key
  end.

Definition set_pop (key : Z) : M st (option A) :=
  set <- gets l_ptr ;;
  match set with
  | None => ret None
  | Some set =>
      if key <? 0 then ret None
      else if head set =? NULL then ret None
      else fuel <- gets (fun s => size (nodes s)) ;; pop_loop fuel set NULL (head set) key
  end.

(** [itemfunc] works on the state [arg] points to. *)
Fixpoint iterate_loop {C} (fuel : nat) (node : ptr) (arg : C) (itemfunc : C -> Z -> A -> C)
  : M st C :=
  if node =? NULL then ret arg else
  match fuel with
  | O => undef
  | S fuel' =>
      n <- load_node node ;;
      iterate_loop fuel' (n_next n) (itemfunc arg (n_key n) (n_data n)) itemfunc
  end.

Definition set_iterate {C} (arg : C) (itemfunc : option (C -> Z -> A -> C)) : M st C :=
  set <- gets l_ptr ;;
  match set, itemfunc with
  | None, _ => ret arg
  | _, None => ret arg
  | Some set, Some f =>
      fuel <- gets (fun s => size (nodes s)) ;; iterate_loop fuel (head set) arg f
  end.

(** [itemdelete] is called on the items, none of which is NULL in a set
    built by [set_insert]. *)
Fixpoint set_delete_loop {C} (fuel : nat) (node : ptr) (arg : C)
  (itemdelete : option (A -> C -> C)) : M st C :=
  if node =? NULL then ret arg else
  match fuel with
  | O => undef
  | S fuel' =>
      n <- load_node node ;;
      let arg' := match itemdelete with
                  | Some f => if is_null (n_data n) then arg else f (n_data n) arg
                  | None => arg
                  end in
      free_node node ;;;
      set_delete_loop fuel' (n_next n) arg' itemdelete
  end.

(** A NULL set is reported and then dereferenced all the same. *)
Definition set_delete {C} (arg : C) (itemdelete : option (A -> C -> C)) : M st C :=
  set <- gets l_ptr ;;
  match set with
  | None => undef
  | Some set =>
      fuel <- gets (fun s => size (nodes s)) ;;
      arg' <- set_delete_loop fuel (head set) arg itemdelete ;;
      modify (set_ptr None) ;;;
      ret arg'
  end.

(** ** Representation *)

Definition set_repr (s : st) (q : option (set_t A)) : Prop :=
  match l_ptr s, q with
  | None, None => True
  | Some c, Some q =>
      exists l, l.*2 = s_nodes q /\ lseg (nodes s) (head c) l NULL /\ owns (nodes s) l /\
                node_count c = s_node_count q
  | _, _ => False
  end.

Lemma search_loop_run l fuel p key (s : st) :
  lseg (nodes s) p l NULL -> (length l <= fuel)%nat ->
  search_loop fuel p key s = Ok (key_lookup key l.*2) s.
Proof.
  revert fuel p. induction l as [|[a [k d]] l IH]; intros fuel p; simpl.
  - intros ->. by destruct fuel.
  - intros (-> & Ha & n & Hn & Hl) Hf. destruct fuel as [|fuel]; [lia|]. simpl.
    destruct (Z.eqb_spec a NULL) as [|_]; [done|].
    unfold load_node, bind, gets, demand. rewrite Hn. simpl.
    destruct (key =? k); [done|]. apply IH; [done|lia].
Qed.

Lemma iterate_loop_run {C} l fuel p (arg : C) f (s : st) :
  lseg (nodes s) p l NULL -> (length l <= fuel)%nat ->
  iterate_loop fuel p arg f s = Ok (foldl (fun c n => f c n.1 n.2) arg l.*2) s.
Proof.
  revert fuel p arg. induction l as [|[a [k d]] l IH]; intros fuel p arg; simpl.
  - intros ->. by destruct fuel.
  - intros (-> & Ha & n & Hn & Hl) Hf. destruct fuel as [|fuel]; [lia|]. simpl.
    destruct (Z.eqb_spec a NULL) as [|_]; [done|].
    unfold load_node, bind, gets, demand. rewrite Hn. simpl. apply IH; [done|lia].
Qed.

(** Naming a node by its key: the node of [node_at] is in the heap, with its
    item, and its [next] is the node of the next key, or NULL. *)
Lemma node_at_ok s q key d next :
  set_repr s (Some q) -> node_at key (s_nodes q) = Some (d, next) ->
  exists a n, nodes s !! a = Some (mk_node key n d) /\
    match next with
    | None => n = NULL
    | Some key' => exists n' d', nodes s !! n = Some (mk_node key' n' d')
    end.
Proof.
  unfold set_repr. destruct (l_ptr s) as [c|]; [|done]. intros (l & <- & Hl & _). revert Hl.
  generalize (head c). induction l as [|[a [k x]] l IH]; intros p; [done|]. simpl.
  intros (-> & _ & n & Hn & Hl). destruct (Z.eqb_spec key k) as [->|_]; [|by apply (IH n)].
  intros [= -> <-]. exists a, n. split; [done|]. destruct l as [|[a' [k' x']] l]; simpl in *; [done|].
  destruct Hl as (-> & _ & n' & Hn' & _). by exists n', x'.
Qed.

(** ** The operations implement the abstract set *)

Lemma set_find_ok s q key :
  set_repr s q -> set_find key s = if find_faults q key then Undef else Ok (spec_set_find q key) s.
Proof.
  unfold set_repr, set_find, bind, gets. destruct (l_ptr s) as [c|]; destruct q as [q|]; try done.
  intros (l & Hi & Hl & Ho & _). simpl. destruct (key <? 0); [done|]. simpl.
  rewrite (search_loop_run l) by eauto using owns_fuel. rewrite Hi. unfold trace_string.
  destruct (key_lookup key (s_nodes q)), (string_ok key); done.
Qed.

Lemma set_find_quiet s q key :
  set_repr s q -> string_ok key = true -> set_find key s = Ok (spec_set_find q key) s.
Proof.
  intros Hr Hk. rewrite (set_find_ok s q key Hr). unfold find_faults. rewrite Hk.
  destruct q as [q|]; [|done]. by rewrite andb_false_r.
Qed.

Lemma set_insert_ok s q key item :
  set_repr s q ->
  exists rc q' s', set_insert key item s = Ok rc s' /\
    spec_set_insert (next_malloc s) q key item = (rc, q') /\ set_repr s' q'.
Proof.
  intros Hr. pose proof Hr as Hr0. unfold set_repr in Hr.
  unfold set_insert, spec_set_insert, insert_allocates, set_node_new, bind, gets.
  destruct (l_ptr s) as [c|] eqn:Hc; destruct q as [q|]; try done; [|by exists ERROR, None, s].
  destruct Hr as (l & Hi & Hl & Ho & Hcnt). simpl.
  destruct (key <? 0); simpl; [by exists ERROR, (Some q), s|].
  destruct (is_null item); simpl; [by exists ERROR, (Some q), s|].
  rewrite (search_loop_run l) by eauto using owns_fuel. rewrite Hi.
  destruct (key_lookup key (s_nodes q)); simpl; [by exists ERROR, (Some q), s|].
  destruct (Z.eqb_spec (next_malloc s) NULL) as [Hm|Hm]; simpl.
  { exists ERROR, (Some q), (bump_malloc s). split_and!; [done..|].
    unfold set_repr in *. simpl. by rewrite Hc in *. }
  pose proof (next_malloc_fresh s Hm) as Hfresh. set (a := next_malloc s) in *.
  destruct (Z.eqb_spec a NULL); [done|].
  unfold store_next, load_node, bind, gets, demand, modify, ret; simpl.
  autorewrite with heap_eqs. rewrite lookup_insert_eq. simpl.
  eexists _, _, _. split_and!; [done..|]. simpl.
  exists ((a, (key, item)) :: l). autorewrite with heap_eqs. rewrite insert_insert_eq.
  split_and!; [by rewrite fmap_cons, Hi| |by apply owns_cons|by rewrite Hcnt].
  simpl. split_and!; [done..|]. exists (head c). split; [apply lookup_insert_eq|].
  eapply lseg_frame; [|exact Hl]. intros b Hb. rewrite lookup_insert_ne; [done|].
  intros <-. by apply (owns_fresh _ _ _ Ho Hfresh).
Qed.

Lemma remove_key_skip key (l1 l2 : list (Z * A)) :
  key ∉ l1.*1 -> remove_key key (l1 ++ l2) = l1 ++ remove_key key l2.
Proof.
  induction l1 as [|[k d] l1 IH]; simpl; intros Hk; [done|].
  destruct (Z.eqb_spec key k) as [->|_]; [set_solver|]. f_equal. apply IH. set_solver.
Qed.

(** One step of the unlinking: [l1] is behind, [(a, (k, d)) :: l2] ahead. *)
Lemma pop_found l1 a k d n l2 c (s : st) :
  lseg (nodes s) (head c) l1 a -> a <> NULL -> nodes s !! a = Some (mk_node k n d) ->
  lseg (nodes s) n l2 NULL -> owns (nodes s) (l1 ++ (a, (k, d)) :: l2) ->
  exists s' head', pop_loop 1 c (last_addr l1) a k s = Ok (Some d) s' /\
    l_ptr s' = Some (mk_sstruct head' (node_count c - 1)) /\
    lseg (nodes s') head' (l1 ++ l2) NULL /\ owns (nodes s') (l1 ++ l2).
Proof.
  intros Hs1 Ha0 Ha Hs2 Ho. cbn [pop_loop].
  destruct (Z.eqb_spec a NULL) as [|_]; [done|].
  unfold load_node at 1, bind, gets, demand. rewrite Ha. simpl. rewrite Z.eqb_refl.
  destruct l1 as [|[b [kb db]] l0 _] using rev_ind.
  - simpl in *. subst a. destruct (lseg_unlink_head _ _ _ _ _ _ Ha Hs2 Ho) as [Hl Ho'].
    unfold free_node, load_node, bind, gets, demand, modify, ret. rewrite Ha. simpl.
    eexists _, n. split_and!; [done| |done|done]. simpl. by destruct (Z.eqb_spec n NULL) as [->|].
  - rewrite last_addr_snoc.
    destruct (lseg_unlink _ _ _ _ _ _ _ _ _ _ _ Hs1 Ha Hs2 Ho) as [Hl Ho'].
    assert (Hb : b <> NULL /\ nodes s !! b = Some (mk_node kb a db)).
    { apply lseg_app in Hs1 as (m & _ & Hm). simpl in Hm.
      destruct Hm as (-> & ? & ? & ? & ->). done. }
    destruct Hb as [Hb0 Hb]. destruct (Z.eqb_spec b NULL) as [|_]; [done|].
    assert (Hab : a <> b).
    { intros ->. destruct Ho as [Hn _]. rewrite !fmap_app in Hn. simpl in Hn.
      apply NoDup_app in Hn as (_ & Hn & _). apply (Hn b); set_solver. }
    unfold store_next, free_node, load_node, bind, gets, demand, modify, ret.
    rewrite Hb. simpl. autorewrite with heap_eqs. rewrite lookup_insert_ne, Ha by done. simpl.
    eexists _, (head c). by split_and!.
Qed.

Lemma pop_loop_run l2 l1 fuel p c key (s : st) :
  lseg (nodes s) (head c) l1 p -> lseg (nodes s) p l2 NULL -> owns (nodes s) (l1 ++ l2) ->
  l_ptr s = Some c -> key ∉ l1.*2.*1 -> (length l2 <= fuel)%nat ->
  exists s', pop_loop fuel c (last_addr l1) p key s = Ok (key_lookup key l2.*2) s' /\
    match key_lookup key l2.*2 with
    | None => s' = s
    | Some _ => exists l head', l.*2 = remove_key key (l1.*2 ++ l2.*2) /\
        l_ptr s' = Some (mk_sstruct head' (node_count c - 1)) /\
        lseg (nodes s') head' l NULL /\ owns (nodes s') l
    end.
Proof.
  revert l1 fuel p. induction l2 as [|[a [k d]] l2 IH]; intros l1 fuel p Hs1 Hs2 Ho Hc Hk Hf.
  { simpl in Hs2. subst p. exists s. by destruct fuel. }
  destruct Hs2 as (-> & Ha0 & n & Ha & Hs2). destruct fuel as [|fuel]; [simpl in Hf; lia|].
  rewrite !fmap_cons. simpl. destruct (Z.eqb_spec key k) as [->|Hne].
  - destruct (pop_found _ _ _ _ _ _ _ _ Hs1 Ha0 Ha Hs2 Ho) as (s' & head' & E & H1 & H2 & H3).
    exists s'. split.
    + rewrite <- E. cbn [pop_loop]. destruct (a =? NULL); [done|].
      unfold bind. destruct (load_node a s) as [x s1| |] eqn:El; [|done..].
      unfold load_node, bind, gets, demand in El. rewrite Ha in El.
      injection El as <- <-. simpl. by rewrite Z.eqb_refl.
    + exists (l1 ++ l2), head'. split_and!; [|done..].
      rewrite remove_key_skip by done. simpl. by rewrite Z.eqb_refl, fmap_app.
  - destruct (Z.eqb_spec a NULL) as [|_]; [done|].
    unfold load_node, bind, gets, demand. rewrite Ha. simpl.
    destruct (Z.eqb_spec key k); [done|].
    specialize (IH (l1 ++ [(a, (k, d))]) fuel n). rewrite last_addr_snoc in IH.
    destruct IH as (s' & E & Hs').
    + apply lseg_app. exists a. split; [done|]. simpl. eauto.
    + done.
    + by rewrite <- app_assoc.
    + done.
    + rewrite !fmap_app. simpl. set_solver.
    + simpl in Hf. lia.
    + exists s'. split; [done|]. by rewrite !fmap_app, <- app_assoc in Hs'.
Qed.

Lemma set_pop_ok s q key :
  set_repr s q ->
  exists s' q', set_pop key s = Ok (spec_set_pop q key).1 s' /\
    q' = (spec_set_pop q key).2 /\ set_repr s' q'.
Proof.
  intros Hr. pose proof Hr as Hr0. unfold set_repr in Hr.
  unfold set_pop, spec_set_pop, bind, gets.
  destruct (l_ptr s) as [c|] eqn:Hc; destruct q as [q|]; try done; [|by exists s, None].
  destruct Hr as (l & Hi & Hl & Ho & Hcnt).
  destruct (key <? 0); [by exists s, (Some q)|].
  destruct (Z.eqb_spec (head c) NULL) as [Hh|Hh].
  { rewrite Hh in Hl. apply lseg_head_NULL in Hl as ->. rewrite <- Hi. by exists s, (Some q). }
  destruct (pop_loop_run l [] (size (nodes s)) (head c) c key s) as (s' & E & Hs');
    [done..|set_solver|by apply owns_fuel|].
  change (last_addr []) with NULL in E. rewrite E, <- Hi.
  destruct (key_lookup key l.*2) as [d|]; simpl.
  - destruct Hs' as (l' & head' & Hl' & Hp & Hseg & Ho').
    exists s'. eexists. split_and!; [done..|]. unfold set_repr. rewrite Hp. simpl.
    exists l'. by rewrite Hcnt.
  - subst s'. by exists s, (Some q).
Qed.

(** [set_iterate] visits every node once, head first, without touching the
    set. *)
Theorem set_iterate_visits {C} s q (arg : C) f :
  set_repr s (Some q) ->
  set_iterate arg (Some f) s = Ok (foldl (fun c n => f c n.1 n.2) arg (s_nodes q)) s.
Proof.
  unfold set_repr, set_iterate, bind, gets. destruct (l_ptr s) as [c|]; [|done].
  intros (l & Hi & Hl & Ho & _).
  rewrite (iterate_loop_run l) by eauto using owns_fuel. by rewrite Hi.
Qed.

Lemma set_delete_loop_run {C} l (arg : C) f fuel p (s : st) :
  lseg (nodes s) p l NULL -> owns (nodes s) l -> (length l <= fuel)%nat ->
  Forall (fun n => is_null n.2 = false) l.*2 ->
  exists s', set_delete_loop fuel p arg f s =
      Ok (match f with Some g => foldl (fun c d => g d c) arg l.*2.*2 | None => arg end) s' /\
    nodes s' = ∅.
Proof.
  revert fuel p arg s. induction l as [|[a [k d]] l IH]; intros fuel p arg s Hseg Ho Hfuel Hn0; simpl in *.
  - subst. exists s. destruct fuel; simpl; (split; [by destruct f|]);
      destruct Ho as [_ Hd]; by apply dom_empty_inv_L.
  - inversion Hn0 as [|?? Hd0 Hn1]; subst. simpl in Hd0.
    destruct Hseg as (-> & Ha & n & Hn & Hl). destruct fuel as [|fuel]; [lia|]. simpl.
    destruct (Z.eqb_spec a NULL) as [|_]; [done|].
    unfold free_node, load_node, bind, gets, demand, modify, ret at 1. rewrite Hn. simpl.
    rewrite Hn, Hd0. simpl.
    destruct (lseg_unlink_head _ _ _ _ _ _ Hn Hl Ho) as [Hl' Ho'].
    destruct (IH fuel n (match f with Some g => g d arg | None => arg end)
                (set_nodes (delete a (nodes s)) s)) as (s' & E & Hs'); [done|done|lia|done|].
    exists s'. rewrite E. by destruct f.
Qed.

(** [set_delete] frees every node and calls back on every item; a NULL set
    is dereferenced. *)
Theorem set_delete_frees {C} s q (arg : C) f :
  set_repr s (Some q) -> kset_wf q ->
  exists s', set_delete arg f s =
      Ok (match f with Some g => foldl (fun c d => g d c) arg (s_nodes q).*2 | None => arg end) s' /\
    nodes s' = ∅ /\ l_ptr s' = None.
Proof.
  unfold set_repr, set_delete, bind, gets. destruct (l_ptr s) as [c|]; [|done].
  intros (l & Hi & Hl & Ho & _) (_ & _ & Hwf).
  destruct (set_delete_loop_run l arg f (size (nodes s)) (head c) s) as (s' & E & Hs');
    [done|done|by apply owns_fuel| |].
  { rewrite Hi. eapply Forall_impl; [exact Hwf|]. naive_solver. }
  rewrite E. unfold modify, ret. eexists. rewrite <- Hi. by split_and!.
Qed.

(** [set_delete] of NULL, which [set.h] says is ignored, is undefined. *)
Theorem set_delete_null {C} (s : st) (arg : C) f : l_ptr s = None -> set_delete arg f s = Undef.
Proof. intros Hs. unfold set_delete, bind, gets. by rewrite Hs. Qed.

(** C17: the pointer code of [set_insert], [set_find] and [set_pop] implements
    the abstract set.  [set_insert] and [set_pop] return without undefined
    behaviour, with the result the abstract operation has for this answer of
    [malloc], in a heap that represents its set.  [set_find] returns what the
    abstract set has and changes nothing, except that when it does not find a
    key it prints it as a string: undefined if the message is printed and no
    string is there. *)
Theorem set_refines s q key item :
  set_repr s q ->
  (set_find key s = if find_faults q key then Undef else Ok (spec_set_find q key) s) /\
  (exists rc q' s', set_insert key item s = Ok rc s' /\
     spec_set_insert (next_malloc s) q key item = (rc, q') /\ set_repr s' q') /\
  (exists s' q', set_pop key s = Ok (spec_set_pop q key).1 s' /\
     q' = (spec_set_pop q key).2 /\ set_repr s' q').
Proof. intros Hr. split_and!; [by apply set_find_ok|by apply set_insert_ok|by apply set_pop_ok]. Qed.

(** A set is a finite map: after a successful [set_insert] the item is
    found under its key and everything else as before; [set_pop] gives it back
    and takes it out. *)
Theorem set_insert_pop s q key item s1 :
  set_repr s (Some q) -> kset_wf q -> set_insert key item s = Ok 0 s1 ->
  (forall k, string_ok k = true -> set_find k s1 =
     Ok (if decide (k = key) then Some item else spec_set_find (Some q) k) s1) /\
  exists s2, set_pop key s1 = Ok (Some item) s2 /\
    forall k, string_ok k = true -> set_find k s2 = Ok (spec_set_find (Some q) k) s2.
Proof.
  intros Hr Hwf E. destruct (set_insert_ok s (Some q) key item Hr) as (rc & q1 & s1' & E1 & Hs & Hr1).
  rewrite E in E1. injection E1 as <- <-.
  assert (exists q1', q1 = Some q1') as [q1' ->].
  { unfold spec_set_insert in Hs. destruct (negb _); [naive_solver|]. destruct (_ =? _); naive_solver. }
  pose proof (set_insert_wf _ _ _ _ _ _ Hwf Hs) as Hwf1.
  destruct (spec_set_insert_map _ _ _ _ _ _ Hs) as [(_ & Hnone & Hmap)|[Hrc _]];
    [|pose proof ERROR_neg; lia].
  split.
  - intros k Hk. rewrite (set_find_quiet s1 (Some q1') k Hr1 Hk), !spec_set_find_map, Hmap by done.
    f_equal. case_decide; subst; [by rewrite lookup_insert_eq|by rewrite lookup_insert_ne].
  - destruct (set_pop_ok s1 (Some q1') key Hr1) as (s2 & q2 & E2 & Hq2 & Hr2).
    destruct (spec_set_pop (Some q1') key) as [d q2'] eqn:Hp.
    cbn [fst snd] in *. subst q2'.
    assert (exists q2', q2 = Some q2') as [q2' ->].
    { simpl in Hp. repeat case_match_in Hp; injection Hp as _ <-; by eexists. }
    destruct (spec_set_pop_map _ _ _ _ Hwf1 Hp) as [-> Hmap2].
    exists s2. split; [by rewrite Hmap, lookup_insert_eq in E2|]. intros k Hk.
    rewrite (set_find_quiet s2 (Some q2') k Hr2 Hk), !spec_set_find_map by eauto using set_pop_wf.
    by rewrite Hmap2, Hmap, delete_insert_id.
Qed.
End Set_.

Section Witnesses.
Import DemoHardware.

Definition demo_set : lst sstruct Z :=
  mk_lst (Some (mk_sstruct NULL 0)) (mk_heap ∅ (fun n => 500 + Z.of_nat n) 0).

Lemma demo_set_repr : set_repr demo_set (Some empty_set).
Proof. exists []. split_and!; [done|done|split; [by apply NoDup_nil|apply dom_empty_L]|done]. Defined.

Lemma set_refines_witness :
  set_find 4 demo_set = Undef /\ exists q' s', set_insert 4 9 demo_set = Ok 0 s' /\ set_repr s' q'.
Proof.
  destruct (set_refines demo_set (Some empty_set) 4 9 demo_set_repr)
    as (Hf & (rc & q' & s' & E & Hs & Hr) & _).
  split; [exact Hf|]. exists q', s'. split; [|exact Hr]. rewrite E. by injection Hs as <- <-.
Defined.

Lemma set_insert_pop_witness :
  exists s1 s2, set_insert 4 9 demo_set = Ok 0 s1 /\ set_pop 4 s1 = Ok (Some 9) s2.
Proof.
  destruct (set_insert 4 9 demo_set) as [rc s1| |] eqn:E; [|discriminate..].
  assert (rc = 0) as -> by (vm_compute in E; by injection E).
  destruct (set_insert_pop demo_set empty_set 4 9 s1 demo_set_repr kset_wf_empty E)
    as (_ & s2 & E2 & _).
  by exists s1, s2.
Defined.

Lemma set_iterate_visits_witness :
  set_iterate 0 (Some (fun c _ d => c + d)) demo_set = Ok 0 demo_set.
Proof. apply (set_iterate_visits demo_set empty_set 0 _ demo_set_repr). Defined.

Lemma set_delete_frees_witness :
  exists s', set_delete 0 None demo_set = Ok 0 s' /\ nodes s' = ∅ /\ l_ptr s' = None.
Proof. apply (set_delete_frees demo_set empty_set 0 None demo_set_repr kset_wf_empty). Defined.

Lemma set_delete_null_witness :
  set_delete 0 None (mk_lst None (mk_heap (A:=Z) ∅ (fun _ => NULL) 0)) = Undef.
Proof. by apply set_delete_null. Defined.
End Witnesses.
