(* ===== verification/KState.v ===== *)
(** * Kernel state

    The data structures of [pcb.h], [lock.h], [cvar.h], [pipe.h],
    [ipc_wrapper.h], [tty_state.h] and the globals of [kernel.h], as one state
    record, and the primitive steps the kernel is written with: [malloc],
    access through a [pcb_t*], pushes and pops on the global queues and sets.

    Process control blocks are shared by pointer (a PCB can be in a queue, in
    a set and be [current_process]), so they live in a store indexed by
    address: access through NULL or through a freed PCB is undefined.  Objects
    with one owner (a lock's queue, a PCB's page table) are stored inside
    their owner, [None] being NULL. *)

From S2P Require Import Prelude Hardware Containers.
From stdpp Require Import list gmap fin_maps.
From Stdlib Require Import Strings.Byte.

#[local] Open Scope Z_scope.

(** ** Record updates: [r <| field := v |>] *)
Class Setter {R T : Type} (proj : R -> T) := setf : (T -> T) -> R -> R.
Arguments setf {R T} proj {_} g r.
Notation "r <| proj := v |>" := (setf proj (fun _ => v) r)
  (at level 12, left associativity, format "r  <| proj  :=  v |>").
Notation "r <| proj ::= g |>" := (setf proj g r)
  (at level 12, left associativity, format "r  <| proj  ::=  g |>").

(** ** Process states ([pcb.h]) *)
Definition READY : Z := 0.
Definition BLOCKED : Z := 1.
Definition RUNNING : Z := 2.
Definition DEAD : Z := 3.
Definition DELAYED : Z := 4.

(** ** IPC constants ([ipc_wrapper.h], [kernel.h]) *)
Definition MAX_LOCKS : Z := 16.
Definition MAX_CVARS : Z := 16.
Definition MAX_PIPES : Z := 16.
Definition MAX_PROCESSES : Z := 128.
Definition UNLOCKED : Z := -1.
Definition ACQUIRE_SUCCESS : Z := 0.
Definition ACQUIRE_BLOCKED : Z := 1.
Definition RELEASE_QUEUE_EMPTY : Z := 0.
Definition RELEASE_NEW_OWNER : Z := 1.

(** ** Kernel contexts

    A [KernelContext] together with the kernel stack it runs on is the rest of
    the kernel code a process has to execute when it is switched to: the code
    after the [KernelContextSwitch] call it is suspended in.  The kernel
    suspends in [ScheduleNextProcess] and in [KCCopy] only, so these are the
    possible continuations. *)
Inductive kont :=
| K_user                                   (* the trap handler has returned *)
| K_syscall (rc : Z)                       (* a system call handler returns rc *)
| K_wait (status_ptr : ptr) (store : bool) (* WaitHandler, loop test *)
| K_pipe_write (pipe_id : Z) (buf : ptr) (len : Z)  (* pipe_write, loop test *)
| K_pipe_read (pipe_id : Z) (buf : ptr) (len : Z)   (* pipe_read, loop test *)
| K_tty_read (tty_id : Z) (buf : ptr)      (* TtyReadHandler, after blocking *)
| K_tty_write (tty_id : Z) (buf : ptr) (len : Z)    (* TtyWriteHandler, loop test *)
| K_tty_chunk (tty_id : Z) (r0_write_buffer : list byte) (len start_byte : Z)
                                           (* TtyWriteHandler, chunk transmitted *)
| K_fork (new_pid : Z)                     (* ForkHandler, after KCCopy *)
| K_clock                                  (* TrapClockHandler, after scheduling *)
| K_boot.                                  (* KernelStart, after KCCopy *)

(** A [KernelContext*]: its address and, once written, its contents. *)
Record kctx := mk_kctx { kc_addr : ptr; kc_saved : option kont }.

(** A [malloc]ed byte buffer. *)
Record blk := mk_blk { b_addr : ptr; b_bytes : list byte }.

(** An [int*] of the free frame queue: a [malloc]ed cell with a frame number,
    or the address of a local variable of a function that has returned. *)
Inductive frame_ptr := FrameCell (pfn : Z) | FrameLocal.

#[export] Instance frame_ptr_eq_dec : EqDecision frame_ptr.
Proof. solve_decision. Defined.

#[export] Instance frame_ptr_nullable : Nullable frame_ptr := fun _ => false.

(** [pcb_t] *)
Record pcb_t := mk_pcb {
  p_state : Z;
  p_waiting : Z;
  p_pid : Z;
  p_current_brk : Z;
  p_delay_ticks : Z;
  p_exit_status : Z;
  p_child_exit_status : Z;
  p_parent : ptr;
  p_children : option (set_t ptr);
  p_zombies : option (set_t ptr);
  p_page_table : option (list pte);
  p_usr_ctx : option UserContext;
  p_krn_ctx : option kctx;
  p_kernel_stack_pages : option (list pte);
  p_tty_read_buffer_r0 : option blk;
  p_tty_read_buffer_r1 : ptr;
  p_tty_has_bytes : Z;
  p_tty_num_bytes_requested : Z;
  p_tty_num_bytes_read : Z;
  p_tty_write_waiting : Z }.

(** [lock_t] *)
Record lock_t := mk_lock {
  lock_id : Z;
  owner : Z;
  lock_blocked : option (queue_t ptr) }.

(** [cvar_t] *)
Record cvar_t := mk_cvar {
  cvar_id : Z;
  cvar_blocked : option (queue_t ptr) }.

(** [pipe_t] *)
Record pipe_t := mk_pipe {
  pipe_id : Z;
  pipe_buffer : list byte;
  num_bytes_available : Z;
  readers : option (queue_t ptr);
  writers : option (set_t ptr) }.

#[export] Instance lock_nullable : Nullable lock_t := fun _ => false.
#[export] Instance cvar_nullable : Nullable cvar_t := fun _ => false.
#[export] Instance pipe_nullable : Nullable pipe_t := fun _ => false.

(** [ipc_wrapper_t] *)
Record ipc_wrapper_t := mk_ipc {
  next_ipc_id : Z;
  locks : option (set_t lock_t);
  cvars : option (set_t cvar_t);
  pipes : option (set_t pipe_t) }.

(** [tty_state_t]: one entry per terminal in each array. *)
Record tty_state_t := mk_tty {
  write_queues : list (option (queue_t ptr));
  availability : list Z;
  curr_writers : list ptr;
  curr_readers : list (option (set_t ptr));
  buffers : list (list byte);
  bytes_available : list Z }.

(** The page table [REG_PTBR1] points to: the boot table, or a process's. *)
Inductive ptbr1 := Pt_boot | Pt_pcb (p : ptr).

(** The globals of the kernel, its heap of PCBs, the allocator ([malloc_at n]
    is the answer of the n-th [malloc], NULL when memory is exhausted), the
    user context the hardware restores, and the machine. *)
Record kst {hw : Hardware} := mk_kst {
  pcbs : gmap Z pcb_t;
  malloc_at : nat -> ptr;
  mallocs : nat;
  current_process : ptr;
  init_process : ptr;
  idle_process : ptr;
  process_ready_queue : option (queue_t ptr);
  delayed_pcbs : option (set_t ptr);
  dead_pcbs : option (set_t ptr);
  blocked_pcbs : option (set_t ptr);
  free_frame_queue : option (queue_t frame_ptr);
  region_0_pages : list pte;
  region_1_pages : list pte;
  reg_ptbr1 : ptbr1;
  virtual_mem_enabled : Z;
  kernel_brk_offset : Z;
  ipc_wrapper : option ipc_wrapper_t;
  current_tty_state : option tty_state_t;
  user_context : UserContext;
  umem : hw_mem;
  pids : pid_state;
  trace : list io_event }.
Arguments mk_kst {hw}.

#[export] Instance set_p_state : Setter p_state := fun g r =>
  mk_pcb (g (p_state r)) (p_waiting r) (p_pid r) (p_current_brk r) (p_delay_ticks r) (p_exit_status r) (p_child_exit_status r) (p_parent r) (p_children r) (p_zombies r) (p_page_table r) (p_usr_ctx r) (p_krn_ctx r) (p_kernel_stack_pages r) (p_tty_read_buffer_r0 r) (p_tty_read_buffer_r1 r) (p_tty_has_bytes r) (p_tty_num_bytes_requested r) (p_tty_num_bytes_read r) (p_tty_write_waiting r).
#[export] Instance set_p_waiting : Setter p_waiting := fun g r =>
  mk_pcb (p_state r) (g (p_waiting r)) (p_pid r) (p_current_brk r) (p_delay_ticks r) (p_exit_status r) (p_child_exit_status r) (p_parent r) (p_children r) (p_zombies r) (p_page_table r) (p_usr_ctx r) (p_krn_ctx r) (p_kernel_stack_pages r) (p_tty_read_buffer_r0 r) (p_tty_read_buffer_r1 r) (p_tty_has_bytes r) (p_tty_num_bytes_requested r) (p_tty_num_bytes_read r) (p_tty_write_waiting r).
#[export] Instance set_p_pid : Setter p_pid := fun g r =>
  mk_pcb (p_state r) (p_waiting r) (g (p_pid r)) (p_current_brk r) (p_delay_ticks r) (p_exit_status r) (p_child_exit_status r) (p_parent r) (p_children r) (p_zombies r) (p_page_table r) (p_usr_ctx r) (p_krn_ctx r) (p_kernel_stack_pages r) (p_tty_read_buffer_r0 r) (p_tty_read_buffer_r1 r) (p_tty_has_bytes r) (p_tty_num_bytes_requested r) (p_tty_num_bytes_read r) (p_tty_write_waiting r).
#[export] Instance set_p_current_brk : Setter p_current_brk := fun g r =>
  mk_pcb (p_state r) (p_waiting r) (p_pid r) (g (p_current_brk r)) (p_delay_ticks r) (p_exit_status r) (p_child_exit_status r) (p_parent r) (p_children r) (p_zombies r) (p_page_table r) (p_usr_ctx r) (p_krn_ctx r) (p_kernel_stack_pages r) (p_tty_read_buffer_r0 r) (p_tty_read_buffer_r1 r) (p_tty_has_bytes r) (p_tty_num_bytes_requested r) (p_tty_num_bytes_read r) (p_tty_write_waiting r).
#[export] Instance set_p_delay_ticks : Setter p_delay_ticks := fun g r =>
  mk_pcb (p_state r) (p_waiting r) (p_pid r) (p_current_brk r) (g (p_delay_ticks r)) (p_exit_status r) (p_child_exit_status r) (p_parent r) (p_children r) (p_zombies r) (p_page_table r) (p_usr_ctx r) (p_krn_ctx r) (p_kernel_stack_pages r) (p_tty_read_buffer_r0 r) (p_tty_read_buffer_r1 r) (p_tty_has_bytes r) (p_tty_num_bytes_requested r) (p_tty_num_bytes_read r) (p_tty_write_waiting r).
#[export] Instance set_p_exit_status : Setter p_exit_status := fun g r =>
  mk_pcb (p_state r) (p_waiting r) (p_pid r) (p_current_brk r) (p_delay_ticks r) (g (p_exit_status r)) (p_child_exit_status r) (p_parent r) (p_children r) (p_zombies r) (p_page_table r) (p_usr_ctx r) (p_krn_ctx r) (p_kernel_stack_pages r) (p_tty_read_buffer_r0 r) (p_tty_read_buffer_r1 r) (p_tty_has_bytes r) (p_tty_num_bytes_requested r) (p_tty_num_bytes_read r) (p_tty_write_waiting r).
#[export] Instance set_p_child_exit_status : Setter p_child_exit_status := fun g r =>
  mk_pcb (p_state r) (p_waiting r) (p_pid r) (p_current_brk r) (p_delay_ticks r) (p_exit_status r) (g (p_child_exit_status r)) (p_parent r) (p_children r) (p_zombies r) (p_page_table r) (p_usr_ctx r) (p_krn_ctx r) (p_kernel_stack_pages r) (p_tty_read_buffer_r0 r) (p_tty_read_buffer_r1 r) (p_tty_has_bytes r) (p_tty_num_bytes_requested r) (p_tty_num_bytes_read r) (p_tty_write_waiting r).
#[export] Instance set_p_parent : Setter p_parent := fun g r =>
  mk_pcb (p_state r) (p_waiting r) (p_pid r) (p_current_brk r) (p_delay_ticks r) (p_exit_status r) (p_child_exit_status r) (g (p_parent r)) (p_children r) (p_zombies r) (p_page_table r) (p_usr_ctx r) (p_krn_ctx r) (p_kernel_stack_pages r) (p_tty_read_buffer_r0 r) (p_tty_read_buffer_r1 r) (p_tty_has_bytes r) (p_tty_num_bytes_requested r) (p_tty_num_bytes_read r) (p_tty_write_waiting r).
#[export] Instance set_p_children : Setter p_children := fun g r =>
  mk_pcb (p_state r) (p_waiting r) (p_pid r) (p_current_brk r) (p_delay_ticks r) (p_exit_status r) (p_child_exit_status r) (p_parent r) (g (p_children r)) (p_zombies r) (p_page_table r) (p_usr_ctx r) (p_krn_ctx r) (p_kernel_stack_pages r) (p_tty_read_buffer_r0 r) (p_tty_read_buffer_r1 r) (p_tty_has_bytes r) (p_tty_num_bytes_requested r) (p_tty_num_bytes_read r) (p_tty_write_waiting r).
#[export] Instance set_p_zombies : Setter p_zombies := fun g r =>
  mk_pcb (p_state r) (p_waiting r) (p_pid r) (p_current_brk r) (p_delay_ticks r) (p_exit_status r) (p_child_exit_status r) (p_parent r) (p_children r) (g (p_zombies r)) (p_page_table r) (p_usr_ctx r) (p_krn_ctx r) (p_kernel_stack_pages r) (p_tty_read_buffer_r0 r) (p_tty_read_buffer_r1 r) (p_tty_has_bytes r) (p_tty_num_bytes_requested r) (p_tty_num_bytes_read r) (p_tty_write_waiting r).
#[export] Instance set_p_page_table : Setter p_page_table := fun g r =>
  mk_pcb (p_state r) (p_waiting r) (p_pid r) (p_current_brk r) (p_delay_ticks r) (p_exit_status r) (p_child_exit_status r) (p_parent r) (p_children r) (p_zombies r) (g (p_page_table r)) (p_usr_ctx r) (p_krn_ctx r) (p_kernel_stack_pages r) (p_tty_read_buffer_r0 r) (p_tty_read_buffer_r1 r) (p_tty_has_bytes r) (p_tty_num_bytes_requested r) (p_tty_num_bytes_read r) (p_tty_write_waiting r).
#[export] Instance set_p_usr_ctx : Setter p_usr_ctx := fun g r =>
  mk_pcb (p_state r) (p_waiting r) (p_pid r) (p_current_brk r) (p_delay_ticks r) (p_exit_status r) (p_child_exit_status r) (p_parent r) (p_children r) (p_zombies r) (p_page_table r) (g (p_usr_ctx r)) (p_krn_ctx r) (p_kernel_stack_pages r) (p_tty_read_buffer_r0 r) (p_tty_read_buffer_r1 r) (p_tty_has_bytes r) (p_tty_num_bytes_requested r) (p_tty_num_bytes_read r) (p_tty_write_waiting r).
#[export] Instance set_p_krn_ctx : Setter p_krn_ctx := fun g r =>
  mk_pcb (p_state r) (p_waiting r) (p_pid r) (p_current_brk r) (p_delay_ticks r) (p_exit_status r) (p_child_exit_status r) (p_parent r) (p_children r) (p_zombies r) (p_page_table r) (p_usr_ctx r) (g (p_krn_ctx r)) (p_kernel_stack_pages r) (p_tty_read_buffer_r0 r) (p_tty_read_buffer_r1 r) (p_tty_has_bytes r) (p_tty_num_bytes_requested r) (p_tty_num_bytes_read r) (p_tty_write_waiting r).
#[export] Instance set_p_kernel_stack_pages : Setter p_kernel_stack_pages := fun g r =>
  mk_pcb (p_state r) (p_waiting r) (p_pid r) (p_current_brk r) (p_delay_ticks r) (p_exit_status r) (p_child_exit_status r) (p_parent r) (p_children r) (p_zombies r) (p_page_table r) (p_usr_ctx r) (p_krn_ctx r) (g (p_kernel_stack_pages r)) (p_tty_read_buffer_r0 r) (p_tty_read_buffer_r1 r) (p_tty_has_bytes r) (p_tty_num_bytes_requested r) (p_tty_num_bytes_read r) (p_tty_write_waiting r).
#[export] Instance set_p_tty_read_buffer_r0 : Setter p_tty_read_buffer_r0 := fun g r =>
  mk_pcb (p_state r) (p_waiting r) (p_pid r) (p_current_brk r) (p_delay_ticks r) (p_exit_status r) (p_child_exit_status r) (p_parent r) (p_children r) (p_zombies r) (p_page_table r) (p_usr_ctx r) (p_krn_ctx r) (p_kernel_stack_pages r) (g (p_tty_read_buffer_r0 r)) (p_tty_read_buffer_r1 r) (p_tty_has_bytes r) (p_tty_num_bytes_requested r) (p_tty_num_bytes_read r) (p_tty_write_waiting r).
#[export] Instance set_p_tty_read_buffer_r1 : Setter p_tty_read_buffer_r1 := fun g r =>
  mk_pcb (p_state r) (p_waiting r) (p_pid r) (p_current_brk r) (p_delay_ticks r) (p_exit_status r) (p_child_exit_status r) (p_parent r) (p_children r) (p_zombies r) (p_page_table r) (p_usr_ctx r) (p_krn_ctx r) (p_kernel_stack_pages r) (p_tty_read_buffer_r0 r) (g (p_tty_read_buffer_r1 r)) (p_tty_has_bytes r) (p_tty_num_bytes_requested r) (p_tty_num_bytes_read r) (p_tty_write_waiting r).
#[export] Instance set_p_tty_has_bytes : Setter p_tty_has_bytes := fun g r =>
  mk_pcb (p_state r) (p_waiting r) (p_pid r) (p_current_brk r) (p_delay_ticks r) (p_exit_status r) (p_child_exit_status r) (p_parent r) (p_children r) (p_zombies r) (p_page_table r) (p_usr_ctx r) (p_krn_ctx r) (p_kernel_stack_pages r) (p_tty_read_buffer_r0 r) (p_tty_read_buffer_r1 r) (g (p_tty_has_bytes r)) (p_tty_num_bytes_requested r) (p_tty_num_bytes_read r) (p_tty_write_waiting r).
#[export] Instance set_p_tty_num_bytes_requested : Setter p_tty_num_bytes_requested := fun g r =>
  mk_pcb (p_state r) (p_waiting r) (p_pid r) (p_current_brk r) (p_delay_ticks r) (p_exit_status r) (p_child_exit_status r) (p_parent r) (p_children r) (p_zombies r) (p_page_table r) (p_usr_ctx r) (p_krn_ctx r) (p_kernel_stack_pages r) (p_tty_read_buffer_r0 r) (p_tty_read_buffer_r1 r) (p_tty_has_bytes r) (g (p_tty_num_bytes_requested r)) (p_tty_num_bytes_read r) (p_tty_write_waiting r).
#[export] Instance set_p_tty_num_bytes_read : Setter p_tty_num_bytes_read := fun g r =>
  mk_pcb (p_state r) (p_waiting r) (p_pid r) (p_current_brk r) (p_delay_ticks r) (p_exit_status r) (p_child_exit_status r) (p_parent r) (p_children r) (p_zombies r) (p_page_table r) (p_usr_ctx r) (p_krn_ctx r) (p_kernel_stack_pages r) (p_tty_read_buffer_r0 r) (p_tty_read_buffer_r1 r) (p_tty_has_bytes r) (p_tty_num_bytes_requested r) (g (p_tty_num_bytes_read r)) (p_tty_write_waiting r).
#[export] Instance set_p_tty_write_waiting : Setter p_tty_write_waiting := fun g r =>
  mk_pcb (p_state r) (p_waiting r) (p_pid r) (p_current_brk r) (p_delay_ticks r) (p_exit_status r) (p_child_exit_status r) (p_parent r) (p_children r) (p_zombies r) (p_page_table r) (p_usr_ctx r) (p_krn_ctx r) (p_kernel_stack_pages r) (p_tty_read_buffer_r0 r) (p_tty_read_buffer_r1 r) (p_tty_has_bytes r) (p_tty_num_bytes_requested r) (p_tty_num_bytes_read r) (g (p_tty_write_waiting r)).

#[export] Instance set_lock_id : Setter lock_id := fun g r =>
  mk_lock (g (lock_id r)) (owner r) (lock_blocked r).
#[export] Instance set_owner : Setter owner := fun g r =>
  mk_lock (lock_id r) (g (owner r)) (lock_blocked r).
#[export] Instance set_lock_blocked : Setter lock_blocked := fun g r =>
  mk_lock (lock_id r) (owner r) (g (lock_blocked r)).

#[export] Instance set_cvar_id : Setter cvar_id := fun g r =>
  mk_cvar (g (cvar_id r)) (cvar_blocked r).
#[export] Instance set_cvar_blocked : Setter cvar_blocked := fun g r =>
  mk_cvar (cvar_id r) (g (cvar_blocked r)).

#[export] Instance set_pipe_id : Setter pipe_id := fun g r =>
  mk_pipe (g (pipe_id r)) (pipe_buffer r) (num_bytes_available r) (readers r) (writers r).
#[export] Instance set_pipe_buffer : Setter pipe_buffer := fun g r =>
  mk_pipe (pipe_id r) (g (pipe_buffer r)) (num_bytes_available r) (readers r) (writers r).
#[export] Instance set_num_bytes_available : Setter num_bytes_available := fun g r =>
  mk_pipe (pipe_id r) (pipe_buffer r) (g (num_bytes_available r)) (readers r) (writers r).
#[export] Instance set_readers : Setter readers := fun g r =>
  mk_pipe (pipe_id r) (pipe_buffer r) (num_bytes_available r) (g (readers r)) (writers r).
#[export] Instance set_writers : Setter writers := fun g r =>
  mk_pipe (pipe_id r) (pipe_buffer r) (num_bytes_available r) (readers r) (g (writers r)).

#[export] Instance set_next_ipc_id : Setter next_ipc_id := fun g r =>
  mk_ipc (g (next_ipc_id r)) (locks r) (cvars r) (pipes r).
#[export] Instance set_locks : Setter locks := fun g r =>
  mk_ipc (next_ipc_id r) (g (locks r)) (cvars r) (pipes r).
#[export] Instance set_cvars : Setter cvars := fun g r =>
  mk_ipc (next_ipc_id r) (locks r) (g (cvars r)) (pipes r).
#[export] Instance set_pipes : Setter pipes := fun g r =>
  mk_ipc (next_ipc_id r) (locks r) (cvars r) (g (pipes r)).

#[export] Instance set_write_queues : Setter write_queues := fun g r =>
  mk_tty (g (write_queues r)) (availability r) (curr_writers r) (curr_readers r) (buffers r) (bytes_available r).
#[export] Instance set_availability : Setter availability := fun g r =>
  mk_tty (write_queues r) (g (availability r)) (curr_writers r) (curr_readers r) (buffers r) (bytes_available r).
#[export] Instance set_curr_writers : Setter curr_writers := fun g r =>
  mk_tty (write_queues r) (availability r) (g (curr_writers r)) (curr_readers r) (buffers r) (bytes_available r).
#[export] Instance set_curr_readers : Setter curr_readers := fun g r =>
  mk_tty (write_queues r) (availability r) (curr_writers r) (g (curr_readers r)) (buffers r) (bytes_available r).
#[export] Instance set_buffers : Setter buffers := fun g r =>
  mk_tty (write_queues r) (availability r) (curr_writers r) (curr_readers r) (g (buffers r)) (bytes_available r).
#[export] Instance set_bytes_available : Setter bytes_available := fun g r =>
  mk_tty (write_queues r) (availability r) (curr_writers r) (curr_readers r) (buffers r) (g (bytes_available r)).

#[export] Instance set_pcbs {hw : Hardware} : Setter pcbs := fun g r =>
  mk_kst (g (pcbs r)) (malloc_at r) (mallocs r) (current_process r) (init_process r) (idle_process r) (process_ready_queue r) (delayed_pcbs r) (dead_pcbs r) (blocked_pcbs r) (free_frame_queue r) (region_0_pages r) (region_1_pages r) (reg_ptbr1 r) (virtual_mem_enabled r) (kernel_brk_offset r) (ipc_wrapper r) (current_tty_state r) (user_context r) (umem r) (pids r) (trace r).
#[export] Instance set_malloc_at {hw : Hardware} : Setter malloc_at := fun g r =>
  mk_kst (pcbs r) (g (malloc_at r)) (mallocs r) (current_process r) (init_process r) (idle_process r) (process_ready_queue r) (delayed_pcbs r) (dead_pcbs r) (blocked_pcbs r) (free_frame_queue r) (region_0_pages r) (region_1_pages r) (reg_ptbr1 r) (virtual_mem_enabled r) (kernel_brk_offset r) (ipc_wrapper r) (current_tty_state r) (user_context r) (umem r) (pids r) (trace r).
#[export] Instance set_mallocs {hw : Hardware} : Setter mallocs := fun g r =>
  mk_kst (pcbs r) (malloc_at r) (g (mallocs r)) (current_process r) (init_process r) (idle_process r) (process_ready_queue r) (delayed_pcbs r) (dead_pcbs r) (blocked_pcbs r) (free_frame_queue r) (region_0_pages r) (region_1_pages r) (reg_ptbr1 r) (virtual_mem_enabled r) (kernel_brk_offset r) (ipc_wrapper r) (current_tty_state r) (user_context r) (umem r) (pids r) (trace r).
#[export] Instance set_current_process {hw : Hardware} : Setter current_process := fun g r =>
  mk_kst (pcbs r) (malloc_at r) (mallocs r) (g (current_process r)) (init_process r) (idle_process r) (process_ready_queue r) (delayed_pcbs r) (dead_pcbs r) (blocked_pcbs r) (free_frame_queue r) (region_0_pages r) (region_1_pages r) (reg_ptbr1 r) (virtual_mem_enabled r) (kernel_brk_offset r) (ipc_wrapper r) (current_tty_state r) (user_context r) (umem r) (pids r) (trace r).
#[export] Instance set_init_process {hw : Hardware} : Setter init_process := fun g r =>
  mk_kst (pcbs r) (malloc_at r) (mallocs r) (current_process r) (g (init_process r)) (idle_process r) (process_ready_queue r) (delayed_pcbs r) (dead_pcbs r) (blocked_pcbs r) (free_frame_queue r) (region_0_pages r) (region_1_pages r) (reg_ptbr1 r) (virtual_mem_enabled r) (kernel_brk_offset r) (ipc_wrapper r) (current_tty_state r) (user_context r) (umem r) (pids r) (trace r).
#[export] Instance set_idle_process {hw : Hardware} : Setter idle_process := fun g r =>
  mk_kst (pcbs r) (malloc_at r) (mallocs r) (current_process r) (init_process r) (g (idle_process r)) (process_ready_queue r) (delayed_pcbs r) (dead_pcbs r) (blocked_pcbs r) (free_frame_queue r) (region_0_pages r) (region_1_pages r) (reg_ptbr1 r) (virtual_mem_enabled r) (kernel_brk_offset r) (ipc_wrapper r) (current_tty_state r) (user_context r) (umem r) (pids r) (trace r).
#[export] Instance set_process_ready_queue {hw : Hardware} : Setter process_ready_queue := fun g r =>
  mk_kst (pcbs r) (malloc_at r) (mallocs r) (current_process r) (init_process r) (idle_process r) (g (process_ready_queue r)) (delayed_pcbs r) (dead_pcbs r) (blocked_pcbs r) (free_frame_queue r) (region_0_pages r) (region_1_pages r) (reg_ptbr1 r) (virtual_mem_enabled r) (kernel_brk_offset r) (ipc_wrapper r) (current_tty_state r) (user_context r) (umem r) (pids r) (trace r).
#[export] Instance set_delayed_pcbs {hw : Hardware} : Setter delayed_pcbs := fun g r =>
  mk_kst (pcbs r) (malloc_at r) (mallocs r) (current_process r) (init_process r) (idle_process r) (process_ready_queue r) (g (delayed_pcbs r)) (dead_pcbs r) (blocked_pcbs r) (free_frame_queue r) (region_0_pages r) (region_1_pages r) (reg_ptbr1 r) (virtual_mem_enabled r) (kernel_brk_offset r) (ipc_wrapper r) (current_tty_state r) (user_context r) (umem r) (pids r) (trace r).
#[export] Instance set_dead_pcbs {hw : Hardware} : Setter dead_pcbs := fun g r =>
  mk_kst (pcbs r) (malloc_at r) (mallocs r) (current_process r) (init_process r) (idle_process r) (process_ready_queue r) (delayed_pcbs r) (g (dead_pcbs r)) (blocked_pcbs r) (free_frame_queue r) (region_0_pages r) (region_1_pages r) (reg_ptbr1 r) (virtual_mem_enabled r) (kernel_brk_offset r) (ipc_wrapper r) (current_tty_state r) (user_context r) (umem r) (pids r) (trace r).
#[export] Instance set_blocked_pcbs {hw : Hardware} : Setter blocked_pcbs := fun g r =>
  mk_kst (pcbs r) (malloc_at r) (mallocs r) (current_process r) (init_process r) (idle_process r) (process_ready_queue r) (delayed_pcbs r) (dead_pcbs r) (g (blocked_pcbs r)) (free_frame_queue r) (region_0_pages r) (region_1_pages r) (reg_ptbr1 r) (virtual_mem_enabled r) (kernel_brk_offset r) (ipc_wrapper r) (current_tty_state r) (user_context r) (umem r) (pids r) (trace r).
#[export] Instance set_free_frame_queue {hw : Hardware} : Setter free_frame_queue := fun g r =>
  mk_kst (pcbs r) (malloc_at r) (mallocs r) (current_process r) (init_process r) (idle_process r) (process_ready_queue r) (delayed_pcbs r) (dead_pcbs r) (blocked_pcbs r) (g (free_frame_queue r)) (region_0_pages r) (region_1_pages r) (reg_ptbr1 r) (virtual_mem_enabled r) (kernel_brk_offset r) (ipc_wrapper r) (current_tty_state r) (user_context r) (umem r) (pids r) (trace r).
#[export] Instance set_region_0_pages {hw : Hardware} : Setter region_0_pages := fun g r =>
  mk_kst (pcbs r) (malloc_at r) (mallocs r) (current_process r) (init_process r) (idle_process r) (process_ready_queue r) (delayed_pcbs r) (dead_pcbs r) (blocked_pcbs r) (free_frame_queue r) (g (region_0_pages r)) (region_1_pages r) (reg_ptbr1 r) (virtual_mem_enabled r) (kernel_brk_offset r) (ipc_wrapper r) (current_tty_state r) (user_context r) (umem r) (pids r) (trace r).
#[export] Instance set_region_1_pages {hw : Hardware} : Setter region_1_pages := fun g r =>
  mk_kst (pcbs r) (malloc_at r) (mallocs r) (current_process r) (init_process r) (idle_process r) (process_ready_queue r) (delayed_pcbs r) (dead_pcbs r) (blocked_pcbs r) (free_frame_queue r) (region_0_pages r) (g (region_1_pages r)) (reg_ptbr1 r) (virtual_mem_enabled r) (kernel_brk_offset r) (ipc_wrapper r) (current_tty_state r) (user_context r) (umem r) (pids r) (trace r).
#[export] Instance set_reg_ptbr1 {hw : Hardware} : Setter reg_ptbr1 := fun g r =>
  mk_kst (pcbs r) (malloc_at r) (mallocs r) (current_process r) (init_process r) (idle_process r) (process_ready_queue r) (delayed_pcbs r) (dead_pcbs r) (blocked_pcbs r) (free_frame_queue r) (region_0_pages r) (region_1_pages r) (g (reg_ptbr1 r)) (virtual_mem_enabled r) (kernel_brk_offset r) (ipc_wrapper r) (current_tty_state r) (user_context r) (umem r) (pids r) (trace r).
#[export] Instance set_virtual_mem_enabled {hw : Hardware} : Setter virtual_mem_enabled := fun g r =>
  mk_kst (pcbs r) (malloc_at r) (mallocs r) (current_process r) (init_process r) (idle_process r) (process_ready_queue r) (delayed_pcbs r) (dead_pcbs r) (blocked_pcbs r) (free_frame_queue r) (region_0_pages r) (region_1_pages r) (reg_ptbr1 r) (g (virtual_mem_enabled r)) (kernel_brk_offset r) (ipc_wrapper r) (current_tty_state r) (user_context r) (umem r) (pids r) (trace r).
#[export] Instance set_kernel_brk_offset {hw : Hardware} : Setter kernel_brk_offset := fun g r =>
  mk_kst (pcbs r) (malloc_at r) (mallocs r) (current_process r) (init_process r) (idle_process r) (process_ready_queue r) (delayed_pcbs r) (dead_pcbs r) (blocked_pcbs r) (free_frame_queue r) (region_0_pages r) (region_1_pages r) (reg_ptbr1 r) (virtual_mem_enabled r) (g (kernel_brk_offset r)) (ipc_wrapper r) (current_tty_state r) (user_context r) (umem r) (pids r) (trace r).
#[export] Instance set_ipc_wrapper {hw : Hardware} : Setter ipc_wrapper := fun g r =>
  mk_kst (pcbs r) (malloc_at r) (mallocs r) (current_process r) (init_process r) (idle_process r) (process_ready_queue r) (delayed_pcbs r) (dead_pcbs r) (blocked_pcbs r) (free_frame_queue r) (region_0_pages r) (region_1_pages r) (reg_ptbr1 r) (virtual_mem_enabled r) (kernel_brk_offset r) (g (ipc_wrapper r)) (current_tty_state r) (user_context r) (umem r) (pids r) (trace r).
#[export] Instance set_current_tty_state {hw : Hardware} : Setter current_tty_state := fun g r =>
  mk_kst (pcbs r) (malloc_at r) (mallocs r) (current_process r) (init_process r) (idle_process r) (process_ready_queue r) (delayed_pcbs r) (dead_pcbs r) (blocked_pcbs r) (free_frame_queue r) (region_0_pages r) (region_1_pages r) (reg_ptbr1 r) (virtual_mem_enabled r) (kernel_brk_offset r) (ipc_wrapper r) (g (current_tty_state r)) (user_context r) (umem r) (pids r) (trace r).
#[export] Instance set_user_context {hw : Hardware} : Setter user_context := fun g r =>
  mk_kst (pcbs r) (malloc_at r) (mallocs r) (current_process r) (init_process r) (idle_process r) (process_ready_queue r) (delayed_pcbs r) (dead_pcbs r) (blocked_pcbs r) (free_frame_queue r) (region_0_pages r) (region_1_pages r) (reg_ptbr1 r) (virtual_mem_enabled r) (kernel_brk_offset r) (ipc_wrapper r) (current_tty_state r) (g (user_context r)) (umem r) (pids r) (trace r).
#[export] Instance set_umem {hw : Hardware} : Setter umem := fun g r =>
  mk_kst (pcbs r) (malloc_at r) (mallocs r) (current_process r) (init_process r) (idle_process r) (process_ready_queue r) (delayed_pcbs r) (dead_pcbs r) (blocked_pcbs r) (free_frame_queue r) (region_0_pages r) (region_1_pages r) (reg_ptbr1 r) (virtual_mem_enabled r) (kernel_brk_offset r) (ipc_wrapper r) (current_tty_state r) (user_context r) (g (umem r)) (pids r) (trace r).
#[export] Instance set_pids {hw : Hardware} : Setter pids := fun g r =>
  mk_kst (pcbs r) (malloc_at r) (mallocs r) (current_process r) (init_process r) (idle_process r) (process_ready_queue r) (delayed_pcbs r) (dead_pcbs r) (blocked_pcbs r) (free_frame_queue r) (region_0_pages r) (region_1_pages r) (reg_ptbr1 r) (virtual_mem_enabled r) (kernel_brk_offset r) (ipc_wrapper r) (current_tty_state r) (user_context r) (umem r) (g (pids r)) (trace r).
#[export] Instance set_trace {hw : Hardware} : Setter trace := fun g r =>
  mk_kst (pcbs r) (malloc_at r) (mallocs r) (current_process r) (init_process r) (idle_process r) (process_ready_queue r) (delayed_pcbs r) (dead_pcbs r) (blocked_pcbs r) (free_frame_queue r) (region_0_pages r) (region_1_pages r) (reg_ptbr1 r) (virtual_mem_enabled r) (kernel_brk_offset r) (ipc_wrapper r) (current_tty_state r) (user_context r) (umem r) (pids r) (g (trace r)).

#[export] Instance set_uc_code : Setter uc_code := fun g r =>
  mk_uctx (g (uc_code r)) (uc_addr r) (uc_pc r) (uc_sp r) (uc_regs r).
#[export] Instance set_uc_addr : Setter uc_addr := fun g r =>
  mk_uctx (uc_code r) (g (uc_addr r)) (uc_pc r) (uc_sp r) (uc_regs r).
#[export] Instance set_uc_pc : Setter uc_pc := fun g r =>
  mk_uctx (uc_code r) (uc_addr r) (g (uc_pc r)) (uc_sp r) (uc_regs r).
#[export] Instance set_uc_sp : Setter uc_sp := fun g r =>
  mk_uctx (uc_code r) (uc_addr r) (uc_pc r) (g (uc_sp r)) (uc_regs r).
#[export] Instance set_uc_regs : Setter uc_regs := fun g r =>
  mk_uctx (uc_code r) (uc_addr r) (uc_pc r) (uc_sp r) (g (uc_regs r)).

(** Equality of two chains of updates of the same state: by value, so that
    the chain is not copied once per field. *)
Ltac kst_cbv :=
  cbv [setf
    set_pcbs set_malloc_at set_mallocs set_current_process set_init_process set_idle_process
    set_process_ready_queue set_delayed_pcbs set_dead_pcbs set_blocked_pcbs set_free_frame_queue set_region_0_pages
    set_region_1_pages set_reg_ptbr1 set_virtual_mem_enabled set_kernel_brk_offset set_ipc_wrapper set_current_tty_state
    set_user_context set_umem set_pids set_trace
    pcbs malloc_at mallocs current_process init_process idle_process
    process_ready_queue delayed_pcbs dead_pcbs blocked_pcbs free_frame_queue region_0_pages
    region_1_pages reg_ptbr1 virtual_mem_enabled kernel_brk_offset ipc_wrapper current_tty_state
    user_context umem pids trace].
Ltac kst_eq s := destruct s; kst_cbv.

Section Ops.
Context {hw : Hardware}.

(** [malloc]: NULL or the address of a fresh block. *)
Definition malloc : M kst ptr := fun s => Ok (malloc_at s (mallocs s)) (s <| mallocs ::= S |>).

(** ** Access through a [pcb_t*] *)
Definition load_pcb (p : ptr) : M kst pcb_t := m <- gets pcbs ;; demand (m !! p).
Definition store_pcb (p : ptr) (v : pcb_t) : M kst unit := modify (fun s => s <| pcbs ::= <[p := v]> |>).
Definition upd_pcb (p : ptr) (f : pcb_t -> pcb_t) : M kst unit :=
  v <- load_pcb p ;; store_pcb p (f v).
(** [free(pcb)] *)
Definition free_pcb (p : ptr) : M kst unit :=
  load_pcb p ;;; modify (fun s => s <| pcbs ::= delete p |>).

(** ** Queues and sets *)
Definition queue_push {A} `{Nullable A} (q : option (queue_t A)) (d : A)
  : M kst (Z * option (queue_t A)) :=
  if push_allocates q d
  then m <- malloc ;; ret (spec_queue_push m q d)
  else ret (spec_queue_push NULL q d).

Definition set_insert {A} `{Nullable A} (s : option (set_t A)) (key : Z) (item : A)
  : M kst (Z * option (set_t A)) :=
  if insert_allocates s key item
  then m <- malloc ;; ret (spec_set_insert m s key item)
  else ret (spec_set_insert NULL s key item).

Definition queue_new {A} : M kst (option (queue_t A)) := m <- malloc ;; ret (spec_queue_new m).
Definition set_new {A} : M kst (option (set_t A)) := m <- malloc ;; ret (spec_set_new m).

(** The same on a global variable. *)
Definition push_to {A} `{Nullable A} (g : kst -> option (queue_t A)) `{!Setter g} (d : A)
  : M kst Z :=
  q <- gets g ;;
  do '(rc, q') <- queue_push q d ;;
  modify (fun s => s <| g := q' |>) ;;;
  ret rc.

Definition pop_from {A} (g : kst -> option (queue_t A)) `{!Setter g} : M kst (option A) :=
  q <- gets g ;;
  let '(d, q') := spec_queue_pop q in
  modify (fun s => s <| g := q' |>) ;;;
  ret d.

Definition insert_into {A} `{Nullable A} (g : kst -> option (set_t A)) `{!Setter g}
  (key : Z) (item : A) : M kst Z :=
  q <- gets g ;;
  do '(rc, q') <- set_insert q key item ;;
  modify (fun s => s <| g := q' |>) ;;;
  ret rc.

Definition take_from {A} (g : kst -> option (set_t A)) `{!Setter g} (key : Z)
  : M kst (option A) :=
  q <- gets g ;;
  let '(d, q') := spec_set_pop q key in
  modify (fun s => s <| g := q' |>) ;;;
  ret d.

(** ** Registers and the outside *)
Definition emit (e : io_event) : M kst unit := modify (fun s => s <| trace ::= fun t => t ++ [e] |>).
Definition write_ptbr1 (t : ptbr1) : M kst unit := modify (fun s => s <| reg_ptbr1 := t |>).

(** The region 1 page table the MMU uses. *)
Definition read_ptbr1 : M kst (list pte) :=
  t <- gets reg_ptbr1 ;;
  match t with
  | Pt_boot => gets region_1_pages
  | Pt_pcb p => v <- load_pcb p ;; demand (p_page_table v)
  end.

(** [memcpy] from and to user memory, through the MMU. *)
Definition load_user (a : Z) (n : Z) : M kst (list byte) :=
  if n <? 0 then undef else
  r1 <- read_ptbr1 ;;
  s <- gets id ;;
  demand (hw_load (umem s) (region_0_pages s) r1 a (Z.to_nat n)).

Definition store_user (a : Z) (bs : list byte) : M kst unit :=
  r1 <- read_ptbr1 ;;
  s <- gets id ;;
  m <- demand (hw_store (umem s) (region_0_pages s) r1 a bs) ;;
  modify (fun s => s <| umem := m |>).
End Ops.

(** ** Rules for the primitive steps *)

(** No [malloc] fails from here on. *)
Definition mem_ok {hw : Hardware} (s : kst) : Prop := forall n, malloc_at s n <> NULL.

Section Rules.
Context {hw : Hardware} {U : Prop}.

Lemma wp_malloc (Q : ptr -> kst -> Prop) s :
  Q (malloc_at s (mallocs s)) (s <| mallocs ::= S |>) -> wpx U malloc Q s.
Proof. done. Qed.

Lemma load_pcb_run p v s : pcbs s !! p = Some v -> load_pcb p s = Ok v s.
Proof. unfold load_pcb, bind, gets, demand. by intros ->. Qed.

Lemma wp_load_pcb p v (Q : pcb_t -> kst -> Prop) s :
  pcbs s !! p = Some v -> Q v s -> wpx U (load_pcb p) Q s.
Proof. intros E. apply wp_eq. by apply load_pcb_run. Qed.

Lemma upd_pcb_run p f v s :
  pcbs s !! p = Some v -> upd_pcb p f s = Ok tt (s <| pcbs ::= <[p := f v]> |>).
Proof. intros E. unfold upd_pcb. by rewrite (bind_Ok _ _ _ _ _ (load_pcb_run _ _ _ E)). Qed.

Lemma wp_upd_pcb p f v (Q : unit -> kst -> Prop) s :
  pcbs s !! p = Some v -> Q tt (s <| pcbs ::= <[p := f v]> |>) -> wpx U (upd_pcb p f) Q s.
Proof. intros E. apply wp_eq. by apply upd_pcb_run. Qed.

Lemma free_pcb_run p v s :
  pcbs s !! p = Some v -> free_pcb p s = Ok tt (s <| pcbs ::= delete p |>).
Proof. intros E. unfold free_pcb. by rewrite (bind_Ok _ _ _ _ _ (load_pcb_run _ _ _ E)). Qed.

Lemma wp_free_pcb p v (Q : unit -> kst -> Prop) s :
  pcbs s !! p = Some v -> Q tt (s <| pcbs ::= delete p |>) -> wpx U (free_pcb p) Q s.
Proof. intros E. apply wp_eq. by eapply free_pcb_run. Qed.

Lemma pop_from_run {A} (g : kst -> option (queue_t A)) `{!Setter g} s :
  pop_from g s = Ok (spec_queue_pop (g s)).1 (s <| g := (spec_queue_pop (g s)).2 |>).
Proof. unfold pop_from, bind, gets. by destruct (spec_queue_pop (g s)). Qed.

Lemma wp_pop_from {A} (g : kst -> option (queue_t A)) `{!Setter g} (Q : option A -> kst -> Prop) s :
  Q (spec_queue_pop (g s)).1 (s <| g := (spec_queue_pop (g s)).2 |>) -> wpx U (pop_from g) Q s.
Proof. apply wp_eq, pop_from_run. Qed.

Lemma take_from_run {A} (g : kst -> option (set_t A)) `{!Setter g} key s :
  take_from g key s = Ok (spec_set_pop (g s) key).1 (s <| g := (spec_set_pop (g s) key).2 |>).
Proof. unfold take_from, bind, gets. by destruct (spec_set_pop (g s) key). Qed.

Lemma wp_take_from {A} (g : kst -> option (set_t A)) `{!Setter g} key (Q : option A -> kst -> Prop) s :
  Q (spec_set_pop (g s) key).1 (s <| g := (spec_set_pop (g s) key).2 |>) ->
  wpx U (take_from g key) Q s.
Proof. apply wp_eq, take_from_run. Qed.

(** A push on a queue with memory available. *)
Lemma queue_push_run {A} `{Nullable A} (q : queue_t A) (d : A) s :
  is_null d = false -> malloc_at s (mallocs s) <> NULL ->
  queue_push (Some q) d s = Ok (0, Some (q_append q d)) (s <| mallocs ::= S |>).
Proof.
  intros Hd Hm. unfold queue_push, push_allocates. rewrite Hd. cbn [negb].
  unfold bind, malloc. by rewrite spec_queue_push_ok.
Qed.

Lemma push_to_run {A} `{Nullable A} (g : kst -> option (queue_t A)) `{!Setter g} q d s :
  g s = Some q -> is_null d = false -> malloc_at s (mallocs s) <> NULL ->
  push_to g d s = Ok 0 (s <| mallocs ::= S |> <| g := Some (q_append q d) |>).
Proof.
  intros Hg Hd Hm. unfold push_to. unfold bind at 1, gets. rewrite Hg.
  by rewrite (bind_Ok _ _ _ _ _ (queue_push_run q d s Hd Hm)).
Qed.

Lemma wp_push_to {A} `{Nullable A} (g : kst -> option (queue_t A)) `{!Setter g} q d
  (Q : Z -> kst -> Prop) s :
  g s = Some q -> is_null d = false -> malloc_at s (mallocs s) <> NULL ->
  Q 0 (s <| mallocs ::= S |> <| g := Some (q_append q d) |>) -> wpx U (push_to g d) Q s.
Proof. intros Hg Hd Hm. apply wp_eq. by apply push_to_run. Qed.

(** Every outcome of a push. *)
Lemma wp_push_to_any {A} `{Nullable A} (g : kst -> option (queue_t A)) `{!Setter g} d
  (Q : Z -> kst -> Prop) s :
  (forall m s', s' = s \/ s' = s <| mallocs ::= S |> ->
     let (rc, q') := spec_queue_push m (g s) d in Q rc (s' <| g := q' |>)) ->
  wpx U (push_to g d) Q s.
Proof.
  intros HQ. unfold push_to, queue_push, wpx, bind, gets, ret.
  destruct (push_allocates (g s) d); unfold malloc; simpl.
  - specialize (HQ (malloc_at s (mallocs s)) _ (or_intror eq_refl)).
    by destruct (spec_queue_push _ (g s) d).
  - specialize (HQ NULL s (or_introl eq_refl)). by destruct (spec_queue_push NULL (g s) d).
Qed.

Lemma wp_insert_into_any {A} `{Nullable A} (g : kst -> option (set_t A)) `{!Setter g} key d
  (Q : Z -> kst -> Prop) s :
  (forall m s', s' = s \/ s' = s <| mallocs ::= S |> ->
     let (rc, q') := spec_set_insert m (g s) key d in Q rc (s' <| g := q' |>)) ->
  wpx U (insert_into g key d) Q s.
Proof.
  intros HQ. unfold insert_into, set_insert, wpx, bind, gets, ret.
  destruct (insert_allocates (g s) key d); unfold malloc; simpl.
  - specialize (HQ (malloc_at s (mallocs s)) _ (or_intror eq_refl)).
    by destruct (spec_set_insert _ (g s) key d).
  - specialize (HQ NULL s (or_introl eq_refl)). by destruct (spec_set_insert NULL (g s) key d).
Qed.

Lemma insert_into_run {A} `{Nullable A} (g : kst -> option (set_t A)) `{!Setter g} q key d s :
  g s = Some q -> insert_allocates (g s) key d = true -> malloc_at s (mallocs s) <> NULL ->
  insert_into g key d s =
    Ok 0 (s <| mallocs ::= S |>
            <| g := Some (mk_set ((key, d) :: s_nodes q) (s_node_count q + 1)) |>).
Proof.
  intros Hg Ha Hm. unfold insert_into, set_insert, bind, gets. rewrite Ha. unfold malloc.
  unfold ret, modify, spec_set_insert. rewrite Hg in *. rewrite Ha. simpl.
  by destruct (Z.eqb_spec (malloc_at s (mallocs s)) NULL).
Qed.
End Rules.

Lemma wlp_load_pcb {hw : Hardware} p (Q : pcb_t -> kst -> Prop) s :
  (forall v, pcbs s !! p = Some v -> Q v s) -> wlp (load_pcb p) Q s.
Proof. unfold load_pcb, wpx, bind, gets, demand. destruct (pcbs s !! p) eqn:E; naive_solver. Qed.

Lemma preserves_malloc {hw : Hardware} {T} (f : kst -> T) :
  (forall s, f (s <| mallocs ::= S |>) = f s) -> preserves f malloc.
Proof. intros H s. apply H. Qed.

Lemma wlp_upd_pcb {hw : Hardware} p f (Q : unit -> kst -> Prop) s :
  (forall v, pcbs s !! p = Some v -> Q tt (s <| pcbs ::= <[p := f v]> |>)) -> wlp (upd_pcb p f) Q s.
Proof.
  intros H. unfold upd_pcb. apply wp_bind, wlp_load_pcb. intros v Hv. by apply wp_modify, H.
Qed.

(** ** Frames *)

(** The frame numbers a queue of [int*] holds. *)
Definition frame_pfns (l : list frame_ptr) : list Z :=
  omap (fun f => match f with FrameCell n => Some n | FrameLocal => None end) l.

(** Frames on the free frame queue, and frames mapped by a page table. *)
Definition free_frames {hw : Hardware} (s : kst) : list Z :=
  match free_frame_queue s with Some q => frame_pfns (q_data q) | None => [] end.
Definition mapped (pt : list pte) : list Z := omap (fun e => if pte_valid e then Some (pte_pfn e) else None) pt.

(** No dangling pointer on the queue. *)
Definition frames_proper {hw : Hardware} (s : kst) : Prop :=
  match free_frame_queue s with Some q => FrameLocal ∉ q_data q | None => False end.

#[export] Instance frames_proper_dec {hw : Hardware} s : Decision (frames_proper s).
Proof. unfold frames_proper. destruct (free_frame_queue s); apply _. Defined.

Lemma mapped_cons e pt :
  mapped (e :: pt) = if pte_valid e then pte_pfn e :: mapped pt else mapped pt.
Proof. unfold mapped. simpl. by destruct (pte_valid e). Qed.

Lemma mapped_app l1 l2 : mapped (l1 ++ l2) = mapped l1 ++ mapped l2.
Proof. apply omap_app. Qed.

Lemma frame_pfns_app l1 l2 : frame_pfns (l1 ++ l2) = frame_pfns l1 ++ frame_pfns l2.
Proof. apply omap_app. Qed.

Lemma mapped_insert pt i e e' :
  pt !! i = Some e ->
  mapped (<[i := e']> pt) ++ mapped [e] ≡ₚ mapped pt ++ mapped [e'].
Proof.
  intros Hi. pose proof (lookup_lt_Some _ _ _ Hi) as Hlt.
  rewrite <- (take_drop_middle pt i e Hi) at 2.
  rewrite insert_take_drop by done. rewrite !mapped_app.
  change (mapped (e' :: ?x)) with (mapped ([e'] ++ x)).
  change (mapped (e :: ?x)) with (mapped ([e] ++ x)). rewrite !mapped_app. solve_Permutation.
Qed.

(** ** A blank state of the demo machine, on which witnesses are built *)
Module Demo.
Import DemoHardware.

Definition no_ctx : UserContext := mk_uctx 0 0 0 0 [0; 0; 0].

Definition blank : kst := mk_kst
  ∅ (fun n => 1000 + Z.of_nat n) 0 0 0 0
  (Some empty_queue) (Some empty_set) (Some empty_set) (Some empty_set) (Some empty_queue)
  (replicate 128 (mk_pte false 0 0)) (replicate 128 (mk_pte false 0 0)) Pt_boot 0 0
  None None no_ctx (∅ : gmap Z byte) ([] : list Z) [].

Lemma demo_mem_ok (s : kst) : malloc_at s = malloc_at blank -> mem_ok s.
Proof. intros E n. rewrite E. simpl. unfold NULL. lia. Defined.
End Demo.
