(* ===== verification/Memory.v ===== *)
(** * Page tables and frames ([kernel.c], memory part)

    The region 0 page table, the free frame queue, the kernel break and
    [check_memory_validity].  [malloc] while the kernel boots moves the break
    ([boot_malloc]); how far is a parameter.  Main results: the boot-time
    tables and the free frame queue share no frame as long as the heap stays
    within the margin of two pages (and an example beyond it), moving the
    kernel break with virtual memory on neither loses nor duplicates a frame,
    and the exact set of addresses on which [check_memory_validity] is a check
    at all. *)

From S2P Require Import Prelude Hardware Containers KState.
From stdpp Require Import list gmap fin_maps.

#[local] Open Scope Z_scope.

Section Defs.
Context {hw : Hardware}.

Definition REGION_UNUSED : Z := 0.
Definition REGION_BASE_MEMORY : Z := 1.
Definition REGION_KERNEL_TEXT : Z := 2.
Definition REGION_KERNEL_DATAHEAP : Z := 3.
Definition REGION_KERNEL_STACK : Z := 4.

Definition get_raw_page_no (addr : ptr) : Z := wrapu32 addr / PAGESIZE.

(** [region_0_pages[i] = e] *)
Definition set_region_0 (i : Z) (e : pte) : M kst unit :=
  pt <- gets region_0_pages ;;
  pt' <- demand (arr_set pt i e) ;;
  modify (fun s => s <| region_0_pages := pt' |>).

Definition get_region_0 (i : Z) : M kst pte :=
  pt <- gets region_0_pages ;; demand (arr_get pt i).

(** Pop a frame number: read and free the [int*] at the front of the queue. *)
Definition deref_frame (f : frame_ptr) : M kst Z :=
  match f with FrameCell n => ret n | FrameLocal => undef end.

Definition shrink_heap_pages (prev_top_page_idx new_top_page_idx : Z) : M kst Z :=
  r <- for_each (range_down prev_top_page_idx (new_top_page_idx + 1)) (fun i =>
    e <- get_region_0 i ;;
    if negb (pte_valid e) then ret None else
    set_region_0 i (mk_pte false 0 (pte_pfn e)) ;;;
    vm <- gets virtual_mem_enabled ;;
    if truthy vm then
      page_loc <- malloc ;;
      if page_loc =? NULL then ret (Some ERROR) else
      push_to free_frame_queue (FrameCell (pte_pfn e)) ;;;
      ret None
    else ret None) ;;
  ret (default 0 r).

(** The C function has no [return] at its end: its value is then whatever
    the return register holds ([uninit_int]). *)
Definition expand_heap_pages (prev_top_page_idx new_top_page_idx : Z) : M kst Z :=
  r <- for_each (range_up (prev_top_page_idx - 1) new_top_page_idx) (fun i =>
    e <- get_region_0 i ;;
    if pte_valid e then ret None else
    vm <- gets virtual_mem_enabled ;;
    if truthy vm then
      f <- pop_from free_frame_queue ;;
      match f with
      | None => ret (Some ERROR)
      | Some f =>
          frame_no <- deref_frame f ;;
          set_region_0 i (mk_pte true (Z.lor PROT_READ PROT_WRITE) frame_no) ;;;
          ret None
      end
    else
      set_region_0 i (mk_pte true (Z.lor PROT_READ PROT_WRITE) i) ;;;
      ret None) ;;
  ret (default uninit_int r).

(** The part of memory a page or frame belongs to before virtual memory;
    [heap_end] is the bound each of the two loops uses for the heap. *)
Definition frame_region (heap_end page : Z) : Z :=
  if page <? first_kernel_text_page then REGION_BASE_MEMORY
  else if page <? first_kernel_data_page then REGION_KERNEL_TEXT
  else if page <? heap_end then REGION_KERNEL_DATAHEAP
  else if (KERNEL_STACK_BASE / PAGESIZE <=? page) && (page <? KERNEL_STACK_LIMIT / PAGESIZE)
  then REGION_KERNEL_STACK
  else REGION_UNUSED.

(** The [switch] of [init_page_tables]; a page that is not mapped keeps its
    old frame number. *)
Definition boot_pte (region page old_pfn : Z) : pte :=
  if region =? REGION_KERNEL_TEXT then mk_pte true (Z.lor PROT_EXEC PROT_READ) page
  else if region =? REGION_KERNEL_DATAHEAP then mk_pte true (Z.lor PROT_WRITE PROT_READ) page
  else if region =? REGION_KERNEL_STACK then mk_pte true (Z.lor PROT_WRITE PROT_READ) page
  else mk_pte false 0 old_pfn.

Definition init_page_tables : M kst unit :=
  for_each (R:=unit) (range_up 0 NUM_PAGES) (fun page =>
    off <- gets kernel_brk_offset ;;
    e <- get_region_0 page ;;
    set_region_0 page (boot_pte (frame_region (orig_kernel_brk_page + off) page) page (pte_pfn e)) ;;;
    ret None) ;;;
  modify (fun s => s <| region_1_pages ::= fmap (fun e => mk_pte false 0 (pte_pfn e)) |>).

Definition SetKernelBrk (addr : ptr) : M kst Z :=
  off <- gets kernel_brk_offset ;;
  let curr_brk_page_idx := orig_kernel_brk_page + off in
  let suggested_brk_page_idx := UP_TO_PAGE addr / PAGESIZE in
  if suggested_brk_page_idx <? orig_kernel_brk_page then ret (-1)
  else if suggested_brk_page_idx >? DOWN_TO_PAGE KERNEL_STACK_BASE then ret (-1)
  else
    rc <- (if suggested_brk_page_idx <? curr_brk_page_idx
           then shrink_heap_pages curr_brk_page_idx suggested_brk_page_idx
           else expand_heap_pages curr_brk_page_idx suggested_brk_page_idx) ;;
    if rc =? ERROR then ret ERROR else
    modify (fun s => s <| kernel_brk_offset := suggested_brk_page_idx - orig_kernel_brk_page |>) ;;;
    ret 0.

(** [malloc] while the kernel boots.  The allocator is the only caller of
    [SetKernelBrk]: [hb n] is the address up to which the n-th [malloc] asks
    the kernel to move the break before it answers, [None] when the heap it has
    is enough.  When the kernel refuses, [malloc] fails. *)
Definition boot_malloc (hb : nat -> option ptr) : M kst ptr :=
  n <- gets mallocs ;;
  match hb n with
  | None => malloc
  | Some addr =>
      rc <- SetKernelBrk addr ;;
      p <- malloc ;;
      ret (if rc =? 0 then p else NULL)
  end.

(** [queue_new] and [queue_push] on that allocator. *)
Definition boot_queue_new {A} (hb : nat -> option ptr) : M kst (option (queue_t A)) :=
  m <- boot_malloc hb ;; ret (spec_queue_new m).

Definition boot_queue_push {A} `{Nullable A} (hb : nat -> option ptr) (q : option (queue_t A))
  (d : A) : M kst (Z * option (queue_t A)) :=
  if push_allocates q d
  then m <- boot_malloc hb ;; ret (spec_queue_push m q d)
  else ret (spec_queue_push NULL q d).

Definition init_free_frame_queue (hb : nat -> option ptr) (num_frames : Z) : M kst unit :=
  q <- gets free_frame_queue ;;
  match q with
  | None => ret tt
  | Some _ =>
      for_each (R:=unit) (range_up 0 num_frames) (fun frame =>
        off <- gets kernel_brk_offset ;;
        if frame_region (orig_kernel_brk_page + off + 1 + 1) frame =? REGION_UNUSED then
          frame_no <- boot_malloc hb ;;
          if frame_no =? NULL then ret (Some tt) else
          q <- gets free_frame_queue ;;
          do '(rc, q') <- boot_queue_push hb q (FrameCell frame) ;;
          modify (fun s => s <| free_frame_queue := q' |>) ;;;
          ret None
        else ret None) ;;;
      ret tt
  end.

(** Validity of the page an address is on, as a C truth value. *)
Definition check_memory_validity (pointer_addr : ptr) : M kst Z :=
  let byte_no := wrap32 pointer_addr in
  let page_no := Z.quot (DOWN_TO_PAGE byte_no) PAGESIZE in
  if page_no >? NUM_PAGES * 2 then ret (wrapu32 (-1)) else
  let region := if page_no >? NUM_PAGES then 1 else 0 in
  let page_no := if page_no >? NUM_PAGES then page_no - NUM_PAGES else page_no in
  page <- get_region_0 page_no ;;
  page <- (if region =? 1
           then r1_pt <- read_ptbr1 ;; demand (arr_get r1_pt page_no)
           else ret page) ;;
  if pte_valid page then ret 1 else ret 0.

(** The memory part of [KernelStart]: tables, then the free frame queue. *)
Definition KernelStart_memory (hb : nat -> option ptr) (pmem_size : Z) : M kst unit :=
  init_page_tables ;;;
  write_ptbr1 Pt_boot ;;;
  q <- boot_queue_new hb ;;
  modify (fun s => s <| free_frame_queue := q |>) ;;;
  init_free_frame_queue hb (pmem_size / PAGESIZE).

(** [free_page_frame] zeroes a page, unmaps it and frees its frame. *)
Definition free_page_frame (region page_no : Z) : M kst unit :=
  if (region >? 1) || (region <? 0) then ret tt else
  let vmem_addr := region * VMEM_REGION_SIZE + page_no * PAGESIZE in
  ok <- check_memory_validity vmem_addr ;;
  if negb (truthy ok) then ret tt else
  store_user vmem_addr (replicate (Z.to_nat PAGESIZE) Byte.x00) ;;;
  frame_no <- (if region =? 0 then
      e <- get_region_0 page_no ;;
      set_region_0 page_no (mk_pte false 0 (pte_pfn e)) ;;; ret (pte_pfn e)
    else
      t <- gets reg_ptbr1 ;;
      r1_pt <- read_ptbr1 ;;
      e <- demand (arr_get r1_pt page_no) ;;
      r1_pt' <- demand (arr_set r1_pt page_no (mk_pte false 0 (pte_pfn e))) ;;
      match t with
      | Pt_boot => modify (fun s => s <| region_1_pages := r1_pt' |>)
      | Pt_pcb p => upd_pcb p (fun v => v <| p_page_table := Some r1_pt' |>)
      end ;;;
      ret (pte_pfn e)) ;;
  stored_frame_no <- malloc ;;
  if stored_frame_no =? NULL then ret tt else
  push_to free_frame_queue (FrameCell frame_no) ;;;
  ret tt.
End Defs.

Section Facts.
Context {hw : Hardware}.

Lemma get_region_0_run i e (s : kst) :
  arr_get (region_0_pages s) i = Some e -> get_region_0 i s = Ok e s.
Proof. unfold get_region_0, bind, gets, demand. by intros ->. Qed.

Lemma set_region_0_run i e (s : kst) :
  0 <= i < Z.of_nat (length (region_0_pages s)) ->
  set_region_0 i e s = Ok tt (s <| region_0_pages := <[Z.to_nat i := e]> (region_0_pages s) |>).
Proof. intros H. unfold set_region_0, bind, gets, demand. by rewrite arr_set_Some. Qed.

(** Region 0 and the free queue together hold the same frames before and
    after. *)
Definition frames_conserved (s s' : kst) : Prop :=
  free_frames s' ++ mapped (region_0_pages s') ≡ₚ free_frames s ++ mapped (region_0_pages s).

#[export] Instance frames_conserved_preorder : PreOrder frames_conserved.
Proof. split; unfold frames_conserved; [intros s; done|intros s1 s2 s3 H1 H2; by rewrite H2, H1]. Qed.

(** What both loops keep: the queue is there and without dangling pointers,
    the table keeps its size, memory its allocator, the mode is the same. *)
Definition heap_loop_inv (s0 s : kst) : Prop :=
  frames_conserved s0 s /\ frames_proper s /\ malloc_at s = malloc_at s0 /\
  length (region_0_pages s) = length (region_0_pages s0) /\
  virtual_mem_enabled s = virtual_mem_enabled s0 /\
  kernel_brk_offset s = kernel_brk_offset s0.

(** Map page [i] to the frame at the front of the queue. *)
Lemma map_front_frame s i e q n rest :
  free_frame_queue s = Some q -> spec_queue_pop (Some q) = (Some (FrameCell n), Some rest) ->
  arr_get (region_0_pages s) i = Some e -> pte_valid e = false ->
  FrameLocal ∉ q_data q ->
  let s' := s <| free_frame_queue := Some rest |>
              <| region_0_pages := <[Z.to_nat i := mk_pte true (Z.lor PROT_READ PROT_WRITE) n]>
                                     (region_0_pages s) |> in
  frames_conserved s s' /\ frames_proper s'.
Proof.
  intros Hq Hpop [_ Hi]%arr_get_Some He Hnl. unfold spec_queue_pop in Hpop.
  destruct (q_items q) as [|[k d] items] eqn:Hitems; [done|]. simplify_eq.
  unfold frames_conserved, free_frames, frames_proper. simpl. rewrite Hq.
  unfold q_data in *. rewrite Hitems in *. simpl in *. split; [|set_solver].
  pose proof (mapped_insert _ _ _ (mk_pte true (Z.lor PROT_READ PROT_WRITE) n) Hi) as Hm.
  unfold mapped at 2 4 in Hm. simpl in Hm. rewrite He, app_nil_r in Hm.
  rewrite Hm. solve_Permutation.
Qed.

(** The pages of a range that starts at [lo] are valid up to the [i]-th. *)
Lemma range_valid_insert lo i e' (l : list pte) :
  (forall j, lo <= j < i -> exists e, arr_get l j = Some e /\ pte_valid e = true) ->
  0 <= i < Z.of_nat (length l) -> pte_valid e' = true ->
  forall j, lo <= j < i + 1 -> exists e, arr_get (<[Z.to_nat i := e']> l) j = Some e /\ pte_valid e = true.
Proof.
  intros Hall Hi He' j Hj. destruct (decide (j = i)) as [->|].
  - exists e'. split; [|done]. apply arr_get_Some. split; [lia|]. apply list_lookup_insert_eq. lia.
  - destruct (Hall j) as (e1 & [? He1]%arr_get_Some & ?); [lia|]. exists e1. split; [|done].
    apply arr_get_Some. split; [done|]. by rewrite list_lookup_insert_ne by lia.
Qed.

(** Moving the break up, with virtual memory on: every page of the range is
    mapped, or the frames run out and the call fails; no frame is lost. *)
Lemma expand_heap_pages_wp s prev new :
  virtual_mem_enabled s <> 0 -> frames_proper s ->
  1 <= prev -> new <= Z.of_nat (length (region_0_pages s)) ->
  wp (expand_heap_pages prev new) (fun r s' => heap_loop_inv s s' /\
    ((r = ERROR /\ free_frames s' = []) \/
     (r = uninit_int /\ forall i, prev - 1 <= i < new ->
        exists e, arr_get (region_0_pages s') i = Some e /\ pte_valid e = true))) s.
Proof.
  intros Hvm Hp Hlo Hhi. unfold expand_heap_pages. apply wp_bind.
  apply (wp_range_up _ _ _ (fun i s' => heap_loop_inv s s' /\ forall j, prev - 1 <= j < i ->
    exists e, arr_get (region_0_pages s') j = Some e /\ pte_valid e = true)).
  { split; [by split_and!|lia]. }
  2:{ intros s0 (Hinv & Hall). apply wp_ret. split; [done|]. right. split; [done|].
      intros i Hi. apply Hall. lia. }
  intros i s0 Hi (Hinv & Hall). destruct Hinv as (Hc & Hp0 & Hma & Hlen & Hvm0 & Hoff).
  destruct (proj2 (arr_get_is_Some (region_0_pages s0) i)) as [e He]; [lia|].
  assert (Hi' : 0 <= i < Z.of_nat (length (region_0_pages s0))) by lia.
  pose proof (fun e' => range_valid_insert (prev - 1) i e' (region_0_pages s0) Hall Hi') as Hstep.
  apply wp_bind. eapply wp_eq; [by apply get_region_0_run|].
  destruct (pte_valid e) eqn:Hv.
  { apply wp_ret. split; [by split_and!|]. pose proof (Hstep e Hv) as Hs.
    apply arr_get_Some in He as [_ He]. by rewrite list_insert_id in Hs. }
  apply wp_bind, wp_gets. rewrite Hvm0. unfold truthy.
  destruct (Z.eqb_spec (virtual_mem_enabled s) 0) as [|_]; [done|]. simpl.
  apply wp_bind, wp_pop_from.
  unfold frames_proper in Hp0. destruct (free_frame_queue s0) as [q|] eqn:Hq; [|done].
  destruct (spec_queue_pop (Some q)) as [[f|] q'] eqn:Hpop; simpl.
  - destruct q' as [q'|]; [|by (unfold spec_queue_pop in Hpop; destruct (q_items q) as [|[??]?])].
    destruct f as [n|].
    2:{ exfalso. apply Hp0. unfold spec_queue_pop, q_data in *.
        destruct (q_items q) as [|[??]?]; simplify_eq. by left. }
    destruct (map_front_frame s0 i e q n q' Hq Hpop He Hv Hp0) as [Hc' Hp'].
    simpl. apply wp_bind, wp_ret, wp_bind.
    eapply wp_eq; [apply set_region_0_run; simpl; lia|]. apply wp_ret. split.
    + split_and!; [etrans; [exact Hc|exact Hc']|done|done| |done|done]. simpl. by rewrite length_insert.
    + apply (Hstep (mk_pte true (Z.lor PROT_READ PROT_WRITE) n)); done.
  - apply wp_ret. unfold spec_queue_pop in Hpop.
    destruct (q_items q) as [|[??]?] eqn:Hitems; [|done]. simplify_eq.
    apply wp_ret. split; [split_and!|].
    + unfold frames_conserved, free_frames in *. simpl. by rewrite Hq in Hc.
    + done.
    + done.
    + done.
    + done.
    + done.
    + left. split; [done|]. unfold free_frames, q_data. simpl. by rewrite Hitems.
Qed.

(** Unmapping a page whose frame goes to the queue. *)
Lemma unmap_to_queue s i e q k :
  free_frame_queue s = Some q -> arr_get (region_0_pages s) i = Some e -> pte_valid e = true ->
  FrameLocal ∉ q_data q ->
  let s' := s <| region_0_pages := <[Z.to_nat i := mk_pte false 0 (pte_pfn e)]> (region_0_pages s) |>
              <| mallocs ::= k |> <| free_frame_queue := Some (q_append q (FrameCell (pte_pfn e))) |> in
  frames_conserved s s' /\ frames_proper s'.
Proof.
  intros Hq [_ Hi]%arr_get_Some He Hnl.
  unfold frames_conserved, free_frames, frames_proper. simpl. rewrite Hq, q_data_append.
  split; [|set_solver]. rewrite frame_pfns_app.
  pose proof (mapped_insert _ _ _ (mk_pte false 0 (pte_pfn e)) Hi) as Hm.
  unfold mapped at 2 4 in Hm. simpl in Hm. rewrite He, app_nil_r in Hm. rewrite <- Hm.
  simpl. solve_Permutation.
Qed.

(** Moving the break down: every page above the new top up to the old top
    is unmapped and its frame is free again. *)
Lemma shrink_heap_pages_wp s prev new :
  virtual_mem_enabled s <> 0 -> frames_proper s -> mem_ok s ->
  -1 <= new -> prev < Z.of_nat (length (region_0_pages s)) ->
  wp (shrink_heap_pages prev new) (fun r s' => heap_loop_inv s s' /\ r = 0 /\
    forall i, new < i <= prev ->
      exists e, arr_get (region_0_pages s') i = Some e /\ pte_valid e = false) s.
Proof.
  intros Hvm Hp Hm Hlo Hhi. unfold shrink_heap_pages. apply wp_bind.
  apply (wp_range_down _ _ _ (fun i s' => heap_loop_inv s s' /\ forall j, i < j <= prev ->
    exists e, arr_get (region_0_pages s') j = Some e /\ pte_valid e = false)).
  { split; [by split_and!|lia]. }
  2:{ intros s0 (Hinv & Hall). apply wp_ret. split; [done|]. split; [done|].
      intros i Hi. apply Hall. lia. }
  intros i s0 Hi (Hinv & Hall). destruct Hinv as (Hc & Hp0 & Hma & Hlen & Hvm0 & Hoff).
  destruct (proj2 (arr_get_is_Some (region_0_pages s0) i)) as [e He]; [lia|].
  assert (Hstep : forall e' l', pte_valid e' = false -> l' = <[Z.to_nat i := e']> (region_0_pages s0) ->
    forall j, i - 1 < j <= prev -> exists e, arr_get l' j = Some e /\ pte_valid e = false).
  { intros e' l' He' -> j Hj. destruct (decide (j = i)) as [->|].
    - exists e'. split; [|done]. apply arr_get_Some. split; [lia|].
      apply list_lookup_insert_eq. lia.
    - destruct (Hall j) as (e1 & [? He1]%arr_get_Some & ?); [lia|]. exists e1. split; [|done].
      apply arr_get_Some. split; [done|]. rewrite list_lookup_insert_ne by lia. done. }
  apply wp_bind. eapply wp_eq; [by apply get_region_0_run|].
  destruct (pte_valid e) eqn:Hv; simpl.
  2:{ apply wp_ret. split; [by split_and!|]. apply (Hstep e); [done|].
      apply arr_get_Some in He as [_ He]. by rewrite list_insert_id. }
  unfold frames_proper in Hp0. destruct (free_frame_queue s0) as [q|] eqn:Hq; [|done].
  destruct (unmap_to_queue s0 i e q S Hq He Hv Hp0) as [Hc' Hp'].
  apply wp_bind. eapply wp_eq; [apply set_region_0_run; lia|].
  apply wp_bind, wp_gets. simpl. rewrite Hvm0. unfold truthy.
  destruct (Z.eqb_spec (virtual_mem_enabled s) 0) as [|_]; [done|]. simpl.
  assert (Hm0 : malloc_at s0 (mallocs s0) <> NULL) by (rewrite Hma; apply Hm).
  apply wp_bind, wp_malloc. simpl.
  destruct (Z.eqb_spec (malloc_at s0 (mallocs s0)) NULL) as [|_]; [done|].
  apply wp_bind. eapply wp_push_to; [done|done|simpl; rewrite Hma; apply Hm|].
  apply wp_ret. split.
  - split_and!; [etrans; [exact Hc|exact Hc']|done|done| |done|done]. simpl. by rewrite length_insert.
  - by apply (Hstep (mk_pte false 0 (pte_pfn e))).
Qed.

(** The page index [SetKernelBrk] computes. *)
Definition brk_page (addr : Z) : Z := UP_TO_PAGE addr / PAGESIZE.

Lemma SetKernelBrk_wp s addr :
  let curr := orig_kernel_brk_page + kernel_brk_offset s in
  virtual_mem_enabled s <> 0 -> frames_proper s -> mem_ok s ->
  Z.of_nat (length (region_0_pages s)) = NUM_PAGES ->
  1 <= curr < NUM_PAGES -> brk_page addr <= NUM_PAGES ->
  wp (SetKernelBrk addr) (fun rc s' => frames_conserved s s' /\ frames_proper s' /\
    length (region_0_pages s') = length (region_0_pages s) /\
    ((rc = -1 /\ s' = s /\
        (brk_page addr < orig_kernel_brk_page \/ brk_page addr > DOWN_TO_PAGE KERNEL_STACK_BASE)) \/
     (rc = ERROR /\ kernel_brk_offset s' = kernel_brk_offset s /\
        (free_frames s' = [] \/ uninit_int = ERROR)) \/
     (rc = 0 /\ orig_kernel_brk_page + kernel_brk_offset s' = brk_page addr /\
        (forall i, curr - 1 <= i < brk_page addr ->
           exists e, arr_get (region_0_pages s') i = Some e /\ pte_valid e = true) /\
        (forall i, brk_page addr < i <= curr ->
           exists e, arr_get (region_0_pages s') i = Some e /\ pte_valid e = false)))) s.
Proof.
  intros curr Hvm Hp Hm Hlen Hcurr Hpage. unfold SetKernelBrk. fold (brk_page addr).
  destruct hw_kernel_pages as (? & ? & ?).
  apply wp_bind, wp_gets. fold curr.
  destruct (Z.ltb_spec (brk_page addr) orig_kernel_brk_page); [apply wp_ret; split_and!; [done..|naive_solver]|].
  destruct (Z.gtb_spec (brk_page addr) (DOWN_TO_PAGE KERNEL_STACK_BASE)) as [Hgt|Hle].
  { apply wp_ret. split_and!; [done..|]. left. split_and!; [done..|right; lia]. }
  apply wp_bind. destruct (Z.ltb_spec (brk_page addr) curr) as [Hlt|Hge].
  - eapply wp_mono; [apply shrink_heap_pages_wp; try done; lia|].
    intros r s' ((Hc & Hp' & _ & Hl' & _) & -> & Hall). pose proof ERROR_neg.
    destruct (Z.eqb_spec 0 ERROR); [lia|].
    apply wp_bind, wp_modify, wp_ret. split_and!; [done..|]. right; right. simpl.
    split_and!; [done|lia|intros i Hi; lia|done].
  - eapply wp_mono; [apply expand_heap_pages_wp; try done; lia|].
    intros r s' ((Hc & Hp' & _ & Hl' & _ & Hoff) & [[-> Hf]|[-> Hall]]).
    + rewrite Z.eqb_refl. apply wp_ret. split_and!; [done..|]. right; left.
      split_and!; [done|done|by left].
    + destruct (Z.eqb_spec uninit_int ERROR).
      * apply wp_ret. split_and!; [done..|]. right; left. split_and!; [done|done|by right].
      * apply wp_bind, wp_modify, wp_ret. split_and!; [done..|]. right; right. simpl.
        split_and!; [done|lia|done|intros i Hi; lia].
Qed.

Lemma mapped_length pt : (length (mapped pt) <= length pt)%nat.
Proof.
  induction pt as [|e pt IH]; [done|]. rewrite mapped_cons.
  destruct (pte_valid e); simpl; lia.
Qed.

(** The check against the kernel stack compares a page index with an
    address: no address of the two regions is refused by it. *)
Lemma brk_page_below_stack_addr addr :
  0 <= addr <= VMEM_1_LIMIT -> 4 <= PAGESIZE -> brk_page addr <= DOWN_TO_PAGE KERNEL_STACK_BASE.
Proof.
  intros Ha Hp. unfold brk_page. destruct hw_layout as (HL0 & _ & HL1 & _).
  destruct hw_kstack as (Hl & Hb & Hmx & _). pose proof NUM_PAGES_ge_4 as H4.
  pose proof NUM_PAGES_size as Hsz.
  assert (Hsb : KERNEL_STACK_BASE = (NUM_PAGES - 2) * PAGESIZE)
    by (rewrite Z.mul_sub_distr_r; lia).
  rewrite hw_up_to_page, hw_down_to_page by (try lia; nia).
  rewrite Z.div_mul, Hsb, Z.div_mul by lia.
  assert ((addr + PAGESIZE - 1) / PAGESIZE < 2 * NUM_PAGES + 1); [|nia].
  apply Z.div_lt_upper_bound; nia.
Qed.

(** ** Boot *)

Lemma init_page_tables_run s :
  Z.of_nat (length (region_0_pages s)) = NUM_PAGES ->
  wp init_page_tables (fun _ s' =>
    free_frame_queue s' = free_frame_queue s /\ malloc_at s' = malloc_at s /\
    kernel_brk_offset s' = kernel_brk_offset s /\ virtual_mem_enabled s' = virtual_mem_enabled s /\
    mapped (region_1_pages s') = [] /\
    Z.of_nat (length (region_0_pages s')) = NUM_PAGES /\
    forall page, 0 <= page < NUM_PAGES -> exists old,
      arr_get (region_0_pages s') page =
      Some (boot_pte (frame_region (orig_kernel_brk_page + kernel_brk_offset s) page) page old)) s.
Proof.
  intros Hlen. unfold init_page_tables. apply wp_bind.
  apply (wp_range_up _ _ _ (fun i s' =>
    free_frame_queue s' = free_frame_queue s /\ malloc_at s' = malloc_at s /\
    kernel_brk_offset s' = kernel_brk_offset s /\ virtual_mem_enabled s' = virtual_mem_enabled s /\
    Z.of_nat (length (region_0_pages s')) = NUM_PAGES /\
    forall page, 0 <= page < i -> exists old, arr_get (region_0_pages s') page =
      Some (boot_pte (frame_region (orig_kernel_brk_page + kernel_brk_offset s) page) page old))).
  - split_and!; [done..|lia].
  - intros i s0 Hi (Hq & Hma & Hoff & Hvm & Hl & Hall).
    destruct (proj2 (arr_get_is_Some (region_0_pages s0) i)) as [e He]; [lia|].
    apply wp_bind, wp_gets, wp_bind. eapply wp_eq; [by apply get_region_0_run|].
    apply wp_bind. eapply wp_eq; [apply set_region_0_run; lia|]. apply wp_ret. simpl.
    rewrite Hoff, length_insert. split_and!; [done..|].
    intros page Hp. destruct (decide (page = i)) as [->|Hne].
    + exists (pte_pfn e). apply arr_get_Some. split; [lia|]. apply list_lookup_insert_eq. lia.
    + destruct (Hall page) as [old [? Hold]%arr_get_Some]; [lia|]. exists old.
      apply arr_get_Some. split; [done|]. by rewrite list_lookup_insert_ne by lia.
  - intros s0 (Hq & Hma & Hoff & Hvm & Hl & Hall). apply wp_modify. simpl. split_and!; try done.
    + induction (region_1_pages s0) as [|e l IH]; [done|]. by rewrite fmap_cons, mapped_cons.
    + intros page Hp. apply Hall. lia.
Qed.

Lemma frame_region_mono off1 off2 f :
  off1 <= off2 -> frame_region off2 f = REGION_UNUSED -> frame_region off1 f = REGION_UNUSED.
Proof.
  unfold frame_region, REGION_UNUSED, REGION_BASE_MEMORY, REGION_KERNEL_TEXT,
    REGION_KERNEL_DATAHEAP, REGION_KERNEL_STACK. intros H.
  repeat case_match; zbool; try done; try lia.
Qed.

Lemma elem_of_mapped pt f :
  f ∈ mapped pt <-> exists i e, arr_get pt i = Some e /\ pte_valid e = true /\ pte_pfn e = f.
Proof.
  unfold mapped. rewrite list_elem_of_omap. split.
  - intros (e & [i Hi]%list_elem_of_lookup & E). destruct (pte_valid e) eqn:Hv; simplify_eq.
    exists (Z.of_nat i), e. split_and!; [|done..]. apply arr_get_Some. rewrite Nat2Z.id.
    split; [lia|done].
  - intros (i & e & [_ Hi]%arr_get_Some & Hv & <-). exists e. rewrite Hv.
    split; [|done]. apply list_elem_of_lookup. eauto.
Qed.

Lemma boot_pte_mapped region page old :
  pte_valid (boot_pte region page old) = true ->
  pte_pfn (boot_pte region page old) = page /\ region <> REGION_UNUSED.
Proof.
  unfold boot_pte, REGION_UNUSED, REGION_KERNEL_TEXT, REGION_KERNEL_DATAHEAP, REGION_KERNEL_STACK.
  repeat case_match; zbool; naive_solver.
Qed.

Lemma frame_pfns_cells l : frame_pfns (FrameCell <$> l) = l.
Proof. unfold frame_pfns. induction l as [|x l IH]; [done|]. simpl. by f_equal. Qed.

Lemma NoDup_range_up lo hi : NoDup (range_up lo hi).
Proof. unfold range_up. apply (NoDup_fmap_2_strong _); [|apply NoDup_seq]. intros; lia. Qed.

(** ** The heap grows while the kernel boots *)

(** A table after the pages of [P] got the frames of their own number. *)
Definition one_to_one (P : Z -> bool) (pt pt' : list pte) : Prop :=
  length pt' = length pt /\
  forall i e, arr_get pt i = Some e -> arr_get pt' i =
    Some (if P i && negb (pte_valid e) then mk_pte true (Z.lor PROT_READ PROT_WRITE) i else e).

(** A table after the mapped pages of [P] were unmapped. *)
Definition unmapped (P : Z -> bool) (pt pt' : list pte) : Prop :=
  length pt' = length pt /\
  forall i e, arr_get pt i = Some e -> arr_get pt' i =
    Some (if P i && pte_valid e then mk_pte false 0 (pte_pfn e) else e).

(** One more page of a table that is built page by page by the rule [g]. *)
Lemma page_step (P P' : Z -> bool) (g : bool -> Z -> pte -> pte) (pt pt' : list pte) i e :
  (forall j, j <> i -> P' j = P j) -> P i = false -> (forall e, g false i e = e) ->
  arr_get pt' i = Some e -> length pt' = length pt ->
  (forall j e, arr_get pt j = Some e -> arr_get pt' j = Some (g (P j) j e)) ->
  forall j e', arr_get pt j = Some e' -> arr_get (<[Z.to_nat i := g (P' i) i e]> pt') j = Some (g (P' j) j e').
Proof.
  intros HP HPi Hg He Hl Hall j e' Hj. pose proof (arr_get_lt _ _ _ He).
  destruct (decide (j = i)) as [->|Hne].
  - rewrite arr_get_insert_eq by done. rewrite (Hall _ _ Hj), HPi, Hg in He. by simplify_eq.
  - rewrite arr_get_insert_ne by lia. rewrite HP by done. by apply Hall.
Qed.

Lemma expand_heap_pages_off s prev new :
  virtual_mem_enabled s = 0 -> 1 <= prev -> new <= Z.of_nat (length (region_0_pages s)) ->
  wp (expand_heap_pages prev new) (fun r s' => r = uninit_int /\ exists pt,
    s' = s <| region_0_pages := pt |> /\
    one_to_one (fun i => (prev - 1 <=? i) && (i <? new)) (region_0_pages s) pt) s.
Proof.
  intros Hvm Hlo Hhi. unfold expand_heap_pages. apply wp_bind.
  set (g := fun (b : bool) (i : Z) (e : pte) =>
    if b && negb (pte_valid e) then mk_pte true (Z.lor PROT_READ PROT_WRITE) i else e).
  apply (wp_range_up _ _ _ (fun i s' => exists pt, s' = s <| region_0_pages := pt |> /\
    one_to_one (fun j => (prev - 1 <=? j) && (j <? Z.min i new)) (region_0_pages s) pt)).
  - exists (region_0_pages s). split; [by destruct s|]. split; [done|]. intros i e He.
    destruct (Z.leb_spec (prev - 1) i), (Z.ltb_spec i (Z.min (prev - 1) new)); done || lia.
  - intros i s0 Hi (pt & -> & Hl & Hall). set (s1 := s <| region_0_pages := pt |>).
    destruct (proj2 (arr_get_is_Some pt i)) as [e He]; [lia|].
    pose proof (page_step (fun j => (prev - 1 <=? j) && (j <? Z.min i new))
      (fun j => (prev - 1 <=? j) && (j <? Z.min (i + 1) new)) g (region_0_pages s) pt i e) as Hst.
    assert (Hgi : g ((prev - 1 <=? i) && (i <? Z.min (i + 1) new)) i e =
      if pte_valid e then e else mk_pte true (Z.lor PROT_READ PROT_WRITE) i).
    { unfold g. destruct (Z.leb_spec (prev - 1) i), (Z.ltb_spec i (Z.min (i + 1) new)); try lia.
      by destruct (pte_valid e). }
    eapply wp_bind_Ok; [by apply (get_region_0_run _ _ s1)|].
    assert (Hnew : forall j e', arr_get (region_0_pages s) j = Some e' ->
      arr_get (<[Z.to_nat i := if pte_valid e then e else mk_pte true (Z.lor PROT_READ PROT_WRITE) i]> pt) j =
      Some (g ((prev - 1 <=? j) && (j <? Z.min (i + 1) new)) j e')).
    { rewrite <- Hgi. apply Hst; [|destruct (Z.ltb_spec i (Z.min i new)); [lia|apply andb_false_r]|done|done|done|done].
      intros j Hj. destruct (Z.ltb_spec j (Z.min i new)), (Z.ltb_spec j (Z.min (i + 1) new)); done || lia. }
    destruct (pte_valid e) eqn:Hv.
    + apply wp_ret. exists pt. split; [done|]. split; [done|].
      apply arr_get_Some in He as [_ He]. by rewrite list_insert_id in Hnew.
    + apply wp_bind, wp_gets. change (virtual_mem_enabled s1) with (virtual_mem_enabled s). rewrite Hvm.
      cbn [truthy Z.eqb negb]. eapply wp_bind_Ok; [apply set_region_0_run; simpl; lia|].
      apply wp_ret. eexists. split; [reflexivity|]. split; [by rewrite length_insert|done].
  - intros s0 (pt & -> & H). apply wp_ret. split; [done|]. exists pt. split; [done|].
    destruct H as [Hl H]. split; [done|]. intros i e He. rewrite (H _ _ He). f_equal.
    destruct (Z.leb_spec (prev - 1) i), (Z.ltb_spec i new), (Z.ltb_spec i (Z.min (Z.max (prev - 1) new) new));
      done || lia.
Qed.

Lemma shrink_heap_pages_off s prev new :
  virtual_mem_enabled s = 0 -> -1 <= new -> prev < Z.of_nat (length (region_0_pages s)) ->
  wp (shrink_heap_pages prev new) (fun r s' => r = 0 /\ exists pt,
    s' = s <| region_0_pages := pt |> /\
    unmapped (fun i => (new <? i) && (i <=? prev)) (region_0_pages s) pt) s.
Proof.
  intros Hvm Hlo Hhi. unfold shrink_heap_pages. apply wp_bind.
  set (g := fun (b : bool) (i : Z) (e : pte) => if b && pte_valid e then mk_pte false 0 (pte_pfn e) else e).
  apply (wp_range_down _ _ _ (fun i s' => exists pt, s' = s <| region_0_pages := pt |> /\
    unmapped (fun j => (Z.max i new <? j) && (j <=? prev)) (region_0_pages s) pt)).
  - exists (region_0_pages s). split; [by destruct s|]. split; [done|]. intros i e He.
    destruct (Z.ltb_spec (Z.max prev new) i), (Z.leb_spec i prev); done || lia.
  - intros i s0 Hi (pt & -> & Hl & Hall). set (s1 := s <| region_0_pages := pt |>).
    destruct (proj2 (arr_get_is_Some pt i)) as [e He]; [lia|].
    pose proof (page_step (fun j => (Z.max i new <? j) && (j <=? prev))
      (fun j => (Z.max (i - 1) new <? j) && (j <=? prev)) g (region_0_pages s) pt i e) as Hst.
    assert (Hgi : g ((Z.max (i - 1) new <? i) && (i <=? prev)) i e =
      if pte_valid e then mk_pte false 0 (pte_pfn e) else e).
    { unfold g. destruct (Z.leb_spec i prev), (Z.ltb_spec (Z.max (i - 1) new) i); try lia.
      by destruct (pte_valid e). }
    eapply wp_bind_Ok; [by apply (get_region_0_run _ _ s1)|].
    assert (Hnew : forall j e', arr_get (region_0_pages s) j = Some e' ->
      arr_get (<[Z.to_nat i := if pte_valid e then mk_pte false 0 (pte_pfn e) else e]> pt) j =
      Some (g ((Z.max (i - 1) new <? j) && (j <=? prev)) j e')).
    { rewrite <- Hgi. apply Hst; [|destruct (Z.ltb_spec (Z.max i new) i); [lia|done]|done|done|done|done].
      intros j Hj. destruct (Z.ltb_spec (Z.max i new) j), (Z.ltb_spec (Z.max (i - 1) new) j),
        (Z.leb_spec j prev); done || lia. }
    destruct (pte_valid e) eqn:Hv; cbn [negb].
    + eapply wp_bind_Ok; [apply set_region_0_run; simpl; lia|]. apply wp_bind, wp_gets.
      cbn [virtual_mem_enabled setf set_region_0_pages]. change (virtual_mem_enabled s1) with (virtual_mem_enabled s).
      rewrite Hvm. apply wp_ret. eexists. split; [reflexivity|]. split; [by rewrite length_insert|done].
    + apply wp_ret. exists pt. split; [done|]. split; [done|].
      apply arr_get_Some in He as [_ He]. by rewrite list_insert_id in Hnew.
  - intros s0 (pt & -> & H). apply wp_ret. split; [done|]. exists pt. split; [done|].
    destruct H as [Hl H]. split; [done|]. intros i e He. rewrite (H _ _ He). f_equal.
    destruct (Z.leb_spec i prev), (Z.ltb_spec new i),
      (Z.ltb_spec (Z.max (Z.min prev (new + 1 - 1)) new) i); done || lia.
Qed.

(** Moving the break before virtual memory is on. *)
Lemma SetKernelBrk_off s addr :
  let curr := orig_kernel_brk_page + kernel_brk_offset s in
  let new := brk_page addr in
  virtual_mem_enabled s = 0 -> Z.of_nat (length (region_0_pages s)) = NUM_PAGES ->
  1 <= curr < NUM_PAGES -> new <= NUM_PAGES ->
  wp (SetKernelBrk addr) (fun rc s' =>
    (rc = -1 /\ s' = s /\ (new < orig_kernel_brk_page \/ new > DOWN_TO_PAGE KERNEL_STACK_BASE)) \/
    exists pt, (if new <? curr then unmapped (fun i => (new <? i) && (i <=? curr))
                else one_to_one (fun i => (curr - 1 <=? i) && (i <? new))) (region_0_pages s) pt /\
      ((rc = 0 /\ s' = s <| region_0_pages := pt |> <| kernel_brk_offset := new - orig_kernel_brk_page |>) \/
       (rc = ERROR /\ uninit_int = ERROR /\ s' = s <| region_0_pages := pt |>))) s.
Proof.
  intros curr new Hvm Hlen Hcurr Hnew. unfold SetKernelBrk. fold (brk_page addr).
  destruct hw_kernel_pages as (? & ? & ?). apply wp_bind, wp_gets. fold curr new.
  destruct (Z.ltb_spec new orig_kernel_brk_page); [apply wp_ret; left; split_and!; [done|done|by left]|].
  destruct (Z.gtb_spec new (DOWN_TO_PAGE KERNEL_STACK_BASE)) as [Hgt|Hle].
  { apply wp_ret. left. split_and!; [done|done|right; lia]. }
  apply wp_bind. destruct (Z.ltb_spec new curr) as [Hlt|Hge].
  - eapply wp_mono; [apply shrink_heap_pages_off; [done|lia|lia]|].
    intros r s' (-> & pt & -> & Hp). pose proof ERROR_neg. destruct (Z.eqb_spec 0 ERROR); [lia|].
    apply wp_bind, wp_modify, wp_ret. right. exists pt. split; [done|]. by left.
  - eapply wp_mono; [apply expand_heap_pages_off; [done|lia|lia]|].
    intros r s' (-> & pt & -> & Hp). destruct (Z.eqb_spec uninit_int ERROR).
    + apply wp_ret. right. exists pt. split; [done|]. by right.
    + apply wp_bind, wp_modify, wp_ret. right. exists pt. split; [done|]. by left.
Qed.

Lemma brk_page_below_stack addr :
  brk_page addr < NUM_PAGES -> 4 <= PAGESIZE -> brk_page addr <= DOWN_TO_PAGE KERNEL_STACK_BASE.
Proof.
  intros Ha Hp. destruct hw_layout as (HL0 & _). destruct hw_kstack as (Hl & Hb & Hmx & _).
  pose proof NUM_PAGES_ge_4. pose proof NUM_PAGES_size.
  assert (Hsb : KERNEL_STACK_BASE = (NUM_PAGES - 2) * PAGESIZE)
    by (rewrite Z.mul_sub_distr_r; lia).
  rewrite hw_down_to_page by (rewrite Hsb; nia). rewrite Hsb, Z.div_mul by lia. nia.
Qed.

(** Every request of the allocator is for a break between pages [lo] and [hi]. *)
Definition requests_within (hb : nat -> option ptr) (lo hi : Z) : Prop :=
  forall n addr, hb n = Some addr -> lo <= brk_page addr <= hi.

(** The kernel while it boots: the break is between pages [lo] and [hi], and
    region 0 maps only pages of the kernel below [hi], each to its own frame. *)
Record boot_heap (lo hi : Z) (s : kst) : Prop := {
  bh_vm : virtual_mem_enabled s = 0;
  bh_mem : mem_ok s;
  bh_length : Z.of_nat (length (region_0_pages s)) = NUM_PAGES;
  bh_brk : lo <= orig_kernel_brk_page + kernel_brk_offset s <= hi;
  bh_own : forall i e, arr_get (region_0_pages s) i = Some e -> pte_valid e = true ->
    pte_pfn e = i /\ frame_region hi i <> REGION_UNUSED }.

Lemma heap_page_used hi i : 0 <= i < hi -> frame_region hi i <> REGION_UNUSED.
Proof.
  intros Hi. unfold frame_region, REGION_UNUSED, REGION_BASE_MEMORY, REGION_KERNEL_TEXT,
    REGION_KERNEL_DATAHEAP, REGION_KERNEL_STACK. repeat case_match; zbool; lia.
Qed.

(** [mapped] pages of a booting kernel are not free when the free frames are
    above the heap. *)
Lemma boot_heap_disjoint lo hi s f :
  boot_heap lo hi s -> frame_region hi f = REGION_UNUSED -> f ∉ mapped (region_0_pages s).
Proof.
  intros Hb Hf (i & e & Hi & Hv & <-)%elem_of_mapped.
  destruct (bh_own _ _ _ Hb _ _ Hi Hv) as [E H]. apply H. by rewrite <- E.
Qed.

(** The free frames once the frames below [i] have been looked at. *)
Record queued (lo hi i : Z) (s : kst) : Prop := {
  qd_queue : exists q fs, free_frame_queue s = Some q /\ q_data q = FrameCell <$> fs;
  qd_NoDup : NoDup (free_frames s);
  qd_free : forall f, f ∈ free_frames s -> 0 <= f < i /\ frame_region (lo + 2) f = REGION_UNUSED;
  qd_all : forall f, 0 <= f < i -> frame_region (hi + 2) f = REGION_UNUSED -> f ∈ free_frames s }.

Lemma queued_eq lo hi i s s' :
  free_frame_queue s' = free_frame_queue s -> queued lo hi i s -> queued lo hi i s'.
Proof. intros E []. split; unfold free_frames in *; rewrite E; done. Qed.

Lemma queued_append lo hi i s s' q :
  queued lo hi i s -> free_frame_queue s = Some q ->
  free_frame_queue s' = Some (q_append q (FrameCell i)) -> 0 <= i ->
  frame_region (lo + 2) i = REGION_UNUSED -> queued lo hi (i + 1) s'.
Proof.
  intros [(q0 & fs & Eq0 & Ed) Hnd Hf Ha] Eq Eq' Hi Hu. assert (q0 = q) as -> by congruence.
  assert (Ef : free_frames s = fs) by (unfold free_frames; by rewrite Eq, Ed, frame_pfns_cells).
  rewrite Ef in *.
  assert (Ea : q_data (q_append q (FrameCell i)) = FrameCell <$> (fs ++ [i])) by (by rewrite q_data_append, Ed, fmap_app).
  assert (Ef' : free_frames s' = fs ++ [i]) by (unfold free_frames; by rewrite Eq', Ea, frame_pfns_cells).
  split; rewrite ?Ef'.
  - by exists (q_append q (FrameCell i)), (fs ++ [i]).
  - apply NoDup_app. split_and!; [done| |apply NoDup_singleton].
    intros f Hin ->%list_elem_of_singleton. apply Hf in Hin. lia.
  - intros f [Hin|Hin%list_elem_of_singleton]%elem_of_app; [apply Hf in Hin; split; [lia|apply Hin]|].
    subst f. split; [lia|done].
  - intros f Hr Hun. apply elem_of_app. destruct (decide (f = i)) as [->|]; [right; by apply list_elem_of_singleton|].
    left. apply Ha; [lia|done].
Qed.

Lemma queued_skip lo hi i s :
  queued lo hi i s -> frame_region (hi + 2) i <> REGION_UNUSED -> queued lo hi (i + 1) s.
Proof.
  intros [Hq Hnd Hf Ha] Hu. split; [done|done| |].
  - intros f Hin. apply Hf in Hin. split; [lia|apply Hin].
  - intros f Hr Hun. apply Ha; [|done]. destruct (decide (f = i)) as [->|]; [done|lia].
Qed.

Section Boot_heap.
Context (hb : nat -> option ptr) (lo hi : Z).
Context (Hlo1 : 1 <= lo) (Hlo : orig_kernel_brk_page <= lo) (Hhi : hi < NUM_PAGES).
Context (H4 : 4 <= PAGESIZE) (Hu : uninit_int <> ERROR) (Hreq : requests_within hb lo hi).

Lemma boot_malloc_wp s :
  boot_heap lo hi s ->
  wp (boot_malloc hb) (fun p s' => p <> NULL /\ boot_heap lo hi s' /\
    free_frame_queue s' = free_frame_queue s /\ region_1_pages s' = region_1_pages s) s.
Proof using All.
  intros [Hvm Hm Hlen Hbrk Hown]. unfold boot_malloc.
  apply wp_bind, wp_gets. destruct (hb (mallocs s)) as [addr|] eqn:Ehb.
  2:{ apply wp_malloc. split_and!; [apply Hm| |done|done]. by split. }
  pose proof (Hreq _ _ Ehb) as Hnew. apply wp_bind.
  eapply wp_mono; [apply SetKernelBrk_off; [done|done|lia|lia]|].
  assert (Hst : brk_page addr <= DOWN_TO_PAGE KERNEL_STACK_BASE) by (apply brk_page_below_stack; lia).
  intros rc s' [(_ & _ & [?|?])|(pt & Hpt & [(-> & ->)|(_ & ? & _)])]; [lia|lia| |done].
  apply wp_bind, wp_malloc, wp_ret. cbn [Z.eqb]. split_and!; [apply Hm| |done|done].
  assert (Hl : length pt = length (region_0_pages s)) by (by destruct (_ <? _); apply Hpt).
  split; simpl; [done|exact Hm|by rewrite Hl|lia|].
  intros i e He Hv. pose proof (arr_get_lt _ _ _ He) as Hi.
  destruct (proj2 (arr_get_is_Some (region_0_pages s) i)) as [e0 He0]; [lia|].
  destruct (_ <? _); destruct Hpt as [_ Hpt]; rewrite (Hpt _ _ He0) in He; simplify_eq;
    destruct (pte_valid e0) eqn:Hv0; try (by apply (Hown i)).
  - rewrite andb_true_r in Hv |- *. destruct (_ && _); [done|by apply (Hown i)].
  - rewrite andb_false_r in Hv. congruence.
  - rewrite andb_false_r. by apply (Hown i).
  - rewrite andb_true_r in Hv |- *. destruct (Z.ltb_spec i (brk_page addr));
      [|rewrite andb_false_r in Hv; congruence].
    destruct (_ <=? _); [|simpl in Hv; congruence]. split; [done|]. apply heap_page_used. lia.
Qed.

Lemma boot_queue_push_wp q d s :
  boot_heap lo hi s ->
  wp (boot_queue_push hb (Some q) (FrameCell d)) (fun r s' => r = (0, Some (q_append q (FrameCell d))) /\
    boot_heap lo hi s' /\ free_frame_queue s' = free_frame_queue s /\
    region_1_pages s' = region_1_pages s) s.
Proof using All.
  intros Hb. unfold boot_queue_push. cbn [push_allocates is_null frame_ptr_nullable negb].
  apply wp_bind. eapply wp_mono; [by apply boot_malloc_wp|]. intros p s' (Hp & Hb' & Hq & Hr).
  apply wp_ret. split; [|done]. by rewrite spec_queue_push_ok.
Qed.

Lemma init_free_frame_queue_wp n s :
  boot_heap lo hi s -> free_frame_queue s = Some empty_queue ->
  wp (init_free_frame_queue hb n) (fun _ s' => boot_heap lo hi s' /\ queued lo hi (Z.max 0 n) s' /\
    region_1_pages s' = region_1_pages s) s.
Proof using All.
  intros Hb Hq. unfold init_free_frame_queue. apply wp_bind, wp_gets. rewrite Hq. apply wp_bind.
  apply (wp_range_up _ _ _ (fun i s' => boot_heap lo hi s' /\ queued lo hi i s' /\
    region_1_pages s' = region_1_pages s)).
  - split; [done|]. split; [|done]. assert (E : free_frames s = []) by (unfold free_frames; by rewrite Hq).
    split; rewrite ?E; [by exists empty_queue, []|constructor|by intros f ?%not_elem_of_nil|intros; lia].
  - intros i s0 Hi (Hb0 & Hqd & Hr0). apply wp_bind, wp_gets. pose proof (bh_brk _ _ _ Hb0) as Hbrk.
    set (cur := orig_kernel_brk_page + kernel_brk_offset s0 + 1 + 1) in *.
    destruct (Z.eqb_spec (frame_region cur i) REGION_UNUSED) as [Hun|Hun].
    + apply wp_bind. eapply wp_mono; [by apply boot_malloc_wp|]. intros p s1 (Hp & Hb1 & Eq1 & Er1).
      destruct (Z.eqb_spec p NULL); [done|]. destruct (qd_queue _ _ _ _ Hqd) as (q & fs & Eq & _).
      rewrite Eq in Eq1. apply wp_bind, wp_gets. rewrite Eq1. apply wp_bind.
      eapply wp_mono; [by apply boot_queue_push_wp|]. intros r s2 (-> & Hb2 & _ & Er2).
      apply wp_bind, wp_modify, wp_ret. split; [by destruct Hb2|]. split; [|simpl; congruence].
      eapply (queued_append _ _ _ s0); [done|done|done|lia|].
      eapply frame_region_mono; [|exact Hun]. unfold cur. lia.
    + apply wp_ret. split; [done|]. split; [|done]. apply queued_skip; [done|].
      intros H. apply Hun. eapply frame_region_mono; [|exact H]. unfold cur. lia.
  - intros s0 (Hb0 & Hqd & Hr0). by apply wp_ret.
Qed.

Lemma KernelStart_memory_wp n s :
  mem_ok s -> virtual_mem_enabled s = 0 -> Z.of_nat (length (region_0_pages s)) = NUM_PAGES ->
  lo = orig_kernel_brk_page + kernel_brk_offset s -> lo <= hi ->
  wp (KernelStart_memory hb n) (fun _ s' => boot_heap lo hi s' /\
    queued lo hi (Z.max 0 (n / PAGESIZE)) s' /\ mapped (region_1_pages s') = []) s.
Proof using All.
  intros Hm Hvm Hlen Elo Hle. unfold KernelStart_memory. apply wp_bind.
  eapply wp_mono; [by apply init_page_tables_run|].
  intros _ s1 (_ & Hma & Hoff & Hvm1 & Hm1 & Hl1 & Hall). apply wp_bind, wp_modify.
  assert (Hb : boot_heap lo hi (s1 <| reg_ptbr1 := Pt_boot |>)).
  { split; simpl; [congruence|intros k; change (malloc_at s1 k <> NULL); rewrite Hma; apply Hm|done|rewrite Hoff, <- Elo; lia|].
    intros i e He Hv. pose proof (arr_get_lt _ _ _ He). destruct (Hall i) as [old Ho]; [lia|].
    rewrite Ho in He. simplify_eq. apply boot_pte_mapped in Hv as [Ep Hr]. split; [done|].
    intros Hun. apply Hr. eapply frame_region_mono; [exact Hle|exact Hun]. }
  apply wp_bind, wp_bind. eapply wp_mono; [by apply boot_malloc_wp|].
  intros p s2 (Hp & Hb2 & _ & Er2). apply wp_ret, wp_bind, wp_modify. unfold spec_queue_new.
  destruct (Z.eqb_spec p NULL); [done|].
  eapply wp_mono; [apply init_free_frame_queue_wp; [by destruct Hb2|done]|].
  intros _ s3 (Hb3 & Hq3 & Er3). split; [done|]. split; [done|]. rewrite Er3. simpl. by rewrite Er2.
Qed.
End Boot_heap.
(** ** Main results *)

(** C11: at boot, while [malloc] moves the break by at most the two pages
    [init_free_frame_queue] keeps as a margin, no frame is twice on the free
    frame queue and no queued frame is mapped; the queue has every frame below
    [pmem_size] that is above the margin and in no part of the kernel. *)
Theorem boot_frames_disjoint hb top s pmem_size :
  let brk := orig_kernel_brk_page + kernel_brk_offset s in
  Z.of_nat (length (region_0_pages s)) = NUM_PAGES -> mem_ok s -> virtual_mem_enabled s = 0 ->
  4 <= PAGESIZE -> uninit_int <> ERROR ->
  1 <= brk -> orig_kernel_brk_page <= brk -> brk <= top <= brk + 2 -> top < NUM_PAGES ->
  requests_within hb brk top ->
  exists s', KernelStart_memory hb pmem_size s = Ok tt s' /\
    brk <= orig_kernel_brk_page + kernel_brk_offset s' <= top /\
    NoDup (free_frames s') /\
    (forall f, f ∈ free_frames s' -> f ∉ mapped (region_0_pages s')) /\
    (forall f, f ∈ free_frames s' ->
       0 <= f < pmem_size / PAGESIZE /\ frame_region (brk + 2) f = REGION_UNUSED) /\
    (forall f, 0 <= f < pmem_size / PAGESIZE -> frame_region (top + 2) f = REGION_UNUSED ->
       f ∈ free_frames s') /\
    mapped (region_1_pages s') = [].
Proof.
  intros brk Hlen Hm Hvm H4 Hu H1 Horig Htop Hmax Hreq.
  destruct (wp_returns _ _ _ (KernelStart_memory_wp hb brk top H1 Horig Hmax H4 Hu Hreq
    pmem_size s Hm Hvm Hlen eq_refl (proj1 Htop))) as ([] & s' & E & Hb & Hq & Hr1).
  exists s'. split; [done|]. split; [apply Hb|]. split; [apply Hq|]. split_and!.
  - intros f [_ Hf]%(qd_free _ _ _ _ Hq). eapply boot_heap_disjoint; [done|].
    eapply frame_region_mono; [|exact Hf]. lia.
  - intros f [Hf Hun]%(qd_free _ _ _ _ Hq). split; [lia|done].
  - intros f Hf Hun. apply (qd_all _ _ _ _ Hq); [lia|done].
  - done.
Qed.

(** C27: on a user-space address [check_memory_validity] reads the entry of the
    address's page, except that page [NUM_PAGES] (the first of region 1) and
    page [2 * NUM_PAGES] index the tables out of bounds, and everything
    above is reported valid. *)
Theorem check_memory_validity_spec s addr r1 :
  0 <= addr <= INT_MAX ->
  Z.of_nat (length (region_0_pages s)) = NUM_PAGES ->
  read_ptbr1 s = Ok r1 s -> Z.of_nat (length r1) = NUM_PAGES ->
  let page := addr / PAGESIZE in
  check_memory_validity addr s =
    if 2 * NUM_PAGES <? page then Ok 4294967295 s
    else if (page =? NUM_PAGES) || (page =? 2 * NUM_PAGES) then Undef
    else match arr_get (if page <? NUM_PAGES then region_0_pages s else r1)
                       (if page <? NUM_PAGES then page else page - NUM_PAGES) with
         | Some e => Ok (b2z (pte_valid e)) s
         | None => Undef
         end.
Proof.
  intros Ha Hl0 Hr1 Hl1 page. unfold check_memory_validity.
  pose proof hw_pagesize. pose proof NUM_PAGES_ge_4.
  assert (Hpage : 0 <= page) by (apply Z.div_pos; lia).
  rewrite wrap32_id by (unfold INT_MIN, INT_MAX in *; lia).
  assert (Hq : Z.quot (DOWN_TO_PAGE addr) PAGESIZE = page).
  { rewrite Z.quot_div_nonneg; [apply down_page_index; lia| |lia].
    rewrite hw_down_to_page by lia. nia. }
  rewrite Hq. replace (NUM_PAGES * 2) with (2 * NUM_PAGES) by lia. rewrite !Z.gtb_ltb.
  destruct (Z.ltb_spec (2 * NUM_PAGES) page); [done|].
  destruct (Z.ltb_spec NUM_PAGES page) as [Hr|Hr].
  - destruct (Z.eqb_spec page NUM_PAGES); [lia|]. simpl.
    destruct (Z.ltb_spec page NUM_PAGES); [lia|].
    unfold get_region_0 at 1. unfold bind at 1 2, gets at 1.
    destruct (Z.eqb_spec page (2 * NUM_PAGES)) as [->|Hne].
    + by rewrite arr_get_None by lia.
    + destruct (proj2 (arr_get_is_Some (region_0_pages s) (page - NUM_PAGES))) as [e0 ->]; [lia|].
      destruct (proj2 (arr_get_is_Some r1 (page - NUM_PAGES))) as [e1 He1]; [lia|].
      unfold bind, demand, ret. simpl. rewrite Hr1, He1. by destruct (pte_valid e1).
  - destruct (Z.ltb_spec page NUM_PAGES) as [Hlt|Hge].
    + destruct (Z.eqb_spec page NUM_PAGES); [lia|].
      destruct (Z.eqb_spec page (2 * NUM_PAGES)); [lia|]. simpl.
      unfold get_region_0, bind, gets, demand, ret.
      destruct (arr_get (region_0_pages s) page) as [e|]; [by destruct (pte_valid e)|done].
    + assert (page = NUM_PAGES) as -> by lia. rewrite Z.eqb_refl. simpl.
      unfold get_region_0, bind, gets, demand. by rewrite arr_get_None by lia.
Qed.

(** C12: with virtual memory on, moving the kernel break within region 0
    neither loses nor duplicates a frame; on success the break is where it was
    asked for, with the pages below it mapped (moving up) or the pages above it
    unmapped (moving down).  With virtual memory off the free frame queue stays
    as it is: a frame of the pages the break is moved over that is on the queue
    is mapped and stays queued. *)
Theorem SetKernelBrk_frames s addr :
  let curr := orig_kernel_brk_page + kernel_brk_offset s in
  frames_proper s -> mem_ok s ->
  Z.of_nat (length (region_0_pages s)) = NUM_PAGES ->
  1 <= curr < NUM_PAGES -> brk_page addr <= NUM_PAGES ->
  exists rc s', SetKernelBrk addr s = Ok rc s' /\ (rc = 0 \/ rc = ERROR) /\
    (rc = 0 -> orig_kernel_brk_page + kernel_brk_offset s' = brk_page addr) /\
    (virtual_mem_enabled s <> 0 -> frames_conserved s s' /\
       (rc = 0 ->
          (forall i, curr - 1 <= i < brk_page addr ->
             exists e, arr_get (region_0_pages s') i = Some e /\ pte_valid e = true) /\
          (forall i, brk_page addr < i <= curr ->
             exists e, arr_get (region_0_pages s') i = Some e /\ pte_valid e = false))) /\
    (virtual_mem_enabled s = 0 -> free_frame_queue s' = free_frame_queue s /\
       (rc = 0 -> curr <= brk_page addr -> forall f e, curr - 1 <= f < brk_page addr ->
          f ∈ free_frames s -> arr_get (region_0_pages s) f = Some e -> pte_valid e = false ->
          f ∈ free_frames s' /\ f ∈ mapped (region_0_pages s'))).
Proof.
  intros curr Hp Hm Hlen Hcurr Hpage. destruct (decide (virtual_mem_enabled s = 0)) as [Hvm|Hvm].
  - destruct (wp_returns _ _ _ (SetKernelBrk_off s addr Hvm Hlen Hcurr Hpage)) as (rc & s' & E & H).
    exists rc, s'. rewrite hw_error. split; [done|].
    destruct H as [(-> & -> & _)|(pt & Hpt & [(-> & ->)|(-> & _ & ->)])];
      (split; [rewrite ?hw_error; auto|split; [simpl; intros; rewrite ?hw_error in *; lia|]]);
      (split; [done|intros _; split; [done|]]); rewrite ?hw_error; try done.
    intros _ Hup f e Hf Hin He Hv. fold curr in Hpt. split; [exact Hin|].
    destruct (Z.ltb_spec (brk_page addr) curr); [lia|]. destruct Hpt as [_ Hpt].
    apply elem_of_mapped. exists f. simpl. rewrite (Hpt _ _ He), Hv.
    destruct (Z.leb_spec (curr - 1) f), (Z.ltb_spec f (brk_page addr)); try lia. by eexists.
  - destruct (wp_returns _ _ _ (SetKernelBrk_wp s addr Hvm Hp Hm Hlen Hcurr Hpage))
      as (rc & s' & E & Hc & _ & _ & H).
    exists rc, s'. rewrite hw_error. split_and!; [done| | | |done];
      destruct H as [(-> & _)|[(-> & _)|(-> & ?)]]; rewrite ?hw_error; naive_solver lia.
Qed.

(** With enough free frames the break is moved to any address of region 0
    above the original break, the kernel stack included. *)
Theorem SetKernelBrk_accepts_stack s addr :
  let curr := orig_kernel_brk_page + kernel_brk_offset s in
  virtual_mem_enabled s <> 0 -> frames_proper s -> mem_ok s ->
  Z.of_nat (length (region_0_pages s)) = NUM_PAGES ->
  1 <= curr < NUM_PAGES -> 4 <= PAGESIZE -> uninit_int <> ERROR ->
  Z.of_nat (length (free_frames s)) > NUM_PAGES ->
  KERNEL_STACK_BASE < addr <= VMEM_0_LIMIT ->
  exists s', SetKernelBrk addr s = Ok 0 s' /\
    orig_kernel_brk_page + kernel_brk_offset s' > KERNEL_STACK_BASE / PAGESIZE.
Proof.
  intros curr Hvm Hp Hm Hlen Hcurr H4 Hu Hff Haddr.
  pose proof kstack_page as Hks. pose proof NUM_PAGES_ge_4. pose proof NUM_PAGES_size.
  destruct hw_layout as (HL0 & _ & HL1 & _). destruct hw_kstack as (Hl & Hb & Hmx & _).
  pose proof hw_pagesize.
  assert (Hsb : KERNEL_STACK_BASE = (NUM_PAGES - 2) * PAGESIZE)
    by (rewrite Z.mul_sub_distr_r; lia).
  assert (Hpage : NUM_PAGES - 2 < brk_page addr <= NUM_PAGES).
  { unfold brk_page. rewrite hw_up_to_page, Z.div_mul by nia. split.
    - assert (NUM_PAGES - 1 <= (addr + PAGESIZE - 1) / PAGESIZE); [|lia].
      apply Z.div_le_lower_bound; nia.
    - assert ((addr + PAGESIZE - 1) / PAGESIZE < NUM_PAGES + 1); [|lia].
      apply Z.div_lt_upper_bound; nia. }
  destruct (wp_returns _ _ _ (SetKernelBrk_wp s addr Hvm Hp Hm Hlen Hcurr (proj2 Hpage)))
    as (rc & s' & E & Hc & _ & Hl' & H').
  destruct hw_kernel_pages as (_ & _ & Horig).
  assert (Hst : brk_page addr <= DOWN_TO_PAGE KERNEL_STACK_BASE)
    by (apply brk_page_below_stack_addr; nia).
  destruct H' as [(_ & _ & [?|?])|[(_ & _ & [Hf|?])|(-> & Hoff & _)]]; [lia|lia| |done|].
  - apply Permutation_length in Hc. rewrite !length_app, Hf in Hc. simpl in Hc.
    pose proof (mapped_length (region_0_pages s')). lia.
  - exists s'. split; [done|]. lia.
Qed.
End Facts.

(** ** Witnesses on the demo machine *)
Section Witnesses.
Import DemoHardware Demo.

(** Region 0 with the break at page 3, 130 free frames beyond it. *)
Definition demo_heap : kst := blank
  <| region_0_pages := (fun i => mk_pte (i <? 3) 3 i) <$> range_up 0 128 |>
  <| free_frame_queue := Some (mk_queue ((fun i => (i, FrameCell (i + 128))) <$> range_up 0 130) 130 130) |>
  <| virtual_mem_enabled := 1 |>.

(** The allocator moves the break from page 3 to page 5 for the fourth block,
    or to page 10 for the seventh, when frames above the margin are queued. *)
Definition demo_requests (n : nat) : option ptr := if Nat.eqb n 3 then Some 80 else None.
Definition demo_overrun (n : nat) : option ptr := if Nat.eqb n 6 then Some 160 else None.

Lemma boot_frames_disjoint_witness :
  exists s', KernelStart_memory demo_requests 2560 blank = Ok tt s' /\ NoDup (free_frames s').
Proof.
  destruct (boot_frames_disjoint demo_requests 5 blank 2560) as (s' & E & _ & H & _);
    [reflexivity|by apply demo_mem_ok|reflexivity|by vm_compute|by vm_compute|by vm_compute|by vm_compute
    |split; by vm_compute|by vm_compute| |exact (ex_intro _ s' (conj E H))].
  intros [|[|[|[|n]]]] addr [= <-]; split; by vm_compute.
Defined.

(** Beyond the margin: frame 7 is on the queue and mapped in the heap. *)
Example boot_margin_overrun :
  match KernelStart_memory demo_overrun 2560 blank with
  | Ok _ s' => bool_decide (7 ∈ free_frames s' /\ 7 ∈ mapped (region_0_pages s'))
  | _ => false
  end = true.
Proof. by vm_compute. Qed.

Lemma check_memory_validity_spec_witness :
  check_memory_validity 35 demo_heap = Ok 1 demo_heap.
Proof.
  rewrite (check_memory_validity_spec demo_heap 35 (region_1_pages blank));
    [reflexivity|unfold INT_MAX; lia|reflexivity|reflexivity|reflexivity].
Defined.

(** The same table with virtual memory off and frame 3 on the queue. *)
Definition demo_boot_heap : kst := blank
  <| region_0_pages := (fun i => mk_pte (i <? 3) 3 i) <$> range_up 0 128 |>
  <| free_frame_queue := Some (mk_queue [(0, FrameCell 3)] 1 1) |>.

Lemma SetKernelBrk_frames_witness :
  (exists rc s', SetKernelBrk 64 demo_heap = Ok rc s' /\ frames_conserved demo_heap s') /\
  (exists rc s', SetKernelBrk 64 demo_boot_heap = Ok rc s' /\ free_frame_queue s' = free_frame_queue demo_boot_heap).
Proof.
  split.
  - destruct (SetKernelBrk_frames demo_heap 64) as (rc & s' & E & _ & _ & H & _);
      [by apply (bool_decide_unpack _)|by apply demo_mem_ok|reflexivity|by vm_compute|by vm_compute|].
    exact (ex_intro _ rc (ex_intro _ s' (conj E (proj1 (H ltac:(done)))))).
  - destruct (SetKernelBrk_frames demo_boot_heap 64) as (rc & s' & E & _ & _ & _ & H);
      [by apply (bool_decide_unpack _)|by apply demo_mem_ok|reflexivity|by vm_compute|by vm_compute|].
    exact (ex_intro _ rc (ex_intro _ s' (conj E (proj1 (H eq_refl))))).
Defined.

Lemma SetKernelBrk_accepts_stack_witness :
  exists s', SetKernelBrk 2030 demo_heap = Ok 0 s'.
Proof.
  destruct (SetKernelBrk_accepts_stack demo_heap 2030) as (s' & E & _);
    [done|by apply (bool_decide_unpack _)|by apply demo_mem_ok|reflexivity|by vm_compute|by vm_compute|by vm_compute
    |by vm_compute|by vm_compute|].
  exact (ex_intro _ s' E).
Defined.
End Witnesses.
