(* ===== verification/Pcb.v ===== *)
(** * Process control blocks ([pcb.c])

    Creation, re-parenting and destruction of PCBs.  Main results: [pcbExit]
    gives every frame of the process back exactly once and a second call gives
    nothing back; [pcbFree] does the same and removes the PCB, so a second
    [pcbFree] is undefined; [pcbOrphanChildren] makes init the parent. *)

From S2P Require Import Prelude Hardware Containers KState Memory.
From stdpp Require Import list gmap fin_maps.

#[local] Open Scope Z_scope.

Section Defs.
Context {hw : Hardware}.

Definition pcbNew (pid : Z) (initial_page_table initial_kstack_pages : option (list pte))
  (parent : ptr) (initial_user_ctx : option UserContext) (krn_ctx : option kctx) : M kst ptr :=
  new_pcb <- malloc ;;
  live <- gets pcbs ;;
  if (new_pcb =? NULL) || bool_decide (is_Some (live !! new_pcb)) then ret NULL else
  children <- set_new ;;
  zombies <- set_new ;;
  usr_ctx <- malloc ;;
  if usr_ctx =? NULL then ret NULL else
  uc <- demand initial_user_ctx ;;
  krn <- match krn_ctx with
         | None => a <- malloc ;; ret (if a =? NULL then None else Some (mk_kctx a None))
         | Some k => ret (Some k)
         end ;;
  match krn with
  | None => ret NULL
  | Some krn =>
      kstack <- match initial_kstack_pages with
                | None =>
                    a <- malloc ;;
                    ret (if a =? NULL then None
                         else Some (replicate (Z.to_nat NUM_KSTACK_FRAMES) uninit_pte))
                | Some ks => ret (Some ks)
                end ;;
      match kstack with
      | None => ret NULL
      | Some kstack =>
          r0 <- malloc ;;
          if r0 =? NULL then ret NULL else
          store_pcb new_pcb {|
            p_state := READY; p_waiting := 0; p_pid := pid;
            p_current_brk := uninit_int; p_delay_ticks := 0;
            p_exit_status := 0; p_child_exit_status := 0;
            p_parent := parent; p_children := children; p_zombies := zombies;
            p_page_table := initial_page_table; p_usr_ctx := Some uc;
            p_krn_ctx := Some krn; p_kernel_stack_pages := Some kstack;
            p_tty_read_buffer_r0 :=
              Some (mk_blk r0 (replicate (Z.to_nat TERMINAL_MAX_LINE) uninit_byte));
            p_tty_read_buffer_r1 := NULL; p_tty_has_bytes := 0;
            p_tty_num_bytes_requested := uninit_int; p_tty_num_bytes_read := 0;
            p_tty_write_waiting := 0 |} ;;;
          ret new_pcb
      end
  end.

(** [set_iterate] with a callback that acts on the kernel. *)
Definition iterate (set : option (set_t ptr)) (arg : ptr)
  (itemfunc : ptr -> Z -> ptr -> M kst unit) : M kst unit :=
  match set with
  | None => ret tt
  | Some set =>
      for_each (R:=unit) (s_nodes set) (fun n => itemfunc arg n.1 n.2 ;;; ret None) ;;; ret tt
  end.

Definition setParentHelper (arg : ptr) (key : Z) (item : ptr) : M kst unit :=
  upd_pcb item (fun v => v <| p_parent := arg |>).

Definition pcbOrphanChildren (pcb : ptr) : M kst unit :=
  v <- load_pcb pcb ;;
  init <- gets init_process ;;
  iterate (p_children v) init setParentHelper ;;;
  v <- load_pcb pcb ;;
  iterate (p_zombies v) init setParentHelper.

(** Push the frames of the first [n] entries of a table; [Some tt] when a
    [malloc] fails and the caller returns. *)
Definition release_frames (n : Z) (table : list pte) : M kst (option unit) :=
  for_each (range_up 0 n) (fun i =>
    page_entry <- demand (arr_get table i) ;;
    if pte_valid page_entry then
      pfn_holder <- malloc ;;
      if pfn_holder =? NULL then ret (Some tt) else
      push_to free_frame_queue (FrameCell (pte_pfn page_entry)) ;;;
      ret None
    else ret None).

(** The frames of a table that is there, unless the queue is NULL. *)
Definition release_table (n : Z) (table : option (list pte)) : M kst (option unit) :=
  match table with
  | None => ret None
  | Some t =>
      q <- gets free_frame_queue ;;
      match q with None => ret None | Some _ => release_frames n t end
  end.

(** The body [pcbExit] and [pcbFree] have in common; [false] when a failed
    [malloc] makes them return early. *)
Definition pcb_release (pcb : ptr) : M kst bool :=
  v <- load_pcb pcb ;;
  r <- release_table NUM_PAGES (p_page_table v) ;;
  match r with
  | Some _ => ret false
  | None =>
      upd_pcb pcb (fun v => v <| p_page_table := None |> <| p_children := None |>
        <| p_zombies := None |> <| p_usr_ctx := None |> <| p_krn_ctx := None |>) ;;;
      v <- load_pcb pcb ;;
      r <- release_table 2 (p_kernel_stack_pages v) ;;
      match r with
      | Some _ => ret false
      | None =>
          upd_pcb pcb (fun v => v <| p_kernel_stack_pages := None |>) ;;;
          ret true
      end
  end.

Definition pcbExit (pcb : ptr) : M kst unit :=
  if pcb =? NULL then ret tt else pcb_release pcb ;;; ret tt.

Definition pcbFree (pcb : ptr) : M kst unit :=
  if pcb =? NULL then ret tt else
  ok <- pcb_release pcb ;;
  if ok : bool then free_pcb pcb else ret tt.
End Defs.

Section Facts.
Context {hw : Hardware}.

(** What is left of a PCB after [pcbExit]. *)
Definition dumped (v : pcb_t) : pcb_t :=
  v <| p_page_table := None |> <| p_children := None |> <| p_zombies := None |>
    <| p_usr_ctx := None |> <| p_krn_ctx := None |> <| p_kernel_stack_pages := None |>.

(** The frames a PCB owns. *)
Definition pcb_frames (v : pcb_t) : list Z :=
  default [] (mapped <$> p_page_table v) ++ default [] (mapped <$> p_kernel_stack_pages v).

(** Table sizes [pcbNew] and [LoadProgram] establish. *)
Definition tables_wf (v : pcb_t) : Prop :=
  (forall pt, p_page_table v = Some pt -> Z.of_nat (length pt) = NUM_PAGES) /\
  (forall ks, p_kernel_stack_pages v = Some ks -> length ks = 2%nat).

(** Pushing frame cells one after the other. *)
Definition push_frames (l : list Z) (q : queue_t frame_ptr) : queue_t frame_ptr :=
  foldl (fun q f => q_append q (FrameCell f)) q l.

Lemma push_frames_data l q : q_data (push_frames l q) = q_data q ++ (FrameCell <$> l).
Proof.
  revert q. induction l as [|f l IH]; intros q; simpl; [by rewrite app_nil_r|].
  unfold push_frames in *. simpl. by rewrite IH, q_data_append, <- app_assoc.
Qed.

Lemma push_frames_app l1 l2 q : push_frames (l1 ++ l2) q = push_frames l2 (push_frames l1 q).
Proof. apply foldl_app. Qed.

Lemma mapped_take_S table i e :
  table !! i = Some e ->
  mapped (take (S i) table) = mapped (take i table) ++ (if pte_valid e then [pte_pfn e] else []).
Proof.
  intros He. erewrite take_S_r by exact He. rewrite mapped_app, mapped_cons.
  by destruct (pte_valid e).
Qed.

(** The release loop, as a state equation. *)
Lemma release_frames_run table s q :
  free_frame_queue s = Some q -> mem_ok s ->
  exists k, release_frames (Z.of_nat (length table)) table s =
    Ok None (s <| mallocs := k |> <| free_frame_queue := Some (push_frames (mapped table) q) |>).
Proof.
  intros Hq Hm.
  assert (Hw : wp (release_frames (Z.of_nat (length table)) table) (fun r s' => r = None /\
    exists k, s' = s <| mallocs := k |>
      <| free_frame_queue := Some (push_frames (mapped table) q) |>) s).
  { apply (wp_range_up _ _ _ (fun i s' => 0 <= i /\ exists k, s' = s <| mallocs := k |>
      <| free_frame_queue := Some (push_frames (mapped (take (Z.to_nat i) table)) q) |>)).
    - split; [lia|]. exists (mallocs s). simpl. rewrite <- Hq. by destruct s.
    - intros i s0 Hi (Hi0 & k & ->).
      destruct (proj2 (arr_get_is_Some table i)) as [e He]; [lia|].
      apply wp_bind. eapply wp_demand; [exact He|]. apply arr_get_Some in He as [_ He].
      pose proof (mapped_take_S _ _ _ He) as Hmt.
      replace (S (Z.to_nat i)) with (Z.to_nat (i + 1)) in Hmt by lia.
      destruct (pte_valid e).
      + apply wp_bind, wp_malloc. simpl.
        destruct (Z.eqb_spec (malloc_at s k) NULL) as [Hn|_]; [by apply Hm in Hn|].
        apply wp_bind. eapply wp_push_to; [done|done|simpl; apply Hm|].
        apply wp_ret. split; [lia|]. eexists. by rewrite Hmt, push_frames_app.
      + apply wp_ret. split; [lia|]. eexists. by rewrite Hmt, app_nil_r.
    - intros s0 (_ & k & ->). split; [done|]. exists k.
      by rewrite take_ge by lia. }
  destruct (wp_returns _ _ _ Hw) as (r & s' & E & -> & k & ->). by exists k.
Qed.

Lemma release_table_run n table s q :
  free_frame_queue s = Some q -> mem_ok s ->
  (forall t, table = Some t -> Z.of_nat (length t) = n) ->
  exists k, release_table n table s =
    Ok None (s <| mallocs := k |>
               <| free_frame_queue := Some (push_frames (default [] (mapped <$> table)) q) |>).
Proof.
  intros Hq Hm Hn. destruct table as [t|]; simpl.
  - rewrite <- (Hn t eq_refl). destruct (release_frames_run t s q Hq Hm) as [k E].
    exists k. unfold bind, gets. by rewrite Hq.
  - exists (mallocs s). unfold ret. simpl. rewrite <- Hq. by destruct s.
Qed.

(** Both [pcbExit] and [pcbFree] up to the final [free]. *)
Lemma pcb_release_run p v s q :
  pcbs s !! p = Some v -> free_frame_queue s = Some q -> mem_ok s -> tables_wf v ->
  exists k, pcb_release p s =
    Ok true (s <| mallocs := k |> <| pcbs := <[p := dumped v]> (pcbs s) |>
               <| free_frame_queue := Some (push_frames (pcb_frames v) q) |>).
Proof.
  intros Hp Hq Hm [Ht Hk]. unfold pcb_release.
  rewrite (bind_Ok _ _ _ _ _ (load_pcb_run _ _ _ Hp)).
  destruct (release_table_run NUM_PAGES (p_page_table v) s q Hq Hm Ht) as [k1 E1].
  rewrite (bind_Ok _ _ _ _ _ E1).
  erewrite bind_Ok; [|apply upd_pcb_run; exact Hp].
  erewrite bind_Ok; [|apply load_pcb_run; simpl; apply lookup_insert_eq]. simpl.
  match goal with |- context [bind (release_table 2 _) _ ?s1] =>
    destruct (release_table_run 2 (p_kernel_stack_pages v) s1 _ eq_refl Hm) as [k2 E2] end.
  { intros ks Hks. by rewrite (Hk ks Hks). }
  rewrite (bind_Ok _ _ _ _ _ E2).
  erewrite bind_Ok; [|apply upd_pcb_run; simpl; apply lookup_insert_eq].
  exists k2. unfold ret, pcb_frames. rewrite push_frames_app.
  clear. f_equal. unfold dumped. kst_eq s. rewrite insert_insert_eq. reflexivity.
Qed.

Lemma dumped_dumped v : dumped (dumped v) = dumped v.
Proof. done. Qed.

Lemma tables_wf_dumped v : tables_wf (dumped v).
Proof. done. Qed.

Lemma free_frames_push s q k m l :
  free_frame_queue s = Some q ->
  free_frames (s <| mallocs := k |> <| pcbs := m |> <| free_frame_queue := Some (push_frames l q) |>) =
  free_frames s ++ l.
Proof.
  intros Hq. unfold free_frames. simpl. rewrite Hq, push_frames_data, frame_pfns_app.
  by rewrite frame_pfns_cells.
Qed.

(** [pcbOrphanChildren] on one set. *)
Lemma iterate_setParent_run set arg s :
  (forall n, n ∈ default [] (s_nodes <$> set) -> is_Some (pcbs s !! n.2)) ->
  exists m, iterate set arg setParentHelper s = Ok tt (s <| pcbs := m |>) /\
    forall a, m !! a = (fun v => if decide (a ∈ (default [] (s_nodes <$> set)).*2)
                                 then v <| p_parent := arg |> else v) <$> pcbs s !! a.
Proof.
  destruct set as [set|]; simpl.
  2:{ intros _. exists (pcbs s). split; [by destruct s|]. intros a. by destruct (pcbs s !! a). }
  intros Hlive.
  assert (Hw : wp (for_each (R:=unit) (s_nodes set) (fun n => setParentHelper arg n.1 n.2 ;;; ret None))
    (fun _ s' => exists m, s' = s <| pcbs := m |> /\ forall a, m !! a =
       (fun v => if decide (a ∈ (s_nodes set).*2) then v <| p_parent := arg |> else v) <$> pcbs s !! a) s).
  { apply (wp_for_each _ _ (fun l s' => exists l0 m, s_nodes set = l0 ++ l /\ s' = s <| pcbs := m |> /\
      forall a, m !! a = (fun v => if decide (a ∈ l0.*2) then v <| p_parent := arg |> else v)
                           <$> pcbs s !! a)).
    - exists [], (pcbs s). split_and!; [done|by destruct s|]. intros a. by destruct (pcbs s !! a).
    - intros n l s0 (l0 & m & El & -> & Hm).
      destruct (Hlive n) as [v0 Hv0]; [rewrite El; set_solver|].
      assert (Hn : exists v, m !! n.2 = Some v /\ v <| p_parent := arg |> = v0 <| p_parent := arg |>).
      { rewrite Hm, Hv0. simpl. eexists. split; [done|]. by case_decide. }
      destruct Hn as (v & Hv & Ev).
      apply wp_bind. eapply wp_upd_pcb; [exact Hv|]. apply wp_ret.
      exists (l0 ++ [n]), (<[n.2 := v <| p_parent := arg |>]> m).
      split_and!; [by rewrite <- app_assoc|done|]. intros a. rewrite fmap_app. simpl.
      destruct (decide (a = n.2)) as [->|Hne].
      + rewrite lookup_insert_eq, Hv0, Ev. simpl. rewrite decide_True by set_solver. done.
      + rewrite lookup_insert_ne, Hm by done. destruct (pcbs s !! a); [|done]. simpl.
        f_equal. destruct (decide (a ∈ l0.*2)); [rewrite decide_True by set_solver|
          rewrite decide_False by set_solver]; done.
    - intros s0 (l0 & m & El & -> & Hm). rewrite app_nil_r in El. subst l0. by exists m. }
  destruct (wp_returns _ _ _ Hw) as (r & s' & E & m & -> & Hm).
  exists m. split; [|done]. by rewrite (bind_Ok _ _ _ _ _ E).
Qed.

(** [pcbFree] of a live PCB, as a state equation. *)
Lemma pcbFree_run p v s q :
  p <> NULL -> pcbs s !! p = Some v -> free_frame_queue s = Some q -> mem_ok s -> tables_wf v ->
  exists k, pcbFree p s = Ok tt (s <| mallocs := k |> <| pcbs := delete p (pcbs s) |>
    <| free_frame_queue := Some (push_frames (pcb_frames v) q) |>).
Proof.
  intros Hp0 Hp Hq Hm Ht. unfold pcbFree. rewrite (proj2 (Z.eqb_neq p NULL) Hp0).
  destruct (pcb_release_run p v s q Hp Hq Hm Ht) as [k E]. exists k.
  rewrite (bind_Ok _ _ _ _ _ E). erewrite free_pcb_run by (simpl; apply lookup_insert_eq).
  f_equal. clear. kst_eq s. by rewrite delete_insert_eq.
Qed.

(** [pcbOrphanChildren], as a state equation. *)
Lemma pcbOrphanChildren_run p v s :
  let kids := default [] (s_nodes <$> p_children v) ++ default [] (s_nodes <$> p_zombies v) in
  pcbs s !! p = Some v ->
  (forall n, n ∈ kids -> is_Some (pcbs s !! n.2)) ->
  exists m, pcbOrphanChildren p s = Ok tt (s <| pcbs := m |>) /\
    forall a, m !! a = (fun v => if decide (a ∈ kids.*2) then v <| p_parent := init_process s |> else v)
                         <$> pcbs s !! a.
Proof.
  intros kids Hp Hlive. unfold pcbOrphanChildren.
  rewrite (bind_Ok _ _ _ _ _ (load_pcb_run _ _ _ Hp)). unfold bind at 1, gets.
  destruct (iterate_setParent_run (p_children v) (init_process s) s) as (m1 & E1 & H1).
  { intros n Hn. apply Hlive. set_solver. }
  rewrite (bind_Ok _ _ _ _ _ E1).
  assert (Hp1 : exists v1, m1 !! p = Some v1 /\ p_zombies v1 = p_zombies v).
  { rewrite H1, Hp. simpl. eexists. split; [done|]. by case_decide. }
  destruct Hp1 as (v1 & Hv1 & Hz).
  erewrite bind_Ok by (apply load_pcb_run; exact Hv1). rewrite Hz.
  destruct (iterate_setParent_run (p_zombies v) (init_process s) (s <| pcbs := m1 |>)) as (m2 & E2 & H2).
  { intros n Hn. simpl. rewrite H1, fmap_is_Some. apply Hlive. set_solver. }
  exists m2. rewrite E2. split; [done|]. intros a. rewrite H2. simpl. rewrite H1.
  destruct (pcbs s !! a) as [va|]; [|done]. simpl. f_equal.
  unfold kids. rewrite fmap_app. repeat case_decide; try done; exfalso; set_solver.
Qed.

(** ** Main results *)

(** C16: [pcbExit] puts every frame the process owns on the free frame queue,
    in page order, kernel stack last, and leaves a PCB without resources;
    calling it again frees nothing. *)
Theorem pcbExit_frees_once p v s q :
  p <> NULL -> pcbs s !! p = Some v -> free_frame_queue s = Some q -> mem_ok s -> tables_wf v ->
  exists s1 s2, pcbExit p s = Ok tt s1 /\ pcbs s1 = <[p := dumped v]> (pcbs s) /\
    free_frames s1 = free_frames s ++ pcb_frames v /\
    pcbExit p s1 = Ok tt s2 /\ pcbs s2 = pcbs s1 /\ free_frames s2 = free_frames s1.
Proof.
  intros Hp0 Hp Hq Hm Ht. unfold pcbExit. destruct (Z.eqb_spec p NULL) as [|_]; [done|].
  destruct (pcb_release_run p v s q Hp Hq Hm Ht) as [k E].
  rewrite (bind_Ok _ _ _ _ _ E).
  match type of E with _ = Ok _ ?s1' => set (s1 := s1') in * end.
  assert (Hp1 : pcbs s1 !! p = Some (dumped v)) by apply lookup_insert_eq.
  destruct (pcb_release_run p (dumped v) s1 _ Hp1 eq_refl Hm (tables_wf_dumped v)) as [k2 E2].
  eexists s1, _. rewrite (bind_Ok _ _ _ _ _ E2). split_and!; [done|done| |done| |].
  - by apply free_frames_push.
  - simpl. by rewrite insert_insert_eq.
  - rewrite (free_frames_push s1 _ k2 _ (pcb_frames (dumped v)) eq_refl). by rewrite app_nil_r.
Qed.

(** [pcbFree] puts every frame of the process on the free frame queue and
    frees the PCB: it is gone from the store, and freeing it again is a
    double free. *)
Theorem pcbFree_frees p v s q :
  p <> NULL -> pcbs s !! p = Some v -> free_frame_queue s = Some q -> mem_ok s -> tables_wf v ->
  exists s1, pcbFree p s = Ok tt s1 /\ pcbs s1 = delete p (pcbs s) /\
    free_frames s1 = free_frames s ++ pcb_frames v /\ pcbFree p s1 = Undef.
Proof.
  intros Hp0 Hp Hq Hm Ht. destruct (pcbFree_run p v s q Hp0 Hp Hq Hm Ht) as [k E].
  eexists. split; [exact E|]. split_and!; [done|by apply free_frames_push|].
  unfold pcbFree, pcb_release, load_pcb, bind, gets, demand.
  rewrite (proj2 (Z.eqb_neq p NULL) Hp0). simpl. by rewrite lookup_delete_eq.
Qed.

(** [pcbOrphanChildren] makes init the parent of every child and every
    zombie of the process and changes nothing else. *)
Theorem pcbOrphanChildren_reparents p v s :
  let kids := default [] (s_nodes <$> p_children v) ++ default [] (s_nodes <$> p_zombies v) in
  pcbs s !! p = Some v ->
  (forall n, n ∈ kids -> is_Some (pcbs s !! n.2)) ->
  exists m, pcbOrphanChildren p s = Ok tt (s <| pcbs := m |>) /\
    forall a, m !! a = (fun v => if decide (a ∈ kids.*2) then v <| p_parent := init_process s |> else v)
                         <$> pcbs s !! a.
Proof. apply pcbOrphanChildren_run. Qed.

(** [pcbNew], whatever the allocator answers, either returns NULL with the
    store of PCBs unchanged, or the address of a new PCB with the given
    identity, page table, parent and user context, READY and without
    relatives. *)
Theorem pcbNew_spec pid pt ks parent uc krn s :
  exists p s', pcbNew pid pt ks parent (Some uc) krn s = Ok p s' /\
    free_frame_queue s' = free_frame_queue s /\ process_ready_queue s' = process_ready_queue s /\
    ((p = NULL /\ pcbs s' = pcbs s) \/
     (p <> NULL /\ pcbs s !! p = None /\ exists v, pcbs s' = <[p := v]> (pcbs s) /\
        p_pid v = pid /\ p_state v = READY /\ p_parent v = parent /\ p_page_table v = pt /\
        p_usr_ctx v = Some uc /\ p_waiting v = 0 /\ p_exit_status v = 0 /\
        (forall k, krn = Some k -> p_krn_ctx v = Some k) /\
        (forall t, ks = Some t -> p_kernel_stack_pages v = Some t) /\
        default empty_set (p_children v) = empty_set /\
        default empty_set (p_zombies v) = empty_set)).
Proof.
  apply wp_returns. unfold pcbNew.
  apply wp_bind, wp_malloc, wp_bind, wp_gets. simpl.
  destruct (_ || _) eqn:Hin; [apply wp_ret; split_and!; [done..|by left]|].
  apply orb_false_iff in Hin as [Hnn%Z.eqb_neq Hlive%bool_decide_eq_false].
  apply eq_None_not_Some in Hlive.
  apply wp_bind, wp_bind, wp_malloc, wp_ret, wp_bind, wp_bind, wp_malloc, wp_ret, wp_bind, wp_malloc.
  simpl. destruct (_ =? NULL); [apply wp_ret; split_and!; [done..|by left]|].
  apply wp_bind, wp_ret, wp_bind.
  assert (Hset : forall m, default empty_set (@spec_set_new ptr m) = empty_set)
    by (intros m; unfold spec_set_new; by destruct (m =? NULL)).
  destruct krn as [k|]; [apply wp_ret|apply wp_bind, wp_malloc, wp_ret; simpl;
    destruct (_ =? NULL); [apply wp_ret; split_and!; [done..|by left]|]];
  (apply wp_bind; destruct ks as [t|]; [apply wp_ret|apply wp_bind, wp_malloc, wp_ret; simpl;
    destruct (_ =? NULL); [apply wp_ret; split_and!; [done..|by left]|]]);
  apply wp_bind, wp_malloc; simpl;
  (destruct (_ =? NULL); [apply wp_ret; split_and!; [done..|by left]|]);
  apply wp_bind; unfold store_pcb; apply wp_modify, wp_ret; (split_and!; [done..|]); right;
  (split_and!; [done..|]); eexists; (split; [done|]); simpl; naive_solver.
Qed.
End Facts.

Section Witnesses.
Import DemoHardware Demo.

(** A process with two user frames and two kernel stack frames, and a child. *)
Definition demo_pcb : pcb_t := mk_pcb 0 0 7 176 0 0 0 100 (Some (mk_set [(8, 204)] 1)) (Some empty_set)
  (Some (mk_pte true 3 20 :: replicate 126 (mk_pte false 0 0) ++ [mk_pte true 3 21])) (Some no_ctx)
  (Some (mk_kctx 300 None)) (Some [mk_pte true 3 22; mk_pte true 3 23]) None 0 0 0 0 0.

Definition demo_procs : kst := blank
  <| init_process := 100 |>
  <| pcbs := {[ 200 := demo_pcb; 204 := dumped demo_pcb ]} |>.

Lemma demo_pcb_tables : tables_wf demo_pcb.
Proof. by split; intros ? [= <-]. Defined.

Lemma pcbExit_frees_once_witness :
  exists s1, pcbExit 200 demo_procs = Ok tt s1 /\ free_frames s1 = [20; 21; 22; 23].
Proof.
  destruct (pcbExit_frees_once 200 demo_pcb demo_procs empty_queue) as (s1 & s2 & E & _ & H & _);
    [done|reflexivity|done|by apply demo_mem_ok|apply demo_pcb_tables|].
  by exists s1.
Defined.

Lemma pcbFree_frees_witness :
  exists s1, pcbFree 200 demo_procs = Ok tt s1 /\ pcbFree 200 s1 = Undef.
Proof.
  destruct (pcbFree_frees 200 demo_pcb demo_procs empty_queue) as (s1 & E & _ & _ & H);
    [done|reflexivity|done|by apply demo_mem_ok|apply demo_pcb_tables|].
  by exists s1.
Defined.

Lemma pcbOrphanChildren_reparents_witness :
  exists m, pcbOrphanChildren 200 demo_procs = Ok tt (demo_procs <| pcbs := m |>) /\
    p_parent <$> m !! 204 = Some 100.
Proof.
  destruct (pcbOrphanChildren_reparents 200 demo_pcb demo_procs) as (m & E & H);
    [reflexivity| |].
  - simpl. intros n Hn%list_elem_of_singleton. subst. by eexists.
  - exists m. split; [done|]. rewrite H. reflexivity.
Defined.
End Witnesses.
