(* ===== verification/Sched.v ===== *)
(** * The scheduler ([kernel.c]: KCSwitch, KCCopy, enqueue_current_process,
      ScheduleNextProcess)

    [KernelContextSwitch(f, ..)] saves the running kernel context, calls [f]
    on it and resumes the context [f] returns.  Here the running context is a
    continuation [k : kont]; [ScheduleNextProcess k] returns the continuation
    the CPU goes on with: [k] itself if there was no switch.

    Main results: the scheduler implements the abstract round-robin scheduler
    [spec_schedule], from a running process and, after an exit, from none,
    saving the context of the process that leaves and resuming the saved
    context of the one that enters; over any
    number of rounds the ready queue rotates, so every ready process runs. *)

From S2P Require Import Prelude Hardware Containers KState Memory.
From stdpp Require Import list gmap fin_maps.

#[local] Open Scope Z_scope.

Section Defs.
Context {hw : Hardware}.

(** The address of a [KernelContext*]. *)
Definition kctx_ptr (c : option kctx) : ptr :=
  match c with Some c => kc_addr c | None => NULL end.

(** [memcpy(pcb->krn_ctx, kc_in, sizeof(KernelContext))] *)
Definition save_context (pcb : ptr) (kc_in : kont) : M kst unit :=
  v <- load_pcb pcb ;;
  c <- demand (p_krn_ctx v) ;;
  store_pcb pcb (v <| p_krn_ctx := Some (mk_kctx (kc_addr c) (Some kc_in)) |>).

(** [pcb->kernel_stack_pages[i] = region_0_pages[(NUM_PAGES - NUM_KSTACK_FRAMES) + i]] *)
Definition save_stack_page (pcb : ptr) (i : Z) : M kst unit :=
  e <- get_region_0 (NUM_PAGES - NUM_KSTACK_FRAMES + i) ;;
  v <- load_pcb pcb ;;
  pages <- demand (p_kernel_stack_pages v) ;;
  pages' <- demand (arr_set pages i e) ;;
  store_pcb pcb (v <| p_kernel_stack_pages := Some pages' |>).

(** [pcb->kernel_stack_pages[i]] *)
Definition stack_page (pcb : ptr) (i : Z) : M kst pte :=
  v <- load_pcb pcb ;;
  pages <- demand (p_kernel_stack_pages v) ;;
  demand (arr_get pages i).

Definition KCSwitch (kc_in : kont) (curr_pcb next_pcb : ptr) : M kst kont :=
  curr_ok <- (if curr_pcb =? NULL then ret true
              else v <- check_memory_validity curr_pcb ;; ret (truthy v)) ;;
  if negb curr_ok then ret kc_in else
  next <- load_pcb next_pcb ;;
  ctx_ok <- check_memory_validity (kctx_ptr (p_krn_ctx next)) ;;
  if negb (truthy ctx_ok) then ret kc_in else
  saves <- (if curr_pcb =? NULL then ret false
            else v <- load_pcb curr_pcb ;;
                 ret (bool_decide (is_Some (p_krn_ctx v)) &&
                      bool_decide (is_Some (p_kernel_stack_pages v)))) ;;
  (if saves : bool then
     save_context curr_pcb kc_in ;;;
     for_each (R:=unit) (range_up 0 NUM_KSTACK_FRAMES) (fun i =>
       save_stack_page curr_pcb i ;;; ret None) ;;;
     ret tt
   else ret tt) ;;;
  for_each (R:=unit) (range_up 0 NUM_KSTACK_FRAMES) (fun i =>
    e <- stack_page next_pcb i ;;
    set_region_0 (NUM_PAGES - NUM_KSTACK_FRAMES + i) e ;;; ret None) ;;;
  emit (IoTlbFlush TLB_FLUSH_ALL) ;;;
  modify (fun s => s <| current_process := next_pcb |>) ;;;
  next <- load_pcb next_pcb ;;
  ctx <- demand (p_krn_ctx next) ;;
  demand (kc_saved ctx).

(** A NULL context cannot be resumed. *)
Definition KCCopy (kc_in : kont) (new_pcb : ptr) : M kst kont :=
  emit (IoTlbFlush TLB_FLUSH_ALL) ;;;
  new_ok <- (if new_pcb =? NULL then ret false
             else v <- check_memory_validity new_pcb ;; ret (truthy v)) ;;
  if negb new_ok then ret kc_in else
  v <- load_pcb new_pcb ;;
  have_ctx <- (match p_krn_ctx v with
               | Some _ => ret true
               | None =>
                   a <- malloc ;;
                   if a =? NULL then ret false
                   else upd_pcb new_pcb (fun v => v <| p_krn_ctx := Some (mk_kctx a None) |>) ;;;
                        ret true
               end) ;;
  if negb have_ctx then undef else
  save_context new_pcb kc_in ;;;
  for_each (R:=unit) (range_up 0 NUM_KSTACK_FRAMES) (fun i =>
    e <- stack_page new_pcb i ;;
    set_region_0 (NUM_PAGES - 2 * NUM_KSTACK_FRAMES + i) e ;;; ret None) ;;;
  emit (IoTlbFlush TLB_FLUSH_0) ;;;
  bs <- load_user KERNEL_STACK_BASE KERNEL_STACK_MAXSIZE ;;
  store_user (KERNEL_STACK_BASE - KERNEL_STACK_MAXSIZE) bs ;;;
  for_each (R:=unit) (range_up 0 NUM_KSTACK_FRAMES) (fun i =>
    set_region_0 (NUM_PAGES - 2 * NUM_KSTACK_FRAMES + i) (mk_pte false 0 0) ;;; ret None) ;;;
  emit (IoTlbFlush TLB_FLUSH_0) ;;;
  ret kc_in.

Definition enqueue_current_process : M kst unit :=
  cur <- gets current_process ;;
  if cur =? NULL then ret tt else
  v <- load_pcb cur ;;
  if p_state v =? READY then push_to process_ready_queue cur ;;; ret tt
  else if p_state v =? DEAD then insert_into dead_pcbs (p_pid v) cur ;;; ret tt
  else if p_state v =? BLOCKED then insert_into blocked_pcbs (p_pid v) cur ;;; ret tt
  else if p_state v =? DELAYED then insert_into delayed_pcbs (p_pid v) cur ;;; ret tt
  else ret tt.

(** [WriteRegister(REG_PTBR1, p->page_table); KernelContextSwitch(&KCSwitch, current_process, p)] *)
Definition switch_to (k : kont) (p : ptr) : M kst kont :=
  load_pcb p ;;;
  write_ptbr1 (Pt_pcb p) ;;;
  cur <- gets current_process ;;
  KCSwitch k cur p.

Definition ScheduleNextProcess (k : kont) : M kst kont :=
  next_process <- pop_from process_ready_queue ;;
  match next_process with
  | None =>
      enqueue_current_process ;;;
      next_process <- pop_from process_ready_queue ;;
      match next_process with
      | None => idle <- gets idle_process ;; switch_to k idle
      | Some _ => ret k
      end
  | Some next =>
      load_pcb next ;;;
      cur <- gets current_process ;;
      (if cur =? NULL then ret tt else load_pcb cur ;;; ret tt) ;;;
      enqueue_current_process ;;;
      switch_to k next
  end.

(** [n] consecutive calls; the continuations they return are dropped. *)
Fixpoint schedule_n (n : nat) (k : kont) : M kst unit :=
  match n with
  | O => ret tt
  | S n' => ScheduleNextProcess k ;;; schedule_n n' k
  end.

(** ** The abstract scheduler *)

(** The next process and the ready queue, from the running process, whether
    it is READY, the ready queue and the idle process. *)
Definition spec_schedule (cur : ptr) (ready : bool) (q : list ptr) (idle : ptr) : ptr * list ptr :=
  match q with
  | n :: rest => (n, rest ++ if ready then [cur] else [])
  | [] => if ready then (cur, []) else (idle, [])
  end.
End Defs.

(** Frame proofs for code made of the kernel's primitive steps. *)
Ltac unfold_sched :=
  unfold switch_to, KCSwitch, check_memory_validity, save_context, save_stack_page, stack_page,
    get_region_0, set_region_0, read_ptbr1, write_ptbr1, emit, load_pcb, store_pcb, push_to, pop_from,
    insert_into, queue_push, set_insert.
Ltac preserve_sched := unfold_sched; preserve; apply preserves_malloc; reflexivity.

Section Facts.
Context {hw : Hardware}.

(** The ready queue as a list. *)
Definition ready_list (s : kst) : list ptr :=
  match process_ready_queue s with Some q => q_data q | None => [] end.

(** A pointer into a mapped kernel page below the kernel stack. *)
Definition kptr_ok (s : kst) (a : ptr) : Prop :=
  0 <= a /\ a / PAGESIZE < NUM_PAGES - 2 /\
  exists e, arr_get (region_0_pages s) (a / PAGESIZE) = Some e /\ pte_valid e = true.

(** A PCB the CPU can be given to: it has a saved context and a stack. *)
Definition proc_ok (s : kst) (p : ptr) : Prop :=
  p <> NULL /\ kptr_ok s p /\
  exists v c ks k, pcbs s !! p = Some v /\ p_krn_ctx v = Some c /\ kptr_ok s (kc_addr c) /\
    kc_saved c = Some k /\ p_kernel_stack_pages v = Some ks /\ length ks = 2%nat.

(** The running process: live; when READY it can be given the CPU again, once
    its context is saved. *)
Definition cur_ok (s : kst) (p : ptr) : Prop :=
  p <> NULL /\ kptr_ok s p /\
  exists v, pcbs s !! p = Some v /\
    (forall ks, p_kernel_stack_pages v = Some ks -> length ks = 2%nat) /\
    (p_state v = READY -> exists c, p_krn_ctx v = Some c /\ kptr_ok s (kc_addr c) /\
                                   is_Some (p_kernel_stack_pages v)).

Record sched_wf (s : kst) : Prop := {
  swf_mem : mem_ok s;
  swf_r0 : Z.of_nat (length (region_0_pages s)) = NUM_PAGES;
  swf_queue : is_Some (process_ready_queue s);
  swf_idle : proc_ok s (idle_process s);
  swf_ready : Forall (proc_ok s) (ready_list s);
  swf_cur : cur_ok s (current_process s) }.

Lemma check_kptr s a : kptr_ok s a -> check_memory_validity a s = Ok 1 s.
Proof.
  intros (Ha & Hp & e & He & Hv). pose proof hw_pagesize. pose proof NUM_PAGES_size.
  destruct hw_layout as (_ & _ & H2 & H3). unfold check_memory_validity.
  assert (a < NUM_PAGES * PAGESIZE).
  { pose proof (Z.mod_pos_bound a PAGESIZE). pose proof (Z.div_mod a PAGESIZE). nia. }
  rewrite wrap32_id by (unfold INT_MIN, INT_MAX in *; lia).
  assert (Hq : Z.quot (DOWN_TO_PAGE a) PAGESIZE = a / PAGESIZE).
  { rewrite Z.quot_div_nonneg; [apply down_page_index; lia| |lia].
    rewrite hw_down_to_page by lia. pose proof (Z.div_pos a PAGESIZE). nia. }
  rewrite Hq, !Z.gtb_ltb. pose proof NUM_PAGES_ge_4.
  destruct (Z.ltb_spec (NUM_PAGES * 2) (a / PAGESIZE)); [lia|].
  destruct (Z.ltb_spec NUM_PAGES (a / PAGESIZE)); [lia|]. simpl.
  unfold get_region_0, bind, gets, demand, ret. by rewrite He, Hv.
Qed.

(** ** The two page loops of [KCSwitch] *)

Lemma stack_range : range_up 0 NUM_KSTACK_FRAMES = [0; 1].
Proof. by rewrite NUM_KSTACK_FRAMES_2. Qed.

Lemma save_stack_run cur v x y s e0 e1 :
  pcbs s !! cur = Some v -> p_kernel_stack_pages v = Some [x; y] ->
  arr_get (region_0_pages s) (NUM_PAGES - 2) = Some e0 ->
  arr_get (region_0_pages s) (NUM_PAGES - 1) = Some e1 ->
  for_each (R:=unit) (range_up 0 NUM_KSTACK_FRAMES) (fun i =>
    save_stack_page cur i ;;; ret None) s =
  Ok None (s <| pcbs ::= <[cur := v <| p_kernel_stack_pages := Some [e0; e1] |>]> |>).
Proof.
  intros Hv Hk H0 H1. rewrite stack_range. cbn [for_each].
  unfold save_stack_page, get_region_0, load_pcb, store_pcb, bind, gets, demand, modify, ret.
  rewrite NUM_KSTACK_FRAMES_2. replace (NUM_PAGES - 2 + 0) with (NUM_PAGES - 2) by lia.
  replace (NUM_PAGES - 2 + 1) with (NUM_PAGES - 1) by lia.
  rewrite H0, Hv, Hk. simpl. rewrite H1. simpl. rewrite lookup_insert_eq. simpl.
  f_equal. kst_eq s. by rewrite insert_insert_eq.
Qed.

Lemma load_stack_run next v e0 e1 s :
  pcbs s !! next = Some v -> p_kernel_stack_pages v = Some [e0; e1] ->
  Z.of_nat (length (region_0_pages s)) = NUM_PAGES ->
  for_each (R:=unit) (range_up 0 NUM_KSTACK_FRAMES) (fun i =>
    e <- stack_page next i ;;
    set_region_0 (NUM_PAGES - NUM_KSTACK_FRAMES + i) e ;;; ret None) s =
  Ok None (s <| region_0_pages := <[Z.to_nat (NUM_PAGES - 1) := e1]>
                (<[Z.to_nat (NUM_PAGES - 2) := e0]> (region_0_pages s)) |>).
Proof.
  intros Hv Hk Hl. pose proof NUM_PAGES_ge_4. rewrite stack_range. cbn [for_each].
  unfold stack_page, set_region_0, load_pcb, bind, gets, demand, modify, ret.
  rewrite NUM_KSTACK_FRAMES_2. replace (NUM_PAGES - 2 + 0) with (NUM_PAGES - 2) by lia.
  replace (NUM_PAGES - 2 + 1) with (NUM_PAGES - 1) by lia.
  rewrite Hv, Hk. simpl. rewrite arr_set_Some by lia. simpl. rewrite Hv, Hk. simpl.
  rewrite arr_set_Some by (rewrite length_insert; lia). simpl. by kst_eq s.
Qed.

Lemma save_context_run p v c k s :
  pcbs s !! p = Some v -> p_krn_ctx v = Some c ->
  save_context p k s =
    Ok tt (s <| pcbs ::= <[p := v <| p_krn_ctx := Some (mk_kctx (kc_addr c) (Some k)) |>]> |>).
Proof.
  intros Hv Hc. unfold save_context, load_pcb, store_pcb, bind, gets, demand, modify, ret.
  by rewrite Hv, Hc.
Qed.

(** What [KCSwitch] leaves of the PCB it switches from, given the stack pages
    in the page table. *)
Definition switched_out (k : kont) (stack : list pte) (v : pcb_t) : pcb_t :=
  match p_krn_ctx v, p_kernel_stack_pages v with
  | Some c, Some _ =>
      v <| p_krn_ctx := Some (mk_kctx (kc_addr c) (Some k)) |> <| p_kernel_stack_pages := Some stack |>
  | _, _ => v
  end.

(** The kernel stack entries of the region 0 table. *)
Definition stack_entries (s : kst) : list pte :=
  default [] (e0 ← arr_get (region_0_pages s) (NUM_PAGES - 2);
              e1 ← arr_get (region_0_pages s) (NUM_PAGES - 1); Some [e0; e1])%stdpp.

(** What a PCB's saved context resumes. *)
Definition saved_kont (s : kst) (p : ptr) : option kont :=
  v ← pcbs s !! p; c ← p_krn_ctx v; kc_saved c.

(** [s'] is [s] after the CPU went from [cur], suspended at [k], to [next]. *)
Definition switched (k : kont) (cur next : ptr) (s s' : kst) : Prop :=
  s' = s <| pcbs := alter (switched_out k (stack_entries s)) cur (pcbs s) |>
         <| region_0_pages := region_0_pages s' |>
         <| trace := trace s ++ [IoTlbFlush TLB_FLUSH_ALL] |>
         <| current_process := next |> /\
  length (region_0_pages s') = length (region_0_pages s) /\
  (forall i, i < NUM_PAGES - 2 -> arr_get (region_0_pages s') i = arr_get (region_0_pages s) i) /\
  (forall v, pcbs s' !! next = Some v -> p_kernel_stack_pages v = Some (stack_entries s')).

Lemma stack_entries_get s :
  Z.of_nat (length (region_0_pages s)) = NUM_PAGES ->
  exists e0 e1, arr_get (region_0_pages s) (NUM_PAGES - 2) = Some e0 /\
    arr_get (region_0_pages s) (NUM_PAGES - 1) = Some e1 /\ stack_entries s = [e0; e1].
Proof.
  intros Hl. pose proof NUM_PAGES_ge_4.
  destruct (proj2 (arr_get_is_Some (region_0_pages s) (NUM_PAGES - 2))) as [e0 H0]; [lia|].
  destruct (proj2 (arr_get_is_Some (region_0_pages s) (NUM_PAGES - 1))) as [e1 H1]; [lia|].
  exists e0, e1. split_and!; [done..|]. unfold stack_entries. by rewrite H0, H1.
Qed.

(** The two new stack entries in the region 0 table. *)
Definition with_stack (e0 e1 : pte) (r0 : list pte) : list pte :=
  <[Z.to_nat (NUM_PAGES - 1) := e1]> (<[Z.to_nat (NUM_PAGES - 2) := e0]> r0).

Lemma with_stack_below e0 e1 r0 i :
  i < NUM_PAGES - 2 -> arr_get (with_stack e0 e1 r0) i = arr_get r0 i.
Proof.
  intros Hi. unfold arr_get, with_stack. destruct (Z.ltb_spec i 0); [done|].
  by rewrite !list_lookup_insert_ne by lia.
Qed.

Lemma with_stack_entries e0 e1 s :
  Z.of_nat (length (region_0_pages s)) = NUM_PAGES ->
  stack_entries (s <| region_0_pages := with_stack e0 e1 (region_0_pages s) |>) = [e0; e1].
Proof.
  intros Hl. pose proof NUM_PAGES_ge_4. unfold stack_entries, arr_get, with_stack. simpl.
  destruct (Z.ltb_spec (NUM_PAGES - 2) 0), (Z.ltb_spec (NUM_PAGES - 1) 0); [lia..|].
  rewrite (list_lookup_insert_ne _ (Z.to_nat (NUM_PAGES - 1)) (Z.to_nat (NUM_PAGES - 2))) by lia.
  rewrite !list_lookup_insert_eq by (rewrite ?length_insert; lia). done.
Qed.

(** The state after the two loops, and the context resumed there. *)
Lemma KCSwitch_tail k cur next m s e0 e1 vn c k' ks :
  m = alter (switched_out k (stack_entries s)) cur (pcbs s) ->
  Z.of_nat (length (region_0_pages s)) = NUM_PAGES ->
  m !! next = Some vn -> p_kernel_stack_pages vn = Some ks -> ks = [e0; e1] ->
  p_krn_ctx vn = Some c -> kc_saved c = Some k' ->
  wp (for_each (R:=unit) (range_up 0 NUM_KSTACK_FRAMES) (fun i =>
        e <- stack_page next i ;;
        set_region_0 (NUM_PAGES - NUM_KSTACK_FRAMES + i) e ;;; ret None) ;;;
      emit (IoTlbFlush TLB_FLUSH_ALL) ;;;
      modify (fun s => s <| current_process := next |>) ;;;
      next <- load_pcb next ;;
      ctx <- demand (p_krn_ctx next) ;;
      demand (kc_saved ctx))
     (fun k' s' => switched k cur next s s' /\ saved_kont s' next = Some k') (s <| pcbs := m |>).
Proof.
  intros Hm Hl Hvn Hks -> Hc Hk'.
  eapply wp_bind_Ok; [by apply (load_stack_run next vn)|].
  apply wp_bind, wp_modify, wp_bind, wp_modify, wp_bind.
  eapply wp_load_pcb; [simpl; exact Hvn|].
  apply wp_bind. eapply wp_demand; [exact Hc|]. eapply wp_demand; [exact Hk'|].
  fold (with_stack e0 e1 (region_0_pages s)).
  split; [|by unfold saved_kont; simpl; rewrite Hvn; simpl; rewrite Hc].
  unfold switched. simpl. fold (with_stack e0 e1 (region_0_pages s)). split_and!.
  - rewrite Hm. by kst_eq s.
  - unfold with_stack. by rewrite !length_insert.
  - intros i Hi. by apply with_stack_below.
  - intros v Hv. rewrite Hvn in Hv. simplify_eq. rewrite Hks.
    by rewrite <- (with_stack_entries e0 e1 s Hl).
Qed.

Lemma alter_insert_lookup (f : pcb_t -> pcb_t) (m : gmap Z pcb_t) i v :
  m !! i = Some v -> alter f i m = <[i := f v]> m.
Proof.
  intros Hi. apply map_eq. intros j. destruct (decide (i = j)) as [->|Hne].
  - by rewrite lookup_alter_eq, lookup_insert_eq, Hi.
  - by rewrite lookup_alter_ne, lookup_insert_ne by done.
Qed.

Lemma two_pages (ks : list pte) : length ks = 2%nat -> exists x y, ks = [x; y].
Proof. destruct ks as [|x [|y [|]]]; try done. by exists x, y. Qed.

(** The PCB of [next] once [cur] has been saved. *)
Lemma next_after_save k cur next s :
  proc_ok s next -> Z.of_nat (length (region_0_pages s)) = NUM_PAGES ->
  exists vn c k' e0 e1, alter (switched_out k (stack_entries s)) cur (pcbs s) !! next = Some vn /\
    p_kernel_stack_pages vn = Some [e0; e1] /\ p_krn_ctx vn = Some c /\ kc_saved c = Some k' /\
    kptr_ok s (kc_addr c).
Proof.
  intros (_ & _ & v & c & ks & k' & Hv & Hc & Ha & Hk' & Hks & [x [y ->]]%two_pages) Hl.
  destruct (stack_entries_get s Hl) as (e0 & e1 & _ & _ & He).
  destruct (decide (next = cur)) as [->|Hne].
  - rewrite lookup_alter_eq, Hv. simpl. unfold switched_out. rewrite Hc, Hks, He.
    eexists _, _, _, e0, e1. by split_and!.
  - rewrite lookup_alter_ne, Hv by done. by exists v, c, k', x, y.
Qed.

Lemma wp_KCSwitch k cur next s :
  Z.of_nat (length (region_0_pages s)) = NUM_PAGES -> cur_ok s cur -> proc_ok s next ->
  wp (KCSwitch k cur next)
     (fun k' s' => switched k cur next s s' /\ saved_kont s' next = Some k') s.
Proof.
  intros Hl (Hc0 & Hcp & v & Hv & Hks & _) Hn.
  destruct (next_after_save k cur next s Hn Hl) as (vn & c & k' & e0 & e1 & Hvn & Hkn & Hcn & Hkk & _).
  destruct Hn as (_ & _ & vo & co & kso & ko & Hvo & Hco & Hao & _).
  unfold KCSwitch. rewrite (proj2 (Z.eqb_neq cur NULL) Hc0).
  eapply wp_bind_Ok; [by rewrite (bind_Ok _ _ _ _ _ (check_kptr _ _ Hcp))|]. simpl.
  eapply wp_bind_Ok; [by apply load_pcb_run|]. rewrite Hco.
  eapply wp_bind_Ok; [by apply check_kptr|]. simpl.
  eapply wp_bind_Ok; [by rewrite (bind_Ok _ _ _ _ _ (load_pcb_run _ _ _ Hv))|].
  set (m := alter (switched_out k (stack_entries s)) cur (pcbs s)).
  assert (Hswap : exists s1, (if bool_decide (is_Some (p_krn_ctx v)) &&
                                 bool_decide (is_Some (p_kernel_stack_pages v))
      then save_context cur k ;;; for_each (R:=unit) (range_up 0 NUM_KSTACK_FRAMES)
             (fun i => save_stack_page cur i ;;; ret None) ;;; ret tt
      else ret tt) s = Ok tt s1 /\ s1 = s <| pcbs := m |>).
  { destruct (p_krn_ctx v) as [cv|] eqn:Ec; [destruct (p_kernel_stack_pages v) as [ks|] eqn:Ek|];
      simpl.
    - destruct (two_pages ks (Hks _ eq_refl)) as (x0 & y0 & ->).
      destruct (stack_entries_get s Hl) as (f0 & f1 & Hf0 & Hf1 & Hf).
      rewrite (bind_Ok _ _ _ _ _ (save_context_run _ _ _ k _ Hv Ec)).
      erewrite bind_Ok; [|eapply (save_stack_run cur _ x0 y0 _ f0 f1);
        [apply lookup_insert_eq|exact Ek|exact Hf0|exact Hf1]].
      eexists. split; [done|]. unfold m. rewrite (alter_insert_lookup _ _ _ _ Hv).
      unfold switched_out. rewrite Ec, Ek, Hf. clear. kst_eq s. by rewrite insert_insert_eq.
    - eexists. split; [done|]. unfold m. rewrite (alter_insert_lookup _ _ _ _ Hv).
      unfold switched_out. rewrite Ec, Ek, insert_id by done. by destruct s.
    - eexists. split; [done|]. unfold m. rewrite (alter_insert_lookup _ _ _ _ Hv).
      unfold switched_out. rewrite Ec, insert_id by done. by destruct s. }
  destruct Hswap as (s1 & E1 & ->). eapply wp_bind_Ok; [exact E1|].
  by eapply KCSwitch_tail.
Qed.

(** ** What enqueueing and switching preserve *)

(** [s'] is [s] up to the queues and sets the scheduler pushes on. *)
Definition requeued (s s' : kst) : Prop :=
  s' = s <| mallocs := mallocs s' |> <| process_ready_queue := process_ready_queue s' |>
         <| dead_pcbs := dead_pcbs s' |> <| blocked_pcbs := blocked_pcbs s' |>
         <| delayed_pcbs := delayed_pcbs s' |>.

#[local] Instance requeued_refl : Reflexive requeued.
Proof. intros s. unfold requeued. by destruct s. Qed.

Lemma requeued_fields s s' : requeued s s' ->
  pcbs s' = pcbs s /\ region_0_pages s' = region_0_pages s /\ malloc_at s' = malloc_at s /\
  idle_process s' = idle_process s /\ current_process s' = current_process s.
Proof. intros ->. done. Qed.

Lemma wp_enqueue s v :
  mem_ok s -> is_Some (process_ready_queue s) -> current_process s <> NULL ->
  pcbs s !! current_process s = Some v ->
  wp enqueue_current_process (fun _ s' => requeued s s' /\ is_Some (process_ready_queue s') /\
    ready_list s' = ready_list s ++ if p_state v =? READY then [current_process s] else []) s.
Proof.
  intros Hm [q Hq] Hc Hv. unfold enqueue_current_process, ready_list.
  apply wp_bind, wp_gets. rewrite (proj2 (Z.eqb_neq _ _) Hc).
  eapply wp_bind_Ok; [by apply load_pcb_run|].
  destruct (p_state v =? READY).
  - apply wp_bind. eapply wp_push_to; [exact Hq| |apply Hm|].
    + by apply Z.eqb_neq.
    + apply wp_ret. rewrite Hq. unfold requeued. simpl.
      split_and!; [by kst_eq s|done|by rewrite q_data_append].
  - destruct (p_state v =? DEAD); [|destruct (p_state v =? BLOCKED); [|destruct (p_state v =? DELAYED)]].
    4:{ apply wp_ret. by rewrite app_nil_r. }
    all: apply wp_bind, wp_insert_into_any; intros m s' Hs;
      destruct (spec_set_insert _ _ _ _) as [rc q']; apply wp_ret;
      destruct Hs as [-> | ->]; rewrite app_nil_r; unfold requeued; simpl;
      (split; [by kst_eq s|done]).
Qed.

(** The page table below the kernel stack is the same. *)
Definition same_heap_pages (s s' : kst) : Prop :=
  forall i, i < NUM_PAGES - 2 -> arr_get (region_0_pages s') i = arr_get (region_0_pages s) i.

Lemma kptr_ok_same s s' a : same_heap_pages s s' -> kptr_ok s a -> kptr_ok s' a.
Proof. intros H (H1 & H2 & e & He & Hv). split_and!; [done..|]. exists e. by rewrite H. Qed.

Lemma proc_ok_same s s' p :
  same_heap_pages s s' -> pcbs s' !! p = pcbs s !! p -> proc_ok s p -> proc_ok s' p.
Proof.
  intros Hp Hm (H0 & Ha & v & c & ks & k & Hv & Hc & Hca & Hk & Hks & Hl).
  split_and!; [done|by eapply kptr_ok_same|]. exists v, c, ks, k. rewrite Hm.
  split_and!; eauto using kptr_ok_same.
Qed.

(** The process that left can be given the CPU again. *)
Lemma cur_ok_switched k stack s s' p v :
  same_heap_pages s s' -> cur_ok s p -> pcbs s !! p = Some v -> p_state v = READY ->
  pcbs s' !! p = Some (switched_out k stack v) -> length stack = 2%nat -> proc_ok s' p.
Proof.
  intros Hp (H0 & Ha & v' & Hv' & Hks & Hrdy) Hv Hs Hsw Hl. rewrite Hv in Hv'.
  injection Hv' as <-. destruct (Hrdy Hs) as (c & Hc & Hca & [ks Hk]).
  split_and!; [done|by eapply kptr_ok_same|]. unfold switched_out in Hsw. rewrite Hc, Hk in Hsw.
  eexists _, _, _, _. split_and!; [exact Hsw|done|simpl; by eapply kptr_ok_same|done..].
Qed.

Lemma proc_ok_switched k stack s s' cur p :
  same_heap_pages s s' -> pcbs s' = alter (switched_out k stack) cur (pcbs s) ->
  length stack = 2%nat -> proc_ok s p -> proc_ok s' p.
Proof.
  intros Hp Hm Hl Hok. destruct (decide (p = cur)) as [->|Hne].
  2:{ apply (proc_ok_same s); [done|by rewrite Hm, lookup_alter_ne|done]. }
  destruct Hok as (H0 & Ha & v & c & ks & k0 & Hv & Hc & Hca & Hk & Hks & Hl').
  split_and!; [done|by eapply kptr_ok_same|].
  rewrite Hm, lookup_alter_eq, Hv. simpl. unfold switched_out. rewrite Hc, Hks.
  eexists _, _, _, _. split_and!; [done|done|simpl; by eapply kptr_ok_same|done..].
Qed.

Lemma proc_ok_cur s p : proc_ok s p -> cur_ok s p.
Proof.
  intros (H0 & Ha & v & c & ks & k & Hv & Hc & Hca & Hk & Hks & Hl).
  split_and!; [done..|]. exists v. split_and!; [done|naive_solver|]. intros _.
  exists c. split_and!; [done..|by eexists].
Qed.

(** ** One call of the scheduler *)

(** [s'] is [s] after the CPU went from its process to [next]: registers,
    PCBs and the context resumed. *)
Definition dispatched (k : kont) (next : ptr) (s s' : kst) (k' : kont) : Prop :=
  reg_ptbr1 s' = Pt_pcb next /\ saved_kont s' next = Some k' /\
  pcbs s' = alter (switched_out k (stack_entries s)) (current_process s) (pcbs s) /\
  same_heap_pages s s'.

Lemma stack_entries_length s :
  Z.of_nat (length (region_0_pages s)) = NUM_PAGES -> length (stack_entries s) = 2%nat.
Proof. intros (e0 & e1 & _ & _ & ->)%stack_entries_get. done. Qed.

Lemma sched_wf_dispatched k next q s s' v k' :
  sched_wf s -> pcbs s !! current_process s = Some v -> proc_ok s next ->
  dispatched k next s s' k' -> current_process s' = next ->
  Z.of_nat (length (region_0_pages s')) = NUM_PAGES -> malloc_at s' = malloc_at s ->
  idle_process s' = idle_process s -> is_Some (process_ready_queue s') ->
  Forall (proc_ok s) q -> ready_list s' = q ++ (if p_state v =? READY then [current_process s] else []) ->
  sched_wf s'.
Proof.
  intros Hwf Hv Hn (_ & _ & Hm & Hp) Hc Hl Hma Hi Hq Hqs Hr.
  pose proof (stack_entries_length s (swf_r0 s Hwf)) as Hst.
  split.
  - intros n. rewrite Hma. apply (swf_mem s Hwf).
  - done.
  - done.
  - rewrite Hi. eapply proc_ok_switched; [done..|apply (swf_idle s Hwf)].
  - rewrite Hr. apply Forall_app. split.
    + eapply Forall_impl; [exact Hqs|]. intros p Hpk. by eapply proc_ok_switched.
    + destruct (Z.eqb_spec (p_state v) READY); [|done]. constructor; [|done].
      eapply (cur_ok_switched k (stack_entries s)); [done|apply (swf_cur s Hwf)|done..| |done].
      by rewrite Hm, lookup_alter_eq, Hv.
  - rewrite Hc. apply proc_ok_cur. by eapply proc_ok_switched.
Qed.

Lemma requeued_same s s' : requeued s s' -> same_heap_pages s s'.
Proof. intros (_ & H & _)%requeued_fields i _. by rewrite H. Qed.

(** From the queues in place to the switch. *)
Lemma wp_switch_to k next s s1 v (q : list ptr) :
  sched_wf s -> pcbs s !! current_process s = Some v -> proc_ok s next ->
  pcbs s1 = pcbs s -> region_0_pages s1 = region_0_pages s -> malloc_at s1 = malloc_at s ->
  idle_process s1 = idle_process s -> current_process s1 = current_process s ->
  is_Some (process_ready_queue s1) -> Forall (proc_ok s) q ->
  ready_list s1 = q ++ (if p_state v =? READY then [current_process s] else []) ->
  wp (switch_to k next) (fun k' s' => current_process s' = next /\ ready_list s' = ready_list s1 /\
    sched_wf s' /\ dispatched k next s s' k') s1.
Proof.
  intros Hwf Hv Hn Hm Hr0 Hma Hi Hc Hq Hqs Hr.
  assert (Hsame : same_heap_pages s s1) by (intros i _; by rewrite Hr0).
  pose proof Hn as (_ & _ & vn & _ & _ & _ & Hvn & _).
  unfold switch_to. eapply wp_bind_Ok; [apply load_pcb_run; by rewrite Hm|].
  apply wp_bind, wp_modify, wp_bind, wp_gets. cbn [current_process]. 
  eapply wp_mono; [apply wp_KCSwitch|].
  - simpl. rewrite Hr0. apply (swf_r0 s Hwf).
  - simpl. rewrite Hc. destruct (swf_cur s Hwf) as (H0 & Ha & w & Hw & Hks & Hrd).
    split_and!; [done|by apply (kptr_ok_same s)|]. exists w. simpl. rewrite Hm.
    split_and!; [done..|]. intros E. destruct (Hrd E) as (c & ? & ? & ?).
    exists c. split_and!; [done|by apply (kptr_ok_same s)|done].
  - by apply (proc_ok_same s); [| simpl; rewrite Hm|].
  - intros k' s' [(E & Hlen & Hbelow & _) Hk'].
    assert (Hst : stack_entries (s1 <| reg_ptbr1 := Pt_pcb next |>) = stack_entries s)
      by (unfold stack_entries; simpl; by rewrite Hr0).
    assert (Hd : dispatched k next s s' k').
    { split_and!; [by rewrite E|done| |].
      - rewrite E. rewrite <- Hst, <- Hm, <- Hc. done.
      - intros i Hi'. rewrite Hbelow by done. simpl. by rewrite Hr0. }
    assert (Hcn : current_process s' = next) by by rewrite E.
    assert (Hrl : ready_list s' = ready_list s1) by by rewrite E.
    split_and!; [done|done| |done].
    eapply sched_wf_dispatched; [exact Hwf|exact Hv|exact Hn|exact Hd|done| | | | |exact Hqs|by rewrite Hrl].
    + rewrite Hlen. simpl. rewrite Hr0. apply (swf_r0 s Hwf).
    + rewrite E. done.
    + rewrite E. done.
    + rewrite E. done.
Qed.

(** A scheduler state whose queue lost elements. *)
Lemma sched_wf_requeued s s' :
  sched_wf s -> pcbs s' = pcbs s -> region_0_pages s' = region_0_pages s ->
  malloc_at s' = malloc_at s -> idle_process s' = idle_process s ->
  current_process s' = current_process s -> is_Some (process_ready_queue s') ->
  ready_list s' = [] -> sched_wf s'.
Proof.
  intros Hwf Hm Hr0 Hma Hi Hc Hq Hr.
  assert (Hsame : same_heap_pages s s') by (intros i _; by rewrite Hr0).
  split.
  - intros n. rewrite Hma. apply (swf_mem s Hwf).
  - rewrite Hr0. apply (swf_r0 s Hwf).
  - done.
  - rewrite Hi. apply (proc_ok_same s); [done|by rewrite Hm|apply (swf_idle s Hwf)].
  - by rewrite Hr.
  - rewrite Hc. destruct (swf_cur s Hwf) as (H0 & Ha & w & Hw & Hks & Hrd).
    split_and!; [done|by apply (kptr_ok_same s)|]. exists w. rewrite Hm.
    split_and!; [done..|]. intros E. destruct (Hrd E) as (c & ? & ? & ?).
    exists c. split_and!; [done|by apply (kptr_ok_same s)|done].
Qed.

(** What a call did to the CPU: nothing, or a dispatch. *)
Definition sched_effect (k : kont) (alone : bool) (next : ptr) (s s' : kst) (k' : kont) : Prop :=
  if alone then k' = k /\ pcbs s' = pcbs s /\ region_0_pages s' = region_0_pages s /\
    reg_ptbr1 s' = reg_ptbr1 s
  else dispatched k next s s' k'.

(** No other process is ready and the running one is. *)
Definition runs_alone (q : list ptr) (ready : bool) : bool :=
  match q with [] => ready | _ => false end.

Lemma ready_list_pop s q d l :
  process_ready_queue s = Some q -> q_data q = d :: l ->
  exists q', spec_queue_pop (process_ready_queue s) = (Some d, Some q') /\ q_data q' = l.
Proof. intros ->. apply spec_queue_pop_cons. Qed.

Lemma wp_schedule k s v :
  sched_wf s -> pcbs s !! current_process s = Some v ->
  let rdy := p_state v =? READY in
  let '(next, q) := spec_schedule (current_process s) rdy (ready_list s) (idle_process s) in
  wp (ScheduleNextProcess k) (fun k' s' => current_process s' = next /\ ready_list s' = q /\
    sched_wf s' /\ sched_effect k (runs_alone (ready_list s) rdy) next s s' k') s.
Proof.
  intros Hwf Hv rdy. pose proof (swf_cur s Hwf) as (Hc0 & _).
  pose proof (swf_mem s Hwf) as Hm. destruct (swf_queue s Hwf) as [q Hq].
  pose proof (swf_ready s Hwf) as Hrdy. unfold ready_list in *. rewrite Hq in *.
  unfold ScheduleNextProcess. destruct (q_data q) as [|n rest] eqn:Ed.
  - simpl. replace rdy with (p_state v =? READY) by done. clear rdy.
    assert (Hpop : s <| process_ready_queue := Some q |> = s) by (rewrite <- Hq; by destruct s).
    assert (HE : wp enqueue_current_process (fun _ s' => requeued s s' /\
      is_Some (process_ready_queue s') /\
      ready_list s' = if p_state v =? READY then [current_process s] else []) s).
    { eapply wp_mono; [by apply (wp_enqueue s v); [|by eexists| |]|].
      unfold ready_list at 2. by rewrite Hq, Ed. }
    destruct (p_state v =? READY) eqn:Hrd; simpl;
      apply wp_bind, wp_pop_from; rewrite Hq, (spec_queue_pop_nil q Ed); cbn [fst snd]; rewrite Hpop;
      (apply wp_bind; eapply wp_mono; [exact HE|]); intros _ s1 (Hrq & [q1 Hq1] & Hr1);
      pose proof (requeued_fields _ _ Hrq) as (Em & Er & Ea & Ei & Ec);
      unfold ready_list in Hr1; rewrite Hq1 in Hr1; apply wp_bind, wp_pop_from; rewrite Hq1.
    + destruct (spec_queue_pop_cons q1 _ _ Hr1) as (q2 & -> & Hd2). apply wp_ret.
      cbn [fst snd]. split_and!; [done|done| |done|done|done|].
      * apply (sched_wf_requeued s); try done.
      * by rewrite Hrq.
    + rewrite (spec_queue_pop_nil q1 Hr1). cbn [fst snd].
      apply wp_bind, wp_gets. cbn [idle_process]. 
      eapply wp_mono; [eapply (wp_switch_to k _ s _ v []); simpl; try done|].
      * rewrite Ei. apply (swf_idle s Hwf).
      * by rewrite Hrd.
      * intros k' s' (H1 & H2 & H3 & H4). simpl in *. rewrite Ei in *.
        split_and!; [done| |done|done]. unfold ready_list in H2. simpl in H2.
        unfold ready_list. by rewrite H2.
  - simpl. apply wp_bind, wp_pop_from. rewrite Hq.
    destruct (spec_queue_pop_cons q _ _ Ed) as (q2 & -> & Hd2). cbn [fst snd].
    apply Forall_cons in Hrdy as [Hn Hrest].
    pose proof Hn as (_ & _ & vn & _ & _ & _ & Hvn & _).
    eapply wp_bind_Ok; [by apply load_pcb_run|]. apply wp_bind, wp_gets. cbn [current_process].
    eapply wp_bind_Ok.
    { simpl. rewrite (proj2 (Z.eqb_neq _ _) Hc0). erewrite bind_Ok by (apply load_pcb_run; exact Hv); reflexivity. }
    apply wp_bind. eapply wp_mono; [by apply (wp_enqueue _ v); [|by eexists| |]|].
    intros _ s1 (Hrq & Hq1 & Hr1).
    pose proof (requeued_fields _ _ Hrq) as (Em & Er & Ea & Ei & Ec).
    eapply wp_mono; [eapply (wp_switch_to k n s s1 v rest); try done|].
    + rewrite Hr1. unfold ready_list. simpl. by rewrite Hd2.
    + intros k' s' (H1 & H2 & H3 & H4). split_and!; [done| |done|done].
      unfold ready_list in H2 at 1. rewrite H2, Hr1. unfold ready_list. simpl. by rewrite Hd2.
Qed.

(** ** What the scheduler leaves alone *)

Definition untouched (s : kst) :=
  (user_context s, current_tty_state s, ipc_wrapper s, umem s, free_frame_queue s, init_process s).

Lemma schedule_untouched k : preserves untouched (ScheduleNextProcess k).
Proof. unfold ScheduleNextProcess, enqueue_current_process. preserve_sched. Qed.

Lemma switch_to_delayed k p : preserves delayed_pcbs (switch_to k p).
Proof. preserve_sched. Qed.

(** A READY process goes to the ready queue only. *)
Lemma schedule_delayed k v s :
  pcbs s !! current_process s = Some v -> p_state v = READY ->
  wlp (ScheduleNextProcess k) (fun _ s' => delayed_pcbs s' = delayed_pcbs s) s.
Proof.
  intros Hv Hr. assert (He : forall s1, pcbs s1 = pcbs s -> current_process s1 = current_process s ->
    wlp enqueue_current_process (fun _ s' => delayed_pcbs s' = delayed_pcbs s1) s1).
  { intros s1 Em Ec. unfold enqueue_current_process. apply wp_bind, wp_gets. rewrite Ec.
    destruct (current_process s =? NULL); [done|]. apply wp_bind, wlp_load_pcb. intros w Hw.
    rewrite Em, Hv in Hw. injection Hw as <-. rewrite Hr. cbn [Z.eqb READY].
    assert (H : preserves delayed_pcbs
      (push_to process_ready_queue (current_process s) ;;; ret tt)); [|exact (H s1)].
    preserve_sched. }
  unfold ScheduleNextProcess. apply wp_bind, wp_pop_from. set (s1 := s <| process_ready_queue := _ |>).
  destruct (spec_queue_pop _).1 as [next|].
  - apply wp_bind, wlp_load_pcb. intros w _. apply wp_bind, wp_gets, wp_bind.
    apply (wp_mono _ (fun _ s' => s' = s1)).
    { destruct (_ =? NULL); [done|]. apply wp_bind, wlp_load_pcb. by intros. }
    intros _ s2 ->. apply wp_bind. eapply wp_mono; [by apply He|]. intros r2 s2 E2.
    eapply wp_mono; [apply switch_to_delayed|]. simpl. by intros ? s3 ->.
  - apply wp_bind. eapply wp_mono; [by apply He|]. intros ? s2 E2. apply wp_bind, wp_pop_from.
    destruct (spec_queue_pop (process_ready_queue s2)).1; [by apply wp_ret|].
    apply wp_bind, wp_gets. eapply wp_mono; [apply switch_to_delayed|]. simpl. by intros ? s3 ->.
Qed.

(** ** No running process

    After an exit [current_process] is NULL, which is nobody's address. *)

(** [sched_wf] less the running process. *)
Record sched_base (s : kst) : Prop := {
  sb_mem : mem_ok s;
  sb_r0 : Z.of_nat (length (region_0_pages s)) = NUM_PAGES;
  sb_queue : is_Some (process_ready_queue s);
  sb_idle : proc_ok s (idle_process s);
  sb_ready : Forall (proc_ok s) (ready_list s) }.

Lemma sched_base_cur s : sched_base s -> cur_ok s (current_process s) -> sched_wf s.
Proof. by intros []. Qed.

Definition cur_gone (s : kst) : Prop := current_process s = NULL /\ pcbs s !! NULL = None.

(** There is a running process and it is READY. *)
Definition cur_ready (s : kst) : bool :=
  match pcbs s !! current_process s with Some v => p_state v =? READY | None => false end.

Lemma cur_gone_not_ready s : cur_gone s -> cur_ready s = false.
Proof. intros [Hc Hn]. unfold cur_ready. by rewrite Hc, Hn. Qed.

Lemma alter_absent (f : pcb_t -> pcb_t) (m : gmap Z pcb_t) i : m !! i = None -> alter f i m = m.
Proof.
  intros Hi. apply map_eq. intros j. destruct (decide (i = j)) as [->|Hne].
  - by rewrite lookup_alter_eq, Hi.
  - by rewrite lookup_alter_ne by done.
Qed.

Lemma wp_KCSwitch_gone k next s :
  Z.of_nat (length (region_0_pages s)) = NUM_PAGES -> pcbs s !! NULL = None -> proc_ok s next ->
  wp (KCSwitch k NULL next)
     (fun k' s' => switched k NULL next s s' /\ saved_kont s' next = Some k') s.
Proof.
  intros Hl Hg Hn. destruct (next_after_save k NULL next s Hn Hl) as (vn & c & k' & e0 & e1 & Hvn & Hkn & Hcn & Hkk & _).
  destruct Hn as (_ & _ & vo & co & kso & ko & Hvo & Hco & Hao & _).
  unfold KCSwitch. rewrite Z.eqb_refl. apply wp_bind, wp_ret. cbn [negb].
  eapply wp_bind_Ok; [by apply load_pcb_run|]. rewrite Hco.
  eapply wp_bind_Ok; [by apply check_kptr|]. cbn [negb truthy Z.eqb].
  apply wp_bind, wp_ret, wp_bind, wp_ret.
  assert (Es : s <| pcbs := alter (switched_out k (stack_entries s)) NULL (pcbs s) |> = s)
    by (rewrite alter_absent by done; by destruct s).
  pose proof (KCSwitch_tail k NULL next _ s e0 e1 vn c k' _ eq_refl Hl Hvn Hkn eq_refl Hcn Hkk) as H.
  by rewrite Es in H.
Qed.

(** From the queue in place to the switch. *)
Lemma wp_switch_gone k next s s1 :
  sched_base s -> cur_gone s -> proc_ok s next ->
  s1 = s <| process_ready_queue := process_ready_queue s1 |> -> is_Some (process_ready_queue s1) ->
  Forall (proc_ok s) (ready_list s1) ->
  wp (switch_to k next) (fun k' s' => current_process s' = next /\ ready_list s' = ready_list s1 /\
    sched_wf s' /\ dispatched k next s s' k') s1.
Proof.
  intros Hb [Hc Hg] Hn E1 Hq Hrl. destruct Hb as [Hm Hl _ Hi _].
  assert (Hn1 : proc_ok s1 next) by (apply (proc_ok_same s); [by rewrite E1|by rewrite E1|done]).
  pose proof Hn as (_ & _ & vn & _ & _ & _ & Hvn & _).
  unfold switch_to. eapply wp_bind_Ok; [apply load_pcb_run; by rewrite E1|].
  apply wp_bind, wp_modify, wp_bind, wp_gets. cbn [current_process].
  replace (current_process (s1 <| reg_ptbr1 := Pt_pcb next |>)) with NULL by (by rewrite E1).
  eapply wp_mono; [apply wp_KCSwitch_gone|].
  - rewrite E1. exact Hl.
  - rewrite E1. exact Hg.
  - by apply (proc_ok_same s1).
  - intros k' s' [(E & Hlen & Hbelow & _) Hk'].
    assert (Hp : pcbs s' = pcbs s) by (rewrite E, E1; cbn; by rewrite alter_absent).
    assert (Hsame : same_heap_pages s s') by (intros i Hi'; rewrite Hbelow by done; by rewrite E1).
    assert (Hok : forall p, proc_ok s p -> proc_ok s' p) by (intros p; apply proc_ok_same; [done|by rewrite Hp]).
    assert (Hcn : current_process s' = next) by (by rewrite E).
    assert (Hrl' : ready_list s' = ready_list s1) by (by rewrite E).
    split_and!; [done|done| |].
    + split.
      * intros n. rewrite E, E1. apply Hm.
      * rewrite Hlen, E1. exact Hl.
      * by rewrite E.
      * apply Hok. by rewrite E, E1.
      * rewrite Hrl'. eapply Forall_impl; [exact Hrl|exact Hok].
      * rewrite Hcn. by apply proc_ok_cur, Hok.
    + split_and!; [by rewrite E|done| |done]. by rewrite Hp, Hc, alter_absent.
Qed.

Lemma wp_schedule_gone k s :
  sched_base s -> cur_gone s ->
  let '(next, q) := spec_schedule (current_process s) false (ready_list s) (idle_process s) in
  wp (ScheduleNextProcess k) (fun k' s' => current_process s' = next /\ ready_list s' = q /\
    sched_wf s' /\ dispatched k next s s' k') s.
Proof.
  intros Hb Hg. destruct (sb_queue s Hb) as [q Hq]. pose proof (sb_ready s Hb) as Hrl. pose proof Hg as [Hc _].
  assert (Henq : forall s1, current_process s1 = NULL -> enqueue_current_process s1 = Ok tt s1).
  { intros s1 Hc1. unfold enqueue_current_process. erewrite bind_Ok by reflexivity. by rewrite Hc1, Z.eqb_refl. }
  unfold ready_list in *. rewrite Hq in *. unfold ScheduleNextProcess. destruct (q_data q) as [|n rest] eqn:Ed; cbn.
  - assert (Epop : pop_from process_ready_queue s = Ok None s).
    { rewrite pop_from_run, Hq, (spec_queue_pop_nil q Ed). cbn. f_equal. rewrite <- Hq. by destruct s. }
    eapply wp_bind_Ok; [exact Epop|]. eapply wp_bind_Ok; [by apply Henq|].
    eapply wp_bind_Ok; [exact Epop|]. apply wp_bind, wp_gets.
    assert (Enil : ready_list s = []) by (unfold ready_list; by rewrite Hq).
    eapply wp_mono; [apply (wp_switch_gone k _ s s Hb Hg (sb_idle s Hb))|].
    + by destruct s.
    + by rewrite Hq.
    + by rewrite Enil.
    + intros k' s' H. fold (ready_list s') in *. by rewrite <- Enil.
  - destruct (spec_queue_pop_cons q _ _ Ed) as (q2 & Ep & Hd2). apply Forall_cons in Hrl as [Hn Hrest].
    set (s1 := s <| process_ready_queue := Some q2 |>).
    assert (Epop : pop_from process_ready_queue s = Ok (Some n) s1) by (by rewrite pop_from_run, Hq, Ep).
    pose proof Hn as (_ & _ & vn & _ & _ & _ & Hvn & _).
    eapply wp_bind_Ok; [exact Epop|]. eapply wp_bind_Ok; [by apply (load_pcb_run _ vn)|].
    apply wp_bind, wp_gets. change (current_process s1) with (current_process s). rewrite Hc, Z.eqb_refl.
    apply wp_bind, wp_ret. eapply wp_bind_Ok; [by apply Henq|].
    assert (Erest : ready_list s1 = rest) by exact Hd2.
    eapply wp_mono; [apply (wp_switch_gone k _ s s1 Hb Hg Hn)|].
    + done.
    + by eexists.
    + by rewrite Erest.
    + intros k' s' H. fold (ready_list s') in *. by rewrite app_nil_r, <- Erest.
Qed.

(** ** Rotation *)

(** The running process followed by the ready queue. *)
Definition cpu_queue (s : kst) : list ptr := current_process s :: ready_list s.

Definition rotate1 (l : list ptr) : list ptr := match l with [] => [] | x :: l => l ++ [x] end.
Definition rotate (n : nat) (l : list ptr) : list ptr := Nat.iter n rotate1 l.

Lemma rotate_app l1 l2 : rotate (length l1) (l1 ++ l2) = l2 ++ l1.
Proof.
  revert l2. induction l1 as [|x l1 IH]; intros l2; [by rewrite app_nil_r|].
  cbn [length]. unfold rotate in *. rewrite Nat.iter_succ_r. cbn [rotate1 app].
  rewrite <- app_assoc, IH. by rewrite <- app_assoc.
Qed.

Definition all_ready (s : kst) : Prop :=
  Forall (fun p => p_state <$> pcbs s !! p = Some READY) (cpu_queue s).

Lemma switched_out_state k stack v : p_state (switched_out k stack v) = p_state v.
Proof. unfold switched_out. by destruct (p_krn_ctx v), (p_kernel_stack_pages v). Qed.

Lemma sched_effect_state k b n s s' k' p :
  sched_effect k b n s s' k' -> p_state <$> pcbs s' !! p = p_state <$> pcbs s !! p.
Proof.
  intros H. assert (pcbs s' = pcbs s \/
    pcbs s' = alter (switched_out k (stack_entries s)) (current_process s) (pcbs s)) as [-> | ->].
  { destruct b; [left|right]; apply H. }
  - done.
  - destruct (decide (p = current_process s)) as [->|Hne].
    + rewrite lookup_alter_eq. destruct (pcbs s !! current_process s); [|done]. simpl.
      by rewrite switched_out_state.
    + by rewrite lookup_alter_ne by done.
Qed.

Lemma wp_schedule_ready k s :
  sched_wf s -> all_ready s ->
  wp (ScheduleNextProcess k) (fun _ s' => sched_wf s' /\ all_ready s' /\
    cpu_queue s' = rotate1 (cpu_queue s)) s.
Proof.
  intros Hwf Hrd. pose proof (swf_cur s Hwf) as (_ & _ & v & Hv & _).
  pose proof Hrd as [Hst _]%Forall_cons. rewrite Hv in Hst. injection Hst as Hst.
  pose proof (wp_schedule k s v Hwf Hv) as H. simpl in H. rewrite Hst, Z.eqb_refl in H.
  assert (Hrot : cpu_queue s = current_process s :: ready_list s) by done.
  destruct (spec_schedule _ _ _ _) as [next q] eqn:Esp.
  eapply wp_mono; [exact H|]. intros k' s' (H1 & H2 & H3 & H4).
  assert (Hq : cpu_queue s' = rotate1 (cpu_queue s)).
  { unfold cpu_queue. rewrite H1, H2. unfold spec_schedule in Esp.
    by destruct (ready_list s); injection Esp as <- <-. }
  split_and!; [done| |done]. unfold all_ready. rewrite Hq.
  assert (Hrd' : Forall (fun p => p_state <$> pcbs s' !! p = Some READY) (cpu_queue s)).
  { eapply Forall_impl; [exact Hrd|]. intros p Hp. by rewrite (sched_effect_state _ _ _ _ _ _ _ H4). }
  unfold cpu_queue in *. apply Forall_cons in Hrd' as [? ?]. apply Forall_app. by repeat constructor.
Qed.

Lemma wp_schedule_n n k s :
  sched_wf s -> all_ready s ->
  wp (schedule_n n k) (fun _ s' => sched_wf s' /\ all_ready s' /\
    cpu_queue s' = rotate n (cpu_queue s)) s.
Proof.
  revert s. induction n as [|n IH]; intros s Hwf Hrd; simpl; [by apply wp_ret|].
  apply wp_bind. eapply wp_mono; [by apply wp_schedule_ready|].
  intros _ s1 (H1 & H2 & H3). eapply wp_mono; [by apply IH|].
  intros _ s2 (H4 & H5 & H6). split_and!; [done..|]. rewrite H6, H3.
  apply Nat.iter_swap.
Qed.

(** ** [KCCopy] *)

(** The page table with the pages of a stack mapped below the kernel stack. *)
Definition with_copy (x y : pte) (r0 : list pte) : list pte :=
  <[Z.to_nat (NUM_PAGES - 3) := y]> (<[Z.to_nat (NUM_PAGES - 4) := x]> r0).

Definition read_table (s : kst) : option (list pte) :=
  match reg_ptbr1 s with
  | Pt_boot => Some (region_1_pages s)
  | Pt_pcb p => v ← pcbs s !! p; p_page_table v
  end.

Lemma read_ptbr1_run s r1 : read_table s = Some r1 -> read_ptbr1 s = Ok r1 s.
Proof.
  unfold read_table, read_ptbr1, load_pcb, bind, gets, demand, ret.
  destruct (reg_ptbr1 s) as [|p]; [by intros [= ->]|].
  destruct (pcbs s !! p) as [v|]; [|done]. simpl. by intros ->.
Qed.

Lemma read_table_same s s' :
  reg_ptbr1 s' = reg_ptbr1 s -> region_1_pages s' = region_1_pages s ->
  (forall p, p_page_table <$> pcbs s' !! p = p_page_table <$> pcbs s !! p) ->
  read_table s' = read_table s.
Proof.
  intros E1 E2 E3. unfold read_table. rewrite E1, E2. destruct (reg_ptbr1 s) as [|p]; [done|].
  specialize (E3 p). destruct (pcbs s' !! p), (pcbs s !! p); simplify_eq/=; congruence.
Qed.

(** The two loops of [KCCopy] that touch the page table. *)
Lemma map_stack_run p v x y s :
  pcbs s !! p = Some v -> p_kernel_stack_pages v = Some [x; y] ->
  Z.of_nat (length (region_0_pages s)) = NUM_PAGES ->
  for_each (R:=unit) (range_up 0 NUM_KSTACK_FRAMES) (fun i =>
    e <- stack_page p i ;;
    set_region_0 (NUM_PAGES - 2 * NUM_KSTACK_FRAMES + i) e ;;; ret None) s =
  Ok None (s <| region_0_pages := with_copy x y (region_0_pages s) |>).
Proof.
  intros Hv Hk Hl. pose proof NUM_PAGES_ge_4. rewrite stack_range. cbn [for_each].
  unfold stack_page, set_region_0, load_pcb, bind, gets, demand, modify, ret.
  rewrite NUM_KSTACK_FRAMES_2. replace (NUM_PAGES - 2 * 2 + 0) with (NUM_PAGES - 4) by lia.
  replace (NUM_PAGES - 2 * 2 + 1) with (NUM_PAGES - 3) by lia.
  rewrite Hv, Hk. simpl. rewrite arr_set_Some by lia. simpl. rewrite Hv, Hk. simpl.
  rewrite arr_set_Some by (rewrite length_insert; lia). simpl. by kst_eq s.
Qed.

Lemma unmap_stack_run s e :
  Z.of_nat (length (region_0_pages s)) = NUM_PAGES ->
  for_each (R:=unit) (range_up 0 NUM_KSTACK_FRAMES) (fun i =>
    set_region_0 (NUM_PAGES - 2 * NUM_KSTACK_FRAMES + i) e ;;; ret None) s =
  Ok None (s <| region_0_pages := with_copy e e (region_0_pages s) |>).
Proof.
  intros Hl. pose proof NUM_PAGES_ge_4. rewrite stack_range. cbn [for_each].
  unfold set_region_0, bind, gets, demand, modify, ret.
  rewrite NUM_KSTACK_FRAMES_2. replace (NUM_PAGES - 2 * 2 + 0) with (NUM_PAGES - 4) by lia.
  replace (NUM_PAGES - 2 * 2 + 1) with (NUM_PAGES - 3) by lia.
  rewrite arr_set_Some by lia. simpl.
  rewrite arr_set_Some by (rewrite length_insert; lia). simpl. by kst_eq s.
Qed.

Lemma with_copy_twice a b x y r0 : with_copy a b (with_copy x y r0) = with_copy a b r0.
Proof.
  pose proof NUM_PAGES_ge_4. unfold with_copy.
  rewrite (list_insert_insert_ne _ (Z.to_nat (NUM_PAGES - 4)) (Z.to_nat (NUM_PAGES - 3))) by lia.
  by rewrite !list_insert_insert_eq.
Qed.

Lemma load_user_run s r1 a n bs :
  0 <= n -> read_table s = Some r1 ->
  hw_load (umem s) (region_0_pages s) r1 a (Z.to_nat n) = Some bs ->
  load_user a n s = Ok bs s.
Proof.
  intros Hn Hr Hl. unfold load_user. destruct (Z.ltb_spec n 0); [lia|].
  rewrite (bind_Ok _ _ _ _ _ (read_ptbr1_run s r1 Hr)). unfold bind, gets, demand, ret. simpl.
  by rewrite Hl.
Qed.

Lemma store_user_run s r1 a bs m :
  read_table s = Some r1 -> hw_store (umem s) (region_0_pages s) r1 a bs = Some m ->
  store_user a bs s = Ok tt (s <| umem := m |>).
Proof.
  intros Hr Hl. unfold store_user.
  rewrite (bind_Ok _ _ _ _ _ (read_ptbr1_run s r1 Hr)). unfold bind, gets, demand, ret. simpl.
  by rewrite Hl.
Qed.

(** The state after [KCCopy]. *)
Definition copied (k : kont) (p : ptr) (v : pcb_t) (c : kctx) (m : hw_mem) (s : kst) : kst :=
  s <| trace := trace s ++ [IoTlbFlush TLB_FLUSH_ALL; IoTlbFlush TLB_FLUSH_0; IoTlbFlush TLB_FLUSH_0] |>
    <| pcbs := <[p := v <| p_krn_ctx := Some (mk_kctx (kc_addr c) (Some k)) |>]> (pcbs s) |>
    <| umem := m |>
    <| region_0_pages := with_copy (mk_pte false 0 0) (mk_pte false 0 0) (region_0_pages s) |>.

Lemma KCCopy_run k p v x y c s r1 bs m :
  let r0 := with_copy x y (region_0_pages s) in
  p <> NULL -> kptr_ok s p -> pcbs s !! p = Some v -> p_kernel_stack_pages v = Some [x; y] ->
  p_krn_ctx v = Some c -> Z.of_nat (length (region_0_pages s)) = NUM_PAGES ->
  read_table s = Some r1 ->
  hw_load (umem s) r0 r1 KERNEL_STACK_BASE (Z.to_nat KERNEL_STACK_MAXSIZE) = Some bs ->
  hw_store (umem s) r0 r1 (KERNEL_STACK_BASE - KERNEL_STACK_MAXSIZE) bs = Some m ->
  KCCopy k p s = Ok k (copied k p v c m s).
Proof.
  intros r0 Hp Hpk Hv Hk Hc Hl Hr1 Hld Hst.
  enough (Hw : wp (KCCopy k p) (fun k' s' => k' = k /\ s' = copied k p v c m s) s).
  { destruct (wp_returns _ _ _ Hw) as (k' & s' & E & -> & ->). done. }
  unfold KCCopy.
  assert (Hsz : 0 <= KERNEL_STACK_MAXSIZE)
    by (destruct hw_kstack as (_ & _ & -> & _); pose proof hw_pagesize; lia).
  unfold emit. rewrite (proj2 (Z.eqb_neq p NULL) Hp).
  apply wp_bind, wp_modify, wp_bind.
  set (s1 := s <| trace ::= _ |>).
  assert (Hpk1 : kptr_ok s1 p) by done.
  eapply wp_bind_Ok; [by apply check_kptr|]. apply wp_ret. simpl.
  eapply wp_bind_Ok; [by apply load_pcb_run|]. rewrite Hc.
  apply wp_bind, wp_ret. simpl.
  eapply wp_bind_Ok; [by eapply save_context_run|].
  eapply wp_bind_Ok; [eapply map_stack_run; [apply lookup_insert_eq|exact Hk|done]|].
  apply wp_bind, wp_modify.
  match goal with |- wp _ _ ?st => set (s2 := st) end.
  assert (Hr2 : read_table s2 = Some r1).
  { rewrite <- Hr1. apply read_table_same; [done|done|]. intros q. unfold s2. simpl.
    destruct (decide (q = p)) as [->|Hne]; [by rewrite lookup_insert_eq, Hv|by rewrite lookup_insert_ne]. }
  eapply wp_bind_Ok; [by apply (load_user_run s2 r1 _ _ bs)|].
  eapply wp_bind_Ok; [by apply (store_user_run s2 r1 _ bs m)|].
  eapply wp_bind_Ok.
  { apply unmap_stack_run. unfold s2, with_copy. simpl. by rewrite !length_insert. }
  apply wp_bind, wp_modify, wp_ret. split; [done|]. unfold s2, copied. cbn [region_0_pages].
  subst s1 s2 r0. clear. kst_eq s. rewrite with_copy_twice, <- !app_assoc. reflexivity.
Qed.

(** ** Main results *)

(** C1: [ScheduleNextProcess] implements the abstract round-robin scheduler on
    every branch, whether there is a running process or, after an exit, none
    ([current_process] is NULL): the CPU goes to the front of the ready
    queue, else stays with the running process if it is READY, else goes to
    idle; a READY process is requeued; the context of the process that leaves
    is saved in its PCB and the saved one of the process that enters resumed. *)
Theorem ScheduleNextProcess_refines k s :
  sched_base s -> cur_ok s (current_process s) \/ cur_gone s ->
  let '(next, q) := spec_schedule (current_process s) (cur_ready s) (ready_list s) (idle_process s) in
  exists k' s', ScheduleNextProcess k s = Ok k' s' /\ current_process s' = next /\ ready_list s' = q /\
    sched_wf s' /\ sched_effect k (runs_alone (ready_list s) (cur_ready s)) next s s' k'.
Proof.
  intros Hb [Hc|Hg].
  - pose proof Hc as (_ & _ & v & Hv & _).
    pose proof (wp_schedule k s v (sched_base_cur s Hb Hc) Hv) as H. cbv zeta in H. unfold cur_ready. rewrite Hv.
    destruct (spec_schedule _ _ _ _) as [next q]. by apply wp_returns in H.
  - pose proof (wp_schedule_gone k s Hb Hg) as H. rewrite (cur_gone_not_ready s Hg).
    destruct (spec_schedule _ _ _ _) as [next q]. apply wp_returns in H as (k' & s' & E & H1 & H2 & H3 & H4).
    exists k', s'. split_and!; [done..|]. by destruct (ready_list s).
Qed.

(** C13: round robin: while every process stays READY, the process at position
    [i] of the ready queue is the one that runs after [i + 1] calls of the
    scheduler, and after one call per ready process and one more the same
    process runs again with the same queue. *)
Theorem round_robin s k i p :
  sched_wf s -> all_ready s -> ready_list s !! i = Some p ->
  (exists s1, schedule_n (S i) k s = Ok tt s1 /\ current_process s1 = p) /\
  exists s2, schedule_n (S (length (ready_list s))) k s = Ok tt s2 /\ cpu_queue s2 = cpu_queue s.
Proof.
  intros Hwf Hrd Hi. split.
  - destruct (wp_returns _ _ _ (wp_schedule_n (S i) k s Hwf Hrd)) as ([] & s1 & E & _ & _ & H).
    exists s1. split; [done|]. apply take_drop_middle in Hi as Hl.
    pose proof (lookup_lt_Some _ _ _ Hi). unfold cpu_queue in H. rewrite <- Hl in H.
    change (current_process s :: ?a ++ ?b) with ((current_process s :: a) ++ b) in H.
    replace (S i) with (length (current_process s :: take i (ready_list s))) in H
      by (simpl; rewrite length_take; lia).
    rewrite rotate_app in H. by injection H as ->.
  - destruct (wp_returns _ _ _ (wp_schedule_n (S (length (ready_list s))) k s Hwf Hrd))
      as ([] & s2 & E & _ & _ & H).
    exists s2. split; [done|]. rewrite H. change (S (length (ready_list s))) with (length (cpu_queue s)).
    rewrite <- (app_nil_r (cpu_queue s)) at 2. by rewrite rotate_app.
Qed.

(** C26: [KCCopy] on a live PCB with a two-page stack returns the running
    context [k], saves [k] as the context of the new process too, and copies
    the kernel stack into the frames of the new stack, through pages that are
    unmapped again afterwards; no other PCB changes. *)
Theorem KCCopy_duplicates k p v x y c s r1 bs m :
  let r0 := with_copy x y (region_0_pages s) in
  p <> NULL -> kptr_ok s p -> pcbs s !! p = Some v -> p_kernel_stack_pages v = Some [x; y] ->
  p_krn_ctx v = Some c -> Z.of_nat (length (region_0_pages s)) = NUM_PAGES ->
  read_table s = Some r1 ->
  hw_load (umem s) r0 r1 KERNEL_STACK_BASE (Z.to_nat KERNEL_STACK_MAXSIZE) = Some bs ->
  hw_store (umem s) r0 r1 (KERNEL_STACK_BASE - KERNEL_STACK_MAXSIZE) bs = Some m ->
  exists s', KCCopy k p s = Ok k s' /\ saved_kont s' p = Some k /\
    (forall q, q <> p -> pcbs s' !! q = pcbs s !! q) /\
    hw_load (umem s') r0 r1 (KERNEL_STACK_BASE - KERNEL_STACK_MAXSIZE) (length bs) = Some bs /\
    region_0_pages s' = with_copy (mk_pte false 0 0) (mk_pte false 0 0) (region_0_pages s).
Proof.
  intros r0 Hp Hpk Hv Hk Hc Hl Hr1 Hld Hst.
  exists (copied k p v c m s). split; [by eapply (KCCopy_run k p v x y)|]. split_and!.
  - unfold saved_kont, copied. simpl. by rewrite lookup_insert_eq.
  - intros q Hq. unfold copied. simpl. by rewrite lookup_insert_ne.
  - by eapply hw_load_store.
  - done.
Qed.
End Facts.

(** ** Witnesses on the demo machine *)
Section Witnesses.
Import DemoHardware Demo.

(** Idle at 16, the running process at 20 and a ready one at 24, each with a
    saved context and a two-page stack. *)
Definition demo_proc (pid ctx pfn : Z) (k : kont) : pcb_t :=
  mk_pcb READY 0 pid 176 0 0 0 NULL (Some empty_set) (Some empty_set)
    (Some (replicate 128 (mk_pte true 3 30))) (Some no_ctx)
    (Some (mk_kctx ctx (Some k))) (Some [mk_pte true 3 pfn; mk_pte true 3 (pfn + 1)])
    None 0 0 0 0 0.

Definition demo_sched : kst := blank
  <| region_0_pages := (fun i => mk_pte ((i <? 4) || (126 <=? i)) 3 i) <$> range_up 0 128 |>
  <| pcbs := {[ 16 := demo_proc 0 40 20 K_boot; 20 := demo_proc 1 44 22 K_user;
                24 := demo_proc 2 48 24 (K_syscall 5) ]} |>
  <| idle_process := 16 |> <| current_process := 20 |>
  <| process_ready_queue := Some (q_append empty_queue 24) |>.

Lemma demo_kptr a : 0 <= a < 64 -> kptr_ok demo_sched a.
Proof.
  intros Ha. pose proof (Z.div_lt_upper_bound a 16 4). pose proof (Z.div_pos a 16).
  split_and!; [lia| |].
  - change (a / 16 < 126). lia.
  - unfold demo_sched. simpl.
    assert (Hc : a / 16 = 0 \/ a / 16 = 1 \/ a / 16 = 2 \/ a / 16 = 3) by lia.
    destruct Hc as [-> |[-> |[-> | ->]]]; eexists; by split.
Defined.

Lemma demo_proc_ok p pid ctx pfn k :
  0 < p < 64 -> 0 <= ctx < 64 -> pcbs demo_sched !! p = Some (demo_proc pid ctx pfn k) ->
  proc_ok demo_sched p.
Proof.
  intros Hp Hc Hv. split_and!; [unfold NULL; lia|apply demo_kptr; lia|].
  eexists _, _, _, _. split_and!; [exact Hv|done|by apply demo_kptr|done..].
Defined.

Lemma demo_sched_wf : sched_wf demo_sched.
Proof.
  split.
  - by apply demo_mem_ok.
  - done.
  - by eexists.
  - by apply (demo_proc_ok 16 0 40 20 K_boot).
  - constructor; [by apply (demo_proc_ok 24 2 48 24 (K_syscall 5))|constructor].
  - apply proc_ok_cur. by apply (demo_proc_ok 20 1 44 22 K_user).
Defined.

(** With process 20 running, and after it has exited. *)
Lemma ScheduleNextProcess_refines_witness :
  (exists k' s', ScheduleNextProcess K_clock demo_sched = Ok k' s' /\
    current_process s' = 24 /\ ready_list s' = [20] /\ saved_kont s' 24 = Some k') /\
  (exists k' s', ScheduleNextProcess K_user (demo_sched <| current_process := NULL |>) = Ok k' s' /\
    current_process s' = 24 /\ ready_list s' = []).
Proof.
  split.
  2:{ destruct (ScheduleNextProcess_refines K_user (demo_sched <| current_process := NULL |>))
        as (k' & s' & E & H1 & H2 & _); [by destruct demo_sched_wf|by right|].
      exact (ex_intro _ k' (ex_intro _ s' (conj E (conj H1 H2)))). }
  destruct (ScheduleNextProcess_refines K_clock demo_sched)
    as (k' & s' & E & H1 & H2 & _ & H3); [by destruct demo_sched_wf|left; apply (swf_cur _ demo_sched_wf)|].
  exists k', s'. split_and!; [done..|]. apply H3.
Defined.

Lemma round_robin_witness :
  exists s1, schedule_n 1 K_clock demo_sched = Ok tt s1 /\ current_process s1 = 24.
Proof.
  apply (round_robin demo_sched K_clock 0 24 demo_sched_wf); [|reflexivity].
  repeat constructor.
Defined.

Lemma KCCopy_duplicates_witness :
  exists s', KCCopy (K_fork 2) 24 demo_sched = Ok (K_fork 2) s' /\
    saved_kont s' 24 = Some (K_fork 2).
Proof.
  destruct (hw_store (umem demo_sched)
    (with_copy (mk_pte true 3 24) (mk_pte true 3 25) (region_0_pages demo_sched))
    (region_1_pages demo_sched) (KERNEL_STACK_BASE - KERNEL_STACK_MAXSIZE)
    (replicate 32 Byte.x00)) as [m|] eqn:Em; [|by vm_compute in Em].
  destruct (KCCopy_duplicates (K_fork 2) 24 (demo_proc 2 48 24 (K_syscall 5)) (mk_pte true 3 24)
    (mk_pte true 3 25) (mk_kctx 48 (Some (K_syscall 5))) demo_sched (region_1_pages demo_sched)
    (replicate 32 Byte.x00) m) as (s' & E & H & _);
    [done|by apply demo_kptr|reflexivity..|exact Em|].
  exact (ex_intro _ s' (conj E H)).
Defined.
End Witnesses.
