(* ===== verification/Ipc.v ===== *)
(** * Locks and condition variables ([ipc_wrapper.c])

    The [ipc_wrapper] global owns three sets of objects, locks, condition
    variables and pipes, whose ids come from one counter.  An object is a
    record in its set, found by its id and written back under it; every
    function here is called with the global as its [ipc_wrapper] argument.
    Pipes are in [Pipe].

    Main results: ids are never shared, by objects of any kind; a lock follows
    the abstract lock [spec_acquire]/[spec_release] (one owner, waiters served
    first come first served, no waiters when unlocked); [lock_delete] destroys
    the waiting processes; [cvar_broadcast] never returns an array. *)

From S2P Require Import Prelude Hardware Containers KState Pcb.
From stdpp Require Import list gmap fin_maps.

#[local] Open Scope Z_scope.

(** Write through a pointer to an item of a set. *)
Fixpoint update_key {A} (key : Z) (x : A) (l : list (Z * A)) : list (Z * A) :=
  match l with
  | [] => []
  | (k, d) :: l' => if key =? k then (k, x) :: l' else (k, d) :: update_key key x l'
  end.

Definition set_item {A} (key : Z) (x : A) (s : set_t A) : set_t A :=
  mk_set (update_key key x (s_nodes s)) (s_node_count s).

Section Defs.
Context {hw : Hardware}.

(** [set_find] in a set of the wrapper; NULL when the wrapper or the set is. *)
Definition ipc_find {A} (field : ipc_wrapper_t -> option (set_t A)) (id : Z) : M kst (option A) :=
  w <- gets ipc_wrapper ;;
  match w with
  | Some w => if find_faults (field w) id then undef else ret (spec_set_find (field w) id)
  | None => ret None
  end.

Definition ipc_store {A} (field : ipc_wrapper_t -> option (set_t A)) `{!Setter field}
  (id : Z) (x : A) : M kst unit :=
  modify (fun s => s <| ipc_wrapper ::= fmap (fun w => w <| field ::= fmap (set_item id x) |>) |>).

(** [ipc_wrapper->next_ipc_id++] *)
Definition take_ipc_id : M kst Z :=
  w <- gets ipc_wrapper ;;
  w <- demand w ;;
  modify (fun s => s <| ipc_wrapper :=
    Some (w <| next_ipc_id := wrap32 (next_ipc_id w + 1) |>) |>) ;;;
  ret (next_ipc_id w).

(** [set_insert] into a set of the wrapper. *)
Definition ipc_insert {A} `{Nullable A} (field : ipc_wrapper_t -> option (set_t A)) `{!Setter field}
  (id : Z) (x : A) : M kst Z :=
  w <- gets ipc_wrapper ;;
  w <- demand w ;;
  do '(rc, q) <- set_insert (field w) id x ;;
  modify (fun s => s <| ipc_wrapper := Some (w <| field := q |>) |>) ;;;
  ret rc.

Definition ipc_wrapper_init : M kst (option ipc_wrapper_t) :=
  a <- malloc ;;
  if a =? NULL then ret None else
  locks <- set_new ;;
  match locks with
  | None => ret None
  | Some _ =>
      cvars <- set_new ;;
      match cvars with
      | None => ret None
      | Some _ =>
          pipes <- set_new ;;
          match pipes with
          | None => ret None
          | Some _ => ret (Some (mk_ipc 0 locks cvars pipes))
          end
      end
  end.

(** The wrapper and its sets are freed, not their items. *)
Definition ipc_wrapper_delete : M kst unit :=
  modify (fun s => s <| ipc_wrapper := None |>).

(** ** Locks *)

Definition lock_new : M kst Z :=
  w <- gets ipc_wrapper ;;
  match w with
  | None => ret ERROR
  | Some w =>
      match locks w with
      | None => ret ERROR
      | Some ls =>
          if s_node_count ls >=? MAX_LOCKS then ret ERROR else
          new_lock <- malloc ;;
          if new_lock =? NULL then ret ERROR else
          id <- take_ipc_id ;;
          lock_queue <- queue_new ;;
          match lock_queue with
          | None => ret ERROR
          | Some _ =>
              rc <- ipc_insert locks id (mk_lock id UNLOCKED lock_queue) ;;
              if rc =? ERROR then ret ERROR else ret id
          end
      end
  end.

(** [current_process->pid] *)
Definition current_pid : M kst Z :=
  cur <- gets current_process ;; v <- load_pcb cur ;; ret (p_pid v).

Definition lock_acquire (id : Z) : M kst Z :=
  lock <- ipc_find locks id ;;
  match lock with
  | None => ret ERROR
  | Some lock =>
      if owner lock =? UNLOCKED then
        pid <- current_pid ;;
        ipc_store locks id (lock <| owner := pid |>) ;;;
        ret ACQUIRE_SUCCESS
      else
        pid <- current_pid ;;
        if owner lock =? pid then ret ERROR else
        cur <- gets current_process ;;
        do '(rc, q) <- queue_push (lock_blocked lock) cur ;;
        ipc_store locks id (lock <| lock_blocked := q |>) ;;;
        if negb (rc =? 0) then ret ERROR else ret ACQUIRE_BLOCKED
  end.

Definition lock_release (id : Z) : M kst Z :=
  lock <- ipc_find locks id ;;
  match lock with
  | None => ret ERROR
  | Some lock =>
      pid <- current_pid ;;
      if negb (pid =? owner lock) then ret ERROR else
      match lock_blocked lock with
      | None => ret ERROR
      | Some _ =>
          let '(next_pcb, q) := spec_queue_pop (lock_blocked lock) in
          match next_pcb with
          | None =>
              ipc_store locks id (lock <| lock_blocked := q |> <| owner := UNLOCKED |>) ;;;
              ret RELEASE_QUEUE_EMPTY
          | Some next_pcb =>
              v <- load_pcb next_pcb ;;
              ipc_store locks id (lock <| lock_blocked := q |> <| owner := p_pid v |>) ;;;
              ret RELEASE_NEW_OWNER
          end
      end
  end.

(** [queue_delete(q, free_frame_queue, delete_pcb_queue_helper)] *)
Definition delete_pcb_queue (q : option (queue_t ptr)) : M kst unit :=
  match q with
  | None => ret tt
  | Some q => for_each (R:=unit) (q_data q) (fun p => pcbFree p ;;; ret None) ;;; ret tt
  end.

Definition lock_delete (lock : lock_t) : M kst unit := delete_pcb_queue (lock_blocked lock).

(** ** Condition variables *)

Definition cvar_new : M kst Z :=
  w <- gets ipc_wrapper ;;
  match w with
  | None => ret ERROR
  | Some w =>
      cs <- demand (cvars w) ;;
      if s_node_count cs >=? MAX_CVARS then ret ERROR else
      new_cvar <- malloc ;;
      if new_cvar =? NULL then ret ERROR else
      id <- take_ipc_id ;;
      cvar_queue <- queue_new ;;
      match cvar_queue with
      | None => ret ERROR
      | Some _ =>
          rc <- ipc_insert cvars id (mk_cvar id cvar_queue) ;;
          if rc =? ERROR then ret ERROR else ret id
      end
  end.

Definition cvar_signal (id : Z) : M kst Z :=
  cvar <- ipc_find cvars id ;;
  match cvar with
  | None => ret ERROR
  | Some cvar =>
      match cvar_blocked cvar with
      | None => ret ERROR
      | Some _ =>
          let '(pcb, q) := spec_queue_pop (cvar_blocked cvar) in
          ipc_store cvars id (cvar <| cvar_blocked := q |>) ;;;
          match pcb with
          | None => ret ERROR
          | Some pcb => v <- load_pcb pcb ;; ret (p_pid v)
          end
      end
  end.

(** The loop of [cvar_broadcast] with [pcb] just popped; the fuel is the
    number of nodes of the queue. *)
Fixpoint broadcast_loop (fuel : nat) (id : Z) (cvar : cvar_t) (i : Z) (pcb : option ptr)
  (broadcast_pcbs : list Z) : M kst (option (list Z)) :=
  match pcb with
  | None => ret (Some broadcast_pcbs)
  | Some pcb =>
      q <- demand (cvar_blocked cvar) ;;
      if i >=? q_count q then ret None else
      v <- load_pcb pcb ;;
      pids <- demand (arr_set broadcast_pcbs i (p_pid v)) ;;
      let '(next, q') := spec_queue_pop (Some q) in
      let cvar' := cvar <| cvar_blocked := q' |> in
      ipc_store cvars id cvar' ;;;
      match fuel with
      | O => undef
      | S fuel' => broadcast_loop fuel' id cvar' (i + 1) next pids
      end
  end.

Definition cvar_broadcast (id : Z) : M kst (option (list Z)) :=
  cvar <- ipc_find cvars id ;;
  match cvar with
  | None => ret None
  | Some cvar =>
      match cvar_blocked cvar with
      | None => ret None
      | Some q =>
          a <- malloc ;;
          if a =? NULL then ret None else
          let '(pcb, q') := spec_queue_pop (Some q) in
          let cvar' := cvar <| cvar_blocked := q' |> in
          ipc_store cvars id cvar' ;;;
          match pcb with
          | None => ret None
          | Some _ =>
              broadcast_loop (length (q_items q)) id cvar' 0 pcb
                (replicate (Z.to_nat (q_count q + 1)) uninit_int)
          end
      end
  end.

Definition cvar_wait (id lock_id : Z) : M kst Z :=
  cvar <- ipc_find cvars id ;;
  match cvar with
  | None => ret ERROR
  | Some cvar =>
      match cvar_blocked cvar with
      | None => ret ERROR
      | Some _ =>
          lock_release_status <- lock_release lock_id ;;
          if lock_release_status =? ERROR then ret ERROR else
          cur <- gets current_process ;;
          do '(rc, q) <- queue_push (cvar_blocked cvar) cur ;;
          ipc_store cvars id (cvar <| cvar_blocked := q |>) ;;;
          if rc =? ERROR then ret ERROR else ret lock_release_status
      end
  end.

Definition cvar_delete (cvar : cvar_t) : M kst unit := delete_pcb_queue (cvar_blocked cvar).
End Defs.

(** ** Items of a set *)
Section Items.
Context {A : Type}.
Implicit Types (l : list (Z * A)).

Lemma update_key_keys key (x : A) l : (update_key key x l).*1 = l.*1.
Proof.
  induction l as [|[k d] l IH]; [done|]. cbn [update_key].
  destruct (key =? k); [done|]. rewrite !fmap_cons. by rewrite IH.
Qed.

Lemma key_lookup_update key (x : A) l k :
  key_lookup k (update_key key x l) =
  if decide (k = key) then (fun _ => x) <$> key_lookup key l else key_lookup k l.
Proof.
  induction l as [|[k' d] l IH]; [simpl; by case_decide|].
  cbn [update_key key_lookup]. destruct (Z.eqb_spec key k') as [->|Hne]; cbn [key_lookup].
  - destruct (Z.eqb_spec k k') as [->|Hk]; [by rewrite decide_True|by rewrite decide_False].
  - rewrite IH. destruct (Z.eqb_spec k k') as [->|Hk]; [|done]. by rewrite decide_False.
Qed.

Lemma find_set_item key (x : A) s k :
  spec_set_find (Some (set_item key x s)) k =
  if decide (k = key) then (fun _ => x) <$> spec_set_find (Some s) key
  else spec_set_find (Some s) k.
Proof.
  simpl. rewrite key_lookup_update. case_decide; [subst k; by destruct (key <? 0)|done].
Qed.

Lemma update_key_elem key (x : A) l n : n ∈ update_key key x l -> n = (key, x) \/ n ∈ l.
Proof.
  induction l as [|[k d] l IH]; simpl; [by right|].
  destruct (Z.eqb_spec key k) as [->|_].
  - intros [->|H]%elem_of_cons; [by left|right; by right].
  - intros [->|H]%elem_of_cons; [right; by left|]. destruct (IH H); [by left|right; by right].
Qed.
End Items.

(** ** Objects of the wrapper *)
Section Facts.
Context {hw : Hardware}.

Definition find_lock (s : kst) (id : Z) : option lock_t :=
  w ← ipc_wrapper s; spec_set_find (locks w) id.
Definition find_cvar (s : kst) (id : Z) : option cvar_t :=
  w ← ipc_wrapper s; spec_set_find (cvars w) id.
Definition find_pipe (s : kst) (id : Z) : option pipe_t :=
  w ← ipc_wrapper s; spec_set_find (pipes w) id.

(** The ids in use, of the three kinds. *)
Definition set_keys {A} (q : option (set_t A)) : list Z := default [] ((fun s => (s_nodes s).*1) <$> q).
Definition all_ids (w : ipc_wrapper_t) : list Z :=
  set_keys (locks w) ++ set_keys (cvars w) ++ set_keys (pipes w).

(** No two objects share an id and the counter is above all of them. *)
Definition ids_wf (w : ipc_wrapper_t) : Prop :=
  0 <= next_ipc_id w /\ NoDup (all_ids w) /\ Forall (fun i => 0 <= i < next_ipc_id w) (all_ids w).

Lemma ipc_find_run {A} (field : ipc_wrapper_t -> option (set_t A)) id x s :
  (w ← ipc_wrapper s; spec_set_find (field w) id) = Some x -> ipc_find field id s = Ok (Some x) s.
Proof.
  unfold ipc_find, bind, gets, ret. destruct (ipc_wrapper s) as [w|]; [|done]. simpl.
  unfold find_faults, spec_set_find. destruct (field w) as [q|]; [|done].
  destruct (id <? 0); [done|]. intros ->. by rewrite andb_false_r.
Qed.

Lemma ipc_store_lock_find id l l0 s s' :
  find_lock s id = Some l0 ->
  s' = s <| ipc_wrapper ::= fmap (fun w => w <| locks ::= fmap (set_item id l) |>) |> ->
  (forall k, find_lock s' k = if decide (k = id) then Some l else find_lock s k) /\
  (forall k, find_cvar s' k = find_cvar s k) /\ (forall k, find_pipe s' k = find_pipe s k).
Proof.
  unfold find_lock, find_cvar, find_pipe. intros H ->. simpl.
  destruct (ipc_wrapper s) as [w|]; [|done]. simpl in *.
  split_and!; [|done|done]. intros k. destruct (locks w) as [ls|]; [|done]. simpl fmap.
  rewrite find_set_item, H. by case_decide.
Qed.

Lemma ipc_store_cvar_find id c c0 s s' :
  find_cvar s id = Some c0 ->
  s' = s <| ipc_wrapper ::= fmap (fun w => w <| cvars ::= fmap (set_item id c) |>) |> ->
  (forall k, find_cvar s' k = if decide (k = id) then Some c else find_cvar s k) /\
  (forall k, find_lock s' k = find_lock s k) /\ (forall k, find_pipe s' k = find_pipe s k).
Proof.
  unfold find_lock, find_cvar, find_pipe. intros H ->. simpl.
  destruct (ipc_wrapper s) as [w|]; [|done]. simpl in *.
  split_and!; [|done|done]. intros k. destruct (cvars w) as [ls|]; [|done]. simpl fmap.
  rewrite find_set_item, H. by case_decide.
Qed.

Lemma ipc_store_ids {A} (q : option (set_t A)) id x : set_keys (set_item id x <$> q) = set_keys q.
Proof. destruct q; [apply update_key_keys|done]. Qed.

(** ** The abstract lock *)

(** Owner (UNLOCKED for none) and waiting processes, first come first. *)
Definition lock_view (l : lock_t) : Z * list ptr :=
  (owner l, default [] (q_data <$> lock_blocked l)).

Definition spec_acquire (pid : Z) (p : ptr) (st : Z * list ptr) : Z * (Z * list ptr) :=
  if st.1 =? UNLOCKED then (ACQUIRE_SUCCESS, (pid, st.2))
  else if st.1 =? pid then (ERROR, st)
  else (ACQUIRE_BLOCKED, (st.1, st.2 ++ [p])).

Definition spec_release (pid : Z) (pid_of : ptr -> Z) (st : Z * list ptr) : Z * (Z * list ptr) :=
  if negb (pid =? st.1) then (ERROR, st)
  else match st.2 with
       | [] => (RELEASE_QUEUE_EMPTY, (UNLOCKED, []))
       | p :: ws => (RELEASE_NEW_OWNER, (pid_of p, ws))
       end.

(** The pid stored in a PCB. *)
Definition pid_at (s : kst) (p : ptr) : Z := default 0 (p_pid <$> pcbs s !! p).

(** [s'] is [s] up to allocation and the wrapper. *)
Definition ipc_only (s s' : kst) : Prop :=
  s' = s <| mallocs := mallocs s' |> <| ipc_wrapper := ipc_wrapper s' |>.

(** One lock changed, to [l]. *)
Definition lock_becomes (s s' : kst) (id : Z) (l : lock_t) : Prop :=
  ipc_only s s' /\
  (forall k, find_lock s' k = if decide (k = id) then Some l else find_lock s k) /\
  (forall k, find_cvar s' k = find_cvar s k) /\ (forall k, find_pipe s' k = find_pipe s k).

Lemma lock_becomes_refl s id l : find_lock s id = Some l -> lock_becomes s s id l.
Proof.
  intros H. split_and!; [|intros k; case_decide; by subst|done|done].
  unfold ipc_only. by destruct s.
Qed.

(** Storing a lock, after [malloc]s. *)
Lemma wp_store_lock U id l l0 s s0 (Q : unit -> kst -> Prop) :
  find_lock s0 id = Some l0 -> ipc_only s0 s -> ipc_wrapper s = ipc_wrapper s0 ->
  (forall s', lock_becomes s0 s' id l -> Q tt s') -> wpx U (ipc_store locks id l) Q s.
Proof.
  intros H0 Hs Hw HQ. unfold ipc_store. apply wp_modify, HQ.
  assert (Hf : find_lock s id = Some l0) by (unfold find_lock; by rewrite Hw).
  destruct (ipc_store_lock_find id l l0 s _ Hf eq_refl) as (H1 & H2 & H3).
  unfold lock_becomes. split_and!.
  - unfold ipc_only in *. rewrite Hs. by kst_eq s0.
  - intros k. rewrite H1. unfold find_lock. by rewrite Hw.
  - intros k. rewrite H2. unfold find_cvar. by rewrite Hw.
  - intros k. rewrite H3. unfold find_pipe. by rewrite Hw.
Qed.

Lemma wp_current_pid U v (Q : Z -> kst -> Prop) s :
  pcbs s !! current_process s = Some v -> Q (p_pid v) s -> wpx U current_pid Q s.
Proof.
  intros Hv HQ. unfold current_pid. apply wp_bind, wp_gets, wp_bind.
  eapply wp_load_pcb; [exact Hv|]. by apply wp_ret.
Qed.

Lemma wp_ipc_find {A} U (field : ipc_wrapper_t -> option (set_t A)) id x (Q : option A -> kst -> Prop) s :
  (w ← ipc_wrapper s; spec_set_find (field w) id) = Some x -> Q (Some x) s -> wpx U (ipc_find field id) Q s.
Proof. intros E. by apply wp_eq, ipc_find_run. Qed.

Lemma wp_lock_acquire id l q v s :
  mem_ok s -> pcbs s !! current_process s = Some v -> current_process s <> NULL ->
  find_lock s id = Some l -> lock_blocked l = Some q ->
  wp (lock_acquire id) (fun rc s' => exists l', lock_becomes s s' id l' /\
    lock_id l' = lock_id l /\ is_Some (lock_blocked l') /\
    (rc, lock_view l') = spec_acquire (p_pid v) (current_process s) (lock_view l)) s.
Proof.
  intros Hm Hv Hc Hl Hq. unfold lock_acquire. apply wp_bind. eapply wp_ipc_find; [exact Hl|].
  unfold spec_acquire. cbn [lock_view fst snd]. rewrite Hq.
  destruct (owner l =? UNLOCKED).
  - apply wp_bind. eapply wp_current_pid; [exact Hv|]. apply wp_bind.
    eapply wp_store_lock; [exact Hl|unfold ipc_only; by destruct s|done|]. intros s' Hs'.
    apply wp_ret. eexists. split; [exact Hs'|]. unfold lock_view. simpl. rewrite Hq.
    split_and!; [done|by eexists|done].
  - apply wp_bind. eapply wp_current_pid; [exact Hv|]. destruct (owner l =? p_pid v).
    + apply wp_ret. exists l. split; [by apply lock_becomes_refl|].
      unfold lock_view. rewrite Hq. split_and!; [done|by eexists|done].
    + apply wp_bind, wp_gets.
      eapply wp_bind_Ok; [apply queue_push_run; [by apply Z.eqb_neq|apply Hm]|].
      apply wp_bind. eapply wp_store_lock; [exact Hl|unfold ipc_only; by kst_eq s|done|].
      intros s' Hs'. apply wp_ret. eexists. split; [exact Hs'|]. unfold lock_view. simpl.
      rewrite q_data_append. split_and!; [done|by eexists|done].
Qed.

Lemma wp_lock_release id l q v s :
  pcbs s !! current_process s = Some v -> find_lock s id = Some l -> lock_blocked l = Some q ->
  Forall (fun p => is_Some (pcbs s !! p)) (q_data q) ->
  wp (lock_release id) (fun rc s' => exists l', lock_becomes s s' id l' /\
    lock_id l' = lock_id l /\ is_Some (lock_blocked l') /\
    (rc, lock_view l') = spec_release (p_pid v) (pid_at s) (lock_view l)) s.
Proof.
  intros Hv Hl Hq Hlive. unfold lock_release. apply wp_bind. eapply wp_ipc_find; [exact Hl|].
  unfold spec_release. cbn [lock_view fst snd]. rewrite Hq.
  apply wp_bind. eapply wp_current_pid; [exact Hv|].
  destruct (negb (p_pid v =? owner l)).
  { apply wp_ret. exists l. split; [by apply lock_becomes_refl|].
    unfold lock_view. rewrite Hq. split_and!; [done|by eexists|done]. }
  cbn [fmap option_fmap option_map default].
  destruct (q_data q) as [|p ws] eqn:Ed.
  - rewrite (spec_queue_pop_nil q Ed). apply wp_bind.
    eapply wp_store_lock; [exact Hl|unfold ipc_only; by destruct s|done|].
    intros s' Hs'. apply wp_ret. eexists. split; [exact Hs'|]. unfold lock_view. simpl.
    rewrite Ed. split_and!; [done|by eexists|done].
  - destruct (spec_queue_pop_cons q _ _ Ed) as (q' & -> & Hd').
    apply Forall_cons in Hlive as [[vp Hvp] _].
    apply wp_bind. eapply wp_load_pcb; [exact Hvp|]. apply wp_bind.
    eapply wp_store_lock; [exact Hl|unfold ipc_only; by destruct s|done|].
    intros s' Hs'. apply wp_ret. eexists. split; [exact Hs'|]. unfold lock_view, pid_at. simpl.
    rewrite Hd', Hvp. split_and!; [done|by eexists|done].
Qed.

(** ** Allocation of ids *)

Lemma ids_wf_insert w i ls cs ps :
  ids_wf w -> next_ipc_id w < INT_MAX -> i = next_ipc_id w ->
  set_keys ls ++ set_keys cs ++ set_keys ps ≡ₚ i :: all_ids w ->
  ids_wf (mk_ipc (wrap32 (i + 1)) ls cs ps).
Proof.
  intros (Hn & Hd & Hf) Hmax -> Hp. unfold ids_wf, all_ids at 1 2. cbn [locks cvars pipes next_ipc_id].
  unfold INT_MAX in Hmax.
  rewrite wrap32_id by (unfold INT_MIN, INT_MAX; lia). rewrite Hp. split_and!; [lia| |].
  - constructor; [|done]. intros Hi. rewrite Forall_forall in Hf. apply Hf in Hi. lia.
  - constructor; [lia|]. eapply Forall_impl; [exact Hf|]. simpl. lia.
Qed.

Lemma ids_wf_next w i : ids_wf w -> i = next_ipc_id w -> i ∉ all_ids w.
Proof. intros (_ & _ & Hf) -> Hi. rewrite Forall_forall in Hf. apply Hf in Hi. lia. Qed.

Lemma spec_insert_fresh {A} `{Nullable A} m (q : set_t A) i x :
  0 <= i -> is_null x = false -> i ∉ (s_nodes q).*1 -> m <> NULL ->
  insert_allocates (Some q) i x = true /\
  spec_set_insert m (Some q) i x = (0, Some (mk_set ((i, x) :: s_nodes q) (s_node_count q + 1))).
Proof.
  intros Hi Hx Hn Hm.
  assert (Ha : insert_allocates (Some q) i x = true).
  { simpl. destruct (Z.ltb_spec i 0); [lia|]. rewrite Hx. simpl.
    by rewrite (proj2 (key_lookup_None i (s_nodes q)) Hn). }
  split; [done|]. unfold spec_set_insert. rewrite Ha. simpl. by destruct (Z.eqb_spec m NULL).
Qed.

(** [set_insert] of a fresh object, as a state equation. *)
Lemma ipc_insert_run {A} `{Nullable A} (field : ipc_wrapper_t -> option (set_t A)) `{!Setter field}
  w q i x s :
  mem_ok s -> ipc_wrapper s = Some w -> field w = Some q -> 0 <= i -> is_null x = false ->
  i ∉ (s_nodes q).*1 ->
  ipc_insert field i x s = Ok 0 (s <| mallocs ::= S |>
    <| ipc_wrapper := Some (w <| field := Some (mk_set ((i, x) :: s_nodes q) (s_node_count q + 1)) |>) |>).
Proof.
  intros Hm Hw Hq Hi Hx Hn.
  destruct (spec_insert_fresh (malloc_at s (mallocs s)) q i x Hi Hx Hn (Hm _)) as [Ha He].
  unfold ipc_insert, set_insert, bind, gets, demand, ret, malloc, modify. rewrite Hw. simpl.
  by rewrite Hq, Ha, He.
Qed.

Lemma ids_fresh w q1 q2 q3 :
  ids_wf w -> locks w = Some q1 -> cvars w = Some q2 -> pipes w = Some q3 ->
  let i := next_ipc_id w in
  0 <= i /\ i ∉ (s_nodes q1).*1 /\ i ∉ (s_nodes q2).*1 /\ i ∉ (s_nodes q3).*1.
Proof.
  intros Hwf H1 H2 H3. pose proof (ids_wf_next w _ Hwf eq_refl) as Hn.
  destruct Hwf as [H0 _]. unfold all_ids, set_keys in Hn. rewrite H1, H2, H3 in Hn. simpl in *.
  split; [done|]. rewrite !elem_of_app in Hn. tauto.
Qed.

(** [lock_new] and [cvar_new] with room in the set and memory. *)
Lemma wp_lock_new w q1 q2 q3 s :
  mem_ok s -> ipc_wrapper s = Some w -> ids_wf w ->
  locks w = Some q1 -> cvars w = Some q2 -> pipes w = Some q3 -> s_node_count q1 < MAX_LOCKS ->
  let i := next_ipc_id w in
  wp lock_new (fun rc s' => rc = i /\ ipc_only s s' /\
    ipc_wrapper s' = Some (mk_ipc (wrap32 (i + 1))
      (Some (mk_set ((i, mk_lock i UNLOCKED (Some empty_queue)) :: s_nodes q1) (s_node_count q1 + 1)))
      (cvars w) (pipes w))) s.
Proof.
  intros Hm Hw Hwf H1 H2 H3 Hc i. destruct (ids_fresh w q1 q2 q3 Hwf H1 H2 H3) as (Hi & Hf & _).
  unfold lock_new. apply wp_bind, wp_gets. rewrite Hw, H1.
  rewrite Z.geb_leb. destruct (Z.leb_spec MAX_LOCKS (s_node_count q1)); [lia|].
  apply wp_bind, wp_malloc. cbv beta. rewrite (proj2 (Z.eqb_neq _ NULL) (Hm _)).
  eapply wp_bind_Ok; [unfold take_ipc_id, bind, gets, demand, ret, modify; simpl; by rewrite Hw|].
  apply wp_bind, wp_bind, wp_malloc, wp_ret. unfold spec_queue_new. simpl.
  rewrite (proj2 (Z.eqb_neq (malloc_at _ _) NULL) (Hm _)).
  eapply wp_bind_Ok; [eapply (ipc_insert_run locks _ q1); [done|done|done|exact Hi|done|exact Hf]|].
  pose proof ERROR_neg. destruct (Z.eqb_spec 0 ERROR); [lia|]. apply wp_ret.
  split_and!; [done| |].
  - unfold ipc_only. by kst_eq s.
  - by destruct w.
Qed.

Lemma wp_cvar_new w q1 q2 q3 s :
  mem_ok s -> ipc_wrapper s = Some w -> ids_wf w ->
  locks w = Some q1 -> cvars w = Some q2 -> pipes w = Some q3 -> s_node_count q2 < MAX_CVARS ->
  let i := next_ipc_id w in
  wp cvar_new (fun rc s' => rc = i /\ ipc_only s s' /\
    ipc_wrapper s' = Some (mk_ipc (wrap32 (i + 1)) (locks w)
      (Some (mk_set ((i, mk_cvar i (Some empty_queue)) :: s_nodes q2) (s_node_count q2 + 1)))
      (pipes w))) s.
Proof.
  intros Hm Hw Hwf H1 H2 H3 Hc i. destruct (ids_fresh w q1 q2 q3 Hwf H1 H2 H3) as (Hi & _ & Hf & _).
  unfold cvar_new. apply wp_bind, wp_gets. rewrite Hw, H2.
  apply wp_bind. eapply wp_demand; [done|].
  rewrite Z.geb_leb. destruct (Z.leb_spec MAX_CVARS (s_node_count q2)); [lia|].
  apply wp_bind, wp_malloc. cbv beta. rewrite (proj2 (Z.eqb_neq _ NULL) (Hm _)).
  eapply wp_bind_Ok; [unfold take_ipc_id, bind, gets, demand, ret, modify; simpl; by rewrite Hw|].
  apply wp_bind, wp_bind, wp_malloc, wp_ret. unfold spec_queue_new. simpl.
  rewrite (proj2 (Z.eqb_neq (malloc_at _ _) NULL) (Hm _)).
  eapply wp_bind_Ok; [eapply (ipc_insert_run cvars _ q2); [done|done|done|exact Hi|done|exact Hf]|].
  pose proof ERROR_neg. destruct (Z.eqb_spec 0 ERROR); [lia|]. apply wp_ret.
  split_and!; [done| |].
  - unfold ipc_only. by kst_eq s.
  - by destruct w.
Qed.

(** ** [cvar_broadcast] *)

Definition cvar_becomes (s s' : kst) (id : Z) (c : cvar_t) : Prop :=
  ipc_only s s' /\
  (forall k, find_cvar s' k = if decide (k = id) then Some c else find_cvar s k) /\
  (forall k, find_lock s' k = find_lock s k) /\ (forall k, find_pipe s' k = find_pipe s k).

Lemma wp_store_cvar U id c c0 s s0 (Q : unit -> kst -> Prop) :
  cvar_becomes s0 s id c0 ->
  (forall s', cvar_becomes s0 s' id c -> Q tt s') -> wpx U (ipc_store cvars id c) Q s.
Proof.
  intros (Hs & H1 & H2 & H3) HQ. unfold ipc_store. apply wp_modify, HQ.
  assert (Hf : find_cvar s id = Some c0) by (rewrite H1; by case_decide).
  destruct (ipc_store_cvar_find id c c0 s _ Hf eq_refl) as (G1 & G2 & G3).
  split_and!; [unfold ipc_only in *; rewrite Hs; by kst_eq s0| |intros k; by rewrite G2|intros k; by rewrite G3].
  intros k. rewrite G1, H1. by case_decide.
Qed.

Lemma broadcast_loop_run ws fuel id c q i p arr s0 s :
  cvar_becomes s0 s id c -> cvar_blocked c = Some q -> q_data q = ws ->
  q_count q = Z.of_nat (length ws) -> (length ws <= fuel)%nat -> 0 <= i ->
  Z.of_nat (length ws) <= Z.of_nat (length arr) -> is_Some (pcbs s0 !! p) ->
  Forall (fun p => is_Some (pcbs s0 !! p)) ws ->
  wp (broadcast_loop fuel id c i (Some p) arr) (fun r s' => r = None /\ exists c',
    cvar_becomes s0 s' id c' /\ exists q', cvar_blocked c' = Some q' /\
      q_data q' = drop (Z.to_nat ((Z.of_nat (length ws) - i + 1) / 2)) ws) s.
Proof.
  revert ws c q i p arr s. induction fuel as [|fuel IH];
    intros ws c q i p arr s Hc Hq Hd Hn Hf Hi Ha [vp Hp] Hlive; cbn [broadcast_loop];
    (apply wp_bind; eapply wp_demand; [exact Hq|]); rewrite Hn, Z.geb_leb;
    destruct (Z.leb_spec (Z.of_nat (length ws)) i) as [Hle|Hlt];
    try (apply wp_ret; split; [done|]; exists c; split; [done|]; exists q; split; [done|];
      rewrite Hd; replace (Z.to_nat _) with 0%nat; [done|];
      pose proof (Z.div_lt_upper_bound (Z.of_nat (length ws) - i + 1) 2 1); lia).
  { lia. }
  assert (Hp' : pcbs s !! p = Some vp) by (destruct Hc as (-> & _); done).
  apply wp_bind. eapply wp_load_pcb; [exact Hp'|].
  apply wp_bind. eapply wp_demand; [apply arr_set_Some; lia|].
  destruct ws as [|p1 ws]; [simpl in *; lia|].
  destruct (spec_queue_pop_cons q _ _ Hd) as (q' & Hpop & Hd'). rewrite Hpop.
  apply wp_bind. eapply wp_store_cvar; [exact Hc|]. intros s' Hs'.
  apply Forall_cons in Hlive as [Hp1 Hlive].
  eapply wp_mono; [apply (IH ws _ q'); try done|].
  - unfold spec_queue_pop in Hpop. destruct (q_items q) as [|[kk dd] rest]; simplify_eq.
    cbn [q_count]. cbn [length] in *. lia.
  - cbn [length] in *. lia.
  - lia.
  - rewrite length_insert. cbn [length] in *. lia.
  - intros r s1 (-> & c' & Hc' & q1 & Hq1 & Hd1). split; [done|]. exists c'. split; [done|].
    exists q1. split; [done|]. rewrite Hd1. cbn [length] in *.
    replace (Z.of_nat (S (length ws)) - i + 1) with ((Z.of_nat (length ws) - (i + 1) + 1) + 1 * 2) by lia.
    rewrite Z.div_add by lia.
    pose proof (Z.div_pos (Z.of_nat (length ws) - (i + 1) + 1) 2).
    by replace (Z.to_nat (_ + 1)) with (S (Z.to_nat ((Z.of_nat (length ws) - (i + 1) + 1) / 2))) by lia.
Qed.

Lemma wp_cvar_broadcast id c q s :
  mem_ok s -> find_cvar s id = Some c -> cvar_blocked c = Some q -> kqueue_wf q ->
  Forall (fun p => is_Some (pcbs s !! p)) (q_data q) ->
  wp (cvar_broadcast id) (fun r s' => r = None /\ exists c', cvar_becomes s s' id c' /\
    exists q', cvar_blocked c' = Some q' /\
      q_data q' = drop (length (q_data q) / 2 + 1)%nat (q_data q)) s.
Proof.
  intros Hm Hc Hq [Hn _] Hlive.
  assert (Hrefl : cvar_becomes s (s <| mallocs ::= S |>) id c).
  { split_and!; [unfold ipc_only; by kst_eq s|intros k; case_decide; by subst|done|done]. }
  unfold cvar_broadcast. apply wp_bind. eapply wp_ipc_find; [exact Hc|]. rewrite Hq.
  apply wp_bind, wp_malloc. cbv beta. rewrite (proj2 (Z.eqb_neq _ NULL) (Hm _)).
  destruct (q_data q) as [|p ws] eqn:Ed.
  - rewrite (spec_queue_pop_nil q Ed). apply wp_bind. eapply wp_store_cvar; [exact Hrefl|].
    intros s' Hs'. apply wp_ret. split; [done|]. eexists. split; [exact Hs'|]. by exists q.
  - destruct (spec_queue_pop_cons q _ _ Ed) as (q1 & Hpop & Hd1). rewrite Hpop.
    apply wp_bind. eapply wp_store_cvar; [exact Hrefl|]. intros s' Hs'.
    apply Forall_cons in Hlive as [Hp Hlive].
    assert (Hlen : length (q_items q) = S (length ws)).
    { rewrite <- (length_fmap snd (q_items q)). fold (q_data q). by rewrite Ed. }
    eapply wp_mono; [apply (broadcast_loop_run ws _ id _ q1 0 p _ s s' Hs'); try done|].
    + unfold spec_queue_pop in Hpop. destruct (q_items q) as [|[kk dd] rest]; simplify_eq.
      cbn [q_count length] in *. lia.
    + lia.
    + rewrite length_replicate. lia.
    + intros r s1 (-> & c' & Hc' & q' & Hq' & Hd'). split; [done|]. exists c'. split; [done|].
      exists q'. split; [done|]. rewrite Hd'. cbn [length].
      rewrite Nat.add_1_r. cbn [drop]. f_equal.
      rewrite Z.sub_0_r. replace (Z.of_nat (length ws) + 1) with (Z.of_nat (S (length ws))) by lia.
      change 2 with (Z.of_nat 2). by rewrite <- Nat2Z.inj_div, Nat2Z.id.
Qed.

Lemma wp_cvar_signal id c q s :
  find_cvar s id = Some c -> cvar_blocked c = Some q ->
  Forall (fun p => is_Some (pcbs s !! p)) (q_data q) ->
  wp (cvar_signal id) (fun rc s' => exists q', ipc_only s s' /\
    cvar_blocked <$> find_cvar s' id = Some (Some q') /\
    match q_data q with
    | [] => rc = ERROR /\ q_data q' = []
    | p :: ws => rc = pid_at s p /\ q_data q' = ws
    end) s.
Proof.
  intros Hc Hq Hlive.
  assert (Hrefl : cvar_becomes s s id c).
  { split_and!; [unfold ipc_only; by destruct s|intros k; case_decide; by subst|done|done]. }
  unfold cvar_signal. apply wp_bind. eapply wp_ipc_find; [exact Hc|]. rewrite Hq.
  destruct (q_data q) as [|p ws] eqn:Ed.
  - rewrite (spec_queue_pop_nil q Ed). apply wp_bind. eapply wp_store_cvar; [exact Hrefl|].
    intros s' (Hio & Hf & _). apply wp_ret. exists q. rewrite Hf, decide_True by done. done.
  - destruct (spec_queue_pop_cons q _ _ Ed) as (q' & -> & Hd').
    apply Forall_cons in Hlive as [[vp Hp] _].
    apply wp_bind. eapply wp_store_cvar; [exact Hrefl|]. intros s' (Hio & Hf & _).
    apply wp_bind. eapply wp_load_pcb; [rewrite Hio; exact Hp|]. apply wp_ret.
    exists q'. rewrite Hf, decide_True by done. unfold pid_at. by rewrite Hp.
Qed.

(** ** Histories of one lock *)

(** A process acquires or releases the lock. *)
Inductive lock_op := Acquire (p : ptr) | Release (p : ptr).

Definition op_proc (o : lock_op) : ptr := match o with Acquire p | Release p => p end.

Definition lock_step (id : Z) (o : lock_op) : M kst (lock_op * Z * Z) :=
  modify (fun s => s <| current_process := op_proc o |>) ;;;
  rc <- match o with Acquire _ => lock_acquire id | Release _ => lock_release id end ;;
  lock <- ipc_find locks id ;;
  lock <- demand lock ;;
  ret (o, rc, owner lock).

(** Operations one after the other; each with its result and the owner it
    leaves. *)
Fixpoint lock_run (id : Z) (ops : list lock_op) : M kst (list (lock_op * Z * Z)) :=
  match ops with
  | [] => ret []
  | o :: ops' => e <- lock_step id o ;; es <- lock_run id ops' ;; ret (e :: es)
  end.

(** The pids of the acquire requests the lock accepted, in order. *)
Definition requests (pid_of : ptr -> Z) (es : list (lock_op * Z * Z)) : list Z :=
  omap (fun e => match e with
                 | (Acquire p, rc, _) => if rc =? ERROR then None else Some (pid_of p)
                 | _ => None end) es.

(** The owners the lock was given to, in order. *)
Definition grants (es : list (lock_op * Z * Z)) : list Z :=
  omap (fun e => match e with
                 | (Acquire _, rc, o) => if rc =? ACQUIRE_SUCCESS then Some o else None
                 | (Release _, rc, o) => if rc =? RELEASE_NEW_OWNER then Some o else None
                 end) es.

(** A live process whose pid is not the UNLOCKED mark. *)
Definition proc_live (s : kst) (p : ptr) : Prop :=
  p <> NULL /\ is_Some (pcbs s !! p) /\ pid_at s p <> UNLOCKED.

(** The lock of a history: waiters are live, and there are none when the lock
    is free. *)
Definition lock_ok (s : kst) (id : Z) (l : lock_t) : Prop :=
  find_lock s id = Some l /\ is_Some (lock_blocked l) /\
  Forall (proc_live s) (lock_view l).2 /\ (owner l = UNLOCKED -> (lock_view l).2 = []).

Lemma pid_at_live s p v : pcbs s !! p = Some v -> pid_at s p = p_pid v.
Proof. unfold pid_at. by intros ->. Qed.

Lemma spec_acquire_log (P : ptr -> Prop) pid_of p st rc st' :
  (st.1 = UNLOCKED -> st.2 = []) -> pid_of p <> UNLOCKED -> Forall P st.2 -> P p ->
  (rc, st') = spec_acquire (pid_of p) p st ->
  (pid_of <$> st.2) ++ requests pid_of [(Acquire p, rc, st'.1)] =
    grants [(Acquire p, rc, st'.1)] ++ (pid_of <$> st'.2) /\
  (st'.1 = UNLOCKED -> st'.2 = []) /\ Forall P st'.2.
Proof.
  intros Hfree Hp HP HPp. unfold spec_acquire. destruct st as [o ws]. cbn [fst snd] in *.
  unfold requests, grants, ACQUIRE_SUCCESS, ACQUIRE_BLOCKED. rewrite hw_error.
  destruct (Z.eqb_spec o UNLOCKED) as [->|Ho]; [|destruct (Z.eqb_spec o (pid_of p)) as [->|Hq]];
    intros [= -> ->]; cbn.
  - by rewrite Hfree.
  - by rewrite app_nil_r.
  - split_and!; [by rewrite fmap_app|done|]. apply Forall_app. by repeat constructor.
Qed.

Lemma spec_release_log (P : ptr -> Prop) pid_of p pid st rc st' :
  (st.1 = UNLOCKED -> st.2 = []) -> Forall P st.2 -> (forall q, P q -> pid_of q <> UNLOCKED) ->
  (rc, st') = spec_release pid pid_of st ->
  (pid_of <$> st.2) ++ requests pid_of [(Release p, rc, st'.1)] =
    grants [(Release p, rc, st'.1)] ++ (pid_of <$> st'.2) /\
  (st'.1 = UNLOCKED -> st'.2 = []) /\ Forall P st'.2.
Proof.
  intros Hfree HP HPid. unfold spec_release. destruct st as [o ws]. cbn [fst snd] in *.
  unfold requests, grants, RELEASE_NEW_OWNER, RELEASE_QUEUE_EMPTY. rewrite hw_error.
  destruct (negb (pid =? o)); [|destruct ws as [|q ws]]; intros [= -> ->]; cbn.
  - by rewrite app_nil_r.
  - done.
  - apply Forall_cons in HP as [HPq HP]. split_and!; [by rewrite app_nil_r|by intros ?%HPid|done].
Qed.

Lemma wp_lock_step id o l s :
  mem_ok s -> lock_ok s id l -> proc_live s (op_proc o) ->
  wp (lock_step id o) (fun e s' => exists l', lock_ok s' id l' /\ pcbs s' = pcbs s /\
    malloc_at s' = malloc_at s /\
    (pid_at s <$> (lock_view l).2) ++ requests (pid_at s) [e] =
    grants [e] ++ (pid_at s <$> (lock_view l').2)) s.
Proof.
  intros Hm (Hl & [q Hq] & Hlive & Hfree) (Hp0 & [v Hv] & Hpid).
  unfold lock_step. apply wp_bind, wp_modify. set (s1 := s <| current_process := op_proc o |>).
  assert (Hrest : forall l' s' rc, lock_becomes s1 s' id l' -> is_Some (lock_blocked l') ->
    ((pid_at s <$> (lock_view l).2) ++ requests (pid_at s) [(o, rc, owner l')] =
      grants [(o, rc, owner l')] ++ (pid_at s <$> (lock_view l').2) /\
     (owner l' = UNLOCKED -> (lock_view l').2 = []) /\ Forall (proc_live s) (lock_view l').2) ->
    wp (lock <- ipc_find locks id ;; lock <- demand lock ;; ret (o, rc, owner lock))
       (fun e s' => exists l', lock_ok s' id l' /\ pcbs s' = pcbs s /\ malloc_at s' = malloc_at s /\
         (pid_at s <$> (lock_view l).2) ++ requests (pid_at s) [e] =
         grants [e] ++ (pid_at s <$> (lock_view l').2)) s').
  { intros l' s' rc (Hio & Hfl & _) Hb (Heq & Hfr & Hlv). apply wp_bind. eapply wp_ipc_find.
    { fold (find_lock s' id). rewrite Hfl. by rewrite decide_True by done. }
    apply wp_bind, wp_ret, wp_ret. exists l'. unfold lock_ok. rewrite Hfl, decide_True by done.
    rewrite Hio. by split_and!. }
  rewrite (pid_at_live s _ v Hv) in Hpid. apply wp_bind. destruct o as [p|p]; cbn [op_proc] in *.
  - eapply wp_mono; [apply (wp_lock_acquire id l q v s1); done|].
    intros rc s' (l' & Hb & _ & Hbl & Hspec). apply (Hrest l'); [done|done|].
    apply (spec_acquire_log (proc_live s) (pid_at s) p (lock_view l) rc (lock_view l')); [done|by rewrite (pid_at_live s _ v Hv)|done| |].
    + split_and!; [done|by eexists|by rewrite (pid_at_live s _ v Hv)].
    + rewrite (pid_at_live s _ v Hv). exact Hspec.
  - eapply wp_mono; [apply (wp_lock_release id l q v s1); [done..|]|].
    { unfold lock_view in Hlive. rewrite Hq in Hlive. eapply Forall_impl; [exact Hlive|].
      by intros p0 (_ & H & _). }
    intros rc s' (l' & Hb & _ & Hbl & Hspec). apply (Hrest l'); [done|done|].
    apply (spec_release_log (proc_live s) (pid_at s) p (p_pid v) (lock_view l) rc (lock_view l')); [done..| |exact Hspec].
    by intros p0 (_ & _ & H).
Qed.

Lemma requests_cons pid_of e es :
  requests pid_of (e :: es) = requests pid_of [e] ++ requests pid_of es.
Proof. apply (omap_app _ [e] es). Qed.

Lemma grants_cons e es : grants (e :: es) = grants [e] ++ grants es.
Proof. apply (omap_app _ [e] es). Qed.

Lemma wp_lock_run id ops l s :
  mem_ok s -> lock_ok s id l -> Forall (fun o => proc_live s (op_proc o)) ops ->
  wp (lock_run id ops) (fun es s' => exists l', lock_ok s' id l' /\
    (pid_at s <$> (lock_view l).2) ++ requests (pid_at s) es =
    grants es ++ (pid_at s <$> (lock_view l').2)) s.
Proof.
  revert l s. induction ops as [|o ops IH]; intros l s Hm Hl Hops; cbn [lock_run].
  - apply wp_ret. exists l. split; [done|]. cbn. by rewrite app_nil_r.
  - apply Forall_cons in Hops as [Ho Hops]. apply wp_bind.
    eapply wp_mono; [by apply wp_lock_step|]. intros e s1 (l1 & Hl1 & Hp1 & Hm1 & E1).
    assert (Hpid : pid_at s1 = pid_at s) by (unfold pid_at; by rewrite Hp1).
    apply wp_bind. eapply wp_mono; [apply (IH l1 s1)|].
    + intros n. rewrite Hm1. apply Hm.
    + done.
    + eapply Forall_impl; [exact Hops|]. intros o'. unfold proc_live. by rewrite Hpid, Hp1.
    + intros es s2 (l2 & Hl2 & E2). apply wp_ret. exists l2. split; [done|].
      rewrite Hpid in E2. rewrite requests_cons, grants_cons, app_assoc, E1, <- app_assoc, E2.
      by rewrite app_assoc.
Qed.

(** ** Main results *)

(** C22: [lock_acquire] and [lock_release] by the running process implement the
    abstract lock: a free lock goes to the caller, a lock the caller owns is
    an error, otherwise the caller queues at the back; only the owner may
    release, and the lock goes to the first waiter or becomes free.  No other
    lock, condition variable or pipe changes. *)
Theorem lock_refines id l q v s :
  mem_ok s -> pcbs s !! current_process s = Some v -> current_process s <> NULL ->
  find_lock s id = Some l -> lock_blocked l = Some q ->
  Forall (fun p => is_Some (pcbs s !! p)) (q_data q) ->
  (exists rc s' l', lock_acquire id s = Ok rc s' /\ lock_becomes s s' id l' /\
     (rc, lock_view l') = spec_acquire (p_pid v) (current_process s) (lock_view l)) /\
  (exists rc s' l', lock_release id s = Ok rc s' /\ lock_becomes s s' id l' /\
     (rc, lock_view l') = spec_release (p_pid v) (pid_at s) (lock_view l)).
Proof.
  intros Hm Hv Hc Hl Hq Hlive. split.
  - destruct (wp_returns _ _ _ (wp_lock_acquire id l q v s Hm Hv Hc Hl Hq))
      as (rc & s' & E & l' & H1 & _ & _ & H2). by exists rc, s', l'.
  - destruct (wp_returns _ _ _ (wp_lock_release id l q v s Hv Hl Hq Hlive))
      as (rc & s' & E & l' & H1 & _ & _ & H2). by exists rc, s', l'.
Qed.

(** C8: a lock serves its waiters in the order they asked: over any sequence
    of acquire and release calls by live processes, every call returns, and
    the accepted requests, after those already waiting, are the processes the
    lock was given to followed by those still waiting, in the same order; a
    free lock has no waiters. *)
Theorem lock_fifo id ops l s :
  mem_ok s -> lock_ok s id l -> Forall (fun o => proc_live s (op_proc o)) ops ->
  exists es s' l', lock_run id ops s = Ok es s' /\ lock_ok s' id l' /\
    (pid_at s <$> (lock_view l).2) ++ requests (pid_at s) es =
    grants es ++ (pid_at s <$> (lock_view l').2).
Proof.
  intros Hm Hl Hops. destruct (wp_returns _ _ _ (wp_lock_run id ops l s Hm Hl Hops))
    as (es & s' & E & l' & H). by exists es, s', l'.
Qed.

(** C34: [cvar_broadcast] never returns the array of pids, and half of the
    waiting processes, rounded down, plus one are dropped from the queue
    without being reported. *)
Theorem cvar_broadcast_loses_waiters id c q s :
  mem_ok s -> find_cvar s id = Some c -> cvar_blocked c = Some q -> kqueue_wf q ->
  Forall (fun p => is_Some (pcbs s !! p)) (q_data q) ->
  exists s' c' q', cvar_broadcast id s = Ok None s' /\ cvar_becomes s s' id c' /\
    cvar_blocked c' = Some q' /\ q_data q' = drop (length (q_data q) / 2 + 1)%nat (q_data q).
Proof.
  intros Hm Hc Hq Hwf Hlive.
  destruct (wp_returns _ _ _ (wp_cvar_broadcast id c q s Hm Hc Hq Hwf Hlive))
    as (r & s' & E & -> & c' & H1 & q' & H2). by exists s', c', q'.
Qed.

(** C28: [cvar_wait] by the owner of the lock hands the lock on and puts the
    caller at the back of the queue of the condition variable, and that is
    all: no PCB, queue of the scheduler or current process changes, so the
    caller is neither blocked nor descheduled and the new owner of the lock is
    not made ready. *)
Theorem cvar_wait_keeps_running id lid c q l lq v s :
  mem_ok s -> pcbs s !! current_process s = Some v -> current_process s <> NULL ->
  find_cvar s id = Some c -> cvar_blocked c = Some q ->
  find_lock s lid = Some l -> lock_blocked l = Some lq -> owner l = p_pid v ->
  Forall (fun p => is_Some (pcbs s !! p)) (q_data lq) ->
  exists rc s' l' q', cvar_wait id lid s = Ok rc s' /\ rc <> ERROR /\ ipc_only s s' /\
    find_lock s' lid = Some l' /\
    (rc, lock_view l') = spec_release (p_pid v) (pid_at s) (lock_view l) /\
    cvar_blocked <$> find_cvar s' id = Some (Some q') /\ q_data q' = q_data q ++ [current_process s].
Proof.
  intros Hm Hv Hc Hcv Hq Hl Hlq Ho Hlive.
  enough (Hw : wp (cvar_wait id lid) (fun rc s' => exists l' q', rc <> ERROR /\ ipc_only s s' /\
    find_lock s' lid = Some l' /\
    (rc, lock_view l') = spec_release (p_pid v) (pid_at s) (lock_view l) /\
    cvar_blocked <$> find_cvar s' id = Some (Some q') /\ q_data q' = q_data q ++ [current_process s]) s).
  { destruct (wp_returns _ _ _ Hw) as (rc & s' & E & l' & q' & H). by exists rc, s', l', q'. }
  unfold cvar_wait. apply wp_bind. eapply wp_ipc_find; [exact Hcv|]. rewrite Hq.
  apply wp_bind. eapply wp_mono; [by apply (wp_lock_release lid l lq v s)|].
  intros rc s1 (l' & (Hio & Hfl & Hfc & _) & _ & _ & Hspec).
  assert (Hrc : rc <> ERROR).
  { pose proof ERROR_neg. unfold spec_release in Hspec. cbn [lock_view fst snd] in Hspec.
    rewrite Ho, Z.eqb_refl in Hspec. simpl in Hspec. unfold RELEASE_QUEUE_EMPTY, RELEASE_NEW_OWNER in Hspec.
    destruct (default [] (q_data <$> lock_blocked l)); injection Hspec as -> _; lia. }
  destruct (Z.eqb_spec rc ERROR); [done|]. apply wp_bind, wp_gets.
  assert (Hcur : current_process s1 = current_process s) by (by rewrite Hio).
  eapply wp_bind_Ok; [apply queue_push_run; [rewrite Hcur; by apply Z.eqb_neq|rewrite Hio; apply Hm]|].
  assert (Hcb : cvar_becomes s1 (s1 <| mallocs ::= S |>) id c).
  { split_and!; [unfold ipc_only; by kst_eq s1| |done|done].
    intros k. case_decide; [subst|done]. by rewrite <- Hcv, <- Hfc. }
  apply wp_bind. eapply wp_store_cvar; [exact Hcb|]. intros s2 (Hio2 & G1 & G2 & _).
  pose proof ERROR_neg. destruct (Z.eqb_spec 0 ERROR); [lia|]. apply wp_ret.
  exists l'. eexists. split_and!; [done| | |exact Hspec| |].
  - unfold ipc_only in *. rewrite Hio2, Hio. by kst_eq s.
  - by rewrite G2, Hfl, decide_True.
  - by rewrite G1, decide_True.
  - by rewrite q_data_append, Hcur.
Qed.

(** [cvar_signal] takes the process that has waited longest off the queue
    and returns its pid; without waiters it is an error. *)
Theorem cvar_signal_first id c q s :
  find_cvar s id = Some c -> cvar_blocked c = Some q ->
  Forall (fun p => is_Some (pcbs s !! p)) (q_data q) ->
  exists rc s' q', cvar_signal id s = Ok rc s' /\ ipc_only s s' /\
    cvar_blocked <$> find_cvar s' id = Some (Some q') /\
    match q_data q with
    | [] => rc = ERROR /\ q_data q' = []
    | p :: ws => rc = pid_at s p /\ q_data q' = ws
    end.
Proof.
  intros Hc Hq Hlive. destruct (wp_returns _ _ _ (wp_cvar_signal id c q s Hc Hq Hlive))
    as (rc & s' & E & q' & H). by exists rc, s', q'.
Qed.
End Facts.

Section Witnesses.
Import DemoHardware Demo.

(** Processes 20, 24 and 28 with pids 1, 2 and 3; lock 0 is free; condition
    variable 1 has 24 and 28 waiting. *)
Definition demo_ipc_proc (pid : Z) : pcb_t :=
  mk_pcb READY 0 pid 176 0 0 0 NULL None None None None None None None 0 0 0 0 0.

Definition demo_wrapper : ipc_wrapper_t := mk_ipc 2
  (Some (mk_set [(0, mk_lock 0 UNLOCKED (Some empty_queue))] 1))
  (Some (mk_set [(1, mk_cvar 1 (Some (mk_queue [(0, 24); (1, 28)] 2 2)))] 1))
  (Some empty_set).

Definition demo_ipc : kst := blank
  <| pcbs := {[ 20 := demo_ipc_proc 1; 24 := demo_ipc_proc 2; 28 := demo_ipc_proc 3 ]} |>
  <| current_process := 20 |> <| ipc_wrapper := Some demo_wrapper |>.

Definition demo_owned : kst := demo_ipc <| ipc_wrapper := Some (demo_wrapper
  <| locks := Some (mk_set [(0, mk_lock 0 1 (Some (mk_queue [(0, 24)] 1 1)))] 1) |>) |>.

Lemma demo_live p : p ∈ [20; 24; 28] -> proc_live demo_ipc p.
Proof.
  intros Hp. repeat (apply elem_of_cons in Hp as [->|Hp]); [..|by apply elem_of_nil in Hp];
    (split_and!; [done|by eexists|by vm_compute]).
Defined.

Lemma lock_refines_witness :
  exists s', lock_release 0 demo_owned = Ok RELEASE_NEW_OWNER s' /\
    lock_view <$> find_lock s' 0 = Some (2, []).
Proof.
  destruct (lock_refines 0 (mk_lock 0 1 (Some (mk_queue [(0, 24)] 1 1))) (mk_queue [(0, 24)] 1 1)
    (demo_ipc_proc 1) demo_owned) as (_ & rc & s' & l' & E & (_ & H & _) & Hs);
    [by apply demo_mem_ok|reflexivity|done|reflexivity|reflexivity|by repeat econstructor|].
  apply pair_equal_spec in Hs as [-> Hv]. exists s'. split; [exact E|].
  rewrite H, decide_True by done. exact (f_equal Some Hv).
Defined.

Lemma lock_fifo_witness :
  exists es s' l', lock_run 0 [Acquire 20; Acquire 24; Acquire 28; Release 20] demo_ipc = Ok es s' /\
    requests (pid_at demo_ipc) es = grants es ++ (pid_at demo_ipc <$> (lock_view l').2).
Proof.
  destruct (lock_fifo 0 [Acquire 20; Acquire 24; Acquire 28; Release 20]
    (mk_lock 0 UNLOCKED (Some empty_queue)) demo_ipc) as (es & s' & l' & E & _ & H).
  - by apply demo_mem_ok.
  - split_and!; [reflexivity|by eexists|constructor|done].
  - repeat (constructor; [apply demo_live; set_solver|]). constructor.
  - exists es, s', l'. split; [exact E|exact H].
Defined.

Lemma cvar_broadcast_loses_waiters_witness :
  exists s', cvar_broadcast 1 demo_ipc = Ok None s'.
Proof.
  destruct (cvar_broadcast_loses_waiters 1 (mk_cvar 1 (Some (mk_queue [(0, 24); (1, 28)] 2 2)))
    (mk_queue [(0, 24); (1, 28)] 2 2) demo_ipc) as (s' & c' & q' & E & _);
    [by apply demo_mem_ok|reflexivity|reflexivity|by split; [|repeat constructor]|by repeat econstructor|].
  by exists s'.
Defined.

Lemma cvar_wait_keeps_running_witness :
  exists rc s', cvar_wait 1 0 demo_owned = Ok rc s' /\ pcbs s' = pcbs demo_owned /\
    current_process s' = 20.
Proof.
  destruct (cvar_wait_keeps_running 1 0 (mk_cvar 1 (Some (mk_queue [(0, 24); (1, 28)] 2 2)))
    (mk_queue [(0, 24); (1, 28)] 2 2) (mk_lock 0 1 (Some (mk_queue [(0, 24)] 1 1)))
    (mk_queue [(0, 24)] 1 1) (demo_ipc_proc 1) demo_owned) as (rc & s' & l' & q' & E & _ & Hio & _);
    [by apply demo_mem_ok|reflexivity|done|reflexivity|reflexivity|reflexivity|reflexivity|reflexivity
    |by repeat econstructor|].
  exists rc, s'. rewrite Hio. split; [rewrite <- Hio; exact E|done].
Defined.

Lemma cvar_signal_first_witness : exists s', cvar_signal 1 demo_ipc = Ok 2 s'.
Proof.
  destruct (cvar_signal_first 1 (mk_cvar 1 (Some (mk_queue [(0, 24); (1, 28)] 2 2)))
    (mk_queue [(0, 24); (1, 28)] 2 2) demo_ipc) as (rc & s' & q' & E & _ & _ & Hrc & _);
    [reflexivity|reflexivity|by repeat econstructor|].
  exists s'. rewrite E, Hrc. reflexivity.
Defined.
End Witnesses.
