(* ===== verification/Pipe.v ===== *)
(** * Pipes ([ipc_wrapper.c], [syscall_handlers/ipc.c])

    A pipe is a record in the [pipes] set of the wrapper; code that keeps a
    [pipe_t*] across a context switch finds the pipe again by its id, and a
    pipe that was reclaimed in between is a dangling pointer.  [pipe_write]
    and [pipe_read] block by calling the scheduler with the continuation that
    tests their loop condition again.

    Main results: the pipe is a byte queue: [pipe_write] appends the bytes of
    the caller, [pipe_read] takes the oldest ones, within [PIPE_BUFFER_LEN];
    what is written is read back in order; objects of the wrapper never share
    an id. *)

From S2P Require Import Prelude Hardware Containers KState Memory Pcb Sched Ipc.
From stdpp Require Import list gmap fin_maps.
From Stdlib Require Import Strings.Byte.

#[local] Open Scope Z_scope.

(** [memcpy(buf + off, bs, ..)] within [buf]. *)
Definition splice (buf : list byte) (off : Z) (bs : list byte) : option (list byte) :=
  if (0 <=? off) && (off + Z.of_nat (length bs) <=? Z.of_nat (length buf)) then
    Some (take (Z.to_nat off) buf ++ bs ++ drop (Z.to_nat off + length bs) buf)
  else None.

(** The [n] bytes at the start of a buffer. *)
Definition buf_prefix (buf : list byte) (n : Z) : option (list byte) :=
  if (0 <=? n) && (n <=? Z.of_nat (length buf)) then Some (take (Z.to_nat n) buf) else None.

Section Defs.
Context {hw : Hardware}.

Definition pipe_delete (pipe : pipe_t) : M kst unit :=
  match writers pipe with None => undef | Some _ => ret tt end.

Definition pipe_new : M kst Z :=
  w <- gets ipc_wrapper ;;
  match w with
  | None => ret ERROR
  | Some w =>
      ps <- demand (pipes w) ;;
      if s_node_count ps >=? MAX_PIPES then ret ERROR else
      pipe <- malloc ;;
      if pipe =? NULL then ret ERROR else
      readers <- queue_new ;;
      match readers with
      | None => ret ERROR
      | Some _ =>
          writers <- set_new ;;
          match writers with
          | None => ret ERROR
          | Some _ =>
              buffer <- malloc ;;
              if buffer =? NULL then ret ERROR else
              id <- take_ipc_id ;;
              let pipe := mk_pipe id (replicate (Z.to_nat (PIPE_BUFFER_LEN + 1)) uninit_byte)
                            0 readers writers in
              rc <- ipc_insert pipes id pipe ;;
              if rc =? ERROR then pipe_delete pipe ;;; ret ERROR else ret id
          end
      end
  end.

(** The new buffer; the C function returns ERROR when it cannot allocate and
    otherwise falls off its end. *)
Definition leftshift_buffer (buffer : list byte) (buffer_size dist : Z)
  : M kst (Z * list byte) :=
  tempbuffer <- malloc ;;
  if tempbuffer =? NULL then ret (ERROR, buffer) else
  if (0 <=? dist) && (dist <=? buffer_size) && (buffer_size <=? Z.of_nat (length buffer)) then
    let kept := drop (Z.to_nat dist) (take (Z.to_nat buffer_size) buffer) in
    ret (uninit_int, kept ++ replicate (Z.to_nat dist) x00 ++ drop (Z.to_nat buffer_size) buffer)
  else undef.

(** Make a blocked process ready. *)
Definition wake (p : ptr) : M kst unit :=
  upd_pcb p (fun v => v <| p_state := READY |>) ;;;
  v <- load_pcb p ;;
  take_from blocked_pcbs (p_pid v) ;;;
  push_to process_ready_queue p ;;;
  ret tt.

Definition wake_opt (p : option ptr) : M kst unit :=
  match p with Some p => wake p | None => ret tt end.

(** [current_process->state = BLOCKED; ScheduleNextProcess();] *)
Definition block_current (k : kont) : M kst kont :=
  cur <- gets current_process ;;
  upd_pcb cur (fun v => v <| p_state := BLOCKED |>) ;;;
  ScheduleNextProcess k.

Definition find_pipe_live (id : Z) : M kst pipe_t :=
  p <- ipc_find pipes id ;; demand p.

(** [pipe_write] once the data fits. *)
Definition pipe_write_data (id : Z) (buf : ptr) (len : Z) : M kst Z :=
  pipe <- find_pipe_live id ;;
  pid <- current_pid ;;
  let '(_, ws) := spec_set_pop (writers pipe) pid in
  bs <- load_user buf len ;;
  buffer <- demand (splice (pipe_buffer pipe) (num_bytes_available pipe) bs) ;;
  let '(next_reader, rs) := spec_queue_pop (readers pipe) in
  ipc_store pipes id (pipe <| writers := ws |> <| pipe_buffer := buffer |>
    <| num_bytes_available := num_bytes_available pipe + len |> <| readers := rs |>) ;;;
  wake_opt next_reader ;;;
  ret 0.

Definition pipe_write_loop (id : Z) (buf : ptr) (len : Z) : M kst kont :=
  pipe <- find_pipe_live id ;;
  if len + num_bytes_available pipe >? PIPE_BUFFER_LEN
  then block_current (K_pipe_write id buf len)
  else rc <- pipe_write_data id buf len ;; ret (K_syscall rc).

(** A user address, by the checks the pipe code makes. *)
Definition user_addr_ok (a : ptr) : M kst bool :=
  v <- check_memory_validity a ;;
  ret (truthy v && negb (get_raw_page_no a <? 128)).

Definition pipe_write (id : Z) (buf : ptr) (len : Z) : M kst kont :=
  pipe <- ipc_find pipes id ;;
  match pipe with
  | None => ret (K_syscall ERROR)
  | Some pipe =>
      ok <- user_addr_ok buf ;;
      if negb ok then ret (K_syscall (-1)) else
      if len >? PIPE_BUFFER_LEN then ret (K_syscall (-1)) else
      (if len + num_bytes_available pipe >? PIPE_BUFFER_LEN then
         cur <- gets current_process ;;
         pid <- current_pid ;;
         do '(_, ws) <- set_insert (writers pipe) pid cur ;;
         ipc_store pipes id (pipe <| writers := ws |>)
       else ret tt) ;;;
      pipe_write_loop id buf len
  end.

(** [pipe_read] once there are bytes. *)
Definition pipe_read_data (id : Z) (buf : ptr) (len : Z) : M kst Z :=
  pid <- current_pid ;;
  take_from blocked_pcbs pid ;;;
  pipe <- find_pipe_live id ;;
  let num_bytes_to_copy := Z.min len (num_bytes_available pipe) in
  bs <- demand (buf_prefix (pipe_buffer pipe) num_bytes_to_copy) ;;
  store_user buf bs ;;;
  let left := num_bytes_available pipe - num_bytes_to_copy in
  do '(_, buffer) <- leftshift_buffer (pipe_buffer pipe) PIPE_BUFFER_LEN num_bytes_to_copy ;;
  let pipe := pipe <| num_bytes_available := left |> <| pipe_buffer := buffer |> in
  ipc_store pipes id pipe ;;;
  (if left >? 0 then
     let '(next_reader, rs) := spec_queue_pop (readers pipe) in
     demand rs ;;;
     ipc_store pipes id (pipe <| readers := rs |>) ;;;
     wake_opt next_reader
   else ret tt) ;;;
  ws <- demand (writers pipe) ;;
  for_each (R:=unit) (s_nodes ws) (fun n => wake n.2 ;;; ret None) ;;;
  ret 0.

Definition pipe_read_loop (id : Z) (buf : ptr) (len : Z) : M kst kont :=
  pipe <- find_pipe_live id ;;
  if num_bytes_available pipe <? 1
  then block_current (K_pipe_read id buf len)
  else rc <- pipe_read_data id buf len ;; ret (K_syscall rc).

Definition pipe_read (id : Z) (buf : ptr) (len : Z) : M kst kont :=
  pipe <- ipc_find pipes id ;;
  match pipe with
  | None => ret (K_syscall ERROR)
  | Some pipe =>
      if buf =? NULL then ret (K_syscall (-1)) else
      ok <- user_addr_ok buf ;;
      if negb ok then ret (K_syscall (-1)) else
      (if num_bytes_available pipe <? 1 then
         cur <- gets current_process ;;
         do '(_, rs) <- queue_push (readers pipe) cur ;;
         ipc_store pipes id (pipe <| readers := rs |>) ;;;
         pid <- current_pid ;;
         insert_into blocked_pcbs pid cur ;;;
         ret tt
       else ret tt) ;;;
      pipe_read_loop id buf len
  end.

(** ** System call handlers *)

Definition PipeInitHandler (pipe_idp : ptr) : M kst Z :=
  ok <- user_addr_ok pipe_idp ;;
  if negb ok then ret ERROR else
  new_pipe_id <- pipe_new ;;
  if new_pipe_id =? ERROR then ret ERROR else
  store_user pipe_idp (int_bytes new_pipe_id) ;;;
  ret 0.

Definition PipeReadHandler (pipe_id : Z) (buf : ptr) (len : Z) : M kst kont :=
  pipe_read pipe_id buf len.

Definition PipeWriteHandler (pipe_id : Z) (buf : ptr) (len : Z) : M kst kont :=
  pipe_write pipe_id buf len.
End Defs.

Section Facts.
Context {hw : Hardware}.

(** The bytes in a pipe, oldest first. *)
Definition pipe_bytes (p : pipe_t) : list byte := take (Z.to_nat (num_bytes_available p)) (pipe_buffer p).

Definition pipe_ok (p : pipe_t) : Prop :=
  0 <= num_bytes_available p <= PIPE_BUFFER_LEN /\
  Z.of_nat (length (pipe_buffer p)) = PIPE_BUFFER_LEN + 1 /\
  is_Some (readers p) /\ is_Some (writers p).

(** The processes waiting to read and to write. *)
Definition waiting_readers (p : pipe_t) : list ptr := default [] (q_data <$> readers p).
Definition waiting_writers (p : pipe_t) : list ptr := default [] ((fun s => (s_nodes s).*2) <$> writers p).

(** ** Byte buffers *)

Lemma length_pipe_bytes p : pipe_ok p -> Z.of_nat (length (pipe_bytes p)) = num_bytes_available p.
Proof. intros (Hn & Hl & _). unfold pipe_bytes. rewrite length_take. lia. Qed.

Lemma splice_Some buf off bs :
  0 <= off -> off + Z.of_nat (length bs) <= Z.of_nat (length buf) ->
  exists buf', splice buf off bs = Some buf' /\ length buf' = length buf /\
    take (Z.to_nat off + length bs) buf' = take (Z.to_nat off) buf ++ bs.
Proof.
  intros H0 H1. unfold splice.
  destruct (Z.leb_spec 0 off), (Z.leb_spec (off + Z.of_nat (length bs)) (Z.of_nat (length buf))); [|lia..].
  simpl. eexists. split; [done|]. split.
  - rewrite !length_app, length_take, length_drop. lia.
  - rewrite app_assoc. rewrite take_app_length'; [done|].
    rewrite length_app, length_take. lia.
Qed.

Lemma buf_prefix_Some buf n :
  0 <= n <= Z.of_nat (length buf) -> buf_prefix buf n = Some (take (Z.to_nat n) buf).
Proof.
  intros H. unfold buf_prefix.
  destruct (Z.leb_spec 0 n), (Z.leb_spec n (Z.of_nat (length buf))); done || lia.
Qed.

Lemma wp_leftshift U buf n k (Q : Z * list byte -> kst -> Prop) s :
  mem_ok s -> 0 <= k <= n -> n <= Z.of_nat (length buf) ->
  (forall buf', length buf' = length buf ->
     (forall m, (k + Z.of_nat m <= n) -> take m buf' = take m (drop (Z.to_nat k) buf)) ->
     Q (uninit_int, buf') (s <| mallocs ::= S |>)) ->
  wpx U (leftshift_buffer buf n k) Q s.
Proof.
  intros Hm Hk Hn HQ. unfold leftshift_buffer. apply wp_bind, wp_malloc. cbv beta.
  rewrite (proj2 (Z.eqb_neq _ NULL) (Hm _)).
  destruct (Z.leb_spec 0 k), (Z.leb_spec k n), (Z.leb_spec n (Z.of_nat (length buf))); try lia.
  cbn [andb]. apply wp_ret, HQ.
  - rewrite !length_app, length_drop, length_take, length_replicate, length_drop. lia.
  - intros m Hmn. rewrite take_app_le by (rewrite length_drop, length_take; lia).
    rewrite skipn_firstn_comm, take_take. f_equal. lia.
Qed.

(** ** One pipe of the wrapper *)

Definition pipe_becomes (s s' : kst) (id : Z) (p : pipe_t) : Prop :=
  ipc_only s s' /\
  (forall k, find_pipe s' k = if decide (k = id) then Some p else find_pipe s k) /\
  (forall k, find_lock s' k = find_lock s k) /\ (forall k, find_cvar s' k = find_cvar s k).

Lemma pipe_becomes_refl s id p : find_pipe s id = Some p -> pipe_becomes s s id p.
Proof.
  intros H. split_and!; [|intros k; case_decide; by subst|done|done].
  unfold ipc_only. by destruct s.
Qed.

Lemma pipe_becomes_malloc s0 s id p :
  pipe_becomes s0 s id p -> pipe_becomes s0 (s <| mallocs ::= S |>) id p.
Proof.
  intros (Hs & H1 & H2 & H3). split_and!; [|done|done|done].
  unfold ipc_only in *. rewrite Hs. by kst_eq s0.
Qed.

Lemma pipe_becomes_find s0 s id p : pipe_becomes s0 s id p -> find_pipe s id = Some p.
Proof. intros (_ & H & _). by rewrite H, decide_True. Qed.

Lemma wp_store_pipe U id p p0 s s0 (Q : unit -> kst -> Prop) :
  pipe_becomes s0 s id p0 ->
  (forall s', pipe_becomes s0 s' id p -> Q tt s') -> wpx U (ipc_store pipes id p) Q s.
Proof.
  intros (Hs & H1 & H2 & H3) HQ. unfold ipc_store. apply wp_modify, HQ.
  assert (Hf : find_pipe s id = Some p0) by (by rewrite H1, decide_True).
  unfold find_pipe, find_lock, find_cvar in *. simpl.
  destruct (ipc_wrapper s) as [w|] eqn:Ew; [|done]. simpl in *.
  destruct (pipes w) as [ps|] eqn:Ep; [|done].
  split_and!; [unfold ipc_only in *; rewrite Hs; by kst_eq s0| | |].
  - intros k. unfold find_pipe. simpl. rewrite Ew. simpl. rewrite Ep.
    change (fmap (set_item id p) (Some ps)) with (Some (set_item id p ps)).
    rewrite find_set_item, Hf. case_decide; [done|]. by rewrite H1, decide_False.
  - intros k. unfold find_lock. simpl. rewrite Ew. apply H2.
  - intros k. unfold find_cvar. simpl. rewrite Ew. apply H3.
Qed.

(** ** Waking a process *)

Definition woken (p : ptr) (s s' : kst) : Prop :=
  s' = s <| pcbs := alter (fun v => v <| p_state := READY |>) p (pcbs s) |>
         <| blocked_pcbs := (spec_set_pop (blocked_pcbs s) (pid_at s p)).2 |>
         <| mallocs := mallocs s' |> <| process_ready_queue := process_ready_queue s' |> /\
  is_Some (process_ready_queue s') /\ ready_list s' = ready_list s ++ [p].

Lemma wp_wake U p s (Q : unit -> kst -> Prop) :
  mem_ok s -> p <> NULL -> is_Some (pcbs s !! p) -> is_Some (process_ready_queue s) ->
  (forall s', woken p s s' -> Q tt s') -> wpx U (wake p) Q s.
Proof.
  intros Hm Hp [v Hv] [q Hq] HQ. unfold wake.
  apply wp_bind. eapply wp_upd_pcb; [exact Hv|].
  apply wp_bind. eapply wp_load_pcb; [apply lookup_insert_eq|]. cbn [p_pid].
  apply wp_bind, wp_take_from. cbv beta.
  apply wp_bind. eapply wp_push_to; [exact Hq|by apply Z.eqb_neq|apply Hm|].
  apply wp_ret, HQ. unfold woken. split; [|split; [by eexists|]].
  - rewrite (alter_insert_lookup _ _ _ _ Hv). unfold pid_at. rewrite Hv. by kst_eq s.
  - unfold ready_list. simpl. by rewrite q_data_append, Hq.
Qed.

(** ** Writing *)

Lemma read_table_ipc s s' : ipc_only s s' -> read_table s' = read_table s.
Proof. intros ->. done. Qed.

Lemma ipc_only_trans s1 s2 s3 : ipc_only s1 s2 -> ipc_only s2 s3 -> ipc_only s1 s3.
Proof. unfold ipc_only. intros -> ->. by kst_eq s1. Qed.

(** The data part of [pipe_write], up to the wake-up of a reader. *)
Lemma wp_pipe_write_data U id buf p v r1 bs s (Q : Z -> kst -> Prop) :
  pcbs s !! current_process s = Some v -> find_pipe s id = Some p -> pipe_ok p ->
  read_table s = Some r1 ->
  hw_load (umem s) (region_0_pages s) r1 buf (length bs) = Some bs ->
  num_bytes_available p + Z.of_nat (length bs) <= PIPE_BUFFER_LEN ->
  (forall s1 p', pipe_becomes s s1 id p' -> pipe_ok p' -> pipe_bytes p' = pipe_bytes p ++ bs ->
     waiting_readers p' = tail (waiting_readers p) ->
     waiting_writers p' ⊆ waiting_writers p ->
     wpx U (wake_opt (head (waiting_readers p)) ;;; ret 0) Q s1) ->
  wpx U (pipe_write_data id buf (Z.of_nat (length bs))) Q s.
Proof.
  intros Hv Hp (Hn & Hl & [rq Hr] & [wq Hw]) Hrt Hld Hfit HQ. unfold pipe_write_data.
  unfold find_pipe_live. apply wp_bind, wp_bind. eapply wp_ipc_find; [exact Hp|].
  apply wp_ret, wp_bind. eapply wp_current_pid; [exact Hv|].
  assert (Hpop : exists ws, (spec_set_pop (writers p) (p_pid v)).2 = Some ws /\
            (s_nodes ws).*2 ⊆ (s_nodes wq).*2).
  { rewrite Hw. simpl. destruct (p_pid v <? 0); [by exists wq|].
    destruct (key_lookup _ _); [|by exists wq]. eexists. split; [done|]. simpl.
    intros x (y & -> & Hy)%list_elem_of_fmap. apply list_elem_of_fmap. exists y.
    split; [done|]. by eapply remove_key_subseteq. }
  destruct Hpop as (ws & Hws & Hsub).
  destruct (spec_set_pop (writers p) (p_pid v)) as [wd ws']. cbn [fst snd] in Hws. subst ws'.
  eapply wp_bind_Ok; [apply (load_user_run s r1 _ _ bs); [lia|done|by rewrite Nat2Z.id]|].
  destruct (splice_Some (pipe_buffer p) (num_bytes_available p) bs) as (buffer & Hb & Hbl & Hbt);
    [lia|lia|].
  apply wp_bind. eapply wp_demand; [exact Hb|].
  set (p1 := fun rs => p <| writers := Some ws |> <| pipe_buffer := buffer |>
    <| num_bytes_available := num_bytes_available p + Z.of_nat (length bs) |> <| readers := rs |>).
  assert (Hok : forall rs, is_Some rs -> pipe_ok (p1 rs)).
  { intros rs [x ->]. unfold pipe_ok. simpl. rewrite Hbl. split_and!; try lia; by eexists. }
  assert (Hby : forall rs, pipe_bytes (p1 rs) = pipe_bytes p ++ bs).
  { intros rs. unfold pipe_bytes. simpl. rewrite <- Hbt. f_equal. lia. }
  assert (Hww : forall rs, waiting_writers (p1 rs) ⊆ waiting_writers p).
  { intros rs. unfold waiting_writers. simpl. by rewrite Hw. }
  unfold waiting_readers in *. rewrite Hr in *. cbn [fmap option_fmap option_map default] in *.
  destruct (q_data rq) as [|r rest] eqn:Ed.
  - rewrite (spec_queue_pop_nil rq Ed). apply wp_bind.
    eapply wp_store_pipe; [by apply pipe_becomes_refl|]. intros s1 Hs1.
    eapply (HQ s1); [exact Hs1|by apply Hok; eexists|apply Hby|by simpl; rewrite Ed|apply Hww].
  - destruct (spec_queue_pop_cons rq _ _ Ed) as (rq' & -> & Hd'). apply wp_bind.
    eapply wp_store_pipe; [by apply pipe_becomes_refl|]. intros s1 Hs1.
    eapply (HQ s1); [exact Hs1|by apply Hok; eexists|apply Hby|done|apply Hww].
Qed.

(** ** Reading *)

Lemma store_user_after s r1 a bs m :
  read_table s = Some r1 -> hw_store (umem s) (region_0_pages s) r1 a bs = Some m ->
  hw_load m (region_0_pages s) r1 a (length bs) = Some bs.
Proof. intros _. apply hw_load_store. Qed.

(** A pipe whose first [j] bytes were shifted out of its buffer. *)
Lemma pipe_consume p j buffer rs :
  pipe_ok p -> 0 <= j <= num_bytes_available p -> is_Some rs ->
  length buffer = length (pipe_buffer p) ->
  (forall m, j + Z.of_nat m <= PIPE_BUFFER_LEN ->
     take m buffer = take m (drop (Z.to_nat j) (pipe_buffer p))) ->
  let p1 := p <| num_bytes_available := num_bytes_available p - j |> <| pipe_buffer := buffer |> in
  pipe_bytes p1 = drop (Z.to_nat j) (pipe_bytes p) /\ pipe_ok (p1 <| readers := rs |>).
Proof.
  intros (Hn & Hl & _ & Hw) Hj Hrs Hbl Hbt p1. split.
  - unfold pipe_bytes, p1. simpl. rewrite Hbt by lia. rewrite skipn_firstn_comm. f_equal. lia.
  - unfold pipe_ok, p1. simpl. rewrite Hbl. split_and!; done || lia.
Qed.

(** The data part of [pipe_read], up to the wake-ups. *)
Lemma wp_pipe_read_data U id buf len p v r1 m s (Q : Z -> kst -> Prop) :
  mem_ok s -> pcbs s !! current_process s = Some v -> find_pipe s id = Some p -> pipe_ok p ->
  0 <= len -> read_table s = Some r1 ->
  let k := Z.to_nat (Z.min len (num_bytes_available p)) in
  hw_store (umem s) (region_0_pages s) r1 buf (take k (pipe_bytes p)) = Some m ->
  (forall s1 s2 p', s1 = s <| blocked_pcbs := (spec_set_pop (blocked_pcbs s) (p_pid v)).2 |>
                       <| umem := m |> ->
     pipe_becomes s1 s2 id p' -> pipe_ok p' -> pipe_bytes p' = drop k (pipe_bytes p) ->
     waiting_readers p' = (if num_bytes_available p' >? 0 then tail (waiting_readers p)
                           else waiting_readers p) ->
     wpx U ((if num_bytes_available p' >? 0 then wake_opt (head (waiting_readers p)) else ret tt) ;;;
            for_each (R:=unit) (default [] (s_nodes <$> writers p)) (fun n => wake n.2 ;;; ret None) ;;;
            ret 0) Q s2) ->
  wpx U (pipe_read_data id buf len) Q s.
Proof.
  intros Hm Hv Hp Hpo Hlen Hrt k Hst HQ. pose proof Hpo as (Hn & Hl & [rq Hr] & [wq Hw]).
  unfold pipe_read_data.
  apply wp_bind. eapply wp_current_pid; [exact Hv|]. apply wp_bind, wp_take_from. cbv beta.
  unfold find_pipe_live. apply wp_bind, wp_bind. eapply wp_ipc_find; [exact Hp|].
  set (s0 := s <| blocked_pcbs := _ |>). apply wp_ret, wp_bind.
  eapply wp_demand; [apply buf_prefix_Some; lia|].
  assert (Htake : take (Z.to_nat (Z.min len (num_bytes_available p))) (pipe_buffer p) =
                  take k (pipe_bytes p)).
  { unfold pipe_bytes, k. rewrite take_take. f_equal. lia. }
  rewrite Htake. eapply wp_bind_Ok; [by apply (store_user_run s0 r1 _ _ m)|].
  apply wp_bind. apply wp_leftshift; [done|lia|lia|]. intros buffer Hbl Hbt.
  set (n' := num_bytes_available p - Z.min len (num_bytes_available p)).
  set (p1 := p <| num_bytes_available := n' |> <| pipe_buffer := buffer |>).
  pose proof (fun rs Hrs => pipe_consume p (Z.min len (num_bytes_available p)) buffer rs Hpo
    ltac:(lia) Hrs Hbl Hbt) as Hcon. fold n' in Hcon. fold p1 in Hcon. fold k in Hcon.
  assert (Hby : pipe_bytes p1 = drop k (pipe_bytes p)) by (eapply (Hcon (Some rq)); by eexists).
  pose proof (fun rs Hrs => proj2 (Hcon rs Hrs)) as Hok.
  assert (Hp1 : p1 <| readers := readers p |> = p1) by (unfold p1; by destruct p).
  set (s1 := s <| blocked_pcbs := (spec_set_pop (blocked_pcbs s) (p_pid v)).2 |> <| umem := m |>).
  assert (Hb0 : pipe_becomes s1 (s0 <| umem := m |> <| mallocs ::= S |>) id p).
  { by apply pipe_becomes_malloc, pipe_becomes_refl. }
  apply wp_bind. eapply wp_store_pipe; [exact Hb0|]. intros s2 Hs2.
  unfold waiting_readers in *. rewrite Hr in *. rewrite Hw in HQ.
  cbn [fmap option_fmap option_map default] in *.
  assert (Hfin : forall s3 p', pipe_becomes s1 s3 id p' -> pipe_ok p' -> pipe_bytes p' = pipe_bytes p1 ->
     num_bytes_available p' = n' -> default [] (q_data <$> readers p') =
       (if n' >? 0 then tail (q_data rq) else q_data rq) ->
     wpx U ((if n' >? 0 then wake_opt (head (q_data rq)) else ret tt) ;;;
            for_each (R:=unit) (s_nodes wq) (fun n => wake n.2 ;;; ret None) ;;; ret 0) Q s3).
  { intros s3 p' H1 H2 H3 H4 H5. pose proof (HQ s1 s3 p' eq_refl H1 H2) as HQ'. rewrite H4 in HQ'.
    apply HQ'; [by rewrite H3, Hby|done]. }
  destruct (n' >? 0) eqn:En; [|apply wp_bind, wp_ret].
  - cbn [readers p1]. change (readers p1) with (readers p). change (writers p1) with (writers p).
    rewrite Hr, Hw. destruct (q_data rq) as [|r rest] eqn:Ed.
    + rewrite (spec_queue_pop_nil rq Ed). apply wp_bind, wp_bind, wp_ret, wp_bind.
      eapply wp_store_pipe; [exact Hs2|]. intros s3 Hs3. apply wp_ret, wp_bind, wp_ret.
      refine (Hfin s3 _ Hs3 (Hok (Some rq) (mk_is_Some _ _ eq_refl)) eq_refl eq_refl _).
      by simpl; rewrite Ed.
    + destruct (spec_queue_pop_cons rq _ _ Ed) as (rq' & -> & Hd').
      apply wp_bind, wp_bind, wp_ret, wp_bind.
      eapply wp_store_pipe; [exact Hs2|]. intros s3 Hs3.
      assert (Hg := Hfin s3 _ Hs3 (Hok (Some rq') (mk_is_Some _ _ eq_refl)) eq_refl eq_refl Hd').
      unfold wpx, bind in *. simpl in *. by destruct (wake r s3).
  - change (writers p1) with (writers p). rewrite Hw. apply wp_bind, wp_ret.
    rewrite <- Hp1 in Hs2.
    refine (Hfin s2 _ Hs2 (Hok (Some rq) (mk_is_Some _ _ eq_refl)) eq_refl eq_refl eq_refl).
Qed.

(** ** Waking several processes *)

(** [s'] is [s] after the processes [l] were made ready, in this order. *)
Definition awoken (l : list ptr) (s s' : kst) : Prop :=
  ipc_wrapper s' = ipc_wrapper s /\ umem s' = umem s /\ region_0_pages s' = region_0_pages s /\
  current_process s' = current_process s /\ malloc_at s' = malloc_at s /\
  is_Some (process_ready_queue s') /\ ready_list s' = ready_list s ++ l /\
  (forall q, pcbs s' !! q =
    (fun v => if decide (q ∈ l) then v <| p_state := READY |> else v) <$> pcbs s !! q) /\
  read_table s' = read_table s.

Definition live (s : kst) (p : ptr) : Prop := p <> NULL /\ is_Some (pcbs s !! p).

Lemma awoken_nil s : is_Some (process_ready_queue s) -> awoken [] s s.
Proof.
  intros H. split_and!; try done; [by rewrite app_nil_r|].
  intros q. by destruct (pcbs s !! q).
Qed.

Lemma awoken_trans l1 l2 s1 s2 s3 : awoken l1 s1 s2 -> awoken l2 s2 s3 -> awoken (l1 ++ l2) s1 s3.
Proof.
  intros (A1 & A2 & A3 & A4 & A5 & _ & A6 & A7 & A8) (B1 & B2 & B3 & B4 & B5 & B0 & B6 & B7 & B8).
  split_and!; try congruence; try done; [by rewrite B6, A6, app_assoc|].
  intros q. rewrite B7, A7. destruct (pcbs s1 !! q) as [v|]; [|done]. simpl. f_equal.
  destruct (decide (q ∈ l2)), (decide (q ∈ l1)).
  - by rewrite decide_True by set_solver.
  - by rewrite decide_True by set_solver.
  - by rewrite decide_True by set_solver.
  - by rewrite decide_False by set_solver.
Qed.

Lemma woken_awoken p s s' : woken p s s' -> awoken [p] s s'.
Proof.
  intros (E & Hq & Hr). rewrite E in *. split_and!; try done.
  2:{ apply read_table_same; [done|done|]. intros q. simpl. destruct (decide (q = p)) as [->|Hne].
      - rewrite lookup_alter_eq. by destruct (pcbs s !! p).
      - by rewrite lookup_alter_ne. }
  intros q. simpl.
  destruct (decide (q = p)) as [->|Hne].
  - rewrite lookup_alter_eq. destruct (pcbs s !! p); [|done]. simpl.
    by rewrite decide_True by set_solver.
  - rewrite lookup_alter_ne by done. destruct (pcbs s !! q); [|done]. simpl.
    by rewrite decide_False by set_solver.
Qed.

Lemma live_awoken l s s' p : awoken l s s' -> live s p -> live s' p.
Proof. intros (_ & _ & _ & _ & _ & _ & _ & H & _) [Hp [v Hv]]. split; [done|]. rewrite H, Hv. by eexists. Qed.

Lemma wp_wake_opt U o s (Q : unit -> kst -> Prop) :
  mem_ok s -> Forall (live s) (option_list o) -> is_Some (process_ready_queue s) ->
  (forall s', awoken (option_list o) s s' -> Q tt s') -> wpx U (wake_opt o) Q s.
Proof.
  intros Hm Hl Hq HQ. destruct o as [p|]; simpl in *.
  - apply Forall_cons in Hl as [[Hp Hv] _]. apply wp_wake; try done.
    intros s' Hs'. apply HQ. by apply woken_awoken.
  - apply wp_ret, HQ. by apply awoken_nil.
Qed.

Lemma wp_wake_all U (l : list (Z * ptr)) s (Q : option unit -> kst -> Prop) :
  mem_ok s -> Forall (live s) l.*2 -> is_Some (process_ready_queue s) ->
  (forall s', awoken l.*2 s s' -> Q None s') ->
  wpx U (for_each l (fun n => wake n.2 ;;; ret None)) Q s.
Proof.
  intros Hm Hl Hq HQ.
  apply (wp_for_each _ _ (fun l' s' => exists l0, l = l0 ++ l' /\ awoken l0.*2 s s')).
  - exists []. split; [done|]. by apply awoken_nil.
  - intros [k p] l' s0 (l0 & El & Hs0). cbn [snd].
    assert (Hlp : live s p).
    { rewrite Forall_forall in Hl. apply Hl. rewrite El, fmap_app. set_solver. }
    destruct (live_awoken _ _ _ _ Hs0 Hlp) as [Hp Hv].
    apply wp_bind, wp_wake; [|done|done|apply Hs0|].
    { intros n. destruct Hs0 as (_ & _ & _ & _ & E & _). rewrite E. apply Hm. }
    intros s' Hs'. apply wp_ret. exists (l0 ++ [(k, p)]). split; [by rewrite <- app_assoc|].
    rewrite fmap_app. eapply awoken_trans; [exact Hs0|]. by apply woken_awoken.
  - intros s' (l0 & El & Hs'). rewrite app_nil_r in El. subst. by apply HQ.
Qed.

(** ** The calls, when they need not block *)

(** A caller with a mapped user buffer on a machine with memory to spare. *)
Record pipe_call (s : kst) (id : Z) (p : pipe_t) (v : pcb_t) (r1 : list pte) (buf : ptr) : Prop := {
  pc_mem : mem_ok s;
  pc_cur : pcbs s !! current_process s = Some v;
  pc_queue : is_Some (process_ready_queue s);
  pc_pipe : find_pipe s id = Some p;
  pc_ok : pipe_ok p;
  pc_readers : Forall (live s) (waiting_readers p);
  pc_writers : Forall (live s) (waiting_writers p);
  pc_table : read_table s = Some r1;
  pc_addr : user_addr_ok buf s = Ok true s }.

Lemma option_list_head (P : ptr -> Prop) l : Forall P l -> Forall P (option_list (head l)).
Proof. destruct l; simpl; [done|]. intros [? _]%Forall_cons. by repeat constructor. Qed.

Lemma live_same s s' p : pcbs s' = pcbs s -> live s p -> live s' p.
Proof. unfold live. by intros ->. Qed.

Lemma find_pipe_wrapper s s' id : ipc_wrapper s' = ipc_wrapper s -> find_pipe s' id = find_pipe s id.
Proof. unfold find_pipe. by intros ->. Qed.

Lemma wp_pipe_write s id p v r1 buf bs :
  pipe_call s id p v r1 buf ->
  hw_load (umem s) (region_0_pages s) r1 buf (length bs) = Some bs ->
  num_bytes_available p + Z.of_nat (length bs) <= PIPE_BUFFER_LEN ->
  wp (pipe_write id buf (Z.of_nat (length bs))) (fun k s' => k = K_syscall 0 /\
    exists s1 p', pipe_becomes s s1 id p' /\ find_pipe s' id = Some p' /\ pipe_ok p' /\
      pipe_bytes p' = pipe_bytes p ++ bs /\ waiting_readers p' = tail (waiting_readers p) /\
      waiting_writers p' ⊆ waiting_writers p /\
      awoken (option_list (head (waiting_readers p))) s1 s') s.
Proof.
  intros Hc Hld Hfit. destruct (pc_ok _ _ _ _ _ _ Hc) as ([Hn0 _] & _). unfold pipe_write.
  apply wp_bind. eapply wp_ipc_find; [exact (pc_pipe _ _ _ _ _ _ Hc)|].
  eapply wp_bind_Ok; [by eapply pc_addr|]. cbn [negb].
  rewrite !Z.gtb_ltb. destruct (Z.ltb_spec PIPE_BUFFER_LEN (Z.of_nat (length bs))); [lia|].
  destruct (Z.ltb_spec PIPE_BUFFER_LEN (Z.of_nat (length bs) + num_bytes_available p)); [lia|].
  apply wp_bind, wp_ret. unfold pipe_write_loop, find_pipe_live.
  apply wp_bind, wp_bind. eapply wp_ipc_find; [exact (pc_pipe _ _ _ _ _ _ Hc)|].
  apply wp_ret. rewrite Z.gtb_ltb.
  destruct (Z.ltb_spec PIPE_BUFFER_LEN (Z.of_nat (length bs) + num_bytes_available p)); [lia|].
  apply wp_bind. destruct Hc as [Hm Hv Hq Hp Hok Hrd Hwr Hrt Had].
  eapply wp_pipe_write_data; [exact Hv|exact Hp|exact Hok|exact Hrt|exact Hld|done|].
  intros s1 p' Hb Hok' Hby Hrd' Hwr'. pose proof Hb as (Hio & _). apply wp_bind, wp_wake_opt.
  - rewrite Hio. exact Hm.
  - apply option_list_head. eapply Forall_impl; [exact Hrd|]. intros q. apply live_same. by rewrite Hio.
  - rewrite Hio. exact Hq.
  - intros s' Hs'. apply wp_ret, wp_ret. split; [done|]. exists s1, p'. split_and!; try done.
    rewrite <- (pipe_becomes_find _ _ _ _ Hb). by apply find_pipe_wrapper, Hs'.
Qed.

Lemma wp_pipe_read s id p v r1 buf len m :
  pipe_call s id p v r1 buf -> buf <> NULL -> 0 <= len -> 1 <= num_bytes_available p ->
  let k := Z.to_nat (Z.min len (num_bytes_available p)) in
  hw_store (umem s) (region_0_pages s) r1 buf (take k (pipe_bytes p)) = Some m ->
  wp (pipe_read id buf len) (fun kt s' => kt = K_syscall 0 /\
    exists p', find_pipe s' id = Some p' /\ pipe_ok p' /\
      pipe_bytes p' = drop k (pipe_bytes p) /\ umem s' = m /\
      region_0_pages s' = region_0_pages s /\
      ready_list s' = ready_list s ++
        (if num_bytes_available p' >? 0 then option_list (head (waiting_readers p)) else []) ++
        waiting_writers p) s.
Proof.
  intros Hc Hb0 Hlen Hn1 k Hst. unfold pipe_read.
  apply wp_bind. eapply wp_ipc_find; [exact (pc_pipe _ _ _ _ _ _ Hc)|].
  rewrite (proj2 (Z.eqb_neq buf NULL) Hb0).
  eapply wp_bind_Ok; [by eapply pc_addr|]. cbn [negb].
  destruct (Z.ltb_spec (num_bytes_available p) 1); [lia|].
  apply wp_bind, wp_ret. unfold pipe_read_loop, find_pipe_live.
  apply wp_bind, wp_bind. eapply wp_ipc_find; [exact (pc_pipe _ _ _ _ _ _ Hc)|].
  apply wp_ret. destruct (Z.ltb_spec (num_bytes_available p) 1); [lia|].
  apply wp_bind. destruct Hc as [Hm Hv Hq Hp Hok Hrd Hwr Hrt Had].
  eapply wp_pipe_read_data; [exact Hm|exact Hv|exact Hp|exact Hok|done|exact Hrt|exact Hst|].
  intros s1 s2 p' Es1 Hb Hok' Hby Hrd'. pose proof Hb as (Hio & _).
  set (r := if num_bytes_available p' >? 0 then option_list (head (waiting_readers p)) else []).
  assert (Hw2 : waiting_writers p = (default [] (s_nodes <$> writers p)).*2).
  { unfold waiting_writers. by destruct (writers p). }
  assert (Hl2 : forall q, live s q -> live s2 q).
  { intros q. apply live_same. by rewrite Hio, Es1. }
  assert (Hm2 : mem_ok s2) by (rewrite Hio, Es1; exact Hm).
  assert (Hq2 : is_Some (process_ready_queue s2)) by (rewrite Hio, Es1; exact Hq).
  assert (Hwake : wpx False (if num_bytes_available p' >? 0 then wake_opt (head (waiting_readers p))
                       else ret tt) (fun _ s' => awoken r s2 s') s2).
  { unfold r. destruct (_ >? 0).
    - apply wp_wake_opt; [done| |done|done]. apply option_list_head.
      eapply Forall_impl; [exact Hrd|done].
    - apply wp_ret. by apply awoken_nil. }
  apply wp_bind. eapply wp_mono; [exact Hwake|]. intros [] s3 Hs3.
  assert (Hm3 : mem_ok s3).
  { intros n. destruct Hs3 as (_ & _ & _ & _ & E & _). rewrite E. apply Hm2. }
  apply wp_bind, wp_wake_all; [done| |apply Hs3|].
  { rewrite <- Hw2. eapply Forall_impl; [exact Hwr|]. intros q Hq'.
    eapply live_awoken; [exact Hs3|auto]. }
  intros s4 Hs4. destruct (awoken_trans _ _ _ _ _ Hs3 Hs4) as (G1 & G2 & G3 & _ & _ & _ & G7 & _).
  apply wp_ret, wp_ret. split; [done|]. exists p'. split_and!; try done.
  - rewrite <- (pipe_becomes_find _ _ _ _ Hb). by apply find_pipe_wrapper.
  - rewrite G2, Hio, Es1. done.
  - rewrite G3, Hio, Es1. done.
  - rewrite G7, Hw2. f_equal. unfold ready_list. by rewrite Hio, Es1.
Qed.

(** ** Blocking *)

Lemma block_current_run k v s :
  pcbs s !! current_process s = Some v ->
  block_current k s = ScheduleNextProcess k
    (s <| pcbs ::= <[current_process s := v <| p_state := BLOCKED |>]> |>).
Proof.
  intros Hv. unfold block_current. rewrite (bind_Ok _ _ _ _ _ (eq_refl : gets current_process s = Ok _ s)).
  by rewrite (bind_Ok _ _ _ _ _ (upd_pcb_run _ _ _ _ Hv)).
Qed.

Lemma pipe_write_loop_full s id p v buf len :
  pcbs s !! current_process s = Some v -> find_pipe s id = Some p ->
  PIPE_BUFFER_LEN < len + num_bytes_available p ->
  pipe_write_loop id buf len s = ScheduleNextProcess (K_pipe_write id buf len)
    (s <| pcbs ::= <[current_process s := v <| p_state := BLOCKED |>]> |>).
Proof.
  intros Hv Hp Hfull. unfold pipe_write_loop, find_pipe_live.
  erewrite bind_Ok by (by rewrite (bind_Ok _ _ _ _ _ (ipc_find_run pipes id p s Hp))).
  rewrite Z.gtb_ltb. destruct (Z.ltb_spec PIPE_BUFFER_LEN (len + num_bytes_available p)); [|lia].
  by apply block_current_run.
Qed.

Lemma pipe_read_loop_empty s id p v buf len :
  pcbs s !! current_process s = Some v -> find_pipe s id = Some p -> num_bytes_available p < 1 ->
  pipe_read_loop id buf len s = ScheduleNextProcess (K_pipe_read id buf len)
    (s <| pcbs ::= <[current_process s := v <| p_state := BLOCKED |>]> |>).
Proof.
  intros Hv Hp He. unfold pipe_read_loop, find_pipe_live.
  erewrite bind_Ok by (by rewrite (bind_Ok _ _ _ _ _ (ipc_find_run pipes id p s Hp))).
  destruct (Z.ltb_spec (num_bytes_available p) 1); [|lia]. by apply block_current_run.
Qed.

(** The address check depends on the page tables only. *)
Lemma read_ptbr1_eq s :
  read_ptbr1 s = match read_table s with Some t => Ok t s | None => Undef end.
Proof.
  unfold read_ptbr1, read_table, load_pcb, bind, gets, demand, ret.
  destruct (reg_ptbr1 s) as [|q]; [done|]. destruct (pcbs s !! q) as [v|]; [|done]. simpl.
  by destruct (p_page_table v).
Qed.

Lemma user_addr_ok_same s s' a b :
  region_0_pages s' = region_0_pages s -> read_table s' = read_table s ->
  user_addr_ok a s = Ok b s -> user_addr_ok a s' = Ok b s'.
Proof.
  intros E1 E2. unfold user_addr_ok, check_memory_validity, get_region_0, bind, gets, demand, ret.
  destruct (_ >? NUM_PAGES * 2); [naive_solver|]. rewrite E1.
  destruct (arr_get _ _) as [e0|]; [|done]. simpl.
  destruct (_ =? 1); rewrite ?read_ptbr1_eq, ?E2.
  - destruct (read_table s); [|done]. destruct (arr_get _ _); [|done].
    destruct (pte_valid _); naive_solver.
  - destruct (pte_valid _); naive_solver.
Qed.

(** A mapped address of region 1 above its first page passes the checks. *)
Lemma check_memory_validity_mapped s r1 a e0 e :
  let page := a / PAGESIZE in
  0 <= a <= INT_MAX -> NUM_PAGES < page <= 2 * NUM_PAGES ->
  arr_get (region_0_pages s) (page - NUM_PAGES) = Some e0 ->
  read_table s = Some r1 -> arr_get r1 (page - NUM_PAGES) = Some e -> pte_valid e = true ->
  check_memory_validity a s = Ok 1 s.
Proof.
  intros page Ha Hpage H0 Hr H1 Hv. pose proof hw_pagesize. unfold INT_MAX in *.
  unfold check_memory_validity. rewrite wrap32_id by (unfold INT_MIN, INT_MAX; lia).
  assert (Hq : Z.quot (DOWN_TO_PAGE a) PAGESIZE = page).
  { rewrite Z.quot_div_nonneg; [apply down_page_index; lia| |lia].
    rewrite hw_down_to_page by lia. pose proof (Z.div_pos a PAGESIZE). nia. }
  rewrite Hq, !Z.gtb_ltb. destruct (Z.ltb_spec (NUM_PAGES * 2) page); [lia|].
  destruct (Z.ltb_spec NUM_PAGES page); [|lia]. simpl.
  unfold get_region_0, bind, gets, demand, ret. by rewrite H0, read_ptbr1_eq, Hr, H1, Hv.
Qed.

Lemma user_addr_ok_mapped s r1 a e0 e :
  let page := a / PAGESIZE in
  0 <= a <= INT_MAX -> Z.max NUM_PAGES 127 < page <= 2 * NUM_PAGES ->
  arr_get (region_0_pages s) (page - NUM_PAGES) = Some e0 ->
  read_table s = Some r1 -> arr_get r1 (page - NUM_PAGES) = Some e -> pte_valid e = true ->
  user_addr_ok a s = Ok true s.
Proof.
  intros page Ha Hpage H0 Hr H1 Hv. unfold user_addr_ok. unfold bind at 1.
  rewrite (check_memory_validity_mapped s r1 a e0 e) by (done || lia).
  unfold get_raw_page_no, wrapu32, INT_MAX in *. rewrite Z.mod_small by lia. fold page.
  by destruct (Z.ltb_spec page 128); [lia|].
Qed.

(** A call whose first part is known, then another computation. *)
Lemma wp_then {A B} (m : M kst A) (f : A -> M kst B) s (Q : A -> kst -> Prop) :
  wp m Q s -> exists a s', bind m f s = f a s' /\ Q a s'.
Proof. intros H. destruct (wp_returns _ _ _ H) as (a & s' & E & HQ). exists a, s'. by rewrite (bind_Ok _ _ _ _ _ E). Qed.

(** ** Creation *)

Lemma wp_pipe_new w q1 q2 q3 s :
  mem_ok s -> ipc_wrapper s = Some w -> ids_wf w ->
  locks w = Some q1 -> cvars w = Some q2 -> pipes w = Some q3 -> s_node_count q3 < MAX_PIPES ->
  let i := next_ipc_id w in
  wp pipe_new (fun rc s' => rc = i /\ ipc_only s s' /\ exists p, pipe_ok p /\ pipe_bytes p = [] /\
    ipc_wrapper s' = Some (mk_ipc (wrap32 (i + 1)) (locks w) (cvars w)
      (Some (mk_set ((i, p) :: s_nodes q3) (s_node_count q3 + 1))))) s.
Proof.
  intros Hm Hw Hwf H1 H2 H3 Hc i. destruct (ids_fresh w q1 q2 q3 Hwf H1 H2 H3) as (Hi & _ & _ & Hf).
  unfold pipe_new. apply wp_bind, wp_gets. rewrite Hw.
  apply wp_bind. eapply wp_demand; [exact H3|].
  rewrite Z.geb_leb. destruct (Z.leb_spec MAX_PIPES (s_node_count q3)); [lia|].
  apply wp_bind, wp_malloc. cbv beta. rewrite (proj2 (Z.eqb_neq _ NULL) (Hm _)).
  apply wp_bind, wp_bind, wp_malloc, wp_ret. unfold spec_queue_new. simpl.
  rewrite (proj2 (Z.eqb_neq (malloc_at s _) NULL) (Hm _)).
  apply wp_bind, wp_bind, wp_malloc, wp_ret. unfold spec_set_new. simpl.
  rewrite (proj2 (Z.eqb_neq (malloc_at s _) NULL) (Hm _)).
  apply wp_bind, wp_malloc. cbv beta. simpl.
  rewrite (proj2 (Z.eqb_neq (malloc_at s _) NULL) (Hm _)).
  eapply wp_bind_Ok; [unfold take_ipc_id, bind, gets, demand, ret, modify; simpl; by rewrite Hw|].
  eapply wp_bind_Ok; [eapply (ipc_insert_run pipes _ q3); [done|done|done|exact Hi|done|exact Hf]|].
  pose proof ERROR_neg. destruct (Z.eqb_spec 0 ERROR); [lia|]. apply wp_ret.
  split_and!; [done|unfold ipc_only; by kst_eq s|].
  eexists. split_and!; [| |by destruct w].
  - unfold pipe_ok. simpl. rewrite length_replicate. pose proof hw_pipe.
    split_and!; [lia|lia|lia|by eexists|by eexists].
  - done.
Qed.

(** ** Main results *)

(** C24: [pipe_write] of data that fits copies the caller's bytes behind those
    already in the pipe, returns 0, stays within [PIPE_BUFFER_LEN], and makes
    the first waiting reader ready. *)
Theorem pipe_write_appends s id p v r1 buf bs :
  pipe_call s id p v r1 buf ->
  hw_load (umem s) (region_0_pages s) r1 buf (length bs) = Some bs ->
  num_bytes_available p + Z.of_nat (length bs) <= PIPE_BUFFER_LEN ->
  exists s' p', pipe_write id buf (Z.of_nat (length bs)) s = Ok (K_syscall 0) s' /\
    find_pipe s' id = Some p' /\ pipe_ok p' /\ pipe_bytes p' = pipe_bytes p ++ bs /\
    waiting_readers p' = tail (waiting_readers p) /\
    ready_list s' = ready_list s ++ option_list (head (waiting_readers p)).
Proof.
  intros Hc Hld Hfit. destruct (wp_returns _ _ _ (wp_pipe_write s id p v r1 buf bs Hc Hld Hfit))
    as (k & s' & E & -> & s1 & p' & (Hio & _) & H2 & H3 & H4 & H5 & _ & (_ & _ & _ & _ & _ & _ & H6 & _)).
  exists s', p'. split_and!; try done. rewrite H6. unfold ready_list. by rewrite Hio.
Qed.

(** C25: [pipe_read] of a non-empty pipe gives the caller the oldest bytes, as
    many as it asked for or as there are, removes exactly these from the pipe,
    and makes ready all waiting writers and, if bytes are left, the first
    waiting reader. *)
Theorem pipe_read_takes s id p v r1 buf len m :
  pipe_call s id p v r1 buf -> buf <> NULL -> 0 <= len -> 1 <= num_bytes_available p ->
  let k := Z.to_nat (Z.min len (num_bytes_available p)) in
  hw_store (umem s) (region_0_pages s) r1 buf (take k (pipe_bytes p)) = Some m ->
  exists s' p', pipe_read id buf len s = Ok (K_syscall 0) s' /\
    find_pipe s' id = Some p' /\ pipe_ok p' /\ pipe_bytes p' = drop k (pipe_bytes p) /\
    hw_load (umem s') (region_0_pages s') r1 buf k = Some (take k (pipe_bytes p)) /\
    ready_list s' = ready_list s ++
      (if num_bytes_available p' >? 0 then option_list (head (waiting_readers p)) else []) ++
      waiting_writers p.
Proof.
  intros Hc Hb Hlen Hn k Hst.
  destruct (wp_returns _ _ _ (wp_pipe_read s id p v r1 buf len m Hc Hb Hlen Hn Hst))
    as (kt & s' & E & -> & p' & H1 & H2 & H3 & H4 & H5 & H6).
  exists s', p'. split_and!; try done. rewrite H4, H5.
  pose proof (length_pipe_bytes p (pc_ok _ _ _ _ _ _ Hc)) as Hlb.
  replace k with (length (take k (pipe_bytes p))) at 1 by (rewrite length_take; lia).
  by eapply hw_load_store.
Qed.

(** C7: round trip: bytes written to an empty pipe by one call come back
    unchanged from the next read of at least that length. *)
Theorem pipe_roundtrip s id p v r1 buf buf' bs len m :
  pipe_call s id p v r1 buf -> user_addr_ok buf' s = Ok true s -> buf' <> NULL ->
  pipe_bytes p = [] -> waiting_readers p = [] -> (0 < length bs)%nat ->
  Z.of_nat (length bs) <= PIPE_BUFFER_LEN -> Z.of_nat (length bs) <= len ->
  hw_load (umem s) (region_0_pages s) r1 buf (length bs) = Some bs ->
  hw_store (umem s) (region_0_pages s) r1 buf' bs = Some m ->
  exists s', (pipe_write id buf (Z.of_nat (length bs)) ;;; pipe_read id buf' len) s =
      Ok (K_syscall 0) s' /\
    hw_load (umem s') (region_0_pages s') r1 buf' (length bs) = Some bs /\
    pipe_bytes <$> find_pipe s' id = Some [].
Proof.
  intros Hc Hb' Hb0 Hemp Hnr Hpos Hfit Hlen Hld Hst.
  pose proof (length_pipe_bytes p (pc_ok _ _ _ _ _ _ Hc)) as Hlp. rewrite Hemp in Hlp. simpl in Hlp.
  destruct (wp_then _ (fun _ => pipe_read id buf' len) _ _ (wp_pipe_write s id p v r1 buf bs Hc Hld ltac:(lia)))
    as (k & s1 & E1 & _ & s0 & p1 & (Hio & _) & Hp1 & Hok1 & Hby1 & Hr1 & Hw1 & Haw).
  rewrite E1. rewrite Hemp in Hby1. simpl in Hby1.
  pose proof (length_pipe_bytes p1 Hok1) as Hl1. rewrite Hby1 in Hl1. rewrite Hnr in *. simpl in *.
  destruct Haw as (A1 & A2 & A3 & A4 & A5 & A6 & _ & A7 & A8).
  assert (Hpc : pcbs s1 = pcbs s).
  { apply map_eq. intros q. rewrite A7, Hio. by destruct (pcbs _ !! q). }
  rewrite Hio in A2, A3, A4, A5. simpl in *. rewrite (read_table_ipc s s0 Hio) in A8.
  destruct Hc as [Hm Hv _ _ _ _ Hwr Hrt _].
  assert (Hc1 : pipe_call s1 id p1 v r1 buf').
  { split; try done.
    - intros n. rewrite A5. apply Hm.
    - by rewrite A4, Hpc.
    - by rewrite Hr1.
    - rewrite Forall_forall in *. intros q Hq. apply (live_same s); auto.
    - by rewrite A8.
    - by apply (user_addr_ok_same s). }
  assert (Hk : Z.to_nat (Z.min len (num_bytes_available p1)) = length bs) by lia.
  destruct (wp_returns _ _ _ (wp_pipe_read s1 id p1 v r1 buf' len m Hc1 Hb0 ltac:(lia) ltac:(lia)
      ltac:(by rewrite Hk, Hby1, firstn_all, A2, A3)))
    as (kt & s' & E & -> & p' & H1 & _ & H3 & H4 & H5 & _).
  exists s'. split_and!; [done| |].
  - rewrite H4, H5, A3. by eapply hw_load_store.
  - rewrite H1. simpl. by rewrite H3, Hk, Hby1, drop_all.
Qed.

(** [pipe_write] of data that does not fit yet changes nothing in the pipe
    but the set of waiting writers, marks the caller BLOCKED and hands the CPU
    to the scheduler, to test again when it is resumed. *)
Theorem pipe_write_blocks s id p v r1 buf len :
  pipe_call s id p v r1 buf -> current_process s <> NULL -> 0 <= p_pid v ->
  len <= PIPE_BUFFER_LEN < len + num_bytes_available p ->
  exists s1 p1, pipe_write id buf len s = ScheduleNextProcess (K_pipe_write id buf len) s1 /\
    find_pipe s1 id = Some p1 /\ pipe_bytes p1 = pipe_bytes p /\ readers p1 = readers p /\
    p_pid v ∈ default [] ((fun w => (s_nodes w).*1) <$> writers p1) /\
    p_state <$> pcbs s1 !! current_process s = Some BLOCKED.
Proof.
  intros [Hm Hv Hq Hp (Hn & Hl & Hr & [wq Hw]) _ _ Hrt Had] Hc Hpid [Hle Hgt].
  unfold pipe_write. rewrite (bind_Ok _ _ _ _ _ (ipc_find_run pipes id p s Hp)). rewrite (bind_Ok _ _ _ _ _ Had). cbn [negb].
  rewrite !Z.gtb_ltb. destruct (Z.ltb_spec PIPE_BUFFER_LEN len); [lia|].
  destruct (Z.ltb_spec PIPE_BUFFER_LEN (len + num_bytes_available p)); [|lia].
  assert (Hins : wp (cur <- gets current_process ;; pid <- current_pid ;;
      do '(_, ws) <- set_insert (writers p) pid cur ;;
      ipc_store pipes id (p <| writers := ws |>))
    (fun _ s1 => exists ws, pipe_becomes s s1 id (p <| writers := Some ws |>) /\
       p_pid v ∈ (s_nodes ws).*1) s).
  { apply wp_bind, wp_gets, wp_bind. eapply wp_current_pid; [exact Hv|]. unfold set_insert.
    rewrite Hw. destruct (insert_allocates (Some wq) (p_pid v) (current_process s)) eqn:Ei.
    - apply wp_bind, wp_bind, wp_malloc, wp_ret. unfold spec_set_insert. rewrite Ei. simpl.
      rewrite (proj2 (Z.eqb_neq _ NULL) (Hm _)).
      eapply wp_store_pipe; [by apply pipe_becomes_malloc, pipe_becomes_refl|]. intros s1 Hs1.
      eexists. split; [exact Hs1|]. simpl. by left.
    - apply wp_bind, wp_ret. unfold spec_set_insert. rewrite Ei. simpl.
      eapply wp_store_pipe; [by apply pipe_becomes_refl|]. intros s1 Hs1.
      eexists. split; [exact Hs1|]. simpl in Ei. destruct (Z.ltb_spec (p_pid v) 0); [lia|].
      assert (Hnn : is_null (current_process s) = false) by by apply Z.eqb_neq.
      rewrite Hnn in Ei. simpl in Ei.
      destruct (key_lookup (p_pid v) (s_nodes wq)) as [x|] eqn:Ek; [|done].
      destruct (decide (p_pid v ∈ (s_nodes wq).*1)) as [Hin|Hnin]; [done|].
      by rewrite (proj2 (key_lookup_None _ _) Hnin) in Ek. }
  destruct (wp_then _ (fun _ => pipe_write_loop id buf len) _ _ Hins) as ([] & s1 & E & ws & Hb & Hin).
  rewrite E. pose proof Hb as (Hio & _). pose proof (pipe_becomes_find _ _ _ _ Hb) as Hf.
  assert (Hcur : current_process s1 = current_process s) by (by rewrite Hio).
  rewrite (pipe_write_loop_full s1 id (p <| writers := Some ws |>) v); [|by rewrite Hcur, Hio|exact Hf|simpl; lia].
  eexists _, _. split; [done|]. split_and!; [exact Hf|done|done|done|].
  rewrite Hcur. simpl. by rewrite lookup_insert_eq.
Qed.

(** Process [r] is BLOCKED and neither the pipe nor the ready queue knows it. *)
Definition stranded (s : kst) (id : Z) (r : ptr) : Prop :=
  (exists p, find_pipe s id = Some p /\ r ∉ waiting_readers p /\ r ∉ waiting_writers p) /\
  p_state <$> pcbs s !! r = Some BLOCKED /\ r ∉ ready_list s.

Lemma not_head_tail (r : ptr) l : r ∉ l -> r ∉ option_list (head l) /\ r ∉ tail l.
Proof. destruct l; set_solver. Qed.

(** C33: a reader that was woken and finds the pipe empty again blocks without
    going back on the queue of readers, and is stranded: any later write by
    another process, and so any number of them, puts its bytes into the pipe,
    wakes the first of the other readers, and leaves this one BLOCKED and off
    the ready queue. *)
Theorem pipe_read_lost_wakeup s id p v buf len :
  pcbs s !! current_process s = Some v -> find_pipe s id = Some p -> num_bytes_available p < 1 ->
  current_process s ∉ waiting_readers p -> current_process s ∉ waiting_writers p ->
  current_process s ∉ ready_list s ->
  (exists s1, pipe_read_loop id buf len s = ScheduleNextProcess (K_pipe_read id buf len) s1 /\
     stranded s1 id (current_process s)) /\
  (forall s2 p2 v2 r1 buf2 bs, stranded s2 id (current_process s) ->
     pipe_call s2 id p2 v2 r1 buf2 ->
     hw_load (umem s2) (region_0_pages s2) r1 buf2 (length bs) = Some bs ->
     num_bytes_available p2 + Z.of_nat (length bs) <= PIPE_BUFFER_LEN ->
     exists s3 p3, pipe_write id buf2 (Z.of_nat (length bs)) s2 = Ok (K_syscall 0) s3 /\
       find_pipe s3 id = Some p3 /\ pipe_bytes p3 = pipe_bytes p2 ++ bs /\
       ready_list s3 = ready_list s2 ++ option_list (head (waiting_readers p2)) /\
       stranded s3 id (current_process s)).
Proof.
  intros Hv Hp He Hr Hw Hq. split.
  - eexists. split; [by eapply pipe_read_loop_empty|]. split; [by exists p|]. split; [|done].
    simpl. by rewrite lookup_insert_eq.
  - intros s2 p2 v2 r1 buf2 bs [(p2' & Hp2 & Hr2 & Hw2) [Hst Hq2]] Hc Hld Hfit.
    pose proof (pc_pipe _ _ _ _ _ _ Hc) as Hp2'. rewrite Hp2 in Hp2'. simplify_eq.
    destruct (wp_returns _ _ _ (wp_pipe_write s2 id p2 v2 r1 buf2 bs Hc Hld Hfit))
      as (k & s3 & E & -> & s1 & p3 & (Hio & _) & H3 & _ & H4 & H5 & H6 & Haw).
    destruct (not_head_tail _ _ Hr2) as [Hh Ht].
    destruct Haw as (_ & _ & _ & _ & _ & _ & Hrl & Hpc & _).
    assert (Hrl2 : ready_list s3 = ready_list s2 ++ option_list (head (waiting_readers p2)))
      by (rewrite Hrl; unfold ready_list; by rewrite Hio).
    exists s3, p3. split_and!; [done..|]. split; [|split].
    + exists p3. split; [done|]. split; [by rewrite H5|set_solver].
    + rewrite Hpc, Hio. simpl. destruct (pcbs s2 !! _) as [w|]; [|done]. simpl in *.
      by rewrite decide_False.
    + rewrite Hrl2. apply not_elem_of_app. by split.
Qed.

(** C21: ids are unique over locks, condition variables and pipes: with room
    and memory each of [lock_new], [cvar_new] and [pipe_new] returns an id no
    object of any kind has, and the ids in use stay distinct. *)
Theorem ipc_ids_unique w q1 q2 q3 s :
  mem_ok s -> ipc_wrapper s = Some w -> ids_wf w -> next_ipc_id w < INT_MAX ->
  locks w = Some q1 -> cvars w = Some q2 -> pipes w = Some q3 ->
  s_node_count q1 < MAX_LOCKS -> s_node_count q2 < MAX_CVARS -> s_node_count q3 < MAX_PIPES ->
  Forall (fun create => exists id s' w', create s = Ok id s' /\ id ∉ all_ids w /\
            ipc_wrapper s' = Some w' /\ ids_wf w' /\ all_ids w' ≡ₚ id :: all_ids w)
    [lock_new; cvar_new; pipe_new].
Proof.
  intros Hm Hw Hwf Hmax H1 H2 H3 C1 C2 C3.
  pose proof (ids_wf_next w _ Hwf eq_refl) as Hfresh.
  assert (Hall : all_ids w = (s_nodes q1).*1 ++ (s_nodes q2).*1 ++ (s_nodes q3).*1)
    by (unfold all_ids; by rewrite H1, H2, H3).
  repeat constructor.
  - destruct (wp_returns _ _ _ (wp_lock_new w q1 q2 q3 s Hm Hw Hwf H1 H2 H3 C1)) as (i & s' & E & -> & _ & Hw').
    eexists _, s', _. split_and!; [exact E|done|exact Hw'| |].
    + apply (ids_wf_insert w); [done..|]. rewrite Hall, H2, H3. done.
    + unfold all_ids at 1. simpl. by rewrite Hall, H2, H3.
  - destruct (wp_returns _ _ _ (wp_cvar_new w q1 q2 q3 s Hm Hw Hwf H1 H2 H3 C2)) as (i & s' & E & -> & _ & Hw').
    eexists _, s', _. split_and!; [exact E|done|exact Hw'| |].
    + apply (ids_wf_insert w); [done..|]. rewrite Hall, H1, H3. simpl. solve_Permutation.
    + unfold all_ids at 1. simpl. rewrite Hall, H1, H3. simpl. solve_Permutation.
  - destruct (wp_returns _ _ _ (wp_pipe_new w q1 q2 q3 s Hm Hw Hwf H1 H2 H3 C3))
      as (i & s' & E & -> & _ & p & _ & _ & Hw').
    eexists _, s', _. split_and!; [exact E|done|exact Hw'| |].
    + apply (ids_wf_insert w); [done..|]. rewrite Hall, H1, H2. simpl. solve_Permutation.
    + unfold all_ids at 1. simpl. rewrite Hall, H1, H2. simpl. solve_Permutation.
Qed.
End Facts.

Section Witnesses.
Import DemoHardware Demo.

(** Process 20 is running, its region 1 is frame 30 everywhere, with two
    bytes at its start; process 24 waits to write to pipe 0. *)
Definition demo_pipe_proc (pid : Z) : pcb_t :=
  mk_pcb READY 0 pid 176 0 0 0 NULL None None (Some (replicate 128 (mk_pte true 3 30))) None None None
    None 0 0 0 0 0.

Definition demo_pipe (n : Z) (rs : queue_t ptr) : pipe_t :=
  mk_pipe 0 [x61; x62; x63; x64; x65; x66; x67; x00; x00] n (Some rs) (Some (mk_set [(2, 24)] 1)).

Definition demo_pipes (p : pipe_t) : kst := blank
  <| pcbs := {[ 20 := demo_pipe_proc 1; 24 := demo_pipe_proc 2 ]} |>
  <| current_process := 20 |> <| reg_ptbr1 := Pt_pcb 20 |>
  <| umem := ({[ 480 := x41; 481 := x42 ]} : gmap Z byte) : @hw_mem demo |>
  <| ipc_wrapper := Some (mk_ipc 1 (Some empty_set) (Some empty_set) (Some (mk_set [(0, p)] 1))) |>.

Lemma demo_addr n rs :
  user_addr_ok 2064 (demo_pipes (demo_pipe n rs)) = Ok true (demo_pipes (demo_pipe n rs)).
Proof.
  apply (user_addr_ok_mapped _ (replicate 128 (mk_pte true 3 30)) _ (mk_pte false 0 0) (mk_pte true 3 30));
    [unfold INT_MAX; lia|by vm_compute|reflexivity..].
Qed.

Lemma demo_pipe_call n rs :
  0 <= n <= 8 -> Forall (fun p => p = 24) (q_data rs) ->
  pipe_call (demo_pipes (demo_pipe n rs)) 0 (demo_pipe n rs) (demo_pipe_proc 1)
    (replicate 128 (mk_pte true 3 30)) 2064.
Proof.
  intros Hn Hr. split.
  - by apply demo_mem_ok.
  - reflexivity.
  - by eexists.
  - reflexivity.
  - split_and!; [simpl; lia|simpl; lia|done|by eexists|by eexists].
  - simpl. eapply Forall_impl; [exact Hr|]. intros q ->. split; [done|by eexists].
  - repeat constructor; [done|by eexists].
  - reflexivity.
  - apply demo_addr.
Defined.

Lemma demo_store b :
  b = x61 \/ b = x41 ->
  exists m, hw_store (umem (demo_pipes (demo_pipe 0 empty_queue))) (region_0_pages blank)
    (replicate 128 (mk_pte true 3 30)) 2064 [b] = Some m.
Proof.
  intros Hb. destruct (hw_store _ _ _ _ _) as [m|] eqn:E; [by exists m|].
  by destruct Hb as [-> | ->]; vm_compute in E.
Defined.

Lemma pipe_write_appends_witness :
  exists s' p', pipe_write 0 2064 2 (demo_pipes (demo_pipe 3 empty_queue)) = Ok (K_syscall 0) s' /\
    find_pipe s' 0 = Some p' /\ pipe_bytes p' = [x61; x62; x63; x41; x42].
Proof.
  destruct (pipe_write_appends _ 0 _ _ _ 2064 [x41; x42]
    (demo_pipe_call 3 empty_queue ltac:(lia) ltac:(constructor))) as (s' & p' & E & H1 & _ & H2 & _);
    [reflexivity|by vm_compute|].
  exact (ex_intro _ s' (ex_intro _ p' (conj E (conj H1 H2)))).
Defined.

Lemma pipe_read_takes_witness :
  exists s' p', pipe_read 0 2064 1 (demo_pipes (demo_pipe 3 empty_queue)) = Ok (K_syscall 0) s' /\
    find_pipe s' 0 = Some p' /\ pipe_bytes p' = [x62; x63].
Proof.
  destruct (demo_store x61 (or_introl eq_refl)) as [m Em].
  destruct (pipe_read_takes _ 0 _ _ _ 2064 1 m
    (demo_pipe_call 3 empty_queue ltac:(lia) ltac:(constructor))) as (s' & p' & E & H1 & _ & H2 & _);
    [done|done|by vm_compute|exact Em|].
  exact (ex_intro _ s' (ex_intro _ p' (conj E (conj H1 H2)))).
Defined.

Lemma pipe_roundtrip_witness :
  exists s', (pipe_write 0 2064 1 ;;; pipe_read 0 2064 5) (demo_pipes (demo_pipe 0 empty_queue)) =
    Ok (K_syscall 0) s' /\ pipe_bytes <$> find_pipe s' 0 = Some [].
Proof.
  destruct (demo_store x41 (or_intror eq_refl)) as [m Em].
  destruct (pipe_roundtrip _ 0 _ _ _ 2064 2064 [x41] 5 m
    (demo_pipe_call 0 empty_queue ltac:(lia) ltac:(constructor))) as (s' & E & _ & H);
    [apply demo_addr|done|reflexivity|reflexivity|simpl; lia|by vm_compute|by vm_compute|reflexivity|exact Em|].
  exact (ex_intro _ s' (conj E H)).
Defined.

Lemma pipe_write_blocks_witness :
  exists s1, pipe_write 0 2064 2 (demo_pipes (demo_pipe 7 empty_queue)) =
    ScheduleNextProcess (K_pipe_write 0 2064 2) s1 /\ p_state <$> pcbs s1 !! 20 = Some BLOCKED.
Proof.
  destruct (pipe_write_blocks _ 0 _ _ _ 2064 2
    (demo_pipe_call 7 empty_queue ltac:(lia) ltac:(constructor))) as (s1 & p1 & E & _ & _ & _ & _ & H);
    [done|by vm_compute|by vm_compute|].
  exact (ex_intro _ s1 (conj E H)).
Defined.

(** Process 20 is stranded. *)
Lemma pipe_read_lost_wakeup_witness :
  exists s1, pipe_read_loop 0 2064 2 (demo_pipes (demo_pipe 0 empty_queue)) =
    ScheduleNextProcess (K_pipe_read 0 2064 2) s1 /\ stranded s1 0 20.
Proof.
  destruct (pipe_read_lost_wakeup (demo_pipes (demo_pipe 0 empty_queue)) 0 (demo_pipe 0 empty_queue)
    (demo_pipe_proc 1) 2064 2) as [(s1 & E & H) _];
    [reflexivity|reflexivity|by vm_compute|by apply (bool_decide_unpack _)..|].
  exact (ex_intro _ s1 (conj E H)).
Defined.

Lemma ipc_ids_unique_witness :
  exists id s', lock_new (demo_pipes (demo_pipe 0 empty_queue)) = Ok id s' /\ id <> 0.
Proof.
  pose proof (ipc_ids_unique (mk_ipc 1 (Some empty_set) (Some empty_set)
      (Some (mk_set [(0, demo_pipe 0 empty_queue)] 1)))
    empty_set empty_set (mk_set [(0, demo_pipe 0 empty_queue)] 1)
    (demo_pipes (demo_pipe 0 empty_queue))) as H.
  assert (Hids : ids_wf (mk_ipc 1 (Some empty_set) (Some empty_set)
      (Some (mk_set [(0, demo_pipe 0 empty_queue)] 1)))).
  { split_and!; [done|by apply NoDup_singleton|by repeat constructor]. }
  specialize (H ltac:(by apply demo_mem_ok) eq_refl Hids ltac:(done) eq_refl eq_refl eq_refl
    ltac:(done) ltac:(done) ltac:(done)).
  apply Forall_cons in H as [(id & s' & w' & E & Hid & _) _].
  exists id, s'. split; [exact E|]. intros ->. apply Hid. by left.
Defined.
End Witnesses.
