(* ===== verification/Sync.v ===== *)
(** * Synchronization system calls ([syscall_handlers/synchronization.c],
      [ipc_reclaim] of [ipc_wrapper.c])

    The handlers on top of [Ipc] and the scheduler.  A handler that can give
    the CPU away returns the continuation the CPU goes on with, the others the
    return code.

    Main results: a released lock makes its next owner ready; an acquired lock
    blocks the caller; reclaiming a lock destroys the processes that wait for
    it and leaves them in the set of blocked processes; signal and broadcast
    fail for every waiter that [cvar_wait] left behind. *)

From S2P Require Import Prelude Hardware Containers KState Memory Pcb Sched Ipc Pipe.
From stdpp Require Import list gmap fin_maps.

#[local] Open Scope Z_scope.

Section Defs.
Context {hw : Hardware}.

(** [set_pop] on a set of the wrapper. *)
Definition ipc_take {A} (field : ipc_wrapper_t -> option (set_t A)) `{!Setter field} (id : Z)
  : M kst (option A) :=
  w <- gets ipc_wrapper ;;
  w <- demand w ;;
  let '(d, q) := spec_set_pop (field w) id in
  modify (fun s => s <| ipc_wrapper := Some (w <| field := q |>) |>) ;;;
  ret d.

Definition ipc_reclaim (ipc_id : Z) : M kst Z :=
  w <- gets ipc_wrapper ;;
  match w with
  | None => ret ERROR
  | Some _ =>
      lock <- ipc_take locks ipc_id ;;
      match lock with
      | Some lock => lock_delete lock ;;; ret 0
      | None =>
          cvar <- ipc_take cvars ipc_id ;;
          match cvar with
          | Some cvar => cvar_delete cvar ;;; ret 0
          | None =>
              pipe <- ipc_take pipes ipc_id ;;
              match pipe with
              | Some pipe => pipe_delete pipe ;;; ret 0
              | None => ret ERROR
              end
          end
      end
  end.

Definition LockInitHandler (lock_idp : ptr) : M kst Z :=
  id <- lock_new ;;
  store_user lock_idp (int_bytes id) ;;;
  if id =? ERROR then ret ERROR else ret 0.

Definition AcquireLockHandler (lock_id : Z) : M kst kont :=
  return_value <- lock_acquire lock_id ;;
  if return_value =? ERROR then ret (K_syscall ERROR)
  else if return_value =? ACQUIRE_SUCCESS then ret (K_syscall 0)
  else if return_value =? ACQUIRE_BLOCKED then block_current (K_syscall 0)
  else ret (K_syscall 0).

(** Another return value of [lock_release] would fall off the end. *)
Definition ReleaseLockHandler (lock_id : Z) : M kst Z :=
  return_value <- lock_release lock_id ;;
  if return_value =? ERROR then ret ERROR
  else if return_value =? RELEASE_NEW_OWNER then
    lock <- ipc_find locks lock_id ;;
    lock <- demand lock ;;
    next_pcb <- take_from blocked_pcbs (owner lock) ;;
    next_pcb <- demand next_pcb ;;
    upd_pcb next_pcb (fun v => v <| p_state := READY |>) ;;;
    push_to process_ready_queue next_pcb
  else if return_value =? RELEASE_QUEUE_EMPTY then ret 0
  else ret uninit_int.

Definition CvarInitHandler (cvar_idp : ptr) : M kst Z :=
  id <- cvar_new ;;
  store_user cvar_idp (int_bytes id) ;;;
  if id =? ERROR then ret ERROR else ret 0.

Definition CvarSignalHandler (cvar_id : Z) : M kst Z :=
  return_value <- cvar_signal cvar_id ;;
  if return_value =? ERROR then ret ERROR else
  pcb <- take_from delayed_pcbs return_value ;;
  match pcb with
  | None => ret ERROR
  | Some pcb => push_to process_ready_queue pcb
  end.

(** [sizeof(return_value) / sizeof(return_value[0])] on the 32-bit machine. *)
Definition broadcast_length : Z := 4 / 4.

Definition CvarBroadcastHandler (cvar_id : Z) : M kst Z :=
  return_value <- cvar_broadcast cvar_id ;;
  match return_value with
  | None => ret ERROR
  | Some pids =>
      r <- for_each (range_up 0 broadcast_length) (fun i =>
        pid <- demand (arr_get pids i) ;;
        pcb <- take_from delayed_pcbs pid ;;
        match pcb with
        | None => ret (Some ERROR)
        | Some pcb =>
            rc <- push_to process_ready_queue pcb ;;
            if rc =? ERROR then ret (Some ERROR) else ret None
        end) ;;
      ret (default 0 r)
  end.

Definition CvarWaitHandler (cvar_id lock_id : Z) : M kst Z := cvar_wait cvar_id lock_id.

Definition ReclaimHandler (id : Z) : M kst Z := ipc_reclaim id.
End Defs.

Section Facts.
Context {hw : Hardware}.

(** ** Destroying the waiters of an object *)

(** A PCB [pcbFree] can free. *)
Definition freeable (s : kst) (p : ptr) : Prop :=
  p <> NULL /\ exists v, pcbs s !! p = Some v /\ tables_wf v.

(** [s'] is [s] without the PCBs [l], their frames free. *)
Definition destroyed (l : list ptr) (s s' : kst) : Prop :=
  exists k q, s' = s <| mallocs := k |>
      <| pcbs := foldr delete (pcbs s) l |> <| free_frame_queue := Some q |>.

Lemma foldr_delete_lookup (l : list ptr) (m : gmap Z pcb_t) a :
  foldr delete m l !! a = if decide (a ∈ l) then None else m !! a.
Proof.
  induction l as [|p l IH]; [done|]. cbn [foldr].
  destruct (decide (a = p)) as [->|Hne].
  - rewrite lookup_delete_eq. by rewrite decide_True by set_solver.
  - rewrite lookup_delete_ne, IH by done.
    destruct (decide (a ∈ l)); [by rewrite decide_True by set_solver|].
    by rewrite decide_False by set_solver.
Qed.

Lemma foldr_delete_snoc (l : list ptr) (m : gmap Z pcb_t) p :
  foldr delete m (l ++ [p]) = delete p (foldr delete m l).
Proof.
  apply map_eq. intros a. rewrite foldr_delete_lookup. destruct (decide (a = p)) as [->|Hne].
  - rewrite lookup_delete_eq. by rewrite decide_True by set_solver.
  - rewrite lookup_delete_ne, foldr_delete_lookup by done.
    destruct (decide (a ∈ l)); [by rewrite decide_True by set_solver|].
    by rewrite decide_False by set_solver.
Qed.

Lemma wp_delete_pcb_queue q s :
  mem_ok s -> is_Some (free_frame_queue s) -> NoDup (q_data q) -> Forall (freeable s) (q_data q) ->
  wp (delete_pcb_queue (Some q)) (fun _ s' => destroyed (q_data q) s s') s.
Proof.
  intros Hm [fq Hfq] Hnd Hl. unfold delete_pcb_queue. apply wp_bind.
  apply (wp_for_each _ _ (fun l' s0 => exists l0, q_data q = l0 ++ l' /\ destroyed l0 s s0)).
  - exists []. split; [done|]. exists (mallocs s), fq. rewrite <- Hfq. by destruct s.
  - intros p l' s0 (l0 & El & k & q0 & ->).
    rewrite El in Hnd, Hl. apply NoDup_app in Hnd as (_ & Hnin & _).
    assert (Hp : p ∉ l0) by (intros H; apply (Hnin p H); set_solver).
    apply Forall_app in Hl as [_ [[Hp0 (v & Hv & Ht)] _]%Forall_cons].
    assert (Hv0 : foldr delete (pcbs s) l0 !! p = Some v)
      by (rewrite foldr_delete_lookup; by rewrite decide_False).
    match goal with |- wp _ _ ?st =>
      destruct (pcbFree_run p v st q0 Hp0 Hv0 eq_refl Hm Ht) as [k' E] end.
    apply wp_bind. eapply wp_eq; [exact E|]. apply wp_ret. exists (l0 ++ [p]).
    split; [by rewrite <- app_assoc|]. eexists k', _. rewrite foldr_delete_snoc. by kst_eq s.
  - intros s' (l0 & El & Hs'). rewrite app_nil_r in El. subst l0. by apply wp_ret.
Qed.

Lemma wp_ipc_take_lock U id l w s (Q : option lock_t -> kst -> Prop) :
  ipc_wrapper s = Some w -> spec_set_find (locks w) id = Some l ->
  (forall ls', kset_wf (default empty_set (locks w)) ->
     spec_set_pop (locks w) id = (Some l, Some ls') ->
     Q (Some l) (s <| ipc_wrapper := Some (w <| locks := Some ls' |>) |>)) ->
  kset_wf (default empty_set (locks w)) ->
  wpx U (ipc_take locks id) Q s.
Proof.
  intros Hw Hl HQ Hwf. unfold ipc_take. apply wp_bind, wp_gets. rewrite Hw. apply wp_bind, wp_ret.
  destruct (locks w) as [ls|] eqn:El; [|done]. simpl in Hl.
  assert (Hp : exists ls', spec_set_pop (Some ls) id = (Some l, Some ls')).
  { simpl. destruct (id <? 0); [done|]. rewrite Hl. by eexists. }
  destruct Hp as [ls' Hp]. rewrite Hp. apply wp_bind, wp_modify, wp_ret. by apply HQ.
Qed.

(** ** Main results *)

(** C38: [ReclaimHandler] on a lock with waiting processes succeeds: the lock is
    gone, and so is every process that waited for it, while the set of blocked
    processes still holds them. *)
Theorem reclaim_kills_waiters id l q w s :
  mem_ok s -> ipc_wrapper s = Some w -> kset_wf (default empty_set (locks w)) ->
  spec_set_find (locks w) id = Some l -> lock_blocked l = Some q ->
  is_Some (free_frame_queue s) -> NoDup (q_data q) -> Forall (freeable s) (q_data q) ->
  exists s', ReclaimHandler id s = Ok 0 s' /\ find_lock s' id = None /\
    (forall p, pcbs s' !! p = if decide (p ∈ q_data q) then None else pcbs s !! p) /\
    blocked_pcbs s' = blocked_pcbs s /\ process_ready_queue s' = process_ready_queue s.
Proof.
  intros Hm Hw Hwf Hl Hq Hff Hnd Hfr. unfold ReclaimHandler.
  enough (Hwp : wp (ipc_reclaim id) (fun rc s' => rc = 0 /\ find_lock s' id = None /\
    (forall p, pcbs s' !! p = if decide (p ∈ q_data q) then None else pcbs s !! p) /\
    blocked_pcbs s' = blocked_pcbs s /\ process_ready_queue s' = process_ready_queue s) s).
  { destruct (wp_returns _ _ _ Hwp) as (rc & s' & E & -> & H). by exists s'. }
  unfold ipc_reclaim. apply wp_bind, wp_gets. rewrite Hw. apply wp_bind.
  eapply wp_ipc_take_lock; [exact Hw|exact Hl| |done]. intros ls' _ Hpop.
  apply wp_bind. unfold lock_delete. rewrite Hq.
  eapply wp_mono; [by apply wp_delete_pcb_queue|]. intros _ s' (k & fq & ->).
  apply wp_ret. split_and!; [done| |intros p; apply foldr_delete_lookup|done|done].
  change (spec_set_find (Some ls') id = None). destruct (locks w) as [ls|] eqn:El; [|done].
  destruct (spec_set_pop_map ls id _ _ Hwf Hpop) as [_ Hdel].
  rewrite spec_set_find_map by eauto using set_pop_wf. by rewrite Hdel, lookup_delete_eq.
Qed.

(** [AcquireLockHandler] on a lock another process owns queues the caller,
    marks it BLOCKED and hands the CPU to the scheduler, to return 0 when it is
    resumed; on a free lock it takes it and returns 0, on its own lock it is an
    error. *)
Theorem AcquireLockHandler_spec id l q v s :
  mem_ok s -> pcbs s !! current_process s = Some v -> current_process s <> NULL ->
  find_lock s id = Some l -> lock_blocked l = Some q ->
  exists s1 l', lock_becomes s s1 id l' /\
    lock_view l' = (spec_acquire (p_pid v) (current_process s) (lock_view l)).2 /\
    AcquireLockHandler id s =
      if owner l =? UNLOCKED then Ok (K_syscall 0) s1
      else if owner l =? p_pid v then Ok (K_syscall ERROR) s1
      else ScheduleNextProcess (K_syscall 0)
             (s1 <| pcbs ::= <[current_process s := v <| p_state := BLOCKED |>]> |>).
Proof.
  intros Hm Hv Hc Hl Hq.
  destruct (wp_returns _ _ _ (wp_lock_acquire id l q v s Hm Hv Hc Hl Hq))
    as (rc & s1 & E & l' & Hb & _ & _ & Hs).
  exists s1, l'. split; [done|]. rewrite <- Hs. split; [done|].
  unfold AcquireLockHandler. rewrite (bind_Ok _ _ _ _ _ E).
  unfold spec_acquire in Hs. cbn [lock_view fst snd] in Hs. pose proof ERROR_neg as He.
  destruct (owner l =? UNLOCKED); [|destruct (owner l =? p_pid v)];
    apply pair_equal_spec in Hs as [-> _].
  - destruct (Z.eqb_spec ACQUIRE_SUCCESS ERROR); [unfold ACQUIRE_SUCCESS in *; lia|]. done.
  - by rewrite Z.eqb_refl.
  - destruct (Z.eqb_spec ACQUIRE_BLOCKED ERROR); [unfold ACQUIRE_BLOCKED in *; lia|]. simpl.
    destruct Hb as (Hio & _).
    assert (Hcur : current_process s1 = current_process s) by (by rewrite Hio).
    rewrite (block_current_run _ v) by (rewrite Hcur, Hio; exact Hv). by rewrite Hcur.
Qed.

(** C31: [ReleaseLockHandler] by the owner of a lock with a waiting process that
    is in the set of blocked processes under its pid hands the lock to the
    first waiter, takes it out of the blocked set, and puts it READY at the end
    of the ready queue. *)
Theorem ReleaseLockHandler_hands_over id l q v s p ws vp bs :
  mem_ok s -> pcbs s !! current_process s = Some v ->
  find_lock s id = Some l -> lock_blocked l = Some q -> owner l = p_pid v ->
  q_data q = p :: ws -> Forall (fun p => is_Some (pcbs s !! p)) (q_data q) ->
  p <> NULL -> pcbs s !! p = Some vp -> blocked_pcbs s = Some bs -> kset_wf bs ->
  kset_map bs !! p_pid vp = Some p -> is_Some (process_ready_queue s) ->
  exists s' l', ReleaseLockHandler id s = Ok 0 s' /\
    find_lock s' id = Some l' /\ lock_view l' = (p_pid vp, ws) /\
    ready_list s' = ready_list s ++ [p] /\ p_state <$> pcbs s' !! p = Some READY /\
    kset_map <$> blocked_pcbs s' = Some (delete (p_pid vp) (kset_map bs)).
Proof.
  intros Hm Hv Hl Hq Ho Hqd Hlive Hp0 Hvp Hb Hbw Hbm [rq Hrq].
  destruct (wp_returns _ _ _ (wp_lock_release id l q v s Hv Hl Hq Hlive))
    as (rc & s1 & E & l' & (Hio & Hfl & _) & _ & _ & Hs).
  unfold spec_release in Hs. cbn [lock_view fst snd] in Hs.
  rewrite Ho, Z.eqb_refl, Hq in Hs. cbn [fmap option_fmap option_map default negb] in Hs.
  change (Datatypes.id (q_data q)) with (q_data q) in Hs. rewrite Hqd in Hs.
  apply pair_equal_spec in Hs as [-> Hview]. rewrite (pid_at_live s p vp Hvp) in Hview.
  unfold ReleaseLockHandler. rewrite (bind_Ok _ _ _ _ _ E). pose proof ERROR_neg.
  destruct (Z.eqb_spec RELEASE_NEW_OWNER ERROR); [unfold RELEASE_NEW_OWNER in *; lia|].
  rewrite Z.eqb_refl.
  assert (Hf1 : find_lock s1 id = Some l') by (by rewrite Hfl, decide_True).
  assert (Hown : owner l' = p_pid vp) by (unfold lock_view in Hview; by injection Hview).
  enough (Hw : wp (lock <- ipc_find locks id ;; lock <- demand lock ;;
    next_pcb <- take_from blocked_pcbs (owner lock) ;; next_pcb <- demand next_pcb ;;
    upd_pcb next_pcb (fun v => v <| p_state := READY |>) ;;;
    push_to process_ready_queue next_pcb) (fun rc s' => rc = 0 /\ find_lock s' id = Some l' /\
      ready_list s' = ready_list s ++ [p] /\ p_state <$> pcbs s' !! p = Some READY /\
      kset_map <$> blocked_pcbs s' = Some (delete (p_pid vp) (kset_map bs))) s1).
  { destruct (wp_returns _ _ _ Hw) as (rc & s' & E' & -> & H1 & H2 & H3 & H4). exists s', l'. by split_and!. }
  apply wp_bind. eapply wp_ipc_find; [exact Hf1|]. apply wp_bind, wp_ret.
  apply wp_bind, wp_take_from. cbv beta. rewrite Hown.
  assert (Hb1 : blocked_pcbs s1 = Some bs) by (by rewrite Hio). rewrite Hb1.
  destruct (spec_set_pop (Some bs) (p_pid vp)) as [d bs1] eqn:Epop.
  assert (exists bs', bs1 = Some bs') as [bs' ->].
  { simpl in Epop. repeat case_match_in Epop; injection Epop as _ <-; by eexists. }
  destruct (spec_set_pop_map bs _ _ _ Hbw Epop) as [-> Hdel]. rewrite Hbm. cbn [fst snd].
  apply wp_bind, wp_ret, wp_bind. eapply wp_upd_pcb; [rewrite Hio; exact Hvp|].
  eapply wp_push_to; [rewrite Hio; exact Hrq|by apply Z.eqb_neq|rewrite Hio; apply Hm|].
  split_and!; [done|exact Hf1| | |].
  - unfold ready_list. simpl. by rewrite q_data_append, Hrq.
  - simpl. by rewrite lookup_insert_eq.
  - simpl. by rewrite Hdel.
Qed.

(** A process that [cvar_wait] put on a condition variable is not among the
    delayed processes, so [CvarSignalHandler] takes it off the queue, fails, and
    makes nobody ready. *)
Theorem CvarSignalHandler_loses_waiter id c q p ws v s :
  find_cvar s id = Some c -> cvar_blocked c = Some q -> q_data q = p :: ws ->
  Forall (fun p => is_Some (pcbs s !! p)) (q_data q) ->
  pcbs s !! p = Some v -> spec_set_find (delayed_pcbs s) (p_pid v) = None ->
  exists s' q', CvarSignalHandler id s = Ok ERROR s' /\
    cvar_blocked <$> find_cvar s' id = Some (Some q') /\ q_data q' = ws /\
    process_ready_queue s' = process_ready_queue s /\ pcbs s' = pcbs s.
Proof.
  intros Hc Hq Hd Hlive Hv Hnd. unfold CvarSignalHandler.
  destruct (wp_returns _ _ _ (wp_cvar_signal id c q s Hc Hq Hlive)) as (rc & s1 & E & q' & Hio & Hf & Hres).
  rewrite Hd in Hres. destruct Hres as [-> Hd'].
  rewrite (bind_Ok _ _ _ _ _ E). destruct (_ =? ERROR).
  - exists s1, q'. rewrite Hio in *. by split_and!.
  - rewrite (bind_Ok _ _ _ _ _ (take_from_run delayed_pcbs _ s1)).
    assert (Hpop : spec_set_pop (delayed_pcbs s1) (pid_at s p) = (None, delayed_pcbs s1)).
    { rewrite (pid_at_live s p v Hv). rewrite Hio. simpl. unfold spec_set_find, spec_set_pop in *.
      destruct (delayed_pcbs s) as [ds|]; [|done]. destruct (_ <? 0); [done|]. by rewrite Hnd. }
    rewrite Hpop. cbn [fst snd]. eexists _, q'. split; [done|]. split_and!; [exact Hf|done| |];
      by rewrite Hio.
Qed.

(** [CvarBroadcastHandler] on a well-formed condition variable always
    fails and makes nobody ready. *)
Theorem CvarBroadcastHandler_fails id c q s :
  mem_ok s -> find_cvar s id = Some c -> cvar_blocked c = Some q -> kqueue_wf q ->
  Forall (fun p => is_Some (pcbs s !! p)) (q_data q) ->
  exists s', CvarBroadcastHandler id s = Ok ERROR s' /\
    process_ready_queue s' = process_ready_queue s /\ pcbs s' = pcbs s.
Proof.
  intros Hm Hc Hq Hwf Hlive. unfold CvarBroadcastHandler.
  destruct (wp_returns _ _ _ (wp_cvar_broadcast id c q s Hm Hc Hq Hwf Hlive))
    as (r & s' & E & -> & c' & (Hio & _) & _).
  exists s'. rewrite (bind_Ok _ _ _ _ _ E). split; [done|]. by rewrite Hio.
Qed.
End Facts.

Section Witnesses.
Import DemoHardware Demo.

(** Lock 0 belongs to the running process 20; 24 waits for it and is in the
    set of blocked processes. *)
Definition demo_lock : lock_t := mk_lock 0 1 (Some (mk_queue [(0, 24)] 1 1)).
Definition demo_cvar : cvar_t := mk_cvar 1 (Some (mk_queue [(0, 24); (1, 28)] 2 2)).
Definition demo_sync : kst := demo_owned <| blocked_pcbs := Some (mk_set [(2, 24)] 1) |>.

Lemma demo_blocked_wf : kset_wf (mk_set [(2, 24)] 1).
Proof. split_and!; [done|by apply NoDup_singleton|]. by repeat constructor. Defined.

Lemma reclaim_kills_waiters_witness :
  exists s', ReclaimHandler 0 demo_sync = Ok 0 s' /\ find_lock s' 0 = None /\ pcbs s' !! 24 = None.
Proof.
  destruct (reclaim_kills_waiters 0 demo_lock (mk_queue [(0, 24)] 1 1)
    (demo_wrapper <| locks := Some (mk_set [(0, demo_lock)] 1) |>) demo_sync)
    as (s' & E & H1 & H2 & _).
  - by apply demo_mem_ok.
  - reflexivity.
  - split_and!; [done|by apply NoDup_singleton|by repeat constructor].
  - reflexivity.
  - reflexivity.
  - by eexists.
  - by apply NoDup_singleton.
  - repeat constructor; [done|]. by exists (demo_ipc_proc 2).
  - exists s'. split; [exact E|]. split; [exact H1|exact (H2 24)].
Defined.

Lemma AcquireLockHandler_spec_witness :
  exists s1, AcquireLockHandler 0 (demo_sync <| current_process := 28 |>) =
    ScheduleNextProcess (K_syscall 0) s1.
Proof.
  destruct (AcquireLockHandler_spec 0 demo_lock (mk_queue [(0, 24)] 1 1) (demo_ipc_proc 3)
    (demo_sync <| current_process := 28 |>)) as (s1 & l' & _ & _ & E);
    [by apply demo_mem_ok|reflexivity|done|reflexivity|reflexivity|].
  eexists. exact E.
Defined.

Lemma ReleaseLockHandler_hands_over_witness :
  exists s', ReleaseLockHandler 0 demo_sync = Ok 0 s' /\ ready_list s' = [24].
Proof.
  destruct (ReleaseLockHandler_hands_over 0 demo_lock (mk_queue [(0, 24)] 1 1) (demo_ipc_proc 1)
    demo_sync 24 [] (demo_ipc_proc 2) (mk_set [(2, 24)] 1)) as (s' & l' & E & _ & _ & H & _);
    [by apply demo_mem_ok|reflexivity|reflexivity|reflexivity|reflexivity|reflexivity
    |by repeat econstructor|done|reflexivity|reflexivity|exact demo_blocked_wf|reflexivity|by eexists|].
  exact (ex_intro _ s' (conj E H)).
Defined.

Lemma CvarSignalHandler_loses_waiter_witness :
  exists s', CvarSignalHandler 1 demo_sync = Ok ERROR s'.
Proof.
  destruct (CvarSignalHandler_loses_waiter 1 demo_cvar (mk_queue [(0, 24); (1, 28)] 2 2) 24 [28]
    (demo_ipc_proc 2) demo_sync) as (s' & q' & E & _);
    [reflexivity|reflexivity|reflexivity|by repeat econstructor|reflexivity|reflexivity|].
  exact (ex_intro _ s' E).
Defined.

Lemma CvarBroadcastHandler_fails_witness :
  exists s', CvarBroadcastHandler 1 demo_sync = Ok ERROR s'.
Proof.
  destruct (CvarBroadcastHandler_fails 1 demo_cvar (mk_queue [(0, 24); (1, 28)] 2 2) demo_sync)
    as (s' & E & _);
    [by apply demo_mem_ok|reflexivity|reflexivity|by split; [|repeat constructor]|by repeat econstructor|].
  exact (ex_intro _ s' E).
Defined.
End Witnesses.
