(* ===== verification/Tty.v ===== *)
(** * Terminals ([tty_state.c], [syscall_handlers/input_output.c])

    One entry per terminal in each array of the global [current_tty_state].
    The read handler blocks until a line arrives and then finds its bytes in
    its PCB; the write handler waits for the terminal, then transmits its
    buffer in pieces, blocking until each one is out.

    Main results: a received line goes to every waiting reader, up to what it
    asked for, and the longest part read is taken from the buffer; the bytes of
    a terminal are consumed in order; a write transmits exactly its bytes, in
    order, in pieces of at most [TERMINAL_MAX_LINE]; terminal ids are not
    checked where the code means to check them. *)

From S2P Require Import Prelude Hardware Containers KState Memory Pcb Sched Ipc Pipe.
From stdpp Require Import list gmap fin_maps.
From Stdlib Require Import Strings.Byte.

#[local] Open Scope Z_scope.

Section Defs.
Context {hw : Hardware}.

Definition zeros (n : Z) : list byte := replicate (Z.to_nat n) x00.

(** One more terminal at the end of the arrays. *)
Definition add_terminal (t : tty_state_t) (readers : option (set_t ptr)) (queue : option (queue_t ptr))
  : tty_state_t :=
  mk_tty (write_queues t ++ [queue]) (availability t ++ [1]) (curr_writers t ++ [NULL])
    (curr_readers t ++ [readers])
    (buffers t ++ [replicate (Z.to_nat TERMINAL_MAX_LINE) uninit_byte])
    (bytes_available t ++ [0]).

(** The loop of [tty_state_init], for [n] more terminals. *)
Fixpoint init_terminals (n : nat) (t : tty_state_t) : M kst (option tty_state_t) :=
  match n with
  | O => ret (Some t)
  | S n' =>
      readers <- set_new ;;
      buffer <- malloc ;;
      if buffer =? NULL then ret None else
      queue <- queue_new ;;
      init_terminals n' (add_terminal t readers queue)
  end.

(** The struct and its six arrays are allocated first. *)
Definition tty_state_init : M kst (option tty_state_t) :=
  r <- for_each (range_up 0 7) (fun _ =>
    a <- malloc ;; ret (if a =? NULL then Some tt else None)) ;;
  match r with
  | Some _ => ret None
  | None => init_terminals (Z.to_nat NUM_TERMINALS) (mk_tty [] [] [] [] [] [])
  end.

(** [tty_state_free] does nothing. *)
Definition tty_state_free : M kst unit := ret tt.

(** [current_tty_state], which must not be NULL. *)
Definition the_tty : M kst tty_state_t := t <- gets current_tty_state ;; demand t.

(** [current_tty_state->arr[i] = x] *)
Definition tty_set {A} (arr : tty_state_t -> list A) `{!Setter arr} (i : Z) (x : A) : M kst unit :=
  t <- the_tty ;;
  l <- demand (arr_set (arr t) i x) ;;
  modify (fun s => s <| current_tty_state := Some (t <| arr := l |>) |>).

(** [current_tty_state->arr[i]] *)
Definition tty_get {A} (arr : tty_state_t -> list A) (i : Z) : M kst A :=
  t <- the_tty ;; demand (arr_get (arr t) i).

Definition tty_buffer_consume (receipt_buffer : ptr) (tty_id num_bytes : Z) : M kst unit :=
  t <- gets current_tty_state ;;
  match t with
  | None => ret tt
  | Some _ =>
      if (num_bytes <? 1) || (num_bytes >? TERMINAL_MAX_LINE) || (tty_id >? NUM_TERMINALS) ||
         (tty_id <? 0) then ret tt else
      ok <- (if receipt_buffer =? NULL then ret true
             else v <- check_memory_validity receipt_buffer ;; ret (truthy v)) ;;
      if negb ok then ret tt else
      available <- tty_get bytes_available tty_id ;;
      if available <? 1 then ret tt else
      let num_bytes_to_copy := Z.min num_bytes available in
      buffer <- tty_get buffers tty_id ;;
      (if receipt_buffer =? NULL then ret tt
       else
         store_user receipt_buffer (zeros num_bytes) ;;;
         bs <- demand (buf_prefix buffer num_bytes_to_copy) ;;
         store_user receipt_buffer bs) ;;;
      if num_bytes_to_copy >=? available then
        tty_set bytes_available tty_id 0 ;;;
        tty_set buffers tty_id (zeros TERMINAL_MAX_LINE)
      else
        let remaining_bytes := available - num_bytes_to_copy in
        temp <- malloc ;;
        if temp =? NULL then ret tt else
        temp_bytes <- demand (buf_prefix (drop (Z.to_nat num_bytes_to_copy) buffer) remaining_bytes) ;;
        buffer <- demand (splice (zeros TERMINAL_MAX_LINE) 0 temp_bytes) ;;
        tty_set buffers tty_id buffer ;;;
        tty_set bytes_available tty_id remaining_bytes
  end.

(** One waiting reader of [tty_handle_received]: [None] when a [malloc] fails
    and the function returns, otherwise how many bytes it was given. *)
Definition receive_one (tty_id num_bytes : Z) (proc : ptr) : M kst (option Z) :=
  v <- load_pcb proc ;;
  if p_state v =? DEAD then ret (Some 0) else
  r0 <- (match p_tty_read_buffer_r0 v with
         | Some b => ret (Some (b_addr b))
         | None => a <- malloc ;; ret (if a =? NULL then None else Some a)
         end) ;;
  match r0 with
  | None => ret None
  | Some a =>
      buffer <- tty_get buffers tty_id ;;
      let num_bytes_to_copy := Z.min (p_tty_num_bytes_requested v) num_bytes in
      bs <- demand (buf_prefix buffer num_bytes_to_copy) ;;
      contents <- demand (splice (zeros TERMINAL_MAX_LINE) 0 bs) ;;
      upd_pcb proc (fun v => v <| p_tty_read_buffer_r0 := Some (mk_blk a contents) |>
        <| p_tty_num_bytes_read := num_bytes_to_copy |>
        <| p_state := READY |> <| p_tty_has_bytes := 1 |>) ;;;
      take_from blocked_pcbs (p_pid v) ;;;
      push_to process_ready_queue proc ;;;
      ret (Some num_bytes_to_copy)
  end.

(** The loop over the waiting readers; the result is [max_read]. *)
Fixpoint receive_loop (tty_id num_bytes : Z) (nodes : list (Z * ptr)) (max_read : Z)
  : M kst (option Z) :=
  match nodes with
  | [] => ret (Some max_read)
  | (_, item) :: nodes' =>
      if item =? NULL then receive_loop tty_id num_bytes nodes' max_read else
      n <- receive_one tty_id num_bytes item ;;
      match n with
      | None => ret None
      | Some n => receive_loop tty_id num_bytes nodes' (Z.max max_read n)
      end
  end.

(** The buffer is read before [tty_id] is compared with 0. *)
Definition tty_handle_received (tty_id num_bytes : Z) : M kst unit :=
  t <- gets current_tty_state ;;
  match t with
  | None => ret tt
  | Some _ =>
      if (tty_id >? NUM_TERMINALS) || (num_bytes >? TERMINAL_MAX_LINE) || (num_bytes <? 1)
      then ret tt else
      tty_get buffers tty_id ;;;
      tty_set bytes_available tty_id num_bytes ;;;
      readers <- tty_get curr_readers tty_id ;;
      readers <- demand readers ;;
      match s_nodes readers with
      | [] => ret tt
      | nodes =>
          max_read <- receive_loop tty_id num_bytes nodes 0 ;;
          match max_read with
          | None => ret tt
          | Some max_read =>
              tty_set curr_readers tty_id (Some (mk_set [] 0)) ;;;
              tty_buffer_consume NULL tty_id max_read
          end
      end
  end.

(** ** System call handlers *)

(** [TtyReadHandler] when the blocked process runs again. *)
Definition tty_read_resume (tty_id : Z) (buf : ptr) : M kst kont :=
  cur <- gets current_process ;;
  v <- load_pcb cur ;;
  let r0 := match p_tty_read_buffer_r0 v with Some b => b_addr b | None => NULL end in
  ok <- check_memory_validity r0 ;;
  match p_tty_read_buffer_r0 v with
  | None => ret (K_syscall ERROR)
  | Some b =>
      if negb (truthy ok) then ret (K_syscall ERROR) else
      bs <- demand (buf_prefix (b_bytes b) (p_tty_num_bytes_read v)) ;;
      store_user buf bs ;;;
      readers <- tty_get curr_readers tty_id ;;
      let '(_, readers') := spec_set_pop readers (p_pid v) in
      tty_set curr_readers tty_id readers' ;;;
      ret (K_syscall 0)
  end.

(** [tty_id > NUM_TERMINALS < tty_id < 0], as C parses it. *)
Definition tty_id_check (tty_id : Z) : bool :=
  b2z (b2z (tty_id >? NUM_TERMINALS) <? tty_id) <? 0.

Definition TtyReadHandler (tty_id : Z) (buf : ptr) (len : Z) : M kst kont :=
  if buf =? NULL then ret (K_syscall ERROR) else
  ok <- check_memory_validity buf ;;
  t <- gets current_tty_state ;;
  if negb (truthy ok) || (get_raw_page_no buf <? 128) || (get_raw_page_no buf >? 255) ||
     match t with None => true | Some _ => false end then ret (K_syscall ERROR) else
  if tty_id_check tty_id then ret (K_syscall ERROR) else
  available <- tty_get bytes_available tty_id ;;
  if available >? 0 then
    tty_buffer_consume buf tty_id len ;;;
    ret (K_syscall 0)
  else
    cur <- gets current_process ;;
    upd_pcb cur (fun v => v <| p_state := BLOCKED |> <| p_tty_num_bytes_requested := len |>
      <| p_tty_read_buffer_r1 := buf |>) ;;;
    readers <- tty_get curr_readers tty_id ;;
    pid <- current_pid ;;
    do '(_, readers') <- set_insert readers pid cur ;;
    tty_set curr_readers tty_id readers' ;;;
    ScheduleNextProcess (K_tty_read tty_id buf).

(** [TtyWriteHandler] once everything has been transmitted. *)
Definition tty_write_finish (tty_id : Z) : M kst kont :=
  cur <- gets current_process ;;
  upd_pcb cur (fun v => v <| p_tty_write_waiting := 0 |>) ;;;
  tty_set availability tty_id 1 ;;;
  tty_set curr_writers tty_id NULL ;;;
  q <- tty_get write_queues tty_id ;;
  let '(next_writer, q') := spec_queue_pop q in
  tty_set write_queues tty_id q' ;;;
  match next_writer with
  | None => ret (K_syscall 0)
  | Some next_writer =>
      upd_pcb next_writer (fun v => v <| p_tty_write_waiting := 0 |>) ;;;
      wake next_writer ;;;
      ScheduleNextProcess (K_syscall 0)
  end.

(** The transmission loop at [start_byte]. *)
Definition tty_chunk_loop (tty_id : Z) (r0_write_buffer : list byte) (len start_byte : Z)
  : M kst kont :=
  if start_byte <? len then
    let transmit_size := Z.min (len - start_byte) TERMINAL_MAX_LINE in
    cur <- gets current_process ;;
    tty_set curr_writers tty_id cur ;;;
    chunk <- demand (buf_prefix (drop (Z.to_nat start_byte) r0_write_buffer) transmit_size) ;;
    emit (IoTtyTransmit tty_id chunk) ;;;
    upd_pcb cur (fun v => v <| p_state := BLOCKED |> <| p_tty_write_waiting := 1 |>) ;;;
    ScheduleNextProcess (K_tty_chunk tty_id r0_write_buffer len start_byte)
  else tty_write_finish tty_id.

(** Back in the loop after a piece has gone out. *)
Definition tty_chunk_resume (tty_id : Z) (r0_write_buffer : list byte) (len start_byte : Z)
  : M kst kont :=
  tty_chunk_loop tty_id r0_write_buffer len (start_byte + TERMINAL_MAX_LINE).

(** The loop that waits for the terminal, and the start of the transmission. *)
Definition tty_write_loop (tty_id : Z) (buf : ptr) (len : Z) : M kst kont :=
  available <- tty_get availability tty_id ;;
  if negb (truthy available) then
    cur <- gets current_process ;;
    upd_pcb cur (fun v => v <| p_state := BLOCKED |> <| p_tty_write_waiting := 1 |>) ;;;
    q <- tty_get write_queues tty_id ;;
    do '(_, q') <- queue_push q cur ;;
    tty_set write_queues tty_id q' ;;;
    ScheduleNextProcess (K_tty_write tty_id buf len)
  else
    r0_write_buffer <- malloc ;;
    if r0_write_buffer =? NULL then ret (K_syscall ERROR) else
    bs <- load_user buf len ;;
    cur <- gets current_process ;;
    tty_set curr_writers tty_id cur ;;;
    tty_set availability tty_id 0 ;;;
    tty_chunk_loop tty_id bs len 0.

Definition TtyWriteHandler (tty_id : Z) (buf : ptr) (len : Z) : M kst kont :=
  ok <- user_addr_ok buf ;;
  if negb ok || (tty_id <? 0) || (tty_id >? NUM_TERMINALS) then ret (K_syscall ERROR)
  else tty_write_loop tty_id buf len.
End Defs.

Section Facts.
Context {hw : Hardware}.

Record tty_wf (t : tty_state_t) : Prop := {
  tw_queues : Z.of_nat (length (write_queues t)) = NUM_TERMINALS;
  tw_avail : Z.of_nat (length (availability t)) = NUM_TERMINALS;
  tw_writers : Z.of_nat (length (curr_writers t)) = NUM_TERMINALS;
  tw_readers : Z.of_nat (length (curr_readers t)) = NUM_TERMINALS;
  tw_buffers : Z.of_nat (length (buffers t)) = NUM_TERMINALS;
  tw_bytes : Z.of_nat (length (bytes_available t)) = NUM_TERMINALS;
  tw_line : Forall (fun b => Z.of_nat (length b) = TERMINAL_MAX_LINE) (buffers t);
  tw_count : Forall (fun n => 0 <= n <= TERMINAL_MAX_LINE) (bytes_available t) }.

(** The unread bytes of a terminal. *)
Definition tty_bytes (t : tty_state_t) (i : Z) : list byte :=
  take (Z.to_nat (default 0 (arr_get (bytes_available t) i))) (default [] (arr_get (buffers t) i)).

Lemma tty_get_run {A} (arr : tty_state_t -> list A) i x t s :
  current_tty_state s = Some t -> arr_get (arr t) i = Some x -> tty_get arr i s = Ok x s.
Proof. intros Ht Hx. unfold tty_get, the_tty, bind, gets, demand, ret. rewrite Ht. simpl. by rewrite Hx. Qed.

Lemma tty_get_undef {A} (arr : tty_state_t -> list A) i t s :
  current_tty_state s = Some t -> arr_get (arr t) i = None -> tty_get arr i s = Undef.
Proof. intros Ht Hx. unfold tty_get, the_tty, bind, gets, demand, ret. rewrite Ht. simpl. by rewrite Hx. Qed.

Lemma tty_set_run {A} (arr : tty_state_t -> list A) `{!Setter arr} i x t s :
  current_tty_state s = Some t -> 0 <= i < Z.of_nat (length (arr t)) ->
  tty_set arr i x s =
    Ok tt (s <| current_tty_state := Some (t <| arr := <[Z.to_nat i := x]> (arr t) |>) |>).
Proof.
  intros Ht Hi. unfold tty_set, the_tty, bind, gets, demand, ret. rewrite Ht. simpl.
  by rewrite arr_set_Some.
Qed.

Lemma arr_get_insert {A} (l : list A) i j x :
  0 <= i < Z.of_nat (length l) -> 0 <= j ->
  arr_get (<[Z.to_nat i := x]> l) j = if decide (j = i) then Some x else arr_get l j.
Proof.
  intros Hi Hj. unfold arr_get. destruct (Z.ltb_spec j 0); [lia|].
  case_decide as Hd; [subst; rewrite list_lookup_insert_eq; [done|lia]|].
  by rewrite list_lookup_insert_ne by lia.
Qed.

Lemma length_zeros n : 0 <= n -> Z.of_nat (length (zeros n)) = n.
Proof. intros H. unfold zeros. rewrite length_replicate. lia. Qed.

Lemma tty_entry t i :
  tty_wf t -> 0 <= i < NUM_TERMINALS ->
  exists b n, arr_get (buffers t) i = Some b /\ arr_get (bytes_available t) i = Some n /\
    Z.of_nat (length b) = TERMINAL_MAX_LINE /\ 0 <= n <= TERMINAL_MAX_LINE /\
    tty_bytes t i = take (Z.to_nat n) b.
Proof.
  intros Hwf Hi.
  destruct (proj2 (arr_get_is_Some (buffers t) i)) as [b Hb]; [rewrite (tw_buffers t Hwf); lia|].
  destruct (proj2 (arr_get_is_Some (bytes_available t) i)) as [n Hn]; [rewrite (tw_bytes t Hwf); lia|].
  exists b, n. split_and!; [done|done| | | |].
  - apply arr_get_Some in Hb as [_ Hb]. apply (Forall_lookup_1 _ _ _ _ (tw_line t Hwf) Hb).
  - apply arr_get_Some in Hn as [_ Hn]. apply (Forall_lookup_1 _ _ _ _ (tw_count t Hwf) Hn).
  - apply arr_get_Some in Hn as [_ Hn]. apply (Forall_lookup_1 _ _ _ _ (tw_count t Hwf) Hn).
  - unfold tty_bytes. by rewrite Hb, Hn.
Qed.

(** ** Consuming bytes *)

(** The terminal [i] of [t] with [n] unread bytes in buffer [b]. *)
Definition with_line (t : tty_state_t) (i : Z) (b : list byte) (n : Z) : tty_state_t :=
  t <| buffers := <[Z.to_nat i := b]> (buffers t) |>
    <| bytes_available := <[Z.to_nat i := n]> (bytes_available t) |>.

Lemma with_line_wf t i b n :
  tty_wf t -> Z.of_nat (length b) = TERMINAL_MAX_LINE -> 0 <= n <= TERMINAL_MAX_LINE ->
  tty_wf (with_line t i b n).
Proof.
  intros [] Hb Hn. split; simpl; rewrite ?length_insert; try done; by apply Forall_insert.
Qed.

Lemma with_line_bytes t i b n j :
  tty_wf t -> 0 <= i < NUM_TERMINALS -> 0 <= j ->
  tty_bytes (with_line t i b n) j = if decide (j = i) then take (Z.to_nat n) b else tty_bytes t j.
Proof.
  intros Hwf Hi Hj. unfold tty_bytes, with_line. simpl.
  rewrite !arr_get_insert by (rewrite ?(tw_buffers t Hwf), ?(tw_bytes t Hwf); lia).
  by case_decide.
Qed.

(** [s'] is [s] after [k] bytes of terminal [i] were consumed. *)
Definition consumed (i : Z) (k : nat) (t : tty_state_t) (s s' : kst) : Prop :=
  exists b n, let t' := with_line t i b n in
    s' = s <| mallocs := mallocs s' |> <| current_tty_state := Some t' |> /\ tty_wf t' /\
    (forall j, 0 <= j -> tty_bytes t' j = if decide (j = i) then drop k (tty_bytes t i) else tty_bytes t j).

Lemma consumed_intro i k t s s' b n :
  tty_wf t -> 0 <= i < NUM_TERMINALS ->
  Z.of_nat (length b) = TERMINAL_MAX_LINE -> 0 <= n <= TERMINAL_MAX_LINE ->
  take (Z.to_nat n) b = drop k (tty_bytes t i) ->
  s' = s <| mallocs := mallocs s' |> <| current_tty_state := Some (with_line t i b n) |> ->
  consumed i k t s s'.
Proof.
  intros Hwf Hi Hb Hn Hd Hs. exists b, n. split_and!; [done|by apply with_line_wf|].
  intros j Hj. rewrite with_line_bytes by done. by rewrite Hd.
Qed.

(** The part of [tty_buffer_consume] after the copy to the caller. *)
Lemma wp_consume_tail i k n b t s :
  mem_ok s -> current_tty_state s = Some t -> tty_wf t -> 0 <= i < NUM_TERMINALS ->
  arr_get (buffers t) i = Some b -> arr_get (bytes_available t) i = Some n -> 0 <= k <= n ->
  wp (if k >=? n then
        tty_set bytes_available i 0 ;;; tty_set buffers i (zeros TERMINAL_MAX_LINE)
      else
        temp <- malloc ;;
        if temp =? NULL then ret tt else
        temp_bytes <- demand (buf_prefix (drop (Z.to_nat k) b) (n - k)) ;;
        buffer <- demand (splice (zeros TERMINAL_MAX_LINE) 0 temp_bytes) ;;
        tty_set buffers i buffer ;;;
        tty_set bytes_available i (n - k))
     (fun _ s' => consumed i (Z.to_nat k) t s s') s.
Proof.
  intros Hm Ht Hwf Hi Hb Hn Hk. destruct (tty_entry t i Hwf Hi) as (b' & n' & Hb' & Hn' & Hlb & Hrn & Hby).
  rewrite Hb in Hb'. rewrite Hn in Hn'. injection Hb' as <-. injection Hn' as <-.
  pose proof hw_terminals as [_ [Hmax _]].
  assert (Hlen1 : Z.of_nat (length (buffers t)) = NUM_TERMINALS) by apply (tw_buffers t Hwf).
  assert (Hlen2 : Z.of_nat (length (bytes_available t)) = NUM_TERMINALS) by apply (tw_bytes t Hwf).
  rewrite Z.geb_leb. destruct (Z.leb_spec n k) as [Hle|Hlt].
  - eapply wp_bind_Ok; [eapply tty_set_run; [exact Ht|lia]|].
    eapply wp_eq; [eapply (tty_set_run buffers i); [reflexivity|simpl; lia]|].
    apply (consumed_intro i _ t s _ (zeros TERMINAL_MAX_LINE) 0); try done; [apply length_zeros; lia|lia|].
    rewrite Hby. rewrite drop_ge; [done|]. rewrite length_take. lia.
  - apply wp_bind, wp_malloc. cbv beta. rewrite (proj2 (Z.eqb_neq _ NULL) (Hm _)).
    apply wp_bind. eapply wp_demand; [apply buf_prefix_Some; rewrite length_drop; lia|].
    destruct (splice_Some (zeros TERMINAL_MAX_LINE) 0 (take (Z.to_nat (n - k)) (drop (Z.to_nat k) b)))
      as (b1 & Hb1 & Hl1 & Ht1); [lia|rewrite length_zeros, length_take by lia; lia|].
    apply wp_bind. eapply wp_demand; [exact Hb1|].
    eapply wp_bind_Ok; [eapply (tty_set_run buffers i _ t); [exact Ht|lia]|].
    eapply wp_eq; [eapply (tty_set_run bytes_available i); [reflexivity|simpl; lia]|].
    pose proof (length_zeros TERMINAL_MAX_LINE) as Hz.
    apply (consumed_intro i _ t s _ b1 (n - k)); try done; [lia|lia|].
    rewrite Hby. simpl in Ht1. rewrite length_take, length_drop in Ht1.
    replace (Nat.min (Z.to_nat (n - k)) (length b - Z.to_nat k)) with (Z.to_nat (n - k)) in Ht1 by lia.
    rewrite Ht1. rewrite skipn_firstn_comm. f_equal. lia.
Qed.

(** The copy to the caller, and the whole of [tty_buffer_consume]. *)
Definition consume_ready (s : kst) (t : tty_state_t) (i num : Z) : Prop :=
  mem_ok s /\ current_tty_state s = Some t /\ tty_wf t /\ 0 <= i < NUM_TERMINALS /\
  1 <= num <= TERMINAL_MAX_LINE /\ tty_bytes t i <> [].

Lemma consume_guards i num :
  0 <= i < NUM_TERMINALS -> 1 <= num <= TERMINAL_MAX_LINE ->
  (num <? 1) || (num >? TERMINAL_MAX_LINE) || (i >? NUM_TERMINALS) || (i <? 0) = false.
Proof.
  intros Hi Hn. rewrite !Z.gtb_ltb.
  destruct (Z.ltb_spec num 1), (Z.ltb_spec TERMINAL_MAX_LINE num),
    (Z.ltb_spec NUM_TERMINALS i), (Z.ltb_spec i 0); try lia.
Qed.

Lemma tty_bytes_count t i n :
  tty_wf t -> 0 <= i < NUM_TERMINALS -> arr_get (bytes_available t) i = Some n ->
  Z.of_nat (length (tty_bytes t i)) = n.
Proof.
  intros Hwf Hi Hn. destruct (tty_entry t i Hwf Hi) as (b & n' & _ & Hn' & Hl & Hr & ->).
  rewrite Hn in Hn'. injection Hn' as <-. rewrite length_take. lia.
Qed.

Lemma wp_consume_null i num t s :
  consume_ready s t i num ->
  wp (tty_buffer_consume NULL i num)
     (fun _ s' => consumed i (Z.to_nat (Z.min num (Z.of_nat (length (tty_bytes t i))))) t s s') s.
Proof.
  intros (Hm & Ht & Hwf & Hi & Hnum & Hne). unfold tty_buffer_consume.
  apply wp_bind, wp_gets. rewrite Ht, consume_guards by done. cbn [Z.eqb NULL].
  destruct (tty_entry t i Hwf Hi) as (b & n & Hb & Hn & Hlb & Hrn & _).
  pose proof (tty_bytes_count t i n Hwf Hi Hn) as Hc.
  assert (Hn1 : 1 <= n) by (rewrite <- Hc; destruct (tty_bytes t i); [done|simpl; lia]).
  apply wp_bind, wp_ret. cbn [negb]. eapply wp_bind_Ok; [by eapply tty_get_run|].
  destruct (Z.ltb_spec n 1); [lia|]. eapply wp_bind_Ok; [by eapply tty_get_run|].
  apply wp_bind, wp_ret. rewrite Hc. apply wp_consume_tail; try done. lia.
Qed.

Lemma wp_consume_user i num buf t v r1 m1 m2 s :
  consume_ready s t i num -> buf <> NULL ->
  check_memory_validity buf s = Ok v s -> v <> 0 -> read_table s = Some r1 ->
  let k := Z.to_nat (Z.min num (Z.of_nat (length (tty_bytes t i)))) in
  hw_store (umem s) (region_0_pages s) r1 buf (zeros num) = Some m1 ->
  hw_store m1 (region_0_pages s) r1 buf (take k (tty_bytes t i)) = Some m2 ->
  wp (tty_buffer_consume buf i num) (fun _ s' => consumed i k t (s <| umem := m2 |>) s') s.
Proof.
  intros (Hm & Ht & Hwf & Hi & Hnum & Hne) Hb0 Hok Hv Hr k Hs1 Hs2. unfold tty_buffer_consume.
  apply wp_bind, wp_gets. rewrite Ht, consume_guards by done.
  rewrite (proj2 (Z.eqb_neq buf NULL) Hb0).
  destruct (tty_entry t i Hwf Hi) as (b & n & Hb & Hn & Hlb & Hrn & Hby).
  pose proof (tty_bytes_count t i n Hwf Hi Hn) as Hc.
  assert (Hn1 : 1 <= n) by (rewrite <- Hc; destruct (tty_bytes t i); [done|simpl; lia]).
  apply wp_bind. eapply wp_bind_Ok; [exact Hok|]. apply wp_ret.
  unfold truthy. rewrite (proj2 (Z.eqb_neq v 0) Hv). cbn [negb].
  eapply wp_bind_Ok; [by eapply tty_get_run|]. destruct (Z.ltb_spec n 1); [lia|].
  eapply wp_bind_Ok; [by eapply tty_get_run|].
  apply wp_bind. eapply wp_bind_Ok; [by apply (store_user_run s r1 _ _ m1)|].
  apply wp_bind. eapply wp_demand; [apply buf_prefix_Some; lia|].
  assert (Htake : take (Z.to_nat (Z.min num n)) b = take k (tty_bytes t i)).
  { unfold k. rewrite Hc, Hby, take_take. f_equal. lia. }
  rewrite Htake. eapply wp_eq; [by apply (store_user_run (s <| umem := m1 |>) r1 _ _ m2)|].
  assert (E : s <| umem := m1 |> <| umem := m2 |> = s <| umem := m2 |>) by by kst_eq s.
  rewrite E. unfold k. rewrite Hc. apply wp_consume_tail; try done. lia.
Qed.

(** ** A line for the waiting readers *)

(** A process waiting for a line: not DEAD, with a request and a buffer. *)
Definition reader_ok (s : kst) (p : ptr) : Prop :=
  p <> NULL /\ exists v, pcbs s !! p = Some v /\ p_state v <> DEAD /\
    0 <= p_tty_num_bytes_requested v.

(** What a reader asked for. *)
Definition requested (s : kst) (p : ptr) : Z :=
  default 0 (p_tty_num_bytes_requested <$> pcbs s !! p).

(** [v'] is [v] after it was given its part of the line. *)
Definition served (line : list byte) (v v' : pcb_t) : Prop :=
  let n := Z.min (p_tty_num_bytes_requested v) (Z.of_nat (length line)) in
  p_state v' = READY /\ p_tty_has_bytes v' = 1 /\ p_tty_num_bytes_read v' = n /\ p_pid v' = p_pid v /\
  exists b, p_tty_read_buffer_r0 v' = Some b /\ take (Z.to_nat n) (b_bytes b) = take (Z.to_nat n) line.

(** [s'] is [s] after the processes [l] were served. *)
Definition served_all (line : list byte) (l : list ptr) (s s' : kst) : Prop :=
  current_tty_state s' = current_tty_state s /\ malloc_at s' = malloc_at s /\
  is_Some (process_ready_queue s') /\ ready_list s' = ready_list s ++ l /\
  (forall p, p ∉ l -> pcbs s' !! p = pcbs s !! p) /\
  (forall p, p ∈ l -> exists v v', pcbs s !! p = Some v /\ pcbs s' !! p = Some v' /\ served line v v').

Lemma wp_receive_one i num p b t s :
  mem_ok s -> current_tty_state s = Some t -> is_Some (process_ready_queue s) ->
  arr_get (buffers t) i = Some b -> Z.of_nat (length b) = TERMINAL_MAX_LINE ->
  1 <= num <= TERMINAL_MAX_LINE -> reader_ok s p ->
  wp (receive_one i num p) (fun r s' => r = Some (Z.min (requested s p) num) /\
    served_all (take (Z.to_nat num) b) [p] s s') s.
Proof.
  intros Hm Ht [q Hq] Hb Hlb Hnum (Hp0 & v & Hv & Hst & Hreq). unfold receive_one.
  apply wp_bind. eapply wp_load_pcb; [exact Hv|]. rewrite (proj2 (Z.eqb_neq _ _) Hst).
  apply wp_bind.
  assert (Ha : wp (match p_tty_read_buffer_r0 v with
         | Some b => ret (Some (b_addr b))
         | None => a <- malloc ;; ret (if a =? NULL then None else Some a)
         end) (fun r s1 => is_Some r /\ s1 = s <| mallocs := mallocs s1 |>) s).
  { destruct (p_tty_read_buffer_r0 v) as [b0|].
    - apply wp_ret. split; [by eexists|by destruct s].
    - apply wp_bind, wp_malloc, wp_ret. rewrite (proj2 (Z.eqb_neq _ NULL) (Hm _)).
      split; [by eexists|by kst_eq s]. }
  eapply wp_mono; [exact Ha|]. intros r s1 ([a ->] & Hs1).
  eapply wp_bind_Ok; [eapply tty_get_run; [rewrite Hs1; exact Ht|exact Hb]|].
  set (k := Z.min (p_tty_num_bytes_requested v) num).
  apply wp_bind. eapply wp_demand; [apply buf_prefix_Some; lia|].
  destruct (splice_Some (zeros TERMINAL_MAX_LINE) 0 (take (Z.to_nat k) b)) as (c & Hc & _ & Htc);
    [lia|rewrite length_zeros, length_take by lia; lia|].
  apply wp_bind. eapply wp_demand; [exact Hc|].
  apply wp_bind. eapply wp_upd_pcb; [rewrite Hs1; exact Hv|]. apply wp_bind, wp_take_from. cbv beta.
  apply wp_bind. eapply wp_push_to; [rewrite Hs1; exact Hq|by apply Z.eqb_neq|rewrite Hs1; apply Hm|].
  apply wp_ret. split; [unfold requested; by rewrite Hv|]. rewrite Hs1. split_and!; try done.
  - unfold ready_list. simpl. by rewrite q_data_append, Hq.
  - intros p' Hp'. simpl. rewrite lookup_insert_ne by set_solver. done.
  - intros p' ->%list_elem_of_singleton. eexists v, _. split; [done|].
    split; [simpl; apply lookup_insert_eq|]. unfold served. simpl.
    rewrite length_take.
    replace (Z.min (p_tty_num_bytes_requested v) (Z.of_nat (Nat.min (Z.to_nat num) (length b)))) with k by lia.
    split_and!; try done. eexists. split; [done|]. cbn [b_bytes].
    rewrite length_take in Htc. simpl in Htc.
    replace (Nat.min (Z.to_nat k) (length b)) with (Z.to_nat k) in Htc by lia.
    rewrite Htc, take_take. f_equal. lia.
Qed.

Lemma served_all_trans line p l s1 s2 s3 :
  p ∉ l -> served_all line [p] s1 s2 -> served_all line l s2 s3 -> served_all line (p :: l) s1 s3.
Proof.
  intros Hp (A1 & A2 & _ & A3 & A4 & A5) (B1 & B2 & B0 & B3 & B4 & B5).
  split_and!; try congruence; try done.
  - by rewrite B3, A3, <- app_assoc.
  - intros a Ha. rewrite B4, A4 by set_solver. done.
  - intros a [->|Ha]%elem_of_cons.
    + destruct (A5 p) as (v & v' & H1 & H2 & H3); [set_solver|]. exists v, v'. by rewrite B4.
    + destruct (B5 a Ha) as (v & v' & H1 & H2 & H3). exists v, v'.
      rewrite A4 in H1 by set_solver. done.
Qed.

Lemma wp_receive_loop i num nodes mx b t s :
  mem_ok s -> current_tty_state s = Some t -> is_Some (process_ready_queue s) ->
  arr_get (buffers t) i = Some b -> Z.of_nat (length b) = TERMINAL_MAX_LINE ->
  1 <= num <= TERMINAL_MAX_LINE -> NoDup nodes.*2 -> Forall (reader_ok s) nodes.*2 ->
  wp (receive_loop i num nodes mx) (fun r s' =>
    r = Some (foldl (fun m p => Z.max m (Z.min (requested s p) num)) mx nodes.*2) /\
    served_all (take (Z.to_nat num) b) nodes.*2 s s') s.
Proof.
  revert mx s. induction nodes as [|[key p] nodes IH]; intros mx s Hm Ht Hq Hb Hlb Hnum Hnd Hr;
    cbn [receive_loop].
  - apply wp_ret. split; [done|]. split_and!; try done; [by rewrite app_nil_r|].
    by intros p ?%not_elem_of_nil.
  - rewrite fmap_cons in *. cbn [snd] in *. apply NoDup_cons in Hnd as [Hp Hnd].
    apply Forall_cons in Hr as [Hrp Hr]. pose proof Hrp as [Hp0 _].
    rewrite (proj2 (Z.eqb_neq p NULL) Hp0). apply wp_bind.
    eapply wp_mono; [by apply (wp_receive_one i num p b t s)|]. intros r s1 (-> & Hs1).
    pose proof Hs1 as (A1 & A2 & A3 & A4 & A5 & _).
    assert (Hreq : forall q, q ∈ nodes.*2 -> pcbs s1 !! q = pcbs s !! q).
    { intros q Hqn. apply A5. intros ->%list_elem_of_singleton. done. }
    eapply wp_mono; [apply IH; try done|].
    + intros n. rewrite A2. apply Hm.
    + by rewrite A1.
    + rewrite Forall_forall in *. intros q Hqn. unfold reader_ok. rewrite Hreq by done. by apply Hr.
    + intros r s2 (-> & Hs2). split; [|by eapply served_all_trans].
      f_equal. cbn [foldl]. clear -Hreq. revert Hreq.
      generalize (Z.max mx (Z.min (requested s p) num)). induction (nodes.*2) as [|q l IH]; [done|].
      intros m Hreq. cbn [foldl]. unfold requested at 2. rewrite Hreq by set_solver.
      apply IH. intros q' Hq'. apply Hreq. set_solver.
Qed.

(** The most any of the readers takes of a line of [num] bytes. *)
Definition max_taken (s : kst) (l : list ptr) (num : Z) : Z :=
  foldl (fun m p => Z.max m (Z.min (requested s p) num)) 0 l.

Lemma max_taken_bound s l num : 0 <= num -> Forall (reader_ok s) l -> 0 <= max_taken s l num <= num.
Proof.
  intros Hn Hl. unfold max_taken. assert (Hg : forall m, 0 <= m <= num ->
    0 <= foldl (fun m p => Z.max m (Z.min (requested s p) num)) m l <= num).
  { clear Hl. induction l as [|p l IH]; intros m Hm; [done|]. cbn [foldl]. apply IH. lia. }
  apply Hg. lia.
Qed.

(** Terminal [i] with [num] bytes just received. *)
Lemma received_wf t i b num :
  tty_wf t -> 0 <= i < NUM_TERMINALS -> arr_get (buffers t) i = Some b -> 0 <= num <= TERMINAL_MAX_LINE ->
  let t1 := t <| bytes_available := <[Z.to_nat i := num]> (bytes_available t) |> in
  tty_wf t1 /\ forall j, 0 <= j ->
    tty_bytes t1 j = if decide (j = i) then take (Z.to_nat num) b else tty_bytes t j.
Proof.
  intros Hwf Hi Hb Hnum t1. split.
  - destruct Hwf. split; simpl; rewrite ?length_insert; try done. by apply Forall_insert.
  - intros j Hj. unfold tty_bytes, t1. simpl.
    rewrite arr_get_insert by (rewrite ?(tw_bytes t Hwf); lia).
    case_decide as Hd; [|done]. subst j. by rewrite Hb.
Qed.

Lemma no_readers_wf t i x :
  tty_wf t -> tty_wf (t <| curr_readers := <[Z.to_nat i := x]> (curr_readers t) |>).
Proof. intros []. split; simpl; by rewrite ?length_insert. Qed.

(** What [tty_handle_received] leaves of the terminals. *)
Definition line_taken (i : Z) (line : list byte) (k : nat) (t t' : tty_state_t) : Prop :=
  tty_wf t' /\ s_nodes <$> mjoin (arr_get (curr_readers t') i) = Some [] /\
  forall j, 0 <= j -> tty_bytes t' j = if decide (j = i) then drop k line else tty_bytes t j.

(** The end of [tty_handle_received]: no readers are left and the bytes read
    are consumed. *)
Lemma wp_received_tail i k t s line :
  mem_ok s -> current_tty_state s = Some t -> tty_wf t -> 0 <= i < NUM_TERMINALS ->
  tty_bytes t i = line -> 0 <= k <= Z.of_nat (length line) -> line <> [] ->
  wp (tty_set curr_readers i (Some (mk_set [] 0)) ;;; tty_buffer_consume NULL i k)
     (fun _ s' => exists t', s' = s <| mallocs := mallocs s' |> <| current_tty_state := Some t' |> /\
        line_taken i line (Z.to_nat k) t t') s.
Proof.
  intros Hm Ht Hwf Hi Hline Hk Hne.
  eapply wp_bind_Ok; [eapply tty_set_run; [exact Ht|rewrite (tw_readers t Hwf); lia]|].
  set (t2 := t <| curr_readers := <[Z.to_nat i := Some (mk_set [] 0)]> (curr_readers t) |>).
  set (s2 := s <| current_tty_state := Some t2 |>).
  assert (Hwf2 : tty_wf t2) by by apply no_readers_wf.
  assert (Hnr : s_nodes <$> mjoin (arr_get (curr_readers t2) i) = Some []).
  { unfold t2. simpl. rewrite arr_get_insert by (rewrite ?(tw_readers t Hwf); lia).
    by rewrite decide_True. }
  assert (Hmax : Z.of_nat (length line) <= TERMINAL_MAX_LINE).
  { destruct (tty_entry t i Hwf Hi) as (b & n & _ & _ & Hl & _ & Hby).
    rewrite <- Hline, Hby, length_take. lia. }
  destruct (decide (k = 0)) as [->|Hk0].
  - unfold tty_buffer_consume. apply wp_bind, wp_gets. simpl. apply wp_ret. exists t2.
    split; [unfold s2; by kst_eq s|]. split_and!; [done|done|]. intros j Hj.
    case_decide; [subst; by rewrite drop_0|done].
  - eapply wp_mono; [apply (wp_consume_null i k t2)|].
    + split_and!; try done; try lia. by rewrite <- Hline in Hne.
    + intros _ s' (b & n & Es & Hwf' & Hby). change (tty_bytes t2 i) with (tty_bytes t i) in *.
      rewrite Hline in *. exists (with_line t2 i b n). split; [rewrite Es; unfold s2; by kst_eq s|].
      split_and!; [done|done|]. intros j Hj. rewrite Hby by done. case_decide; [|done].
      f_equal. lia.
Qed.

(** ** Transmission *)

(** The pieces a buffer is transmitted in. *)
Definition piece (bs : list byte) (i : nat) : list byte :=
  take (Z.to_nat TERMINAL_MAX_LINE) (drop (i * Z.to_nat TERMINAL_MAX_LINE) bs).
Definition num_pieces (bs : list byte) : nat :=
  Z.to_nat ((Z.of_nat (length bs) + TERMINAL_MAX_LINE - 1) / TERMINAL_MAX_LINE).

Lemma pieces_concat bs n :
  concat (map (piece bs) (seq 0 n)) = take (n * Z.to_nat TERMINAL_MAX_LINE) bs.
Proof.
  induction n as [|n IH]; [done|].
  rewrite seq_S, map_app, concat_app, IH. cbn [map concat Nat.add]. rewrite app_nil_r.
  unfold piece. rewrite take_take_drop. f_equal. lia.
Qed.

Lemma num_pieces_enough bs :
  Z.of_nat (length bs) <= Z.of_nat (num_pieces bs) * TERMINAL_MAX_LINE.
Proof.
  pose proof hw_terminals as [_ [Hmax _]]. unfold num_pieces.
  pose proof (Z.div_mod (Z.of_nat (length bs) + TERMINAL_MAX_LINE - 1) TERMINAL_MAX_LINE).
  pose proof (Z.mod_pos_bound (Z.of_nat (length bs) + TERMINAL_MAX_LINE - 1) TERMINAL_MAX_LINE).
  pose proof (Z.div_pos (Z.of_nat (length bs) + TERMINAL_MAX_LINE - 1) TERMINAL_MAX_LINE). nia.
Qed.

Lemma piece_within bs i :
  (i < num_pieces bs)%nat -> Z.of_nat i * TERMINAL_MAX_LINE < Z.of_nat (length bs).
Proof.
  pose proof hw_terminals as [_ [Hmax _]]. unfold num_pieces. intros Hi.
  assert (H : Z.of_nat i < (Z.of_nat (length bs) + TERMINAL_MAX_LINE - 1) / TERMINAL_MAX_LINE) by lia.
  pose proof (Z.div_mod (Z.of_nat (length bs) + TERMINAL_MAX_LINE - 1) TERMINAL_MAX_LINE).
  pose proof (Z.mod_pos_bound (Z.of_nat (length bs) + TERMINAL_MAX_LINE - 1) TERMINAL_MAX_LINE). nia.
Qed.

(** One round of the loop. *)
Lemma tty_chunk_round i bs k v t s :
  current_tty_state s = Some t -> tty_wf t -> 0 <= i < NUM_TERMINALS ->
  pcbs s !! current_process s = Some v -> (k < num_pieces bs)%nat ->
  exists s1, tty_chunk_loop i bs (Z.of_nat (length bs)) (Z.of_nat k * TERMINAL_MAX_LINE) s =
      ScheduleNextProcess (K_tty_chunk i bs (Z.of_nat (length bs)) (Z.of_nat k * TERMINAL_MAX_LINE)) s1 /\
    trace s1 = trace s ++ [IoTtyTransmit i (piece bs k)] /\
    p_state <$> pcbs s1 !! current_process s1 = Some BLOCKED /\
    current_process s1 = current_process s /\ process_ready_queue s1 = process_ready_queue s.
Proof.
  intros Ht Hwf Hi Hv Hk. pose proof (piece_within bs k Hk) as Hin.
  pose proof hw_terminals as [_ [Hmax _]].
  unfold tty_chunk_loop. destruct (Z.ltb_spec (Z.of_nat k * TERMINAL_MAX_LINE) (Z.of_nat (length bs))); [|lia].
  rewrite (bind_Ok _ _ _ _ _ (eq_refl : gets current_process s = Ok _ s)).
  erewrite bind_Ok by (eapply tty_set_run; [exact Ht|rewrite (tw_writers t Hwf); lia]).
  set (st := s <| current_tty_state := _ |>).
  set (sz := Z.min (Z.of_nat (length bs) - Z.of_nat k * TERMINAL_MAX_LINE) TERMINAL_MAX_LINE).
  assert (Hp : buf_prefix (drop (Z.to_nat (Z.of_nat k * TERMINAL_MAX_LINE)) bs) sz = Some (piece bs k)).
  { rewrite buf_prefix_Some by (rewrite length_drop; lia). f_equal. unfold piece, sz.
    replace (Z.to_nat (Z.of_nat k * TERMINAL_MAX_LINE)) with (k * Z.to_nat TERMINAL_MAX_LINE)%nat by lia.
    destruct (Z.min_spec (Z.of_nat (length bs) - Z.of_nat k * TERMINAL_MAX_LINE) TERMINAL_MAX_LINE)
      as [[Hlt ->]|[_ ->]]; [|done].
    rewrite !take_ge by (rewrite length_drop; lia). done. }
  rewrite Hp. unfold demand, emit. rewrite (bind_Ok _ _ _ _ _ (eq_refl : ret (piece bs k) st = Ok _ st)).
  erewrite bind_Ok by reflexivity. erewrite bind_Ok by (apply upd_pcb_run; exact Hv).
  eexists. split; [done|]. simpl. rewrite lookup_insert_eq. done.
Qed.

(** ** Main results *)

(** [tty_handle_received] up to the loop over the waiting readers. *)
Lemma tty_handle_received_start i num b rs t s :
  current_tty_state s = Some t -> tty_wf t -> 0 <= i < NUM_TERMINALS ->
  1 <= num <= TERMINAL_MAX_LINE -> arr_get (buffers t) i = Some b ->
  arr_get (curr_readers t) i = Some (Some rs) ->
  tty_handle_received i num s =
    match s_nodes rs with
    | [] => ret tt
    | nodes =>
        max_read <- receive_loop i num nodes 0 ;;
        match max_read with
        | None => ret tt
        | Some max_read =>
            tty_set curr_readers i (Some (mk_set [] 0)) ;;;
            tty_buffer_consume NULL i max_read
        end
    end (s <| current_tty_state :=
      Some (t <| bytes_available := <[Z.to_nat i := num]> (bytes_available t) |>) |>).
Proof.
  intros Ht Hwf Hi Hnum Hb Hrs. unfold tty_handle_received. erewrite bind_Ok by reflexivity.
  rewrite Ht, !Z.gtb_ltb.
  destruct (Z.ltb_spec NUM_TERMINALS i), (Z.ltb_spec TERMINAL_MAX_LINE num), (Z.ltb_spec num 1); try lia.
  cbn [orb]. erewrite bind_Ok by (by eapply tty_get_run).
  erewrite bind_Ok by (eapply tty_set_run; [exact Ht|rewrite (tw_bytes t Hwf); lia]).
  erewrite bind_Ok by (by eapply (tty_get_run curr_readers i)). by erewrite bind_Ok by reflexivity.
Qed.

(** C19: when a line of [num] bytes arrives, every waiting reader is made ready
    in order with what it asked for or as much as there is, no reader is left
    waiting, and the terminal keeps the line less the longest part read; the
    other terminals do not change. *)
Theorem tty_handle_received_serves i num b rs t s :
  mem_ok s -> current_tty_state s = Some t -> tty_wf t -> 0 <= i < NUM_TERMINALS ->
  1 <= num <= TERMINAL_MAX_LINE -> is_Some (process_ready_queue s) ->
  arr_get (buffers t) i = Some b -> arr_get (curr_readers t) i = Some (Some rs) ->
  NoDup (s_nodes rs).*2 -> Forall (reader_ok s) (s_nodes rs).*2 ->
  let line := take (Z.to_nat num) b in
  let l := (s_nodes rs).*2 in
  exists s' t', tty_handle_received i num s = Ok tt s' /\ current_tty_state s' = Some t' /\
    line_taken i line (Z.to_nat (max_taken s l num)) t t' /\ ready_list s' = ready_list s ++ l /\
    (forall p, p ∉ l -> pcbs s' !! p = pcbs s !! p) /\
    (forall p, p ∈ l -> exists v v', pcbs s !! p = Some v /\ pcbs s' !! p = Some v' /\ served line v v').
Proof.
  intros Hm Ht Hwf Hi Hnum Hq Hb Hrs Hnd Hrd line l.
  enough (Hw : wp (tty_handle_received i num) (fun _ s' => exists t', current_tty_state s' = Some t' /\
    line_taken i line (Z.to_nat (max_taken s l num)) t t' /\ ready_list s' = ready_list s ++ l /\
    (forall p, p ∉ l -> pcbs s' !! p = pcbs s !! p) /\
    (forall p, p ∈ l -> exists v v', pcbs s !! p = Some v /\ pcbs s' !! p = Some v' /\ served line v v')) s).
  { destruct (wp_returns _ _ _ Hw) as ([] & s' & E & t' & H). by exists s', t'. }
  destruct (received_wf t i b num Hwf Hi Hb ltac:(lia)) as [Hwf1 Hby1].
  set (t1 := t <| bytes_available := <[Z.to_nat i := num]> (bytes_available t) |>) in *.
  set (s1 := s <| current_tty_state := Some t1 |>).
  destruct (tty_entry t i Hwf Hi) as (b' & n & Hb' & _ & Hlb & _). rewrite Hb in Hb'. injection Hb' as <-.
  assert (Hll : Z.of_nat (length line) = num) by (unfold line; rewrite length_take; lia).
  assert (Hline1 : tty_bytes t1 i = line) by (rewrite Hby1 by lia; by rewrite decide_True).
  unfold wpx. rewrite (tty_handle_received_start i num b rs t s); [|done..]. fold t1 s1.
  assert (Htl : forall j, 0 <= j -> tty_bytes t1 j = if decide (j = i) then line else tty_bytes t j)
    by (intros j Hj; rewrite Hby1 by done; done).
  destruct (s_nodes rs) as [|n0 nodes] eqn:En.
  - exists t1. split; [done|]. split_and!; try done.
    + split_and!; [done| |].
      * change (curr_readers t1) with (curr_readers t). rewrite Hrs. cbn. by rewrite En.
      * intros j Hj. rewrite Htl by done. unfold l, max_taken. cbn. case_decide; [by rewrite drop_0|done].
    + unfold l, ready_list. simpl. by rewrite app_nil_r.
    + by intros p ?%not_elem_of_nil.
  - set (ns := n0 :: nodes) in *. apply wp_bind.
    eapply wp_mono; [apply (wp_receive_loop i num ns 0 b t1 s1); done|].
    intros r s2 (-> & A1 & A2 & A3 & A4 & A5 & A6). fold (max_taken s1 ns.*2 num).
    change (max_taken s1 ns.*2 num) with (max_taken s l num).
    eapply wp_mono; [apply (wp_received_tail i (max_taken s l num) t1 s2 line)|].
    + intros n1. rewrite A2. apply Hm.
    + by rewrite A1.
    + done.
    + done.
    + done.
    + rewrite Hll. apply max_taken_bound; [lia|done].
    + intros E. rewrite E in Hll. simpl in Hll. lia.
    + intros _ s3 (t3 & -> & Hw3 & Hn3 & Hby3). exists t3. split; [done|]. split_and!.
      * split_and!; [done..|]. intros j Hj. rewrite Hby3, Htl by done. by case_decide.
      * unfold ready_list in *. simpl. exact A4.
      * exact A5.
      * exact A6.
Qed.

(** The read of a terminal that has bytes, up to their consumption. *)
Lemma TtyReadHandler_buffered i len buf v t s :
  current_tty_state s = Some t -> tty_wf t -> 0 <= i < NUM_TERMINALS -> tty_bytes t i <> [] ->
  buf <> NULL -> check_memory_validity buf s = Ok v s -> v <> 0 -> 128 <= get_raw_page_no buf <= 255 ->
  TtyReadHandler i buf len s = (tty_buffer_consume buf i len ;;; ret (K_syscall 0)) s.
Proof.
  intros Ht Hwf Hi Hne Hb0 Hok Hv Hpg.
  destruct (tty_entry t i Hwf Hi) as (b0 & n0 & _ & Hn0 & _).
  pose proof (tty_bytes_count t i n0 Hwf Hi Hn0) as Hcnt.
  assert (Hn1 : 1 <= n0) by (rewrite <- Hcnt; destruct (tty_bytes t i); [done|simpl; lia]).
  unfold TtyReadHandler. rewrite (proj2 (Z.eqb_neq buf NULL) Hb0).
  rewrite (bind_Ok _ _ _ _ _ Hok). rewrite (bind_Ok _ _ _ _ _ (eq_refl : gets current_tty_state s = Ok _ s)).
  unfold truthy. rewrite (proj2 (Z.eqb_neq v 0) Hv), Ht, Z.gtb_ltb.
  destruct (Z.ltb_spec (get_raw_page_no buf) 128), (Z.ltb_spec 255 (get_raw_page_no buf)); try lia.
  cbn [negb orb]. unfold tty_id_check. destruct (b2z (i >? NUM_TERMINALS) <? i); cbn [b2z Z.ltb Z.compare];
    rewrite (bind_Ok _ _ _ _ _ (tty_get_run bytes_available i n0 t s Ht Hn0)), Z.gtb_ltb;
    by (destruct (Z.ltb_spec 0 n0); [|lia]).
Qed.

(** C29: a read of a terminal with unread bytes returns 0 at once.  When it asks
    for 1 to [TERMINAL_MAX_LINE] bytes the caller gets the oldest bytes, as many
    as it asked for or as there are, and exactly these are taken from the
    terminal.  When it asks for more than a line, or for none, it gets nothing
    and nothing changes. *)
Theorem TtyReadHandler_consumes i len buf v t r1 s :
  mem_ok s -> current_tty_state s = Some t -> tty_wf t -> 0 <= i < NUM_TERMINALS ->
  tty_bytes t i <> [] -> buf <> NULL ->
  check_memory_validity buf s = Ok v s -> v <> 0 -> 128 <= get_raw_page_no buf <= 255 ->
  read_table s = Some r1 ->
  let k := Z.to_nat (Z.min len (Z.of_nat (length (tty_bytes t i)))) in
  (forall m1 m2, 1 <= len <= TERMINAL_MAX_LINE ->
     hw_store (umem s) (region_0_pages s) r1 buf (zeros len) = Some m1 ->
     hw_store m1 (region_0_pages s) r1 buf (take k (tty_bytes t i)) = Some m2 ->
     exists s' t', TtyReadHandler i buf len s = Ok (K_syscall 0) s' /\
       hw_load (umem s') (region_0_pages s') r1 buf k = Some (take k (tty_bytes t i)) /\
       current_tty_state s' = Some t' /\ tty_wf t' /\
       (forall j, 0 <= j -> tty_bytes t' j = if decide (j = i) then drop k (tty_bytes t i) else tty_bytes t j)) /\
  (len < 1 \/ TERMINAL_MAX_LINE < len -> TtyReadHandler i buf len s = Ok (K_syscall 0) s).
Proof.
  intros Hm Ht Hwf Hi Hne Hb0 Hok Hv Hpg Hr k.
  pose proof (TtyReadHandler_buffered i len buf v t s Ht Hwf Hi Hne Hb0 Hok Hv Hpg) as Eh.
  split.
  - intros m1 m2 Hlen Hs1 Hs2. assert (Hc : consume_ready s t i len) by done.
    destruct (wp_returns _ _ _ (wp_consume_user i len buf t v r1 m1 m2 s Hc Hb0 Hok Hv Hr Hs1 Hs2))
      as ([] & s' & E & b & n & Es & Hwf' & Hby).
    exists s', (with_line t i b n). split; [by rewrite Eh, (bind_Ok _ _ _ _ _ E)|].
    split_and!; [|by rewrite Es|done|done]. rewrite Es. simpl.
    replace k with (length (take k (tty_bytes t i))) at 1 by (rewrite length_take; lia).
    by eapply hw_load_store.
  - intros Hlen. rewrite Eh. unfold tty_buffer_consume. rewrite bind_assoc. erewrite bind_Ok by reflexivity.
    rewrite Ht, Z.gtb_ltb.
    destruct (Z.ltb_spec len 1), (Z.ltb_spec TERMINAL_MAX_LINE len); try lia; cbn [orb]; done.
Qed.

(** C40: the terminal id of a read is not checked: the guard the code has is
    false for every id, and an id that is out of range indexes the array of
    byte counts out of bounds. *)
Theorem TtyReadHandler_unchecked_id i buf len v t s :
  current_tty_state s = Some t -> tty_wf t -> i < 0 \/ NUM_TERMINALS <= i ->
  buf <> NULL -> check_memory_validity buf s = Ok v s -> v <> 0 -> 128 <= get_raw_page_no buf <= 255 ->
  (forall id, tty_id_check id = false) /\ TtyReadHandler i buf len s = Undef.
Proof.
  intros Ht Hwf Hi Hb0 Hok Hv Hpg.
  assert (Hchk : forall id, tty_id_check id = false).
  { intros id. unfold tty_id_check. by destruct (b2z (id >? NUM_TERMINALS) <? id). }
  split; [done|]. unfold TtyReadHandler. rewrite (proj2 (Z.eqb_neq buf NULL) Hb0).
  rewrite (bind_Ok _ _ _ _ _ Hok). rewrite (bind_Ok _ _ _ _ _ (eq_refl : gets current_tty_state s = Ok _ s)).
  unfold truthy. rewrite (proj2 (Z.eqb_neq v 0) Hv), Ht, Z.gtb_ltb, Hchk.
  destruct (Z.ltb_spec (get_raw_page_no buf) 128), (Z.ltb_spec 255 (get_raw_page_no buf)); try lia.
  cbn [negb orb]. unfold bind.
  rewrite (tty_get_undef bytes_available i t s Ht); [done|].
  apply arr_get_None. rewrite (tw_bytes t Hwf). lia.
Qed.

(** What a writer of terminal [i] does each time it gets the CPU: [m] sends the
    next piece, blocks, and goes on, when it is resumed in whatever state the
    others have left, with [tty_chunk_resume] from the [K_tty_chunk] it was
    suspended with; when all of [bs] is out it releases the terminal. *)
Inductive transmits (i : Z) : M kst kont -> list byte -> Prop :=
| transmits_end m :
    (forall s, m s = tty_write_finish i s) -> transmits i m []
| transmits_piece m buffer len start bytes rest :
    (forall s t v, current_tty_state s = Some t -> tty_wf t -> pcbs s !! current_process s = Some v ->
       exists s1, m s = ScheduleNextProcess (K_tty_chunk i buffer len start) s1 /\
         trace s1 = trace s ++ [IoTtyTransmit i bytes] /\
         p_state <$> pcbs s1 !! current_process s1 = Some BLOCKED /\
         current_process s1 = current_process s /\ process_ready_queue s1 = process_ready_queue s) ->
    1 <= Z.of_nat (length bytes) <= TERMINAL_MAX_LINE ->
    transmits i (tty_chunk_resume i buffer len start) rest ->
    transmits i m (bytes ++ rest).

(** The loop from piece [k] on. *)
Lemma transmits_from i bs k :
  0 <= i < NUM_TERMINALS -> (k <= num_pieces bs)%nat ->
  transmits i (tty_chunk_loop i bs (Z.of_nat (length bs)) (Z.of_nat k * TERMINAL_MAX_LINE))
    (drop (k * Z.to_nat TERMINAL_MAX_LINE) bs).
Proof.
  intros Hi. pose proof hw_terminals as [_ [Hmax _]]. pose proof (num_pieces_enough bs) as Hen.
  remember (num_pieces bs - k)%nat as n eqn:Hn. revert k Hn. induction n as [|n IH]; intros k Hn Hk.
  - rewrite drop_ge by nia. apply transmits_end. intros s. unfold tty_chunk_loop.
    destruct (Z.ltb_spec (Z.of_nat k * TERMINAL_MAX_LINE) (Z.of_nat (length bs))); [nia|done].
  - pose proof (piece_within bs k) as Hin.
    assert (E : drop (k * Z.to_nat TERMINAL_MAX_LINE) bs =
      piece bs k ++ drop (S k * Z.to_nat TERMINAL_MAX_LINE) bs).
    { unfold piece. replace (S k * Z.to_nat TERMINAL_MAX_LINE)%nat
        with (k * Z.to_nat TERMINAL_MAX_LINE + Z.to_nat TERMINAL_MAX_LINE)%nat by lia.
      rewrite <- drop_drop. symmetry. apply take_drop. }
    rewrite E. eapply transmits_piece.
    + intros s t v Ht Hwf Hv. apply (tty_chunk_round i bs k v t s Ht Hwf Hi Hv). lia.
    + unfold piece. rewrite length_take, length_drop. lia.
    + unfold tty_chunk_resume. replace (Z.of_nat k * TERMINAL_MAX_LINE + TERMINAL_MAX_LINE)
        with (Z.of_nat (S k) * TERMINAL_MAX_LINE) by lia. apply IH; lia.
Qed.

(** C20: a write to an available terminal copies the buffer, takes the terminal
    and transmits exactly these bytes, in order, in pieces of at most
    [TERMINAL_MAX_LINE] bytes: it blocks after every piece and, whatever the
    other processes have done in between (the terminals stay well-formed,
    [TtyInvariant]), sends the next one when it is resumed; after the last it releases the terminal, which is available again
    and without a writer when nobody waits for it. *)
Theorem tty_write_transmits i buf bs a t v r1 s :
  mem_ok s -> current_tty_state s = Some t -> tty_wf t -> 0 <= i < NUM_TERMINALS ->
  arr_get (availability t) i = Some a -> a <> 0 -> pcbs s !! current_process s = Some v ->
  read_table s = Some r1 ->
  hw_load (umem s) (region_0_pages s) r1 buf (length bs) = Some bs ->
  (exists m s0 t0, tty_write_loop i buf (Z.of_nat (length bs)) s = m s0 /\ transmits i m bs /\
     trace s0 = trace s /\ current_tty_state s0 = Some t0 /\ tty_wf t0 /\
     arr_get (availability t0) i = Some 0 /\ arr_get (curr_writers t0) i = Some (current_process s) /\
     pcbs s0 = pcbs s /\ current_process s0 = current_process s) /\
  (forall s1 t1 v1 q, current_tty_state s1 = Some t1 -> tty_wf t1 -> pcbs s1 !! current_process s1 = Some v1 ->
     arr_get (write_queues t1) i = Some (Some q) -> q_data q = [] ->
     exists s' t', tty_write_finish i s1 = Ok (K_syscall 0) s' /\ current_tty_state s' = Some t' /\
       arr_get (availability t') i = Some 1 /\ arr_get (curr_writers t') i = Some NULL).
Proof.
  intros Hm Ht Hwf Hi Ha Ha0 Hv Hr Hl. split.
  - exists (tty_chunk_loop i bs (Z.of_nat (length bs)) 0).
    pose proof (transmits_from i bs 0 Hi (Nat.le_0_l _)) as Htr.
    unfold tty_write_loop. rewrite (bind_Ok _ _ _ _ _ (tty_get_run availability i a t s Ht Ha)).
    unfold truthy. rewrite (proj2 (Z.eqb_neq a 0) Ha0). cbn [negb].
    unfold malloc. erewrite bind_Ok by reflexivity.
    rewrite (proj2 (Z.eqb_neq (malloc_at s (mallocs s)) NULL) (Hm _)).
    set (s0 := s <| mallocs ::= S |>).
    erewrite bind_Ok by (apply (load_user_run s0 r1 buf _ bs); [lia|exact Hr|by rewrite Nat2Z.id]).
    erewrite bind_Ok by reflexivity.
    erewrite bind_Ok by (apply (tty_set_run curr_writers i _ t s0); [exact Ht|rewrite (tw_writers t Hwf); lia]).
    erewrite bind_Ok by (eapply (tty_set_run availability i 0); [reflexivity|simpl; rewrite (tw_avail t Hwf); lia]).
    eexists _, _. split; [reflexivity|]. split; [exact Htr|].
    split_and!; [done|done| |apply arr_get_insert_eq; simpl; rewrite (tw_avail t Hwf); lia
      |apply arr_get_insert_eq; simpl; rewrite (tw_writers t Hwf); lia|done|done].
    destruct Hwf. split; simpl; rewrite ?length_insert; done.
  - intros s1 t1 v1 q Ht1 Hwf1 Hv1 Hq Hd. unfold tty_write_finish.
    erewrite bind_Ok by reflexivity. erewrite bind_Ok by (apply upd_pcb_run; exact Hv1).
    erewrite bind_Ok by (eapply (tty_set_run availability i 1 t1); [exact Ht1|rewrite (tw_avail t1 Hwf1); lia]).
    erewrite bind_Ok by (eapply (tty_set_run curr_writers i NULL); [reflexivity|simpl; rewrite (tw_writers t1 Hwf1); lia]).
    erewrite bind_Ok by (eapply (tty_get_run write_queues i (Some q)); [reflexivity|exact Hq]).
    rewrite (spec_queue_pop_nil q Hd).
    erewrite bind_Ok by (eapply (tty_set_run write_queues i (Some q)); [reflexivity|simpl; rewrite (tw_queues t1 Hwf1); lia]).
    eexists _, _. split; [reflexivity|]. split; [reflexivity|]. split; simpl.
    + apply arr_get_insert_eq. simpl. rewrite (tw_avail t1 Hwf1). lia.
    + apply arr_get_insert_eq. simpl. rewrite (tw_writers t1 Hwf1). lia.
Qed.
End Facts.

(** ** Witnesses on the demo machine *)
Section Witnesses.
Import DemoHardware Demo.

(** Terminal 0 holds [line]; process 24 waits for a line of it. *)
Definition demo_buffer : list byte := [x61; x62; x63] ++ replicate 13 x00.
Definition demo_tty (n : Z) : tty_state_t :=
  mk_tty [Some empty_queue; Some empty_queue] [1; 1] [0; 0]
    [Some (mk_set [(2, 24)] 1); Some empty_set] [demo_buffer; demo_buffer] [n; 0].
Definition demo_tty_proc (pid : Z) : pcb_t :=
  mk_pcb RUNNING 0 pid 0 0 0 0 NULL None None (Some (replicate 128 (mk_pte true 3 30)))
    None None None None 0 0 2 0 0.
Definition demo_tty_state (n : Z) : kst := blank
  <| pcbs := {[ 20 := demo_tty_proc 1; 24 := demo_tty_proc 2 ]} |>
  <| current_process := 20 |> <| reg_ptbr1 := Pt_pcb 20 |>
  <| current_tty_state := Some (demo_tty n) |>.

Lemma demo_tty_wf n : 0 <= n <= 16 -> tty_wf (demo_tty n).
Proof. intros Hn. split; try done; repeat constructor; simpl; lia. Qed.

Lemma demo_tty_addr n : check_memory_validity 2064 (demo_tty_state n) = Ok 1 (demo_tty_state n).
Proof.
  apply (check_memory_validity_mapped _ (replicate 128 (mk_pte true 3 30)) _ (mk_pte false 0 0) (mk_pte true 3 30));
    [unfold INT_MAX; lia|by vm_compute|reflexivity..].
Qed.

Lemma tty_handle_received_serves_witness :
  exists s' t', tty_handle_received 0 3 (demo_tty_state 0) = Ok tt s' /\
    current_tty_state s' = Some t' /\ ready_list s' = [24].
Proof.
  destruct (tty_handle_received_serves 0 3 demo_buffer (mk_set [(2, 24)] 1) (demo_tty 0) (demo_tty_state 0))
    as (s' & t' & E & H1 & _ & H2 & _);
    [by apply demo_mem_ok|reflexivity|by apply demo_tty_wf|done|done|by eexists|reflexivity|reflexivity
    |by apply NoDup_singleton| |].
  - apply Forall_singleton. split; [done|]. by exists (demo_tty_proc 2).
  - exact (ex_intro _ s' (ex_intro _ t' (conj E (conj H1 H2)))).
Defined.

Lemma TtyReadHandler_consumes_witness :
  exists s' t', TtyReadHandler 0 2064 1 (demo_tty_state 3) = Ok (K_syscall 0) s' /\
    current_tty_state s' = Some t' /\ tty_bytes t' 0 = [x62; x63].
Proof.
  destruct (hw_store (umem (demo_tty_state 3)) (region_0_pages blank) (replicate 128 (mk_pte true 3 30))
    2064 [x00]) as [m1|] eqn:E1; [|by vm_compute in E1].
  vm_compute in E1. injection E1 as E1.
  destruct (hw_store m1 (region_0_pages blank) (replicate 128 (mk_pte true 3 30))
    2064 [x61]) as [m2|] eqn:E2; [|rewrite <- E1 in E2; by vm_compute in E2].
  destruct (TtyReadHandler_consumes 0 1 2064 1 (demo_tty 3) (replicate 128 (mk_pte true 3 30))
    (demo_tty_state 3)) as [H _]; [by apply demo_mem_ok|reflexivity|by apply demo_tty_wf|done|done|done
    |apply demo_tty_addr|done|vm_compute; by split|reflexivity|].
  destruct (H m1 m2) as (s' & t' & E & _ & H1 & _ & H2); [done|rewrite <- E1; vm_compute; reflexivity|exact E2|].
  exists s', t'. split; [exact E|]. split; [exact H1|]. exact (H2 0 ltac:(done)).
Defined.

Lemma TtyReadHandler_unchecked_id_witness : TtyReadHandler 2 2064 1 (demo_tty_state 0) = Undef.
Proof.
  apply (TtyReadHandler_unchecked_id 2 2064 1 1 (demo_tty 0) (demo_tty_state 0));
    [reflexivity|by apply demo_tty_wf|by right|done|apply demo_tty_addr|done|vm_compute; by split].
Defined.

(** Process 20 writes 20 bytes: two pieces. *)
Lemma tty_write_transmits_witness :
  exists m s0, tty_write_loop 0 2064 20 (demo_tty_state 0) = m s0 /\ transmits 0 m (replicate 20 x00).
Proof.
  destruct (tty_write_transmits 0 2064 (replicate 20 x00) 1 (demo_tty 0) (demo_tty_proc 1)
    (replicate 128 (mk_pte true 3 30)) (demo_tty_state 0)) as [(m & s0 & t0 & E & H & _) _];
    [by apply demo_mem_ok|reflexivity|by apply demo_tty_wf|done|reflexivity|done|reflexivity|reflexivity
    |by vm_compute|].
  exact (ex_intro _ m (ex_intro _ s0 (conj E H))).
Defined.
End Witnesses.
