(* ===== verification/Process.v ===== *)
(** * Processes ([syscall_handlers/process_coordination.c])

    Exit, wait, brk, delay and getpid ([ForkHandler] is in [Fork],
    [ExecHandler] in [Loader]).

    Main results: a child that exits wakes a waiting parent with its status
    and gives its frames back, and becomes a zombie otherwise; reaping a
    zombie uses a PCB after it was freed; the [waiting] flag is never cleared;
    growing the break maps fresh frames, shrinking it hits the kernel's page
    table. *)

From S2P Require Import Prelude Hardware Containers KState Memory Pcb Sched Ipc Pipe.
From stdpp Require Import list gmap fin_maps.
From Stdlib Require Import Strings.Byte.

#[local] Open Scope Z_scope.

Section Defs.
Context {hw : Hardware}.

(** The process-id helpers of the kernel library, on the state. *)
Definition take_pid : M kst Z :=
  ps <- gets pids ;;
  let '(pid, ps') := helper_new_pid ps in
  modify (fun s => s <| pids := ps' |>) ;;;
  ret pid.
Definition retire_pid (pid : Z) : M kst unit :=
  modify (fun s => s <| pids ::= fun ps => helper_retire_pid ps pid |>).

(** [current_process->page_table[i]] and assignment to it. *)
Definition get_page (i : Z) : M kst pte :=
  cur <- gets current_process ;;
  v <- load_pcb cur ;;
  pt <- demand (p_page_table v) ;;
  demand (arr_get pt i).
Definition set_page (i : Z) (e : pte) : M kst unit :=
  cur <- gets current_process ;;
  v <- load_pcb cur ;;
  pt <- demand (p_page_table v) ;;
  pt' <- demand (arr_set pt i e) ;;
  store_pcb cur (v <| p_page_table := Some pt' |>).

(** ** Exit *)

(** [set_pop(parent->children, pid)] *)
Definition drop_child (parent : ptr) (pid : Z) : M kst unit :=
  upd_pcb parent (fun v => v <| p_children := (spec_set_pop (p_children v) pid).2 |>).

(** The child's end when its parent waits. *)
Definition exit_wake_parent (cur parent : ptr) : M kst unit :=
  upd_pcb parent (fun v => v <| p_state := READY |>) ;;;
  push_to process_ready_queue parent ;;;
  pv <- load_pcb parent ;;
  take_from blocked_pcbs (p_pid pv) ;;;
  pcbFree cur ;;;
  modify (fun s => s <| current_process := NULL |>).

(** The child's end when its parent does not wait. *)
Definition exit_zombie (cur parent : ptr) : M kst unit :=
  v <- load_pcb cur ;;
  pv <- load_pcb parent ;;
  do '(_, zombies) <- set_insert (p_zombies pv) (p_pid v) cur ;;
  upd_pcb parent (fun pv => pv <| p_zombies := zombies |>) ;;;
  insert_into dead_pcbs (p_pid v) cur ;;;
  ret tt.

(** The end of the handler: the parent hears of it, the rest is freed. *)
Definition exit_report (cur parent_pcb : ptr) (status : Z) : M kst unit :=
  pv <- load_pcb parent_pcb ;;
  (if truthy (p_waiting pv) then exit_wake_parent cur parent_pcb
   else exit_zombie cur parent_pcb) ;;;
  cur <- gets current_process ;;
  pcbExit cur ;;;
  modify (fun s => s <| current_process := NULL |>) ;;;
  upd_pcb parent_pcb (fun pv => pv <| p_child_exit_status := status |>).

(** [current_process] is dereferenced before it is compared with NULL. *)
Definition ExitHandler (status : Z) : M kst unit :=
  cur <- gets current_process ;;
  load_pcb cur ;;;
  if cur =? NULL then ret tt else
  upd_pcb cur (fun v => v <| p_exit_status := status |> <| p_state := DEAD |>) ;;;
  pid <- current_pid ;;
  retire_pid pid ;;;
  pcbOrphanChildren cur ;;;
  init <- gets init_process ;;
  init_v <- load_pcb init ;;
  if pid =? p_pid init_v then halt else
  v <- load_pcb cur ;;
  let parent_pcb := p_parent v in
  if parent_pcb =? NULL then ret tt else
  drop_child parent_pcb pid ;;;
  exit_report cur parent_pcb status.

(** ** Wait *)

(** One node of the zombie list: the PCB is freed through [dead_pcbs] and
    then read and freed again. *)
Definition reap_zombie (item : ptr) : M kst unit :=
  v <- load_pcb item ;;
  zombie_pcb <- take_from dead_pcbs (p_pid v) ;;
  (match zombie_pcb with Some z => pcbFree z | None => ret tt end) ;;;
  v <- load_pcb item ;;
  retire_pid (p_pid v) ;;;
  pcbFree item.

Definition store_status (store : bool) (status_ptr : ptr) (status : Z) : M kst unit :=
  if store then store_user status_ptr (int_bytes status) else ret tt.

(** The loop that blocks until a child exits, and the return from it. *)
Definition wait_loop (status_ptr : ptr) (store : bool) : M kst kont :=
  cur <- gets current_process ;;
  v <- load_pcb cur ;;
  if truthy (p_waiting v) && (p_state v =? BLOCKED)
  then ScheduleNextProcess (K_wait status_ptr store)
  else
    store_status store status_ptr (p_child_exit_status v) ;;;
    ret (K_syscall 0).

Definition WaitHandler (status_ptr : ptr) : M kst kont :=
  cur <- gets current_process ;;
  if cur =? NULL then ret (K_syscall ERROR) else
  v <- load_pcb cur ;;
  match p_children v, p_zombies v with
  | Some children, Some zombies =>
      store <- (if status_ptr =? NULL then ret false
                else ok <- check_memory_validity status_ptr ;; ret (truthy ok)) ;;
      match s_nodes zombies with
      | (_, first) :: _ =>
          zv <- load_pcb first ;;
          let exit_status := p_exit_status zv in
          for_each (R:=unit) (s_nodes zombies) (fun n => reap_zombie n.2 ;;; ret None) ;;;
          upd_pcb cur (fun v => v <| p_zombies := Some (mk_set [] (s_node_count zombies)) |>) ;;;
          store_status store status_ptr exit_status ;;;
          ret (K_syscall 0)
      | [] =>
          match s_nodes children with
          | [] => ret (K_syscall ERROR)
          | _ =>
              upd_pcb cur (fun v => v <| p_waiting := 1 |> <| p_state := BLOCKED |>) ;;;
              wait_loop status_ptr store
          end
      end
  | _, _ => ret (K_syscall ERROR)
  end.

(** ** The rest *)

Definition GetPidHandler : M kst Z := current_pid.

(** One page of a growing region 1: mapped already, or mapped to a frame of
    the free queue; [Some err] when there is none. *)
Definition alloc_page {R} (err : R) (pt_index : Z) : M kst (option R) :=
  e <- get_page pt_index ;;
  if pte_valid e then ret None else
  f <- pop_from free_frame_queue ;;
  match f with
  | None => ret (Some err)
  | Some f =>
      pfn <- deref_frame f ;;
      set_page pt_index (mk_pte true (Z.lor PROT_READ PROT_WRITE) pfn) ;;;
      ret None
  end.

(** The loop that raises the break. *)
Definition brk_grow (first_invalid_page_index addr_page_index : Z) : M kst (option Z) :=
  for_each (range_up first_invalid_page_index (addr_page_index + 1)) (alloc_page ERROR).

(** The loop that lowers it: [if (page_table[pt_index].valid = 1)] sets the
    bit, the entry cleared is region 0's, and what is queued is the address
    of a local variable. *)
Definition brk_shrink (first_valid_page_index addr_page_index : Z) : M kst (option Z) :=
  for_each (range_down first_valid_page_index addr_page_index) (fun pt_index =>
    e <- get_page pt_index ;;
    set_page pt_index (mk_pte true (pte_prot e) (pte_pfn e)) ;;;
    e0 <- get_region_0 pt_index ;;
    set_region_0 pt_index (mk_pte false (pte_prot e0) (pte_pfn e0)) ;;;
    push_to free_frame_queue FrameLocal ;;;
    emit (IoTlbFlush TLB_FLUSH_1) ;;;
    ret None).

(** The index of an address's page in a region 1 table. *)
Definition region_1_index (a : Z) : Z := Z.quot (DOWN_TO_PAGE a) PAGESIZE - NUM_PAGES.

Definition BrkHandler (addr : ptr) : M kst Z :=
  cur <- gets current_process ;;
  v <- load_pcb cur ;;
  uc <- demand (p_usr_ctx v) ;;
  if wrapu32 (DOWN_TO_PAGE (uc_sp uc)) <=? wrapu32 addr then ret ERROR else
  let brk := p_current_brk v in
  r <- (if wrapu32 addr >? wrapu32 brk then brk_grow (region_1_index brk - 1) (region_1_index addr)
        else if wrapu32 addr <? wrapu32 brk
        then brk_shrink (region_1_index brk - 1) (region_1_index addr)
        else ret None) ;;
  match r with
  | Some rc => ret rc
  | None =>
      (if wrapu32 addr =? wrapu32 brk then ret tt
       else upd_pcb cur (fun v => v <| p_current_brk := UP_TO_PAGE addr |>)) ;;;
      emit (IoTlbFlush TLB_FLUSH_1) ;;;
      ret 0
  end.

Definition DelayHandler (clock_ticks : Z) : M kst kont :=
  if clock_ticks =? 0 then ret (K_syscall 0)
  else if clock_ticks <? 0 then ret (K_syscall ERROR)
  else
    cur <- gets current_process ;;
    upd_pcb cur (fun v => v <| p_delay_ticks := clock_ticks |> <| p_state := DELAYED |>) ;;;
    ScheduleNextProcess (K_syscall 0).
End Defs.

(** ** Exit *)

(** The children and zombies of a process. *)
Definition family (v : pcb_t) : list (Z * ptr) :=
  default [] (s_nodes <$> p_children v) ++ default [] (s_nodes <$> p_zombies v).

(** The PCB at [a] once the family of [v] belongs to init. *)
Definition reparented {hw : Hardware} (s : kst) (v : pcb_t) (a : ptr) : option pcb_t :=
  (fun w => if decide (a ∈ (family v).*2) then w <| p_parent := init_process s |> else w) <$> pcbs s !! a.

Definition exited (v : pcb_t) (status : Z) : pcb_t :=
  v <| p_exit_status := status |> <| p_state := DEAD |>.

(** The parent's PCB without the child [pid]. *)
Definition childless (pv : pcb_t) (pid : Z) : pcb_t :=
  pv <| p_children := (spec_set_pop (p_children pv) pid).2 |>.

(** A process that is not init exits; [parent] is its parent. *)
Record exiting {hw : Hardware} (s : kst) (cur parent : ptr) (v pv : pcb_t) : Prop := {
  ex_cur : current_process s = cur;
  ex_cur_nn : cur <> NULL;
  ex_v : pcbs s !! cur = Some v;
  ex_parent : p_parent v = parent;
  ex_parent_nn : parent <> NULL;
  ex_other : parent <> cur;
  ex_pv : pcbs s !! parent = Some pv;
  ex_init : exists iv, pcbs s !! init_process s = Some iv /\ p_pid iv <> p_pid v;
  ex_family : Forall (fun n => is_Some (pcbs s !! n.2) /\ n.2 <> cur /\ n.2 <> parent) (family v);
  ex_mem : mem_ok s;
  ex_tables : tables_wf v;
  ex_frames : is_Some (free_frame_queue s);
  ex_ready : is_Some (process_ready_queue s) }.

Section Exit.
Context {hw : Hardware}.
Context (s : kst) (cur parent : ptr) (v pv : pcb_t) (status : Z).
Hypothesis Hex : exiting s cur parent v pv.

Lemma not_family a : a = cur \/ a = parent -> a ∉ (family v).*2.
Proof.
  intros Ha [n [-> Hn]]%list_elem_of_fmap. pose proof (ex_family _ _ _ _ _ Hex) as Hf.
  rewrite Forall_forall in Hf. destruct (Hf n Hn) as (_ & H1 & H2). by destruct Ha.
Qed.

(** The state in which [exit_report] runs. *)
Definition exit_mid (m : gmap Z pcb_t) : kst :=
  s <| pids := helper_retire_pid (pids s) (p_pid v) |> <| pcbs := m |>.

Lemma exit_prefix :
  exists m, ExitHandler status s = exit_report cur parent status (exit_mid m) /\
    m !! cur = Some (exited v status) /\ m !! parent = Some (childless pv (p_pid v)) /\
    forall a, a <> cur -> a <> parent -> m !! a = reparented s v a.
Proof.
  destruct Hex. destruct ex_init0 as (iv & Hiv & Hpid). unfold ExitHandler.
  erewrite bind_Ok by reflexivity. rewrite ex_cur0.
  rewrite (bind_Ok _ _ _ _ _ (load_pcb_run _ _ _ ex_v0)), (proj2 (Z.eqb_neq cur NULL) ex_cur_nn0).
  rewrite (bind_Ok _ _ _ _ _ (upd_pcb_run _ _ _ _ ex_v0)). fold (exited v status).
  set (s1 := s <| pcbs ::= _ |>).
  assert (Hv1 : pcbs s1 !! cur = Some (exited v status)) by apply lookup_insert_eq.
  assert (Ecp : current_pid s1 = Ok (p_pid v) s1).
  { unfold current_pid. erewrite bind_Ok by reflexivity. change (current_process s1) with (current_process s).
    rewrite ex_cur0. by rewrite (bind_Ok _ _ _ _ _ (load_pcb_run _ _ _ Hv1)). }
  rewrite (bind_Ok _ _ _ _ _ Ecp). unfold retire_pid. erewrite bind_Ok by reflexivity.
  set (s2 := s1 <| pids ::= _ |>).
  destruct (pcbOrphanChildren_run cur (exited v status) s2 Hv1) as (m1 & E1 & H1).
  { intros n Hn. rewrite Forall_forall in ex_family0. destruct (ex_family0 n Hn) as ([w Hw] & Hne & _).
    exists w. change (pcbs s2) with (<[cur := exited v status]> (pcbs s)). by rewrite lookup_insert_ne. }
  change (default [] _ ++ default [] _) with (family v) in H1.
  change (pcbs s2) with (<[cur := exited v status]> (pcbs s)) in H1.
  change (init_process s2) with (init_process s) in H1.
  rewrite (bind_Ok _ _ _ _ _ E1). erewrite bind_Ok by reflexivity.
  assert (Hlook : forall a w, pcbs s !! a = Some w -> a <> cur -> exists w', m1 !! a = Some w' /\ p_pid w' = p_pid w).
  { intros a w Hw Hne. rewrite H1, lookup_insert_ne by done. rewrite Hw. simpl.
    eexists. split; [done|]. by case_decide. }
  destruct (Hlook _ _ Hiv) as (iv' & Hiv' & Epid); [intros E; rewrite E in Hiv; congruence|].
  erewrite bind_Ok by (apply load_pcb_run; exact Hiv'). rewrite Epid.
  destruct (Z.eqb_spec (p_pid v) (p_pid iv)) as [|_]; [congruence|].
  assert (Hc1 : m1 !! cur = Some (exited v status)).
  { rewrite H1, lookup_insert_eq. simpl. rewrite decide_False by (apply not_family; by left). done. }
  assert (Hp1 : m1 !! parent = Some pv).
  { rewrite H1, lookup_insert_ne by done. rewrite ex_pv0. simpl.
    rewrite decide_False by (apply not_family; by right). done. }
  erewrite bind_Ok by (apply load_pcb_run; exact Hc1). cbv zeta.
  change (p_parent (exited v status)) with (p_parent v). rewrite ex_parent0.
  rewrite (proj2 (Z.eqb_neq parent NULL) ex_parent_nn0). unfold drop_child.
  erewrite bind_Ok by (apply upd_pcb_run; exact Hp1). fold (childless pv (p_pid v)).
  exists (<[parent := childless pv (p_pid v)]> m1). split; [f_equal|split_and!].
  - by rewrite lookup_insert_ne.
  - apply lookup_insert_eq.
  - intros a Ha Hb. rewrite lookup_insert_ne, H1, lookup_insert_ne by done. done.
Qed.
End Exit.

(** The map a goal looks up, up to conversion. *)
Ltac lookup_as m := lazymatch goal with |- ?l !! ?a = _ => change (l !! a) with (m !! a) end.

Section ExitEffects.
Context {hw : Hardware}.

(** What an exit leaves as it is. *)
Definition exit_kept (s s' : kst) : Prop :=
  region_0_pages s' = region_0_pages s /\ idle_process s' = idle_process s /\
  malloc_at s' = malloc_at s /\ is_Some (process_ready_queue s').

(** The parent's PCB after a child that it waited for has exited. *)
Definition woken_parent (pv : pcb_t) (pid status : Z) : pcb_t :=
  childless pv pid <| p_state := READY |> <| p_child_exit_status := status |>.

Lemma exit_wake_run s cur parent v pv status :
  exiting s cur parent v pv -> p_waiting pv <> 0 ->
  exists s', ExitHandler status s = Ok tt s' /\ current_process s' = NULL /\
    ready_list s' = ready_list s ++ [parent] /\
    blocked_pcbs s' = (spec_set_pop (blocked_pcbs s) (p_pid pv)).2 /\
    pcbs s' !! parent = Some (woken_parent pv (p_pid v) status) /\ pcbs s' !! cur = None /\
    free_frames s' = free_frames s ++ pcb_frames v /\ umem s' = umem s /\
    exit_kept s s' /\
    (forall a, a <> cur -> a <> parent -> pcbs s' !! a = reparented s v a).
Proof.
  intros Hex Hw. destruct (exit_prefix s cur parent v pv status Hex) as (m & -> & Hc & Hp & Ho).
  destruct Hex. destruct ex_frames0 as [fq Hfq]. destruct ex_ready0 as [rq Hrq].
  set (s2 := exit_mid s v m). unfold exit_report.
  rewrite (bind_Ok _ _ _ _ _ (load_pcb_run parent _ s2 Hp)). change (p_waiting (childless _ _)) with (p_waiting pv).
  unfold truthy. rewrite (proj2 (Z.eqb_neq _ 0) Hw). cbn [negb]. unfold exit_wake_parent.
  rewrite bind_assoc, (bind_Ok _ _ _ _ _ (upd_pcb_run parent _ _ s2 Hp)).
  rewrite bind_assoc. erewrite bind_Ok
    by (eapply (push_to_run process_ready_queue rq); [exact Hrq|by apply Z.eqb_neq|apply ex_mem0]).
  rewrite bind_assoc. erewrite bind_Ok by (apply load_pcb_run; simpl; apply lookup_insert_eq).
  rewrite bind_assoc, (bind_Ok _ _ _ _ _ (take_from_run blocked_pcbs _ _)).
  match goal with |- context [bind _ _ ?st] => set (s3 := st) end.
  assert (Hc3 : pcbs s3 !! cur = Some (exited v status)).
  { change (pcbs s3) with (<[parent := childless pv (p_pid v) <| p_state := READY |>]> m).
    by rewrite lookup_insert_ne. }
  destruct (pcbFree_run cur (exited v status) s3 fq) as (k & E); [done|done|exact Hfq|exact ex_mem0|exact ex_tables0|].
  rewrite bind_assoc, (bind_Ok _ _ _ _ _ E). erewrite bind_Ok by reflexivity.
  erewrite bind_Ok by reflexivity. cbn [current_process setf set_current_process].
  erewrite bind_Ok by reflexivity. erewrite bind_Ok by reflexivity.
  erewrite upd_pcb_run.
  2:{ lookup_as (delete cur (<[parent := childless pv (p_pid v) <| p_state := READY |>]> m)).
      rewrite lookup_delete_ne by done. apply lookup_insert_eq. }
  eexists. split; [done|]. split_and!; try done.
  - unfold ready_list. rewrite Hrq. exact (q_data_append rq parent).
  - apply lookup_insert_eq.
  - lookup_as (<[parent := woken_parent pv (p_pid v) status]> (delete cur (<[parent := childless pv (p_pid v) <| p_state := READY |>]> m))).
    by rewrite lookup_insert_ne, lookup_delete_eq.
  - exact (free_frames_push s3 fq k (delete cur (pcbs s3)) (pcb_frames (exited v status)) Hfq).
  - intros a Ha Hb. lookup_as (<[parent := woken_parent pv (p_pid v) status]> (delete cur (<[parent := childless pv (p_pid v) <| p_state := READY |>]> m))).
    rewrite lookup_insert_ne, lookup_delete_ne, lookup_insert_ne by done. by apply Ho.
Qed.

(** The parent's PCB after a child became a zombie. *)
Definition zombie_parent (pv : pcb_t) (zs : set_t ptr) (pid cur status : Z) : pcb_t :=
  childless pv pid <| p_zombies := Some (mk_set ((pid, cur) :: s_nodes zs) (s_node_count zs + 1)) |>
    <| p_child_exit_status := status |>.

(** [cur] can be put into the set. *)
Definition insertable (pid cur : Z) (zs : set_t ptr) : Prop :=
  insert_allocates (Some zs) pid cur = true.

Lemma exit_zombie_run s cur parent v pv zs ds status :
  exiting s cur parent v pv -> p_waiting pv = 0 ->
  p_zombies pv = Some zs -> insertable (p_pid v) cur zs ->
  dead_pcbs s = Some ds -> insertable (p_pid v) cur ds ->
  exists s', ExitHandler status s = Ok tt s' /\ current_process s' = NULL /\
    ready_list s' = ready_list s /\ mem_ok s' /\ is_Some (free_frame_queue s') /\
    dead_pcbs s' = Some (mk_set ((p_pid v, cur) :: s_nodes ds) (s_node_count ds + 1)) /\
    pcbs s' !! parent = Some (zombie_parent pv zs (p_pid v) cur status) /\
    pcbs s' !! cur = Some (dumped (exited v status)) /\
    free_frames s' = free_frames s ++ pcb_frames v /\
    (forall a, a <> cur -> a <> parent -> pcbs s' !! a = reparented s v a) /\ exit_kept s s'.
Proof.
  intros Hex Hw Hzs Hiz Hds Hid. destruct (exit_prefix s cur parent v pv status Hex) as (m & -> & Hc & Hp & Ho).
  destruct Hex. destruct ex_frames0 as [fq Hfq].
  set (s2 := exit_mid s v m). unfold exit_report.
  rewrite (bind_Ok _ _ _ _ _ (load_pcb_run parent _ s2 Hp)). change (p_waiting (childless _ _)) with (p_waiting pv).
  rewrite Hw. cbn [truthy Z.eqb negb]. unfold exit_zombie.
  rewrite bind_assoc, (bind_Ok _ _ _ _ _ (load_pcb_run cur _ s2 Hc)).
  rewrite bind_assoc, (bind_Ok _ _ _ _ _ (load_pcb_run parent _ s2 Hp)).
  change (p_zombies (childless _ _)) with (p_zombies pv). change (p_pid (exited v status)) with (p_pid v).
  rewrite Hzs, bind_assoc. unfold insertable in *. erewrite bind_Ok.
  2:{ unfold set_insert. rewrite Hiz. unfold bind, malloc, spec_set_insert, ret. rewrite Hiz.
      cbn [negb]. by rewrite (proj2 (Z.eqb_neq (malloc_at s2 (mallocs s2)) NULL) (ex_mem0 _)). }
  cbv beta iota. rewrite bind_assoc. erewrite bind_Ok by (apply upd_pcb_run; exact Hp).
  match goal with |- context [bind (bind (insert_into _ _ _) _) _ ?st] => set (s3 := st) end.
  rewrite bind_assoc. erewrite bind_Ok.
  2:{ eapply (insert_into_run dead_pcbs ds (p_pid v) cur s3); [exact Hds| |apply ex_mem0].
      change (dead_pcbs s3) with (dead_pcbs s). by rewrite Hds. }
  erewrite bind_Ok by reflexivity. erewrite bind_Ok by reflexivity.
  match goal with |- context [bind _ _ ?st] => set (s4 := st) end.
  change (current_process s4) with (current_process s). rewrite ex_cur0.
  assert (Hc4 : pcbs s4 !! cur = Some (exited v status)).
  { change (pcbs s4) with (<[parent := childless pv (p_pid v) <| p_zombies :=
      Some (mk_set ((p_pid v, cur) :: s_nodes zs) (s_node_count zs + 1)) |>]> m). by rewrite lookup_insert_ne. }
  destruct (pcb_release_run cur (exited v status) s4 fq Hc4 Hfq ex_mem0 ex_tables0) as (k & E).
  unfold pcbExit. rewrite (proj2 (Z.eqb_neq cur NULL) ex_cur_nn0), bind_assoc, (bind_Ok _ _ _ _ _ E).
  erewrite bind_Ok by reflexivity. erewrite bind_Ok by reflexivity.
  erewrite upd_pcb_run.
  2:{ lookup_as (<[cur := dumped (exited v status)]> (pcbs s4)).
      rewrite lookup_insert_ne by done. apply lookup_insert_eq. }
  eexists. split; [done|]. split_and!; try done.
  - apply lookup_insert_eq.
  - lookup_as (<[parent := zombie_parent pv zs (p_pid v) cur status]>
      (<[cur := dumped (exited v status)]> (pcbs s4))).
    by rewrite lookup_insert_ne, lookup_insert_eq.
  - exact (free_frames_push s4 fq k (<[cur := dumped (exited v status)]> (pcbs s4)) (pcb_frames (exited v status)) Hfq).
  - intros a Ha Hb. lookup_as (<[parent := zombie_parent pv zs (p_pid v) cur status]>
      (<[cur := dumped (exited v status)]> (<[parent := childless pv (p_pid v) <| p_zombies :=
      Some (mk_set ((p_pid v, cur) :: s_nodes zs) (s_node_count zs + 1)) |>]> m))).
    rewrite !lookup_insert_ne by done. by apply Ho.
Qed.

(** ** Wait *)

Lemma wait_return_run a store s w :
  pcbs s !! current_process s = Some w -> p_state w <> BLOCKED ->
  wait_loop a store s = (store_status store a (p_child_exit_status w) ;;; ret (K_syscall 0)) s.
Proof.
  intros Hw Hst. unfold wait_loop. erewrite bind_Ok by reflexivity.
  rewrite (bind_Ok _ _ _ _ _ (load_pcb_run _ _ _ Hw)), (proj2 (Z.eqb_neq _ _) Hst).
  by rewrite andb_false_r.
Qed.

Lemma load_pcb_undef p s : pcbs s !! p = None -> load_pcb p s = Undef.
Proof. intros H. unfold load_pcb, bind, gets, demand. by rewrite H. Qed.

(** One zombie that is also in [dead_pcbs]: it is freed, then read. *)
Lemma reap_zombie_undef z zv ds q s :
  z <> NULL -> pcbs s !! z = Some zv -> spec_set_pop (dead_pcbs s) (p_pid zv) = (Some z, ds) ->
  free_frame_queue s = Some q -> mem_ok s -> tables_wf zv -> reap_zombie z s = Undef.
Proof.
  intros Hz Hzv Hpop Hq Hm Ht. unfold reap_zombie.
  rewrite (bind_Ok _ _ _ _ _ (load_pcb_run _ _ _ Hzv)).
  pose proof (take_from_run dead_pcbs (p_pid zv) s) as E. rewrite Hpop in E. cbn [fst snd] in E.
  rewrite (bind_Ok _ _ _ _ _ E).
  destruct (pcbFree_run z zv (s <| dead_pcbs := ds |>) q) as (k & Ef); [done..|].
  rewrite (bind_Ok _ _ _ _ _ Ef). unfold bind at 1. rewrite load_pcb_undef; [done|].
  simpl. apply lookup_delete_eq.
Qed.

Lemma insertable_pop pid cur zs :
  insertable pid cur zs ->
  spec_set_pop (Some (mk_set ((pid, cur) :: s_nodes zs) (s_node_count zs + 1))) pid =
    (Some cur, Some (mk_set (s_nodes zs) (s_node_count zs))).
Proof.
  unfold insertable, insert_allocates, spec_set_pop. destruct (pid <? 0); [done|]. intros _. simpl.
  rewrite Z.eqb_refl. do 3 f_equal. lia.
Qed.
End ExitEffects.

Section Main.
Context {hw : Hardware}.

(** C5: a child that exits while its parent waits: its PCB is gone, its frames
    are free, the parent is READY at the back of the ready queue and out of
    the set of blocked processes, other children of the exiting process belong
    to init, and when the parent runs again its [Wait] stores the status and
    returns 0 (not the pid of the child, which the caller never learns). *)
Theorem exit_wait_rendezvous s cur parent v pv status :
  exiting s cur parent v pv -> p_waiting pv <> 0 ->
  exists s', ExitHandler status s = Ok tt s' /\ current_process s' = NULL /\
    pcbs s' !! cur = None /\ free_frames s' = free_frames s ++ pcb_frames v /\
    ready_list s' = ready_list s ++ [parent] /\
    blocked_pcbs s' = (spec_set_pop (blocked_pcbs s) (p_pid pv)).2 /\
    (forall a, a <> cur -> a <> parent -> pcbs s' !! a = reparented s v a) /\
    forall s1 a r1 m, current_process s1 = parent -> pcbs s1 !! parent = pcbs s' !! parent ->
      read_table s1 = Some r1 -> hw_store (umem s1) (region_0_pages s1) r1 a (int_bytes status) = Some m ->
      wait_loop a true s1 = Ok (K_syscall 0) (s1 <| umem := m |>).
Proof.
  intros Hex Hw. destruct (exit_wake_run s cur parent v pv status Hex Hw)
    as (s' & E & H1 & H2 & H3 & H4 & H5 & H6 & _ & _ & H7).
  exists s'. split_and!; try done. intros s1 a r1 m Hc Hp Hr Hst. rewrite H4 in Hp.
  rewrite <- Hc in Hp. rewrite (wait_return_run a true s1 _ Hp) by done.
  unfold store_status. change (p_child_exit_status (woken_parent _ _ _)) with status.
  by rewrite (bind_Ok _ _ _ _ _ (store_user_run s1 r1 a _ m Hr Hst)).
Qed.

(** C30: a child that exits while its parent does not wait becomes a zombie of
    the parent and a dead process, with its status kept and its frames given
    back. *)
Theorem ExitHandler_zombie s cur parent v pv zs ds status :
  exiting s cur parent v pv -> p_waiting pv = 0 ->
  p_zombies pv = Some zs -> insertable (p_pid v) cur zs ->
  dead_pcbs s = Some ds -> insertable (p_pid v) cur ds ->
  exists s', ExitHandler status s = Ok tt s' /\ current_process s' = NULL /\
    ready_list s' = ready_list s /\ spec_set_find (dead_pcbs s') (p_pid v) = Some cur /\
    (exists pv', pcbs s' !! parent = Some pv' /\ spec_set_find (p_zombies pv') (p_pid v) = Some cur /\
       p_children pv' = (spec_set_pop (p_children pv) (p_pid v)).2) /\
    (exists v', pcbs s' !! cur = Some v' /\ p_state v' = DEAD /\ p_exit_status v' = status /\
       pcb_frames v' = []) /\
    free_frames s' = free_frames s ++ pcb_frames v.
Proof.
  intros Hex Hw Hzs Hiz Hds Hid. destruct (exit_zombie_run s cur parent v pv zs ds status Hex Hw Hzs Hiz Hds Hid)
    as (s' & E & H1 & H2 & _ & _ & H3 & H4 & H5 & H6 & _).
  assert (Hfind : forall x, insertable (p_pid v) cur x -> spec_set_find
    (Some (mk_set ((p_pid v, cur) :: s_nodes x) (s_node_count x + 1))) (p_pid v) = Some cur).
  { intros x. unfold insertable, insert_allocates, spec_set_find. simpl.
    destruct (p_pid v <? 0); [done|]. by rewrite Z.eqb_refl. }
  exists s'. split_and!; try done.
  - by rewrite H3, Hfind.
  - eexists. split; [exact H4|]. split; [|done]. by apply Hfind.
  - eexists. split; [exact H5|]. done.
Qed.

(** C36: reaping is broken: after a child exited while its parent was not
    waiting, the parent's next [Wait] frees the zombie and then reads and frees
    it again. *)
Theorem wait_for_zombie_undefined s cur parent v pv zs ds c status :
  exiting s cur parent v pv -> p_waiting pv = 0 -> p_children pv = Some c ->
  p_zombies pv = Some zs -> insertable (p_pid v) cur zs ->
  dead_pcbs s = Some ds -> insertable (p_pid v) cur ds ->
  exists s', ExitHandler status s = Ok tt s' /\
    WaitHandler NULL (s' <| current_process := parent |>) = Undef.
Proof.
  intros Hex Hw Hch Hzs Hiz Hds Hid. destruct (exit_zombie_run s cur parent v pv zs ds status Hex Hw Hzs Hiz Hds Hid)
    as (s' & E & _ & _ & Hm & [q Hq] & Hd & Hpar & Hcur & _).
  exists s'. split; [exact E|]. destruct Hex. unfold WaitHandler. erewrite bind_Ok by reflexivity.
  set (s1 := s' <| current_process := parent |>). change (current_process s1) with parent.
  rewrite (proj2 (Z.eqb_neq parent NULL) ex_parent_nn0).
  rewrite (bind_Ok _ _ _ _ _ (load_pcb_run parent _ s1 Hpar)).
  assert (Hc : exists c', p_children (zombie_parent pv zs (p_pid v) cur status) = Some c').
  { change (p_children (zombie_parent _ _ _ _ _)) with (spec_set_pop (p_children pv) (p_pid v)).2.
    rewrite Hch. unfold spec_set_pop. destruct (_ <? 0); [by eexists|].
    destruct (key_lookup _ _); by eexists. }
  destruct Hc as [c' ->]. change (p_zombies (zombie_parent _ _ _ _ _)) with
    (Some (mk_set ((p_pid v, cur) :: s_nodes zs) (s_node_count zs + 1))). cbn [s_nodes].
  rewrite Z.eqb_refl. erewrite bind_Ok by reflexivity.
  rewrite (bind_Ok _ _ _ _ _ (load_pcb_run cur _ s1 Hcur)). cbv zeta. cbn [for_each snd].
  unfold bind at 1 2 3. erewrite (reap_zombie_undef cur _ _ q s1); [done|done|exact Hcur| |exact Hq|exact Hm|by apply tables_wf_dumped].
  change (dead_pcbs s1) with (dead_pcbs s'). rewrite Hd. by apply insertable_pop.
Qed.

(** [waiting] is never cleared: a parent whose [Wait] has returned still
    has the flag, and when another child exits the parent, which is already on
    the ready queue, is put there a second time, and the child is lost instead
    of becoming a zombie. *)
Theorem waiting_never_cleared s cur parent v pv status s0 w :
  (current_process s0 = parent -> pcbs s0 !! parent = Some w -> p_waiting w <> 0 -> p_state w = READY ->
   wait_loop NULL false s0 = Ok (K_syscall 0) s0) /\
  (exiting s cur parent v pv -> p_waiting pv <> 0 -> parent ∈ ready_list s ->
   exists s' i j pv', ExitHandler status s = Ok tt s' /\ i <> j /\
     ready_list s' !! i = Some parent /\ ready_list s' !! j = Some parent /\
     pcbs s' !! parent = Some pv' /\ p_zombies pv' = p_zombies pv /\ p_waiting pv' = p_waiting pv /\
     pcbs s' !! cur = None).
Proof.
  split.
  - intros Hc Hw _ Hst. rewrite <- Hc in Hw. rewrite (wait_return_run NULL false s0 w Hw); [done|].
    by rewrite Hst.
  - intros Hex Hw [i Hi]%list_elem_of_lookup. destruct (exit_wake_run s cur parent v pv status Hex Hw)
      as (s' & E & _ & H2 & _ & H4 & H5 & _).
    exists s', i, (length (ready_list s)), (woken_parent pv (p_pid v) status).
    pose proof (lookup_lt_Some _ _ _ Hi). rewrite H2. split_and!; try done; [lia|by apply lookup_app_l_Some|].
    by rewrite list_lookup_middle by done.
Qed.
End Main.

(** ** Brk *)
Section Brk.
Context {hw : Hardware}.

Lemma region_1_index_div a : 0 <= a -> region_1_index a = a / PAGESIZE - NUM_PAGES.
Proof.
  intros Ha. unfold region_1_index. pose proof hw_pagesize. rewrite Z.quot_div_nonneg; [| |lia].
  - by rewrite down_page_index.
  - rewrite hw_down_to_page by done. pose proof (Z.div_pos a PAGESIZE). nia.
Qed.

(** The state of a process whose table and free frames changed. *)
Definition retabled (s : kst) (v : pcb_t) (pt : list pte) (q : queue_t frame_ptr) : kst :=
  s <| free_frame_queue := Some q |>
    <| pcbs := <[current_process s := v <| p_page_table := Some pt |>]> (pcbs s) |>.

Lemma set_page_run s v pt i e :
  pcbs s !! current_process s = Some v -> p_page_table v = Some pt -> 0 <= i < Z.of_nat (length pt) ->
  set_page i e s = Ok tt (s <| pcbs ::= <[current_process s :=
    v <| p_page_table := Some (<[Z.to_nat i := e]> pt) |>]> |>).
Proof.
  intros Hv Ht Hi. unfold set_page. erewrite bind_Ok by reflexivity.
  rewrite (bind_Ok _ _ _ _ _ (load_pcb_run _ _ _ Hv)), Ht. erewrite bind_Ok by reflexivity.
  rewrite arr_set_Some by done. by erewrite bind_Ok by reflexivity.
Qed.

Lemma get_page_run s v pt i e :
  pcbs s !! current_process s = Some v -> p_page_table v = Some pt -> arr_get pt i = Some e ->
  get_page i s = Ok e s.
Proof.
  intros Hv Ht He. unfold get_page, load_pcb, bind, gets, demand, ret. by rewrite Hv, Ht, He.
Qed.

(** [pt'] has the pages of [pt], and all of [P]; frames come from the free
    queue. *)
Record grown (s : kst) (pt pt' : list pte) (q' : queue_t frame_ptr) (P : Z -> Prop) : Prop := {
  gr_length : length pt' = length pt;
  gr_keep : forall j e, arr_get pt j = Some e -> pte_valid e = true -> arr_get pt' j = Some e;
  gr_valid : forall j, P j -> exists e, arr_get pt' j = Some e /\ pte_valid e = true;
  gr_outside : forall j, ~ P j -> arr_get pt' j = arr_get pt j;
  gr_proper : FrameLocal ∉ q_data q';
  gr_frames : mapped pt' ++ frame_pfns (q_data q') ≡ₚ mapped pt ++ free_frames s }.

(** One more page: it was mapped, or it gets the frame [n]. *)
Lemma grown_keep s pt pt' q' (P P' : Z -> Prop) i e :
  (forall j, P' j <-> P j \/ j = i) -> grown s pt pt' q' P -> arr_get pt' i = Some e ->
  pte_valid e = true -> grown s pt pt' q' P'.
Proof.
  intros HP [] He Hv. split; try done.
  - intros j [Hj | ->]%HP; [by apply gr_valid0|by exists e].
  - intros j Hj. apply gr_outside0. intros H. apply Hj, HP. by left.
Qed.

Lemma grown_map s pt pt' q' q'' (P P' : Z -> Prop) i e n prot rest :
  (forall j, P' j <-> P j \/ j = i) -> ~ P i -> grown s pt pt' q' P ->
  arr_get pt' i = Some e -> pte_valid e = false ->
  q_data q' = FrameCell n :: rest -> q_data q'' = rest ->
  grown s pt (<[Z.to_nat i := mk_pte true prot n]> pt') q'' P'.
Proof.
  intros HP HPi [] He Hv Hq' Hq''. pose proof (arr_get_lt _ _ _ He) as Hi.
  pose proof (gr_outside0 i HPi) as Hie. rewrite He in Hie. symmetry in Hie. split.
  - by rewrite length_insert.
  - intros j e' He' Hv'. destruct (decide (j = i)) as [->|]; [congruence|].
    rewrite arr_get_insert_ne by lia. by apply gr_keep0.
  - intros j Hj. destruct (decide (j = i)) as [->|].
    + eexists. split; [apply arr_get_insert_eq; lia|done].
    + rewrite arr_get_insert_ne by lia. apply gr_valid0. by apply HP in Hj as [|].
  - intros j Hj. rewrite arr_get_insert_ne; [|lia|].
    + apply gr_outside0. intros H. apply Hj, HP. by left.
    + intros ->. apply Hj, HP. by right.
  - rewrite Hq''. rewrite Hq' in gr_proper0. set_solver.
  - apply arr_get_Some in He as [_ He].
    pose proof (mapped_insert pt' _ e (mk_pte true prot n) He) as Hm.
    rewrite (mapped_cons e), Hv, app_nil_r in Hm. rewrite Hm, <- gr_frames0, Hq', Hq''.
    simpl. unfold frame_pfns. simpl. solve_Permutation.
Qed.

Lemma grown_refl s v pt q (P : Z -> Prop) :
  pcbs s !! current_process s = Some v -> p_page_table v = Some pt ->
  free_frame_queue s = Some q -> FrameLocal ∉ q_data q -> (forall j, ~ P j) ->
  s = retabled s v pt q /\ grown s pt pt q P.
Proof.
  intros Hv Ht Hq Hp HP. split.
  - unfold retabled. assert (E : v <| p_page_table := Some pt |> = v) by (rewrite <- Ht; by destruct v).
    rewrite E, insert_id by done. rewrite <- Hq. by destruct s.
  - split; try done.
    + intros j Hj. by destruct (HP j).
    + unfold free_frames. by rewrite Hq.
Qed.

Lemma alloc_page_wp {R} (err : R) i (P P' : Z -> Prop) s v pt pt' q' :
  (forall j, P' j <-> P j \/ j = i) -> ~ P i -> grown s pt pt' q' P -> 0 <= i < Z.of_nat (length pt) ->
  wp (alloc_page err i) (fun r s' => exists pt'' q'', s' = retabled s v pt'' q'' /\ match r with
    | None => grown s pt pt'' q'' P'
    | Some e => e = err /\ q_data q'' = [] /\ grown s pt pt'' q'' P
    end) (retabled s v pt' q').
Proof.
  intros HP HPi Hg Hi. set (s1 := retabled s v pt' q').
  assert (Hl : Z.of_nat (length pt') = Z.of_nat (length pt)) by (by rewrite (gr_length _ _ _ _ _ Hg)).
  assert (Hv1 : pcbs s1 !! current_process s1 = Some (v <| p_page_table := Some pt' |>)) by apply lookup_insert_eq.
  destruct (proj2 (arr_get_is_Some pt' i)) as [e He]; [lia|]. unfold alloc_page.
  eapply wp_bind_Ok; [by eapply (get_page_run s1)|]. destruct (pte_valid e) eqn:Hve.
  - apply wp_ret. exists pt', q'. split; [done|]. eapply grown_keep; done.
  - pose proof (gr_proper _ _ _ _ _ Hg) as Hpr. destruct (q_data q') as [|f rest] eqn:Eq.
    + eapply wp_bind_Ok; [apply pop_from_run|]. change (free_frame_queue s1) with (Some q').
      rewrite (spec_queue_pop_nil _ Eq). apply wp_ret. exists pt', q'.
      split; [unfold s1, retabled; by kst_eq s|done].
    + destruct f as [n|]; [|exfalso; apply Hpr; by left].
      destruct (spec_queue_pop_cons q' _ _ Eq) as (q'' & Ep & Hq'').
      eapply wp_bind_Ok; [apply pop_from_run|]. change (free_frame_queue s1) with (Some q').
      rewrite Ep. cbn [fst snd deref_frame]. apply wp_bind, wp_ret.
      eapply wp_bind_Ok; [eapply set_page_run; [exact Hv1|done|lia]|]. apply wp_ret.
      exists (<[Z.to_nat i := mk_pte true (Z.lor PROT_READ PROT_WRITE) n]> pt'), q''. split.
      * unfold s1, retabled. kst_eq s. by rewrite insert_insert_eq.
      * eapply grown_map; [exact HP|exact HPi|exact Hg|exact He|exact Hve|exact Eq|exact Hq''].
Qed.

Lemma brk_grow_wp lo hi s v pt q :
  pcbs s !! current_process s = Some v -> p_page_table v = Some pt ->
  free_frame_queue s = Some q -> FrameLocal ∉ q_data q ->
  0 <= lo -> hi < Z.of_nat (length pt) ->
  wp (brk_grow lo hi) (fun r s' => exists pt' q', s' = retabled s v pt' q' /\ match r with
    | None => grown s pt pt' q' (fun j => lo <= j < Z.max lo (hi + 1))
    | Some rc => rc = ERROR /\ q_data q' = [] /\
        exists i, i <= hi /\ grown s pt pt' q' (fun j => lo <= j < i)
    end) s.
Proof.
  intros Hv Ht Hq Hp Hlo Hhi. unfold brk_grow.
  apply (wp_range_up _ _ _ (fun i s' => lo <= i /\ exists pt' q', s' = retabled s v pt' q' /\
    grown s pt pt' q' (fun j => lo <= j < i))).
  - split; [lia|]. exists pt, q. apply grown_refl; try done. intros j. lia.
  - intros i s0 Hi (_ & pt' & q' & -> & Hg).
    eapply wp_mono; [apply (alloc_page_wp ERROR i (fun j => lo <= j < i) (fun j => lo <= j < i + 1) s v pt);
      [lia|lia|done|lia]|].
    intros [e|] s' (pt'' & q'' & -> & H).
    + destruct H as (-> & Hq' & Hg'). exists pt'', q''. split_and!; [done|done|done|].
      exists i. split; [lia|done].
    + split; [lia|]. by exists pt'', q''.
  - intros s0 (_ & pt' & q' & -> & Hg). by exists pt', q'.
Qed.

(** A process with a table and a user stack, in a state without dangling frame
    pointers. *)
Record brk_ready (s : kst) (v : pcb_t) (pt : list pte) (uc : UserContext) (q : queue_t frame_ptr) : Prop := {
  br_cur : pcbs s !! current_process s = Some v;
  br_table : p_page_table v = Some pt;
  br_length : Z.of_nat (length pt) = NUM_PAGES;
  br_uctx : p_usr_ctx v = Some uc;
  br_queue : free_frame_queue s = Some q;
  br_proper : FrameLocal ∉ q_data q;
  br_sp : 0 <= uc_sp uc <= VMEM_1_LIMIT;
  br_brk : VMEM_1_BASE + PAGESIZE <= p_current_brk v }.

Lemma VMEM_1_LIMIT_pages : VMEM_1_LIMIT = 2 * NUM_PAGES * PAGESIZE /\ VMEM_1_BASE = NUM_PAGES * PAGESIZE.
Proof. destruct hw_layout as (_ & -> & -> & _). rewrite NUM_PAGES_size. lia. Qed.

Lemma wrapu32_id a : 0 <= a <= INT_MAX -> wrapu32 a = a.
Proof. intros H. unfold wrapu32, INT_MAX in *. apply Z.mod_small. lia. Qed.

(** [BrkHandler] up to its loops. *)
Lemma BrkHandler_start s v pt uc q addr :
  brk_ready s v pt uc q -> 0 <= addr < DOWN_TO_PAGE (uc_sp uc) -> p_current_brk v <= INT_MAX ->
  0 <= addr <= INT_MAX /\ addr / PAGESIZE < 2 * NUM_PAGES /\
  NUM_PAGES + 1 <= p_current_brk v / PAGESIZE /\
  BrkHandler addr s =
    (r <- (if addr >? p_current_brk v
           then brk_grow (region_1_index (p_current_brk v) - 1) (region_1_index addr)
           else if addr <? p_current_brk v
           then brk_shrink (region_1_index (p_current_brk v) - 1) (region_1_index addr)
           else ret None) ;;
     match r with
     | Some rc => ret rc
     | None =>
         (if addr =? p_current_brk v then ret tt
          else upd_pcb (current_process s) (fun v => v <| p_current_brk := UP_TO_PAGE addr |>)) ;;;
         emit (IoTlbFlush TLB_FLUSH_1) ;;;
         ret 0
     end) s.
Proof.
  intros [] Ha Hb. pose proof hw_pagesize. destruct hw_layout as (_ & _ & _ & Hmax).
  destruct VMEM_1_LIMIT_pages as [Hl H1].
  rewrite hw_down_to_page in Ha by lia.
  pose proof (Z.mul_div_le (uc_sp uc) PAGESIZE). pose proof (Z.mod_pos_bound (uc_sp uc) PAGESIZE).
  assert (Ham : 0 <= addr <= INT_MAX) by lia.
  split_and!; [lia|lia|apply Z.div_lt_upper_bound; lia|apply Z.div_le_lower_bound; nia|].
  unfold BrkHandler. erewrite bind_Ok by reflexivity.
  rewrite (bind_Ok _ _ _ _ _ (load_pcb_run _ _ _ br_cur0)), br_uctx0. erewrite bind_Ok by reflexivity.
  rewrite hw_down_to_page by lia. rewrite !wrapu32_id by nia.
  destruct (Z.leb_spec (uc_sp uc / PAGESIZE * PAGESIZE) addr); [lia|done].
Qed.
End Brk.

Section MainBrk.
Context {hw : Hardware}.

(** C14: raising the break, below the user stack: every page from the one below
    the old break to the one [addr] is in is mapped, also when [addr] is the first
    address of that page, and the break is [addr] rounded up; or the frames run
    out and the call fails with the break unchanged.  Either way no page that
    was mapped changes, no other page is mapped, and no frame is lost or
    shared. *)
Theorem BrkHandler_grows s v pt uc q addr :
  brk_ready s v pt uc q -> p_current_brk v < addr < DOWN_TO_PAGE (uc_sp uc) ->
  exists rc s' v' pt', BrkHandler addr s = Ok rc s' /\
    pcbs s' = <[current_process s := v']> (pcbs s) /\ p_page_table v' = Some pt' /\
    length pt' = length pt /\ region_0_pages s' = region_0_pages s /\
    (forall j e, arr_get pt j = Some e -> pte_valid e = true -> arr_get pt' j = Some e) /\
    (forall j, ~ (region_1_index (p_current_brk v) - 1 <= j <= region_1_index addr) ->
       arr_get pt' j = arr_get pt j) /\
    mapped pt' ++ free_frames s' ≡ₚ mapped pt ++ free_frames s /\
    ((rc = 0 /\ p_current_brk v' = UP_TO_PAGE addr /\
      forall j, region_1_index (p_current_brk v) - 1 <= j <= region_1_index addr ->
        exists e, arr_get pt' j = Some e /\ pte_valid e = true) \/
     (rc = ERROR /\ p_current_brk v' = p_current_brk v /\ free_frames s' = [])).
Proof.
  intros Hbr Ha. pose proof hw_pagesize. destruct VMEM_1_LIMIT_pages as [Hl H1].
  destruct (hw_layout) as (_ & _ & _ & Hmax).
  assert (Hbrk : 0 <= p_current_brk v <= INT_MAX).
  { pose proof (br_brk _ _ _ _ _ Hbr). pose proof (br_sp _ _ _ _ _ Hbr). pose proof NUM_PAGES_ge_4.
    rewrite hw_down_to_page in Ha by lia. pose proof (Z.mul_div_le (uc_sp uc) PAGESIZE). nia. }
  destruct (BrkHandler_start s v pt uc q addr Hbr) as (Ham & Hpg & Hpb & E); [lia|lia|].
  destruct Hbr. destruct (Z.gtb_spec addr (p_current_brk v)) as [_|]; [|lia].
  rewrite (proj2 (Z.eqb_neq addr (p_current_brk v))) in E by lia. setoid_rewrite E.
  assert (Hidx : region_1_index addr < NUM_PAGES /\ 0 <= region_1_index (p_current_brk v) - 1 /\
    region_1_index (p_current_brk v) <= region_1_index addr).
  { rewrite !region_1_index_div by lia. split_and!; [lia|lia|].
    pose proof (Z.div_le_mono (p_current_brk v) addr PAGESIZE). lia. }
  assert (Hw := brk_grow_wp (region_1_index (p_current_brk v) - 1) (region_1_index addr) s v pt q
    br_cur0 br_table0 br_queue0 br_proper0).
  destruct (wp_returns _ _ _ (Hw (proj1 (proj2 Hidx)) ltac:(rewrite br_length0; apply Hidx)))
    as (r & s1 & Eg & pt' & q' & -> & Hr).
  rewrite (bind_Ok _ _ _ _ _ Eg). destruct r as [rc|].
  - destruct Hr as (-> & Hq' & i & Hi & Hg). exists ERROR, (retabled s v pt' q'), (v <| p_page_table := Some pt' |>), pt'.
    destruct Hg. assert (Hff : free_frames (retabled s v pt' q') = frame_pfns (q_data q')) by done.
    split_and!; try done; [intros j Hj; apply gr_outside0; lia|].
    right. split_and!; [done|done|]. by rewrite Hff, Hq'.
  - erewrite bind_Ok by (apply upd_pcb_run; apply lookup_insert_eq). unfold emit. erewrite bind_Ok by reflexivity.
    destruct Hr. eexists 0, _, (v <| p_page_table := Some pt' |> <| p_current_brk := UP_TO_PAGE addr |>), pt'.
    split; [done|]. split_and!; try done.
    + apply insert_insert_eq.
    + intros j Hj. apply gr_outside0. lia.
    + left. split_and!; [done|done|]. intros j Hj. apply gr_valid0. lia.
Qed.

(** The state after the pages above [i] went through the loop. *)
Record shrunk (s s' : kst) (v : pcb_t) (pt : list pte) (i hi : Z) : Prop := {
  sh_cur : current_process s' = current_process s;
  sh_malloc : malloc_at s' = malloc_at s;
  sh_length : length (region_0_pages s') = length (region_0_pages s);
  sh_table : exists pt', pcbs s' = <[current_process s := v <| p_page_table := Some pt' |>]> (pcbs s) /\
    length pt' = length pt /\
    forall j, i < j <= hi -> exists e, arr_get pt' j = Some e /\ pte_valid e = true;
  sh_region_0 : forall j, i < j <= hi -> exists e, arr_get (region_0_pages s') j = Some e /\ pte_valid e = false;
  sh_queue : exists q', free_frame_queue s' = Some q' /\ free_frames s' = free_frames s /\
    (i < hi -> FrameLocal ∈ q_data q') }.

Lemma below_insert {P : pte -> Prop} l i hi x :
  0 <= i < Z.of_nat (length l) -> P x ->
  (forall j, i < j <= hi -> exists e, arr_get l j = Some e /\ P e) ->
  forall j, i - 1 < j <= hi -> exists e, arr_get (<[Z.to_nat i := x]> l) j = Some e /\ P e.
Proof.
  intros Hi Hx H j Hj. destruct (decide (j = i)) as [->|].
  - exists x. split; [by apply arr_get_insert_eq|done].
  - rewrite arr_get_insert_ne by lia. apply H. lia.
Qed.

Lemma brk_shrink_wp hi lo s v pt :
  mem_ok s -> pcbs s !! current_process s = Some v -> p_page_table v = Some pt ->
  is_Some (free_frame_queue s) -> 0 <= lo -> hi < Z.of_nat (length pt) ->
  hi < Z.of_nat (length (region_0_pages s)) ->
  wp (brk_shrink hi lo) (fun r s' => r = None /\ shrunk s s' v pt (Z.min hi (lo - 1)) hi) s.
Proof.
  intros Hm Hv Ht [q Hq] Hlo Hhi Hr0. unfold brk_shrink.
  apply (wp_range_down _ _ _ (fun i s' => shrunk s s' v pt i hi)); [| |done].
  - split; try done; try lia.
    + exists pt. split_and!; [|done|lia].
      assert (E : v <| p_page_table := Some pt |> = v) by (rewrite <- Ht; by destruct v).
      by rewrite E, insert_id.
    + exists q. split_and!; [done|done|lia].
  - intros i s1 Hi [Hc1 Hm1 Hl1 (pt1 & Hp1 & Hpl1 & Hpv1) Hr1 (q1 & Hq1 & Hf1 & _)].
    assert (Hv1 : pcbs s1 !! current_process s1 = Some (v <| p_page_table := Some pt1 |>))
      by (rewrite Hp1, Hc1; apply lookup_insert_eq).
    destruct (proj2 (arr_get_is_Some pt1 i)) as [e He]; [lia|].
    destruct (proj2 (arr_get_is_Some (region_0_pages s1) i)) as [e0 He0]; [lia|].
    eapply wp_bind_Ok; [by eapply get_page_run|].
    eapply wp_bind_Ok; [eapply set_page_run; [exact Hv1|done|lia]|].
    eapply wp_bind_Ok; [apply get_region_0_run; exact He0|].
    eapply wp_bind_Ok; [apply set_region_0_run; cbn; lia|].
    apply wp_bind. eapply wp_push_to; [exact Hq1|done|cbn; rewrite Hm1; apply Hm|].
    unfold emit. apply wp_bind, wp_modify, wp_ret. split; try done.
    + cbn. by rewrite length_insert.
    + eexists. split; [cbn; by rewrite Hp1, Hc1, insert_insert_eq|]. split; [by rewrite length_insert|].
      apply (below_insert (P := fun e => pte_valid e = true)); [lia|done|exact Hpv1].
    + cbn. apply (below_insert (P := fun e => pte_valid e = false)); [lia|done|exact Hr1].
    + exists (q_append q1 FrameLocal). split; [done|]. split.
      * rewrite <- Hf1. unfold free_frames at 2. rewrite Hq1. change (free_frames _) with
          (frame_pfns (q_data (q_append q1 FrameLocal))).
        rewrite q_data_append, frame_pfns_app. apply app_nil_r.
      * intros _. rewrite q_data_append. set_solver.
Qed.

(** C37: lowering the break does not unmap anything of the process: each page
    given up stays mapped by its table, the kernel's own page of the same
    index is unmapped instead, no frame is freed, and the free frame queue gets
    the address of a local variable. *)
Theorem BrkHandler_shrink_corrupts s v pt uc q addr :
  brk_ready s v pt uc q -> VMEM_1_BASE <= addr -> addr + PAGESIZE <= p_current_brk v <= VMEM_1_LIMIT ->
  addr < DOWN_TO_PAGE (uc_sp uc) -> mem_ok s -> Z.of_nat (length (region_0_pages s)) = NUM_PAGES ->
  exists s' v' pt' q', BrkHandler addr s = Ok 0 s' /\ pcbs s' !! current_process s = Some v' /\
    p_page_table v' = Some pt' /\ p_current_brk v' = UP_TO_PAGE addr /\
    free_frame_queue s' = Some q' /\ free_frames s' = free_frames s /\ FrameLocal ∈ q_data q' /\
    forall j, region_1_index addr <= j < region_1_index (p_current_brk v) ->
      (exists e, arr_get pt' j = Some e /\ pte_valid e = true) /\
      (exists e, arr_get (region_0_pages s') j = Some e /\ pte_valid e = false).
Proof.
  intros Hbr Hlo Ha Hsp Hm Hl0. pose proof hw_pagesize. destruct VMEM_1_LIMIT_pages as [Hl H1].
  destruct hw_layout as (_ & _ & _ & Hmax). pose proof NUM_PAGES_ge_4.
  destruct (BrkHandler_start s v pt uc q addr Hbr) as (Ham & Hpg & Hpb & E); [nia|lia|].
  destruct Hbr. destruct (Z.gtb_spec addr (p_current_brk v)) as [|_]; [lia|].
  destruct (Z.ltb_spec addr (p_current_brk v)) as [_|]; [|lia].
  rewrite (proj2 (Z.eqb_neq addr (p_current_brk v))) in E by lia.
  assert (Hidx : 0 <= region_1_index addr /\ region_1_index addr <= region_1_index (p_current_brk v) - 1 /\
    region_1_index (p_current_brk v) - 1 < NUM_PAGES).
  { rewrite !region_1_index_div by lia.
    pose proof (Z.div_le_mono (addr + 1 * PAGESIZE) (p_current_brk v) PAGESIZE) as Hd.
    rewrite Z.div_add in Hd by lia. pose proof (Z.div_le_lower_bound addr PAGESIZE NUM_PAGES).
    pose proof (Z.div_le_upper_bound (p_current_brk v) PAGESIZE (2 * NUM_PAGES)). split_and!; nia. }
  assert (Hw := brk_shrink_wp (region_1_index (p_current_brk v) - 1) (region_1_index addr) s v pt
    Hm br_cur0 br_table0 (ex_intro _ q br_queue0) (proj1 Hidx)).
  destruct (wp_returns _ _ _ (Hw ltac:(rewrite br_length0; apply Hidx) ltac:(rewrite Hl0; apply Hidx)))
    as (r & s1 & Es & -> & Hsh).
  rewrite (bind_Ok _ _ _ _ _ Es) in E.
  destruct Hsh as [Hc1 _ _ (pt1 & Hp1 & _ & Hpv1) Hr1 (q1 & Hq1 & Hf1 & Hin)].
  erewrite bind_Ok in E by (apply upd_pcb_run; rewrite Hp1; apply lookup_insert_eq).
  unfold emit in E. erewrite bind_Ok in E by reflexivity.
  eexists _, (v <| p_page_table := Some pt1 |> <| p_current_brk := UP_TO_PAGE addr |>), pt1, q1.
  split; [exact E|]. split_and!; try done.
  - cbn. apply lookup_insert_eq.
  - apply Hin. lia.
  - intros j Hj. split; [apply Hpv1; lia|apply Hr1; lia].
Qed.
End MainBrk.

(** ** Witnesses on the demo machine *)
Section Witnesses.
Import DemoHardware Demo.

(** Process 24 (pid 2) exits; its parent is 20 (pid 1); init is 16 (pid 9). *)
Definition demo_table : list pte := replicate 126 (mk_pte false 0 0) ++ [mk_pte true 3 30; mk_pte true 3 31].
Definition demo_exit_pcb (pid parent waiting : Z) (kids : list (Z * ptr)) : pcb_t :=
  mk_pcb READY waiting pid 2080 0 0 0 parent (Some (mk_set kids (Z.of_nat (length kids)))) (Some empty_set)
    (Some demo_table) (Some (mk_uctx 0 0 0 4090 [0; 0; 0])) None None None 0 0 0 0 0.
Definition demo_exit (waiting : Z) (ready : queue_t ptr) : kst := blank
  <| pcbs := {[ 16 := demo_exit_pcb 9 0 0 []; 20 := demo_exit_pcb 1 16 waiting [(2, 24)];
                24 := demo_exit_pcb 2 20 0 [] ]} |>
  <| current_process := 24 |> <| init_process := 16 |> <| reg_ptbr1 := Pt_pcb 24 |>
  <| process_ready_queue := Some ready |>.

Lemma demo_exiting w rq :
  exiting (demo_exit w rq) 24 20 (demo_exit_pcb 2 20 0 []) (demo_exit_pcb 1 16 w [(2, 24)]).
Proof.
  split; try done; try (by eexists).
  - by apply demo_mem_ok.
  - by split; intros ? [= <-].
Defined.

Lemma exit_wait_rendezvous_witness :
  exists s', ExitHandler 7 (demo_exit 1 empty_queue) = Ok tt s' /\ ready_list s' = [20].
Proof.
  destruct (exit_wait_rendezvous (demo_exit 1 empty_queue) 24 20 _ _ 7 (demo_exiting 1 empty_queue))
    as (s' & E & _ & _ & _ & H & _); [done|].
  exact (ex_intro _ s' (conj E H)).
Defined.

Lemma ExitHandler_zombie_witness :
  exists s', ExitHandler 7 (demo_exit 0 empty_queue) = Ok tt s' /\ spec_set_find (dead_pcbs s') 2 = Some 24.
Proof.
  destruct (ExitHandler_zombie (demo_exit 0 empty_queue) 24 20 _ _ empty_set empty_set 7 (demo_exiting 0 empty_queue))
    as (s' & E & _ & _ & H & _); [done..|].
  exact (ex_intro _ s' (conj E H)).
Defined.

Lemma wait_for_zombie_undefined_witness :
  exists s', ExitHandler 7 (demo_exit 0 empty_queue) = Ok tt s' /\
    WaitHandler NULL (s' <| current_process := 20 |>) = Undef.
Proof.
  apply (wait_for_zombie_undefined (demo_exit 0 empty_queue) 24 20 _ _ empty_set empty_set
    (mk_set [(2, 24)] 1) 7 (demo_exiting 0 empty_queue)); done.
Defined.

Lemma waiting_never_cleared_witness :
  exists s' i j, ExitHandler 7 (demo_exit 1 (mk_queue [(0, 20)] 1 1)) = Ok tt s' /\ i <> j /\
    ready_list s' !! i = Some 20 /\ ready_list s' !! j = Some 20.
Proof.
  destruct (waiting_never_cleared (demo_exit 1 (mk_queue [(0, 20)] 1 1)) 24 20
    (demo_exit_pcb 2 20 0 []) (demo_exit_pcb 1 16 1 [(2, 24)]) 7 blank
    (demo_exit_pcb 1 16 1 [])) as [_ H].
  destruct (H (demo_exiting 1 _)) as (s' & i & j & pv' & E & H1 & H2 & H3 & _); [done|by left|].
  exact (ex_intro _ s' (ex_intro _ i (ex_intro _ j (conj E (conj H1 (conj H2 H3)))))).
Defined.

Definition demo_brk_queue : queue_t frame_ptr := mk_queue [(0, FrameCell 40); (1, FrameCell 41)] 2 2.
Definition demo_brk (q : queue_t frame_ptr) : kst := demo_exit 0 empty_queue <| free_frame_queue := Some q |>.

Lemma demo_brk_ready :
  brk_ready (demo_brk demo_brk_queue) (demo_exit_pcb 2 20 0 []) demo_table (mk_uctx 0 0 0 4090 [0; 0; 0]) demo_brk_queue.
Proof.
  split; try reflexivity; simpl; try lia. by apply (bool_decide_unpack _).
Defined.

Lemma BrkHandler_grows_witness :
  exists rc s', BrkHandler 2090 (demo_brk demo_brk_queue) = Ok rc s'.
Proof.
  destruct (BrkHandler_grows _ _ _ _ _ 2090 demo_brk_ready) as (rc & s' & v' & pt' & E & _);
    [by vm_compute|].
  exact (ex_intro _ rc (ex_intro _ s' E)).
Defined.

Lemma BrkHandler_shrink_corrupts_witness :
  exists s' q', BrkHandler 2060 (demo_brk demo_brk_queue) = Ok 0 s' /\
    free_frame_queue s' = Some q' /\ FrameLocal ∈ q_data q'.
Proof.
  destruct (BrkHandler_shrink_corrupts _ _ _ _ _ 2060 demo_brk_ready)
    as (s' & v' & pt' & q' & E & _ & _ & _ & H1 & _ & H2 & _);
    [by vm_compute|by vm_compute|by vm_compute|by apply demo_mem_ok|reflexivity|].
  exact (ex_intro _ s' (ex_intro _ q' (conj E (conj H1 H2)))).
Defined.
End Witnesses.
