(* ===== verification/Fork.v ===== *)
(** * Fork ([syscall_handlers/process_coordination.c], [ForkHandler])

    Main result: fork gives the child a copy of every page of the parent in
    fresh frames, leaves the parent's memory as it was, puts the child on the
    ready queue and among the parent's children, and returns the child's pid
    to the parent and 0 to the child. *)

From S2P Require Import Prelude Hardware Containers KState Memory Pcb Sched Ipc Pipe Process.
From stdpp Require Import list gmap fin_maps.
From Stdlib Require Import Strings.Byte.

#[local] Open Scope Z_scope.

Section Defs.
Context {hw : Hardware}.

(** The number of living processes. *)
Definition count_processes : M kst Z :=
  d <- gets delayed_pcbs ;; d <- demand d ;;
  b <- gets blocked_pcbs ;; b <- demand b ;;
  q <- gets process_ready_queue ;; q <- demand q ;;
  pid <- current_pid ;;
  idle <- gets idle_process ;; idle_v <- load_pcb idle ;;
  special <- (if pid =? p_pid idle_v then ret true
              else init <- gets init_process ;; init_v <- load_pcb init ;;
                   ret (pid =? p_pid init_v)) ;;
  ret (s_node_count d + s_node_count b + q_count q + (if special : bool then 2 else 3)).

(** The page of region 0 frames are copied through. *)
Definition fork_temp_page : Z := NUM_PAGES - 2 * NUM_KSTACK_FRAMES.

(** Copy page [i] of the process into a frame. *)
Definition fork_copy_page (i frame_no : Z) : M kst unit :=
  set_region_0 fork_temp_page (mk_pte true (Z.lor PROT_READ PROT_WRITE) frame_no) ;;;
  emit (IoTlbFlush TLB_FLUSH_0) ;;;
  bs <- load_user (VMEM_REGION_SIZE + i * PAGESIZE) PAGESIZE ;;
  store_user (KERNEL_STACK_BASE - KERNEL_STACK_MAXSIZE) bs ;;;
  set_region_0 fork_temp_page (mk_pte false 0 0).

(** The loop over the pages; [None] when there is no frame left. *)
Fixpoint fork_pages (l : list Z) (new_page_table : list pte) : M kst (option (list pte)) :=
  match l with
  | [] => ret (Some new_page_table)
  | i :: l' =>
      curr_pte <- get_page i ;;
      if negb (pte_valid curr_pte) then fork_pages l' new_page_table else
      f <- pop_from free_frame_queue ;;
      match f with
      | None => ret None
      | Some f =>
          frame_no <- deref_frame f ;;
          new_page_table <-
            demand (arr_set new_page_table i (mk_pte true (pte_prot curr_pte) frame_no)) ;;
          fork_copy_page i frame_no ;;;
          fork_pages l' new_page_table
      end
  end.

(** [new_page_table] when every [valid] bit has been cleared. *)
Definition invalid_table : list pte :=
  replicate (Z.to_nat NUM_PAGES) (mk_pte false (pte_prot uninit_pte) (pte_pfn uninit_pte)).

(** [pcb->kernel_stack_pages[i] = ..], mapped to a frame popped before. *)
Definition set_stack_page (pcb : ptr) (i : Z) (f : frame_ptr) : M kst unit :=
  v <- load_pcb pcb ;;
  ks <- demand (p_kernel_stack_pages v) ;;
  pfn <- deref_frame f ;;
  ks' <- demand (arr_set ks i (mk_pte true (Z.lor PROT_READ PROT_WRITE) pfn)) ;;
  store_pcb pcb (v <| p_kernel_stack_pages := Some ks' |>).

(** [current_process->children] gets the new process, made first if NULL. *)
Definition add_child (cur new_pcb : ptr) : M kst unit :=
  v <- load_pcb cur ;;
  children <- (match p_children v with None => set_new | Some c => ret (Some c) end) ;;
  new_v <- load_pcb new_pcb ;;
  do '(_, children) <- set_insert children (p_pid new_v) new_pcb ;;
  upd_pcb cur (fun v => v <| p_children := children |>).

(** [ForkHandler] from the creation of the child's PCB on. *)
Definition fork_child (new_page_table : list pte) : M kst kont :=
  new_pid <- take_pid ;;
  cur <- gets current_process ;;
  v <- load_pcb cur ;;
  new_pcb <- pcbNew new_pid (Some new_page_table) None cur (p_usr_ctx v) None ;;
  v <- load_pcb cur ;;
  upd_pcb new_pcb (fun n => n <| p_current_brk := p_current_brk v |>) ;;;
  f1 <- pop_from free_frame_queue ;;
  f2 <- pop_from free_frame_queue ;;
  match f1, f2 with
  | Some f1, Some f2 =>
      set_stack_page new_pcb 0 f1 ;;;
      set_stack_page new_pcb 1 f2 ;;;
      if new_pcb =? NULL then ret (K_syscall ERROR) else
      add_child cur new_pcb ;;;
      push_to process_ready_queue new_pcb ;;;
      KCCopy (K_fork new_pid) new_pcb
  | _, _ => ret (K_syscall ERROR)
  end.

Definition ForkHandler : M kst kont :=
  num_processes <- count_processes ;;
  if num_processes >=? MAX_PROCESSES then ret (K_syscall ERROR) else
  emit (IoTlbFlush TLB_FLUSH_ALL) ;;;
  table <- malloc ;;
  if table =? NULL then ret (K_syscall ERROR) else
  r <- fork_pages (range_up 0 NUM_PAGES) invalid_table ;;
  match r with
  | None => ret (K_syscall ERROR)
  | Some new_page_table => fork_child new_page_table
  end.

(** [ForkHandler] after [KernelContextSwitch(&KCCopy, ..)]: both processes. *)
Definition fork_return (new_pid : Z) : M kst kont :=
  pid <- current_pid ;;
  emit (IoTlbFlush TLB_FLUSH_ALL) ;;;
  if pid =? new_pid then ret (K_syscall 0) else ret (K_syscall new_pid).
End Defs.

Section Facts.
Context {hw : Hardware}.

Definition prot_rw : Z := Z.lor PROT_READ PROT_WRITE.

Lemma prot_rw_allows : Z.land prot_rw PROT_READ = PROT_READ /\ Z.land prot_rw PROT_WRITE = PROT_WRITE.
Proof.
  unfold prot_rw. split; apply Z.bits_inj'; intros n _; rewrite Z.land_spec, Z.lor_spec;
    by destruct (Z.testbit PROT_READ n), (Z.testbit PROT_WRITE n).
Qed.

(** ** Copying pages *)

(** A page the kernel can read. *)
Definition readable (e : pte) : Prop := Z.land (pte_prot e) PROT_READ = PROT_READ.

(** A region 0 table after pages were copied through the temporary page. *)
Definition temp_cleared (r0 r0' : list pte) : Prop :=
  r0' = r0 \/ r0' = <[Z.to_nat (NUM_PAGES - 4) := mk_pte false 0 0]> r0.

Lemma temp_page : fork_temp_page = NUM_PAGES - 4.
Proof. unfold fork_temp_page. rewrite NUM_KSTACK_FRAMES_2. lia. Qed.

Lemma temp_addr : KERNEL_STACK_BASE - KERNEL_STACK_MAXSIZE = (NUM_PAGES - 4) * PAGESIZE.
Proof.
  destruct hw_kstack as (E1 & E2 & E3 & _). destruct hw_layout as (E4 & _).
  rewrite E2, E1, E4, E3, NUM_PAGES_size. lia.
Qed.

Lemma load_page m r0 r1 i e :
  0 <= i -> arr_get r1 i = Some e -> pte_valid e = true -> readable e ->
  hw_load m r0 r1 (VMEM_REGION_SIZE + i * PAGESIZE) (Z.to_nat PAGESIZE) = Some (hw_frame m (pte_pfn e)).
Proof.
  intros Hi He Hv Hr. rewrite NUM_PAGES_size, <- Z.mul_add_distr_r.
  pose proof (hw_load_pages m r0 r1 (NUM_PAGES + i) [e]) as H. simpl in H.
  rewrite Nat.add_0_r, app_nil_r in H. apply H. intros j e' Hj.
  destruct j as [|j]; [injection Hj as <-|by destruct j]. split_and!; [|done|done].
  unfold page_entry. change (VMEM_REGION_SIZE / PAGESIZE) with NUM_PAGES.
  destruct (Z.ltb_spec (NUM_PAGES + i + Z.of_nat 0) NUM_PAGES); [lia|].
  by replace (NUM_PAGES + i + Z.of_nat 0 - NUM_PAGES) with i by lia.
Qed.

Lemma store_temp_page m r0 r1 n bs :
  Z.of_nat (length r0) = NUM_PAGES -> length bs = Z.to_nat PAGESIZE ->
  exists m', hw_store m (<[Z.to_nat (NUM_PAGES - 4) := mk_pte true prot_rw n]> r0) r1
      ((NUM_PAGES - 4) * PAGESIZE) bs = Some m' /\
    hw_frame m' n = bs /\ forall f, f <> n -> hw_frame m' f = hw_frame m f.
Proof.
  intros Hl Hbs. pose proof NUM_PAGES_ge_4.
  destruct (hw_store_pages m (<[Z.to_nat (NUM_PAGES - 4) := mk_pte true prot_rw n]> r0) r1
    (NUM_PAGES - 4) [mk_pte true prot_rw n] bs) as (m' & E & Hf & Ho).
  - intros j e Hj. destruct j as [|j]; [injection Hj as <-|by destruct j].
    split_and!; [|done|apply prot_rw_allows]. unfold page_entry.
    change (VMEM_REGION_SIZE / PAGESIZE) with NUM_PAGES. rewrite Z.add_0_r.
    destruct (Z.ltb_spec (NUM_PAGES - 4) NUM_PAGES); [|lia].
    apply arr_get_Some. split; [lia|]. apply list_lookup_insert_eq. lia.
  - by apply NoDup_singleton.
  - simpl. lia.
  - exists m'. split; [exact E|]. simpl in Hf. rewrite app_nil_r in Hf. split; [exact Hf|].
    intros f Hne. apply Ho. simpl. by intros ->%list_elem_of_singleton.
Qed.

Lemma fork_copy_page_run i n e r1 s :
  read_table s = Some r1 -> Z.of_nat (length (region_0_pages s)) = NUM_PAGES ->
  0 <= i -> arr_get r1 i = Some e -> pte_valid e = true -> readable e ->
  exists m, fork_copy_page i n s = Ok tt (s <| trace := trace s ++ [IoTlbFlush TLB_FLUSH_0] |>
      <| umem := m |>
      <| region_0_pages := <[Z.to_nat (NUM_PAGES - 4) := mk_pte false 0 0]> (region_0_pages s) |>) /\
    hw_frame m n = hw_frame (umem s) (pte_pfn e) /\
    forall f, f <> n -> hw_frame m f = hw_frame (umem s) f.
Proof.
  intros Hr Hl Hi He Hv Hre. pose proof NUM_PAGES_ge_4. pose proof hw_pagesize.
  destruct (store_temp_page (umem s) (region_0_pages s) r1 n (hw_frame (umem s) (pte_pfn e)))
    as (m & E & Hf & Ho); [done|apply hw_frame_length|].
  exists m. split; [|done]. unfold fork_copy_page. rewrite temp_page, temp_addr. fold prot_rw.
  erewrite bind_Ok by (apply set_region_0_run; lia). unfold emit. erewrite bind_Ok by reflexivity.
  erewrite bind_Ok by (eapply load_user_run; [lia|exact Hr|by apply load_page]).
  erewrite bind_Ok by (eapply store_user_run; [exact Hr|exact E]).
  erewrite set_region_0_run by (simpl; rewrite length_insert; lia).
  f_equal. clear. kst_eq s. by rewrite list_insert_insert_eq.
Qed.

(** The table and memory after the pages from [lo] on were copied to the
    frames [used]. *)
Record pages_copied (r1 npt npt' : list pte) (m m' : hw_mem) (lo : nat) (used : list Z) : Prop := {
  pc_length : length npt' = length npt;
  pc_below : forall i, (i < lo)%nat -> npt' !! i = npt !! i;
  pc_copy : forall i e, (lo <= i)%nat -> r1 !! i = Some e -> pte_valid e = true ->
    exists n, npt' !! i = Some (mk_pte true (pte_prot e) n) /\ n ∈ used /\
              hw_frame m' n = hw_frame m (pte_pfn e);
  pc_invalid : forall i e, (lo <= i)%nat -> r1 !! i = Some e -> pte_valid e = false -> npt' !! i = npt !! i;
  pc_others : forall f, f ∉ used -> hw_frame m' f = hw_frame m f;
  pc_mapped : mapped npt' ≡ₚ mapped npt ++ used }.

(** Nothing to copy at [lo], and one page copied at [lo]. *)
Lemma pages_copied_skip r1 npt npt' m m' lo used e :
  r1 !! lo = Some e -> pte_valid e = false ->
  pages_copied r1 npt npt' m m' (S lo) used -> pages_copied r1 npt npt' m m' lo used.
Proof.
  intros He Hv []. split; try done.
  - intros i Hi. apply pc_below0. lia.
  - intros i e' Hi He' Hv'. destruct (decide (i = lo)) as [->|]; [congruence|].
    apply pc_copy0; [lia|done..].
  - intros i e' Hi He' Hv'. destruct (decide (i = lo)) as [->|]; [by apply pc_below0; lia|].
    apply (pc_invalid0 i e'); [lia|done..].
Qed.

Lemma pages_copied_step r1 npt npt' m m1 m' lo used e e0 n :
  r1 !! lo = Some e -> pte_valid e = true -> npt !! lo = Some e0 -> pte_valid e0 = false ->
  hw_frame m1 n = hw_frame m (pte_pfn e) -> (forall f, f <> n -> hw_frame m1 f = hw_frame m f) ->
  n ∉ used -> (forall f, f ∈ mapped r1 -> f <> n) ->
  pages_copied r1 (<[lo := mk_pte true (pte_prot e) n]> npt) npt' m1 m' (S lo) used ->
  pages_copied r1 npt npt' m m' lo (n :: used).
Proof.
  intros He Hv H0 Hv0 Hn Ho Hnu Hsrc []. pose proof (lookup_lt_Some _ _ _ H0) as Hlt. split.
  - by rewrite pc_length0, length_insert.
  - intros i Hi. rewrite pc_below0, list_lookup_insert_ne by lia. done.
  - intros i e' Hi He' Hv'. destruct (decide (i = lo)) as [->|].
    + simplify_eq. exists n. rewrite pc_below0, list_lookup_insert_eq by lia.
      split_and!; [done|by left|]. by rewrite pc_others0.
    + destruct (pc_copy0 i e') as (x & H1 & H2 & H3); [lia|done..|]. exists x.
      split_and!; [done|by right|]. rewrite H3. apply Ho, Hsrc. apply elem_of_mapped.
      exists (Z.of_nat i), e'. split_and!; [apply arr_get_Some; rewrite Nat2Z.id; split; [lia|done]|done..].
  - intros i e' Hi He' Hv'. destruct (decide (i = lo)) as [->|]; [congruence|].
    rewrite (pc_invalid0 i e') by (done || lia). by rewrite list_lookup_insert_ne by lia.
  - intros f Hf. rewrite pc_others0 by set_solver. apply Ho. set_solver.
  - rewrite pc_mapped0. pose proof (mapped_insert npt lo e0 (mk_pte true (pte_prot e) n) H0) as Hm.
    rewrite (mapped_cons e0), Hv0, app_nil_r in Hm. rewrite Hm. simpl. solve_Permutation.
Qed.

(** What [fork_pages] changes of the state. *)
Definition after_pages (tr : list io_event) (m : hw_mem) (r0 : list pte) (q : queue_t frame_ptr)
  (s : kst) : kst :=
  s <| trace := tr |> <| umem := m |> <| region_0_pages := r0 |> <| free_frame_queue := Some q |>.

(** A process whose table is the active one, with frames to copy it to. *)
Record copyable (s : kst) (v : pcb_t) (r1 : list pte) (q : queue_t frame_ptr) (fs : list Z) : Prop := {
  cp_cur : pcbs s !! current_process s = Some v;
  cp_table : p_page_table v = Some r1;
  cp_active : reg_ptbr1 s = Pt_pcb (current_process s);
  cp_r0 : Z.of_nat (length (region_0_pages s)) = NUM_PAGES;
  cp_r1 : Z.of_nat (length r1) = NUM_PAGES;
  cp_read : Forall (fun e => pte_valid e = true -> readable e) r1;
  cp_queue : free_frame_queue s = Some q;
  cp_free : q_data q = FrameCell <$> fs;
  cp_nodup : NoDup fs;
  cp_fresh : forall f, f ∈ mapped r1 -> f ∉ fs }.

Lemma copyable_table s v r1 q fs : copyable s v r1 q fs -> read_table s = Some r1.
Proof. intros []. unfold read_table. rewrite cp_active0, cp_cur0. done. Qed.

Lemma copyable_step s v r1 q q' n fs tr m :
  copyable s v r1 q (n :: fs) -> q_data q' = FrameCell <$> fs ->
  copyable (after_pages tr m (<[Z.to_nat (NUM_PAGES - 4) := mk_pte false 0 0]> (region_0_pages s)) q' s)
    v r1 q' fs.
Proof.
  intros [] Hq'. split; simpl; try done.
  - by rewrite length_insert.
  - by apply NoDup_cons in cp_nodup0 as [_ ?].
  - intros f Hf Hin. apply (cp_fresh0 f Hf). by right.
Qed.

Lemma drop_cons_inv {A} (l : list A) lo x rest :
  x :: rest = drop lo l -> l !! lo = Some x /\ rest = drop (S lo) l.
Proof.
  intros H. split.
  - rewrite <- (Nat.add_0_r lo), <- lookup_drop, <- H. done.
  - rewrite <- Nat.add_1_r, <- drop_drop, <- H. done.
Qed.

(** A page that is not mapped. *)
Lemma fork_pages_skip npt lo s v r1 q fs e :
  copyable s v r1 q fs -> r1 !! lo = Some e -> pte_valid e = false ->
  fork_pages (range_up (Z.of_nat lo) NUM_PAGES) npt s =
    fork_pages (range_up (Z.of_nat (S lo)) NUM_PAGES) npt s.
Proof.
  intros Hc He Hv. pose proof (lookup_lt_Some _ _ _ He). pose proof (cp_r1 _ _ _ _ _ Hc).
  rewrite range_up_cons by lia. cbn [fork_pages].
  erewrite bind_Ok.
  2:{ eapply get_page_run; [apply Hc|apply Hc|]. apply arr_get_Some. split; [lia|by rewrite Nat2Z.id]. }
  rewrite Hv. cbn [negb]. by replace (Z.of_nat lo + 1) with (Z.of_nat (S lo)) by lia.
Qed.

(** One valid page. *)
Lemma fork_pages_step npt lo s v r1 q n fs e e0 :
  copyable s v r1 q (n :: fs) -> r1 !! lo = Some e -> pte_valid e = true -> npt !! lo = Some e0 ->
  exists q1 m1,
    let s1 := after_pages (trace s ++ [IoTlbFlush TLB_FLUSH_0]) m1
      (<[Z.to_nat (NUM_PAGES - 4) := mk_pte false 0 0]> (region_0_pages s)) q1 s in
    fork_pages (range_up (Z.of_nat lo) NUM_PAGES) npt s =
      fork_pages (range_up (Z.of_nat (S lo)) NUM_PAGES) (<[lo := mk_pte true (pte_prot e) n]> npt) s1 /\
    copyable s1 v r1 q1 fs /\ hw_frame m1 n = hw_frame (umem s) (pte_pfn e) /\
    forall f, f <> n -> hw_frame m1 f = hw_frame (umem s) f.
Proof.
  intros Hc He Hv He0. pose proof (lookup_lt_Some _ _ _ He) as Hlt. pose proof (cp_r1 _ _ _ _ _ Hc) as Hl1.
  pose proof (lookup_lt_Some _ _ _ He0) as Hlt0.
  assert (Hg : arr_get r1 (Z.of_nat lo) = Some e)
    by (apply arr_get_Some; split; [lia|by rewrite Nat2Z.id]).
  destruct (spec_queue_pop_cons q (FrameCell n) (FrameCell <$> fs)) as (q1 & Ep & Hq1); [apply Hc|].
  destruct (fork_copy_page_run (Z.of_nat lo) n e r1 (s <| free_frame_queue := Some q1 |>))
    as (m1 & Ec & Hm1 & Ho1); [exact (copyable_table _ _ _ _ _ Hc)|apply Hc|lia|done|done| |].
  { pose proof (cp_read _ _ _ _ _ Hc) as Hr. rewrite Forall_lookup in Hr. by apply (Hr lo e). }
  exists q1, m1. cbv zeta. split_and!; [|by eapply copyable_step|done|done].
  rewrite range_up_cons by lia. cbn [fork_pages].
  erewrite bind_Ok by (eapply get_page_run; [apply Hc|apply Hc|exact Hg]). rewrite Hv. cbn [negb].
  replace (Z.of_nat lo + 1) with (Z.of_nat (S lo)) by lia.
  pose proof (pop_from_run free_frame_queue s) as Epop.
  rewrite (cp_queue _ _ _ _ _ Hc), Ep in Epop. rewrite (bind_Ok _ _ _ _ _ Epop). cbn [fst snd deref_frame].
  erewrite bind_Ok by reflexivity. rewrite arr_set_Some by lia. rewrite Nat2Z.id.
  unfold demand. erewrite bind_Ok by reflexivity. rewrite (bind_Ok _ _ _ _ _ Ec).
  done.
Qed.

Lemma fork_pages_run npt lo s v r1 q fs :
  copyable s v r1 q fs -> Z.of_nat (length npt) = NUM_PAGES ->
  (forall i, (lo <= i)%nat -> forall e, npt !! i = Some e -> pte_valid e = false) ->
  (length (mapped (drop lo r1)) <= length fs)%nat ->
  exists npt' tr m r0 q', fork_pages (range_up (Z.of_nat lo) NUM_PAGES) npt s =
      Ok (Some npt') (after_pages tr m r0 q' s) /\
    let k := length (mapped (drop lo r1)) in
    temp_cleared (region_0_pages s) r0 /\ q_data q' = FrameCell <$> drop k fs /\
    pages_copied r1 npt npt' (umem s) m lo (take k fs).
Proof.
  remember (drop lo r1) as rest eqn:Hrest. revert lo npt s q fs Hrest.
  induction rest as [|e rest IH]; intros lo npt s q fs Hrest Hc Hnl Hinv Hk;
    pose proof (cp_r1 _ _ _ _ _ Hc) as Hl1.
  - assert (Hlo : (length r1 <= lo)%nat)
      by (apply (f_equal length) in Hrest; rewrite length_drop in Hrest; simpl in Hrest; lia).
    rewrite range_up_nil by lia. exists npt, (trace s), (umem s), (region_0_pages s), q.
    cbn [mapped omap length take drop]. split.
    + unfold ret, after_pages. f_equal. pose proof (cp_queue _ _ _ _ _ Hc) as Hq. destruct s.
      cbn in Hq. by subst.
    + split_and!; [by left|apply Hc|]. split; try done.
      * intros i e Hi He. apply lookup_lt_Some in He. lia.
      * by rewrite app_nil_r.
  - destruct (drop_cons_inv _ _ _ _ Hrest) as [He Hrest']. pose proof (lookup_lt_Some _ _ _ He) as Hlt.
    rewrite mapped_cons in *. destruct (pte_valid e) eqn:Hv.
    2:{ destruct (IH (S lo) npt s q fs Hrest' Hc Hnl) as (npt' & tr & m & r0 & q' & E & H1 & H2 & H3);
          [intros i Hi; apply Hinv; lia|done|].
        exists npt', tr, m, r0, q'. split; [|cbn [app]; split_and!; [exact H1|exact H2|by eapply pages_copied_skip]].
        rewrite <- E. by apply (fork_pages_skip npt lo s v r1 q fs e). }
    destruct fs as [|n fs]; [simpl in Hk; lia|].
    assert (Hlt' : is_Some (npt !! lo)) by (apply lookup_lt_is_Some; lia). destruct Hlt' as [e0 He0].
    destruct (fork_pages_step npt lo s v r1 q n fs e e0 Hc He Hv He0) as (q1 & m1 & Es & Hc1 & Hm1 & Ho1).
    destruct (IH (S lo) (<[lo := mk_pte true (pte_prot e) n]> npt) _ q1 fs Hrest' Hc1)
      as (npt' & tr & m & r0 & q' & E & H1 & H2 & H3).
    { by rewrite length_insert. }
    { intros i Hi e' He'. rewrite list_lookup_insert_ne in He' by lia. apply (Hinv i); [lia|done]. }
    { simpl in Hk. lia. }
    exists npt', tr, m, r0, q'. split; [rewrite Es; exact E|]. cbn [length take drop]. split_and!; [|exact H2|].
    + right. destruct H1 as [->| ->]; [done|]. simpl. by rewrite list_insert_insert_eq.
    + eapply pages_copied_step; [done|done|done|by apply (Hinv lo)|done|done| | |exact H3].
      * intros Hin. pose proof (cp_nodup _ _ _ _ _ Hc) as [Hnd _]%NoDup_cons. apply Hnd.
        by apply (subseteq_take (length (mapped rest)) fs).
      * intros f Hf ->. apply (cp_fresh _ _ _ _ _ Hc n Hf). by left.
Qed.

(** ** The child *)

(** What [pcbNew] makes of a page table and a user context, with a kernel
    context that is not written yet or none, and no stack. *)
Record fresh_pcb (pid : Z) (pt : list pte) (parent : ptr) (uc : UserContext) (v : pcb_t) : Prop := {
  fp_pid : p_pid v = pid;
  fp_state : p_state v = READY;
  fp_parent : p_parent v = parent;
  fp_table : p_page_table v = Some pt;
  fp_uctx : p_usr_ctx v = Some uc;
  fp_waiting : p_waiting v = 0;
  fp_children : p_children v = Some empty_set;
  fp_zombies : p_zombies v = Some empty_set;
  fp_kctx : exists a, p_krn_ctx v = Some (mk_kctx a None);
  fp_stack : p_kernel_stack_pages v = Some [uninit_pte; uninit_pte] }.

Lemma pcbNew_run pid pt parent uc kc s :
  let p := malloc_at s (mallocs s) in
  mem_ok s -> pcbs s !! p = None -> (forall x, kc = Some x -> kc_saved x = None) ->
  exists k v, pcbNew pid (Some pt) None parent (Some uc) kc s =
      Ok p (s <| mallocs := k |> <| pcbs := <[p := v]> (pcbs s) |>) /\ fresh_pcb pid pt parent uc v.
Proof.
  intros p Hm Hp Hkc.
  enough (Hw : wp (pcbNew pid (Some pt) None parent (Some uc) kc) (fun r s' => r = p /\
    exists k v, s' = s <| mallocs := k |> <| pcbs := <[p := v]> (pcbs s) |> /\
                fresh_pcb pid pt parent uc v) s).
  { destruct (wp_returns _ _ _ Hw) as (r & s' & E & -> & k & v & -> & H). by exists k, v. }
  assert (Hnn : forall n, (malloc_at s n =? NULL) = false) by (intros n; by apply Z.eqb_neq).
  assert (Hset : forall n, @spec_set_new ptr (malloc_at s n) = Some empty_set)
    by (intros n; unfold spec_set_new; by rewrite Hnn).
  subst p. unfold pcbNew. apply wp_bind, wp_malloc, wp_bind, wp_gets. cbn -[bind].
  rewrite bool_decide_eq_false_2 by (rewrite Hp; by intros [? ?]). rewrite Hnn. cbn [orb].
  apply wp_bind, wp_bind, wp_malloc, wp_ret, wp_bind, wp_bind, wp_malloc, wp_ret, wp_bind, wp_malloc.
  cbn -[bind]. rewrite !Hset, Hnn.
  apply wp_bind, wp_ret, wp_bind.
  assert (Hk : wp (match kc with
      | None => a <- malloc ;; ret (if a =? NULL then None else Some (mk_kctx a None))
      | Some k => ret (Some k)
      end) (fun r s2 => exists a k, r = Some (mk_kctx a None) /\ s2 = s <| mallocs := k |>)
      (s <| mallocs := S (S (S (S (mallocs s)))) |>)).
  { destruct kc as [[a o]|].
    - apply wp_ret. exists a, (S (S (S (S (mallocs s))))). split; [|done]. by rewrite <- (Hkc _ eq_refl).
    - apply wp_bind, wp_malloc, wp_ret. cbn -[bind]. rewrite Hnn. eexists _, _. done. }
  eapply wp_mono; [exact Hk|]. intros r s2 (a & k & -> & ->). clear Hk.
  apply wp_bind, wp_bind, wp_malloc, wp_ret. cbn -[bind]. rewrite Hnn.
  apply wp_bind, wp_malloc. cbn -[bind]. rewrite Hnn.
  apply wp_bind. unfold store_pcb. apply wp_modify, wp_ret. split; [done|].
  eexists _, _. split; [reflexivity|]. rewrite NUM_KSTACK_FRAMES_2. split; try done. by eexists.
Qed.

Lemma set_stack_page_run p v ks i n s :
  pcbs s !! p = Some v -> p_kernel_stack_pages v = Some ks -> 0 <= i < Z.of_nat (length ks) ->
  set_stack_page p i (FrameCell n) s =
    Ok tt (s <| pcbs ::= <[p := v <| p_kernel_stack_pages :=
      Some (<[Z.to_nat i := mk_pte true prot_rw n]> ks) |>]> |>).
Proof.
  intros Hv Hk Hi. unfold set_stack_page. rewrite (bind_Ok _ _ _ _ _ (load_pcb_run _ _ _ Hv)), Hk.
  erewrite bind_Ok by reflexivity. cbn [deref_frame]. erewrite bind_Ok by reflexivity.
  rewrite arr_set_Some by done. by erewrite bind_Ok by reflexivity.
Qed.

(** The parent with a new child. *)
Definition with_child (v : pcb_t) (c : set_t ptr) (pid : Z) (p : ptr) : pcb_t :=
  v <| p_children := Some (mk_set ((pid, p) :: s_nodes c) (s_node_count c + 1)) |>.

Lemma add_child_run cur p v c nv s :
  cur <> p -> pcbs s !! cur = Some v -> p_children v = Some c -> pcbs s !! p = Some nv ->
  0 <= p_pid nv -> key_lookup (p_pid nv) (s_nodes c) = None -> p <> NULL -> mem_ok s ->
  add_child cur p s = Ok tt (s <| mallocs ::= S |> <| pcbs ::= <[cur := with_child v c (p_pid nv) p]> |>).
Proof.
  intros Hne Hv Hc Hnv Hpid Hk Hp Hm. unfold add_child.
  rewrite (bind_Ok _ _ _ _ _ (load_pcb_run _ _ _ Hv)), Hc. erewrite bind_Ok by reflexivity.
  rewrite (bind_Ok _ _ _ _ _ (load_pcb_run _ _ _ Hnv)).
  assert (Ha : insert_allocates (Some c) (p_pid nv) p = true).
  { simpl. destruct (Z.ltb_spec (p_pid nv) 0); [lia|]. rewrite Hk.
    unfold is_null, ptr_nullable. by rewrite (proj2 (Z.eqb_neq p NULL) Hp). }
  erewrite bind_Ok.
  2:{ unfold set_insert. rewrite Ha. unfold bind, malloc, spec_set_insert, ret. rewrite Ha.
      cbn [negb]. by rewrite (proj2 (Z.eqb_neq _ NULL) (Hm _)). }
  cbv beta iota. erewrite upd_pcb_run by exact Hv. done.
Qed.

(** The kernel stack, mapped at the top of region 0. *)
Definition kstack_mapped (r0 : list pte) (k0 k1 : pte) : Prop :=
  arr_get r0 (NUM_PAGES - 2) = Some k0 /\ arr_get r0 (NUM_PAGES - 1) = Some k1 /\
  pte_valid k0 = true /\ readable k0 /\ pte_valid k1 = true /\ readable k1.

Lemma kstack_addr : KERNEL_STACK_BASE = (NUM_PAGES - 2) * PAGESIZE.
Proof.
  destruct hw_kstack as (E1 & E2 & E3 & _). destruct hw_layout as (E4 & _).
  rewrite E2, E1, E4, E3, NUM_PAGES_size. lia.
Qed.

Lemma with_copy_get x y r0 i :
  Z.of_nat (length r0) = NUM_PAGES -> 0 <= i ->
  arr_get (with_copy x y r0) i =
    if decide (i = NUM_PAGES - 4) then Some x else if decide (i = NUM_PAGES - 3) then Some y
    else arr_get r0 i.
Proof.
  intros Hl Hi. pose proof NUM_PAGES_ge_4. unfold with_copy, arr_get. destruct (Z.ltb_spec i 0); [lia|].
  repeat case_decide; subst.
  - rewrite list_lookup_insert_ne by lia. apply list_lookup_insert_eq. lia.
  - apply list_lookup_insert_eq. rewrite length_insert. lia.
  - by rewrite !list_lookup_insert_ne by lia.
Qed.

Lemma two_entries {P : nat -> pte -> Prop} x y :
  P 0%nat x -> P 1%nat y -> forall i e, [x; y] !! i = Some e -> P i e.
Proof. intros H0 H1 [|[|i]] e Hi; by simplify_eq/=. Qed.

Lemma copy_kstack m r0 r1 f1 f2 k0 k1 :
  Z.of_nat (length r0) = NUM_PAGES -> kstack_mapped r0 k0 k1 -> f1 <> f2 ->
  let r0' := with_copy (mk_pte true prot_rw f1) (mk_pte true prot_rw f2) r0 in
  exists bs m', hw_load m r0' r1 KERNEL_STACK_BASE (Z.to_nat KERNEL_STACK_MAXSIZE) = Some bs /\
    hw_store m r0' r1 (KERNEL_STACK_BASE - KERNEL_STACK_MAXSIZE) bs = Some m' /\
    hw_frame m' f1 = hw_frame m (pte_pfn k0) /\ hw_frame m' f2 = hw_frame m (pte_pfn k1) /\
    forall f, f <> f1 -> f <> f2 -> hw_frame m' f = hw_frame m f.
Proof.
  intros Hl (H0 & H1 & Hv0 & Hr0 & Hv1 & Hr1) Hne r0'. pose proof NUM_PAGES_ge_4. pose proof hw_pagesize.
  assert (Hsz : Z.to_nat KERNEL_STACK_MAXSIZE = (2 * Z.to_nat PAGESIZE)%nat)
    by (destruct hw_kstack as (_ & _ & -> & _); lia).
  assert (Hld : hw_load m r0' r1 KERNEL_STACK_BASE (Z.to_nat KERNEL_STACK_MAXSIZE) =
    Some (concat ((fun e => hw_frame m (pte_pfn e)) <$> [k0; k1]))).
  { rewrite kstack_addr, Hsz. apply (hw_load_pages m r0' r1 (NUM_PAGES - 2) [k0; k1]).
    change (VMEM_REGION_SIZE / PAGESIZE) with NUM_PAGES.
    apply two_entries; (split_and!; [|done|done]); unfold page_entry.
    - destruct (Z.ltb_spec (NUM_PAGES - 2 + Z.of_nat 0) NUM_PAGES); [|lia]. rewrite Z.add_0_r.
      unfold r0'. rewrite with_copy_get by lia. by rewrite !decide_False by lia.
    - replace (NUM_PAGES - 2 + Z.of_nat 1) with (NUM_PAGES - 1) by lia.
      destruct (Z.ltb_spec (NUM_PAGES - 1) NUM_PAGES); [|lia].
      unfold r0'. rewrite with_copy_get by lia. by rewrite !decide_False by lia. }
  destruct (hw_store_pages m r0' r1 (NUM_PAGES - 4) [mk_pte true prot_rw f1; mk_pte true prot_rw f2]
    (concat ((fun e => hw_frame m (pte_pfn e)) <$> [k0; k1]))) as (m' & Est & Hf & Ho).
  - change (VMEM_REGION_SIZE / PAGESIZE) with NUM_PAGES.
    apply two_entries; (split_and!; [|done|apply prot_rw_allows]); unfold page_entry.
    + destruct (Z.ltb_spec (NUM_PAGES - 4 + Z.of_nat 0) NUM_PAGES); [|lia]. rewrite Z.add_0_r.
      unfold r0'. rewrite with_copy_get by lia. by rewrite decide_True by lia.
    + replace (NUM_PAGES - 4 + Z.of_nat 1) with (NUM_PAGES - 3) by lia.
      destruct (Z.ltb_spec (NUM_PAGES - 3) NUM_PAGES); [|lia].
      unfold r0'. rewrite with_copy_get by lia. by rewrite decide_False, decide_True by lia.
  - simpl. apply NoDup_cons. split; [by intros ?%list_elem_of_singleton|apply NoDup_singleton].
  - simpl. rewrite !length_app, !hw_frame_length. simpl. lia.
  - eexists _, m'. split; [exact Hld|]. rewrite temp_addr. split; [exact Est|].
    simpl in Hf. rewrite !app_nil_r in Hf. apply app_inj_1 in Hf as [Hf1 Hf2];
      [|by rewrite !hw_frame_length]. split_and!; [done|done|].
    intros f Hn1 Hn2. apply Ho. simpl. set_solver.
Qed.

(** The child's PCB at the end of fork. *)
Record forked_pcb (pid : Z) (pt : list pte) (parent : ptr) (v cv : pcb_t) (f1 f2 : Z) : Prop := {
  fk_pid : p_pid cv = pid;
  fk_state : p_state cv = READY;
  fk_parent : p_parent cv = parent;
  fk_table : p_page_table cv = Some pt;
  fk_uctx : p_usr_ctx cv = p_usr_ctx v;
  fk_brk : p_current_brk cv = p_current_brk v;
  fk_family : p_children cv = Some empty_set /\ p_zombies cv = Some empty_set /\ p_waiting cv = 0;
  fk_kctx : exists a, p_krn_ctx cv = Some (mk_kctx a (Some (K_fork pid)));
  fk_stack : p_kernel_stack_pages cv = Some [mk_pte true prot_rw f1; mk_pte true prot_rw f2] }.

(** The parts of the state fork needs for the child. *)
Record can_fork (s : kst) (v : pcb_t) (p pid : Z) (c : set_t ptr) (k0 k1 : pte) : Prop := {
  cf_mem : mem_ok s;
  cf_ptr : kptr_ok s p;
  cf_new : pcbs s !! p = None;
  cf_pid : pid = (helper_new_pid (pids s)).1;
  cf_children : p_children v = Some c;
  cf_key : key_lookup pid (s_nodes c) = None;
  cf_uctx : is_Some (p_usr_ctx v);
  cf_ready : is_Some (process_ready_queue s);
  cf_stack : kstack_mapped (region_0_pages s) k0 k1 }.

(** [s'] is [s] with the child [p] in place. *)
Definition child_placed (s s' : kst) (v cv : pcb_t) (p pid : Z) (c : set_t ptr) (fs : list Z) : Prop :=
  pcbs s' = <[p := cv]> (<[current_process s := with_child v c pid p]> (pcbs s)) /\
  ready_list s' = ready_list s ++ [p] /\ current_process s' = current_process s /\
  free_frames s' = fs /\ pids s' = (helper_new_pid (pids s)).2.

Lemma take_pid_run s :
  take_pid s = Ok (helper_new_pid (pids s)).1 (s <| pids := (helper_new_pid (pids s)).2 |>).
Proof. unfold take_pid, bind, gets. by destruct (helper_new_pid (pids s)). Qed.

Lemma new_pid_nonneg ps : 0 <= (helper_new_pid ps).1.
Proof. pose proof (hw_new_pid ps) as H. destruct (helper_new_pid ps). apply H. Qed.

Lemma pop_frame_run s q n fs :
  free_frame_queue s = Some q -> q_data q = FrameCell n :: (FrameCell <$> fs) ->
  exists q', pop_from free_frame_queue s = Ok (Some (FrameCell n)) (s <| free_frame_queue := Some q' |>) /\
    q_data q' = FrameCell <$> fs.
Proof.
  intros Hq Hd. destruct (spec_queue_pop_cons q _ _ Hd) as (q' & Ep & Hq'). exists q'.
  rewrite pop_from_run, Hq, Ep. done.
Qed.

(** The child's PCB before the kernel context is copied, and the state around
    it. *)
Definition with_stack (v nv : pcb_t) (f1 f2 : Z) : pcb_t :=
  nv <| p_current_brk := p_current_brk v |>
     <| p_kernel_stack_pages := Some [mk_pte true prot_rw f1; mk_pte true prot_rw f2] |>.
Definition child_built (s : kst) (p : ptr) (nv : pcb_t) (k : nat) (q : queue_t frame_ptr) : kst :=
  s <| pids := (helper_new_pid (pids s)).2 |> <| mallocs := k |> <| pcbs := <[p := nv]> (pcbs s) |>
    <| free_frame_queue := Some q |>.

(** [fork_child] up to the linking of the child to its parent. *)
Lemma fork_child_build pt s v r1 q f1 f2 fs p pid c k0 k1 :
  copyable s v r1 q (f1 :: f2 :: fs) -> p = malloc_at s (mallocs s) -> can_fork s v p pid c k0 k1 ->
  current_process s <> p ->
  exists k nv q2 uc, p_usr_ctx v = Some uc /\ fresh_pcb pid pt (current_process s) uc nv /\
    q_data q2 = FrameCell <$> fs /\
    fork_child pt s = (add_child (current_process s) p ;;; push_to process_ready_queue p ;;;
                       KCCopy (K_fork pid) p) (child_built s p (with_stack v nv f1 f2) k q2).
Proof.
  intros Hc Hp Hf Hne. pose proof (cf_mem _ _ _ _ _ _ _ Hf) as Hm. destruct Hf. destruct cf_uctx0 as [uc Huc].
  assert (Hpn : p <> NULL) by (subst p; apply Hm). pose proof (cp_cur _ _ _ _ _ Hc) as Hcur.
  set (s1 := s <| pids := (helper_new_pid (pids s)).2 |>).
  destruct (pcbNew_run pid pt (current_process s) uc None s1) as (k & nv & En & Hnv);
    [exact Hm|by rewrite Hp in cf_new0|done|].
  change (malloc_at s1 (mallocs s1)) with (malloc_at s (mallocs s)) in En. rewrite <- Hp in En.
  unfold fork_child. rewrite (bind_Ok _ _ _ _ _ (take_pid_run s)), <- cf_pid0. fold s1.
  erewrite bind_Ok by reflexivity. change (current_process s1) with (current_process s).
  erewrite bind_Ok by (apply load_pcb_run; exact Hcur). rewrite Huc, (bind_Ok _ _ _ _ _ En).
  erewrite bind_Ok by (apply load_pcb_run; simpl; rewrite lookup_insert_ne by done; exact Hcur).
  erewrite bind_Ok by (apply upd_pcb_run; simpl; apply lookup_insert_eq).
  match goal with |- context [bind (pop_from _) _ ?st] => set (s2 := st) end.
  destruct (pop_frame_run s2 q f1 (f2 :: fs) (cp_queue _ _ _ _ _ Hc) (cp_free _ _ _ _ _ Hc)) as (q1 & Ep1 & Hq1).
  rewrite (bind_Ok _ _ _ _ _ Ep1).
  destruct (pop_frame_run (s2 <| free_frame_queue := Some q1 |>) q1 f2 fs) as (q2 & Ep2 & Hq2); [reflexivity|exact Hq1|].
  rewrite (bind_Ok _ _ _ _ _ Ep2). exists k, nv, q2, uc. split_and!; [done..|].
  erewrite bind_Ok by (eapply (set_stack_page_run p _ [uninit_pte; uninit_pte]);
    [simpl; apply lookup_insert_eq|simpl; apply Hnv|simpl; lia]).
  erewrite bind_Ok by (eapply (set_stack_page_run p _ [mk_pte true prot_rw f1; uninit_pte]);
    [simpl; apply lookup_insert_eq|done|simpl; lia]).
  rewrite (proj2 (Z.eqb_neq p NULL) Hpn). f_equal. unfold child_built, s2, s1. kst_eq s.
  by rewrite !insert_insert_eq.
Qed.

Lemma fork_child_run pt s v r1 q f1 f2 fs p pid c k0 k1 :
  copyable s v r1 q (f1 :: f2 :: fs) -> p = malloc_at s (mallocs s) -> can_fork s v p pid c k0 k1 ->
  exists s' cv, fork_child pt s = Ok (K_fork pid) s' /\
    forked_pcb pid pt (current_process s) v cv f1 f2 /\ child_placed s s' v cv p pid c fs /\
    forall f, f <> f1 -> f <> f2 -> hw_frame (umem s') f = hw_frame (umem s) f.
Proof.
  intros Hc Hp Hf. pose proof (cp_cur _ _ _ _ _ Hc) as Hcur.
  assert (Hne : current_process s <> p).
  { intros E. pose proof (cf_new _ _ _ _ _ _ _ Hf). rewrite E in Hcur. congruence. }
  destruct (fork_child_build pt s v r1 q f1 f2 fs p pid c k0 k1 Hc Hp Hf Hne)
    as (k & nv & q2 & uc & Huc & Hnv & Hq2 & ->).
  pose proof (cf_mem _ _ _ _ _ _ _ Hf) as Hm. destruct Hf. destruct cf_ready0 as [rq Hrq].
  assert (Hpn : p <> NULL) by (subst p; apply Hm).
  set (nv3 := with_stack v nv f1 f2). set (s3 := child_built s p nv3 k q2).
  assert (Hpid3 : p_pid nv3 = pid) by apply Hnv.
  erewrite bind_Ok.
  2:{ eapply (add_child_run (current_process s) p v c nv3 s3); try done.
      - by rewrite <- Hcur; apply lookup_insert_ne.
      - apply lookup_insert_eq.
      - rewrite Hpid3, cf_pid0. apply new_pid_nonneg.
      - by rewrite Hpid3. }
  erewrite bind_Ok by (eapply (push_to_run process_ready_queue rq); [exact Hrq|by apply Z.eqb_neq|apply Hm]).
  match goal with |- context [KCCopy _ _ ?st] => set (s4 := st) end.
  assert (Hpcbs4 : pcbs s4 = <[p := nv3]> (<[current_process s := with_child v c pid p]> (pcbs s))).
  { change (pcbs s4) with (<[current_process s := with_child v c (p_pid nv3) p]> (<[p := nv3]> (pcbs s))).
    rewrite Hpid3. by rewrite insert_insert_ne. }
  destruct (fp_kctx _ _ _ _ _ Hnv) as [a Ha].
  assert (Hf12 : f1 <> f2).
  { pose proof (cp_nodup _ _ _ _ _ Hc) as [Hn _]%NoDup_cons. intros ->. apply Hn. by left. }
  destruct (copy_kstack (umem s) (region_0_pages s) r1 f1 f2 k0 k1 (cp_r0 _ _ _ _ _ Hc) cf_stack0 Hf12)
    as (bs & m & El & Est & _ & _ & Ho).
  assert (Hrt : read_table s4 = Some r1).
  { unfold read_table. change (reg_ptbr1 s4) with (reg_ptbr1 s). rewrite (cp_active _ _ _ _ _ Hc), Hpcbs4.
    rewrite lookup_insert_ne, lookup_insert_eq by done. simpl. apply Hc. }
  erewrite (KCCopy_run (K_fork pid) p nv3 (mk_pte true prot_rw f1) (mk_pte true prot_rw f2)
    (mk_kctx a None) s4 r1 bs m); [|done|exact cf_ptr0|by rewrite Hpcbs4, lookup_insert_eq|done|exact Ha|apply Hc
    |done|exact El|exact Est].
  eexists _, (nv3 <| p_krn_ctx := Some (mk_kctx a (Some (K_fork pid))) |>). split; [done|].
  split; [|split; [|exact Ho]].
  - destruct Hnv. split; simpl; try done; [congruence|by eexists].
  - split_and!; [|unfold ready_list; rewrite Hrq; exact (q_data_append rq p)|done| |done].
    + change (pcbs (copied ?k ?p ?v ?c ?m s4)) with (<[p := v <| p_krn_ctx := Some (mk_kctx (kc_addr c) (Some k)) |>]> (pcbs s4)).
      rewrite Hpcbs4. by rewrite insert_insert_eq.
    + unfold free_frames. simpl. by rewrite Hq2, frame_pfns_cells.
Qed.

Lemma new_pid_fresh_pid ps q : pid_in_use ps q = true -> q <> (helper_new_pid ps).1.
Proof.
  pose proof (hw_new_pid ps) as H. destruct (helper_new_pid ps) as [pid ps'].
  destruct H as (_ & H & _). simpl. intros Hq ->. congruence.
Qed.

Lemma length_invalid_table : Z.of_nat (length invalid_table) = NUM_PAGES.
Proof. unfold invalid_table. rewrite length_replicate. pose proof NUM_PAGES_ge_4. lia. Qed.

Lemma invalid_table_invalid i e : invalid_table !! i = Some e -> pte_valid e = false.
Proof. unfold invalid_table. by intros [-> _]%lookup_replicate. Qed.

Lemma mapped_invalid_table : mapped invalid_table = [].
Proof. unfold invalid_table. by induction (Z.to_nat NUM_PAGES). Qed.

(** The child's preconditions survive the copying of the pages. *)
Lemma can_fork_after s v p pid c k0 k1 tr m r0 q :
  can_fork s v p pid c k0 k1 -> temp_cleared (region_0_pages s) r0 ->
  Z.of_nat (length (region_0_pages s)) = NUM_PAGES -> p / PAGESIZE <> NUM_PAGES - 4 ->
  can_fork (after_pages tr m r0 q (s <| mallocs ::= S |>)) v p pid c k0 k1.
Proof.
  intros [] Hr0 Hl Hp. pose proof NUM_PAGES_ge_4.
  assert (Hget : forall i, 0 <= i -> i <> NUM_PAGES - 4 -> arr_get r0 i = arr_get (region_0_pages s) i).
  { intros i Hi Hne. destruct Hr0 as [->| ->]; [done|]. unfold arr_get. destruct (Z.ltb_spec i 0); [lia|].
    by rewrite list_lookup_insert_ne by lia. }
  split; try done.
  - destruct cf_ptr0 as (H0 & H1 & e & H2 & H3). split_and!; [done|done|]. exists e. simpl.
    rewrite Hget; [done| |done]. pose proof hw_pagesize. apply Z.div_pos; lia.
  - destruct cf_stack0 as (H0 & H1 & H2). split_and!; simpl; [rewrite Hget; [done|lia..]
      |rewrite Hget; [done|lia..]|apply H2..].
Qed.

(** ** Main result *)

(** [ForkHandler] up to the loop that copies the pages. *)
Lemma ForkHandler_start s n :
  count_processes s = Ok n s -> n < MAX_PROCESSES -> mem_ok s ->
  ForkHandler s =
    (r <- fork_pages (range_up 0 NUM_PAGES) invalid_table ;;
     match r with
     | None => ret (K_syscall ERROR)
     | Some new_page_table => fork_child new_page_table
     end) (s <| trace ::= fun t => t ++ [IoTlbFlush TLB_FLUSH_ALL] |> <| mallocs ::= S |>).
Proof.
  intros Hn Hmax Hm. unfold ForkHandler. rewrite (bind_Ok _ _ _ _ _ Hn), Z.geb_leb.
  destruct (Z.leb_spec MAX_PROCESSES n); [lia|]. unfold emit. erewrite bind_Ok by reflexivity.
  unfold malloc. erewrite bind_Ok by reflexivity.
  change (malloc_at _ _ =? NULL) with (malloc_at s (mallocs s) =? NULL).
  by rewrite (proj2 (Z.eqb_neq _ NULL) (Hm _)).
Qed.

Lemma fork_return_run pid s v :
  pcbs s !! current_process s = Some v ->
  exists s', fork_return pid s = Ok (K_syscall (if p_pid v =? pid then 0 else pid)) s'.
Proof.
  intros Hv. unfold fork_return, current_pid. unfold bind at 1 2, gets.
  erewrite bind_Ok by (apply load_pcb_run; exact Hv). unfold ret, emit. erewrite bind_Ok by reflexivity.
  destruct (p_pid v =? pid); by eexists.
Qed.

(** [ForkHandler] once the pages are copied: the child's stack frames are
    still there, and the child can be made. *)
Lemma fork_pages_phase s v r1 q fs p pid c k0 k1 :
  let s0 := s <| trace ::= fun t => t ++ [IoTlbFlush TLB_FLUSH_ALL] |> <| mallocs ::= S |> in
  let k := length (mapped r1) in
  copyable s v r1 q fs -> can_fork s v p pid c k0 k1 -> p / PAGESIZE <> NUM_PAGES - 4 ->
  (k + 2 <= length fs)%nat ->
  exists f1 f2 rest pt' tr m r0 q', fs = take k fs ++ f1 :: f2 :: rest /\
    let s1 := after_pages tr m r0 q' s0 in
    fork_pages (range_up 0 NUM_PAGES) invalid_table s0 = Ok (Some pt') s1 /\
    pages_copied r1 invalid_table pt' (umem s0) m 0 (take k fs) /\
    copyable s1 v r1 q' (f1 :: f2 :: rest) /\ can_fork s1 v p pid c k0 k1.
Proof.
  intros s0 k Hc Hf Hpage Hlen.
  assert (Hc0 : copyable s0 v r1 q fs) by (destruct Hc; by split).
  destruct (fork_pages_run invalid_table 0 s0 v r1 q fs Hc0 length_invalid_table)
    as (pt' & tr & m & r0 & q' & E & Hr0 & Hq' & Hcp).
  { intros i _ e. apply invalid_table_invalid. }
  { rewrite drop_0. fold k. lia. }
  rewrite drop_0 in *. fold k in Hq', Hcp.
  destruct (drop k fs) as [|f1 [|f2 rest]] eqn:Ed;
    try (apply (f_equal length) in Ed; rewrite length_drop in Ed; simpl in Ed; lia).
  assert (Hfs : fs = take k fs ++ f1 :: f2 :: rest) by (by rewrite <- Ed, take_drop).
  exists f1, f2, rest, pt', tr, m, r0, q'. split; [exact Hfs|]. cbv zeta.
  split_and!; [exact E|exact Hcp| |].
  - pose proof (cp_nodup _ _ _ _ _ Hc) as Hnd. rewrite Hfs in Hnd. apply NoDup_app in Hnd as (_ & _ & Hnd).
    destruct Hc0. split; try done.
    + simpl. destruct Hr0 as [->| ->]; [done|]. by rewrite length_insert.
    + intros f Hin Hin2. apply (cp_fresh0 f Hin). rewrite Hfs. set_solver.
  - pose proof (can_fork_after s v p pid c k0 k1 tr m r0 q' Hf Hr0 (cp_r0 _ _ _ _ _ Hc) Hpage) as H.
    destruct H. by split.
Qed.

(** C6: fork, with enough frames and memory, gives the child a page table with
    the parent's pages and protections in frames of its own, each holding what
    the parent's page holds, and changes no frame that was in use; the child
    is READY at the back of the ready queue and among the parent's children,
    with the context the parent continues in; the frames taken are exactly
    those of the child's pages and stack; the parent returns the child's pid
    and the child 0. *)
Theorem ForkHandler_copies s v r1 q fs p pid c k0 k1 n :
  copyable s v r1 q fs -> can_fork s v p pid c k0 k1 ->
  p = malloc_at s (S (mallocs s)) -> p / PAGESIZE <> NUM_PAGES - 4 ->
  count_processes s = Ok n s -> n < MAX_PROCESSES -> (length (mapped r1) + 2 <= length fs)%nat ->
  pid_in_use (pids s) (p_pid v) = true ->
  exists s' cv pt' used f1 f2 rest, ForkHandler s = Ok (K_fork pid) s' /\
    forked_pcb pid pt' (current_process s) v cv f1 f2 /\ child_placed s s' v cv p pid c rest /\
    fs = used ++ f1 :: f2 :: rest /\ mapped pt' ≡ₚ used /\
    (forall i e, r1 !! i = Some e -> if pte_valid e
       then exists f, pt' !! i = Some (mk_pte true (pte_prot e) f) /\ f ∈ used /\
                      hw_frame (umem s') f = hw_frame (umem s) (pte_pfn e)
       else exists e', pt' !! i = Some e' /\ pte_valid e' = false) /\
    (forall f, f ∉ fs -> hw_frame (umem s') f = hw_frame (umem s) f) /\
    (exists s1, fork_return pid s' = Ok (K_syscall pid) s1) /\
    (exists s2, fork_return pid (s' <| current_process := p |>) = Ok (K_syscall 0) s2).
Proof.
  intros Hc Hf Hp Hpage Hn Hmax Hlen Huse. pose proof (cf_mem _ _ _ _ _ _ _ Hf) as Hm.
  pose proof (cp_cur _ _ _ _ _ Hc) as Hcur. pose proof (cf_new _ _ _ _ _ _ _ Hf) as Hpn.
  assert (Hne : current_process s <> p) by (intros E; rewrite E in Hcur; congruence).
  destruct (fork_pages_phase s v r1 q fs p pid c k0 k1 Hc Hf Hpage Hlen)
    as (f1 & f2 & rest & pt' & tr & m & r0 & q' & Hfs & E & Hcp & Hc1 & Hf1).
  set (k := length (mapped r1)) in *. set (s0 := setf mallocs _ _) in *. set (s1 := after_pages tr m r0 q' s0) in *.
  destruct (fork_child_run pt' s1 v r1 q' f1 f2 rest p pid c k0 k1 Hc1) as (s' & cv & Ec & Hcv & Hpl & Ho);
    [exact Hp|exact Hf1|].
  assert (Hd : NoDup (take k fs ++ f1 :: f2 :: rest)) by (rewrite <- Hfs; apply Hc).
  apply NoDup_app in Hd as (_ & Hd & _). pose proof Hpl as (Hpcbs & _ & Hcp' & _).
  exists s', cv, pt', (take k fs), f1, f2, rest. split; [|split_and!].
  - rewrite (ForkHandler_start s n Hn Hmax Hm). by rewrite (bind_Ok _ _ _ _ _ E).
  - exact Hcv.
  - exact Hpl.
  - done.
  - rewrite (pc_mapped _ _ _ _ _ _ _ Hcp), mapped_invalid_table. done.
  - intros i e Hi. pose proof (cp_r1 _ _ _ _ _ Hc). pose proof (lookup_lt_Some _ _ _ Hi).
    pose proof length_invalid_table. destruct (pte_valid e) eqn:Hv.
    + destruct (pc_copy _ _ _ _ _ _ _ Hcp i e) as (f & Hf' & Hin & Heq); [lia|done..|].
      exists f. split_and!; [done|done|]. change (umem s) with (umem s0). rewrite <- Heq. apply Ho; intros ->; apply (Hd _ Hin); set_solver.
    + rewrite (pc_invalid _ _ _ _ _ _ _ Hcp i e) by (done || lia).
      destruct (lookup_lt_is_Some_2 invalid_table i) as [e' He']; [lia|].
      exists e'. split; [done|]. by eapply invalid_table_invalid.
  - intros f Hnf. rewrite Ho by (intros ->; apply Hnf; rewrite Hfs; set_solver).
    apply (pc_others _ _ _ _ _ _ _ Hcp). rewrite Hfs in Hnf. set_solver.
  - assert (Ev : pcbs s' !! current_process s' = Some (with_child v c pid p))
      by (rewrite Hcp', Hpcbs, lookup_insert_ne by done; apply lookup_insert_eq).
    destruct (fork_return_run pid s' _ Ev) as (s2 & E2). exists s2. rewrite E2.
    rewrite (proj2 (Z.eqb_neq _ pid)); [done|]. change (p_pid (with_child v c pid p)) with (p_pid v).
    rewrite (cf_pid _ _ _ _ _ _ _ Hf). by apply new_pid_fresh_pid.
  - assert (Ev : pcbs (s' <| current_process := p |>) !! p = Some cv) by (simpl; rewrite Hpcbs; apply lookup_insert_eq).
    destruct (fork_return_run pid _ cv Ev) as (s2 & E2). exists s2. rewrite E2.
    by rewrite (fk_pid _ _ _ _ _ _ _ Hcv), Z.eqb_refl.
Qed.
End Facts.

(** ** Witness on the demo machine *)
Section Witnesses.
Import DemoHardware Demo.

(** Process 20 (pid 1, init) runs; its last page is frame 31.  The child is
    made at 1001, with frames 40, 41 and 42. *)
Definition demo_fork_table : list pte := replicate 127 (mk_pte false 0 0) ++ [mk_pte true 3 31].
Definition demo_fork_pcb (pid : Z) : pcb_t :=
  mk_pcb READY 0 pid 176 0 0 0 NULL (Some empty_set) (Some empty_set) (Some demo_fork_table)
    (Some no_ctx) None None None 0 0 0 0 0.
Definition demo_frames : queue_t frame_ptr :=
  mk_queue [(0, FrameCell 40); (1, FrameCell 41); (2, FrameCell 42); (3, FrameCell 43)] 4 4.
Definition demo_fork : kst := blank
  <| pcbs := {[ 16 := demo_fork_pcb 0; 20 := demo_fork_pcb 1 ]} |>
  <| current_process := 20 |> <| idle_process := 16 |> <| init_process := 20 |>
  <| reg_ptbr1 := Pt_pcb 20 |> <| free_frame_queue := Some demo_frames |>
  <| region_0_pages := replicate 126 (mk_pte true 3 5) ++ [mk_pte true 3 126; mk_pte true 3 127] |>
  <| pids := [1; 0] : @pid_state demo |>.

Lemma demo_copyable :
  copyable demo_fork (demo_fork_pcb 1) demo_fork_table demo_frames [40; 41; 42; 43].
Proof.
  split; try reflexivity.
  - apply Forall_app. split; [by apply Forall_replicate|by apply Forall_singleton].
  - by apply (bool_decide_unpack _).
  - intros f. change (mapped demo_fork_table) with [31]. intros ->%list_elem_of_singleton.
    by apply (bool_decide_unpack _).
Defined.

Lemma demo_can_fork :
  can_fork demo_fork (demo_fork_pcb 1) 1001 2 empty_set (mk_pte true 3 126) (mk_pte true 3 127).
Proof.
  split; try done.
  - by apply demo_mem_ok.
  - split_and!; [done|by vm_compute|]. exists (mk_pte true 3 5). by split.
Defined.

Lemma ForkHandler_copies_witness :
  exists s', ForkHandler demo_fork = Ok (K_fork 2) s' /\ ready_list s' = [1001].
Proof.
  destruct (ForkHandler_copies demo_fork (demo_fork_pcb 1) demo_fork_table demo_frames [40; 41; 42; 43]
    1001 2 empty_set (mk_pte true 3 126) (mk_pte true 3 127) 2)
    as (s' & cv & pt' & used & f1 & f2 & rest & E & _ & (_ & Hr & _) & _);
    [exact demo_copyable|exact demo_can_fork|done|by vm_compute|reflexivity|done|vm_compute; lia|done|].
  exact (ex_intro _ s' (conj E Hr)).
Defined.
End Witnesses.
