(* ===== verification/Loader.v ===== *)
(** * Loading programs ([kernel.c] LoadProgram, [ExecHandler])

    [LoadProgram] reads an executable into a new region 1 and puts the
    arguments on the new stack.  The file system and the file format are the
    framework's ([fs_open], [exe_info], [exe_read]); the argument strings are
    read through the MMU.

    Main result: the loop that builds the new page table takes three frames
    off the free frame queue per page of region 1, mapped or not, and maps at
    most one of them. *)

From S2P Require Import Prelude Hardware Containers KState Memory Pcb Sched Ipc Pipe Process.
From stdpp Require Import list gmap fin_maps.
From Stdlib Require Import Strings.Byte.

#[local] Open Scope Z_scope.

Section Defs.
Context {hw : Hardware}.

(** ** Strings and words in memory *)

(** A little-endian 32-bit word. *)
Definition word_of_bytes (bs : list byte) : Z :=
  foldr (fun b acc => Z.of_N (Byte.to_N b) + 256 * acc) 0 bs.
Definition load_word (a : ptr) : M kst Z := bs <- load_user a 4 ;; ret (word_of_bytes bs).

(** A string up to its NUL byte: no address from [VMEM_1_LIMIT] on is mapped. *)
Fixpoint load_cstr (fuel : nat) (a : ptr) : M kst (list byte) :=
  match fuel with
  | O => undef
  | S fuel' =>
      bs <- load_user a 1 ;;
      b <- demand (head bs) ;;
      if decide (b = x00) then ret [] else
      rest <- load_cstr fuel' (a + 1) ;;
      ret (b :: rest)
  end.
Definition load_string (a : ptr) : M kst (list byte) :=
  load_cstr (Z.to_nat (VMEM_1_LIMIT - a)) a.

(** The strings of a NULL-terminated array of pointers. *)
Fixpoint load_strings (fuel : nat) (args : ptr) : M kst (list (list byte)) :=
  match fuel with
  | O => undef
  | S fuel' =>
      arg <- load_word args ;;
      if arg =? NULL then ret [] else
      str <- load_string arg ;;
      rest <- load_strings fuel' (args + 4) ;;
      ret (str :: rest)
  end.
Definition load_args (args : ptr) : M kst (list (list byte)) :=
  load_strings (Z.to_nat (VMEM_1_LIMIT - args)) args.

(** The bytes the argument strings take, with their NUL bytes. *)
Definition args_size (args : list (list byte)) : Z :=
  foldr (fun a n => Z.of_nat (length a) + 1 + n) 0 args.

(** ** The layout of region 1 *)

(** The pages of a program: first text page, first data page, number of data
    and stack pages. *)
Record layout := mk_layout { text_pg1 : Z; data_pg1 : Z; data_npg : Z; stack_npg : Z }.

(** [cp], [cpp] and the stack pointer for arguments [args]. *)
Definition args_start (args : list (list byte)) : Z := VMEM_1_LIMIT - args_size args.
Definition argv_start (args : list (list byte)) : Z :=
  Z.land (args_start args - (Z.of_nat (length args) + 3 + POST_ARGV_NULL_SPACE) * 4) (-8).
Definition initial_sp (args : list (list byte)) : Z := argv_start args - INITIAL_STACK_FRAME_SIZE.

Definition program_layout (li : load_info) (args : list (list byte)) : layout :=
  mk_layout (Z.shiftr (li_t_vaddr li - VMEM_1_BASE) PAGESHIFT)
    (Z.shiftr (li_id_vaddr li - VMEM_1_BASE) PAGESHIFT)
    (li_id_npg li + li_ud_npg li)
    (Z.shiftr (VMEM_1_LIMIT - DOWN_TO_PAGE (initial_sp args)) PAGESHIFT).

Definition page_region (l : layout) (i : Z) : Z :=
  if (i >? text_pg1 l) && (i <? data_pg1 l) then 1
  else if i <? data_pg1 l + data_npg l then 2
  else if i >=? NUM_PAGES - stack_npg l then 4
  else 0.

(** One page of the new table, from the three frames popped for it. *)
Definition new_page (region : Z) (old : pte) (ff1 ff2 ff3 : frame_ptr) : M kst pte :=
  let rw := Z.lor PROT_READ PROT_WRITE in
  if region =? 1 then pfn <- deref_frame ff1 ;; ret (mk_pte true rw pfn)
  else if region =? 2 then pfn <- deref_frame ff2 ;; ret (mk_pte true rw pfn)
  else if region =? 4 then pfn <- deref_frame ff3 ;; ret (mk_pte true rw pfn)
  else ret (mk_pte false 0 (pte_pfn old)).

(** The loop that builds the table; [None] when the frames run out. *)
Fixpoint new_pages (l : layout) (indices : list Z) (table : list pte) : M kst (option (list pte)) :=
  match indices with
  | [] => ret (Some table)
  | i :: indices' =>
      ff1 <- pop_from free_frame_queue ;;
      ff2 <- pop_from free_frame_queue ;;
      ff3 <- pop_from free_frame_queue ;;
      match ff1, ff2, ff3 with
      | Some ff1, Some ff2, Some ff3 =>
          old <- demand (arr_get table i) ;;
          e <- new_page (page_region l i) old ff1 ff2 ff3 ;;
          table <- demand (arr_set table i e) ;;
          new_pages l indices' table
      | _, _, _ => ret None
      end
  end.

(** Free every page of the region 1 in use. *)
Definition free_region_1 : M kst unit :=
  for_each (R:=unit) (range_up 0 NUM_PAGES) (fun i =>
    r1_pt <- read_ptbr1 ;;
    e <- demand (arr_get r1_pt i) ;;
    (if pte_valid e then free_page_frame 1 i else ret tt) ;;;
    ret None) ;;;
  ret tt.

(** [lseek] and [read] of a segment; false when the file is too short. *)
Definition read_segment (fd : exe_file) (faddr vaddr npg : Z) : M kst bool :=
  let segment_size := Z.shiftl npg PAGESHIFT in
  let bs := exe_read fd faddr segment_size in
  store_user vaddr bs ;;;
  ret (Z.of_nat (length bs) =? segment_size).

(** Text pages become readable and executable. *)
Definition protect_text (proc : ptr) (l : layout) : M kst unit :=
  for_each (R:=unit) (range_up (text_pg1 l) (data_pg1 l)) (fun i =>
    v <- load_pcb proc ;;
    pt <- demand (p_page_table v) ;;
    e <- demand (arr_get pt i) ;;
    (if pte_valid e then
       pt' <- demand (arr_set pt i (mk_pte true (Z.lor PROT_EXEC PROT_READ) (pte_pfn e))) ;;
       store_pcb proc (v <| p_page_table := Some pt' |>)
     else ret tt) ;;;
    ret None) ;;;
  ret tt.

(** [memset(p, 0, n)] *)
Definition zero_user (a n : Z) : M kst unit :=
  if n <? 0 then undef else store_user a (replicate (Z.to_nat n) x00).

(** Each argument is copied to [cp] and its address stored at [cpp]; the
    results are the next [cpp]. *)
Fixpoint store_args (args : list (list byte)) (cpp cp : Z) : M kst Z :=
  match args with
  | [] => ret cpp
  | a :: args' =>
      store_user cpp (int_bytes cp) ;;;
      store_user cp (a ++ [x00]) ;;;
      store_args args' (cpp + 4) (cp + Z.of_nat (length a) + 1)
  end.

(** The argument list on the new stack. *)
Definition build_args (args : list (list byte)) : M kst unit :=
  let cpp := argv_start args in
  zero_user cpp (VMEM_1_LIMIT - cpp) ;;;
  store_user cpp (int_bytes (Z.of_nat (length args))) ;;;
  cpp <- store_args args (cpp + 4) (args_start args) ;;
  store_user cpp (int_bytes NULL) ;;;
  store_user (cpp + 4) (int_bytes NULL).

(** [proc->usr_ctx->f = x] *)
Definition set_user_context (proc : ptr) (g : UserContext -> UserContext) : M kst unit :=
  v <- load_pcb proc ;;
  uc <- demand (p_usr_ctx v) ;;
  store_pcb proc (v <| p_usr_ctx := Some (g uc) |>).

(** [LoadProgram] once the new page table is built: from here on the process
    is loaded or killed. *)
Definition load_segments (fd : exe_file) (li : load_info) (l : layout) (args : list (list byte))
  (new_process_pages : list pte) (proc : ptr) : M kst Z :=
  upd_pcb proc (fun v => v <| p_current_brk :=
    (data_pg1 l + data_npg l + 1) * PAGESIZE + VMEM_REGION_SIZE |>) ;;;
  free_region_1 ;;;
  v <- load_pcb proc ;;
  demand (p_page_table v) ;;;
  upd_pcb proc (fun v => v <| p_page_table := Some new_process_pages |>) ;;;
  write_ptbr1 (Pt_pcb proc) ;;;
  emit (IoTlbFlush TLB_FLUSH_1) ;;;
  text_ok <- read_segment fd (li_t_faddr li) (li_t_vaddr li) (li_t_npg li) ;;
  if negb text_ok then ret KILL else
  data_ok <- read_segment fd (li_id_faddr li) (li_id_vaddr li) (li_id_npg li) ;;
  if negb data_ok then ret KILL else
  protect_text proc l ;;;
  emit (IoTlbFlush TLB_FLUSH_1) ;;;
  zero_user (li_id_end li) (li_ud_end li - li_id_end li) ;;;
  set_user_context proc (fun uc => uc <| uc_pc := li_entry li |>) ;;;
  build_args args ;;;
  ret 0.

(** The arguments are read twice: to size them, and to save them. *)
Definition LoadProgram (name : list byte) (args : ptr) (proc : ptr) : M kst Z :=
  match fs_open name with
  | None => ret ERROR
  | Some fd =>
      match exe_info fd with
      | None => ret (-1)
      | Some li =>
          if li_entry li <? VMEM_1_BASE then ret ERROR else
          sized <- load_args args ;;
          let l := program_layout li sized in
          if stack_npg l + data_pg1 l + data_npg l >=? MAX_PT_LEN then ret ERROR else
          set_user_context proc (fun uc => uc <| uc_sp := initial_sp sized |>) ;;;
          argbuf <- malloc ;;
          argbuf_ok <- (if argbuf =? NULL then ret false
                        else ok <- check_memory_validity argbuf ;; ret (truthy ok)) ;;
          if negb argbuf_ok then ret ERROR else
          saved <- load_args args ;;
          table <- malloc ;;
          if table =? NULL then ret ERROR else
          r <- new_pages l (range_up 0 NUM_PAGES) (replicate (Z.to_nat NUM_PAGES) uninit_pte) ;;
          match r with
          | None => ret ERROR
          | Some new_process_pages => load_segments fd li l saved new_process_pages proc
          end
      end
  end.

(** [argvec[0]] is read by the trace message. *)
Definition ExecHandler (filename argvec : ptr) : M kst Z :=
  cur <- gets current_process ;;
  if (filename =? NULL) || (cur =? NULL) then ret ERROR else
  name <- load_string filename ;;
  if negb (fs_exists name) then ret ERROR else
  if negb (fs_executable name) then ret ERROR else
  load_word argvec ;;;
  rc <- LoadProgram name argvec cur ;;
  if rc =? KILL then ExitHandler KILL ;;; ret 0
  else if rc =? ERROR then ret ERROR
  else ret 0.
End Defs.

Section Facts.
Context {hw : Hardware}.

(** Which of the three frames popped for page [i] is used. *)
Definition frame_slot (l : layout) (i : Z) : option nat :=
  let r := page_region l i in
  if r =? 1 then Some 0%nat else if r =? 2 then Some 1%nat else if r =? 4 then Some 2%nat else None.

(** The entry of page [i] when the frames [fs] are on the queue at page 0. *)
Definition loaded_page (l : layout) (fs : list Z) (i : nat) (e : pte) : Prop :=
  match frame_slot l (Z.of_nat i) with
  | Some k => exists f, fs !! (3 * i + k)%nat = Some f /\ e = mk_pte true (Z.lor PROT_READ PROT_WRITE) f
  | None => pte_valid e = false
  end.

Lemma new_page_run l i old f1 f2 f3 s :
  exists e, new_page (page_region l i) old (FrameCell f1) (FrameCell f2) (FrameCell f3) s = Ok e s /\
    match frame_slot l i with
    | Some k => exists f, [f1; f2; f3] !! k = Some f /\ e = mk_pte true (Z.lor PROT_READ PROT_WRITE) f
    | None => pte_valid e = false
    end.
Proof.
  unfold new_page, frame_slot. destruct (page_region l i =? 1); [by eexists; split; [|eexists]|].
  destruct (page_region l i =? 2); [by eexists; split; [|eexists]|].
  destruct (page_region l i =? 4); [by eexists; split; [|eexists]|]. by eexists.
Qed.

(** Three pops in a row. *)
Lemma pop_three s q f1 f2 f3 fs :
  free_frame_queue s = Some q -> q_data q = FrameCell <$> f1 :: f2 :: f3 :: fs ->
  exists q1 q2 q3, q_data q3 = FrameCell <$> fs /\
    pop_from free_frame_queue s = Ok (Some (FrameCell f1)) (s <| free_frame_queue := Some q1 |>) /\
    pop_from free_frame_queue (s <| free_frame_queue := Some q1 |>) =
      Ok (Some (FrameCell f2)) (s <| free_frame_queue := Some q2 |>) /\
    pop_from free_frame_queue (s <| free_frame_queue := Some q2 |>) =
      Ok (Some (FrameCell f3)) (s <| free_frame_queue := Some q3 |>).
Proof.
  intros Hq Hd. destruct (spec_queue_pop_cons q _ _ Hd) as (q1 & E1 & H1).
  destruct (spec_queue_pop_cons q1 _ _ H1) as (q2 & E2 & H2).
  destruct (spec_queue_pop_cons q2 _ _ H2) as (q3 & E3 & H3). exists q1, q2, q3.
  split; [done|].
  assert (Hpop : forall s x y d, spec_queue_pop (free_frame_queue s) = (d, Some y) ->
    x = s <| free_frame_queue := Some y |> -> pop_from free_frame_queue s = Ok d x).
  { intros s0 x y d Ep ->. by rewrite pop_from_run, Ep. }
  split_and!; [apply (Hpop _ _ q1); [by rewrite Hq|done]|by apply (Hpop _ _ q2)|by apply (Hpop _ _ q3)].
Qed.

Lemma new_pages_run l n lo table fs0 s q :
  Z.of_nat (length table) = NUM_PAGES -> Z.of_nat (lo + n) = NUM_PAGES ->
  free_frame_queue s = Some q -> q_data q = FrameCell <$> drop (3 * lo) fs0 ->
  (3 * (lo + n) <= length fs0)%nat ->
  (forall i e, (i < lo)%nat -> table !! i = Some e -> loaded_page l fs0 i e) ->
  exists table' q', new_pages l (range_up (Z.of_nat lo) NUM_PAGES) table s =
      Ok (Some table') (s <| free_frame_queue := Some q' |>) /\
    length table' = length table /\ q_data q' = FrameCell <$> drop (3 * (lo + n)) fs0 /\
    forall i e, table' !! i = Some e -> loaded_page l fs0 i e.
Proof.
  revert lo table s q. induction n as [|n IH]; intros lo table s q Hl Hn Hq Hd Hf Hlo.
  - rewrite range_up_nil by lia. exists table, q. split; [|split_and!].
    + unfold ret. f_equal. destruct s. cbn in Hq. by subst.
    + done.
    + by rewrite Nat.add_0_r.
    + intros i e He. apply (Hlo i e); [|done]. apply lookup_lt_Some in He. lia.
  - rewrite range_up_cons by lia. cbn [new_pages].
    assert (Hlen : (3 * lo + 3 <= length fs0)%nat) by lia.
    destruct (drop (3 * lo) fs0) as [|f1 [|f2 [|f3 fs]]] eqn:Ed;
      try (apply (f_equal length) in Ed; rewrite length_drop in Ed; simpl in Ed; lia).
    destruct (pop_three s q f1 f2 f3 fs Hq Hd) as (q1 & q2 & q' & Hq' & E1 & E2 & E3).
    rewrite (bind_Ok _ _ _ _ _ E1), (bind_Ok _ _ _ _ _ E2), (bind_Ok _ _ _ _ _ E3). clear E1 E2 E3.
    destruct (proj2 (arr_get_is_Some table (Z.of_nat lo))) as [old Hold]; [lia|]. rewrite Hold.
    erewrite bind_Ok by reflexivity.
    destruct (new_page_run l (Z.of_nat lo) old f1 f2 f3 (s <| free_frame_queue := Some q' |>)) as (e & Ee & He).
    rewrite (bind_Ok _ _ _ _ _ Ee), arr_set_Some, Nat2Z.id by lia. erewrite bind_Ok by reflexivity.
    assert (Hfs : fs = drop (3 * S lo) fs0).
    { replace (3 * S lo)%nat with (3 * lo + 3)%nat by lia. by rewrite <- drop_drop, Ed. }
    assert (Hslot : forall k, [f1; f2; f3] !! k = fs0 !! (3 * lo + k)%nat \/ (3 <= k)%nat).
    { intros k. rewrite <- lookup_drop, Ed. destruct k as [|[|[|k]]]; [by left..|right; lia]. }
    destruct (IH (S lo) (<[lo := e]> table) (s <| free_frame_queue := Some q' |>) q')
      as (table' & q3 & E & H1 & H2 & H3).
    + by rewrite length_insert.
    + lia.
    + done.
    + by rewrite Hq', Hfs.
    + lia.
    + intros i e' Hi Hi'. destruct (decide (i = lo)) as [->|].
      * rewrite list_lookup_insert_eq in Hi' by lia. injection Hi' as <-. unfold loaded_page.
        destruct (frame_slot l (Z.of_nat lo)) as [k|]; [|done]. destruct He as (f & Hf' & ->).
        exists f. split; [|done]. destruct (Hslot k) as [<-|Hk]; [done|].
        apply lookup_lt_Some in Hf'. simpl in Hf'. lia.
      * rewrite list_lookup_insert_ne in Hi' by done. apply Hlo; [lia|done].
    + exists table', q3. replace (Z.of_nat lo + 1) with (Z.of_nat (S lo)) by lia. rewrite E.
      split; [|split_and!].
      * by kst_eq s.
      * by rewrite H1, length_insert.
      * by replace (lo + S n)%nat with (S lo + n)%nat by lia.
      * done.
Qed.

(** C39: building the new page table of a program takes three frames off the free
    frame queue for every page of region 1: a page in use is mapped to one of
    its three, the others are lost, so at least two frames per page leak. *)
Theorem new_pages_leaks l table fs s q :
  let n := Z.to_nat NUM_PAGES in
  Z.of_nat (length table) = NUM_PAGES -> free_frame_queue s = Some q -> q_data q = FrameCell <$> fs ->
  (3 * n <= length fs)%nat ->
  exists table' s', new_pages l (range_up 0 NUM_PAGES) table s = Ok (Some table') s' /\
    length table' = length table /\
    (forall i e, table' !! i = Some e -> loaded_page l fs i e) /\
    free_frames s' = drop (3 * n) fs /\
    (length (mapped table') + length (free_frames s') + 2 * n <= length fs)%nat.
Proof.
  intros n Hl Hq Hd Hf. pose proof NUM_PAGES_ge_4.
  destruct (new_pages_run l n 0 table fs s q Hl) as (table' & q' & E & H1 & H2 & H3);
    [lia|done|by rewrite Hd|lia|intros i e Hi; lia|].
  exists table', (s <| free_frame_queue := Some q' |>). split; [exact E|].
  assert (Hfr : free_frames (s <| free_frame_queue := Some q' |>) = drop (3 * n) fs).
  { unfold free_frames. simpl. by rewrite H2, frame_pfns_cells. }
  split_and!; [done|done|done|]. rewrite Hfr, length_drop. pose proof (mapped_length table'). lia.
Qed.
End Facts.

Section Witnesses.
Import DemoHardware Demo.

Definition demo_frame_list : list Z := seqZ 200 400.
Definition demo_frame_queue : queue_t frame_ptr :=
  mk_queue ((fun f => (f, FrameCell f)) <$> demo_frame_list) 400 400.

Lemma new_pages_leaks_witness :
  exists table' s', new_pages (mk_layout 1 3 1 2) (range_up 0 NUM_PAGES) (replicate 128 uninit_pte)
      (blank <| free_frame_queue := Some demo_frame_queue |>) = Ok (Some table') s' /\
    (length (mapped table') + length (free_frames s') + 256 <= 400)%nat.
Proof.
  destruct (new_pages_leaks (mk_layout 1 3 1 2) (replicate 128 uninit_pte) demo_frame_list
    (blank <| free_frame_queue := Some demo_frame_queue |>) demo_frame_queue)
    as (table' & s' & E & _ & _ & _ & H); [reflexivity|reflexivity|reflexivity|vm_compute; lia|].
  exact (ex_intro _ table' (ex_intro _ s' (conj E H))).
Defined.
End Witnesses.
