(* ===== verification/Traps.v ===== *)
(** * Traps ([traps.c])

    The trap handlers, the interrupt vector and the driver that runs a kernel
    entry to its end.  A handler returns the continuation the CPU goes on with
    ([Sched]); [resume] is what the code after the suspended call does, and
    [run_kernel] follows continuations until a trap handler returns to user
    mode.

    Main results: killing the current process frees all it has and gives the
    CPU to the next ready process; a memory trap more than a page above the
    break and below the stack maps the pages up to the top, any other kills the
    process; the terminal handlers resume the user in the context of its last
    trap, not the interrupted one.  The theorems about the clock are in
    [Clock]. *)

From S2P Require Import Prelude Hardware Containers KState Memory Pcb Sched Ipc Pipe Sync Tty.
From S2P Require Import Process Fork Loader.
From stdpp Require Import list gmap fin_maps.
From Stdlib Require Import Strings.Byte.

#[local] Open Scope Z_scope.

Section Defs.
Context {hw : Hardware}.

(** [memcpy(current_process->usr_ctx, user_context, sizeof(UserContext))] *)
Definition save_user_context : M kst unit :=
  cur <- gets current_process ;;
  uc <- gets user_context ;;
  set_user_context cur (fun _ => uc).

(** [memcpy(user_context, current_process->usr_ctx, sizeof(UserContext))] *)
Definition restore_user_context : M kst unit :=
  cur <- gets current_process ;;
  v <- load_pcb cur ;;
  uc <- demand (p_usr_ctx v) ;;
  modify (fun s => s <| user_context := uc |>).

(** The end of a handler: back to the user, or the next process if the current
    one is gone. *)
Definition trap_end : M kst kont :=
  cur <- gets current_process ;;
  if cur =? NULL then ScheduleNextProcess K_user
  else restore_user_context ;;; ret K_user.

(** [user_context->regs[i]] *)
Definition reg (uc : UserContext) (i : Z) : M kst Z := demand (arr_get (uc_regs uc) i).

(** A handler that always returns. *)
Definition returning (m : M kst Z) : M kst kont := rc <- m ;; ret (K_syscall rc).

(** [(unsigned int) addr < VMEM_0_LIMIT]: ERROR without calling the handler. *)
Definition region_1_only (addr : Z) (m : M kst kont) : M kst kont :=
  if wrapu32 addr <? VMEM_0_LIMIT then ret (K_syscall ERROR) else m.

(** The [switch] of [TrapKernelHandler].  The trace messages of the pipe and
    lock cases read through the user's pointer, and the one of the exec case
    prints the user's string. *)
Definition syscall (uc : UserContext) : M kst kont :=
  let code := uc_code uc in
  if code =? YALNIX_FORK then ForkHandler
  else if code =? YALNIX_EXEC then
    r0 <- reg uc 0 ;; r1 <- reg uc 1 ;;
    (if trace_level_1 then load_string r0 ;;; ret tt else ret tt) ;;;
    returning (ExecHandler r0 r1)
  else if code =? YALNIX_EXIT then
    r0 <- reg uc 0 ;; ExitHandler (wrap32 r0) ;;; ret (K_syscall (wrap32 r0))
  else if code =? YALNIX_WAIT then
    r0 <- reg uc 0 ;; region_1_only r0 (WaitHandler r0)
  else if code =? YALNIX_GETPID then returning GetPidHandler
  else if code =? YALNIX_BRK then r0 <- reg uc 0 ;; returning (BrkHandler r0)
  else if code =? YALNIX_DELAY then r0 <- reg uc 0 ;; DelayHandler (wrap32 r0)
  else if code =? YALNIX_TTY_READ then
    r0 <- reg uc 0 ;; r1 <- reg uc 1 ;; r2 <- reg uc 2 ;; TtyReadHandler (wrap32 r0) r1 (wrap32 r2)
  else if code =? YALNIX_TTY_WRITE then
    r0 <- reg uc 0 ;; r1 <- reg uc 1 ;; r2 <- reg uc 2 ;; TtyWriteHandler (wrap32 r0) r1 (wrap32 r2)
  else if code =? YALNIX_PIPE_INIT then
    r0 <- reg uc 0 ;; load_word r0 ;;; returning (PipeInitHandler r0)
  else if code =? YALNIX_PIPE_READ then
    r0 <- reg uc 0 ;; r1 <- reg uc 1 ;; r2 <- reg uc 2 ;; PipeReadHandler (wrap32 r0) r1 (wrap32 r2)
  else if code =? YALNIX_PIPE_WRITE then
    r0 <- reg uc 0 ;; r1 <- reg uc 1 ;; r2 <- reg uc 2 ;; PipeWriteHandler (wrap32 r0) r1 (wrap32 r2)
  else if code =? YALNIX_LOCK_INIT then
    r0 <- reg uc 0 ;; load_word r0 ;;; region_1_only r0 (returning (LockInitHandler r0))
  else if code =? YALNIX_LOCK_ACQUIRE then r0 <- reg uc 0 ;; AcquireLockHandler (wrap32 r0)
  else if code =? YALNIX_LOCK_RELEASE then r0 <- reg uc 0 ;; returning (ReleaseLockHandler (wrap32 r0))
  else if code =? YALNIX_CVAR_INIT then
    r0 <- reg uc 0 ;; region_1_only r0 (returning (CvarInitHandler r0))
  else if code =? YALNIX_CVAR_SIGNAL then r0 <- reg uc 0 ;; returning (CvarSignalHandler (wrap32 r0))
  else if code =? YALNIX_CVAR_BROADCAST then
    r0 <- reg uc 0 ;; returning (CvarBroadcastHandler (wrap32 r0))
  else if code =? YALNIX_CVAR_WAIT then
    r0 <- reg uc 0 ;; r1 <- reg uc 1 ;; returning (CvarWaitHandler (wrap32 r0) (wrap32 r1))
  else if code =? YALNIX_RECLAIM then r0 <- reg uc 0 ;; returning (ReclaimHandler (wrap32 r0))
  else halt.

Definition TrapKernelHandler : M kst kont :=
  uc <- gets user_context ;;
  save_user_context ;;;
  syscall uc.

(** [TrapKernelHandler] after the [switch]. *)
Definition syscall_return (rc : Z) : M kst kont :=
  cur <- gets current_process ;;
  if cur =? NULL then ScheduleNextProcess K_user else
  v <- load_pcb cur ;;
  uc <- demand (p_usr_ctx v) ;;
  regs <- demand (arr_set (uc_regs uc) 0 (wrapu32 rc)) ;;
  store_pcb cur (v <| p_usr_ctx := Some (uc <| uc_regs := regs |>) |>) ;;;
  restore_user_context ;;;
  ret K_user.

(** A [set_node_t*] into [delayed_pcbs], while the list changes under it: the
    node is named by its key, which no other node of a set has.  What it points
    to is read off the list as it is now; once the node is out of the list
    it has been freed, and reading it is undefined. *)
Definition load_delayed (key : Z) : M kst (ptr * option Z) :=
  d <- gets delayed_pcbs ;;
  d <- demand d ;;
  demand (node_at key (s_nodes d)).

(** The body of the loop for one node; the result is the next one. *)
Definition tick_one (node : Z) : M kst (option Z) :=
  do '(pcb, _) <- load_delayed node ;;
  v <- load_pcb pcb ;;
  let delay_ticks := wrap32 (p_delay_ticks v - 1) in
  upd_pcb pcb (fun v => v <| p_delay_ticks := delay_ticks |>) ;;;
  do '(_, next) <- load_delayed node ;;
  (if delay_ticks >? 0 then ret tt
   else
     take_from delayed_pcbs (p_pid v) ;;;
     upd_pcb pcb (fun v => v <| p_state := READY |>) ;;;
     push_to process_ready_queue pcb ;;;
     ret tt) ;;;
  ret next.

(** The loop, at most [fuel] times round. *)
Fixpoint tick_loop (fuel : nat) (node : option Z) : M kst unit :=
  match node with
  | None => ret tt
  | Some node =>
      match fuel with
      | O => undef
      | S fuel' => next <- tick_one node ;; tick_loop fuel' next
      end
  end.

Definition tick_delayed : M kst unit :=
  d <- gets delayed_pcbs ;;
  d <- demand d ;;
  tick_loop (length (s_nodes d)) (fst <$> head (s_nodes d)).

Definition TrapClockHandler : M kst kont :=
  save_user_context ;;;
  tick_delayed ;;;
  ScheduleNextProcess K_clock.

(** Kill the current process. *)
Definition kill_current : M kst kont :=
  ExitHandler ERROR ;;;
  ScheduleNextProcess K_user.

Definition TrapIllegalHandler : M kst kont := kill_current.
Definition TrapMathHandler : M kst kont := kill_current.

(** The loop of [TrapMemoryHandler]: [Some tt] when the frames run out. *)
Definition stack_grow (addr_page_index : Z) : M kst (option unit) :=
  for_each (range_down (NUM_PAGES - 1) addr_page_index) (fun pt_index =>
    r <- alloc_page tt pt_index ;;
    match r with
    | Some _ => ret (Some tt)
    | None => emit (IoTlbFlush TLB_FLUSH_1) ;;; ret None
    end).

(** The stack pointer is the one of the last trap ([usr_ctx]). *)
Definition TrapMemoryHandler : M kst kont :=
  user <- gets user_context ;;
  let addr := wrapu32 (uc_addr user) in
  cur <- gets current_process ;;
  v <- load_pcb cur ;;
  uc <- demand (p_usr_ctx v) ;;
  if wrapu32 (DOWN_TO_PAGE (uc_sp uc)) <=? addr then kill_current
  else if (addr >? wrapu32 (wrapu32 (p_current_brk v) + PAGESIZE)) &&
          (addr <? VMEM_1_BASE + VMEM_REGION_SIZE) then
    r <- stack_grow (region_1_index addr) ;;
    match r with
    | Some _ => kill_current
    | None => ret K_user
    end
  else kill_current.

(** [line] is what [TtyReceive] delivers, at most [TERMINAL_MAX_LINE] bytes. *)
Definition TrapTTYReceiveHandler (line : list byte) : M kst kont :=
  user <- gets user_context ;;
  let tty_id := uc_code user in
  if (tty_id <? 0) || (tty_id >? NUM_TERMINALS) then ret K_user else
  buffer <- tty_get buffers tty_id ;;
  buffer <- demand (splice buffer 0 line) ;;
  tty_set buffers tty_id buffer ;;;
  tty_handle_received tty_id (Z.of_nat (length line)) ;;;
  trap_end.

Definition TrapTTYTransmitHandler : M kst kont :=
  user <- gets user_context ;;
  let tty_id := uc_code user in
  if (tty_id <? 0) || (tty_id >? NUM_TERMINALS) then ret K_user else
  t <- gets current_tty_state ;;
  match t with
  | None => ret K_user
  | Some _ =>
      writing_pcb <- tty_get curr_writers tty_id ;;
      (if writing_pcb =? NULL then tty_set availability tty_id 1
       else
         upd_pcb writing_pcb (fun v => v <| p_state := READY |> <| p_tty_write_waiting := 0 |>) ;;;
         v <- load_pcb writing_pcb ;;
         take_from blocked_pcbs (p_pid v) ;;;
         push_to process_ready_queue writing_pcb ;;;
         ret tt) ;;;
      trap_end
  end.

Definition TrapDiskHandler : M kst kont := restore_user_context ;;; ret K_user.

(** ** The interrupt vector and the driver *)

Inductive trap :=
| TRAP_KERNEL | TRAP_CLOCK | TRAP_ILLEGAL | TRAP_MEMORY | TRAP_MATH
| TRAP_TTY_RECEIVE (line : list byte) | TRAP_TTY_TRANSMIT | TRAP_DISK.

Definition function_pointers (t : trap) : M kst kont :=
  match t with
  | TRAP_KERNEL => TrapKernelHandler
  | TRAP_CLOCK => TrapClockHandler
  | TRAP_ILLEGAL => TrapIllegalHandler
  | TRAP_MEMORY => TrapMemoryHandler
  | TRAP_MATH => TrapMathHandler
  | TRAP_TTY_RECEIVE line => TrapTTYReceiveHandler line
  | TRAP_TTY_TRANSMIT => TrapTTYTransmitHandler
  | TRAP_DISK => TrapDiskHandler
  end.

Definition RegisterTrapHandlers : M kst Z :=
  vm <- gets virtual_mem_enabled ;;
  if negb (truthy vm) then ret ERROR else
  table <- malloc ;;
  if table =? NULL then ret ERROR else
  emit (IoVectorBase table) ;;;
  ret 0.

(** What the kernel does when a saved context gets the CPU back. *)
Definition resume (k : kont) : M kst kont :=
  match k with
  | K_user => ret K_user
  | K_syscall rc => syscall_return rc
  | K_wait status_ptr store => wait_loop status_ptr store
  | K_pipe_write id buf len => pipe_write_loop id buf len
  | K_pipe_read id buf len => pipe_read_loop id buf len
  | K_tty_read tty_id buf => tty_read_resume tty_id buf
  | K_tty_write tty_id buf len => tty_write_loop tty_id buf len
  | K_tty_chunk tty_id bs len start => tty_chunk_resume tty_id bs len start
  | K_fork new_pid => fork_return new_pid
  | K_clock => trap_end
  | K_boot => restore_user_context ;;; ret K_user
  end.

(** Follow continuations, at most [fuel] of them, until the user runs. *)
Fixpoint run_kernel (fuel : nat) (k : kont) : M kst kont :=
  match fuel, k with
  | O, _ | _, K_user => ret k
  | S fuel', _ => k' <- resume k ;; run_kernel fuel' k'
  end.

(** A trap, from its handler to the return to user mode. *)
Definition kernel_entry (fuel : nat) (t : trap) : M kst kont :=
  k <- function_pointers t ;; run_kernel fuel k.
End Defs.

(** ** Killing the current process *)

Section Kill.
Context {hw : Hardware}.

(** The saved context and the kernel stack are all a process needs to run. *)
Lemma proc_ok_context s s' p v v' :
  region_0_pages s' = region_0_pages s -> pcbs s !! p = Some v -> pcbs s' !! p = Some v' ->
  p_krn_ctx v' = p_krn_ctx v -> p_kernel_stack_pages v' = p_kernel_stack_pages v ->
  proc_ok s p -> proc_ok s' p.
Proof.
  intros Er Hv Hv' Ek Es (H0 & Ha & w & c & ks & k & Hw & Hc & Hca & Hk & Hks & Hl). simplify_eq.
  assert (Hsame : same_heap_pages s s') by (intros i _; by rewrite Er).
  split_and!; [done|by eapply kptr_ok_same|]. exists v', c, ks, k.
  split_and!; [done|congruence|by eapply kptr_ok_same|done|congruence|done].
Qed.

(** [cur] can be killed: it exits ([exiting]) and the others can be scheduled. *)
Record killable (s : kst) (cur parent : ptr) (v pv : pcb_t) : Prop := {
  kl_exiting : exiting s cur parent v pv;
  kl_sched : sched_base s;
  kl_null : pcbs s !! NULL = None;
  kl_queued : cur ∉ ready_list s;
  kl_idle : idle_process s <> cur;
  kl_parent : proc_ok s parent;
  kl_sets : exists zs ds, p_zombies pv = Some zs /\ insertable (p_pid v) cur zs /\
    dead_pcbs s = Some ds /\ insertable (p_pid v) cur ds }.

(** The processes that can run when [cur] is gone: a waiting parent is woken. *)
Definition ready_after_exit (s : kst) (parent : ptr) (pv : pcb_t) : list ptr :=
  ready_list s ++ (if truthy (p_waiting pv) then [parent] else []).

(** [cur] is gone with status ERROR, its frames are free, and the CPU is with
    the next ready process, or idle, in its saved context [k']. *)
Record killed (s : kst) (cur parent : ptr) (v pv : pcb_t) (k' : kont) (s' : kst) : Prop := {
  kd_next : current_process s' = default (idle_process s) (head (ready_after_exit s parent pv));
  kd_ready : ready_list s' = tail (ready_after_exit s parent pv);
  kd_context : saved_kont s' (current_process s') = Some k';
  kd_sched : sched_wf s';
  kd_frames : free_frames s' ≡ₚ free_frames s ++ pcb_frames v;
  kd_gone : if truthy (p_waiting pv) then pcbs s' !! cur = None
            else exists w, pcbs s' !! cur = Some w /\ p_state w = DEAD /\ p_exit_status w = ERROR /\
                           pcb_frames w = [];
  kd_parent : exists w, pcbs s' !! parent = Some w /\ p_child_exit_status w = ERROR }.

(** After the exit the scheduler finds what it needs. *)
Lemma exit_schedulable s cur parent v pv s1 w :
  killable s cur parent v pv -> exit_kept s s1 -> current_process s1 = NULL ->
  ready_list s1 = ready_after_exit s parent pv -> pcbs s1 !! parent = Some w ->
  p_krn_ctx w = p_krn_ctx pv -> p_kernel_stack_pages w = p_kernel_stack_pages pv ->
  (forall a, a <> cur -> a <> parent -> pcbs s1 !! a = reparented s v a) ->
  sched_base s1 /\ cur_gone s1.
Proof.
  intros [Hex Hb Hnull Hq Hidle Hpar _] (Er & Ei & Em & Hrq) Hc Hrl Hw Hk Hks Ho.
  assert (Hok : forall a, a <> cur -> proc_ok s a -> proc_ok s1 a).
  { intros a Ha Hp. pose proof Hp as (_ & _ & u & _ & _ & _ & Hu & _).
    destruct (decide (a = parent)) as [->|Hne].
    - pose proof (ex_pv _ _ _ _ _ Hex). simplify_eq. by eapply proc_ok_context.
    - pose proof (Ho a Ha Hne) as Ha'. unfold reparented in Ha'. rewrite Hu in Ha'. cbn in Ha'.
      eapply (proc_ok_context s s1 a u); [done|done|exact Ha'|by case_decide|by case_decide|done]. }
  split; [split|split; [done|]].
  - intros n. rewrite Em. apply (sb_mem s Hb).
  - rewrite Er. apply (sb_r0 s Hb).
  - done.
  - rewrite Ei. apply Hok; [done|apply (sb_idle s Hb)].
  - rewrite Hrl. unfold ready_after_exit. apply Forall_app. split.
    + pose proof (sb_ready s Hb) as Hr. rewrite Forall_forall in Hr |- *. intros a Hin.
      apply Hok; [by intros ->|by apply Hr].
    + destruct (truthy _); [|by constructor]. apply Forall_singleton, Hok; [|done].
      apply (ex_other _ _ _ _ _ Hex).
  - pose proof (ex_cur_nn _ _ _ _ _ Hex). pose proof (ex_parent_nn _ _ _ _ _ Hex).
    rewrite Ho by done. unfold reparented. by rewrite Hnull.
Qed.

Lemma kill_schedules s cur parent v pv s1 w :
  killable s cur parent v pv -> ExitHandler ERROR s = Ok tt s1 ->
  exit_kept s s1 -> current_process s1 = NULL ->
  ready_list s1 = ready_after_exit s parent pv -> pcbs s1 !! parent = Some w ->
  p_krn_ctx w = p_krn_ctx pv -> p_kernel_stack_pages w = p_kernel_stack_pages pv ->
  (forall a, a <> cur -> a <> parent -> pcbs s1 !! a = reparented s v a) ->
  exists k' s', kill_current s = Ok k' s' /\ pcbs s' = pcbs s1 /\ free_frames s' = free_frames s1 /\
    current_process s' = default (idle_process s) (head (ready_after_exit s parent pv)) /\
    ready_list s' = tail (ready_after_exit s parent pv) /\
    saved_kont s' (current_process s') = Some k' /\ sched_wf s'.
Proof.
  intros Hkl E Hkept Hc Hrl Hw Hk Hks Ho.
  destruct (exit_schedulable s cur parent v pv s1 w) as [Hb Hg]; [done..|].
  pose proof (wp_schedule_gone K_user s1 Hb Hg) as H. pose proof Hkept as (_ & Ei & _).
  rewrite Hrl, Ei in H. unfold kill_current. rewrite (bind_Ok _ _ _ _ _ E).
  assert (Hs : spec_schedule (current_process s1) false (ready_after_exit s parent pv) (idle_process s) =
    (default (idle_process s) (head (ready_after_exit s parent pv)), tail (ready_after_exit s parent pv))).
  { unfold spec_schedule. destruct (ready_after_exit s parent pv); [done|]. by rewrite app_nil_r. }
  rewrite Hs in H. apply wp_returns in H as (k' & s' & Es & H1 & H2 & H3 & (_ & H4 & H5 & _)).
  pose proof (preserves_Ok _ _ _ _ _ (schedule_untouched K_user) Es) as [= _ _ _ _ Ef _].
  exists k', s'. split; [done|]. rewrite H1. split_and!; try done.
  - rewrite H5, Hc. apply alter_absent. apply Hg.
  - unfold free_frames. by rewrite Ef.
Qed.

Lemma kill_current_run s cur parent v pv :
  killable s cur parent v pv -> exists k' s', kill_current s = Ok k' s' /\ killed s cur parent v pv k' s'.
Proof.
  intros Hkl. pose proof Hkl as [Hex _ _ _ _ _ (zs & ds & Hzs & Hiz & Hds & Hid)].
  destruct (Z.eq_dec (p_waiting pv) 0) as [Hw|Hw].
  - destruct (exit_zombie_run s cur parent v pv zs ds ERROR Hex Hw Hzs Hiz Hds Hid)
      as (s1 & E & Hc & Hrl & _ & _ & _ & Hp & Hcur & Hf & Ho & Hkept).
    assert (Hra : ready_list s1 = ready_after_exit s parent pv)
      by (unfold ready_after_exit; by rewrite Hw, app_nil_r).
    destruct (kill_schedules s cur parent v pv s1 _ Hkl E Hkept Hc Hra Hp eq_refl eq_refl Ho)
      as (k' & s' & Ek & Ep & Ef & H1 & H2 & H3 & H4).
    exists k', s'. split; [done|]. split; [done..| | |].
    + by rewrite Ef, Hf.
    + rewrite Hw. cbn [truthy Z.eqb negb]. rewrite Ep. by eexists.
    + rewrite Ep. by eexists.
  - destruct (exit_wake_run s cur parent v pv ERROR Hex Hw)
      as (s1 & E & Hc & Hrl & _ & Hp & Hcur & Hf & _ & Hkept & Ho).
    assert (Ht : truthy (p_waiting pv) = true) by (unfold truthy; by rewrite (proj2 (Z.eqb_neq _ 0) Hw)).
    assert (Hra : ready_list s1 = ready_after_exit s parent pv) by (unfold ready_after_exit; by rewrite Ht).
    destruct (kill_schedules s cur parent v pv s1 _ Hkl E Hkept Hc Hra Hp eq_refl eq_refl Ho)
      as (k' & s' & Ek & Ep & Ef & H1 & H2 & H3 & H4).
    exists k', s'. split; [done|]. split; [done..| | |].
    + by rewrite Ef, Hf.
    + by rewrite Ht, Ep.
    + rewrite Ep. by eexists.
Qed.
End Kill.

(** ** The memory trap *)

Section Memory.
Context {hw : Hardware}.

Lemma grown_frames s s' pt pt' q' P :
  free_frames s' = free_frames s -> grown s pt pt' q' P -> grown s' pt pt' q' P.
Proof. intros E []. split; try done. by rewrite E. Qed.

(** The process's table and the free queue are [pt'] and [q'], and the TLB was
    flushed some times. *)
Definition regrown (s : kst) (v : pcb_t) (pt' : list pte) (q' : queue_t frame_ptr) (s' : kst) : Prop :=
  exists t, s' = retabled (s <| trace := t |>) v pt' q'.

Lemma stack_grow_wp lo s v pt q :
  pcbs s !! current_process s = Some v -> p_page_table v = Some pt ->
  free_frame_queue s = Some q -> FrameLocal ∉ q_data q ->
  0 <= lo < NUM_PAGES -> Z.of_nat (length pt) = NUM_PAGES ->
  wp (stack_grow lo) (fun r s' => exists pt' q', regrown s v pt' q' s' /\ match r with
    | None => grown s pt pt' q' (fun j => lo <= j < NUM_PAGES)
    | Some _ => q_data q' = [] /\ exists i, lo <= i /\ grown s pt pt' q' (fun j => i < j < NUM_PAGES)
    end) s.
Proof.
  intros Hv Ht Hq Hp Hlo Hl. unfold stack_grow.
  apply (wp_range_down _ _ _ (fun i s' => i <= NUM_PAGES - 1 /\ exists pt' q', regrown s v pt' q' s' /\
    grown s pt pt' q' (fun j => i < j < NUM_PAGES))).
  - split; [lia|]. exists pt, q.
    destruct (grown_refl s v pt q (fun j => NUM_PAGES - 1 < j < NUM_PAGES)) as [E Hg]; try done; [lia|].
    split; [|done]. exists (trace s). rewrite E at 1. by kst_eq s.
  - intros i s0 Hi (_ & pt' & q' & [t ->] & Hg). apply wp_bind.
    eapply wp_mono; [apply (alloc_page_wp tt i (fun j => i < j < NUM_PAGES) (fun j => i - 1 < j < NUM_PAGES)
      (s <| trace := t |>) v pt); [lia|lia|by apply (grown_frames s)|lia]|].
    intros [e|] s' (pt'' & q'' & -> & H).
    + destruct H as (_ & Hq' & Hg'). apply wp_ret. exists pt'', q''. split; [by exists t|].
      split; [done|]. exists i. split; [lia|]. by apply (grown_frames (s <| trace := t |>)).
    + apply wp_bind, wp_modify, wp_ret. split; [lia|]. exists pt'', q''.
      split; [by exists (t ++ [IoTlbFlush TLB_FLUSH_1])|]. by apply (grown_frames (s <| trace := t |>)).
  - intros s0 (_ & pt' & q' & Hr & Hg). exists pt', q'. split; [done|].
    replace (Z.min (NUM_PAGES - 1) (lo - 1)) with (lo - 1) in Hg by lia. destruct Hg. split; try done.
    + intros j Hj. apply gr_valid. lia.
    + intros j Hj. apply gr_outside. lia.
Qed.

(** The handler up to its loop. *)
Lemma TrapMemoryHandler_start s v pt uc q :
  brk_ready s v pt uc q -> p_current_brk v + PAGESIZE <= INT_MAX ->
  0 <= uc_addr (user_context s) <= INT_MAX ->
  let addr := uc_addr (user_context s) in
  TrapMemoryHandler s =
    (if (p_current_brk v + PAGESIZE <? addr) && (addr <? DOWN_TO_PAGE (uc_sp uc)) then
       (r <- stack_grow (region_1_index addr) ;;
        match r with Some _ => kill_current | None => ret K_user end) s
     else kill_current s).
Proof.
  intros [] Hb Ha addr. pose proof hw_pagesize. destruct hw_layout as (_ & Hb1 & Hb2 & Hmax).
  pose proof NUM_PAGES_size. pose proof NUM_PAGES_ge_4. unfold TrapMemoryHandler.
  erewrite bind_Ok by reflexivity. cbv zeta. erewrite bind_Ok by reflexivity.
  rewrite (bind_Ok _ _ _ _ _ (load_pcb_run _ _ _ br_cur)), br_uctx. erewrite bind_Ok by reflexivity.
  rewrite hw_down_to_page by lia. fold addr in Ha |- *.
  pose proof (Z.mul_div_le (uc_sp uc) PAGESIZE). pose proof (Z.div_pos (uc_sp uc) PAGESIZE).
  rewrite (wrapu32_id addr Ha), (wrapu32_id (uc_sp uc / PAGESIZE * PAGESIZE)) by nia.
  rewrite (wrapu32_id (p_current_brk v)), (wrapu32_id (p_current_brk v + PAGESIZE)) by lia.
  rewrite Z.gtb_ltb.
  destruct (Z.leb_spec (uc_sp uc / PAGESIZE * PAGESIZE) addr),
    (Z.ltb_spec addr (uc_sp uc / PAGESIZE * PAGESIZE)); try lia.
  - by rewrite andb_false_r.
  - rewrite (proj2 (Z.ltb_lt addr (VMEM_1_BASE + VMEM_REGION_SIZE))) by lia.
    by destruct (p_current_brk v + PAGESIZE <? addr).
Qed.

(** The page of a fault below the stack pointer is one of region 1. *)
Lemma brk_ready_fault_page s v pt uc q addr :
  brk_ready s v pt uc q -> p_current_brk v + PAGESIZE < addr -> addr < DOWN_TO_PAGE (uc_sp uc) ->
  0 <= region_1_index addr < NUM_PAGES /\ 0 <= addr.
Proof.
  intros [] H1 H2. pose proof hw_pagesize. destruct VMEM_1_LIMIT_pages as [Hl1 Hb1].
  rewrite hw_down_to_page in * by lia. pose proof (Z.mul_div_le (uc_sp uc) PAGESIZE).
  pose proof NUM_PAGES_ge_4. split; [|nia]. rewrite region_1_index_div by nia. split.
  - pose proof (Z.div_le_lower_bound addr PAGESIZE NUM_PAGES). nia.
  - pose proof (Z.div_lt_upper_bound addr PAGESIZE (2 * NUM_PAGES)). nia.
Qed.

(** A process whose table and free frames changed can be killed as before. *)
Lemma killable_regrown s s' parent v pv pt' q' :
  Z.of_nat (length pt') = NUM_PAGES -> regrown s v pt' q' s' ->
  killable s (current_process s) parent v pv ->
  killable s' (current_process s) parent (v <| p_page_table := Some pt' |>) pv.
Proof.
  intros Hl [t ->] [Hex Hb Hnull Hq Hidle Hpar Hsets].
  set (s1 := retabled _ v pt' q'). set (v1 := v <| p_page_table := Some pt' |>).
  assert (Ep : pcbs s1 = <[current_process s := v1]> (pcbs s)) by done.
  assert (Hne : forall a, a <> current_process s -> pcbs s1 !! a = pcbs s !! a)
    by (intros a Ha; rewrite Ep; by rewrite lookup_insert_ne).
  assert (Hok : forall a, a <> current_process s -> proc_ok s a -> proc_ok s1 a)
    by (intros a Ha; apply proc_ok_same; [done|by apply Hne]).
  pose proof (ex_other _ _ _ _ _ Hex) as Hop. split.
  - destruct Hex as [? Hcn Hv Hp Hpn _ Hpv (iv & Hiv & Hpid) Hfam Hm [_ Hks] _ Hrq]. split; try done.
    + rewrite Ep. apply lookup_insert_eq.
    + by rewrite Hne.
    + exists iv. split; [|done]. change (init_process s1) with (init_process s).
      rewrite Hne; [done|]. intros E. rewrite E in Hiv. congruence.
    + eapply Forall_impl; [exact Hfam|]. intros n (Hs & H1 & H2). by rewrite Hne.
    + split; [by intros ? [= <-]|done].
  - destruct Hb as [Hm Hr0 Hrq Hi Hrl]. split; [done|done|done|by apply Hok|].
    rewrite Forall_forall in Hrl |- *. intros a Hin. apply Hok; [by intros ->|by apply Hrl].
  - rewrite Hne; [done|]. intros E. by destruct (ex_cur_nn _ _ _ _ _ Hex).
  - done.
  - done.
  - by apply Hok.
  - exact Hsets.
Qed.

(** The kill of a process that used up the frames frees them all. *)
Lemma killed_regrown s s1 parent v pv pt pt' q' k' s' P :
  p_page_table v = Some pt -> grown s pt pt' q' P -> q_data q' = [] -> regrown s v pt' q' s1 ->
  killed s1 (current_process s) parent (v <| p_page_table := Some pt' |>) pv k' s' ->
  killed s (current_process s) parent v pv k' s'.
Proof.
  intros Ht Hg Hq' [t ->] [Hn Hr Hk Hs Hf Hgone Hp]. split; try done.
  rewrite Hf. unfold free_frames at 1, pcb_frames. cbn [free_frame_queue retabled setf set_free_frame_queue set_pcbs].
  rewrite Ht, Hq'. cbn. pose proof (gr_frames _ _ _ _ _ Hg) as Hp'. rewrite Hq', app_nil_r in Hp'.
  rewrite Hp'. unfold free_frames. solve_Permutation.
Qed.

(** What a fault does to a process that is given pages: every page of region 1
    from the faulting one, [lo], to the top is mapped, nothing else changes. *)
Record stack_grown (s : kst) (v : pcb_t) (pt : list pte) (lo : Z) (s' : kst) (pt' : list pte) : Prop := {
  sg_pcbs : pcbs s' = <[current_process s := v <| p_page_table := Some pt' |>]> (pcbs s);
  sg_rest : s' = s <| pcbs := pcbs s' |> <| free_frame_queue := free_frame_queue s' |> <| trace := trace s' |>;
  sg_valid : forall j, lo <= j < NUM_PAGES -> exists e, arr_get pt' j = Some e /\ pte_valid e = true;
  sg_keep : forall j e, arr_get pt j = Some e -> pte_valid e = true -> arr_get pt' j = Some e;
  sg_below : forall j, j < lo -> arr_get pt' j = arr_get pt j;
  sg_frames : mapped pt' ++ free_frames s' ≡ₚ mapped pt ++ free_frames s }.

(** C15: a memory trap strictly between one page above the break and the page of
    the stack pointer of the last trap maps every page of region 1 from the
    faulting one to the top and returns to the faulting instruction; no other
    page changes and no frame is lost or shared.  It can only fail when there
    are too few frames to map the whole region.  Then, and for a fault at any
    other address, the page after the break included, the process is killed:
    it exits with ERROR, all its frames are free, and the next ready process
    gets the CPU. *)
Theorem TrapMemoryHandler_grows s parent v pv pt uc q :
  brk_ready s v pt uc q -> killable s (current_process s) parent v pv ->
  p_current_brk v + PAGESIZE <= INT_MAX -> 0 <= uc_addr (user_context s) <= INT_MAX ->
  let addr := uc_addr (user_context s) in
  let inside := p_current_brk v + PAGESIZE < addr < DOWN_TO_PAGE (uc_sp uc) in
  exists k' s', TrapMemoryHandler s = Ok k' s' /\
    ((inside /\ k' = K_user /\ exists pt', stack_grown s v pt (region_1_index addr) s' pt') \/
     ((inside -> Z.of_nat (length (mapped pt) + length (free_frames s)) <= NUM_PAGES) /\
      killed s (current_process s) parent v pv k' s')).
Proof.
  intros Hbr Hkl Hb Ha addr inside. pose proof (TrapMemoryHandler_start s v pt uc q Hbr Hb Ha) as E.
  cbv zeta in E. fold addr in E. rewrite E. clear E. unfold inside.
  destruct (Z.ltb_spec (p_current_brk v + PAGESIZE) addr) as [H1|H1],
    (Z.ltb_spec addr (DOWN_TO_PAGE (uc_sp uc))) as [H2|H2]; cbn [andb];
    try (destruct (kill_current_run _ _ _ _ _ Hkl) as (k' & s' & Ek & Hk); exists k', s';
         split; [done|right; split; [lia|done]]).
  destruct (brk_ready_fault_page s v pt uc q addr Hbr) as [Hi _]; [lia|lia|].
  pose proof Hbr as []. destruct (wp_returns _ _ _ (stack_grow_wp (region_1_index addr) s v pt q br_cur br_table br_queue
    br_proper Hi br_length)) as (r & s1 & Eg & pt' & q' & Hrg & Hr).
  rewrite (bind_Ok _ _ _ _ _ Eg). destruct r as [[]|].
  - destruct Hr as (Hq' & i & _ & Hg). assert (Hl : Z.of_nat (length pt') = NUM_PAGES)
      by (by rewrite (gr_length _ _ _ _ _ Hg)).
    destruct (kill_current_run _ _ _ _ _ (killable_regrown _ _ _ _ _ _ _ Hl Hrg Hkl)) as (k' & s' & Ek & Hk).
    exists k', s'. split; [done|]. right. split; [|by eapply killed_regrown].
    intros _. pose proof (gr_frames _ _ _ _ _ Hg) as Hp. rewrite Hq', app_nil_r in Hp.
    apply Permutation_length in Hp. rewrite length_app in Hp. pose proof (mapped_length pt'). lia.
  - exists K_user, s1. split; [done|]. left. split; [lia|]. split; [done|]. exists pt'.
    destruct Hrg as [t ->]. destruct Hr. split; try done. intros j Hj. apply gr_outside. lia.
Qed.
End Memory.

(** ** The terminal traps *)

Section Terminal.
Context {hw : Hardware}.

(** The end of a trap whose process is still there. *)
Lemma trap_end_run s v uc :
  current_process s <> NULL -> pcbs s !! current_process s = Some v -> p_usr_ctx v = Some uc ->
  trap_end s = Ok K_user (s <| user_context := uc |>).
Proof.
  intros Hc Hv Hu. unfold trap_end, restore_user_context. erewrite bind_Ok by reflexivity.
  rewrite (proj2 (Z.eqb_neq _ _) Hc), bind_assoc. erewrite bind_Ok by reflexivity.
  rewrite bind_assoc, (bind_Ok _ _ _ _ _ (load_pcb_run _ _ _ Hv)), Hu. done.
Qed.

(** [w] is writing to terminal [i] and another process [cur], with saved
    context [uc], is interrupted. *)
Record transmitted (s : kst) (i : Z) (w : ptr) (v vc : pcb_t) (uc : UserContext)
  (q : queue_t ptr) : Prop := {
  tm_code : uc_code (user_context s) = i;
  tm_range : 0 <= i < NUM_TERMINALS;
  tm_tty : exists t, current_tty_state s = Some t /\ arr_get (curr_writers t) i = Some w;
  tm_writer : pcbs s !! w = Some v;
  tm_nonnull : w <> NULL /\ current_process s <> NULL /\ w <> current_process s;
  tm_cur : pcbs s !! current_process s = Some vc;
  tm_ctx : p_usr_ctx vc = Some uc;
  tm_queue : process_ready_queue s = Some q;
  tm_mem : mem_ok s }.

(** C35: the end of a transmission makes the writer READY and puts it at the end
    of the ready queue, out of the blocked set; but the interrupted process
    goes on with the context of its own last trap: the context it was
    interrupted in is not saved, so it is lost whenever the two differ. *)
Theorem TrapTTYTransmitHandler_rolls_back s i w v vc uc q :
  transmitted s i w v vc uc q ->
  exists s', kernel_entry 0 TRAP_TTY_TRANSMIT s = Ok K_user s' /\
    pcbs s' = <[w := v <| p_state := READY |> <| p_tty_write_waiting := 0 |>]> (pcbs s) /\
    ready_list s' = ready_list s ++ [w] /\
    blocked_pcbs s' = (spec_set_pop (blocked_pcbs s) (p_pid v)).2 /\
    current_process s' = current_process s /\ user_context s' = uc.
Proof.
  intros [Hi Hr (t & Ht & Hw) Hv (Hw0 & Hc0 & Hne) Hvc Hu Hq Hm].
  unfold kernel_entry. cbn [function_pointers run_kernel]. unfold TrapTTYTransmitHandler.
  set (v' := v <| p_state := READY |> <| p_tty_write_waiting := 0 |>).
  set (s1 := s <| pcbs ::= <[w := v']> |> <| blocked_pcbs := (spec_set_pop (blocked_pcbs s) (p_pid v)).2 |>
    <| mallocs ::= S |> <| process_ready_queue := Some (q_append q w) |>).
  exists (s1 <| user_context := uc |>). split; [|split_and!].
  - erewrite bind_Ok; [reflexivity|]. erewrite bind_Ok by reflexivity. rewrite Hi.
    rewrite (proj2 (Z.ltb_ge i 0)) by lia. rewrite Z.gtb_ltb, (proj2 (Z.ltb_ge NUM_TERMINALS i)) by lia.
    cbn [orb]. erewrite bind_Ok by reflexivity. rewrite Ht.
    rewrite (bind_Ok _ _ _ _ _ (tty_get_run curr_writers i w t s Ht Hw)).
    rewrite (proj2 (Z.eqb_neq _ _) Hw0).
    assert (E : (upd_pcb w (fun v => v <| p_state := READY |> <| p_tty_write_waiting := 0 |>) ;;;
      v <- load_pcb w ;; take_from blocked_pcbs (p_pid v) ;;; push_to process_ready_queue w ;;; ret tt) s
      = Ok tt s1).
    { rewrite (bind_Ok _ _ _ _ _ (upd_pcb_run _ _ _ _ Hv)). fold v'.
      erewrite bind_Ok by (apply load_pcb_run; apply lookup_insert_eq).
      erewrite bind_Ok by apply take_from_run.
      erewrite bind_Ok by (eapply (push_to_run process_ready_queue q); [exact Hq|by apply Z.eqb_neq|apply Hm]).
      reflexivity. }
    rewrite (bind_Ok _ _ _ _ _ E). apply (trap_end_run s1 vc uc); [done| |done].
    change (<[w := v']> (pcbs s) !! current_process s = Some vc). by rewrite lookup_insert_ne.
  - done.
  - unfold ready_list. rewrite Hq. apply q_data_append.
  - done.
  - done.
  - done.
Qed.
End Terminal.

(** ** Witnesses on the demo machine *)
Section Witnesses.
Import DemoHardware Demo.

(** Process 24, child of 20, faults at [addr]; process 20 is ready. *)
Definition demo_faulting : pcb_t :=
  demo_proc 2 48 24 K_user <| p_parent := 20 |> <| p_page_table := Some demo_table |>
    <| p_current_brk := 2080 |> <| p_usr_ctx := Some (mk_uctx 0 0 0 4090 [0; 0; 0]) |>.
Definition demo_fault_parent : pcb_t := demo_proc 1 44 22 K_user <| p_children := Some (mk_set [(2, 24)] 1) |>.
Definition demo_fault (addr : Z) : kst := demo_sched
  <| pcbs := {[ 16 := demo_proc 0 40 20 K_boot; 20 := demo_fault_parent; 24 := demo_faulting ]} |>
  <| current_process := 24 |> <| init_process := 20 |> <| reg_ptbr1 := Pt_pcb 24 |>
  <| process_ready_queue := Some (q_append empty_queue 20) |> <| free_frame_queue := Some demo_brk_queue |>
  <| user_context := mk_uctx 0 addr 0 4090 [0; 0; 0] |>.

Lemma demo_fault_ready addr :
  brk_ready (demo_fault addr) demo_faulting demo_table (mk_uctx 0 0 0 4090 [0; 0; 0]) demo_brk_queue.
Proof. split; try reflexivity; simpl; try lia. by apply (bool_decide_unpack _). Defined.

Lemma demo_fault_killable addr : killable (demo_fault addr) 24 20 demo_faulting demo_fault_parent.
Proof.
  assert (H20 : proc_ok (demo_fault addr) 20).
  { apply (proc_ok_context demo_sched _ 20 (demo_proc 1 44 22 K_user) demo_fault_parent); try done.
    by apply (demo_proc_ok 20 1 44 22 K_user). }
  split; try done.
  - split; try done; try (by eexists).
    + by apply demo_mem_ok.
    + by split; intros ? [= <-].
  - split; try done; try (by eexists).
    + by apply demo_mem_ok.
    + apply (proc_ok_context demo_sched _ 16 (demo_proc 0 40 20 K_boot) (demo_proc 0 40 20 K_boot)); try done.
      by apply (demo_proc_ok 16 0 40 20 K_boot).
    + by apply Forall_singleton.
  - by apply (bool_decide_unpack _).
  - by exists empty_set, empty_set.
Defined.

(** Inside the stack, and below the break. *)
Lemma TrapMemoryHandler_grows_witness :
  (exists k' s', TrapMemoryHandler (demo_fault 4035) = Ok k' s') /\
  (exists k' s', TrapMemoryHandler (demo_fault 2060) = Ok k' s' /\ current_process s' = 20).
Proof.
  split.
  - destruct (TrapMemoryHandler_grows _ _ _ _ _ _ _ (demo_fault_ready 4035) (demo_fault_killable 4035))
      as (k' & s' & E & _); [by vm_compute|split; by vm_compute|].
    exact (ex_intro _ k' (ex_intro _ s' E)).
  - destruct (TrapMemoryHandler_grows _ _ _ _ _ _ _ (demo_fault_ready 2060) (demo_fault_killable 2060))
      as (k' & s' & E & [([H _] & _)|(_ & Hk)]); [by vm_compute|split; by vm_compute|by vm_compute in H|].
    exact (ex_intro _ k' (ex_intro _ s' (conj E (kd_next _ _ _ _ _ _ _ Hk)))).
Defined.

(** Process 20, blocked while it writes to terminal 1, and process 24. *)
Definition demo_transmit : kst := blank
  <| pcbs := {[ 20 := demo_tty_proc 1; 24 := demo_tty_proc 2 <| p_usr_ctx := Some no_ctx |> ]} |>
  <| current_process := 24 |> <| process_ready_queue := Some empty_queue |>
  <| blocked_pcbs := Some (mk_set [(1, 20)] 1) |>
  <| current_tty_state := Some (demo_tty 0 <| curr_writers := [0; 20] |>) |>
  <| user_context := mk_uctx 1 0 77 0 [5; 6; 7] |>.

Lemma TrapTTYTransmitHandler_rolls_back_witness :
  exists s', kernel_entry 0 TRAP_TTY_TRANSMIT demo_transmit = Ok K_user s' /\
    ready_list s' = [20] /\ user_context s' = no_ctx /\ uc_pc (user_context demo_transmit) = 77.
Proof.
  destruct (TrapTTYTransmitHandler_rolls_back demo_transmit 1 20 (demo_tty_proc 1)
    (demo_tty_proc 2 <| p_usr_ctx := Some no_ctx |>) no_ctx empty_queue)
    as (s' & E & _ & H1 & _ & _ & H2).
  { split; try reflexivity; [done|by eexists|done|by apply demo_mem_ok]. }
  exact (ex_intro _ s' (conj E (conj H1 (conj H2 eq_refl)))).
Defined.
End Witnesses.
