(* ===== verification/Clock.v ===== *)
(** * The clock trap ([traps.c], TrapClockHandler)

    Main results: one clock tick is the reference tick [spec_tick]: every
    delayed process counts down, the expired ones become READY in the order of
    the set and join the ready queue, and the walk of the list, which frees
    nodes on the way, reads no freed node; from a state in which every process that
    can run was suspended by the clock or by a system call, a clock trap ends
    in user mode after one continuation and leaves such a state, so a delay of
    [n] ticks lasts exactly [n] clock traps, and a process that is preempted
    gets the CPU back with the user context it was interrupted in. *)

From S2P Require Import Prelude Hardware Containers KState Memory Pcb Sched Process Loader Traps.
From stdpp Require Import list gmap fin_maps.

#[local] Open Scope Z_scope.

Section Spec.

(** The PCB of a delayed process after a tick. *)
Definition tick_pcb (v : pcb_t) : pcb_t :=
  let delay_ticks := wrap32 (p_delay_ticks v - 1) in
  if delay_ticks >? 0 then v <| p_delay_ticks := delay_ticks |>
  else v <| p_delay_ticks := delay_ticks |> <| p_state := READY |>.

(** The delay of a process is over at the next tick. *)
Definition expires (m : gmap Z pcb_t) (n : Z * ptr) : bool :=
  match m !! n.2 with Some v => negb (wrap32 (p_delay_ticks v - 1) >? 0) | None => false end.

Definition expired (m : gmap Z pcb_t) (l : list (Z * ptr)) : list ptr :=
  (List.filter (expires m) l).*2.
Definition still_delayed (m : gmap Z pcb_t) (l : list (Z * ptr)) : list (Z * ptr) :=
  List.filter (fun n => negb (expires m n)) l.

(** The PCBs after a tick of the processes [l]. *)
Definition ticked (l : list ptr) (m : gmap Z pcb_t) : gmap Z pcb_t :=
  map_imap (fun p v => Some (if decide (p ∈ l) then tick_pcb v else v)) m.

(** The reference tick: the PCBs, the delayed processes and the processes
    that join the ready queue. *)
Definition spec_tick (m : gmap Z pcb_t) (l : list (Z * ptr))
  : gmap Z pcb_t * list (Z * ptr) * list ptr :=
  (ticked l.*2 m, still_delayed m l, expired m l).

Lemma ticked_lookup l m p :
  ticked l m !! p = (fun v => if decide (p ∈ l) then tick_pcb v else v) <$> m !! p.
Proof. unfold ticked. rewrite map_lookup_imap. by destruct (m !! p). Qed.

Lemma ticked_snoc l p m v :
  p ∉ l -> m !! p = Some v -> <[p := tick_pcb v]> (ticked l m) = ticked (l ++ [p]) m.
Proof.
  intros Hp Hv. apply map_eq. intros q. rewrite ticked_lookup. destruct (decide (q = p)) as [->|Hne].
  - rewrite lookup_insert_eq, Hv. simpl. rewrite decide_True; [done|]. set_solver.
  - rewrite lookup_insert_ne, ticked_lookup by done. destruct (m !! q); [|done]. simpl.
    do 2 case_decide; set_solver.
Qed.

Lemma ticked_nil m : ticked [] m = m.
Proof.
  apply map_eq. intros p. rewrite ticked_lookup. destruct (m !! p) as [v|]; [|done].
  cbn [fmap option_fmap option_map]. by rewrite decide_False by apply not_elem_of_nil.
Qed.
End Spec.

Section Tick.
Context {hw : Hardware}.

(** The delayed processes [l] of a state: each is in the set once, under its
    pid, with a positive delay. *)
Record delays_wf (s : kst) (l : list (Z * ptr)) : Prop := {
  dw_set : exists d, delayed_pcbs s = Some d /\ s_nodes d = l;
  dw_keys : NoDup l.*1;
  dw_ptrs : NoDup l.*2;
  dw_pcb : Forall (fun n => 0 <= n.1 /\ n.2 <> NULL /\
    exists v, pcbs s !! n.2 = Some v /\ p_pid v = n.1 /\ 1 <= p_delay_ticks v <= INT_MAX) l }.

Lemma tick_one_run k d next p v q s :
  delayed_pcbs s = Some d -> node_at k (s_nodes d) = Some (p, next) ->
  pcbs s !! p = Some v -> p <> NULL -> process_ready_queue s = Some q ->
  malloc_at s (mallocs s) <> NULL ->
  tick_one k s = Ok next (
    if wrap32 (p_delay_ticks v - 1) >? 0 then s <| pcbs ::= <[p := tick_pcb v]> |>
    else s <| pcbs ::= <[p := tick_pcb v]> |>
           <| delayed_pcbs := (spec_set_pop (delayed_pcbs s) (p_pid v)).2 |>
           <| mallocs ::= S |> <| process_ready_queue := Some (q_append q p) |>).
Proof.
  intros Hd Hn Hv Hp Hq Hm. unfold tick_one, tick_pcb.
  assert (El : forall s1, delayed_pcbs s1 = delayed_pcbs s -> load_delayed k s1 = Ok (p, next) s1).
  { intros s1 E. unfold load_delayed, bind, gets, demand, ret. rewrite E, Hd. cbn. by rewrite Hn. }
  rewrite (bind_Ok _ _ _ _ _ (El s eq_refl)), (bind_Ok _ _ _ _ _ (load_pcb_run _ _ _ Hv)).
  cbv zeta. rewrite (bind_Ok _ _ _ _ _ (upd_pcb_run _ _ _ _ Hv)). erewrite bind_Ok by (by apply El).
  destruct (wrap32 (p_delay_ticks v - 1) >? 0); [done|].
  rewrite bind_assoc. erewrite bind_Ok by apply take_from_run.
  rewrite bind_assoc.
  erewrite bind_Ok by (apply upd_pcb_run; simpl; apply lookup_insert_eq). rewrite bind_assoc.
  erewrite bind_Ok by (eapply (push_to_run process_ready_queue q); [exact Hq|by apply Z.eqb_neq|exact Hm]).
  unfold ret. f_equal. kst_eq s. by rewrite insert_insert_eq.
Qed.

Lemma remove_key_middle {A} (l1 l2 : list (Z * A)) k d :
  k ∉ l1.*1 -> remove_key k (l1 ++ (k, d) :: l2) = l1 ++ l2 /\ key_lookup k (l1 ++ (k, d) :: l2) = Some d.
Proof.
  induction l1 as [|[k' d'] l1 IH]; intros Hk; simpl; [by rewrite Z.eqb_refl|].
  apply not_elem_of_cons in Hk as [Hne Hk]. simpl in Hne. rewrite (proj2 (Z.eqb_neq _ _) Hne).
  destruct (IH Hk) as [-> ->]. done.
Qed.

(** [s'] is [s] after the processes [l1] of [l1 ++ l2] have been ticked. *)
Definition ticked_state (l1 l2 : list (Z * ptr)) (s s' : kst) : Prop :=
  exists c k r, s' = s <| pcbs := ticked l1.*2 (pcbs s) |>
    <| delayed_pcbs := Some (mk_set (still_delayed (pcbs s) l1 ++ l2) c) |>
    <| mallocs := k |> <| process_ready_queue := Some r |> /\
    q_data r = ready_list s ++ expired (pcbs s) l1.

Lemma still_delayed_keys m l k : k ∈ (still_delayed m l).*1 -> k ∈ l.*1.
Proof.
  intros (n & -> & Hn)%list_elem_of_fmap. apply list_elem_of_fmap. exists n. split; [done|].
  apply list_elem_of_In in Hn. apply filter_In in Hn as [Hn _]. by apply list_elem_of_In.
Qed.

Lemma wp_tick_step l1 k p l2 s s0 :
  delays_wf s (l1 ++ (k, p) :: l2) -> mem_ok s -> ticked_state l1 ((k, p) :: l2) s s0 ->
  wp (tick_one k) (fun next s1 => next = fst <$> head l2 /\ ticked_state (l1 ++ [(k, p)]) l2 s s1) s0.
Proof.
  intros [_ Hk Hp Hf] Hm (c & j & r & E & Hr).
  apply Forall_app in Hf as [_ Hf]. apply Forall_cons in Hf as [(Hk0 & Hnn & v & Hv & Hpid & _) _].
  simpl in *. rewrite fmap_app in Hk, Hp. apply NoDup_app in Hk as (_ & Hk & _).
  apply NoDup_app in Hp as (_ & Hp & _).
  assert (Hk1 : k ∉ l1.*1) by (intros H; apply (Hk k H); simpl; by left).
  assert (Hp1 : p ∉ l1.*2) by (intros H; apply (Hp p H); simpl; by left).
  assert (Hex : expires (pcbs s) (k, p) = negb (wrap32 (p_delay_ticks v - 1) >? 0))
    by (unfold expires; simpl; by rewrite Hv).
  eapply wp_eq; [eapply (tick_one_run k _ (fst <$> head l2) p v r)|].
  - by rewrite E.
  - apply node_at_middle. by intros H%still_delayed_keys.
  - rewrite E. simpl. rewrite ticked_lookup, Hv. simpl. by rewrite decide_False.
  - done.
  - by rewrite E.
  - rewrite E. apply Hm.
  - split; [done|]. unfold ticked_state. rewrite !fmap_app. cbn [fmap list_fmap snd].
    rewrite <- (ticked_snoc _ _ _ v Hp1 Hv).
    unfold still_delayed, expired. rewrite !List.filter_app. cbn [List.filter]. rewrite Hex.
    destruct (wrap32 (p_delay_ticks v - 1) >? 0); cbn [negb].
    + exists c, j, r. rewrite E, <- app_assoc, app_nil_r. split; [by kst_eq s|exact Hr].
    + rewrite E. cbn. rewrite Hpid, (proj2 (Z.ltb_ge _ _) Hk0).
      destruct (remove_key_middle (still_delayed (pcbs s) l1) l2 k p) as [Er El].
      { by intros H%still_delayed_keys. }
      rewrite El, Er. cbn. rewrite app_nil_r. eexists (c - 1), _, _. split; [by kst_eq s|].
      rewrite q_data_append, Hr, fmap_app. cbn. by rewrite app_assoc.
Qed.

(** The loop from any node on: fuel for the nodes left is enough. *)
Lemma wp_tick_loop l2 : forall l1 fuel s s0,
  delays_wf s (l1 ++ l2) -> mem_ok s -> ticked_state l1 l2 s s0 -> (length l2 <= fuel)%nat ->
  wp (tick_loop fuel (fst <$> head l2)) (fun _ s1 => ticked_state (l1 ++ l2) [] s s1) s0.
Proof.
  induction l2 as [|[k p] l2 IH]; intros l1 fuel s s0 Hd Hm Hs Hf.
  - rewrite app_nil_r in *. destruct fuel; by apply wp_ret.
  - destruct fuel as [|fuel]; [simpl in Hf; lia|]. cbn [head fmap option_fmap option_map fst tick_loop].
    apply wp_bind. eapply wp_mono; [by apply (wp_tick_step l1 k p l2 s)|]. intros next s1 [-> Hs1].
    replace (l1 ++ (k, p) :: l2) with ((l1 ++ [(k, p)]) ++ l2) in * by (by rewrite <- app_assoc).
    apply IH; [done..|simpl in Hf; lia].
Qed.

Lemma wp_tick_delayed s l :
  delays_wf s l -> mem_ok s -> is_Some (process_ready_queue s) ->
  wp tick_delayed (fun _ s' => ticked_state l [] s s') s.
Proof.
  intros Hd Hm [q Hq]. pose proof (dw_set s l Hd) as (d & Ed & El). unfold tick_delayed.
  apply wp_bind, wp_gets, wp_bind. eapply wp_demand; [exact Ed|]. rewrite El.
  apply (wp_tick_loop l [] (length l) s s); [done..| |done].
  exists (s_node_count d), (mallocs s), q. split.
  - cbn. rewrite ticked_nil, <- El. destruct d, s. cbn in *. by subst.
  - unfold ready_list. rewrite Hq. cbn. by rewrite app_nil_r.
Qed.
End Tick.

(** ** States in which every process can come back *)

Section Clock.
Context {hw : Hardware}.

(** A process suspended by the clock or in a system call that has only to
    return. *)
Definition clock_kont (k : kont) : Prop := k = K_clock \/ exists rc, k = K_syscall rc.

(** The context [p] returns to user mode with. *)
Definition resumed (k : kont) (uc : UserContext) : UserContext :=
  match k with
  | K_syscall rc => uc <| uc_regs := <[0%nat := wrapu32 rc]> (uc_regs uc) |>
  | _ => uc
  end.

(** [p] has a user context with registers. *)
Definition has_ctx (m : gmap Z pcb_t) (p : ptr) : Prop :=
  exists v uc, m !! p = Some v /\ p_usr_ctx v = Some uc /\ uc_regs uc <> [].

Definition resumable (s : kst) (p : ptr) : Prop :=
  has_ctx (pcbs s) p /\ exists k, saved_kont s p = Some k /\ clock_kont k.

(** [l] are the delayed processes. *)
Record clocked (s : kst) (l : list (Z * ptr)) : Prop := {
  ck_sched : sched_wf s;
  ck_ready : all_ready s;
  ck_procs : Forall (resumable s) (ready_list s);
  ck_cur : has_ctx (pcbs s) (current_process s);
  ck_ctx : uc_regs (user_context s) <> [];
  ck_delays : delays_wf s l;
  ck_back : Forall (fun n => proc_ok s n.2 /\ resumable s n.2) l;
  ck_sep : forall p, p ∈ l.*2 -> p ∉ cpu_queue s }.

(** A PCB whose kernel context, stack and having a user context are kept. *)
Definition kept (v v' : pcb_t) : Prop :=
  p_krn_ctx v' = p_krn_ctx v /\ p_kernel_stack_pages v' = p_kernel_stack_pages v /\
  (forall uc, p_usr_ctx v = Some uc -> uc_regs uc <> [] ->
     exists uc', p_usr_ctx v' = Some uc' /\ uc_regs uc' <> []).
Definition all_kept (m m' : gmap Z pcb_t) : Prop :=
  forall p v, m !! p = Some v -> exists v', m' !! p = Some v' /\ kept v v'.

(** The fields a tick and the scheduler's user can see of a PCB. *)
Definition timing (v : pcb_t) : Z * Z * Z := (p_state v, p_pid v, p_delay_ticks v).
Definition same_timing (m m' : gmap Z pcb_t) : Prop :=
  forall p, timing <$> m' !! p = timing <$> m !! p.

Lemma kept_refl v : kept v v.
Proof. split_and!; [done..|]. by intros uc ?; exists uc. Qed.

Lemma kept_insert m p v v' : m !! p = Some v -> kept v v' -> all_kept m (<[p := v']> m).
Proof.
  intros Hv Hk q w Hw. destruct (decide (q = p)) as [->|Hne].
  - rewrite Hv in Hw. injection Hw as <-. exists v'. by rewrite lookup_insert_eq.
  - exists w. rewrite lookup_insert_ne by done. split; [done|apply kept_refl].
Qed.

Lemma timing_insert m p v v' : m !! p = Some v -> timing v' = timing v -> same_timing m (<[p := v']> m).
Proof.
  intros Hv Ht q. destruct (decide (q = p)) as [->|Hne].
  - rewrite lookup_insert_eq, Hv. simpl. by f_equal.
  - by rewrite lookup_insert_ne.
Qed.

Lemma timing_lookup m m' p v : same_timing m m' -> m !! p = Some v ->
  exists v', m' !! p = Some v' /\ timing v' = timing v.
Proof.
  intros H Hv. specialize (H p). rewrite Hv in H. destruct (m' !! p) as [v'|]; [|done].
  exists v'. split; [done|]. simpl in H. congruence.
Qed.

Lemma proc_ok_kept s s' p :
  all_kept (pcbs s) (pcbs s') -> region_0_pages s' = region_0_pages s -> proc_ok s p -> proc_ok s' p.
Proof.
  intros Hk Hr (H0 & Ha & v & c & ks & k & Hv & Hc & Hca & Hkc & Hks & Hl).
  assert (Hsame : same_heap_pages s s') by (intros i _; by rewrite Hr).
  destruct (Hk p v Hv) as (v' & Hv' & Ec & Es & _).
  split_and!; [done|by apply (kptr_ok_same s)|]. exists v', c, ks, k. rewrite Ec, Es.
  split_and!; try done. by apply (kptr_ok_same s).
Qed.

Lemma has_ctx_kept m m' p : all_kept m m' -> has_ctx m p -> has_ctx m' p.
Proof.
  intros Hk (v & uc & Hv & Hu & Hr). destruct (Hk p v Hv) as (v' & Hv' & _ & _ & Hc).
  destruct (Hc uc Hu Hr) as (uc' & ? & ?). by exists v', uc'.
Qed.

Lemma saved_kont_kept s s' p k :
  all_kept (pcbs s) (pcbs s') -> saved_kont s p = Some k -> saved_kont s' p = Some k.
Proof.
  intros Hk. unfold saved_kont. destruct (pcbs s !! p) as [v|] eqn:Hv; [|done].
  destruct (Hk p v Hv) as (v' & -> & E & _). simpl. by rewrite E.
Qed.

Lemma resumable_kept s s' p :
  all_kept (pcbs s) (pcbs s') -> resumable s p -> resumable s' p.
Proof.
  intros Hk (Hc & k & Hs & Hck). split; [by eapply has_ctx_kept|]. exists k.
  split; [by eapply saved_kont_kept|done].
Qed.

Lemma sched_wf_kept s s' :
  sched_wf s -> all_kept (pcbs s) (pcbs s') ->
  region_0_pages s' = region_0_pages s -> malloc_at s' = malloc_at s ->
  idle_process s' = idle_process s -> current_process s' = current_process s ->
  (forall v v', pcbs s !! current_process s = Some v -> pcbs s' !! current_process s = Some v' ->
     p_state v' = READY -> p_state v = READY) ->
  is_Some (process_ready_queue s') -> Forall (proc_ok s) (ready_list s') -> sched_wf s'.
Proof.
  intros Hwf Hk Hr Hma Hi Hc Hst Hq Hrl.
  assert (Hsame : same_heap_pages s s') by (intros i _; by rewrite Hr).
  split.
  - intros n. rewrite Hma. apply (swf_mem s Hwf).
  - rewrite Hr. apply (swf_r0 s Hwf).
  - done.
  - rewrite Hi. by eapply proc_ok_kept; [| |apply swf_idle].
  - eapply Forall_impl; [exact Hrl|]. intros p Hp. by eapply proc_ok_kept.
  - rewrite Hc. destruct (swf_cur s Hwf) as (H0 & Ha & v & Hv & Hks & Hrd).
    destruct (Hk _ v Hv) as (v' & Hv' & Ec & Es & _).
    split_and!; [done|by apply (kptr_ok_same s)|]. exists v'. rewrite Ec, Es.
    split_and!; [done..|]. intros E. destruct (Hrd (Hst v v' Hv Hv' E)) as (c & ? & ? & ?). exists c.
    split_and!; [done|by apply (kptr_ok_same s)|done].
Qed.

Lemma delays_wf_timing s s' l :
  delays_wf s l -> same_timing (pcbs s) (pcbs s') -> delayed_pcbs s' = delayed_pcbs s -> delays_wf s' l.
Proof.
  intros [Hs Hk Hp Hf] Ht Hd. split; [by rewrite Hd|done..|].
  eapply Forall_impl; [exact Hf|]. intros n (H0 & H1 & v & Hv & Hpid & Hdel).
  destruct (timing_lookup _ _ _ _ Ht Hv) as (v' & Hv' & [= E1 E2 E3]).
  split_and!; [done..|]. exists v'. rewrite E2, E3. done.
Qed.

(** A step that changes user contexts only. *)
Lemma clocked_kept s l m u :
  clocked s l -> all_kept (pcbs s) m -> same_timing (pcbs s) m -> uc_regs u <> [] ->
  clocked (s <| pcbs := m |> <| user_context := u |>) l.
Proof.
  intros [Hwf Hrd Hp Hc Hu Hd Hb Hs] Hk Ht Hu'.
  set (s' := s <| pcbs := m |> <| user_context := u |>).
  assert (Hst : forall p, p_state <$> pcbs s' !! p = p_state <$> pcbs s !! p).
  { intros p. specialize (Ht p). change (pcbs s' !! p) with (m !! p).
    destruct (m !! p), (pcbs s !! p); try done. injection Ht as ?. simpl. by f_equal. }
  split; try done.
  - eapply sched_wf_kept; try done; [|apply (swf_queue s Hwf)|apply (swf_ready s Hwf)].
    intros v v' Hv Hv' E. specialize (Hst (current_process s)). rewrite Hv, Hv' in Hst. simpl in Hst. congruence.
  - eapply Forall_impl; [exact Hrd|]. intros p. by rewrite Hst.
  - eapply Forall_impl; [exact Hp|]. intros p. by apply resumable_kept.
  - by eapply has_ctx_kept.
  - by eapply delays_wf_timing.
  - eapply Forall_impl; [exact Hb|]. intros n [H1 H2].
    split; [by eapply proc_ok_kept|by eapply resumable_kept].
Qed.

(** ** The tick *)

Lemma NoDup_filter_fmap {A B} (g : A -> B) (f : A -> bool) (l : list A) :
  NoDup (g <$> l) -> NoDup (g <$> List.filter f l).
Proof.
  induction l as [|x l IH]; [done|]. rewrite fmap_cons. intros [Hx Hl]%NoDup_cons. simpl.
  destruct (f x); [|by apply IH]. rewrite fmap_cons. apply NoDup_cons. split; [|by apply IH].
  intros (y & E & Hy)%list_elem_of_fmap. apply Hx. rewrite E. apply list_elem_of_fmap_2.
  apply list_elem_of_In in Hy. apply filter_In in Hy as [Hy _]. by apply list_elem_of_In.
Qed.

Lemma elem_of_filter_bool {A} (f : A -> bool) (l : list A) x :
  x ∈ List.filter f l <-> x ∈ l /\ f x = true.
Proof. rewrite !list_elem_of_In. apply filter_In. Qed.

Lemma tick_kept l m : all_kept m (ticked l m).
Proof.
  intros p v Hv. rewrite ticked_lookup, Hv. eexists. split; [done|]. case_decide; [|apply kept_refl].
  unfold tick_pcb. destruct (_ >? 0); split_and!; try done; by intros uc ?; exists uc.
Qed.

(** A delayed process of a well-formed state, before and after a tick. *)
Lemma delayed_entry s l n :
  delays_wf s l -> n ∈ l -> exists v, pcbs s !! n.2 = Some v /\ p_pid v = n.1 /\
    ticked l.*2 (pcbs s) !! n.2 = Some (tick_pcb v) /\ 1 <= p_delay_ticks v <= INT_MAX /\
    expires (pcbs s) n = (p_delay_ticks v <=? 1) /\
    p_delay_ticks (tick_pcb v) = p_delay_ticks v - 1 /\
    p_state (tick_pcb v) = (if p_delay_ticks v <=? 1 then READY else p_state v).
Proof.
  intros [_ _ _ Hf] Hn. rewrite Forall_forall in Hf. destruct (Hf n Hn) as (_ & _ & v & Hv & Hpid & Hd).
  exists v. split_and!; [done|done| |lia|lia|..].
  - rewrite ticked_lookup, Hv. simpl. rewrite decide_True; [done|]. by apply list_elem_of_fmap_2.
  - unfold expires. rewrite Hv, wrap32_id by (unfold INT_MIN, INT_MAX in *; lia).
    rewrite Z.gtb_ltb. destruct (Z.ltb_spec 0 (p_delay_ticks v - 1)), (Z.leb_spec (p_delay_ticks v) 1);
      done || lia.
  - unfold tick_pcb. rewrite wrap32_id by (unfold INT_MIN, INT_MAX in *; lia). by destruct (_ >? 0).
  - unfold tick_pcb. rewrite wrap32_id by (unfold INT_MIN, INT_MAX in *; lia). rewrite Z.gtb_ltb.
    destruct (Z.ltb_spec 0 (p_delay_ticks v - 1)), (Z.leb_spec (p_delay_ticks v) 1); done || lia.
Qed.

Lemma delays_wf_ticked s l s' :
  delays_wf s l -> ticked_state l [] s s' -> delays_wf s' (still_delayed (pcbs s) l).
Proof.
  intros Hd (c & j & r & -> & Hr). split.
  - eexists. split; [reflexivity|]. simpl. by rewrite app_nil_r.
  - apply NoDup_filter_fmap, (dw_keys s l Hd).
  - apply NoDup_filter_fmap, (dw_ptrs s l Hd).
  - apply Forall_forall. intros n [Hn He]%elem_of_filter_bool.
    pose proof (dw_pcb s l Hd) as Hf. rewrite Forall_forall in Hf. destruct (Hf n Hn) as (H0 & H1 & _).
    destruct (delayed_entry s l n Hd Hn) as (v & Hv & Hpid & Ht & Hdel & Hex & Hdt & _).
    split_and!; [done..|]. exists (tick_pcb v). split_and!; [exact Ht| | |].
    + rewrite <- Hpid. unfold tick_pcb. by destruct (_ >? 0).
    + rewrite Hex in He. apply negb_true_iff, Z.leb_gt in He. lia.
    + lia.
Qed.

Lemma clocked_ticked s l s' :
  clocked s l -> ticked_state l [] s s' ->
  clocked s' (still_delayed (pcbs s) l) /\ cpu_queue s' = cpu_queue s ++ expired (pcbs s) l.
Proof.
  intros [Hwf Hrd Hp Hc Hu Hd Hb Hs] Hts. pose proof (delays_wf_ticked s l s' Hd Hts) as Hd'.
  destruct Hts as (c & j & r & E & Hr).
  assert (Ep : pcbs s' = ticked l.*2 (pcbs s)) by by rewrite E.
  assert (Ec : current_process s' = current_process s) by by rewrite E.
  assert (Er : ready_list s' = ready_list s ++ expired (pcbs s) l) by (rewrite E; exact Hr).
  assert (Hk : all_kept (pcbs s) (pcbs s')) by (rewrite Ep; apply tick_kept).
  assert (Hcpu : cpu_queue s' = cpu_queue s ++ expired (pcbs s) l)
    by (unfold cpu_queue; by rewrite Ec, Er).
  assert (Hother : forall p, p ∈ cpu_queue s -> pcbs s' !! p = pcbs s !! p).
  { intros p Hpq. rewrite Ep, ticked_lookup. destruct (pcbs s !! p) as [v|]; [|done]. simpl.
    rewrite decide_False; [done|]. intros Hpl. by apply (Hs p). }
  assert (Hexp : forall p, p ∈ expired (pcbs s) l -> exists n, p = n.2 /\ n ∈ l /\ expires (pcbs s) n = true).
  { intros p (n & -> & [? ?]%elem_of_filter_bool)%list_elem_of_fmap. by exists n. }
  unfold all_ready in Hrd. rewrite Forall_forall in Hb; rewrite Forall_forall in Hrd. split; [split|done].
  - apply (sched_wf_kept s s'); [exact Hwf|exact Hk|by rewrite E|by rewrite E|by rewrite E|exact Ec| | |].
    + rewrite Hother by (by left). intros v v' -> [= ->]. done.
    + eexists. by rewrite E.
    + rewrite Er. apply Forall_app. split; [apply (swf_ready s Hwf)|].
      apply Forall_forall. intros p (n & -> & Hn & _)%Hexp. by apply Hb.
  - unfold all_ready. rewrite Hcpu. apply Forall_app. split; apply Forall_forall.
    + intros p Hpq. rewrite Hother by done. by apply Hrd.
    + intros p (n & -> & Hn & He)%Hexp.
      destruct (delayed_entry s l n Hd Hn) as (v & _ & _ & Ht & _ & Hex & _ & Hst).
      rewrite Ep, Ht. simpl. f_equal. rewrite Hst, <- Hex. by rewrite He.
  - rewrite Er. apply Forall_app. split.
    + eapply Forall_impl; [exact Hp|]. intros p. by apply resumable_kept.
    + apply Forall_forall. intros p (n & -> & Hn & _)%Hexp. eapply resumable_kept; [done|]. by apply Hb.
  - rewrite Ec. by eapply has_ctx_kept.
  - by rewrite E.
  - done.
  - apply Forall_forall. intros n [Hn _]%elem_of_filter_bool. destruct (Hb n Hn) as [H1 H2].
    split; [eapply proc_ok_kept; [done|by rewrite E|done]|by eapply resumable_kept].
  - intros p (n & -> & [Hn He]%elem_of_filter_bool)%list_elem_of_fmap. rewrite Hcpu.
    intros [Hq|Hq]%elem_of_app.
    + eapply Hs; [|exact Hq]. by apply list_elem_of_fmap_2.
    + apply Hexp in Hq as (n' & En & Hn' & He'). 
      assert (expires (pcbs s) n = expires (pcbs s) n') as Ee by (unfold expires; by rewrite En).
      rewrite Ee, He' in He. done.
Qed.

(** ** The switch *)

Lemma has_ctx_switched k stack m cur p :
  has_ctx m p -> has_ctx (alter (switched_out k stack) cur m) p.
Proof.
  intros (v & uc & Hv & Hu & Hr). destruct (decide (p = cur)) as [->|Hne].
  - exists (switched_out k stack v), uc. rewrite lookup_alter_eq, Hv. split_and!; [done| |done].
    rewrite <- Hu. unfold switched_out. by destruct (p_krn_ctx v), (p_kernel_stack_pages v).
  - exists v, uc. by rewrite lookup_alter_ne.
Qed.

Lemma resumable_switched stack s s' cur p :
  pcbs s' = alter (switched_out K_clock stack) cur (pcbs s) -> resumable s p -> resumable s' p.
Proof.
  intros Em (Hc & k & Hk & Hck). split; [rewrite Em; by apply has_ctx_switched|].
  unfold saved_kont in *. rewrite Em. destruct (decide (p = cur)) as [->|Hne].
  - rewrite lookup_alter_eq. destruct (pcbs s !! cur) as [v|]; [|done]. simpl in *.
    destruct (p_krn_ctx v) as [c|] eqn:Ec; [|done]. simpl in Hk. unfold switched_out. rewrite Ec.
    destruct (p_kernel_stack_pages v); simpl.
    + exists K_clock. split; [done|by left].
    + rewrite Ec. by exists k.
  - rewrite lookup_alter_ne by done. by exists k.
Qed.

Lemma switched_out_timing k stack v : timing (switched_out k stack v) = timing v.
Proof. unfold switched_out. by destruct (p_krn_ctx v), (p_kernel_stack_pages v). Qed.

Lemma switched_timing k stack m cur : same_timing m (alter (switched_out k stack) cur m).
Proof.
  intros p. destruct (decide (p = cur)) as [->|Hne].
  - rewrite lookup_alter_eq. destruct (m !! cur); [|done]. simpl. by rewrite switched_out_timing.
  - by rewrite lookup_alter_ne.
Qed.

(** What one call of the scheduler from the clock handler does. *)
Record clock_switch (s : kst) (l : list (Z * ptr)) (k' : kont) (s' : kst) : Prop := {
  cs_clocked : clocked s' l;
  cs_queue : cpu_queue s' = rotate1 (cpu_queue s);
  cs_kont : clock_kont k';
  cs_timing : same_timing (pcbs s) (pcbs s');
  cs_user : user_context s' = user_context s;
  cs_other : forall p, p <> current_process s -> pcbs s' !! p = pcbs s !! p;
  cs_cur : forall v, pcbs s !! current_process s = Some v ->
    exists v', pcbs s' !! current_process s = Some v' /\ p_usr_ctx v' = p_usr_ctx v;
  cs_saved : match ready_list s with
             | [] => k' = K_clock
             | _ => saved_kont s' (current_process s) = Some K_clock /\
                    saved_kont s' (current_process s') = Some k'
             end }.

(** The clock context of the process that leaves. *)
Lemma cur_saved stack s s' v :
  cur_ok s (current_process s) -> pcbs s !! current_process s = Some v -> p_state v = READY ->
  pcbs s' = alter (switched_out K_clock stack) (current_process s) (pcbs s) ->
  saved_kont s' (current_process s) = Some K_clock.
Proof.
  intros (_ & _ & v' & Hv' & _ & Hrd) Hv Hr Em. rewrite Hv in Hv'. injection Hv' as <-.
  destruct (Hrd Hr) as (c & Ec & _ & [ks Ek]). unfold saved_kont. rewrite Em, lookup_alter_eq, Hv. simpl.
  unfold switched_out. by rewrite Ec, Ek.
Qed.

Lemma clocked_alone s s' l :
  clocked s l -> ready_list s = [] -> sched_wf s' -> pcbs s' = pcbs s ->
  current_process s' = current_process s -> ready_list s' = [] ->
  user_context s' = user_context s -> delayed_pcbs s' = delayed_pcbs s ->
  same_heap_pages s s' -> clocked s' l.
Proof.
  intros [Hwf Hrd Hp Hc Hu Hd Hb Hs] Hnil Hwf' Ep Ec Er Eu Ed Hsame.
  assert (Hcpu : cpu_queue s' = cpu_queue s) by (unfold cpu_queue; by rewrite Ec, Er, Hnil).
  split; try done.
  - unfold all_ready. by rewrite Hcpu, Ep.
  - by rewrite Er.
  - by rewrite Ec, Ep.
  - by rewrite Eu.
  - apply (delays_wf_timing s); [done|by rewrite Ep|done].
  - eapply Forall_impl; [exact Hb|]. intros n [H1 (H2 & H3)]. split; [|split].
    + apply (proc_ok_same s); [done|by rewrite Ep|done].
    + by rewrite Ep.
    + unfold saved_kont. by rewrite Ep.
  - intros p Hpl. rewrite Hcpu. by apply Hs.
Qed.

Lemma clocked_dispatched s s' l next rest k' :
  clocked s l -> ready_list s = next :: rest -> sched_wf s' ->
  dispatched K_clock next s s' k' -> current_process s' = next ->
  ready_list s' = rest ++ [current_process s] ->
  user_context s' = user_context s -> delayed_pcbs s' = delayed_pcbs s -> clocked s' l.
Proof.
  intros [Hwf Hrd Hp Hc Hu Hd Hb Hs] Hq Hwf' (_ & _ & Em & Hsame) Ec Er Eu Ed.
  assert (Hst : forall p, p_state <$> pcbs s' !! p = p_state <$> pcbs s !! p).
  { intros p. pose proof (switched_timing K_clock (stack_entries s) (pcbs s) (current_process s) p) as H.
    rewrite <- Em in H. destruct (pcbs s' !! p), (pcbs s !! p); try done. injection H as ?. simpl. by f_equal. }
  assert (Hin : forall p, p ∈ cpu_queue s' <-> p ∈ cpu_queue s).
  { intros p. unfold cpu_queue. rewrite Ec, Er, Hq. set_solver. }
  rewrite Hq in Hp. apply Forall_cons in Hp as [Hpn Hpr].
  unfold all_ready in Hrd. rewrite Forall_forall in Hrd. split; try done.
  - apply Forall_forall. intros p Hpq%Hin. rewrite Hst. by apply Hrd.
  - rewrite Er. apply Forall_app. split.
    + eapply Forall_impl; [exact Hpr|]. intros p. by apply (resumable_switched (stack_entries s) _ _ (current_process s)).
    + constructor; [|done]. split; [rewrite Em; by apply has_ctx_switched|]. exists K_clock.
      split; [|by left]. destruct Hc as (v & uc & Hv & _). eapply cur_saved; [apply (swf_cur s Hwf)|exact Hv| |exact Em].
      specialize (Hrd (current_process s) ltac:(by left)). rewrite Hv in Hrd. by injection Hrd.
  - rewrite Ec, Em. apply has_ctx_switched, Hpn.
  - by rewrite Eu.
  - apply (delays_wf_timing s); [done|rewrite Em; apply switched_timing|done].
  - eapply Forall_impl; [exact Hb|]. intros n [H1 H2]. split.
    + eapply proc_ok_switched; [done|exact Em| |done]. apply stack_entries_length, (swf_r0 s Hwf).
    + by eapply resumable_switched.
  - intros p Hpl Hpc%Hin. by apply (Hs p).
Qed.

Lemma wp_clock_schedule s l :
  clocked s l -> wp (ScheduleNextProcess K_clock) (clock_switch s l) s.
Proof.
  intros Hck. pose proof Hck as [Hwf Hrd Hp (v & uc & Hv & Hu & Hur) Huc Hd Hb Hs].
  assert (Hr : p_state v = READY).
  { apply Forall_cons in Hrd as [Hrd _]. rewrite Hv in Hrd. by injection Hrd. }
  pose proof (wp_schedule K_clock s v Hwf Hv) as H. simpl in H. rewrite Hr, Z.eqb_refl in H.
  destruct (spec_schedule _ _ _ _) as [next q] eqn:Esp.
  destruct (wp_returns _ _ _ H) as (k' & s' & E & Ec & Eq & Hwf' & Heff). clear H.
  eapply wp_eq; [exact E|].
  pose proof (preserves_Ok _ _ _ _ _ (schedule_untouched K_clock) E) as [= Eu _ _ _ _ _].
  pose proof (wp_Ok _ _ _ _ _ (schedule_delayed K_clock v s Hv Hr) E) as Ed. simpl in Ed.
  unfold spec_schedule in Esp. destruct (ready_list s) as [|n rest] eqn:Erl; injection Esp as <- <-.
  - destruct Heff as (-> & Em & Er0 & _). split; try done.
    + eapply clocked_alone; try done. intros i _. by rewrite Er0.
    + unfold cpu_queue. by rewrite Ec, Eq, Erl.
    + by left.
    + intros p. by rewrite Em.
    + intros p _. by rewrite Em.
    + intros w Hw. exists w. by rewrite Em.
    + by rewrite Erl.
  - pose proof Heff as (_ & Hsk & Em & _). simpl in Hsk.
    assert (Hck' : clocked s' l) by exact (clocked_dispatched s s' l n rest k' Hck Erl Hwf' Heff Ec Eq Eu Ed).
    apply Forall_cons in Hp as [Hpn _].
    apply (resumable_switched _ _ _ _ n Em) in Hpn as (_ & k & Hk & Hkk).
    split; try done.
    + unfold cpu_queue. by rewrite Ec, Eq, Erl.
    + congruence.
    + rewrite Em. apply switched_timing.
    + intros p Hpc. by rewrite Em, lookup_alter_ne.
    + intros w Hw. exists (switched_out K_clock (stack_entries s) w). rewrite Em, lookup_alter_eq, Hw.
      split; [done|]. unfold switched_out. by destruct (p_krn_ctx w), (p_kernel_stack_pages w).
    + rewrite Erl, Ec. split; [|done]. eapply cur_saved; [apply (swf_cur s Hwf)|done..].
Qed.

(** ** The end of the trap *)

(** The continuation of the process that got the CPU: its user context is
    restored. *)
Lemma clock_resume k' s l v uc :
  clocked s l -> clock_kont k' -> pcbs s !! current_process s = Some v -> p_usr_ctx v = Some uc ->
  uc_regs uc <> [] ->
  exists v', resume k' s = Ok K_user (s <| pcbs := <[current_process s := v']> (pcbs s) |>
                                        <| user_context := resumed k' uc |>) /\
    kept v v' /\ timing v' = timing v /\ uc_regs (resumed k' uc) <> [].
Proof.
  intros Hck Hkk Hv Hu Hr. destruct (swf_cur s (ck_sched s l Hck)) as (Hc0 & _).
  assert (Hrest : forall s1 v1 uc1, current_process s1 = current_process s ->
    pcbs s1 !! current_process s = Some v1 -> p_usr_ctx v1 = Some uc1 ->
    restore_user_context s1 = Ok tt (s1 <| user_context := uc1 |>)).
  { intros s1 v1 uc1 Ec Hv1 Hu1. unfold restore_user_context. erewrite bind_Ok by reflexivity. rewrite Ec.
    rewrite (bind_Ok _ _ _ _ _ (load_pcb_run _ _ _ Hv1)), Hu1. done. }
  destruct Hkk as [->|[rc ->]].
  - exists v. split_and!; [|apply kept_refl|done|done]. cbn [resume]. unfold trap_end.
    erewrite bind_Ok by reflexivity. rewrite (proj2 (Z.eqb_neq _ _) Hc0).
    rewrite (bind_Ok _ _ _ _ _ (Hrest s v uc eq_refl Hv Hu)). unfold ret. f_equal. cbn [resumed].
    destruct s. kst_cbv. by rewrite insert_id.
  - cbn [resume resumed]. unfold syscall_return. erewrite bind_Ok by reflexivity.
    rewrite (proj2 (Z.eqb_neq _ _) Hc0). rewrite (bind_Ok _ _ _ _ _ (load_pcb_run _ _ _ Hv)), Hu.
    erewrite bind_Ok by reflexivity. rewrite arr_set_Some by (destruct (uc_regs uc); [done|simpl; lia]).
    erewrite bind_Ok by reflexivity. erewrite bind_Ok by reflexivity.
    erewrite bind_Ok by (eapply Hrest; [reflexivity|apply lookup_insert_eq|reflexivity]).
    eexists. split_and!; [reflexivity|split_and!; [done..|]|done|].
    + intros uc0 Hu0 _. rewrite Hu in Hu0. injection Hu0 as <-. eexists. split; [reflexivity|].
      simpl. by destruct (uc_regs uc).
    + simpl. by destruct (uc_regs uc).
Qed.

(** The contexts of a PCB. *)
Definition ctxs (v : pcb_t) : option kctx * option UserContext := (p_krn_ctx v, p_usr_ctx v).

(** What a clock trap does, from the handler to the return to user mode: a
    process that does not run keeps its contexts, the interrupted one has
    saved its own, the next one returns with the context it was suspended in. *)
Record clock_trap (s : kst) (l : list (Z * ptr)) (s' : kst) : Prop := {
  ct_clocked : clocked s' (still_delayed (pcbs s) l);
  ct_queue : cpu_queue s' = rotate1 (cpu_queue s ++ expired (pcbs s) l);
  ct_timing : same_timing (ticked l.*2 (pcbs s)) (pcbs s');
  ct_other : forall p, p <> current_process s -> p <> current_process s' ->
    ctxs <$> pcbs s' !! p = ctxs <$> pcbs s !! p;
  ct_saved : current_process s' <> current_process s ->
    saved_kont s' (current_process s) = Some K_clock /\
    p_usr_ctx <$> pcbs s' !! current_process s = Some (Some (user_context s));
  ct_resumed : forall v uc, current_process s' <> current_process s ->
    pcbs s !! current_process s' = Some v -> p_usr_ctx v = Some uc ->
    exists k, saved_kont s (current_process s') = Some k /\ user_context s' = resumed k uc;
  ct_alone : ready_list s = [] -> l = [] -> user_context s' = user_context s }.

Lemma expires_timing m m' n : same_timing m m' -> expires m' n = expires m n.
Proof.
  intros H. specialize (H n.2). unfold expires. destruct (m' !! n.2), (m !! n.2); try done.
  by injection H as _ _ ->.
Qed.

Lemma expired_timing m m' l :
  same_timing m m' -> expired m' l = expired m l /\ still_delayed m' l = still_delayed m l.
Proof.
  intros H. unfold expired, still_delayed. split; [f_equal|]; apply List.filter_ext; intros n;
    by rewrite (expires_timing m m').
Qed.

Lemma ticked_timing m m' l : same_timing m m' -> same_timing (ticked l m) (ticked l m').
Proof.
  intros H p. rewrite !ticked_lookup. specialize (H p). destruct (m' !! p) as [v'|], (m !! p) as [v|]; try done.
  simpl in *. injection H as E1 E2 E3. f_equal. case_decide; [|unfold timing; congruence].
  unfold timing, tick_pcb. rewrite E3. destruct (_ >? 0); simpl; congruence.
Qed.

#[local] Instance same_timing_trans : Transitive same_timing.
Proof. intros m1 m2 m3 H1 H2 p. by rewrite H2. Qed.

Lemma ticked_ctxs l m p : ctxs <$> ticked l m !! p = ctxs <$> m !! p.
Proof.
  rewrite ticked_lookup. destruct (m !! p) as [v|]; [|done]. simpl. case_decide; [|done].
  unfold tick_pcb. by destruct (_ >? 0).
Qed.

Lemma saved_kont_ctxs s s' p :
  ctxs <$> pcbs s' !! p = ctxs <$> pcbs s !! p -> saved_kont s' p = saved_kont s p.
Proof.
  unfold saved_kont. destruct (pcbs s' !! p), (pcbs s !! p); try done. intros [= E _]. simpl. by rewrite E.
Qed.

(** The handler up to the call of the scheduler. *)
Record clock_counted (s : kst) (l : list (Z * ptr)) (s2 : kst) : Prop := {
  cc_clocked : clocked s2 (still_delayed (pcbs s) l);
  cc_queue : cpu_queue s2 = cpu_queue s ++ expired (pcbs s) l;
  cc_timing : same_timing (ticked l.*2 (pcbs s)) (pcbs s2);
  cc_other : forall p, p <> current_process s -> ctxs <$> pcbs s2 !! p = ctxs <$> pcbs s !! p;
  cc_cur : p_usr_ctx <$> pcbs s2 !! current_process s = Some (Some (user_context s)) }.

Lemma wp_clock_count s l :
  clocked s l -> wp (save_user_context ;;; tick_delayed) (fun _ s2 => clock_counted s l s2) s.
Proof.
  intros Hck. destruct (ck_cur s l Hck) as (v & uc & Hv & Hu & Hur).
  set (v1 := v <| p_usr_ctx := Some (user_context s) |>).
  set (s1 := s <| pcbs := <[current_process s := v1]> (pcbs s) |> <| user_context := user_context s |>).
  assert (Ht : same_timing (pcbs s) (pcbs s1)) by (by apply (timing_insert _ _ v)).
  assert (Hck1 : clocked s1 l).
  { apply clocked_kept; [done| |done|by apply (ck_ctx s l)]. apply (kept_insert _ _ v); [done|].
    split_and!; [done..|]. intros uc0 _ _. eexists. split; [reflexivity|by apply (ck_ctx s l)]. }
  destruct (expired_timing _ _ l Ht) as [Ee Es].
  eapply wp_bind_Ok.
  { unfold save_user_context. erewrite bind_Ok by reflexivity. erewrite bind_Ok by reflexivity.
    unfold Loader.set_user_context. rewrite (bind_Ok _ _ _ _ _ (load_pcb_run _ _ _ Hv)), Hu.
    erewrite bind_Ok by reflexivity. instantiate (1 := s1). reflexivity. }
  eapply wp_mono; [apply (wp_tick_delayed s1 l)|].
  - by apply (ck_delays s1 l).
  - apply (swf_mem s (ck_sched s l Hck)).
  - apply (swf_queue s1 (ck_sched s1 l Hck1)).
  - intros r s2 Hts. destruct (clocked_ticked s1 l s2 Hck1 Hts) as [H1 H2]. rewrite Ee in H2.
    rewrite Es in H1. destruct Hts as (c & j & rq & E & _).
    assert (Ep : pcbs s2 = ticked l.*2 (pcbs s1)) by by rewrite E. split; [done|done|..].
    + rewrite Ep. by apply ticked_timing.
    + intros p Hp. rewrite Ep, ticked_ctxs. unfold s1. simpl. by rewrite lookup_insert_ne.
    + rewrite Ep, ticked_lookup. unfold s1. simpl. rewrite lookup_insert_eq. simpl.
      rewrite decide_False; [done|]. intros Hl. apply (ck_sep s l Hck _ Hl). by left.
Qed.

(** The facts of the three phases together. *)
Lemma clock_trap_combine s l s2 k' s3 v uc v' :
  clocked s l -> clock_counted s l s2 -> clock_switch s2 (still_delayed (pcbs s) l) k' s3 ->
  pcbs s3 !! current_process s3 = Some v -> p_usr_ctx v = Some uc -> kept v v' ->
  timing v' = timing v -> uc_regs (resumed k' uc) <> [] ->
  clock_trap s l (s3 <| pcbs := <[current_process s3 := v']> (pcbs s3) |>
                     <| user_context := resumed k' uc |>).
Proof.
  intros Hck [H2 Hq2 Ht2 Ho2 Hc2] [H3 Hq3 Hkk Ht3 _ Ho3 Hc3 Hs3] Hv Hu Hk' Ht' Hr.
  assert (Ec : current_process s2 = current_process s) by (by injection Hq2).
  rewrite Ec in *. set (s' := s3 <| pcbs := _ |> <| user_context := _ |>).
  assert (Hins : forall p, p <> current_process s3 -> pcbs s' !! p = pcbs s3 !! p)
    by (intros p Hp; by apply lookup_insert_ne).
  assert (Hk : all_kept (pcbs s3) (pcbs s')) by (by apply (kept_insert _ _ v)).
  assert (Ht : same_timing (pcbs s3) (pcbs s')) by (by apply (timing_insert _ _ v)).
  assert (Hnil : ready_list s2 = [] -> current_process s3 = current_process s).
  { intros E. unfold cpu_queue in Hq3. rewrite E, Ec in Hq3. by injection Hq3. }
  assert (Hcur3 : p_usr_ctx <$> pcbs s3 !! current_process s = Some (Some (user_context s))).
  { destruct (pcbs s2 !! current_process s) as [w|]; [|done]. destruct (Hc3 w eq_refl) as (w' & -> & E).
    injection Hc2 as Hc2. simpl. by rewrite E, Hc2. }
  split.
  - by apply clocked_kept.
  - change (cpu_queue s') with (cpu_queue s3). by rewrite Hq3, Hq2.
  - etransitivity; [exact Ht2|]. by etransitivity.
  - intros p Hp Hp'. rewrite Hins, Ho3 by done. by apply Ho2.
  - intros Hne. change (current_process s') with (current_process s3) in Hne.
    destruct (ready_list s2); [by destruct Hne; apply Hnil|]. destruct Hs3 as [Hs3 _]. split.
    + by apply (saved_kont_kept s3).
    + by rewrite Hins.
  - intros w uw. change (current_process s') with (current_process s3). intros Hne Hw Huw.
    destruct (ready_list s2); [by destruct Hne; apply Hnil|]. destruct Hs3 as [_ Hs3].
    assert (E : ctxs <$> pcbs s3 !! current_process s3 = ctxs <$> pcbs s !! current_process s3)
      by (rewrite Ho3 by done; by apply Ho2).
    exists k'. split; [by rewrite <- (saved_kont_ctxs _ _ _ E)|].
    rewrite Hv, Hw in E. injection E as _ E. change (user_context s') with (resumed k' uc). congruence.
  - intros Hrl ->. change (user_context s') with (resumed k' uc).
    assert (Hrl2 : ready_list s2 = []).
    { unfold cpu_queue in Hq2. cbn in Hq2. rewrite Hrl in Hq2. by injection Hq2. }
    rewrite (Hnil Hrl2) in Hv. rewrite Hrl2 in Hs3. subst k'. rewrite Hv in Hcur3. simpl in *. congruence.
Qed.

Lemma clock_trap_run s l :
  clocked s l -> exists s', kernel_entry 1 TRAP_CLOCK s = Ok K_user s' /\ clock_trap s l s'.
Proof.
  intros Hck. destruct (wp_returns _ _ _ (wp_clock_count s l Hck)) as ([] & s2 & E2 & H2).
  destruct (wp_returns _ _ _ (wp_clock_schedule s2 _ (cc_clocked _ _ _ H2))) as (k' & s3 & E3 & H3).
  destruct (ck_cur s3 _ (cs_clocked _ _ _ _ H3)) as (v & uc & Hv & Hu & Hr).
  destruct (clock_resume k' s3 _ v uc (cs_clocked _ _ _ _ H3) (cs_kont _ _ _ _ H3) Hv Hu Hr)
    as (v' & E4 & Hk & Ht & Hr').
  eexists. split; [|exact (clock_trap_combine s l s2 k' s3 v uc v' Hck H2 H3 Hv Hu Hk Ht Hr')].
  unfold kernel_entry. cbn [function_pointers]. unfold TrapClockHandler.
  assert (E : (save_user_context ;;; tick_delayed ;;; ScheduleNextProcess K_clock) s = Ok k' s3).
  { rewrite <- bind_assoc. by rewrite (bind_Ok _ _ _ _ _ E2). }
  rewrite (bind_Ok _ _ _ _ _ E).
  assert (Er : k' <> K_user) by (by destruct (cs_kont _ _ _ _ H3) as [-> | [rc ->]]).
  cbn [run_kernel]. destruct k'; try done; by rewrite (bind_Ok _ _ _ _ _ E4).
Qed.

(** [n] clock traps in a row. *)
Fixpoint clock_ticks (n : nat) : M kst unit :=
  match n with
  | O => ret tt
  | S n' => kernel_entry 1 TRAP_CLOCK ;;; clock_ticks n'
  end.

(** Where a process with a delay of [d] ticks is after [n] of them. *)
Definition delayed_for (s : kst) (l : list (Z * ptr)) (n : Z * ptr) (left_ticks : Z) : Prop :=
  if left_ticks <=? 0 then n.2 ∈ cpu_queue s /\ n ∉ l
  else n ∈ l /\ n.2 ∉ cpu_queue s /\ p_delay_ticks <$> pcbs s !! n.2 = Some left_ticks.

(** One tick, for one delayed process. *)
Lemma clock_trap_delay s l s1 x v :
  clocked s l -> clock_trap s l s1 -> x ∈ l -> pcbs s !! x.2 = Some v ->
  1 <= p_delay_ticks v /\
  if p_delay_ticks v =? 1 then x.2 ∈ cpu_queue s1 /\ x ∉ still_delayed (pcbs s) l
  else x ∈ still_delayed (pcbs s) l /\
       exists v1, pcbs s1 !! x.2 = Some v1 /\ p_delay_ticks v1 = p_delay_ticks v - 1.
Proof.
  intros Hck Hct Hx Hv.
  destruct (delayed_entry s l x (ck_delays s l Hck) Hx) as (v' & Hv' & _ & Ht & Hd & Hex & Hdt & _).
  rewrite Hv in Hv'. injection Hv' as <-. split; [lia|].
  destruct (Z.eqb_spec (p_delay_ticks v) 1) as [E|Hne].
  - assert (Ex : expires (pcbs s) x = true) by (rewrite Hex, E; done). split.
    + rewrite (ct_queue _ _ _ Hct). assert (Hin : x.2 ∈ expired (pcbs s) l).
      { apply list_elem_of_fmap_2, elem_of_filter_bool. done. }
      unfold cpu_queue. cbn [app rotate1]. set_solver.
    + intros [_ H]%elem_of_filter_bool. by rewrite Ex in H.
  - assert (Ex : expires (pcbs s) x = false) by (rewrite Hex; apply Z.leb_gt; lia). split.
    + apply elem_of_filter_bool. by rewrite Ex.
    + destruct (timing_lookup _ _ _ _ (ct_timing _ _ _ Hct) Ht) as (v1 & Hv1 & [= _ _ E]).
      exists v1. split; [done|]. by rewrite E, Hdt.
Qed.

Lemma clock_ticks_run n s l :
  clocked s l -> exists s' l', clock_ticks n s = Ok tt s' /\ clocked s' l' /\
    (forall x v, x ∈ l -> pcbs s !! x.2 = Some v ->
       delayed_for s' l' x (Z.max 0 (p_delay_ticks v - Z.of_nat n))) /\
    (forall p, p ∈ cpu_queue s -> p ∈ cpu_queue s') /\ (forall x, x ∈ l' -> x ∈ l).
Proof.
  revert s l. induction n as [|n IH]; intros s l Hck.
  - exists s, l. split_and!; [done|done| |done|done]. intros x v Hx Hv.
    destruct (delayed_entry s l x (ck_delays s l Hck) Hx) as (v' & Hv' & _ & _ & Hd & _).
    rewrite Hv in Hv'. injection Hv' as <-. unfold delayed_for.
    destruct (Z.leb_spec (Z.max 0 (p_delay_ticks v - Z.of_nat 0)) 0); [lia|].
    split_and!; [done|apply (ck_sep s l Hck); by apply list_elem_of_fmap_2|].
    rewrite Hv. simpl. f_equal. lia.
  - destruct (clock_trap_run s l Hck) as (s1 & E1 & Hct).
    destruct (IH s1 _ (ct_clocked _ _ _ Hct)) as (s' & l' & E & Hck' & Hd & Hq & Hl).
    exists s', l'. split_and!; [|done| | |].
    + cbn [clock_ticks]. by rewrite (bind_Ok _ _ _ _ _ E1).
    + intros x v Hx Hv. destruct (clock_trap_delay s l s1 x v Hck Hct Hx Hv) as [H1 Hx1].
      destruct (Z.eqb_spec (p_delay_ticks v) 1) as [Ed|Hne].
      * unfold delayed_for. rewrite (proj2 (Z.leb_le _ _)) by lia. destruct Hx1. split; [by apply Hq|].
        by intros Hxl%Hl.
      * destruct Hx1 as (Hx1 & v1 & Hv1 & Ev1). specialize (Hd x v1 Hx1 Hv1). rewrite Ev1 in Hd.
        replace (p_delay_ticks v - Z.of_nat (S n)) with (p_delay_ticks v - 1 - Z.of_nat n) by lia. done.
    + intros p Hp. apply Hq. rewrite (ct_queue _ _ _ Hct). unfold cpu_queue in *. cbn [app rotate1].
      set_solver.
    + intros x Hx%Hl. by apply elem_of_filter_bool in Hx as [? _].
Qed.

(** A process suspended by the clock in the context [u]. *)
Definition interrupted (s : kst) (p : ptr) (u : UserContext) : Prop :=
  saved_kont s p = Some K_clock /\ p_usr_ctx <$> pcbs s !! p = Some (Some u).

(** Its turn comes. *)
Lemma clock_ticks_turn pre post p u s :
  clocked s [] -> pre <> [] -> cpu_queue s = pre ++ p :: post -> NoDup (cpu_queue s) ->
  interrupted s p u ->
  exists s', clock_ticks (length pre) s = Ok tt s' /\ cpu_queue s' = p :: post ++ pre /\
    user_context s' = u.
Proof.
  revert post s. induction pre as [|c pre IH]; intros post s Hck Hpre Hq Hnd [Hk Hu]; [done|].
  destruct (clock_trap_run s [] Hck) as (s1 & E1 & Hct).
  pose proof (ct_queue _ _ _ Hct) as Hq1. rewrite Hq in Hq1. cbn in Hq1. rewrite app_nil_r in Hq1.
  assert (Ec : current_process s = c) by (by injection Hq).
  rewrite Hq in Hnd. cbn [app] in Hnd. apply NoDup_cons in Hnd as [Hc Hnd].
  cbn [length clock_ticks]. rewrite (bind_Ok _ _ _ _ _ E1).
  destruct pre as [|c2 pre].
  - assert (Ec1 : current_process s1 = p) by (by injection Hq1).
    exists s1. split_and!; [done|by rewrite Hq1|].
    destruct (pcbs s !! p) as [v|] eqn:Hv; [|done]. injection Hu as Hu.
    destruct (ct_resumed _ _ _ Hct v u) as (k & Hk1 & ->); [|by rewrite Ec1|done|].
    + rewrite Ec1, Ec. intros ->. apply Hc. by left.
    + rewrite Ec1, Hk in Hk1. by injection Hk1 as <-.
  - assert (Ec1 : current_process s1 = c2) by (by injection Hq1).
    assert (Hctx : ctxs <$> pcbs s1 !! p = ctxs <$> pcbs s !! p).
    { apply (ct_other _ _ _ Hct); rewrite ?Ec, ?Ec1; intros ->.
      - apply Hc. apply elem_of_app. right. by left.
      - cbn [app] in Hnd. apply NoDup_cons in Hnd as [Hc2 _]. apply Hc2. apply elem_of_app. right. by left. }
    destruct (IH (post ++ [c]) s1) as (s' & E & Hqs & Hus).
    + apply (ct_clocked _ _ _ Hct).
    + done.
    + rewrite Hq1. cbn [app]. f_equal. by rewrite <- app_assoc.
    + rewrite Hq1. cbn [app] in *. rewrite app_comm_cons. apply NoDup_app. split_and!.
      * done.
      * intros x Hx ->%list_elem_of_singleton. done.
      * apply NoDup_singleton.
    + split; [by rewrite (saved_kont_ctxs _ _ _ Hctx)|].
      destruct (pcbs s1 !! p), (pcbs s !! p); try done. injection Hctx as _ Hctx. simpl in *. congruence.
    + exists s'. split_and!; [done| |done]. rewrite Hqs. cbn [app]. f_equal. by rewrite <- app_assoc.
Qed.

Lemma clock_round s :
  clocked s [] -> NoDup (cpu_queue s) ->
  exists s', clock_ticks (length (cpu_queue s)) s = Ok tt s' /\ cpu_queue s' = cpu_queue s /\
    user_context s' = user_context s.
Proof.
  intros Hck Hnd. destruct (clock_trap_run s [] Hck) as (s1 & E1 & Hct).
  pose proof (ct_queue _ _ _ Hct) as Hq1. cbn in Hq1. rewrite app_nil_r in Hq1.
  change (length (cpu_queue s)) with (S (length (ready_list s))). cbn [clock_ticks].
  rewrite (bind_Ok _ _ _ _ _ E1). destruct (ready_list s) as [|n rest] eqn:Erl.
  - exists s1. split_and!; [done| |by apply (ct_alone _ _ _ Hct)]. by rewrite Hq1; unfold cpu_queue; rewrite Erl.
  - unfold cpu_queue in Hnd. rewrite Erl in Hnd. apply NoDup_cons in Hnd as [Hc Hnd].
    assert (Ec1 : current_process s1 = n) by (by injection Hq1).
    destruct (clock_ticks_turn (n :: rest) [] (current_process s) (user_context s) s1)
      as (s' & E & Hq & Hu); [apply (ct_clocked _ _ _ Hct)|done|exact Hq1| | |].
    + rewrite Hq1. apply NoDup_app. split_and!; [done| |apply NoDup_singleton].
      intros x Hx ->%list_elem_of_singleton. done.
    + apply (ct_saved _ _ _ Hct). rewrite Ec1. intros ->. apply Hc. by left.
    + exists s'. split_and!; [done| |done]. rewrite Hq. unfold cpu_queue. by rewrite Erl.
Qed.
End Clock.

(** ** Properties *)

Section Props.
Context {hw : Hardware}.

(** C23: the loop of the clock handler over the delayed processes is the
    reference tick [spec_tick], done on the PCBs, the set and the ready queue
    at once: every delayed process counts down by one, the expired ones leave
    the set, become READY and join the ready queue in the order of the set,
    and nothing else changes, although the code removes nodes from the list
    it walks. *)
Theorem tick_delayed_spec s l :
  delays_wf s l -> mem_ok s -> is_Some (process_ready_queue s) ->
  exists s', tick_delayed s = Ok tt s' /\
    spec_tick (pcbs s) l =
      (pcbs s', default [] (s_nodes <$> delayed_pcbs s'), drop (length (ready_list s)) (ready_list s')) /\
    take (length (ready_list s)) (ready_list s') = ready_list s /\
    s' = s <| pcbs := pcbs s' |> <| delayed_pcbs := delayed_pcbs s' |> <| mallocs := mallocs s' |>
           <| process_ready_queue := process_ready_queue s' |>.
Proof.
  intros Hd Hm Hq. destruct (wp_returns _ _ _ (wp_tick_delayed s l Hd Hm Hq)) as ([] & s' & E & H).
  exists s'. split; [done|]. destruct H as (c & k & r & -> & Hr). unfold ready_list at 1 3. cbn. rewrite Hr.
  rewrite app_nil_r, drop_app_length, take_app_length. split_and!; [done|done|by kst_eq s].
Qed.

(** C10: a clock trap from a state in which every process that can run was
    suspended by the clock or on its way out of a system call returns to user
    mode after one resumed continuation, in such a state again: the running
    process is at the back of the ready queue, behind the processes whose
    delay has just ended; what did not run keeps its contexts, the
    interrupted process has saved its own, and the next one gets exactly the
    context it was suspended in, with its return value if it was in a system
    call. *)
Theorem clock_trap_returns s l :
  clocked s l -> exists s', kernel_entry 1 TRAP_CLOCK s = Ok K_user s' /\ clock_trap s l s'.
Proof. apply clock_trap_run. Qed.

(** C4: a delay of [d] ticks is over exactly at the [d]-th clock trap: before
    it the process is still delayed, with the remaining ticks, and cannot be
    given the CPU; from then on it is READY, running or in the ready queue. *)
Theorem delay_elapses s l x v n :
  clocked s l -> x ∈ l -> pcbs s !! x.2 = Some v ->
  exists s' l', clock_ticks n s = Ok tt s' /\ clocked s' l' /\
    if Z.of_nat n <? p_delay_ticks v
    then x ∈ l' /\ x.2 ∉ cpu_queue s' /\
         p_delay_ticks <$> pcbs s' !! x.2 = Some (p_delay_ticks v - Z.of_nat n)
    else x ∉ l' /\ x.2 ∈ cpu_queue s' /\ p_state <$> pcbs s' !! x.2 = Some READY.
Proof.
  intros Hck Hx Hv. destruct (clock_ticks_run n s l Hck) as (s' & l' & E & Hck' & Hd & _).
  exists s', l'. split_and!; [done|done|]. specialize (Hd x v Hx Hv). unfold delayed_for in Hd.
  destruct (Z.ltb_spec (Z.of_nat n) (p_delay_ticks v)).
  - rewrite (proj2 (Z.leb_gt _ _)) in Hd by lia. by rewrite Z.max_r in Hd by lia.
  - rewrite (proj2 (Z.leb_le _ _)) in Hd by lia. destruct Hd as [Hq Hl]. split_and!; [done..|].
    pose proof (ck_ready s' l' Hck') as Hr. unfold all_ready in Hr. rewrite Forall_forall in Hr. by apply Hr.
Qed.

(** C2: preemption is transparent: with nobody delayed, after one clock trap
    for each process in the round the interrupted process runs again, with
    the ready queue as it was and with exactly the user context (program
    counter, stack pointer, registers) it was first interrupted in. *)
Theorem preemption_transparent s :
  clocked s [] -> NoDup (cpu_queue s) ->
  exists s', clock_ticks (length (cpu_queue s)) s = Ok tt s' /\ cpu_queue s' = cpu_queue s /\
    user_context s' = user_context s.
Proof. apply clock_round. Qed.
End Props.

(** ** Witnesses on the demo machine *)
Section Witnesses.
Import DemoHardware Demo.

Lemma demo_resumable p pid ctx pfn k s :
  clock_kont k -> pcbs s !! p = Some (demo_proc pid ctx pfn k) -> resumable s p.
Proof.
  intros Hk Hv. split.
  - exists (demo_proc pid ctx pfn k), no_ctx. split_and!; [exact Hv|done|done].
  - exists k. unfold saved_kont. rewrite Hv. done.
Defined.

Lemma demo_clocked : clocked demo_sched [].
Proof.
  split.
  - exact demo_sched_wf.
  - repeat constructor.
  - constructor; [|constructor]. apply (demo_resumable 24 2 48 24 (K_syscall 5)); [right; by exists 5|done].
  - exists (demo_proc 1 44 22 K_user), no_ctx. done.
  - done.
  - split; [by eexists|constructor..].
  - constructor.
  - intros p Hp. by apply not_elem_of_nil in Hp.
Defined.

(** A fourth process, delayed for two more ticks. *)
Definition demo_sleeper : pcb_t :=
  demo_proc 3 52 26 (K_syscall 0) <| p_state := DELAYED |> <| p_delay_ticks := 2 |>.
Definition demo_delayed : kst := demo_sched
  <| pcbs ::= <[28 := demo_sleeper]> |> <| delayed_pcbs := Some (mk_set [(3, 28)] 1) |>.

Lemma demo_delays : delays_wf demo_delayed [(3, 28)].
Proof.
  split.
  - by eexists.
  - apply NoDup_singleton.
  - apply NoDup_singleton.
  - constructor; [|constructor]. split_and!; [simpl; lia|done|]. exists demo_sleeper.
    split_and!; [done|done|simpl; lia|simpl; unfold INT_MAX; lia].
Defined.

Lemma demo_delayed_clocked : clocked demo_delayed [(3, 28)].
Proof.
  assert (Hk : all_kept (pcbs demo_sched) (pcbs demo_delayed)).
  { intros p v Hv. exists v. split; [|apply kept_refl]. change (pcbs demo_delayed) with (<[28 := demo_sleeper]> (pcbs demo_sched)).
    rewrite lookup_insert_ne; [done|]. intros <-. by vm_compute in Hv. }
  split.
  - apply (sched_wf_kept demo_sched); try done; [exact demo_sched_wf| |exact (swf_ready _ demo_sched_wf)].
    intros v v' E _ _. assert (Hst : p_state <$> pcbs demo_sched !! 20 = Some READY) by reflexivity.
    change (current_process demo_sched) with 20 in E. rewrite E in Hst. by injection Hst.
  - repeat constructor.
  - constructor; [|constructor]. apply (demo_resumable 24 2 48 24 (K_syscall 5)); [right; by exists 5|done].
  - exists (demo_proc 1 44 22 K_user), no_ctx. done.
  - done.
  - exact demo_delays.
  - constructor; [|constructor]. split.
    + split_and!; [done|apply demo_kptr; simpl; lia|]. eexists demo_sleeper, _, _, _.
      split_and!; [done|done|apply (demo_kptr 52); lia|done..].
    + split; [exists demo_sleeper, no_ctx; done|]. exists (K_syscall 0). split; [done|right; by exists 0].
  - intros p ->%list_elem_of_singleton. vm_compute. intros H. set_solver.
Defined.

Lemma tick_delayed_spec_witness :
  exists s', tick_delayed demo_delayed = Ok tt s' /\ take 1 (ready_list s') = [24].
Proof.
  destruct (tick_delayed_spec demo_delayed [(3, 28)] demo_delays (demo_mem_ok demo_delayed eq_refl)
    (ex_intro _ _ eq_refl)) as (s' & E & _ & H & _).
  exact (ex_intro _ s' (conj E H)).
Defined.

Lemma clock_trap_returns_witness :
  exists s', kernel_entry 1 TRAP_CLOCK demo_delayed = Ok K_user s' /\ cpu_queue s' = [24; 20].
Proof.
  destruct (clock_trap_returns demo_delayed [(3, 28)] demo_delayed_clocked) as (s' & E & H).
  exact (ex_intro _ s' (conj E (ct_queue _ _ _ H))).
Defined.

Lemma delay_elapses_witness :
  exists s' l', clock_ticks 2 demo_delayed = Ok tt s' /\ clocked s' l' /\ (3, 28) ∉ l' /\
    28 ∈ cpu_queue s' /\ p_state <$> pcbs s' !! 28 = Some READY.
Proof.
  exact (delay_elapses demo_delayed [(3, 28)] (3, 28) demo_sleeper 2 demo_delayed_clocked
    ltac:(by left) eq_refl).
Defined.

Lemma preemption_transparent_witness :
  exists s', clock_ticks 2 demo_sched = Ok tt s' /\ cpu_queue s' = [20; 24] /\
    user_context s' = user_context demo_sched.
Proof.
  apply (preemption_transparent demo_sched demo_clocked). by apply (bool_decide_unpack _).
Defined.
End Witnesses.
