(* ===== verification/Delay.v ===== *)
(** * The delay system call, end to end

    [TrapKernelHandler] ([traps.c]) with code [YALNIX_DELAY], [DelayHandler]
    ([process_coordination.c]), the scheduler, and the clock traps that follow.

    Main result: the caller of [Delay(n)] leaves the CPU to the next ready
    process, does not run during the next [n - 1] clock ticks, and is ready
    again after the [n]-th. *)

From S2P Require Import Prelude Hardware Containers KState Memory Pcb Sched Process Loader Traps Clock.
From stdpp Require Import list gmap fin_maps.

#[local] Open Scope Z_scope.

Section Switch.
Context {hw : Hardware}.

(** A DELAYED process that leaves the CPU is put in the set of delayed
    processes. *)
Lemma schedule_delays k v d s :
  pcbs s !! current_process s = Some v -> p_state v = DELAYED -> current_process s <> NULL ->
  delayed_pcbs s = Some d -> 0 <= p_pid v -> key_lookup (p_pid v) (s_nodes d) = None -> mem_ok s ->
  ready_list s <> [] ->
  wlp (ScheduleNextProcess k) (fun _ s' => delayed_pcbs s' =
    Some (mk_set ((p_pid v, current_process s) :: s_nodes d) (s_node_count d + 1))) s.
Proof.
  intros Hv Hst Hc Hd Hp Hk Hm Hr. unfold ScheduleNextProcess, ready_list in *.
  destruct (process_ready_queue s) as [q|] eqn:Hq; [|done].
  destruct (q_data q) as [|n rest] eqn:Ed; [done|].
  apply wp_bind, wp_pop_from. rewrite Hq.
  destruct (spec_queue_pop_cons q _ _ Ed) as (q2 & -> & _). cbn [fst snd].
  set (s1 := s <| process_ready_queue := Some q2 |>).
  apply wp_bind, wlp_load_pcb. intros w _. apply wp_bind, wp_gets, wp_bind.
  apply (wp_mono _ (fun _ s' => s' = s1)).
  { destruct (_ =? NULL); [done|]. apply wp_bind, wlp_load_pcb. by intros. }
  intros _ s2 ->. apply wp_bind.
  assert (Ee : enqueue_current_process s1 = Ok tt (s1 <| mallocs ::= S |>
    <| delayed_pcbs := Some (mk_set ((p_pid v, current_process s) :: s_nodes d) (s_node_count d + 1)) |>)).
  { unfold enqueue_current_process. erewrite bind_Ok by reflexivity. change (current_process s1) with (current_process s).
    rewrite (proj2 (Z.eqb_neq _ _) Hc), (bind_Ok _ _ _ _ _ (load_pcb_run _ v s1 Hv)), Hst. cbn [Z.eqb READY DEAD BLOCKED DELAYED Pos.eqb].
    erewrite bind_Ok by (eapply (insert_into_run delayed_pcbs d);
      [exact Hd|cbn; rewrite Hd; unfold insert_allocates; rewrite Hk, (proj2 (Z.ltb_ge _ _) Hp);
       change (is_null (current_process s)) with (current_process s =? NULL); by rewrite (proj2 (Z.eqb_neq _ _) Hc)
      |apply Hm]).
    done. }
  eapply wp_eq; [exact Ee|]. eapply wp_mono; [apply switch_to_delayed|]. simpl. by intros ? s3 ->.
Qed.

(** What the running process needs to go to sleep for [n] ticks. *)
Record can_delay (s : kst) (l : list (Z * ptr)) (v : pcb_t) (n : Z) (next : ptr) (rest : list ptr) : Prop := {
  cd_clocked : clocked s l;
  cd_code : uc_code (user_context s) = YALNIX_DELAY;
  cd_reg : arr_get (uc_regs (user_context s)) 0 = Some n;
  cd_ticks : 1 <= n <= INT_MAX;
  cd_cur : pcbs s !! current_process s = Some v;
  cd_pid : 0 <= p_pid v /\ p_pid v ∉ l.*1;
  cd_next : ready_list s = next :: rest;
  cd_once : current_process s ∉ ready_list s }.

(** The caller's PCB when it calls the scheduler. *)
Definition sleeper (v : pcb_t) (uc : UserContext) (n : Z) : pcb_t :=
  v <| p_usr_ctx := Some uc |> <| p_delay_ticks := n |> <| p_state := DELAYED |>.

Lemma syscall_delay uc n s :
  uc_code uc = YALNIX_DELAY -> arr_get (uc_regs uc) 0 = Some n -> syscall uc s = DelayHandler (wrap32 n) s.
Proof.
  intros Hc Hr. unfold syscall, reg. rewrite Hc, Hr. pose proof hw_syscalls as H.
  apply (NoDup_app [_; _; _; _; _; _] (YALNIX_DELAY :: _)) in H as (_ & H & _).
  assert (Hne : forall c, c ∈ [YALNIX_FORK; YALNIX_EXEC; YALNIX_EXIT; YALNIX_WAIT; YALNIX_GETPID; YALNIX_BRK] ->
    (YALNIX_DELAY =? c) = false).
  { intros c Hin. apply Z.eqb_neq. intros <-. apply (H _ Hin). by left. }
  rewrite !Hne by (repeat first [by left | right]). by rewrite Z.eqb_refl.
Qed.

(** The handler up to the call of the scheduler. *)
Definition asleep (s : kst) (v : pcb_t) (n : Z) : kst :=
  s <| pcbs := <[current_process s := sleeper v (user_context s) n]> (pcbs s) |>.

Lemma kernel_delay_run s l v n next rest :
  can_delay s l v n next rest ->
  TrapKernelHandler s = ScheduleNextProcess (K_syscall 0) (asleep s v n).
Proof.
  intros [Hck Hc Hr Hn Hv Hp Hq Ho]. unfold TrapKernelHandler, save_user_context.
  destruct (ck_cur s l Hck) as (w & uc & Hw & Hu & _). rewrite Hv in Hw. injection Hw as <-.
  erewrite bind_Ok by reflexivity. rewrite bind_assoc. erewrite bind_Ok by reflexivity.
  rewrite bind_assoc. erewrite bind_Ok by reflexivity.
  unfold Loader.set_user_context. rewrite bind_assoc, (bind_Ok _ _ _ _ _ (load_pcb_run _ _ _ Hv)), Hu.
  rewrite bind_assoc. erewrite bind_Ok by reflexivity. erewrite bind_Ok by reflexivity.
  rewrite (syscall_delay _ n) by done. unfold DelayHandler.
  rewrite wrap32_id by (unfold INT_MIN, INT_MAX in *; lia).
  rewrite (proj2 (Z.eqb_neq _ _)), (proj2 (Z.ltb_ge _ _)) by lia.
  erewrite bind_Ok by reflexivity. erewrite bind_Ok by (apply upd_pcb_run, lookup_insert_eq).
  f_equal. unfold asleep. kst_eq s. by rewrite insert_insert_eq.
Qed.

Lemma asleep_sched_wf s l v n next rest :
  can_delay s l v n next rest -> sched_wf (asleep s v n).
Proof.
  intros H. pose proof (cd_clocked _ _ _ _ _ _ H) as Hck. pose proof (ck_sched s l Hck) as Hwf.
  apply (sched_wf_kept s); try done; [| |apply (swf_queue s Hwf)|apply (swf_ready s Hwf)].
  - apply (kept_insert _ _ v); [apply (cd_cur _ _ _ _ _ _ H)|]. split_and!; [done..|]. intros uc _ _.
    exists (user_context s). split; [done|apply (ck_ctx s l Hck)].
  - unfold asleep. cbn. intros v1 v' _ E. rewrite lookup_insert_eq in E. by injection E as <-.
Qed.

(** [s2] is [s] once the scheduler gave the CPU of the sleeper to [next]. *)
Record slept (s : kst) (l : list (Z * ptr)) (v : pcb_t) (n : Z) (next : ptr) (rest : list ptr)
    (k' : kont) (s2 : kst) : Prop := {
  sl_cur : current_process s2 = next;
  sl_queue : ready_list s2 = rest;
  sl_wf : sched_wf s2;
  sl_disp : dispatched (K_syscall 0) next (asleep s v n) s2 k';
  sl_user : user_context s2 = user_context s;
  sl_set : exists d, delayed_pcbs s2 = Some d /\ s_nodes d = (p_pid v, current_process s) :: l;
  sl_other : forall p, p <> current_process s -> pcbs s2 !! p = pcbs s !! p;
  sl_own : proc_ok s2 (current_process s) /\ saved_kont s2 (current_process s) = Some (K_syscall 0) /\
    has_ctx (pcbs s2) (current_process s) /\
    timing <$> pcbs s2 !! current_process s = Some (DELAYED, p_pid v, n) }.

(** The sleeper once its context is saved. *)
Lemma asleep_switched s l v n next rest stack s2 :
  can_delay s l v n next rest -> length stack = 2%nat -> same_heap_pages s s2 ->
  pcbs s2 = alter (switched_out (K_syscall 0) stack) (current_process s) (pcbs (asleep s v n)) ->
  proc_ok s2 (current_process s) /\ saved_kont s2 (current_process s) = Some (K_syscall 0) /\
  has_ctx (pcbs s2) (current_process s) /\
  timing <$> pcbs s2 !! current_process s = Some (DELAYED, p_pid v, n).
Proof.
  intros H Hl Hsame Em. pose proof (cd_clocked _ _ _ _ _ _ H) as Hck. pose proof (cd_cur _ _ _ _ _ _ H) as Hv.
  destruct (swf_cur s (ck_sched s l Hck)) as (H0 & Ha & w & Hw & _ & Hrd).
  rewrite Hv in Hw. injection Hw as <-. pose proof (ck_ready s l Hck) as [Hr _]%Forall_cons.
  rewrite Hv in Hr. injection Hr as Hr. destruct (Hrd Hr) as (c & Ec & Hca & [ks Ek]).
  assert (E : pcbs s2 !! current_process s = Some (sleeper v (user_context s) n
    <| p_krn_ctx := Some (mk_kctx (kc_addr c) (Some (K_syscall 0))) |> <| p_kernel_stack_pages := Some stack |>)).
  { rewrite Em. cbn. rewrite lookup_alter_eq, lookup_insert_eq. cbn. unfold switched_out, sleeper. cbn.
    by rewrite Ec, Ek. }
  split_and!.
  - split_and!; [done|by apply (kptr_ok_same s)|]. eexists _, _, _, _.
    split_and!; [exact E|done|by apply (kptr_ok_same s)|done..].
  - unfold saved_kont. by rewrite E.
  - eexists _, _. split_and!; [exact E|done|apply (ck_ctx s l Hck)].
  - by rewrite E.
Qed.

Lemma wp_sleep s l v n next rest :
  can_delay s l v n next rest -> wp TrapKernelHandler (slept s l v n next rest) s.
Proof.
  intros H. pose proof H as [Hck _ _ _ Hv [Hp0 Hp] Hq Ho]. set (s1 := asleep s v n).
  pose proof (asleep_sched_wf _ _ _ _ _ _ H) as Hwf.
  assert (Hv1 : pcbs s1 !! current_process s1 = Some (sleeper v (user_context s) n)) by apply lookup_insert_eq.
  pose proof (wp_schedule (K_syscall 0) s1 _ Hwf Hv1) as Hs. cbv zeta in Hs.
  change (ready_list s1) with (ready_list s) in Hs. rewrite Hq in Hs. cbn in Hs.
  destruct (wp_returns _ _ _ Hs) as (k' & s2 & E & Ec & Er & Hwf2 & Hd). clear Hs.
  rewrite app_nil_r in Er.
  eapply wp_eq; [rewrite (kernel_delay_run _ _ _ _ _ _ H); exact E|].
  pose proof (preserves_Ok _ _ _ _ _ (schedule_untouched (K_syscall 0)) E) as [= Eu _ _ _ _ _].
  destruct (dw_set s l (ck_delays s l Hck)) as (d & Ed & El). pose proof Hd as (_ & _ & Em & Hsame).
  assert (Hset : delayed_pcbs s2 = Some (mk_set ((p_pid v, current_process s) :: s_nodes d) (s_node_count d + 1))).
  { refine (wp_Ok _ _ _ _ _ (schedule_delays (K_syscall 0) _ d s1 Hv1 eq_refl _ Ed Hp0 _ (swf_mem s1 Hwf) _) E).
    - apply (swf_cur s (ck_sched s l Hck)).
    - rewrite El. by apply key_lookup_None.
    - change (ready_list s <> []). by rewrite Hq. }
  split; try done.
  - eexists. split; [exact Hset|]. cbn. by rewrite El.
  - intros p Hne. rewrite Em, lookup_alter_ne by done. by apply lookup_insert_ne.
  - eapply asleep_switched; [exact H| |exact Hsame|exact Em].
    apply stack_entries_length, (swf_r0 s1 Hwf).
Qed.

(** What only depends on the PCB of [p]. *)
Lemma same_pcb s s2 p :
  same_heap_pages s s2 -> pcbs s2 !! p = pcbs s !! p ->
  (proc_ok s p -> proc_ok s2 p) /\ (resumable s p -> resumable s2 p).
Proof.
  intros Hsame Hp. split; [intros Hok; by apply (proc_ok_same s)|].
  intros [(v & uc & Hv & Hc) (k & Hk & Hck)]. split.
  - exists v, uc. by rewrite Hp.
  - exists k. split; [|done]. unfold saved_kont in *. by rewrite Hp.
Qed.

Lemma slept_delays s l v n next rest k' s2 :
  can_delay s l v n next rest -> slept s l v n next rest k' s2 ->
  delays_wf s2 ((p_pid v, current_process s) :: l).
Proof.
  intros [Hck _ _ Hn Hv [Hp0 Hp] Hq Ho] [_ _ _ _ _ Hset Hoth (_ & _ & _ & Ht)].
  pose proof (ck_delays s l Hck) as [_ Hk Hps Hf].
  assert (Hc : current_process s ∉ l.*2) by (intros Hc; eapply (ck_sep s l Hck); [exact Hc|by left]).
  split; [done|by apply NoDup_cons|by apply NoDup_cons|]. constructor.
  - split_and!; [done|apply (swf_cur s (ck_sched s l Hck))|].
    destruct (pcbs s2 !! current_process s) as [w|] eqn:Hw; [|done]. injection Ht as _ E1 E2.
    exists w. cbn [fst]. rewrite E1, E2. done.
  - eapply Forall_impl; [apply Forall_and; split; [exact Hf|]|].
    { apply Forall_forall. intros x Hx. exact (list_elem_of_fmap_2 snd l x Hx). }
    intros x ((H0 & H1 & w & Hw & Hd) & Hx). split_and!; [done..|]. exists w.
    rewrite Hoth; [done|]. intros E. apply Hc. by rewrite <- E.
Qed.

Lemma slept_clocked s l v n next rest k' s2 :
  can_delay s l v n next rest -> slept s l v n next rest k' s2 ->
  clocked s2 ((p_pid v, current_process s) :: l) /\ clock_kont k'.
Proof.
  intros H Hsl. pose proof (slept_delays _ _ _ _ _ _ _ _ H Hsl) as Hd2.
  destruct H as [Hck _ _ _ Hv _ Hq Ho].
  destruct Hsl as [Ec Er Hwf2 (_ & Hk' & _ & Hsame) Eu _ Hoth (Hok & Hsk & Hctx & _)].
  pose proof Hck as [Hwf Hrd Hp _ Hu Hd Hb Hs].
  assert (Hne : forall p, p ∈ ready_list s -> pcbs s2 !! p = pcbs s !! p).
  { intros p Hin. apply Hoth. by intros ->. }
  assert (Hcpu : cpu_queue s2 = ready_list s) by (unfold cpu_queue; by rewrite Ec, Er, Hq).
  assert (Hres : Forall (resumable s2) (next :: rest)).
  { rewrite <- Hq. apply Forall_forall. intros p Hin. rewrite Forall_forall in Hp.
    apply (same_pcb s); [done|by apply Hne|by apply Hp]. }
  apply Forall_cons in Hres as [[Hn1 (k & Hk & Hkk)] Hrest]. split.
  2:{ rewrite Hk' in Hk. by injection Hk as ->. }
  apply Forall_cons in Hrd as [_ Hrd]. split; try done.
  - unfold all_ready. rewrite Hcpu. apply Forall_forall. intros p Hin. rewrite Forall_forall in Hrd.
    rewrite Hne by done. by apply Hrd.
  - by rewrite Er.
  - by rewrite Ec.
  - by rewrite Eu.
  - constructor.
    + split; [done|]. split; [done|]. exists (K_syscall 0). split; [done|right; by exists 0].
    + apply Forall_forall. intros x Hx. rewrite Forall_forall in Hb. destruct (Hb x Hx).
      assert (Hxc : pcbs s2 !! x.2 = pcbs s !! x.2).
      { apply Hoth. intros E. apply (Hs x.2); [by apply list_elem_of_fmap_2|]. rewrite E. by left. }
      split; by apply (same_pcb s).
  - intros p. rewrite Hcpu. intros [->|Hpl]%elem_of_cons; [done|].
    intros Hin. apply (Hs p Hpl). by right.
Qed.

(** The system call, from the trap to the return of the next process to user
    mode. *)
Lemma delay_run s l v n next rest :
  can_delay s l v n next rest ->
  exists s1, kernel_entry 1 TRAP_KERNEL s = Ok K_user s1 /\
    clocked s1 ((p_pid v, current_process s) :: l) /\
    cpu_queue s1 = ready_list s /\ saved_kont s1 (current_process s) = Some (K_syscall 0) /\
    timing <$> pcbs s1 !! current_process s = Some (DELAYED, p_pid v, n).
Proof.
  intros H. destruct (wp_returns _ _ _ (wp_sleep _ _ _ _ _ _ H)) as (k' & s2 & E & Hsl).
  destruct (slept_clocked _ _ _ _ _ _ _ _ H Hsl) as [Hck Hkk].
  destruct (ck_cur _ _ Hck) as (w & uc & Hw & Hu & Hr).
  destruct (clock_resume k' s2 _ w uc Hck Hkk Hw Hu Hr) as (w' & E2 & Hk & Ht & Hr').
  assert (Hne : current_process s <> current_process s2).
  { rewrite (sl_cur _ _ _ _ _ _ _ _ Hsl). intros Ee. apply (cd_once _ _ _ _ _ _ H).
    rewrite (cd_next _ _ _ _ _ _ H), Ee. by left. }
  destruct (sl_own _ _ _ _ _ _ _ _ Hsl) as (_ & Hsk & _ & Htm).
  eexists. split; [|split_and!].
  - unfold kernel_entry. cbn [function_pointers]. rewrite (bind_Ok _ _ _ _ _ E).
    assert (Er : k' <> K_user) by (by destruct Hkk as [-> | [rc ->]]).
    cbn [run_kernel]. destruct k'; try done; rewrite (bind_Ok _ _ _ _ _ E2); reflexivity.
  - apply clocked_kept; [done|by eapply kept_insert|by eapply timing_insert|done].
  - unfold cpu_queue. cbn. change (current_process s2 :: ready_list s2 = ready_list s).
    by rewrite (sl_cur _ _ _ _ _ _ _ _ Hsl), (sl_queue _ _ _ _ _ _ _ _ Hsl), (cd_next _ _ _ _ _ _ H).
  - unfold saved_kont in *. cbn. by rewrite lookup_insert_ne by done.
  - cbn. by rewrite lookup_insert_ne by done.
Qed.
End Switch.

Section Props.
Context {hw : Hardware}.

(** C3: [Delay(n)] from end to end: the system call takes the caller off the
    CPU, which goes to the next ready process, and will return 0 to it; during
    the next [n - 1] clock traps the caller can not run, and from the [n]-th
    on it is READY and running or in the ready queue. *)
Theorem Delay_sleeps s l v n next rest m :
  can_delay s l v n next rest ->
  exists s1, kernel_entry 1 TRAP_KERNEL s = Ok K_user s1 /\
    cpu_queue s1 = ready_list s /\ saved_kont s1 (current_process s) = Some (K_syscall 0) /\
    exists s2, clock_ticks m s1 = Ok tt s2 /\
      if Z.of_nat m <? n then current_process s ∉ cpu_queue s2
      else current_process s ∈ cpu_queue s2 /\ p_state <$> pcbs s2 !! current_process s = Some READY.
Proof.
  intros H. destruct (delay_run _ _ _ _ _ _ H) as (s1 & E & Hck & Hq & Hk & Ht).
  exists s1. split_and!; [done..|].
  destruct (clock_ticks_run m s1 _ Hck) as (s2 & l' & E2 & Hck2 & Hd & _). exists s2. split; [done|].
  destruct (pcbs s1 !! current_process s) as [w|] eqn:Hw; [|done]. injection Ht as _ _ Et.
  specialize (Hd (p_pid v, current_process s) w ltac:(by left) Hw). rewrite Et in Hd.
  unfold delayed_for in Hd. cbn [snd] in Hd. destruct (Z.ltb_spec (Z.of_nat m) n).
  - rewrite (proj2 (Z.leb_gt _ _)) in Hd by lia. apply Hd.
  - rewrite (proj2 (Z.leb_le _ _)) in Hd by lia. destruct Hd as [Hin _]. split; [done|].
    pose proof (ck_ready s2 l' Hck2) as Hr. unfold all_ready in Hr. rewrite Forall_forall in Hr. by apply Hr.
Qed.
End Props.

(** ** Witness on the demo machine *)
Section Witnesses.
Import DemoHardware Demo.

(** Process 1 calls [Delay(2)] while process 2 is ready. *)
Definition demo_call : kst := demo_sched <| pcbs := pcbs demo_sched |>
  <| user_context := no_ctx <| uc_code := YALNIX_DELAY |> <| uc_regs := [2; 0; 0] |> |>.

Lemma demo_can_delay : can_delay demo_call [] (demo_proc 1 44 22 K_user) 2 24 [].
Proof.
  split; try done.
  - apply clocked_kept; [exact demo_clocked| |done|done]. intros p v Hv. exists v. split; [done|apply kept_refl].
  - split; [simpl; lia|apply not_elem_of_nil].
  - by apply (bool_decide_unpack _).
Defined.

Lemma Delay_sleeps_witness :
  exists s1, kernel_entry 1 TRAP_KERNEL demo_call = Ok K_user s1 /\ cpu_queue s1 = [24] /\
    saved_kont s1 20 = Some (K_syscall 0) /\
    exists s2, clock_ticks 2 s1 = Ok tt s2 /\ 20 ∈ cpu_queue s2 /\ p_state <$> pcbs s2 !! 20 = Some READY.
Proof. exact (Delay_sleeps demo_call [] (demo_proc 1 44 22 K_user) 2 24 [] 2 demo_can_delay). Defined.
End Witnesses.
