(* ===== verification/TtyInvariant.v ===== *)
(** * The shape of the terminal state ([tty_state.c], [input_output.c], [traps.c])

    [tty_wf] is the type of a [tty_state_t] C cannot express: one entry per
    terminal in each of the six arrays, buffers of [TERMINAL_MAX_LINE] bytes,
    and between 0 and [TERMINAL_MAX_LINE] unread bytes in each.

    Main result: [tty_state_init] builds such a state or fails, and every
    operation on terminals keeps it, whatever its arguments, the scheduler and
    the other processes do in between. *)

From S2P Require Import Prelude Hardware Containers KState Memory Pcb Sched Ipc Pipe Tty Process.
From S2P Require Import Fork Loader Traps.
From stdpp Require Import list gmap fin_maps.
From Stdlib Require Import Strings.Byte.

#[local] Open Scope Z_scope.

Section Defs.
Context {hw : Hardware}.

Definition tty_inv (s : kst) : Prop := forall t, current_tty_state s = Some t -> tty_wf t.

(** The operations on terminals: what the traps and the system calls run, and
    what they go on with when a suspended call gets the CPU back. *)
Inductive tty_op :=
| Op_receive (line : list byte)                          (* TrapTTYReceiveHandler *)
| Op_transmit                                            (* TrapTTYTransmitHandler *)
| Op_read (tty_id : Z) (buf : ptr) (len : Z)             (* TtyReadHandler *)
| Op_read_resume (tty_id : Z) (buf : ptr)
| Op_write (tty_id : Z) (buf : ptr) (len : Z)            (* TtyWriteHandler *)
| Op_write_retry (tty_id : Z) (buf : ptr) (len : Z)
| Op_write_chunk (tty_id : Z) (bs : list byte) (len start_byte : Z).

Definition run_tty_op (o : tty_op) : M kst kont :=
  match o with
  | Op_receive line => TrapTTYReceiveHandler line
  | Op_transmit => TrapTTYTransmitHandler
  | Op_read i buf len => TtyReadHandler i buf len
  | Op_read_resume i buf => tty_read_resume i buf
  | Op_write i buf len => TtyWriteHandler i buf len
  | Op_write_retry i buf len => tty_write_loop i buf len
  | Op_write_chunk i bs len start => tty_chunk_resume i bs len start
  end.

Fixpoint run_tty_ops (l : list tty_op) : M kst unit :=
  match l with
  | [] => ret tt
  | o :: l' => run_tty_op o ;;; run_tty_ops l'
  end.
End Defs.

Section Stable.
Context {hw : Hardware}.

Definition stable {A} (m : M kst A) : Prop := forall s, tty_inv s -> wlp m (fun _ s' => tty_inv s') s.

Lemma stable_bind {A B} (m : M kst A) (f : A -> M kst B) :
  stable m -> (forall a, stable (f a)) -> stable (bind m f).
Proof.
  intros Hm Hf s Hs. apply wp_bind. eapply wp_mono; [by apply Hm|]. intros a s' Hs'. by apply Hf.
Qed.

(** A step with a result the rest depends on. *)
Lemma stable_bind_val {A B} (P : A -> Prop) (m : M kst A) (f : A -> M kst B) :
  (forall s, tty_inv s -> wlp m (fun a s' => s' = s /\ P a) s) ->
  (forall a, P a -> stable (f a)) -> stable (bind m f).
Proof.
  intros Hm Hf s Hs. apply wp_bind. eapply wp_mono; [by apply Hm|]. intros a s' [-> Ha]. by apply Hf.
Qed.

Lemma stable_frame {A} (m : M kst A) : preserves current_tty_state m -> stable m.
Proof.
  intros H s Hs. eapply wp_mono; [apply H|]. simpl. intros _ s' E t Ht. apply Hs. by rewrite <- E.
Qed.

Lemma stable_demand {A B} (o : option A) (f : A -> M kst B) :
  (forall a, o = Some a -> stable (f a)) -> stable (bind (demand o) f).
Proof.
  intros H. apply (stable_bind_val (fun a => o = Some a)); [|done]. intros s _. by destruct o.
Qed.

(** ** The frame of the steps that do not touch terminals *)

Lemma schedule_tty k : preserves current_tty_state (ScheduleNextProcess k).
Proof.
  intros s. eapply wp_mono; [apply (schedule_untouched k s)|]. by intros _ s' [= _ E _ _ _ _].
Qed.

Ltac frame_tty :=
  first [apply schedule_tty |
    unfold tty_get, the_tty, wake, upd_pcb, take_from, user_addr_ok, current_pid, store_user, load_user, trap_end,
      restore_user_context;
    unfold_sched;
    preserve; first [apply preserves_malloc; reflexivity | apply schedule_tty]].

(** ** Stores into the arrays *)

Lemma stable_tty_set {A} (arr : tty_state_t -> list A) `{!Setter arr} i x :
  (forall t, tty_wf t -> tty_wf (t <| arr := <[Z.to_nat i := x]> (arr t) |>)) ->
  stable (tty_set arr i x).
Proof.
  intros H s Hs. unfold tty_set, the_tty. apply wp_bind, wp_bind, wp_gets, wlp_demand. intros t Ht.
  apply wp_bind, wlp_demand. intros l [_ ->]%arr_set_inv. apply wp_modify.
  intros t' [= <-]. by apply H, Hs.
Qed.

Ltac tty_fields := intros t []; split; simpl; rewrite ?length_insert; try done; by apply Forall_insert.

Lemma stable_set_queues i x : stable (tty_set write_queues i x).
Proof. apply stable_tty_set. tty_fields. Qed.
Lemma stable_set_avail i x : stable (tty_set availability i x).
Proof. apply stable_tty_set. tty_fields. Qed.
Lemma stable_set_writers i x : stable (tty_set curr_writers i x).
Proof. apply stable_tty_set. tty_fields. Qed.
Lemma stable_set_readers i x : stable (tty_set curr_readers i x).
Proof. apply stable_tty_set. tty_fields. Qed.
Lemma stable_set_buffers i b : Z.of_nat (length b) = TERMINAL_MAX_LINE -> stable (tty_set buffers i b).
Proof. intros H. apply stable_tty_set. tty_fields. Qed.
Lemma stable_set_bytes i n : 0 <= n <= TERMINAL_MAX_LINE -> stable (tty_set bytes_available i n).
Proof. intros H. apply stable_tty_set. tty_fields. Qed.

Lemma stable_get {A B} (P : A -> Prop) (arr : tty_state_t -> list A) i (f : A -> M kst B) :
  (forall t, tty_wf t -> Forall P (arr t)) -> (forall x, P x -> stable (f x)) ->
  stable (x <- tty_get arr i ;; f x).
Proof.
  intros HP. apply stable_bind_val. intros s Hs. unfold tty_get, the_tty.
  apply wp_bind, wp_bind, wp_gets, wlp_demand. intros t Ht. apply wlp_demand. intros x Hx.
  split; [done|]. apply arr_get_Some in Hx as [_ Hx]. by eapply Forall_lookup_1; [apply HP, Hs|].
Qed.

Definition stable_get_buffer {B} i (f : list byte -> M kst B) :=
  stable_get (fun b => Z.of_nat (length b) = TERMINAL_MAX_LINE) buffers i f tw_line.
Definition stable_get_bytes {B} i (f : Z -> M kst B) :=
  stable_get (fun n => 0 <= n <= TERMINAL_MAX_LINE) bytes_available i f tw_count.

Lemma splice_length buf off bs buf' : splice buf off bs = Some buf' -> length buf' = length buf.
Proof.
  unfold splice. destruct ((0 <=? off) && (off + Z.of_nat (length bs) <=? Z.of_nat (length buf))) eqn:E; [|done].
  zbool. intros [= <-]. rewrite !length_app, length_take, length_drop. lia.
Qed.

Ltac stable_step :=
  lazymatch goal with
  | |- stable (bind (tty_get buffers _) _) => apply stable_get_buffer; intros ? ?
  | |- stable (bind (tty_get bytes_available _) _) => apply stable_get_bytes; intros ? ?
  | |- stable (bind (demand _) _) => apply stable_demand; intros ? ?
  | |- stable (bind _ _) => apply stable_bind; [|intros ?]
  | |- stable (if ?b then _ else _) => destruct b eqn:?
  | |- stable (match ?x with _ => _ end) => destruct x eqn:?
  | |- stable (tty_set write_queues _ _) => apply stable_set_queues
  | |- stable (tty_set availability _ _) => apply stable_set_avail
  | |- stable (tty_set curr_writers _ _) => apply stable_set_writers
  | |- stable (tty_set curr_readers _ _) => apply stable_set_readers
  | |- stable (tty_set buffers _ _) => apply stable_set_buffers
  | |- stable (tty_set bytes_available _ _) => apply stable_set_bytes
  | |- stable (ScheduleNextProcess _) => apply stable_frame, schedule_tty
  | |- stable _ => apply stable_frame; solve [frame_tty]
  end; cbv beta zeta.

Lemma zeros_line : Z.of_nat (length (zeros TERMINAL_MAX_LINE)) = TERMINAL_MAX_LINE.
Proof. apply length_zeros. destruct hw_terminals. lia. Qed.

Lemma stable_consume buf i n : stable (tty_buffer_consume buf i n).
Proof.
  unfold tty_buffer_consume. repeat stable_step; zbool; try lia; try apply zeros_line.
  all: match goal with H : splice _ _ _ = Some _ |- _ => by rewrite (splice_length _ _ _ _ H), zeros_line end.
Qed.

Lemma stable_receive_one i n p : stable (receive_one i n p).
Proof. unfold receive_one. repeat stable_step. Qed.

Lemma stable_receive_loop i n nodes mx : stable (receive_loop i n nodes mx).
Proof.
  revert mx. induction nodes as [|[k p] nodes IH]; intros mx; cbn [receive_loop]; [stable_step|].
  destruct (p =? NULL); [apply IH|]. apply stable_bind; [apply stable_receive_one|]. intros [m|]; [apply IH|stable_step].
Qed.

Lemma stable_handle_received i n : stable (tty_handle_received i n).
Proof.
  unfold tty_handle_received.
  repeat first [apply stable_consume | apply stable_receive_loop | stable_step]; zbool; lia.
Qed.

Lemma stable_chunk_loop i bs len start : stable (tty_chunk_loop i bs len start).
Proof. unfold tty_chunk_loop, tty_write_finish. repeat stable_step. Qed.

Lemma stable_write_loop i buf len : stable (tty_write_loop i buf len).
Proof.
  unfold tty_write_loop. repeat first [apply stable_chunk_loop | stable_step].
Qed.

Lemma stable_op o : stable (run_tty_op o).
Proof.
  destruct o; cbn [run_tty_op].
  - unfold TrapTTYReceiveHandler. repeat first [apply stable_handle_received | stable_step].
    match goal with H : splice _ _ _ = Some _ |- _ => by rewrite (splice_length _ _ _ _ H) end.
  - unfold TrapTTYTransmitHandler. repeat stable_step.
  - unfold TtyReadHandler. repeat first [apply stable_consume | stable_step].
  - unfold tty_read_resume. repeat stable_step.
  - unfold TtyWriteHandler. repeat first [apply stable_write_loop | stable_step].
  - apply stable_write_loop.
  - apply stable_chunk_loop.
Qed.
End Stable.

(** ** The initial state *)

Section Init.
Context {hw : Hardware}.

(** The first [n] terminals of a fresh state. *)
Record tty_fresh (n : nat) (t : tty_state_t) : Prop := {
  tf_lengths : length (write_queues t) = n /\ length (availability t) = n /\ length (curr_writers t) = n /\
    length (curr_readers t) = n /\ length (buffers t) = n /\ length (bytes_available t) = n;
  tf_avail : Forall (fun a => a = 1) (availability t);
  tf_writers : Forall (fun w => w = NULL) (curr_writers t);
  tf_bytes : Forall (fun k => k = 0) (bytes_available t);
  tf_line : Forall (fun b => Z.of_nat (length b) = TERMINAL_MAX_LINE) (buffers t) }.

Lemma tty_fresh_add n t rs q : tty_fresh n t -> tty_fresh (S n) (add_terminal t rs q).
Proof.
  intros [(H1 & H2 & H3 & H4 & H5 & H6) Ha Hw Hb Hl]. split; unfold add_terminal; simpl.
  - rewrite !length_app. simpl. split_and!; lia.
  - apply Forall_app. by repeat constructor.
  - apply Forall_app. by repeat constructor.
  - apply Forall_app. by repeat constructor.
  - apply Forall_app. split; [done|]. constructor; [|done]. rewrite length_replicate.
    destruct hw_terminals. lia.
Qed.

Lemma init_terminals_run n k t s :
  tty_fresh k t -> exists r s', init_terminals n t s = Ok r s' /\ s' = s <| mallocs := mallocs s' |> /\
    (mem_ok s -> is_Some r) /\ forall t', r = Some t' -> tty_fresh (k + n) t'.
Proof.
  revert k t s. induction n as [|n IH]; intros k t s Hf; cbn [init_terminals].
  - exists (Some t), s. split_and!; [done|by destruct s|by eexists|]. intros t' [= <-]. by rewrite Nat.add_0_r.
  - unfold set_new, queue_new. rewrite bind_assoc. erewrite bind_Ok by reflexivity. erewrite bind_Ok by reflexivity.
    erewrite bind_Ok by reflexivity. cbv beta.
    destruct (malloc_at _ (mallocs _) =? NULL) eqn:En.
    + eexists None, _. split_and!; [reflexivity|by kst_eq s| |done].
      intros Hm. apply Z.eqb_eq in En. by destruct (Hm _ En).
    + rewrite bind_assoc. erewrite bind_Ok by reflexivity. erewrite bind_Ok by reflexivity.
      edestruct (IH (S k)) as (r & s' & E & Es & Hs & Ht); [by apply tty_fresh_add|].
      exists r, s'. split_and!; [exact E| | |].
      * rewrite Es. by kst_eq s.
      * intros Hm. by apply Hs.
      * intros t' Ht'. rewrite <- Nat.add_succ_comm. by apply Ht.
Qed.

Lemma tty_fresh_wf t : tty_fresh (Z.to_nat NUM_TERMINALS) t -> tty_wf t.
Proof.
  intros [(H1 & H2 & H3 & H4 & H5 & H6) _ _ Hb Hl]. destruct hw_terminals. split; try lia; [done|].
  eapply Forall_impl; [exact Hb|]. intros n ->. lia.
Qed.

Lemma tty_state_init_run s :
  exists r s', tty_state_init s = Ok r s' /\ s' = s <| mallocs := mallocs s' |> /\
    (mem_ok s -> is_Some r) /\ forall t, r = Some t -> tty_fresh (Z.to_nat NUM_TERMINALS) t.
Proof.
  unfold tty_state_init.
  assert (Hl : forall n, exists r s1, for_each (range_up (7 - Z.of_nat n) 7) (fun _ : Z =>
      a <- malloc ;; ret (if a =? NULL then Some tt else None)) s = Ok r s1 /\
      s1 = s <| mallocs := mallocs s1 |> /\ (mem_ok s -> r = None)).
  { intros n. revert s. induction n as [|n IH]; intros s.
    - rewrite range_up_nil by lia. exists None, s. by split_and!; [|destruct s|].
    - rewrite range_up_cons by lia. cbn [for_each]. rewrite bind_assoc. erewrite bind_Ok by reflexivity.
      erewrite bind_Ok by reflexivity. destruct (malloc_at s (mallocs s) =? NULL) eqn:En.
      + eexists (Some tt), _. split_and!; [reflexivity|by kst_eq s|]. intros Hm. apply Z.eqb_eq in En.
        by destruct (Hm _ En).
      + replace (7 - Z.of_nat (S n) + 1) with (7 - Z.of_nat n) by lia.
        destruct (IH (s <| mallocs ::= S |>)) as (r & s1 & E & Es & Hm). exists r, s1.
        split_and!; [exact E|rewrite Es; by kst_eq s|]. intros H. by apply Hm. }
  destruct (Hl 7%nat) as (r & s1 & E & Es & Hm). rewrite (bind_Ok _ _ _ _ _ E). destruct r as [[]|].
  - exists None, s1. split_and!; [done|done| |done]. by intros H%Hm.
  - destruct (init_terminals_run (Z.to_nat NUM_TERMINALS) 0 (mk_tty [] [] [] [] [] []) s1)
      as (r & s' & E' & Es' & Hs & Ht); [by split|].
    exists r, s'. split_and!; [exact E'| | |exact Ht].
    + rewrite Es', Es. by kst_eq s.
    + intros H. apply Hs. by rewrite Es.
Qed.

(** C9: the type of the terminal state: [tty_state_init] returns, and unless a
    [malloc] fails it builds a state of that type in which every terminal is
    available, has no writer and no unread byte; from then on every sequence
    of terminal operations (reads, writes, their resumptions, and the two
    terminal traps), with any arguments, ends in a state of that type if it
    ends: six arrays of [NUM_TERMINALS] entries, line buffers of
    [TERMINAL_MAX_LINE] bytes, and counts between 0 and that length. *)
Theorem tty_state_typed s :
  exists r s0, tty_state_init s = Ok r s0 /\ (mem_ok s -> is_Some r) /\
    (forall t, r = Some t -> tty_fresh (Z.to_nat NUM_TERMINALS) t /\ tty_wf t) /\
    forall l, wlp (run_tty_ops l) (fun _ s' => tty_inv s') (s0 <| current_tty_state := r |>).
Proof.
  destruct (tty_state_init_run s) as (r & s0 & E & _ & Hm & Hf). exists r, s0.
  assert (Hwf : forall t, r = Some t -> tty_wf t) by (intros t Ht; by apply tty_fresh_wf, Hf).
  split_and!; [done|done|intros t Ht; split; [by apply Hf|by apply Hwf]|].
  intros l. assert (Hinv : tty_inv (s0 <| current_tty_state := r |>)) by (intros t Ht; by apply Hwf).
  revert Hinv. generalize (s0 <| current_tty_state := r |>). induction l as [|o l IH]; intros s1 Hinv; [done|].
  cbn [run_tty_ops]. apply wp_bind. eapply wp_mono; [by apply stable_op|]. intros k s2 Hs2. by apply IH.
Qed.
End Init.
