(* ===== verification/Boot.v ===== *)
(** * Boot ([kernel.c], KernelStart)

    From the first instruction of the kernel to the first user instruction of
    init: memory ([Memory.KernelStart_memory]), the queues and sets, the trap
    vector, the idle and the init process, IPC and terminals.  [DoIdle] is the
    address of the idle loop. *)

From S2P Require Import Prelude Hardware Containers KState Memory Pcb Sched Ipc Pipe Sync Tty.
From S2P Require Import Process Fork Loader Traps.
From stdpp Require Import list gmap fin_maps.
From Stdlib Require Import Strings.Byte.

#[local] Open Scope Z_scope.

Section Defs.
Context {hw : Hardware}.

(** The number of arguments before the NULL pointer. *)
Fixpoint count_args (fuel : nat) (cmd_args : ptr) : M kst Z :=
  match fuel with
  | O => undef
  | S fuel' =>
      arg <- load_word cmd_args ;;
      if arg =? NULL then ret 0 else
      n <- count_args fuel' (cmd_args + 4) ;;
      ret (n + 1)
  end.
Definition count_cmd_args (cmd_args : ptr) : M kst Z :=
  count_args (Z.to_nat (VMEM_1_LIMIT - cmd_args)) cmd_args.

(** The string ["init"]. *)
Definition default_init_name : list byte := [x69; x6e; x69; x74].

Definition init_name (cmd_args : ptr) : M kst (list byte) :=
  num_args <- count_cmd_args cmd_args ;;
  if num_args >? 0 then arg <- load_word cmd_args ;; load_string arg
  else ret default_init_name.

(** Idle's region 1: the top page is its stack. *)
Definition idle_pages (frame : Z) : option (list pte) :=
  arr_set invalid_table (NUM_PAGES - 1) (mk_pte true (Z.lor PROT_READ PROT_WRITE) frame).

(** The queues and sets of processes, and the interrupt vector. *)
Definition start_queues : M kst unit :=
  q <- queue_new ;; modify (fun s => s <| process_ready_queue := q |>) ;;;
  b <- set_new ;; modify (fun s => s <| blocked_pcbs := b |>) ;;;
  d <- set_new ;; modify (fun s => s <| dead_pcbs := d |>) ;;;
  modify (fun s => s <| current_process := NULL |>) ;;;
  RegisterTrapHandlers ;;;
  d <- set_new ;; modify (fun s => s <| delayed_pcbs := d |>).

(** The idle process; [false] when [KernelStart] returns early. *)
Definition start_idle (DoIdle : ptr) : M kst bool :=
  f <- pop_from free_frame_queue ;;
  match f with
  | None => ret false
  | Some f =>
      idle_stack_frame_1 <- deref_frame f ;;
      table <- malloc ;;
      if table =? NULL then ret false else
      pages <- demand (idle_pages idle_stack_frame_1) ;;
      idle_pid <- take_pid ;;
      modify (fun s => s <| user_context ::= fun uc => uc <| uc_pc := DoIdle |> <| uc_sp := VMEM_1_LIMIT - 4 |> |>) ;;;
      kernel_ctx <- malloc ;;
      if kernel_ctx =? NULL then ret false else
      uc <- gets user_context ;;
      idle <- pcbNew idle_pid (Some pages) None NULL (Some uc) (Some (mk_kctx kernel_ctx None)) ;;
      modify (fun s => s <| idle_process := idle |>) ;;;
      f1 <- pop_from free_frame_queue ;;
      f2 <- pop_from free_frame_queue ;;
      f1 <- demand f1 ;;
      f2 <- demand f2 ;;
      set_stack_page idle 0 f1 ;;;
      set_stack_page idle 1 f2 ;;;
      ret true
  end.

(** The init process, without its program. *)
Definition start_init : M kst bool :=
  table <- malloc ;;
  if table =? NULL then ret false else
  init_pid <- take_pid ;;
  uc <- gets user_context ;;
  kernel_ctx <- malloc ;;
  init <- pcbNew init_pid (Some invalid_table) None NULL (Some uc)
            (if kernel_ctx =? NULL then None else Some (mk_kctx kernel_ctx None)) ;;
  modify (fun s => s <| init_process := init |>) ;;;
  ret true.

(** The end of [KernelStart]: init's program, the terminals, and the copy of
    the running kernel context for idle. *)
Definition start_user (name : list byte) (cmd_args : ptr) : M kst kont :=
  init <- gets init_process ;;
  rc <- LoadProgram name cmd_args init ;;
  if negb (rc =? 0) then halt else
  t <- tty_state_init ;;
  modify (fun s => s <| current_tty_state := t |>) ;;;
  modify (fun s => s <| current_process := init |>) ;;;
  idle <- gets idle_process ;;
  KCCopy K_boot idle.

(** [K_user] when it returns early, otherwise [K_boot], which copies init's
    context to the hardware ([Traps.resume]).  [hb] is the growth of the heap
    while the free frame queue is built ([Memory.boot_malloc]). *)
Definition KernelStart (hb : nat -> option ptr) (DoIdle cmd_args : ptr) (pmem_size : Z) : M kst kont :=
  modify (fun s => s <| virtual_mem_enabled := 0 |>) ;;;
  KernelStart_memory hb pmem_size ;;;
  modify (fun s => s <| virtual_mem_enabled := 1 |>) ;;;
  start_queues ;;;
  idle_ok <- start_idle DoIdle ;;
  if negb idle_ok then ret K_user else
  w <- ipc_wrapper_init ;;
  modify (fun s => s <| ipc_wrapper := w |>) ;;;
  name <- init_name cmd_args ;;
  init_ok <- start_init ;;
  if negb init_ok then ret K_user else
  start_user name cmd_args.
End Defs.

Section Facts.
Context {hw : Hardware}.

(** Idle's PCB: READY, not started, with the frame [f0] as user stack and
    [f1], [f2] as kernel stack. *)
Record idle_pcb (DoIdle pid f0 f1 f2 : Z) (uc : UserContext) (v : pcb_t) : Prop := {
  ip_pid : p_pid v = pid;
  ip_state : p_state v = READY;
  ip_parent : p_parent v = NULL;
  ip_uctx : p_usr_ctx v = Some uc;
  ip_pc : uc_pc uc = DoIdle;
  ip_sp : uc_sp uc = VMEM_1_LIMIT - 4;
  ip_table : exists pt, p_page_table v = Some pt /\ Z.of_nat (length pt) = NUM_PAGES /\ mapped pt = [f0] /\
    arr_get pt (NUM_PAGES - 1) = Some (mk_pte true prot_rw f0);
  ip_stack : p_kernel_stack_pages v = Some [mk_pte true prot_rw f1; mk_pte true prot_rw f2];
  ip_kctx : exists a, p_krn_ctx v = Some (mk_kctx a None) }.

Lemma idle_pages_run f :
  exists pt, idle_pages f = Some pt /\ Z.of_nat (length pt) = NUM_PAGES /\ mapped pt = [f] /\
    arr_get pt (NUM_PAGES - 1) = Some (mk_pte true prot_rw f).
Proof.
  pose proof NUM_PAGES_ge_4. pose proof length_invalid_table as Hl. unfold idle_pages.
  rewrite arr_set_Some by lia. eexists. split; [reflexivity|]. split_and!.
  - by rewrite length_insert.
  - destruct (lookup_lt_is_Some_2 invalid_table (Z.to_nat (NUM_PAGES - 1))) as [e He]; [lia|].
    pose proof (mapped_insert _ _ e (mk_pte true prot_rw f) He) as Hm.
    rewrite (mapped_cons e), (invalid_table_invalid _ _ He), mapped_invalid_table, app_nil_r in Hm.
    by apply Permutation_singleton_r in Hm.
  - apply arr_get_insert_eq. lia.
Qed.

(** Two frames become the kernel stack of a process. *)
Lemma kernel_stack_run {A} p v x y f1 f2 (k : M kst A) s :
  pcbs s !! p = Some v -> p_kernel_stack_pages v = Some [x; y] ->
  (set_stack_page p 0 (FrameCell f1) ;;; set_stack_page p 1 (FrameCell f2) ;;; k) s =
    k (s <| pcbs ::= <[p := v <| p_kernel_stack_pages :=
         Some [mk_pte true prot_rw f1; mk_pte true prot_rw f2] |>]> |>).
Proof.
  intros Hv Hk. rewrite (bind_Ok _ _ _ _ _ (set_stack_page_run p v [x; y] 0 f1 s Hv Hk ltac:(simpl; lia))).
  erewrite bind_Ok by (eapply (set_stack_page_run p _ [mk_pte true prot_rw f1; y]);
    [apply lookup_insert_eq|done|simpl; lia]).
  f_equal. kst_eq s. by rewrite insert_insert_eq.
Qed.

(** C32: with three free frames and memory left, [KernelStart] makes the idle
    process: a fresh pid, READY, with the context of the idle loop and its
    stack pointer below the top of region 1, region 1 mapped to the first frame
    at the top page only, and a kernel stack in the next two, which leave the
    free queue.  The only other changes are to the pids in use, the number of
    allocated blocks, and the pc and sp of the user context of the hardware. *)
Theorem start_idle_makes_idle DoIdle s q f0 f1 f2 fs :
  let p := malloc_at s (S (S (mallocs s))) in
  mem_ok s -> free_frame_queue s = Some q -> q_data q = FrameCell <$> f0 :: f1 :: f2 :: fs ->
  pcbs s !! p = None ->
  exists s' v pid, start_idle DoIdle s = Ok true s' /\
    s' = s <| pcbs := <[p := v]> (pcbs s) |> <| idle_process := p |>
           <| free_frame_queue := free_frame_queue s' |> <| mallocs := mallocs s' |> <| pids := pids s' |>
           <| user_context := user_context s <| uc_pc := DoIdle |> <| uc_sp := VMEM_1_LIMIT - 4 |> |> /\
    idle_pcb DoIdle pid f0 f1 f2 (user_context s') v /\
    pid_in_use (pids s) pid = false /\
    (forall i, pid_in_use (pids s') i = (i =? pid) || pid_in_use (pids s) i) /\
    free_frames s' = fs.
Proof.
  intros p Hm Hq Hd Hp. unfold start_idle.
  destruct (pop_frame_run s q f0 (f1 :: f2 :: fs) Hq Hd) as (q1 & E1 & Hq1). rewrite (bind_Ok _ _ _ _ _ E1).
  cbn [deref_frame]. erewrite bind_Ok by reflexivity. unfold malloc at 1. erewrite bind_Ok by reflexivity.
  change (malloc_at _ _ =? NULL) with (malloc_at s (mallocs s) =? NULL).
  rewrite (proj2 (Z.eqb_neq _ NULL) (Hm _)).
  destruct (idle_pages_run f0) as (pt & -> & Hpt). erewrite bind_Ok by reflexivity.
  rewrite (bind_Ok _ _ _ _ _ (take_pid_run _)). erewrite bind_Ok by reflexivity.
  unfold malloc at 1. erewrite bind_Ok by reflexivity.
  change (malloc_at _ _ =? NULL) with (malloc_at s (S (mallocs s)) =? NULL).
  rewrite (proj2 (Z.eqb_neq _ NULL) (Hm _)). erewrite bind_Ok by reflexivity.
  set (pid := (helper_new_pid (pids _)).1). set (kc := Some (mk_kctx _ None)).
  match goal with |- context [bind (pcbNew _ _ _ _ _ _) _ ?st] => set (s1 := st) end.
  destruct (pcbNew_run pid pt NULL (user_context s1) kc s1) as (k & v & En & Hv);
    [exact Hm|exact Hp|by intros ? [= <-]|].
  change (malloc_at s1 (mallocs s1)) with p in En.
  rewrite (bind_Ok _ _ _ _ _ En). erewrite bind_Ok by reflexivity.
  match goal with |- context [bind (pop_from _) _ ?st] => set (s2 := st) end.
  destruct (pop_frame_run s2 q1 f1 (f2 :: fs)) as (q2 & E2 & Hq2); [done|exact Hq1|].
  rewrite (bind_Ok _ _ _ _ _ E2).
  destruct (pop_frame_run (s2 <| free_frame_queue := Some q2 |>) q2 f2 fs) as (q3 & E3 & Hq3); [done|exact Hq2|].
  rewrite (bind_Ok _ _ _ _ _ E3). erewrite bind_Ok by reflexivity. erewrite bind_Ok by reflexivity.
  rewrite (kernel_stack_run p v uninit_pte uninit_pte); [|apply lookup_insert_eq|apply Hv].
  eexists _, _, pid. split; [reflexivity|]. split.
  { unfold s2, s1. kst_eq s. cbn [fst snd]. by rewrite insert_insert_eq. }
  pose proof (hw_new_pid (pids s)) as Hpid. destruct (helper_new_pid (pids s)) as [pid' ps'] eqn:Eh.
  assert (pid = pid') as -> by (unfold pid; simpl; by rewrite Eh).
  split_and!; [|apply Hpid| |unfold free_frames; simpl; by rewrite Hq3, frame_pfns_cells].
  - destruct Hv. split; try done. by exists pt.
  - simpl. rewrite Eh. apply Hpid.
Qed.
End Facts.

(** ** Witnesses on the demo machine *)
Section Witnesses.
Import DemoHardware Demo.

Definition demo_boot : kst := blank
  <| free_frame_queue := Some (mk_queue [(0, FrameCell 5); (1, FrameCell 6); (2, FrameCell 7)] 3 3) |>.

Lemma start_idle_makes_idle_witness :
  exists s' v pid, start_idle 3000 demo_boot = Ok true s' /\ idle_pcb 3000 pid 5 6 7 (user_context s') v /\
    free_frames s' = [].
Proof.
  destruct (start_idle_makes_idle 3000 demo_boot (mk_queue [(0, FrameCell 5); (1, FrameCell 6); (2, FrameCell 7)] 3 3)
    5 6 7 []) as (s' & v & pid & E & _ & H1 & _ & _ & H2); [by apply demo_mem_ok|reflexivity..|].
  exact (ex_intro _ s' (ex_intro _ v (ex_intro _ pid (conj E (conj H1 H2))))).
Defined.
End Witnesses.
